(* ===== verification/_CoqProject ===== *)
-Q . S2P
Prelude.v
CString.v
StringTable.v
HashMap.v
CommandParser.v
Config.v
Security.v
Connection.v
System.v
SmallSystem.v
Control.v
ServerState.v
Startup.v
DataHandler.v
Calendar.v
Auth.v
Ipc.v
IpcLink.v
Dele.v
FileTree.v
Listing.v
Retr.v
Stor.v
Actions.v
Dispatch.v
Session.v
Scenario.v
Transfers.v
Downloads.v
Login.v
Replies.v
Safety.v
Typing.v
Descriptors.v
Progress.v
Idle.v
Logger.v
Hexdump.v
