(* ===== verification/Prelude.v ===== *)
(** * CFTP server: a verification library

    The repository is an FTP server in C on libevent and OpenSSL.  A
    listening process, running as root, accepts control connections and forks
    a child for each; the child parses commands, authenticates the user
    against the shadow database, confines itself with chroot and setuid, and
    serves files over passive data connections.  A child that needs the name
    of a user or group asks the listening process over a socket pair.

    ** How the program is modelled

    A C function is an executable Rocq function of the same name.  Code that
    computes on values only returns its result, or an [outcome] when it can
    dereference a wild pointer ([Undefined]) or not return ([Hang]).  Code
    that talks to the kernel, libevent, OpenSSL or the user databases is a
    handler of the [act] monad (System.v): state passing over the connection
    record, an abstract system behind the class [Sys] (one typed question and
    answer per call), a ledger of the libevent handles that are live, and the
    trace of the calls made.  A NULL or freed handle that is used is
    [Undefined].  Machine integers are [Z] with their wrap-around written out;
    buffers keep their sizes, and a text that is too long is cut where the C
    code cuts it.  Logging is left out of the handlers.

    ** Files

    - Prelude.v (this file): outcomes, integers, floats as rounded integers,
      list lemmas, tactics.
    - CString.v: strings, character classes, decimal input and output as the
      C library does them; trim_* of config_manager.c.
    - StringTable.v: the interface (class [StringTable], laws
      [StringTableSpec]) the command registry needs; HashMap.v: the table of
      src/core/structures/hashmap.c on a heap of linked cells, its refinement
      of finite maps, and the instance of the interface.
    - CommandParser.v: parse_text_command of src/engine/command_parser.c.
    - Config.v: src/config_manager/config_manager.c, over a file system given
      by the class [ConfigFS] and its laws.
    - Security.v: src/security/security.c.  Auth.v: src/security/auth.c.
    - Connection.v: connection_t of src/core/connection.h.  System.v: calls,
      ledger, monad, and the rule [keeps] for relations that every step of a
      handler respects.  SmallSystem.v: a concrete system for examples.
    - Control.v: src/engine/control_handler.c, src/engine/ftp_status_codes.h
      and disable_connection_cb.
    - ServerState.v: the listening process (src/core/server_state.c, the
      parent's side of control_connection_accept_cb in src/core/connection.c,
      the socket pair callbacks of src/ipc/interprocess_handler.c).
      Startup.v: main (src/engine/main.c) from the signal handler to the
      release of the global objects, and the reaping of children.
    - DataHandler.v: src/engine/data_handler.c and fill_source_ip.
    - Calendar.v: gmtime and strftime as MDTM uses them, with the inverse.
    - Ipc.v: names for ids, both ends as one question and one answer
      (src/ipc/interprocess_handler.c, execute_root_command), and the child's
      end of the socket pair as a handle of the ledger: its registration, its
      uses by ask_custom_command, and event_cb, which frees it when the
      listening process ends.  IpcLink.v: the socket pair under the question,
      with the child's nested event loop.
    - Dele.v, Listing.v, Retr.v, Stor.v, Actions.v: src/actions/dele.c,
      list.c, retr.c, stor.c, command_actions.c, one definition per handler.
      FileTree.v: DELE on a tree of files (class [TreeFS]).
    - Dispatch.v: the table of commands (src/actions/command_actions.h), its
      registration and execute_ftp_command, over any [StringTable].
    - Session.v: the child's process.  [start_session] is
      control_connection_accept_cb from the fork on (src/core/connection.c):
      [child_side] closes the inherited descriptors it does not need, registers
      the socket pair and calls start_control_connection_loop; when that
      returns early the child goes on with [parent_side], as the code does.
      An event is a callback libevent may run; [session] is reachability from
      the set-up with an environment that may change between events.  Scenario.v: sessions played on the small system.
    - Transfers.v: RETR, STOR and NLST from the command to the end.
      Downloads.v: the same of RETR on a protected data connection.
      Login.v, Replies.v, Safety.v, Typing.v, Descriptors.v, Progress.v,
      Idle.v: theorems about whole sessions.
    - Logger.v: src/core/logger.c and the macros of src/core/error.h.
      Hexdump.v: hexdump of src/core/error.c.

    ** What the theorems show

    - Sessions: neither the set-up nor a callback uses a NULL or freed handle
      or frees one twice (Safety.v), the end of the socket pair included, with
      two exceptions that are proved to be real ([tls_listing_race],
      [error_after_empty_listing]): the race of a protected LIST, and an error
      reported together with the end of a handshake after an empty listing;
      the pointers of the connection record agree with the ledger in
      every reachable state; no file is touched between the set-up and a login, and a
      login is the whole sequence of checks and confinement (Login.v, Auth.v);
      the commands other than RETR, LIST and NLST write exactly one reply on the
      control connection and nothing on any other, and those that filter paths
      make only the calls of their command, on filtered paths, the listing put
      off to a handshake included (Replies.v); DELE removes nothing outside its target (Dele.v), and on
      files nobody else uses exactly its target (FileTree.v); from every state
      before a login a client with an account can log in, and the timer of an
      earlier passive command closes the listener of a later one (Progress.v);
      a client that does not log in is cut off (Idle.v); the fields of the
      connection record stay within the C types (Typing.v); every descriptor
      is used between the call that returns it and the call that gives it up,
      so none is closed twice, in a session whose set-up reached the event loop;
      after a set-up that failed the child does misuse descriptors
      ([failed_start_misuses_descriptors]) (Descriptors.v).
    - The server: whatever the configuration file holds, main listens on the
      configured port or exits with an error, and serves at most
      max_connections clients in its life (Startup.v, ServerState.v).
    - Refinement: the hash table implements a finite map, keeps its load
      bound and releases every cell once; execute_ftp_command is the direct
      look-up in the array of commands (HashMap.v, Dispatch.v).
    - Transfers: a RETR or STOR on any data connection and a plain NLST, with
      all callbacks that follow the command, moves the right bytes, writes 150
      and 226 and frees the data connection; a protected NLST does so at the
      end of the handshake, and never if that was over before the command
      (Transfers.v, Downloads.v).
    - The socket pair: every sequence of questions gets the names the handlers
      are proved against, if no name has more than 254 bytes; what happens
      when one has, when no answer comes and when the parent ends (IpcLink.v).
    - Round trips: quoting and parsing of commands, the 227/229 replies, MDTM
      times, permission strings, the seeded configuration file.
    - Bounds and errors: parser and reply buffers, the log buffer,
      configuration values for every input file, the passive port range,
      atomic seeding of the default file.
    - Termination: the passive port loop, the recursive deletion and the
      buffer-growing loop end under stated conditions; the port loop does not
      without them, and the recursive deletion, which keeps a directory stream
      open per level, ends with "Failed to delete." when the nesting is deeper
      than the descriptors the process has left
      ([dele_runs_out_of_descriptors]).

    ** Fuel

    Loops that are not structural take fuel and answer [Hang] without it.
    [bind_loop]: one unit per port and one more ([passive_listener_reply]);
    [delete_directory_recursively]: one per level of directories
    ([dele_terminates]), so PATH_MAX is always enough on a tree of files
    ([dele_is_prune]); [drain]: one more than the bytes pending
    ([upload_is_complete]); [openssl_errors]: one more than the errors OpenSSL
    has queued on the connection; [pump]: the bytes of the file.  The fuel of
    [session] is a parameter; theorems over sessions hold for every value,
    [Hang] being an event that does not return.  A STOR needs one unit more
    than the bytes sent ([stor_conversation]); [sigchld_handler] one more than
    the children that ended.  [nested_loop] follows a list of events, [Hang]
    being a child that still waits at its end.  The chains of the hash table
    use the size of the heap; [year_loop] takes 400 years of one era.

    ** Not modelled

    - The initialisation calls of OpenSSL in src/engine/main.c, the release
      of the connection after the loop of a child, which exits at once, and
      get_random_unused_port (unused): plain calls into libraries.  The
      creation of event bases, and what a child whose set-up failed does in the
      listening process's loop after [parent_side].
    - The bytes on the socket pair inside [session]: there a question is one
      call with any answer ([CAskRoot]), or with none when the listening process
      ended; IpcLink.v justifies the answers.
    - TLS itself, libevent's buffering and scheduling: [Sys] answers for them,
      and any order of callbacks on live objects is allowed.  A reply [Ok] of a
      call is not tied to earlier ones except where a theorem states the law
      it needs (classes [Reliable], [FileReads], [Uploads], [TreeFS], [Account],
      [ConfigFSLaws]).
    - Signals other than SIGCHLD, and memory for objects other than the hash
      table's cells and libevent's handles. *)

From Stdlib Require Export ZArith Lia Bool Ascii String.
From stdpp Require Export base tactics option list numbers gmap strings.
From stdpp Require Import options.

#[global] Set Default Goal Selector "!".
#[global] Arguments String.append !_ _ / : simpl nomatch.

(** ** Outcomes of C code

    A C function either returns, runs into undefined behaviour (a NULL or
    dangling pointer is dereferenced, an object is freed twice, a signed
    integer overflows) or does not return.  [Hang] is what a loop answers
    when the fuel given to it is used up; the theorems about loops say which
    fuel is enough or that none is. *)
Inductive outcome (A : Type) : Type :=
  | Ok (a : A)
  | Undefined
  | Hang.
Arguments Ok {A} _.
Arguments Undefined {A}.
Arguments Hang {A}.

#[export] Instance outcome_ret : MRet outcome := fun A a => Ok a.
#[export] Instance outcome_bind : MBind outcome := fun A B f m =>
  match m with Ok a => f a | Undefined => Undefined | Hang => Hang end.

(** Reading through a pointer: [None] is NULL or dangling. *)
Definition deref {A} (o : option A) : outcome A :=
  match o with Some a => Ok a | None => Undefined end.

Lemma deref_Some {A} (o : option A) (a : A) : o = Some a -> deref o = Ok a.
Proof. by intros ->. Qed.

Lemma bind_Ok {A B} (m : outcome A) (f : A -> outcome B) (b : B) :
  m ≫= f = Ok b <-> exists a, m = Ok a /\ f a = Ok b.
Proof. split; [destruct m; naive_solver | by intros (a & -> & ?)]. Qed.

Lemma Ok_bind {A B} (a : A) (f : A -> outcome B) : Ok a ≫= f = f a.
Proof. done. Qed.

Lemma deref_Some_bind {A B} (o : option A) (a : A) (f : A -> outcome B) :
  o = Some a -> deref o ≫= f = f a.
Proof. by intros ->. Qed.

Lemma Ok_inj {A} (a b : A) : Ok a = Ok b -> a = b.
Proof. by intros [=]. Qed.

(** ** Machine integers *)

Definition INT_MAX : Z := 2147483647.
Definition INT_MIN : Z := -2147483648.
Definition LONG_MAX : Z := 9223372036854775807.
Definition LONG_MIN : Z := -9223372036854775808.
Definition two16 : Z := 65536.
Definition two32 : Z := 4294967296.
Definition two64 : Z := 18446744073709551616.

(** Conversion to an unsigned type of the given modulus. *)
Definition u16 (n : Z) : Z := n mod two16.
Definition u32 (n : Z) : Z := n mod two32.
Definition u64 (n : Z) : Z := n mod two64.

Lemma u16_id n : (0 <= n < two16)%Z -> u16 n = n.
Proof. apply Z.mod_small. Qed.
Lemma u32_id n : (0 <= n < two32)%Z -> u32 n = n.
Proof. apply Z.mod_small. Qed.
Lemma u64_id n : (0 <= n < two64)%Z -> u64 n = n.
Proof. apply Z.mod_small. Qed.
Lemma u64_range n : (0 <= u64 n < two64)%Z.
Proof. by apply Z.mod_pos_bound. Qed.

(** Rounding of a non-negative integer to a binary floating point number
    with [p] significant bits (round to nearest, ties to even); no value in
    the program reaches the exponent limits, so the exponent is unbounded. *)
Definition round_bits (p : Z) (n : Z) : Z :=
  let e := Z.max 0 (Z.log2 n + 1 - p) in
  let q := (n / 2 ^ e)%Z in
  let r := (n mod 2 ^ e)%Z in
  let half := (2 ^ e / 2)%Z in
  let up := (half <? r)%Z || ((half =? r)%Z && Z.odd q && (0 <? e)%Z) in
  ((if up then q + 1 else q) * 2 ^ e)%Z.

Definition round32 : Z -> Z := round_bits 24.

Lemma round_bits_exact p n : (1 <= p)%Z -> (0 <= n < 2 ^ p)%Z -> round_bits p n = n.
Proof.
  intros Hp Hn. unfold round_bits.
  assert (Z.log2 n + 1 - p <= 0)%Z as Hlog.
  { destruct (decide (n = 0)%Z) as [->|].
    - change (Z.log2 0) with 0%Z. lia.
    - assert (Z.log2 n < p)%Z; [apply Z.log2_lt_pow2; lia | lia]. }
  rewrite Z.max_l by lia. change (2 ^ 0)%Z with 1%Z.
  rewrite Z.div_1_r, Z.mod_1_r. simpl.
  rewrite andb_false_r. lia.
Qed.

Lemma round32_exact n : (0 <= n < 16777216)%Z -> round32 n = n.
Proof. intros. by apply round_bits_exact. Qed.

(** ** Generic list lemmas *)

Lemma Forall2_insert_lr {A B} (P : A -> B -> Prop) l k i x y :
  Forall2 P l k -> P x y -> Forall2 P (<[i:=x]> l) (<[i:=y]> k).
Proof. intros H HP. revert i. induction H; intros [|i]; simpl; eauto. Qed.

Lemma concat_insert_split {A} (ls : list (list A)) i l l' :
  ls !! i = Some l ->
  exists pre post,
    concat ls = pre ++ l ++ post /\ concat (<[i:=l']> ls) = pre ++ l' ++ post.
Proof.
  revert i. induction ls as [|x ls IH]; intros [|i] Hi; simplify_eq/=.
  - by exists [], (concat ls).
  - destruct (IH i Hi) as (pre & post & -> & ->).
    exists (x ++ pre), post. by rewrite !app_assoc.
Qed.

(** ** Automation *)

Create HintDb cftp.
#[export] Hint Resolve deref_Some : cftp.

(** Case analysis on every [match] and [if] of the goal. *)
Ltac cases := repeat (case_match || case_decide || case_bool_decide); simplify_eq/=.

(** Inversion of a computation in [outcome] known to return. *)
Ltac inv_ok :=
  repeat match goal with
  | H : _ ≫= _ = Ok _ |- _ =>
      apply bind_Ok in H; destruct H as (? & ? & H)
  | H : mret _ = Ok _ |- _ => apply Ok_inj in H
  | H : Ok _ = Ok _ |- _ => apply Ok_inj in H
  | H : deref ?o = Ok _ |- _ =>
      let E := fresh "E" in destruct o eqn:E; simpl in H; [apply Ok_inj in H | done]
  end; simplify_eq/=.

(** Boolean comparisons of the goal and the context as propositions. *)
Ltac zify_bool :=
  repeat match goal with
  | H : (_ <? _)%Z = true |- _ => apply Z.ltb_lt in H
  | H : (_ <? _)%Z = false |- _ => apply Z.ltb_ge in H
  | H : (_ <=? _)%Z = true |- _ => apply Z.leb_le in H
  | H : (_ <=? _)%Z = false |- _ => apply Z.leb_gt in H
  | H : (_ =? _)%Z = true |- _ => apply Z.eqb_eq in H
  | H : (_ =? _)%Z = false |- _ => apply Z.eqb_neq in H
  | H : _ && _ = true |- _ => apply andb_true_iff in H; destruct H
  end.

(** Closed comparisons by computation. *)
Ltac zcompute := first [apply Z.leb_le | apply Z.ltb_lt]; vm_compute; reflexivity.
