(* ===== verification/CString.v ===== *)
(** * C strings and the library routines the server calls on them

    A C string is a [string] without NUL; a byte buffer is any [string] and
    [c_str] is what C sees of it.  Buffer sizes stay explicit: [snprintf_s n]
    keeps at most [n - 1] bytes, the number parsers and printers follow
    [strtol], [sscanf "%u"] and the decimal conversions of [printf]. *)

From S2P Require Import Prelude.
From stdpp Require Import options.

Local Open Scope Z_scope.

(** ** Characters of the C locale *)

Definition code (c : ascii) : Z := Z.of_N (N_of_ascii c).

Definition isspace (c : ascii) : bool :=
  ((9 <=? code c) && (code c <=? 13)) || (code c =? 32).

Definition isdigit (c : ascii) : bool := (48 <=? code c) && (code c <=? 57).

Definition toupper (c : ascii) : ascii :=
  if (97 <=? code c) && (code c <=? 122) then ascii_of_N (N_of_ascii c - 32) else c.

Definition tolower (c : ascii) : ascii :=
  if (65 <=? code c) && (code c <=? 90) then ascii_of_N (N_of_ascii c + 32) else c.

Definition nul : ascii := "000"%char.
Definition cr : ascii := "013"%char.
Definition lf : ascii := "010"%char.
Definition space : ascii := " "%char.
Definition dquote : ascii := "034"%char.
Definition backslash : ascii := "092"%char.

Definition crlf : string := String cr (String lf EmptyString).

(** ** Strings *)

(** What C reads of a buffer: the bytes before the first NUL. *)
Fixpoint c_str (s : string) : string :=
  match s with
  | EmptyString => EmptyString
  | String c s' => if Ascii.eqb c nul then EmptyString else String c (c_str s')
  end.

Fixpoint no_nul (s : string) : bool :=
  match s with
  | EmptyString => true
  | String c s' => negb (Ascii.eqb c nul) && no_nul s'
  end.

Fixpoint strtake (n : nat) (s : string) : string :=
  match n, s with
  | S n', String c s' => String c (strtake n' s')
  | _, _ => EmptyString
  end.

Fixpoint strdrop (n : nat) (s : string) : string :=
  match n, s with
  | S n', String c s' => strdrop n' s'
  | _, _ => s
  end.

Definition strlen (s : string) : Z := Z.of_nat (String.length s).

(** [strncmp(a, b, n) == 0] on NUL-free strings. *)
Definition strncmp_eq (a b : string) (n : nat) : bool :=
  String.eqb (strtake n a) (strtake n b).

(** [strcmp(a, b) == 0]. *)
Definition strcmp_eq (a b : string) : bool := String.eqb a b.

(** [strstr(hay, needle) != NULL]. *)
Fixpoint strstr_found (hay needle : string) : bool :=
  String.prefix needle hay ||
  match hay with
  | EmptyString => false
  | String _ hay' => strstr_found hay' needle
  end.

(** [strchr(s, c)]: the bytes before the first [c] and those after it. *)
Fixpoint strchr_split (s : string) (c : ascii) : option (string * string) :=
  match s with
  | EmptyString => None
  | String d s' =>
      if Ascii.eqb d c then Some (EmptyString, s')
      else match strchr_split s' c with
           | Some (a, b) => Some (String d a, b)
           | None => None
           end
  end.

(** [snprintf(buf, size, "%s", text)]: what is left in the buffer. *)
Definition snprintf_s (size : nat) (text : string) : string := strtake (size - 1) text.

(** ** Decimal output *)

Definition digit (d : Z) : ascii := ascii_of_N (Z.to_N (48 + d)).

Fixpoint dec_acc (fuel : nat) (n : Z) (acc : string) : string :=
  match fuel with
  | O => acc
  | S fuel' =>
      let acc' := String (digit (n mod 10)) acc in
      if n <? 10 then acc' else dec_acc fuel' (n / 10) acc'
  end.

(** ["%u"], ["%lu"] and ["%d"] of a non-negative number below [10 ^ 20]. *)
Definition print_unsigned (n : Z) : string := dec_acc 20 n EmptyString.

(** ["%d"] and ["%ld"]. *)
Definition print_int (n : Z) : string :=
  if n <? 0 then "-" +:+ print_unsigned (- n) else print_unsigned n.

(** ** Number input *)

Fixpoint skip_spaces (s : string) : string :=
  match s with
  | String c s' => if isspace c then skip_spaces s' else s
  | EmptyString => EmptyString
  end.

(** Value of the digits at the head of [s], how many there are and what
    follows them. *)
Fixpoint read_digits (s : string) (acc : Z) (count : nat) : Z * nat * string :=
  match s with
  | String c s' =>
      if isdigit c then read_digits s' (acc * 10 + (code c - 48)) (S count)
      else (acc, count, s)
  | EmptyString => (acc, count, EmptyString)
  end.

Definition read_sign (s : string) : bool * string :=
  match s with
  | String c s' =>
      if Ascii.eqb c "-" then (true, s')
      else if Ascii.eqb c "+" then (false, s') else (false, s)
  | EmptyString => (false, EmptyString)
  end.

(** [strtol(s, &end, 10)]: the value, whether [errno] became [ERANGE], and
    the rest of the string when at least one digit was read ([None] is
    [end == s]). *)
Definition strtol (s : string) : Z * bool * option string :=
  let '(neg, s1) := read_sign (skip_spaces s) in
  let '(mag, count, rest) := read_digits s1 0 0 in
  match count with
  | O => (0, false, None)
  | S _ =>
      let v := if neg then - mag else mag in
      if v <? LONG_MIN then (LONG_MIN, true, Some rest)
      else if LONG_MAX <? v then (LONG_MAX, true, Some rest)
      else (v, false, Some rest)
  end.

(** [sscanf(s, "%u", &x) == 1]: the 32-bit value stored.  The conversion is
    that of [strtoul], which saturates at [ULONG_MAX], cut to 32 bits. *)
Definition sscanf_u (s : string) : option Z :=
  let '(neg, s1) := read_sign (skip_spaces s) in
  let '(mag, count, rest) := read_digits s1 0 0 in
  match count with
  | O => None
  | S _ =>
      let sat := if two64 <=? mag then two64 - 1
                 else u64 (if neg then - mag else mag) in
      Some (u32 sat)
  end.

(** ** Trimming *)

Definition trim_left : string -> string := skip_spaces.

(** The loop of [trim_right_inplace] drops trailing white space. *)
Fixpoint trim_right (s : string) : string :=
  match s with
  | EmptyString => EmptyString
  | String c s' =>
      match trim_right s' with
      | EmptyString => if isspace c then EmptyString else String c EmptyString
      | t => String c t
      end
  end.

Definition trim (s : string) : string := trim_right (trim_left s).

Fixpoint map_string (f : ascii -> ascii) (s : string) : string :=
  match s with
  | EmptyString => EmptyString
  | String c s' => String (f c) (map_string f s')
  end.

(** Every character of the string satisfies the predicate. *)
Fixpoint all_chars (p : ascii -> bool) (s : string) : bool :=
  match s with
  | EmptyString => true
  | String c s' => p c && all_chars p s'
  end.

(** ** Lemmas on characters *)

Ltac ascii_cases c := destruct c as [[] [] [] [] [] [] [] []]; vm_compute; try done.

Lemma toupper_idem c : toupper (toupper c) = toupper c.
Proof. ascii_cases c. Qed.

Lemma toupper_isspace c : isspace (toupper c) = isspace c.
Proof. ascii_cases c. Qed.

Lemma toupper_nul c : toupper c = nul -> c = nul.
Proof. ascii_cases c. Qed.

Lemma tolower_idem c : tolower (tolower c) = tolower c.
Proof. ascii_cases c. Qed.

Lemma isspace_nul c : isspace c = true -> c <> nul.
Proof. ascii_cases c. Qed.

Lemma code_digit d : 0 <= d < 10 -> code (digit d) = 48 + d.
Proof.
  intros Hd. unfold code, digit.
  rewrite N_ascii_embedding by lia. lia.
Qed.

Lemma isdigit_digit d : 0 <= d < 10 -> isdigit (digit d) = true.
Proof. intros Hd. unfold isdigit. rewrite code_digit by done. lia. Qed.

Lemma isdigit_not_space c : isdigit c = true -> isspace c = false.
Proof. ascii_cases c. Qed.

Lemma isdigit_not_sign c :
  isdigit c = true -> Ascii.eqb c "-" = false /\ Ascii.eqb c "+" = false.
Proof. ascii_cases c. Qed.

Lemma isdigit_not_nul c : isdigit c = true -> Ascii.eqb c nul = false.
Proof. ascii_cases c. Qed.

(** ** Lemmas on strings *)

Lemma string_app_nil_r s : s +:+ EmptyString = s.
Proof. induction s; simpl; congruence. Qed.

Lemma string_app_assoc a b c : (a +:+ b) +:+ c = a +:+ (b +:+ c).
Proof. induction a; simpl; congruence. Qed.

Lemma length_string_app a b :
  String.length (a +:+ b) = (String.length a + String.length b)%nat.
Proof. induction a; simpl; congruence. Qed.

Lemma length_strtake n s : String.length (strtake n s) = Nat.min n (String.length s).
Proof. revert n. induction s; intros [|n]; simpl; auto. Qed.

Lemma strtake_all n s : (String.length s <= n)%nat -> strtake n s = s.
Proof. revert n. induction s; intros [|n] H; simpl in *; f_equal; auto with lia. Qed.

Lemma strtake_app n a b :
  strtake n (a +:+ b) = strtake n a +:+ strtake (n - String.length a) b.
Proof.
  revert n. induction a as [|c a IH]; intros [|n]; simpl; try done.
  by rewrite IH.
Qed.

Lemma strtake_strtake n m s : strtake n (strtake m s) = strtake (Nat.min n m) s.
Proof. revert n m. induction s; intros [|n] [|m]; simpl; congruence. Qed.

Lemma strtake_strdrop n s : strtake n s +:+ strdrop n s = s.
Proof. revert n. induction s; intros [|n]; simpl; congruence. Qed.

Lemma length_strdrop n s : String.length (strdrop n s) = (String.length s - n)%nat.
Proof. revert n. induction s; intros [|n]; simpl; auto. Qed.

Lemma length_snprintf_s size s :
  (0 < size)%nat -> (String.length (snprintf_s size s) < size)%nat.
Proof. intros. unfold snprintf_s. rewrite length_strtake. lia. Qed.

Lemma all_chars_app p a b : all_chars p (a +:+ b) = all_chars p a && all_chars p b.
Proof. induction a; simpl; [done|]. by rewrite IHa, andb_assoc. Qed.

Lemma all_chars_strtake p n s : all_chars p s = true -> all_chars p (strtake n s) = true.
Proof.
  revert n. induction s as [|c s IH]; intros [|n]; simpl; auto.
  intros [-> H]%andb_true_iff. by rewrite IH.
Qed.

Lemma all_chars_impl (p q : ascii -> bool) s :
  (forall c, p c = true -> q c = true) -> all_chars p s = true -> all_chars q s = true.
Proof.
  intros Hpq. induction s; simpl; [done|].
  intros [? ?]%andb_true_iff. by rewrite Hpq, IHs.
Qed.

Lemma no_nul_all_chars s : no_nul s = all_chars (fun c => negb (Ascii.eqb c nul)) s.
Proof. induction s; simpl; congruence. Qed.

Lemma no_nul_app a b : no_nul (a +:+ b) = no_nul a && no_nul b.
Proof. by rewrite !no_nul_all_chars, all_chars_app. Qed.

Lemma no_nul_c_str s : no_nul (c_str s) = true.
Proof.
  induction s as [|c s IH]; simpl; [done|].
  destruct (Ascii.eqb c nul) eqn:E; simpl; [done|]. by rewrite E, IH.
Qed.

Lemma c_str_no_nul s : no_nul s = true -> c_str s = s.
Proof.
  induction s as [|c s IH]; simpl; [done|].
  intros [H1%negb_true_iff H2]%andb_true_iff. by rewrite H1, IH.
Qed.

Lemma c_str_app_nul s t : no_nul s = true -> c_str (s +:+ String nul t) = s.
Proof.
  induction s as [|c s IH]; simpl; [done|].
  intros [H1%negb_true_iff H2]%andb_true_iff. by rewrite H1, IH.
Qed.

Lemma length_c_str s : (String.length (c_str s) <= String.length s)%nat.
Proof. induction s; simpl; [lia|]. case_match; simpl; lia. Qed.

Lemma prefix_app a b : String.prefix a (a +:+ b) = true.
Proof. induction a as [|c a IH]; simpl; [by destruct b|]. by destruct (ascii_dec c c). Qed.

Lemma prefix_true a s : String.prefix a s = true <-> exists b, s = a +:+ b.
Proof.
  split; [|intros [b ->]; apply prefix_app].
  revert s. induction a as [|c a IH]; intros s; simpl; [by exists s|].
  destruct s as [|d s]; [done|]. cbn [String.prefix].
  destruct (ascii_dec c d) as [->|]; [|done].
  intros [b ->]%IH. by exists b.
Qed.

(** [strstr] finds exactly the substrings. *)
Lemma strstr_found_spec hay needle :
  strstr_found hay needle = true <-> exists a b, hay = a +:+ (needle +:+ b).
Proof.
  induction hay as [|c hay IH]; cbn [strstr_found].
  - rewrite orb_false_r, prefix_true. split.
    + intros [b H]. by exists EmptyString, b.
    + intros ([|] & b & H); [by exists b | done].
  - rewrite orb_true_iff, prefix_true, IH. split.
    + intros [[b H] | (a & b & ->)]; [by exists EmptyString, b | by exists (String c a), b].
    + intros ([|c' a] & b & H); [left; by exists b|].
      injection H as -> ->. right. by exists a, b.
Qed.

Lemma strchr_split_Some s c a b :
  strchr_split s c = Some (a, b) -> s = a +:+ String c b.
Proof.
  revert a. induction s as [|d s IH]; intros a; simpl; [done|].
  destruct (Ascii.eqb_spec d c) as [->|].
  - by intros [= <- <-].
  - destruct (strchr_split s c) as [[a' b']|]; [|done].
    intros [= <- <-]. simpl. by rewrite (IH a').
Qed.

(** Lengths of concatenations: literals are computed, the rest is kept. *)
Ltac string_lengths :=
  rewrite ?length_string_app;
  repeat match goal with
  | |- context [String.length (String ?c ?s)] =>
      let n := eval vm_compute in (String.length (String c s)) in
      change (String.length (String c s)) with n
  end.

(** ** Decimal round trips *)

Lemma all_digits_dec_acc fuel n acc :
  0 <= n -> all_chars isdigit acc = true -> all_chars isdigit (dec_acc fuel n acc) = true.
Proof.
  revert n acc. induction fuel as [|fuel IH]; intros n acc Hn Hacc; simpl; [done|].
  assert (all_chars isdigit (String (digit (n mod 10)) acc) = true) as H'.
  { simpl. rewrite isdigit_digit; [done|]. apply Z.mod_pos_bound; lia. }
  case_match; [done|]. apply IH; [|done]. apply Z.div_pos; lia.
Qed.

Lemma all_digits_print n : 0 <= n -> all_chars isdigit (print_unsigned n) = true.
Proof. intros. by apply all_digits_dec_acc. Qed.

Lemma dec_acc_app fuel n acc :
  dec_acc fuel n acc = dec_acc fuel n EmptyString +:+ acc.
Proof.
  revert n acc. induction fuel as [|fuel IH]; intros n acc; simpl; [done|].
  case_match; [done|].
  rewrite IH, (IH _ (String _ EmptyString)), string_app_assoc. done.
Qed.

Lemma read_digits_dec_acc fuel n acc a cnt :
  0 <= n < 10 ^ Z.of_nat fuel -> (0 < fuel)%nat ->
  exists k, (0 < k <= fuel)%nat /\ n < 10 ^ Z.of_nat k /\
    read_digits (dec_acc fuel n acc) a cnt
    = read_digits acc (a * 10 ^ Z.of_nat k + n) (cnt + k).
Proof.
  revert n acc. induction fuel as [|fuel IH]; intros n acc Hn Hf; [lia|].
  cbn [dec_acc].
  pose proof (Z.mod_pos_bound n 10 ltac:(lia)) as Hm.
  destruct (Z.ltb_spec n 10) as [Hlt|Hge].
  - exists 1%nat. split; [lia|]. split; [lia|]. cbn [read_digits].
    rewrite isdigit_digit, code_digit, Z.mod_small by lia.
    f_equal; [|lia]. lia.
  - assert (0 < fuel)%nat as Hf'.
    { destruct fuel; [|lia]. simpl in Hn. lia. }
    assert (0 <= n / 10 < 10 ^ Z.of_nat fuel) as Hd.
    { rewrite Nat2Z.inj_succ, Z.pow_succ_r in Hn by lia. split.
      - apply Z.div_pos; lia.
      - apply Z.div_lt_upper_bound; lia. }
    destruct (IH (n / 10) (String (digit (n mod 10)) acc) Hd Hf') as (k & Hk & Hkn & ->).
    exists (S k). split; [lia|].
    pose proof (Z.div_mod n 10 ltac:(lia)) as Hdm.
    rewrite Nat2Z.inj_succ, Z.pow_succ_r by lia. split; [lia|].
    cbn [read_digits]. rewrite isdigit_digit, code_digit by lia.
    f_equal; [|lia]. lia.
Qed.

Lemma read_digits_print n rest :
  0 <= n < 10 ^ 20 ->
  (forall c s, rest = String c s -> isdigit c = false) ->
  exists k, (0 < k)%nat /\ read_digits (print_unsigned n +:+ rest) 0 0 = (n, k, rest).
Proof.
  intros Hn Hrest. unfold print_unsigned. rewrite <- dec_acc_app.
  destruct (read_digits_dec_acc 20 n rest 0 0) as (k & Hk & _ & ->); [done|lia|].
  exists k. split; [lia|]. rewrite Z.mul_0_l, Z.add_0_l.
  destruct rest as [|c s]; [done|]. simpl. by rewrite (Hrest c s).
Qed.

Lemma dec_acc_nonempty fuel n acc :
  (String.length acc < String.length (dec_acc (S fuel) n acc))%nat.
Proof.
  revert n acc. induction fuel as [|fuel IH]; intros n acc; cbn [dec_acc].
  - case_match; simpl; lia.
  - case_match; [simpl; lia|].
    specialize (IH (n / 10) (String (digit (n mod 10)) acc)). simpl in IH |- *. lia.
Qed.

Lemma print_unsigned_cons n :
  0 <= n -> exists c s, print_unsigned n = String c s /\ isdigit c = true.
Proof.
  intros Hn. pose proof (all_digits_print n Hn) as H.
  destruct (print_unsigned n) as [|c s] eqn:E.
  - exfalso. apply (f_equal String.length) in E.
    pose proof (dec_acc_nonempty 19 n EmptyString) as Hl.
    unfold print_unsigned in E. rewrite E in Hl. simpl in Hl. lia.
  - apply andb_true_iff in H as [? _]. eauto.
Qed.

Lemma skip_sign_digits c s :
  isdigit c = true ->
  read_sign (skip_spaces (String c s)) = (false, String c s).
Proof.
  intros Hc. simpl. rewrite isdigit_not_space by done. simpl.
  destruct (isdigit_not_sign c Hc) as [-> ->]. done.
Qed.

Lemma sscanf_u_print n rest :
  0 <= n < two32 -> (forall c s, rest = String c s -> isdigit c = false) ->
  sscanf_u (print_unsigned n +:+ rest) = Some n.
Proof.
  intros Hn Hrest. unfold two32 in Hn.
  destruct (read_digits_print n rest) as (k & Hk & Hread); [lia|done|].
  destruct (print_unsigned_cons n) as (c & s & E & Hc); [lia|].
  unfold sscanf_u. rewrite E in *. cbn [String.append] in *.
  change (String.append s rest) with (s +:+ rest) in *.
  rewrite skip_sign_digits by done. rewrite Hread.
  destruct k; [lia|].
  destruct (Z.leb_spec two64 n) as [Hbig|_]; [unfold two64 in Hbig; lia|].
  rewrite u64_id, u32_id by (unfold two32, two64; lia). done.
Qed.

Lemma strtol_print n :
  0 <= n <= LONG_MAX -> strtol (print_unsigned n) = (n, false, Some EmptyString).
Proof.
  intros Hn. unfold LONG_MAX in Hn.
  destruct (read_digits_print n EmptyString) as (k & Hk & Hread); [lia|done|].
  rewrite string_app_nil_r in Hread.
  destruct (print_unsigned_cons n) as (c & s & E & Hc); [lia|].
  unfold strtol. rewrite E in *. rewrite skip_sign_digits by done. rewrite Hread.
  destruct k; [lia|].
  destruct (Z.ltb_spec n LONG_MIN); [unfold LONG_MIN in *; lia|].
  destruct (Z.ltb_spec LONG_MAX n); [unfold LONG_MAX in *; lia|]. done.
Qed.

Lemma length_dec_acc fuel n acc :
  (String.length (dec_acc fuel n acc) <= fuel + String.length acc)%nat.
Proof.
  revert n acc. induction fuel as [|fuel IH]; intros n acc; simpl; [lia|].
  case_match; simpl; [lia|]. etrans; [apply IH|]. simpl. lia.
Qed.

Lemma length_print n : (String.length (print_unsigned n) <= 20)%nat.
Proof. unfold print_unsigned. etrans; [apply length_dec_acc|]. simpl. lia. Qed.

Lemma digits_no_nul s : all_chars isdigit s = true -> no_nul s = true.
Proof.
  rewrite no_nul_all_chars. apply all_chars_impl.
  intros c Hc. by rewrite isdigit_not_nul.
Qed.

Lemma no_nul_print n : 0 <= n -> no_nul (print_unsigned n) = true.
Proof. intros. by apply digits_no_nul, all_digits_print. Qed.

(** ** Trimming *)

Lemma length_skip_spaces s : (String.length (skip_spaces s) <= String.length s)%nat.
Proof. induction s; simpl; [lia|]. case_match; simpl; lia. Qed.

Lemma length_trim_right s : (String.length (trim_right s) <= String.length s)%nat.
Proof. induction s; simpl; [lia|]. repeat case_match; simpl in *; lia. Qed.

Lemma skip_spaces_head s c t : skip_spaces s = String c t -> isspace c = false.
Proof.
  induction s as [|d s IH]; simpl; [done|].
  destruct (isspace d) eqn:E; [done|]. by intros [= <- <-].
Qed.

Lemma trim_right_fixed s : trim_right (trim_right s) = trim_right s.
Proof.
  induction s as [|c s IH]; simpl; [done|].
  destruct (trim_right s) as [|d t] eqn:E.
  - destruct (isspace c) eqn:Ec; simpl; [done|]. by rewrite Ec.
  - cbn [trim_right] in IH |- *. rewrite IH. done.
Qed.

Lemma all_chars_skip_spaces p s : all_chars p s = true -> all_chars p (skip_spaces s) = true.
Proof.
  induction s as [|c s IH]; simpl; [done|].
  intros [H1 H2]%andb_true_iff. case_match; [auto|]. simpl. by rewrite H1, H2.
Qed.

Lemma all_chars_trim_right p s : all_chars p s = true -> all_chars p (trim_right s) = true.
Proof.
  induction s as [|c s IH]; simpl; [done|].
  intros [H1 H2]%andb_true_iff. specialize (IH H2).
  destruct (trim_right s); [case_match; simpl; by rewrite ?H1|].
  simpl in *. by rewrite H1.
Qed.

#[export] Hint Resolve no_nul_c_str no_nul_print all_digits_print length_print : cftp.
