(* ===== verification/StringTable.v ===== *)
(** * What the command registry needs from a table keyed by strings

    [StringTable] is the interface the command parser uses,
    [StringTableSpec] what it relies on: the table stands for a finite map,
    has room for a known number of insertions, and insertion and lookup are
    the map's.  [HashMap] provides the instance. *)

From S2P Require Import Prelude.
From stdpp Require Import options.

Class StringTable (T V : Type) := {
  st_create : T;
  st_insert : T -> string -> option V -> outcome (Z * T);
  st_get : T -> string -> outcome (option V);
}.

Class StringTableSpec (T V : Type) `{StringTable T V} := {
  (** [st_rep n t m]: [t] stands for [m] and takes [n] more insertions. *)
  st_rep : nat -> T -> gmap string (option V) -> Prop;
  st_capacity : nat;
  st_create_rep : st_rep st_capacity st_create ∅;
  st_insert_rep : forall n t m k a,
    st_rep (S n) t m ->
    exists code t', st_insert t k a = Ok (code, t') /\ code <> 0%Z /\ st_rep n t' (<[k:=a]> m);
  st_get_rep : forall n t m k,
    st_rep n t m -> st_get t k = Ok (default None (m !! k));
}.

Section Client.
Context {T V : Type} `{StringTableSpec T V}.

(** Inserting a list of bindings in order, as a loop over a static array
    does. *)
Fixpoint insert_all (t : T) (kvs : list (string * option V)) : outcome T :=
  match kvs with
  | [] => mret t
  | (k, a) :: kvs' => '(code, t') ← st_insert t k a; insert_all t' kvs'
  end.

Lemma insert_all_rep kvs : forall n t m,
  st_rep (List.length kvs + n) t m ->
  exists t', insert_all t kvs = Ok t' /\
    st_rep n t' (foldl (fun acc kv => <[kv.1:=kv.2]> acc) m kvs).
Proof.
  induction kvs as [|[k a] kvs IH]; intros n t m Ht; simpl.
  - by exists t.
  - simpl in Ht. destruct (st_insert_rep _ _ _ k a Ht) as (code & t' & -> & _ & Ht').
    simpl. by apply IH.
Qed.
End Client.
