(* ===== verification/HashMap.v ===== *)
(** * The chained hash table (src/core/structures/hashmap.c)

    Pointer-level model: elements live in a heap of [hash_table_elem] cells
    linked through [e_next]/[e_prev], the table is an array of chain heads.
    [represents] relates a heap and a table to a finite map; the theorems
    show that every operation implements the map operation it stands for,
    with the result codes of hashmap.h.  The key copy made by
    [create_hash_table_elem] is part of the cell that owns it. *)

From S2P Require Import Prelude CString.
From S2P Require Import StringTable.
From stdpp Require Import options.

Local Open Scope Z_scope.

Definition HASH_TABLE_INTIAL_SIZE : nat := 21.

Definition HASH_ENTRY_FAILED : Z := 0x0.
Definition HASH_ENTRY_SUCCESS : Z := 0x1.
Definition HASH_ENTRY_COLLISION : Z := 0x2.
Definition HASH_TABLE_RESIZED : Z := 0x4.
Definition HASH_FREED : Z := 0x8.
Definition HASH_ENTRY_UPDATED : Z := 0x10.

(** The load factor [0.75f], in quarters: scaling by a power of two commutes
    with binary32 rounding. *)
Definition DEFAULT_LOAD_FACTOR : Z := 3.

Definition FNV_1A_OFFSET_BASIS : Z := 0xCBF29CE484222325.
Definition FNV_1A_PRIME : Z := 0x100000001B3.

Fixpoint fnv1a_from (hash : Z) (str : string) : Z :=
  match str with
  | EmptyString => hash
  | String c str' => fnv1a_from (u64 (Z.lxor hash (code c) * FNV_1A_PRIME)) str'
  end.

Definition fnv1a_string_hash (str : string) : Z := fnv1a_from FNV_1A_OFFSET_BASIS str.

(** Which allocations of a call succeed. *)
Record alloc := Alloc { alloc_elem : bool; alloc_key : bool; alloc_table : bool }.
Definition alloc_ok : alloc := Alloc true true true.

Abbreviation loc := positive.

Section Operations.
Context {V : Type}.

(** [void *address] is [option V]: [None] is NULL. *)
Record hash_table_elem := Elem {
  e_next : option loc;
  e_prev : option loc;
  e_key : string;
  e_address : option V;
}.

Record hash_table := Table {
  t_length : Z;
  t_table : option (list (option loc));
  t_load_factor : Z;
  t_elem_count : Z;
}.

Abbreviation heap := (gmap loc hash_table_elem).

Definition set_next (n : option loc) (e : hash_table_elem) : hash_table_elem :=
  Elem n (e_prev e) (e_key e) (e_address e).
Definition set_prev (p : option loc) (e : hash_table_elem) : hash_table_elem :=
  Elem (e_next e) p (e_key e) (e_address e).
Definition set_address (a : option V) (e : hash_table_elem) : hash_table_elem :=
  Elem (e_next e) (e_prev e) (e_key e) a.

(** [p->prev = v], [p->next = v], [p->address = v] through a pointer. *)
Definition store (f : hash_table_elem -> hash_table_elem) (p : loc) (hp : heap)
  : outcome heap :=
  e ← deref (hp !! p); mret (<[p := f e]> hp).

(** [free(p)]: the cell must be allocated. *)
Definition free_elem (p : loc) (hp : heap) : outcome heap :=
  _ ← deref (hp !! p); mret (delete p hp).

(** [hashtable->table[i]] *)
Definition table_at (tbl : list (option loc)) (i : Z) : outcome (option loc) :=
  deref (tbl !! Z.to_nat i).

Definition create_hash_table (malloc_ok calloc_ok : bool) : option hash_table :=
  if negb malloc_ok then None
  else Some (Table (Z.of_nat HASH_TABLE_INTIAL_SIZE)
               (if calloc_ok then Some (replicate HASH_TABLE_INTIAL_SIZE None) else None)
               DEFAULT_LOAD_FACTOR 0).

Definition check_grow (hashtable : option hash_table) : outcome Z :=
  match hashtable with
  | None => mret HASH_ENTRY_FAILED
  | Some ht =>
      if INT_MAX <? t_elem_count ht + 1 then Undefined
      else if round32 (round32 (t_length ht) * t_load_factor ht)
                <=? 4 * round32 (t_elem_count ht + 1)
      then mret (u64 (t_length ht * 2))
      else mret 0
  end.

(** The [while (ptr)] walk of [get_ptr_to_elem_by_key]. *)
Fixpoint find_elem (fuel : nat) (hp : heap) (ptr : option loc) (keyname : string)
  : outcome (option loc) :=
  match fuel with
  | O => Hang
  | S fuel' =>
      match ptr with
      | None => mret None
      | Some p =>
          e ← deref (hp !! p);
          if strcmp_eq (e_key e) keyname then mret (Some p)
          else find_elem fuel' hp (e_next e) keyname
      end
  end.

Definition bucket (ht : hash_table) (keyname : string) : outcome Z :=
  if t_length ht =? 0 then Undefined
  else mret (fnv1a_string_hash keyname mod t_length ht).

Definition get_ptr_to_elem_by_key (hp : heap) (hashtable : option hash_table)
    (keyname : option string) : outcome (option loc) :=
  match hashtable with
  | None => mret None
  | Some ht =>
      match t_table ht, keyname with
      | None, _ | _, None => mret None
      | Some tbl, Some k =>
          keyhash ← bucket ht k;
          head ← table_at tbl keyhash;
          find_elem (S (size hp)) hp head k
      end
  end.

Definition check_key_exists (hp : heap) (hashtbl : option hash_table)
    (keyname : option string) : outcome Z :=
  ptr ← get_ptr_to_elem_by_key hp hashtbl keyname;
  mret (match ptr with Some _ => 1 | None => 0 end).

Definition get_ptr_to_value_by_key (hp : heap) (hashtable : option hash_table)
    (keyname : option string) : outcome (option V) :=
  ptr ← get_ptr_to_elem_by_key hp hashtable keyname;
  match ptr with
  | None => mret None
  | Some p => e ← deref (hp !! p); mret (e_address e)
  end.

(** [strcpy] into a failed [malloc] of the key is undefined behaviour: the
    test on [ptr->key] comes after it. *)
Definition create_hash_table_elem (al : alloc) (hp : heap) (key : option string)
    (address : option V) : outcome (option loc * heap) :=
  match key with
  | None => mret (None, hp)
  | Some k =>
      if negb (alloc_elem al) then mret (None, hp)
      else if negb (alloc_key al) then Undefined
      else let p := fresh (dom hp) in
           mret (Some p, <[p := Elem None None k address]> hp)
  end.

(** The inner [while (ptr)] of the resize: unlink the top of the old chain
    [i] and push it on the new chain its key hashes to. *)
Fixpoint move_chain (fuel : nat) (hp : heap) (old new : list (option loc))
    (i : nat) (new_length : Z) (ptr : option loc)
  : outcome (heap * list (option loc) * list (option loc)) :=
  match fuel with
  | O => Hang
  | S fuel' =>
      match ptr with
      | None => mret (hp, old, new)
      | Some p =>
          e ← deref (hp !! p);
          let new_hash_value := fnv1a_string_hash (e_key e) mod new_length in
          let nextPtr := e_next e in
          top ← table_at new new_hash_value;
          hp1 ← store (set_next top) p hp;
          hp2 ← match top with
                | Some q => store (set_prev (Some p)) q hp1
                | None => mret hp1
                end;
          move_chain fuel' hp2 (<[i := nextPtr]> old)
            (<[Z.to_nat new_hash_value := Some p]> new) i new_length nextPtr
      end
  end.

(** [for (i = 0; i < hashtable->length; i++)], counting down [todo]. *)
Fixpoint rehash_loop (todo : nat) (i : nat) (hp : heap)
    (old new : list (option loc)) (new_length : Z)
  : outcome (heap * list (option loc) * list (option loc)) :=
  match todo with
  | O => mret (hp, old, new)
  | S todo' =>
      ptr ← table_at old (Z.of_nat i);
      '(hp', old', new') ← move_chain (S (size hp)) hp old new i new_length ptr;
      rehash_loop todo' (S i) hp' old' new' new_length
  end.

(** The part of [insert_entry] that adds a new element: push, count, grow.
    The first [calloc] that fails is dereferenced. *)
Definition insert_new (al : alloc) (hp : heap) (ht : hash_table) (keyhash : Z) (p : loc)
  : outcome (Z * heap * hash_table) :=
  tbl ← deref (t_table ht);
  head ← table_at tbl keyhash;
  '(result, hp1) ←
    match head with
    | None => mret (HASH_ENTRY_SUCCESS, hp)
    | Some q =>
        hp' ← store (set_next (Some q)) p hp;
        hp'' ← store (set_prev (Some p)) q hp';
        mret (Z.lor HASH_ENTRY_SUCCESS HASH_ENTRY_COLLISION, hp'')
    end;
  let tbl1 := <[Z.to_nat keyhash := Some p]> tbl in
  if INT_MAX <? t_elem_count ht + 1 then Undefined
  else
    let ht1 := Table (t_length ht) (Some tbl1) (t_load_factor ht) (t_elem_count ht + 1) in
    new_length ← check_grow (Some ht1);
    if new_length =? 0 then mret (result, hp1, ht1)
    else if negb (alloc_table al) then Undefined
    else
      '(hp2, _, new_table) ←
        rehash_loop (Z.to_nat (t_length ht)) 0 hp1 tbl1
          (replicate (Z.to_nat new_length) None) new_length;
      mret (Z.lor result HASH_TABLE_RESIZED, hp2,
            Table new_length (Some new_table) (t_load_factor ht) (t_elem_count ht + 1)).

Definition insert_entry (al : alloc) (hp : heap) (hashtable : option hash_table)
    (keyname : option string) (address : option V)
  : outcome (Z * heap * option hash_table) :=
  match hashtable, keyname with
  | None, _ | _, None => mret (HASH_ENTRY_FAILED, hp, hashtable)
  | Some ht, Some k =>
      keyhash ← bucket ht k;
      ptr ← get_ptr_to_elem_by_key hp hashtable keyname;
      match ptr with
      | Some p =>
          hp' ← store (set_address address) p hp;
          mret (Z.lor HASH_ENTRY_SUCCESS HASH_ENTRY_UPDATED, hp', hashtable)
      | None =>
          '(new, hp') ← create_hash_table_elem al hp keyname address;
          match new with
          | None => mret (HASH_ENTRY_FAILED, hp', hashtable)
          | Some p =>
              '(result, hp'', ht') ← insert_new al hp' ht keyhash p;
              mret (result, hp'', Some ht')
          end
      end
  end.

(** The [while (ptr)] of [delete_entry], behind the head [prev]. *)
Fixpoint delete_in_chain (fuel : nat) (hp : heap) (prev : loc) (ptr : option loc)
    (keyname : string) : outcome (Z * heap) :=
  match fuel with
  | O => Hang
  | S fuel' =>
      match ptr with
      | None => mret (HASH_ENTRY_FAILED, hp)
      | Some p =>
          e ← deref (hp !! p);
          let next := e_next e in
          if strcmp_eq (e_key e) keyname then
            hp1 ← free_elem p hp;
            hp2 ← store (set_next next) prev hp1;
            hp3 ← match next with
                  | Some n => store (set_prev (Some prev)) n hp2
                  | None => mret hp2
                  end;
            mret (Z.lor HASH_ENTRY_SUCCESS HASH_ENTRY_COLLISION, hp3)
          else delete_in_chain fuel' hp p next keyname
      end
  end.

Definition delete_entry (hp : heap) (hashtable : option hash_table) (keyname : option string)
  : outcome (Z * heap * option hash_table) :=
  match hashtable with
  | None => mret (HASH_FREED, hp, hashtable)
  | Some ht =>
      k ← deref keyname;
      keyhash ← bucket ht k;
      tbl ← deref (t_table ht);
      head ← table_at tbl keyhash;
      match head with
      | None => mret (HASH_ENTRY_FAILED, hp, hashtable)
      | Some h =>
          e ← deref (hp !! h);
          if strcmp_eq (e_key e) k then
            let ptr := e_next e in
            hp1 ← free_elem h hp;
            hp2 ← match ptr with
                  | Some p => store (set_prev None) p hp1
                  | None => mret hp1
                  end;
            mret (HASH_ENTRY_SUCCESS, hp2,
                  Some (Table (t_length ht) (Some (<[Z.to_nat keyhash := ptr]> tbl))
                          (t_load_factor ht) (t_elem_count ht)))
          else
            '(result, hp') ← delete_in_chain (S (size hp)) hp h (e_next e) k;
            mret (result, hp', hashtable)
      end
  end.

Fixpoint free_chain (fuel : nat) (hp : heap) (ptr : option loc) : outcome heap :=
  match fuel with
  | O => Hang
  | S fuel' =>
      match ptr with
      | None => mret hp
      | Some p =>
          e ← deref (hp !! p);
          hp' ← free_elem p hp;
          free_chain fuel' hp' (e_next e)
      end
  end.

Fixpoint free_loop (todo : nat) (i : nat) (tbl : list (option loc)) (hp : heap)
  : outcome heap :=
  match todo with
  | O => mret hp
  | S todo' =>
      ptr ← table_at tbl (Z.of_nat i);
      hp' ← free_chain (S (size hp)) hp ptr;
      free_loop todo' (S i) tbl hp'
  end.

Definition free_hash_table (hp : heap) (hashtable : option hash_table) : outcome (Z * heap) :=
  match hashtable with
  | None => mret (HASH_FREED, hp)
  | Some ht =>
      tbl ← deref (t_table ht);
      hp' ← free_loop (Z.to_nat (t_length ht)) 0 tbl hp;
      mret (HASH_FREED, hp')
  end.
End Operations.

Arguments hash_table_elem : clear implicits.

Abbreviation heap V := (gmap loc (hash_table_elem V)).

(** ** Representation of a finite map *)

Section Representation.
Context {V : Type}.
Implicit Types (hp : heap V) (ht : hash_table).

(** A cell as the owner of the table sees it: the back link is written but
    never read, so it is left out. *)
Definition core hp (p : loc) : option (option loc * string * option V) :=
  (fun e => (e_next e, e_key e, e_address e)) <$> hp !! p.

Abbreviation entry := (loc * (string * option V))%type.

Fixpoint chain hp (ptr : option loc) (l : list entry) : Prop :=
  match l with
  | [] => ptr = None
  | (p, (k, a)) :: l' =>
      ptr = Some p /\ exists nxt, core hp p = Some (nxt, k, a) /\ chain hp nxt l'
  end.

(** The bucket of a key in a table of [n] buckets. *)
Definition key_slot (n : nat) (k : string) : nat :=
  Z.to_nat (fnv1a_string_hash k mod Z.of_nat n).
Definition slot (n : nat) (x : entry) : nat := key_slot n x.2.1.

Record wf_table hp ht (chains : list (list entry)) : Prop := {
  wf_chains : exists tbl, t_table ht = Some tbl /\ Forall2 (chain hp) tbl chains;
  wf_length : t_length ht = Z.of_nat (List.length chains);
  wf_nonempty : (0 < List.length chains)%nat;
  wf_load_factor : t_load_factor ht = DEFAULT_LOAD_FACTOR;
  wf_locs : NoDup (concat chains).*1;
  wf_keys : NoDup (concat chains).*2.*1;
  wf_slots : forall i l, chains !! i = Some l ->
               Forall (fun x => slot (List.length chains) x = i) l;
  wf_count : Z.of_nat (List.length (concat chains)) <= t_elem_count ht;
  wf_dom : dom hp = list_to_set (concat chains).*1;
}.

Definition contents (chains : list (list entry)) : gmap string (option V) :=
  list_to_map (concat chains).*2.

(** The heap holds exactly the table, and the table stands for [m]. *)
Definition represents hp ht (m : gmap string (option V)) : Prop :=
  exists chains, wf_table hp ht chains /\ m = contents chains.

(** *** Cells *)

Lemma core_Some hp p nxt k a :
  core hp p = Some (nxt, k, a) <->
  exists prv, hp !! p = Some (Elem nxt prv k a).
Proof.
  unfold core. rewrite fmap_Some. split.
  - intros ([] & ? & ?). simplify_eq/=. eauto.
  - intros (prv & ->). by eexists.
Qed.

Lemma core_insert_ne hp p q e : p <> q -> core (<[p:=e]> hp) q = core hp q.
Proof. intros. unfold core. by rewrite lookup_insert_ne. Qed.

Lemma core_insert_eq hp p e :
  core (<[p:=e]> hp) p = Some (e_next e, e_key e, e_address e).
Proof. unfold core. by rewrite lookup_insert_eq. Qed.

Lemma core_delete_ne hp p q : p <> q -> core (delete p hp) q = core hp q.
Proof. intros. unfold core. by rewrite lookup_delete_ne. Qed.

Lemma core_set_prev hp p e v q :
  hp !! p = Some e -> core (<[p:=set_prev v e]> hp) q = core hp q.
Proof.
  intros Hp. destruct (decide (p = q)) as [->|]; [|by apply core_insert_ne].
  rewrite core_insert_eq. unfold core. by rewrite Hp.
Qed.

Lemma store_Some f p hp e :
  hp !! p = Some e -> store f p hp = Ok (<[p:=f e]> hp).
Proof. intros Hp. unfold store. by rewrite Hp. Qed.

Lemma free_elem_Some p hp e : hp !! p = Some e -> free_elem p hp = Ok (delete p hp).
Proof. intros Hp. unfold free_elem. by rewrite Hp. Qed.

Lemma chain_frame hp hp' ptr l :
  (forall p, p ∈ l.*1 -> core hp' p = core hp p) ->
  chain hp ptr l -> chain hp' ptr l.
Proof.
  revert ptr. induction l as [|[p [k a]] l IH]; intros ptr Hc; [done|].
  simpl in *. intros (-> & nxt & Hp & Hl). split; [done|].
  exists nxt. rewrite Hc by set_solver. split; [done|].
  apply IH; [|done]. set_solver.
Qed.

Lemma chain_locs_in hp ptr l p : chain hp ptr l -> p ∈ l.*1 -> p ∈ dom hp.
Proof.
  revert ptr. induction l as [|[q [k a]] l IH]; intros ptr; simpl; [set_solver|].
  intros (-> & nxt & Hq & Hl) [->|?]%elem_of_cons; [|by eapply IH].
  apply core_Some in Hq as [? ?]. by eapply elem_of_dom_2.
Qed.

Lemma chain_length_size hp ptr l :
  chain hp ptr l -> NoDup l.*1 -> (List.length l <= size hp)%nat.
Proof.
  intros Hl Hnd. rewrite <- (size_dom (D:=gset loc) hp), <- (length_fmap fst l).
  rewrite <- (size_list_to_set (C:=gset loc)) by done.
  apply subseteq_size. intros p Hp%elem_of_list_to_set. by eapply chain_locs_in.
Qed.

Lemma chains_frame hp hp' tbl chains :
  (forall p, p ∈ (concat chains).*1 -> core hp' p = core hp p) ->
  Forall2 (chain hp) tbl chains -> Forall2 (chain hp') tbl chains.
Proof.
  intros Hc H. induction H as [|ptr l tbl chains Hl H IH]; [done|].
  simpl in Hc. rewrite fmap_app in Hc. constructor.
  - eapply chain_frame; [|done]. set_solver.
  - apply IH. set_solver.
Qed.

Lemma chain_head hp p l :
  chain hp (Some p) l -> exists k a l', l = (p, (k, a)) :: l' /\ is_Some (hp !! p).
Proof.
  destruct l as [|[q [k a]] l]; simpl; [done|].
  intros ([= <-] & nxt & Hc & _). apply core_Some in Hc as [? Hp]. naive_solver.
Qed.

(** *** Lists of chains *)

Lemma concat_lookup_split {A} (ls : list (list A)) i l :
  ls !! i = Some l -> forall x, x ∈ l -> x ∈ concat ls.
Proof.
  intros Hi x Hx. destruct (concat_insert_split ls i l l Hi) as (pre & post & -> & _).
  set_solver.
Qed.

Lemma concat_insert_cons {A} (ls : list (list A)) i l x :
  ls !! i = Some l -> concat (<[i:=x :: l]> ls) ≡ₚ x :: concat ls.
Proof.
  intros Hi. destruct (concat_insert_split ls i l (x :: l) Hi) as (pre & post & -> & ->).
  simpl. by rewrite <- Permutation_middle.
Qed.

Lemma NoDup_concat_chain {A} (ls : list (list (loc * A))) i l :
  ls !! i = Some l -> NoDup (concat ls).*1 -> NoDup l.*1.
Proof.
  intros Hi. destruct (concat_insert_split ls i l l Hi) as (pre & post & -> & _).
  rewrite !fmap_app, !NoDup_app. naive_solver.
Qed.

(** *** Searching a chain *)

Fixpoint chain_loc (k : string) (l : list entry) : option loc :=
  match l with
  | [] => None
  | (p, (k', _)) :: l' => if strcmp_eq k' k then Some p else chain_loc k l'
  end.

Lemma find_elem_chain fuel hp ptr l k :
  chain hp ptr l -> (List.length l < fuel)%nat ->
  find_elem fuel hp ptr k = Ok (chain_loc k l).
Proof.
  revert fuel ptr. induction l as [|[p [k' a]] l IH]; intros [|fuel] ptr Hl Hf;
    simpl in *; [lia|by subst|lia|].
  destruct Hl as (-> & nxt & (prv & ->)%core_Some & Hl). simpl.
  destruct (strcmp_eq k' k); [done|]. apply IH; [done|lia].
Qed.

Lemma chain_loc_Some k l p :
  chain_loc k l = Some p -> exists a, (p, (k, a)) ∈ l.
Proof.
  induction l as [|[q [k' a]] l IH]; simpl; [done|].
  unfold strcmp_eq. destruct (String.eqb_spec k' k) as [->|].
  - intros [= ->]. exists a. by left.
  - intros (a' & ?)%IH. exists a'. by right.
Qed.

Lemma chain_loc_None k l : chain_loc k l = None <-> k ∉ l.*2.*1.
Proof.
  induction l as [|[q [k' a]] l IH]; simpl.
  - split; [intros _; apply not_elem_of_nil | done].
  - unfold strcmp_eq. rewrite not_elem_of_cons.
    destruct (String.eqb_spec k' k) as [->|]; naive_solver.
Qed.

(** *** Contents *)

Lemma contents_perm (c : list (list entry)) x rest :
  NoDup (concat c).*2.*1 -> concat c ≡ₚ x :: rest ->
  contents c = <[x.2.1:=x.2.2]> (list_to_map rest.*2) /\ x.2.1 ∉ rest.*2.*1.
Proof.
  intros Hnd Hp. unfold contents. destruct x as [p [k a]]; simpl.
  assert ((concat c).*2 ≡ₚ (k, a) :: rest.*2) as Hp2 by (rewrite Hp; done).
  split; [by rewrite (list_to_map_proper _ _ Hnd Hp2)|].
  rewrite Hp2 in Hnd. simpl in Hnd. by apply NoDup_cons in Hnd as [? _].
Qed.

Lemma elem_of_perm_cons {A} (x : A) l : x ∈ l -> exists rest, l ≡ₚ x :: rest.
Proof. intros (l1 & l2 & ->)%list_elem_of_split. exists (l1 ++ l2). by rewrite Permutation_middle. Qed.

Lemma key_slot_lt n k : (0 < n)%nat -> (key_slot n k < n)%nat.
Proof.
  intros Hn. unfold key_slot.
  pose proof (Z.mod_pos_bound (fnv1a_string_hash k) (Z.of_nat n)). lia.
Qed.

Lemma bucket_wf hp ht chains k :
  wf_table hp ht chains ->
  bucket ht k = Ok (Z.of_nat (key_slot (List.length chains) k)).
Proof.
  intros [_ Hl Hne _ _ _ _ _ _]. unfold bucket, key_slot. rewrite Hl.
  destruct (Z.eqb_spec (Z.of_nat (List.length chains)) 0); [lia|].
  rewrite Z2Nat.id; [done|]. apply Z.mod_pos_bound; lia.
Qed.

Lemma table_at_nat tbl i : table_at tbl (Z.of_nat i) = deref (tbl !! i).
Proof. unfold table_at. by rewrite Nat2Z.id. Qed.

(** The bucket of [k]: its chain holds [k] exactly when the map does. *)
Lemma wf_bucket hp ht chains k :
  wf_table hp ht chains ->
  exists tbl ptr l,
    t_table ht = Some tbl /\ Forall2 (chain hp) tbl chains /\
   tbl !! key_slot (List.length chains) k = Some ptr /\
   chains !! key_slot (List.length chains) k = Some l /\
   chain hp ptr l /\ (List.length l <= size hp)%nat /\ NoDup l.*1 /\
   (chain_loc k l = None <-> contents chains !! k = None).
Proof.
  intros Hwf. pose proof Hwf as [(tbl & Ht & HF) Hl Hne _ Hlocs Hkeys Hslots _ _].
  destruct (lookup_lt_is_Some_2 chains (key_slot (List.length chains) k)) as [l Hcl];
    [by apply key_slot_lt|].
  destruct (Forall2_lookup_r _ _ _ _ _ HF Hcl) as (ptr & Hp & Hch).
  assert (NoDup l.*1) by (by eapply NoDup_concat_chain).
  exists tbl, ptr, l. do 5 (split; [done|]).
  split; [by eapply chain_length_size|]. split; [done|].
  rewrite chain_loc_None. unfold contents.
  rewrite <- not_elem_of_list_to_map. split; intros Hnot Hin; apply Hnot.
  - apply list_elem_of_fmap in Hin as ([k1 a1] & -> & Hin).
    apply list_elem_of_fmap in Hin as ([p [k' a']] & [= -> ->] & Hin). simpl.
    apply list_elem_of_In, in_concat in Hin as (l' & Hl'%list_elem_of_In & Hin%list_elem_of_In).
    apply list_elem_of_lookup in Hl' as [i Hi].
    pose proof (Hslots _ _ Hi) as Hs. rewrite Forall_forall in Hs.
    pose proof (Hs _ Hin) as Hi'. unfold slot in Hi'. simpl in *. rewrite Hi' in Hcl.
    simplify_eq. apply list_elem_of_fmap. exists (k', a'). split; [done|].
    apply list_elem_of_fmap. by exists (p, (k', a')).
  - rewrite <- list_fmap_compose in *. apply list_elem_of_fmap in Hin as (x & -> & Hx).
    apply list_elem_of_fmap. exists x. split; [done|]. by eapply concat_lookup_split.
Qed.

(** A key found in its chain: where it is and what it maps to. *)
Lemma chain_loc_found hp ht chains i l k p :
  wf_table hp ht chains -> chains !! i = Some l -> chain_loc k l = Some p ->
  exists a l1 l2, l = l1 ++ (p, (k, a)) :: l2 /\ contents chains !! k = Some a.
Proof.
  intros Hwf Hi (a & Hin)%chain_loc_Some.
  apply (concat_lookup_split _ _ _ Hi) in Hin as Hc.
  apply list_elem_of_split in Hin as (l1 & l2 & ->).
  exists a, l1, l2. split; [done|].
  apply elem_of_perm_cons in Hc as (rest & Hp).
  destruct (contents_perm chains _ _ (wf_keys _ _ _ Hwf) Hp) as [-> _].
  by rewrite lookup_insert_eq.
Qed.

Lemma chain_app_cell hp ptr l1 p k a l2 :
  chain hp ptr (l1 ++ (p, (k, a)) :: l2) ->
  exists nxt prv, hp !! p = Some (Elem nxt prv k a) /\ chain hp nxt l2.
Proof.
  revert ptr. induction l1 as [|[q [k' a']] l1 IH]; intros ptr; simpl.
  - intros (-> & nxt & (prv & Hp)%core_Some & Hl). eauto.
  - intros (_ & nxt & _ & Hl). by eapply IH.
Qed.

(** *** Lookup *)

Lemma get_ptr_to_elem_wf hp ht chains k l :
  wf_table hp ht chains -> chains !! key_slot (List.length chains) k = Some l ->
  get_ptr_to_elem_by_key hp (Some ht) (Some k) = Ok (chain_loc k l).
Proof.
  intros Hwf Hl.
  destruct (wf_bucket _ _ _ k Hwf) as (tbl & ptr & l' & Ht & _ & Hp & Hl' & Hch & Hsz & _).
  simplify_eq. unfold get_ptr_to_elem_by_key. rewrite Ht.
  rewrite (bucket_wf _ _ _ _ Hwf), Ok_bind, table_at_nat, (deref_Some_bind _ _ _ Hp).
  apply find_elem_chain; [done|lia].
Qed.

Lemma get_value_represents hp ht m k :
  represents hp ht m ->
  get_ptr_to_value_by_key hp (Some ht) (Some k) = Ok (default None (m !! k)).
Proof.
  intros (chains & Hwf & ->).
  destruct (wf_bucket _ _ _ k Hwf) as (tbl & ptr & l & Ht & _ & Hp & Hl & Hch & _ & _ & Hk).
  unfold get_ptr_to_value_by_key. rewrite (get_ptr_to_elem_wf _ _ _ _ _ Hwf Hl). simpl.
  destruct (chain_loc k l) as [p|] eqn:E.
  - destruct (chain_loc_found _ _ _ _ _ _ _ Hwf Hl E) as (a & l1 & l2 & -> & ->).
    destruct (chain_app_cell _ _ _ _ _ _ _ Hch) as (nxt & prv & -> & _). done.
  - by rewrite (proj1 Hk eq_refl).
Qed.

Lemma check_key_represents hp ht m k :
  represents hp ht m ->
  check_key_exists hp (Some ht) (Some k) = Ok (if decide (is_Some (m !! k)) then 1 else 0).
Proof.
  intros (chains & Hwf & ->).
  destruct (wf_bucket _ _ _ k Hwf) as (tbl & ptr & l & Ht & _ & Hp & Hl & Hch & _ & _ & Hk).
  unfold check_key_exists. rewrite (get_ptr_to_elem_wf _ _ _ _ _ Hwf Hl). simpl.
  destruct (chain_loc k l) as [p|] eqn:E.
  - destruct (chain_loc_found _ _ _ _ _ _ _ Hwf Hl E) as (a & _ & _ & _ & ->).
    rewrite decide_True by eauto. done.
  - rewrite (proj1 Hk eq_refl), decide_False by (by intros [? ?]). done.
Qed.

(** *** Updating a cell in place *)

Lemma chain_set_address hp ptr l1 p k a l2 e a' :
  hp !! p = Some e -> NoDup (l1 ++ (p, (k, a)) :: l2).*1 ->
  chain hp ptr (l1 ++ (p, (k, a)) :: l2) ->
  chain (<[p:=set_address a' e]> hp) ptr (l1 ++ (p, (k, a')) :: l2).
Proof.
  intros Hp. revert ptr. induction l1 as [|[q [k1 a1]] l1 IH]; intros ptr; simpl.
  - intros [Hni Hnd]%NoDup_cons (-> & nxt & (prv & Hc)%core_Some & Hl).
    split; [done|]. simplify_eq. exists nxt. rewrite core_insert_eq. split; [done|].
    eapply chain_frame; [|done]. intros r Hr. apply core_insert_ne. set_solver.
  - intros [Hni Hnd]%NoDup_cons (-> & nxt & Hc & Hl). split; [done|]. exists nxt.
    rewrite core_insert_ne; [split; [done|by apply IH]|].
    intros ->. apply Hni. rewrite fmap_app. set_solver.
Qed.

Lemma chain_locs_concat (ls : list (list entry)) i l p :
  ls !! i = Some l -> p ∈ l.*1 -> p ∈ (concat ls).*1.
Proof.
  intros Hi (x & -> & Hx)%list_elem_of_fmap. apply list_elem_of_fmap.
  exists x. split; [done|]. by eapply concat_lookup_split.
Qed.

Lemma concat_disjoint (ls : list (list entry)) i j l l' p :
  NoDup (concat ls).*1 -> i <> j -> ls !! i = Some l -> ls !! j = Some l' ->
  p ∈ l.*1 -> p ∉ l'.*1.
Proof.
  revert i j. induction ls as [|l0 ls IH]; intros [|i] [|j] Hnd Hij Hi Hj Hp Hp';
    simplify_eq/=; rewrite fmap_app, NoDup_app in Hnd; destruct Hnd as (_ & Hd & Hnd).
  - eapply Hd; [done|]. by eapply chain_locs_concat.
  - eapply Hd; [done|]. by eapply chain_locs_concat.
  - eapply (IH i j); eauto.
Qed.

(** Replacing chain [i] when the other chains are untouched. *)
Lemma chains_update hp hp' tbl chains i ptr l l' :
  Forall2 (chain hp) tbl chains -> chains !! i = Some l ->
  NoDup (concat chains).*1 ->
  (forall p, p ∉ l.*1 -> p ∈ (concat chains).*1 -> core hp' p = core hp p) ->
  chain hp' ptr l' ->
  Forall2 (chain hp') (<[i:=ptr]> tbl) (<[i:=l']> chains).
Proof.
  intros HF Hi Hnd Hframe Hl'. apply Forall2_same_length_lookup_2.
  { rewrite !length_insert. by eapply Forall2_length. }
  intros j ptr' l'' Hptr Hl''.
  destruct (decide (i = j)) as [<-|Hij].
  - apply lookup_lt_Some in Hi as Hlt.
    rewrite list_lookup_insert_eq in Hptr by (by rewrite (Forall2_length _ _ _ HF)).
    rewrite list_lookup_insert_eq in Hl'' by done. by simplify_eq.
  - rewrite list_lookup_insert_ne in Hptr by done.
    rewrite list_lookup_insert_ne in Hl'' by done.
    eapply chain_frame; [|by eapply Forall2_lookup_lr].
    intros p Hp. apply Hframe.
    + by eapply (concat_disjoint chains j i).
    + by eapply chain_locs_concat.
Qed.

(** *** A new element on top of its chain *)

Lemma wf_push hp hp1 ht tbl chains l ptr p k a :
  let i := key_slot (List.length chains) k in
  wf_table hp ht chains -> t_table ht = Some tbl ->
  tbl !! i = Some ptr -> chains !! i = Some l -> chain hp ptr l ->
  contents chains !! k = None -> p ∉ dom hp ->
  core hp1 p = Some (ptr, k, a) -> (forall q, q <> p -> core hp1 q = core hp q) ->
  dom hp1 = {[p]} ∪ dom hp ->
  let chains1 := <[i:=(p, (k, a)) :: l]> chains in
  wf_table hp1 (Table (t_length ht) (Some (<[i:=Some p]> tbl)) (t_load_factor ht)
                  (t_elem_count ht + 1)) chains1 /\
  contents chains1 = <[k:=a]> (contents chains).
Proof.
  intros i Hwf Ht Hptr Hl Hch Hk Hp Hcp Hcq Hdom chains1.
  destruct Hwf as [(tbl' & Ht' & HF) Hlen Hne Hlf Hlocs Hkeys Hslots Hcnt Hd].
  rewrite Ht in Ht'. injection Ht' as <-.
  assert (concat chains1 ≡ₚ (p, (k, a)) :: concat chains) as Hperm
    by (by apply concat_insert_cons).
  assert (p ∉ (concat chains).*1) as Hpc by (rewrite Hd in Hp; set_solver).
  assert (k ∉ (concat chains).*2.*1) as Hkc by (by apply not_elem_of_list_to_map).
  assert (NoDup (concat chains1).*2.*1) as Hkeys1.
  { rewrite Hperm. simpl. by apply NoDup_cons. }
  split.
  - split; simpl.
    + exists (<[i:=Some p]> tbl). split; [done|].
      eapply chains_update; [done..| |].
      * intros q Hq1 Hq2. apply Hcq. by intros ->.
      * split; [done|]. exists ptr. split; [done|].
        eapply chain_frame; [|done]. intros q Hq. apply Hcq. intros ->.
        apply Hpc. by eapply chain_locs_concat.
    + unfold chains1. by rewrite length_insert.
    + unfold chains1. by rewrite length_insert.
    + done.
    + rewrite Hperm. simpl. by apply NoDup_cons.
    + done.
    + intros j lj Hj. unfold chains1 in Hj. unfold chains1. rewrite length_insert.
      destruct (decide (i = j)) as [<-|Hij].
      * rewrite list_lookup_insert_eq in Hj by (by eapply lookup_lt_Some).
        simplify_eq. constructor; [done|]. by apply Hslots.
      * rewrite list_lookup_insert_ne in Hj by done. by apply Hslots.
    + rewrite Hperm. simpl. lia.
    + rewrite Hdom, Hd, Hperm. simpl. done.
  - destruct (contents_perm chains1 _ _ Hkeys1 Hperm) as [-> _]. done.
Qed.

(** *** Moving the elements to a bigger table *)

Definition push_all (n : Z) (l : list entry) (nch : list (list entry)) : list (list entry) :=
  foldl (fun acc x => alter (cons x) (slot (Z.to_nat n) x) acc) nch l.

Lemma length_push_all n l nch : List.length (push_all n l nch) = List.length nch.
Proof. revert nch. induction l as [|x l IH]; intros nch; simpl; [done|]. by rewrite IH, length_alter. Qed.

Lemma alter_cons_insert {A} (nch : list (list A)) i l x :
  nch !! i = Some l -> alter (cons x) i nch = <[i:=x :: l]> nch.
Proof.
  revert i. induction nch as [|y nch IH]; intros [|i] Hi; simplify_eq/=; [done|].
  f_equal. by apply IH.
Qed.

Lemma slot_lookup (nch : list (list entry)) n x :
  List.length nch = Z.to_nat n -> (0 < n) -> exists l, nch !! slot (Z.to_nat n) x = Some l.
Proof.
  intros Hlen Hn. apply lookup_lt_is_Some_2. rewrite Hlen. apply key_slot_lt. lia.
Qed.

Lemma push_all_perm n l nch :
  List.length nch = Z.to_nat n -> 0 < n ->
  concat (push_all n l nch) ≡ₚ l ++ concat nch.
Proof.
  revert nch. induction l as [|x l IH]; intros nch Hlen Hn; simpl; [done|].
  destruct (slot_lookup nch n x Hlen Hn) as [l0 Hl0].
  rewrite IH by (rewrite ?length_alter; done).
  rewrite (alter_cons_insert _ _ _ _ Hl0), (concat_insert_cons _ _ _ _ Hl0).
  by rewrite <- Permutation_middle.
Qed.

Lemma push_all_slots n l nch :
  List.length nch = Z.to_nat n -> 0 < n ->
  (forall i l', nch !! i = Some l' -> Forall (fun x => slot (Z.to_nat n) x = i) l') ->
  forall i l', push_all n l nch !! i = Some l' ->
    Forall (fun x => slot (Z.to_nat n) x = i) l'.
Proof.
  revert nch. induction l as [|x l IH]; intros nch Hlen Hn Hs; simpl; [done|].
  apply IH; [by rewrite length_alter|done|].
  destruct (slot_lookup nch n x Hlen Hn) as [l0 Hl0].
  rewrite (alter_cons_insert _ _ _ _ Hl0). intros i l' Hi.
  destruct (decide (slot (Z.to_nat n) x = i)) as [<-|].
  - rewrite list_lookup_insert_eq in Hi by (by eapply lookup_lt_Some).
    simplify_eq. constructor; [done|]. by apply Hs.
  - rewrite list_lookup_insert_ne in Hi by done. by apply Hs.
Qed.

(** Relinking [p] under [top] and writing the back link of [top]. *)
Lemma relink_top hp p nxt prv k a top :
  hp !! p = Some (Elem nxt prv k a) ->
  (forall q, top = Some q -> q <> p /\ is_Some (hp !! q)) ->
  exists hp2,
    (hp1 ← store (set_next top) p hp;
     match top with
     | Some q => store (set_prev (Some p)) q hp1
     | None => mret hp1
     end) = Ok hp2 /\
    core hp2 p = Some (top, k, a) /\
    (forall r, r <> p -> core hp2 r = core hp r) /\ dom hp2 = dom hp.
Proof.
  intros Hp Htop. rewrite (store_Some _ _ _ _ Hp), Ok_bind.
  set (hp1 := <[p:=set_next top (Elem nxt prv k a)]> hp).
  assert (dom hp1 = dom hp) as Hd1.
  { unfold hp1. rewrite dom_insert_L. apply elem_of_dom_2 in Hp. set_solver. }
  destruct top as [q|].
  - destruct (Htop q eq_refl) as [Hne [e Hq]].
    assert (hp1 !! q = Some e) as Hq1 by (unfold hp1; by rewrite lookup_insert_ne).
    exists (<[q:=set_prev (Some p) e]> hp1).
    split; [by apply store_Some|]. split; [|split].
    + rewrite core_set_prev by done. by apply core_insert_eq.
    + intros r Hr. rewrite core_set_prev by done. by apply core_insert_ne.
    + rewrite dom_insert_L, Hd1. apply elem_of_dom_2 in Hq. set_solver.
  - exists hp1. split; [done|]. split; [apply core_insert_eq|]. split; [|done].
    intros r Hr. by apply core_insert_ne.
Qed.

Lemma move_chain_cons fuel hp old new i n p e :
  hp !! p = Some e ->
  move_chain (S fuel) hp old new i n (Some p) =
    (top ← table_at new (fnv1a_string_hash (e_key e) mod n);
     hp2 ← (hp1 ← store (set_next top) p hp;
            match top with
            | Some q => store (set_prev (Some p)) q hp1
            | None => mret hp1
            end);
     move_chain fuel hp2 (<[i:=e_next e]> old)
       (<[Z.to_nat (fnv1a_string_hash (e_key e) mod n):=Some p]> new) i n (e_next e)).
Proof.
  intros Hp. cbn [move_chain]. rewrite (deref_Some_bind _ _ _ Hp). cbn zeta.
  destruct (table_at _ _) as [top| |]; [|done|done]. rewrite !Ok_bind.
  by destruct (store _ p hp).
Qed.

Lemma chains_top hp tbl chains i q p :
  Forall2 (chain hp) tbl chains -> tbl !! i = Some (Some q) ->
  p ∉ (concat chains).*1 -> q <> p /\ is_Some (hp !! q).
Proof.
  intros HF Hi Hp. destruct (Forall2_lookup_l _ _ _ _ _ HF Hi) as (l & Hl & Hc).
  destruct (chain_head _ _ _ Hc) as (k & a & l' & -> & ?). split; [|done].
  intros ->. apply Hp. eapply chain_locs_concat; [done|]. simpl. set_solver.
Qed.

Lemma move_chain_spec l : forall fuel hp old new nch i n ptr,
  (List.length l < fuel)%nat -> chain hp ptr l -> Forall2 (chain hp) new nch ->
  List.length nch = Z.to_nat n -> 0 < n -> NoDup (l ++ concat nch).*1 ->
  exists hp' old' new',
    move_chain fuel hp old new i n ptr = Ok (hp', old', new') /\
    Forall2 (chain hp') new' (push_all n l nch) /\
    List.length old' = List.length old /\
    (forall j, j <> i -> old' !! j = old !! j) /\
    (forall q, q ∉ (l ++ concat nch).*1 -> core hp' q = core hp q) /\
    dom hp' = dom hp.
Proof.
  induction l as [|[p [k a]] l IH]; intros [|fuel] hp old new nch i n ptr Hf Hch HF Hlen Hn Hnd;
    [simpl in Hf; lia| |simpl in Hf; lia|].
  { simpl in Hch. subst. exists hp, old, new. done. }
  destruct Hch as (-> & nxt & (prv & Hp)%core_Some & Hl).
  destruct (slot_lookup nch n (p, (k, a)) Hlen Hn) as [l0 Hl0].
  destruct (Forall2_lookup_r _ _ _ _ _ HF Hl0) as (top & Htop & Hch0).
  simpl in Hnd. apply NoDup_cons in Hnd as [Hni Hnd].
  rewrite fmap_app in Hni. apply not_elem_of_app in Hni as [Hnil Hnic].
  pose proof Hnd as Hnd'. rewrite fmap_app in Hnd'. apply NoDup_app in Hnd' as (Hndl & Hdisj & Hndc).
  rewrite (move_chain_cons _ _ _ _ _ _ _ _ Hp). cbn [e_key e_next].
  assert (Z.to_nat (fnv1a_string_hash k mod n) = slot (Z.to_nat n) (p, (k, a))) as Hs.
  { unfold slot, key_slot. simpl. by rewrite Z2Nat.id by lia. }
  unfold table_at. rewrite Hs, (deref_Some_bind _ _ _ Htop).
  destruct (relink_top hp p nxt prv k a top Hp) as (hp2 & -> & Hcp & Hcr & Hdom).
  { intros q ->. by eapply chains_top. }
  rewrite Ok_bind.
  assert (chain hp2 top l0) as Hch0'.
  { eapply chain_frame; [|done]. intros r Hr. apply Hcr. intros ->.
    apply Hnic. by eapply chain_locs_concat. }
  destruct (IH fuel hp2 (<[i:=nxt]> old) (<[slot (Z.to_nat n) (p, (k, a)):=Some p]> new)
              (<[slot (Z.to_nat n) (p, (k, a)):=(p, (k, a)) :: l0]> nch) i n nxt)
    as (hp' & old' & new' & Hmv & HF' & Hlo & Hold & Hfr & Hd').
  - simpl in Hf. lia.
  - eapply chain_frame; [|done]. intros r Hr. apply Hcr. by intros ->.
  - eapply chains_update; [done..| |].
    + intros r _ Hr. apply Hcr. by intros ->.
    + split; [done|]. by exists top.
  - by rewrite length_insert.
  - done.
  - rewrite fmap_app, (concat_insert_cons _ _ _ _ Hl0). simpl.
    rewrite <- Permutation_middle, <- fmap_app. apply NoDup_cons. split; [|done].
    rewrite fmap_app. set_solver.
  - exists hp', old', new'. split; [done|]. split; [|split; [|split; [|split]]].
    + simpl. by rewrite (alter_cons_insert _ _ _ _ Hl0).
    + by rewrite Hlo, length_insert.
    + intros j Hj. rewrite Hold by done. by rewrite list_lookup_insert_ne.
    + intros q Hq. simpl in Hq. apply not_elem_of_cons in Hq as [Hqp Hq].
      rewrite Hfr, Hcr; [done..|]. rewrite fmap_app, (concat_insert_cons _ _ _ _ Hl0).
      rewrite fmap_app in Hq. simpl. set_solver.
    + congruence.
Qed.

Lemma push_all_app n l1 l2 nch : push_all n (l1 ++ l2) nch = push_all n l2 (push_all n l1 nch).
Proof. unfold push_all. by rewrite foldl_app. Qed.

Lemma rehash_loop_spec todo : forall i hp old new och nch n,
  Forall2 (chain hp) (drop i old) och -> List.length och = todo ->
  Forall2 (chain hp) new nch -> List.length nch = Z.to_nat n -> 0 < n ->
  NoDup (concat och ++ concat nch).*1 ->
  exists hp' old' new',
    rehash_loop todo i hp old new n = Ok (hp', old', new') /\
    Forall2 (chain hp') new' (push_all n (concat och) nch) /\ dom hp' = dom hp.
Proof.
  induction todo as [|todo IH]; intros i hp old new och nch n HFo Hlo HFn Hlen Hn Hnd.
  { destruct och; [|done]. exists hp, old, new. done. }
  destruct och as [|l och]; [done|]. injection Hlo as Hlo.
  destruct (drop i old) as [|ptr rest] eqn:Hdrop; [by inversion HFo|].
  apply Forall2_cons in HFo as [Hch HFo].
  assert (old !! i = Some ptr) as Hi.
  { rewrite <- (Nat.add_0_r i), <- lookup_drop, Hdrop. done. }
  assert (drop (S i) old = rest) as Hdrop'.
  { by rewrite <- Nat.add_1_r, <- drop_drop, Hdrop. }
  simpl in Hnd. rewrite <- app_assoc in Hnd.
  assert (NoDup (l ++ concat nch).*1) as Hnd1.
  { rewrite !fmap_app, !NoDup_app in *. set_solver. }
  cbn [rehash_loop]. rewrite table_at_nat, (deref_Some_bind _ _ _ Hi).
  destruct (move_chain_spec l (S (size hp)) hp old new nch i n ptr)
    as (hp1 & old1 & new1 & -> & HFn1 & Hl1 & Hold1 & Hfr & Hd1); [|done..|].
  { assert (List.length l <= size hp)%nat; [|lia].
    eapply chain_length_size; [done|]. rewrite fmap_app, NoDup_app in Hnd1. tauto. }
  rewrite Ok_bind.
  destruct (IH (S i) hp1 old1 new1 och (push_all n l nch) n) as (hp' & old' & new' & -> & HF' & Hd').
  - assert (drop (S i) old1 = drop (S i) old) as ->.
    { apply list_eq. intros j. rewrite !lookup_drop. apply Hold1. lia. }
    rewrite Hdrop'. eapply chains_frame; [|done].
    intros q Hq. apply Hfr. rewrite !fmap_app, !NoDup_app in Hnd. rewrite fmap_app. set_solver.
  - done.
  - done.
  - by rewrite length_push_all.
  - done.
  - rewrite fmap_app, (push_all_perm n l nch) by done. rewrite <- fmap_app.
    rewrite (Permutation_app_swap_app (concat och)). done.
  - exists hp', old', new'. split; [done|]. rewrite Hd', Hd1. split; [|done].
    simpl. by rewrite push_all_app.
Qed.

Lemma concat_replicate_nil {A} n : concat (replicate n ([] : list A)) = [].
Proof. by induction n. Qed.

(** The resize keeps the contents and restores the table invariant. *)
Lemma wf_rehash hp ht tbl chains n :
  wf_table hp ht chains -> t_table ht = Some tbl -> 0 < n ->
  exists hp' old' new' chains',
    rehash_loop (Z.to_nat (t_length ht)) 0 hp tbl (replicate (Z.to_nat n) None) n
      = Ok (hp', old', new') /\
    wf_table hp' (Table n (Some new') (t_load_factor ht) (t_elem_count ht)) chains' /\
    contents chains' = contents chains.
Proof.
  intros [(tbl' & Ht & HF) Hlen Hne Hlf Hlocs Hkeys Hslots Hcnt Hd] Ht' Hn.
  rewrite Ht in Ht'. injection Ht' as ->.
  assert (List.length (replicate (Z.to_nat n) ([] : list entry)) = Z.to_nat n) as Hrl
    by apply length_replicate.
  destruct (rehash_loop_spec (Z.to_nat (t_length ht)) 0 hp tbl (replicate (Z.to_nat n) None)
              chains (replicate (Z.to_nat n) []) n)
    as (hp' & old' & new' & -> & HF' & Hd').
  - done.
  - rewrite Hlen. by rewrite Nat2Z.id.
  - apply Forall2_replicate. done.
  - done.
  - done.
  - rewrite concat_replicate_nil, app_nil_r. done.
  - set (chains' := push_all n (concat chains) (replicate (Z.to_nat n) [])) in *.
    assert (concat chains' ≡ₚ concat chains) as Hperm.
    { unfold chains'. rewrite push_all_perm by done.
      by rewrite concat_replicate_nil, app_nil_r. }
    assert (List.length chains' = Z.to_nat n) as Hl'.
    { unfold chains'. by rewrite length_push_all. }
    exists hp', old', new', chains'. split; [done|]. split.
    + split; simpl.
      * eauto.
      * lia.
      * lia.
      * done.
      * by rewrite Hperm.
      * by rewrite Hperm.
      * intros i l Hi. rewrite Hl'. eapply push_all_slots; [..|done]; [done..|].
        intros j l' [-> _]%lookup_replicate_1. constructor.
      * by rewrite Hperm.
      * by rewrite Hd', Hd, Hperm.
    + unfold contents. apply list_to_map_proper; by rewrite Hperm.
Qed.

(** The code of an insertion in front of a given head, or chain. *)
Definition head_code (head : option loc) : Z :=
  match head with
  | None => HASH_ENTRY_SUCCESS
  | Some _ => Z.lor HASH_ENTRY_SUCCESS HASH_ENTRY_COLLISION
  end.
Definition chain_code (l : list entry) : Z :=
  match l with
  | [] => HASH_ENTRY_SUCCESS
  | _ :: _ => Z.lor HASH_ENTRY_SUCCESS HASH_ENTRY_COLLISION
  end.

Lemma chain_head_code hp ptr l : chain hp ptr l -> head_code ptr = chain_code l.
Proof. destruct l as [|[p [k a]] l]; simpl; [by intros ->|]. by intros [-> _]. Qed.

(** Linking a fresh cell on top of a chain. *)
Lemma push_cell hp tbl chains i ptr p k a :
  Forall2 (chain hp) tbl chains -> tbl !! i = Some ptr -> p ∉ dom hp ->
  let hp0 := <[p:=Elem None None k a]> hp in
  exists hp1,
    match ptr with
    | None => mret (HASH_ENTRY_SUCCESS, hp0)
    | Some q =>
        hp' ← store (set_next (Some q)) p hp0;
        hp'' ← store (set_prev (Some p)) q hp';
        mret (Z.lor HASH_ENTRY_SUCCESS HASH_ENTRY_COLLISION, hp'')
    end = Ok (head_code ptr, hp1) /\
    core hp1 p = Some (ptr, k, a) /\
    (forall q, q <> p -> core hp1 q = core hp q) /\ dom hp1 = {[p]} ∪ dom hp.
Proof.
  intros HF Hi Hp hp0.
  assert (hp0 !! p = Some (Elem None None k a)) as Hp0 by apply lookup_insert_eq.
  assert (forall q, q <> p -> core hp0 q = core hp q) as Hc0.
  { intros q Hq. by apply core_insert_ne. }
  destruct ptr as [q|].
  - destruct (relink_top hp0 p None None k a (Some q) Hp0) as (hp1 & Heq & Hcp & Hcq & Hd).
    { intros q' [= <-]. destruct (Forall2_lookup_l _ _ _ _ _ HF Hi) as (l & _ & Hc).
      destruct (chain_head _ _ _ Hc) as (? & ? & ? & _ & [e He]).
      assert (q <> p) by (intros ->; apply Hp; by eapply elem_of_dom_2).
      split; [done|]. unfold hp0. by rewrite lookup_insert_ne. }
    exists hp1. split; [|split; [done|split]].
    + destruct (store (set_next (Some q)) p hp0); [|done..]. rewrite !Ok_bind in *.
      by rewrite Heq.
    + intros r Hr. by rewrite Hcq, Hc0.
    + rewrite Hd. unfold hp0. by rewrite dom_insert_L.
  - exists hp0. split; [done|]. split; [apply core_insert_eq|]. split; [done|].
    unfold hp0. by rewrite dom_insert_L.
Qed.

(** When [check_grow] asks for a bigger table. *)
Definition grows (len count : Z) : bool :=
  round32 (round32 len * DEFAULT_LOAD_FACTOR) <=? 4 * round32 (count + 1).

Lemma insert_new_spec al hp ht chains k a p :
  alloc_table al = true ->
  wf_table hp ht chains -> contents chains !! k = None -> p ∉ dom hp ->
  t_elem_count ht + 2 <= INT_MAX -> t_length ht * 2 < two64 ->
  exists result hp' ht' chains' l,
    insert_new al (<[p:=Elem None None k a]> hp) ht
      (Z.of_nat (key_slot (List.length chains) k)) p = Ok (result, hp', ht') /\
    wf_table hp' ht' chains' /\ contents chains' = <[k:=a]> (contents chains) /\
    chains !! key_slot (List.length chains) k = Some l /\
    t_elem_count ht' = t_elem_count ht + 1 /\
    t_length ht' = (if grows (t_length ht) (t_elem_count ht + 1)
                    then 2 * t_length ht else t_length ht) /\
    result = Z.lor (chain_code l)
               (if grows (t_length ht) (t_elem_count ht + 1) then HASH_TABLE_RESIZED else 0).
Proof.
  intros Hal Hwf Hk Hp Hcnt Hlen2.
  destruct (wf_bucket _ _ _ k Hwf) as (tbl & ptr & l & Ht & HF & Hptr & Hl & Hch & _).
  destruct (push_cell hp tbl chains _ ptr p k a HF Hptr Hp) as (hp1 & Hpush & Hcp & Hcq & Hd).
  destruct (wf_push hp hp1 ht tbl chains l ptr p k a Hwf Ht Hptr Hl Hch Hk Hp Hcp Hcq Hd)
    as [Hwf1 Hcont1].
  unfold insert_new. rewrite Ht. cbn [deref]. rewrite Ok_bind, table_at_nat.
  rewrite (deref_Some_bind _ _ _ Hptr), Hpush, Ok_bind, Nat2Z.id.
  destruct (Z.ltb_spec INT_MAX (t_elem_count ht + 1)); [lia|].
  set (ht1 := Table _ _ _ _) in Hwf1. fold ht1.
  set (chains1 := <[_:=_]> chains) in Hwf1, Hcont1.
  unfold check_grow. cbn [t_elem_count t_length t_load_factor ht1].
  destruct (Z.ltb_spec INT_MAX (t_elem_count ht + 1 + 1)); [lia|].
  rewrite (wf_load_factor _ _ _ Hwf). fold (grows (t_length ht) (t_elem_count ht + 1)).
  rewrite (chain_head_code _ _ _ Hch).
  assert (0 < t_length ht).
  { rewrite (wf_length _ _ _ Hwf). pose proof (wf_nonempty _ _ _ Hwf). lia. }
  destruct (grows _ _) eqn:Hg.
  - rewrite Ok_bind, u64_id by lia.
    destruct (Z.eqb_spec (t_length ht * 2) 0); [lia|]. rewrite Hal. cbn [negb].
    destruct (wf_rehash hp1 ht1 _ chains1 (t_length ht * 2) Hwf1 eq_refl)
      as (hp2 & old' & new' & chains2 & Hre & Hwf2 & Hc2); [lia|].
    change (t_length ht1) with (t_length ht) in Hre. rewrite Hre, Ok_bind.
    unfold ht1 in Hwf2. cbn [t_load_factor t_elem_count] in Hwf2.
    rewrite (wf_load_factor _ _ _ Hwf) in Hwf2.
    eexists _, hp2, _, chains2, l. split; [done|].
    split; [exact Hwf2|]. rewrite Hc2, Hcont1. split; [done|]. split; [done|].
    split; [done|]. split; [simpl; lia|]. done.
  - rewrite Ok_bind. simpl.
    eexists _, hp1, _, chains1, l. split; [done|].
    split; [exact Hwf1|]. split; [done|]. split; [done|]. split; [done|].
    split; [done|]. by destruct l.
Qed.

(** A key whose bucket is already in use. *)
Definition collides (n : nat) (m : gmap string (option V)) (k : string) : Prop :=
  exists k', is_Some (m !! k') /\ key_slot n k' = key_slot n k.

Lemma bucket_collides hp ht chains k l :
  wf_table hp ht chains -> chains !! key_slot (List.length chains) k = Some l ->
  collides (List.length chains) (contents chains) k <-> l <> [].
Proof.
  intros Hwf Hl. split.
  - intros (k' & Hk' & Hs) ->.
    destruct (wf_bucket _ _ _ k' Hwf) as (_ & _ & l' & _ & _ & _ & Hl' & _ & _ & _ & Hiff).
    rewrite Hs in Hl'. simplify_eq. destruct Hk' as [a Ha].
    by rewrite (proj1 Hiff eq_refl) in Ha.
  - destruct l as [|[p [k' a]] l]; [done|]. intros _. exists k'. split.
    + destruct (elem_of_perm_cons (p, (k', a)) (concat chains)) as (rest & Hp).
      { eapply concat_lookup_split; [done|]. by left. }
      destruct (contents_perm chains _ _ (wf_keys _ _ _ Hwf) Hp) as [-> _]. simpl.
      rewrite lookup_insert_eq. eauto.
    + pose proof (wf_slots _ _ _ Hwf _ _ Hl) as Hs. by apply Forall_cons in Hs as [Hs _].
Qed.

(** *** Deleting *)

(** Three steps and an answer. *)
Lemma run_three {A B C D} (m : outcome A) (f : A -> outcome B) (g : B -> outcome C)
    (h : C -> D) c :
  (a ← m; b ← f a; g b) = Ok c -> (a ← m; b ← f a; c ← g b; mret (h c)) = Ok (h c).
Proof. intros (a & -> & (b & Hb & Hg)%bind_Ok)%bind_Ok. by rewrite Ok_bind, Hb, Ok_bind, Hg. Qed.

(** The new neighbour of the next cell. *)
Lemma set_prev_head hp nxt l v :
  chain hp nxt l ->
  exists hp',
    match nxt with Some n => store (set_prev v) n hp | None => mret hp end = Ok hp' /\
    (forall q, core hp' q = core hp q) /\ dom hp' = dom hp.
Proof.
  intros Hl. destruct nxt as [n|]; [|by exists hp].
  destruct (chain_head _ _ _ Hl) as (kn & an & l' & -> & [e He]).
  exists (<[n:=set_prev v e]> hp). split; [by apply store_Some|].
  split; [intros q; by apply core_set_prev|]. rewrite dom_insert_L.
  apply elem_of_dom_2 in He. set_solver.
Qed.

(** Taking the head off its chain. *)
Lemma unlink_head hp h nxt prv k a l :
  hp !! h = Some (Elem nxt prv k a) -> chain hp nxt l -> h ∉ l.*1 ->
  exists hp2,
    (forall B (f : heap V -> outcome B),
      (hp1 ← free_elem h hp;
       hp2 ← match nxt with Some p => store (set_prev None) p hp1 | None => mret hp1 end;
       f hp2) = f hp2) /\
    chain hp2 nxt l /\ dom hp2 = dom hp ∖ {[h]} /\ (forall q, q <> h -> core hp2 q = core hp q).
Proof.
  intros Hh Hl Hni.
  assert (forall q, q <> h -> core (delete h hp) q = core hp q) as Hcd
    by (intros q Hq; by apply core_delete_ne).
  assert (chain (delete h hp) nxt l) as Hl1
    by (eapply chain_frame; [|exact Hl]; intros q Hq; apply Hcd; set_solver).
  destruct (set_prev_head (delete h hp) nxt l None Hl1) as (hp2 & Hrun & Hc & Hd).
  exists hp2. split; [intros B f; by rewrite (free_elem_Some _ _ _ Hh), Ok_bind, Hrun|]. split; [|split].
  - eapply chain_frame; [|done]. intros q _. apply Hc.
  - by rewrite Hd, dom_delete_L.
  - intros q Hq. rewrite Hc. by apply Hcd.
Qed.

(** Taking the cell behind [h] out of its chain. *)
Lemma unlink_next hp h p nxt prv k a kh ah prvh l :
  hp !! h = Some (Elem (Some p) prvh kh ah) -> hp !! p = Some (Elem nxt prv k a) ->
  chain hp nxt l -> NoDup (h :: p :: l.*1) ->
  exists hp3,
    (hp1 ← free_elem p hp;
     hp2 ← store (set_next nxt) h hp1;
     match nxt with
     | Some n => store (set_prev (Some h)) n hp2
     | None => mret hp2
     end) = Ok hp3 /\
    chain hp3 (Some h) ((h, (kh, ah)) :: l) /\ dom hp3 = dom hp ∖ {[p]} /\
    (forall q, q <> h -> q <> p -> core hp3 q = core hp q).
Proof.
  intros Hh Hp Hl [Hhn [Hpn _]%NoDup_cons]%NoDup_cons.
  rewrite (free_elem_Some _ _ _ Hp), Ok_bind.
  assert (delete p hp !! h = Some (Elem (Some p) prvh kh ah)) as Hh1
    by (rewrite lookup_delete_ne; [done|set_solver]).
  rewrite (store_Some _ _ _ _ Hh1), Ok_bind.
  set (hp2 := <[h:=set_next nxt (Elem (Some p) prvh kh ah)]> (delete p hp)).
  assert (forall q, q <> h -> q <> p -> core hp2 q = core hp q) as Hcq2.
  { intros q Hqh Hqp. unfold hp2. by rewrite core_insert_ne, core_delete_ne. }
  assert (chain hp2 nxt l) as Hl2
    by (eapply chain_frame; [|done]; intros q Hq; apply Hcq2; set_solver).
  destruct (set_prev_head hp2 nxt l (Some h) Hl2) as (hp3 & Hrun & Hc3 & Hd3).
  exists hp3. split; [exact Hrun|]. split; [split; [done|]|split].
  - exists nxt. rewrite Hc3. split; [apply core_insert_eq|].
    eapply chain_frame; [|done]. intros q _. apply Hc3.
  - rewrite Hd3. unfold hp2. rewrite dom_insert_L, dom_delete_L.
    apply elem_of_dom_2 in Hh. set_solver.
  - intros q Hqh Hqp. rewrite Hc3. by apply Hcq2.
Qed.

Lemma delete_in_chain_spec k : forall l fuel hp h kh ah ptr,
  (List.length l < fuel)%nat ->
  core hp h = Some (ptr, kh, ah) -> chain hp ptr l -> NoDup (h :: l.*1) ->
  match chain_loc k l with
  | None => delete_in_chain fuel hp h ptr k = Ok (HASH_ENTRY_FAILED, hp)
  | Some p => exists hp' l1 a l2,
      l = l1 ++ (p, (k, a)) :: l2 /\
      delete_in_chain fuel hp h ptr k
        = Ok (Z.lor HASH_ENTRY_SUCCESS HASH_ENTRY_COLLISION, hp') /\
      chain hp' (Some h) ((h, (kh, ah)) :: l1 ++ l2) /\
      dom hp' = dom hp ∖ {[p]} /\
      (forall q, q ∉ h :: l.*1 -> core hp' q = core hp q)
  end.
Proof.
  induction l as [|[p [k' a]] l IH]; intros [|fuel] hp h kh ah ptr Hf Hh Hl Hnd;
    [simpl in Hf; lia| |simpl in Hf; lia|].
  { simpl in *. by subst. }
  destruct Hl as (-> & nxt & (prv & Hp)%core_Some & Hl).
  cbn [chain_loc delete_in_chain]. rewrite (deref_Some_bind _ _ _ Hp). cbn [e_key e_next].
  simpl in Hnd. apply NoDup_cons in Hnd as [Hhn Hnd].
  apply NoDup_cons in Hnd as [Hpn Hnd].
  assert (h <> p) as Hhp by set_solver.
  destruct (strcmp_eq k' k) eqn:Ek.
  - apply String.eqb_eq in Ek as ->. cbn zeta. apply core_Some in Hh as (prvh & Hh).
    destruct (unlink_next hp h p nxt prv k a kh ah prvh l Hh Hp Hl) as (hp3 & Hrun & Hch & Hd & Hfr);
      [by repeat apply NoDup_cons_2; set_solver|].
    exists hp3, [], a, l. split; [done|]. split; [by apply run_three|].
    split; [done|]. split; [done|]. intros q Hq. apply Hfr; set_solver.
  - cbn zeta. specialize (IH fuel hp p k' a nxt).
    destruct (chain_loc k l) as [p'|] eqn:Eloc.
    + destruct IH as (hp' & l1 & a' & l2 & -> & Hdel & Hch & Hd & Hfr).
      { simpl in Hf. lia. }
      { apply core_Some. eauto. }
      { done. }
      { apply NoDup_cons. done. }
      exists hp', ((p, (k', a)) :: l1), a', l2. split; [done|]. split; [done|].
      split; [|split; [done|]].
      * split; [done|]. exists (Some p). rewrite Hfr by set_solver. done.
      * intros q Hq. apply Hfr. set_solver.
    + apply IH; [simpl in Hf; lia| |done|].
      * apply core_Some. eauto.
      * apply NoDup_cons. done.
Qed.

(** Taking one entry out of one chain. *)
Lemma wf_remove hp hp' ht tbl chains i ptr l1 p k a l2 :
  wf_table hp ht chains -> t_table ht = Some tbl ->
  chains !! i = Some (l1 ++ (p, (k, a)) :: l2) ->
  chain hp' ptr (l1 ++ l2) ->
  (forall q, q ∉ (l1 ++ (p, (k, a)) :: l2).*1 -> core hp' q = core hp q) ->
  dom hp' = dom hp ∖ {[p]} ->
  let chains' := <[i:=l1 ++ l2]> chains in
  wf_table hp' (Table (t_length ht) (Some (<[i:=ptr]> tbl)) (t_load_factor ht)
                  (t_elem_count ht)) chains' /\
  contents chains' = delete k (contents chains).
Proof.
  intros [(tbl' & Ht' & HF) Hlen Hne Hlf Hlocs Hkeys Hslots Hcnt Hd] Ht Hi Hch Hfr Hdom chains'.
  rewrite Ht in Ht'. injection Ht' as <-.
  destruct (concat_insert_split chains i _ (l1 ++ l2) Hi) as (pre & post & Hc & Hc').
  fold chains' in Hc'.
  assert (concat chains ≡ₚ (p, (k, a)) :: concat chains') as Hperm.
  { rewrite Hc, Hc'. solve_Permutation. }
  destruct (contents_perm chains _ _ Hkeys Hperm) as [Hcont Hk]. simpl in Hcont, Hk.
  rewrite Hperm in Hlocs, Hkeys. simpl in Hlocs, Hkeys.
  apply NoDup_cons in Hlocs as [Hp Hlocs']. apply NoDup_cons in Hkeys as [_ Hkeys'].
  split.
  - split; simpl.
    + eexists. split; [done|]. eapply chains_update; [done..| | |done].
      * rewrite Hperm. simpl. by apply NoDup_cons.
      * intros q Hq _. by apply Hfr.
    + unfold chains'. by rewrite length_insert.
    + unfold chains'. by rewrite length_insert.
    + done.
    + done.
    + done.
    + intros j l Hj. unfold chains' in Hj |- *. rewrite length_insert.
      destruct (decide (i = j)) as [<-|Hij].
      * rewrite list_lookup_insert_eq in Hj by (by eapply lookup_lt_Some).
        simplify_eq. apply Hslots in Hi.
        apply Forall_app in Hi as [? Hi]. apply Forall_cons in Hi as [_ ?].
        by apply Forall_app.
      * rewrite list_lookup_insert_ne in Hj by done. by apply Hslots.
    + rewrite Hperm in Hcnt. simpl in Hcnt. lia.
    + rewrite Hdom, Hd, Hperm. simpl. set_solver.
  - rewrite Hcont. unfold contents. rewrite delete_insert_id; [done|].
    by apply not_elem_of_list_to_map.
Qed.

Lemma delete_entry_represents hp ht m k :
  represents hp ht m ->
  exists code hp' ht',
    delete_entry hp (Some ht) (Some k) = Ok (code, hp', Some ht') /\
    represents hp' ht' (delete k m) /\
    t_elem_count ht' = t_elem_count ht /\ t_length ht' = t_length ht /\
    (if decide (is_Some (m !! k)) then Z.testbit code 0 = true
     else code = HASH_ENTRY_FAILED /\ hp' = hp /\ ht' = ht).
Proof.
  intros (chains & Hwf & ->).
  destruct (wf_bucket _ _ _ k Hwf)
    as (tbl & ptr & l & Ht & HF & Hptr & Hl & Hch & Hsz & Hnd & Hiff).
  cbn [delete_entry deref]. rewrite Ok_bind, (bucket_wf _ _ _ _ Hwf), Ok_bind, Ht.
  cbn [deref]. rewrite Ok_bind, table_at_nat, (deref_Some_bind _ _ _ Hptr), Nat2Z.id.
  assert (contents chains !! k = None -> represents hp ht (delete k (contents chains))) as Hno.
  { intros Hk. rewrite delete_id by done. by exists chains. }
  destruct l as [|[h [kh ah]] l].
  { simpl in Hch. subst. pose proof (proj1 Hiff eq_refl) as Hk.
    exists HASH_ENTRY_FAILED, hp, ht. rewrite Hk, decide_False by (by intros [? ?]).
    split; [done|]. split; [|done]. by apply Hno. }
  pose proof Hch as (-> & nxt & Hch' & Hl'). apply core_Some in Hch' as (prv & Hh).
  rewrite (deref_Some_bind _ _ _ Hh). cbn [e_key e_next].
  simpl in Hnd. simpl in Hsz. pose proof Hnd as [Hni Hnd']%NoDup_cons.
  destruct (strcmp_eq kh k) eqn:Ek.
  - apply String.eqb_eq in Ek as ->.
    destruct (chain_loc_found hp ht chains _ _ k h Hwf Hl) as (a' & _ & _ & _ & Hk).
    { simpl. unfold strcmp_eq. by rewrite String.eqb_refl. }
    cbn zeta. destruct (unlink_head hp h nxt prv k ah l) as (hp2 & Hrun & Hl2 & Hd2 & Hc2); [done..|].
    rewrite Hrun.
    destruct (wf_remove hp hp2 ht tbl chains _ nxt [] h k ah l Hwf Ht Hl) as [Hwf' Hcont];
      [done|intros q Hq; apply Hc2; set_solver|done|].
    eexists _, _, _. split; [done|]. rewrite Hk, decide_True by eauto.
    split; [|done]. eexists. split; [exact Hwf'|]. by rewrite Hcont.
  - pose proof (delete_in_chain_spec k l (S (size hp)) hp h kh ah nxt) as Hdel.
    cbn [chain_loc] in Hiff. rewrite Ek in Hiff.
    destruct (chain_loc k l) as [p|] eqn:Eloc.
    + destruct Hdel as (hp' & l1 & a & l2 & -> & -> & Hch2 & Hd2 & Hfr).
      { lia. } { apply core_Some. eauto. } { done. } { done. }
      rewrite Ok_bind.
      destruct (wf_remove hp hp' ht tbl chains _ (Some h) ((h, (kh, ah)) :: l1) p k a l2 Hwf Ht Hl)
        as [Hwf' Hcont]; [done..|].
      rewrite list_insert_id in Hwf' by done.
      eexists _, hp', ht. split; [done|].
      destruct (chain_loc_found hp ht chains _ _ k p Hwf Hl) as (a' & _ & _ & _ & Hk).
      { cbn [chain_loc]. by rewrite Ek. }
      rewrite Hk, decide_True by eauto. split; [|done].
      eexists. split; [|by rewrite Hcont].
      destruct ht. simpl in *. by subst.
    + rewrite Hdel; [|lia|apply core_Some; eauto|done|done]. rewrite Ok_bind.
      pose proof (proj1 Hiff eq_refl) as Hk.
      exists HASH_ENTRY_FAILED, hp, ht. rewrite Hk, decide_False by (by intros [? ?]).
      split; [done|]. split; [|done]. by apply Hno.
Qed.

(** *** Freeing *)

Lemma free_chain_spec l : forall fuel hp ptr,
  (List.length l < fuel)%nat -> chain hp ptr l -> NoDup l.*1 ->
  exists hp', free_chain fuel hp ptr = Ok hp' /\
    dom hp' = dom hp ∖ list_to_set l.*1 /\
    (forall q, q ∉ l.*1 -> core hp' q = core hp q).
Proof.
  induction l as [|[p [k a]] l IH]; intros [|fuel] hp ptr Hf Hl Hnd;
    [simpl in Hf; lia| |simpl in Hf; lia|].
  { simpl in *. subst. exists hp. split; [done|]. split; [|done]. set_solver. }
  destruct Hl as (-> & nxt & (prv & Hp)%core_Some & Hl). simpl in Hnd.
  apply NoDup_cons in Hnd as [Hni Hnd].
  cbn [free_chain]. rewrite (deref_Some_bind _ _ _ Hp), (free_elem_Some _ _ _ Hp), Ok_bind.
  destruct (IH fuel (delete p hp) nxt) as (hp' & Heq & Hd & Hfr).
  - simpl in Hf. lia.
  - eapply chain_frame; [|done]. intros q Hq. apply core_delete_ne. by intros ->.
  - done.
  - exists hp'. split; [done|]. rewrite Hd, dom_delete_L. simpl. split; [set_solver|].
    intros q Hq. rewrite Hfr by set_solver. apply core_delete_ne. set_solver.
Qed.

Lemma free_loop_spec todo : forall i tbl hp chains,
  Forall2 (chain hp) (drop i tbl) chains -> List.length chains = todo ->
  NoDup (concat chains).*1 ->
  exists hp', free_loop todo i tbl hp = Ok hp' /\
    dom hp' = dom hp ∖ list_to_set (concat chains).*1.
Proof.
  induction todo as [|todo IH]; intros i tbl hp chains HF Hlen Hnd.
  { destruct chains; [|done]. exists hp. split; [done|]. set_solver. }
  destruct chains as [|l chains]; [done|]. injection Hlen as Hlen.
  destruct (drop i tbl) as [|ptr rest] eqn:Hdrop; [by inversion HF|].
  apply Forall2_cons in HF as [Hch HF].
  assert (tbl !! i = Some ptr) as Hi.
  { rewrite <- (Nat.add_0_r i), <- lookup_drop, Hdrop. done. }
  assert (drop (S i) tbl = rest) as Hdrop'.
  { by rewrite <- Nat.add_1_r, <- drop_drop, Hdrop. }
  simpl in Hnd. rewrite fmap_app, NoDup_app in Hnd. destruct Hnd as (Hnd1 & Hdisj & Hnd2).
  cbn [free_loop]. rewrite table_at_nat, (deref_Some_bind _ _ _ Hi).
  destruct (free_chain_spec l (S (size hp)) hp ptr) as (hp1 & -> & Hd1 & Hfr); [|done..|].
  { pose proof (chain_length_size _ _ _ Hch Hnd1). lia. }
  rewrite Ok_bind.
  destruct (IH (S i) tbl hp1 chains) as (hp' & -> & Hd').
  - rewrite Hdrop'. eapply chains_frame; [|done]. intros q Hq. apply Hfr. set_solver.
  - done.
  - done.
  - exists hp'. split; [done|]. rewrite Hd', Hd1. simpl. rewrite fmap_app, list_to_set_app_L.
    set_solver.
Qed.

Lemma free_hash_table_represents hp ht m :
  represents hp ht m -> free_hash_table hp (Some ht) = Ok (HASH_FREED, ∅).
Proof.
  intros (chains & [(tbl & Ht & HF) Hlen Hne _ Hlocs _ _ _ Hd] & _).
  cbn [free_hash_table]. rewrite Ht. cbn [deref]. rewrite Ok_bind.
  destruct (free_loop_spec (Z.to_nat (t_length ht)) 0 tbl hp chains) as (hp' & -> & Hd').
  - done.
  - rewrite Hlen. by rewrite Nat2Z.id.
  - done.
  - rewrite Ok_bind. rewrite Hd, difference_diag_L in Hd'.
    by apply dom_empty_inv_L in Hd' as ->.
Qed.

(** *** Inserting *)

Lemma create_represents :
  exists ht, create_hash_table true true = Some ht /\ represents ∅ ht ∅.
Proof.
  eexists. split; [reflexivity|].
  assert (concat (replicate HASH_TABLE_INTIAL_SIZE ([] : list entry)) = []) as Hc
    by apply concat_replicate_nil.
  exists (replicate HASH_TABLE_INTIAL_SIZE []). split; [|by unfold contents; rewrite Hc].
  split; simpl t_length; simpl t_elem_count; rewrite ?Hc; try done.
  - eexists. split; [done|]. by apply Forall2_replicate.
  - rewrite length_replicate. unfold HASH_TABLE_INTIAL_SIZE. lia.
  - apply NoDup_nil_2.
  - apply NoDup_nil_2.
  - intros i l [-> _]%lookup_replicate_1. constructor.
Qed.

(** Update of a key that is in the table. *)
Lemma wf_set_address hp ht chains i l1 p k a0 l2 e a :
  wf_table hp ht chains -> chains !! i = Some (l1 ++ (p, (k, a0)) :: l2) ->
  hp !! p = Some e ->
  represents (<[p:=set_address a e]> hp) ht (<[k:=a]> (contents chains)).
Proof.
  intros [(tbl & Ht & HF) Hlen Hne Hlf Hlocs Hkeys Hslots Hcnt Hd] Hi He.
  set (l' := l1 ++ (p, (k, a)) :: l2).
  destruct (concat_insert_split chains i _ l' Hi) as (pre & post & Hc & Hc').
  set (chains' := <[i:=l']> chains) in *.
  destruct (Forall2_lookup_r _ _ _ _ _ HF Hi) as (ptr & Hptr & Hch).
  assert (concat chains ≡ₚ (p, (k, a0)) :: (pre ++ l1 ++ l2 ++ post)) as Hperm
    by (rewrite Hc; solve_Permutation).
  assert (concat chains' ≡ₚ (p, (k, a)) :: (pre ++ l1 ++ l2 ++ post)) as Hperm'
    by (rewrite Hc'; unfold l'; solve_Permutation).
  assert (NoDup (concat chains').*2.*1) as Hkeys'.
  { rewrite Hperm' in *. rewrite Hperm in Hkeys. done. }
  assert (NoDup (concat chains').*1) as Hlocs'.
  { rewrite Hperm' in *. rewrite Hperm in Hlocs. done. }
  exists chains'. split.
  - split; try done.
    + exists tbl. split; [done|]. rewrite <- (list_insert_id tbl i ptr Hptr).
      eapply chains_update; [done..| |].
      * intros q Hq _. apply core_insert_ne. intros ->. apply Hq.
        rewrite fmap_app. set_solver.
      * eapply chain_set_address; [done| |done]. by eapply NoDup_concat_chain.
    + unfold chains'. by rewrite length_insert.
    + unfold chains'. by rewrite length_insert.
    + intros j l Hj. unfold chains' in Hj |- *. rewrite length_insert.
      destruct (decide (i = j)) as [<-|Hij].
      * rewrite list_lookup_insert_eq in Hj by (by eapply lookup_lt_Some).
        simplify_eq. apply Hslots in Hi.
        apply Forall_app in Hi as [? Hi]. apply Forall_cons in Hi as [? ?].
        apply Forall_app. split; [done|]. by apply Forall_cons.
      * rewrite list_lookup_insert_ne in Hj by done. by apply Hslots.
    + rewrite Hperm'. rewrite Hperm in Hcnt. done.
    + rewrite dom_insert_L, Hd, Hperm, Hperm'. simpl. set_solver.
  - destruct (contents_perm chains' _ _ Hkeys' Hperm') as [-> _].
    destruct (contents_perm chains _ _ Hkeys Hperm) as [-> _]. simpl.
    by rewrite insert_insert_eq.
Qed.

Lemma insert_entry_represents al hp ht m k a :
  alloc_elem al = true -> alloc_key al = true -> alloc_table al = true ->
  represents hp ht m -> t_elem_count ht + 2 <= INT_MAX -> t_length ht * 2 < two64 ->
  exists code hp' ht',
    insert_entry al hp (Some ht) (Some k) a = Ok (code, hp', Some ht') /\
    represents hp' ht' (<[k:=a]> m) /\
    match m !! k with
    | Some _ => code = Z.lor HASH_ENTRY_SUCCESS HASH_ENTRY_UPDATED /\ ht' = ht
    | None =>
        t_elem_count ht' = t_elem_count ht + 1 /\
        exists collided : bool,
          (collided = true <-> collides (Z.to_nat (t_length ht)) m k) /\
          code = Z.lor (Z.lor HASH_ENTRY_SUCCESS (if collided then HASH_ENTRY_COLLISION else 0))
                   (if grows (t_length ht) (t_elem_count ht + 1) then HASH_TABLE_RESIZED else 0) /\
          t_length ht' = (if grows (t_length ht) (t_elem_count ht + 1)
                          then 2 * t_length ht else t_length ht)
    end.
Proof.
  intros Ha1 Ha2 Ha3 (chains & Hwf & ->) Hcnt Hlen.
  destruct (wf_bucket _ _ _ k Hwf)
    as (tbl & ptr & l & Ht & HF & Hptr & Hl & Hch & Hsz & Hnd & Hiff).
  unfold insert_entry. rewrite (bucket_wf _ _ _ _ Hwf), Ok_bind.
  rewrite (get_ptr_to_elem_wf _ _ _ _ _ Hwf Hl), Ok_bind.
  destruct (chain_loc k l) as [p|] eqn:Eloc.
  - destruct (chain_loc_found _ _ _ _ _ _ _ Hwf Hl Eloc) as (a0 & l1 & l2 & -> & Hk).
    destruct (chain_app_cell _ _ _ _ _ _ _ Hch) as (nxt & prv & Hp & _).
    rewrite Hk, (store_Some _ _ _ _ Hp), Ok_bind.
    eexists _, _, _. split; [done|]. split; [|done].
    by eapply wf_set_address.
  - pose proof (proj1 Hiff eq_refl) as Hk. rewrite Hk.
    unfold create_hash_table_elem. rewrite Ha1, Ha2. cbn [negb]. rewrite Ok_bind.
    destruct (insert_new_spec al hp ht chains k a (fresh (dom hp)) Ha3 Hwf Hk)
      as (result & hp' & ht' & chains' & l' & -> & Hwf' & Hc' & Hl' & Hcnt' & Hlen' & Hres);
      [apply is_fresh|done..|].
    rewrite Hl in Hl'. injection Hl' as <-. rewrite Ok_bind.
    eexists _, _, _. split; [done|]. split; [by eexists|].
    split; [done|]. exists (bool_decide (l <> [])). split; [|split; [|done]].
    + rewrite bool_decide_eq_true, (wf_length _ _ _ Hwf), Nat2Z.id.
      by rewrite bucket_collides.
    + rewrite Hres. by destruct l.
Qed.
End Representation.

Abbreviation entry V := (loc * (string * option V))%type.

(** ** The interface of the command registry *)

#[export] Instance hash_string_table (V : Type) : StringTable (heap V * option hash_table) V := {
  st_create := (∅, create_hash_table true true);
  st_insert t k a :=
    '(code, hp, ht) ← insert_entry alloc_ok t.1 t.2 (Some k) a; mret (code, (hp, ht));
  st_get t k := get_ptr_to_value_by_key t.1 t.2 (Some k);
}.

Definition hash_rep {V} (n : nat) (t : heap V * option hash_table)
    (m : gmap string (option V)) : Prop :=
  exists ht, t.2 = Some ht /\ represents t.1 ht m /\
    t_elem_count ht + Z.of_nat n + 1 <= INT_MAX /\ t_length ht * 2 ^ Z.of_nat n < two64.

Lemma hash_insert_rep {V} n (t : heap V * option hash_table) m k a :
  hash_rep (S n) t m ->
  exists code t', st_insert t k a = Ok (code, t') /\ code <> 0 /\ hash_rep n t' (<[k:=a]> m).
Proof.
  destruct t as [hp oht]. intros (ht & Ht & Hrep & Hcnt & Hlen). simpl in *. subst oht.
  rewrite Nat2Z.inj_succ, Z.pow_succ_r in Hlen by lia.
  pose proof (Z.pow_pos_nonneg 2 (Z.of_nat n) ltac:(lia) ltac:(lia)) as Hpow.
  assert (0 < t_length ht) as Hpos.
  { destruct Hrep as (c & Hwf & _). rewrite (wf_length _ _ _ Hwf).
    pose proof (wf_nonempty _ _ _ Hwf). lia. }
  destruct (insert_entry_represents alloc_ok hp ht m k a) as (code & hp' & ht' & -> & Hrep' & Hc);
    [done..|lia|nia|].
  simpl. eexists _, _. split; [done|].
  destruct (m !! k).
  - destruct Hc as [-> ->]. split; [done|]. exists ht. simpl. repeat split; [done|lia|nia].
  - destruct Hc as (Hcnt' & collided & _ & -> & Hlen'). split.
    + by destruct collided, (grows _ _).
    + exists ht'. simpl. split; [done|]. split; [done|]. rewrite Hcnt', Hlen'.
      split; [lia|]. destruct (grows _ _); nia.
Qed.

#[export, refine] Instance hash_string_table_spec (V : Type) :
  StringTableSpec (heap V * option hash_table) V := {
  st_rep := hash_rep;
  st_capacity := 32;
}.
Proof.
  - destruct (create_represents (V:=V)) as (ht & Hc & Hrep).
    exists ht. simpl. split; [done|]. split; [done|].
    unfold create_hash_table in Hc. simpl in Hc. injection Hc as <-. simpl.
    split; zcompute.
  - intros. by apply hash_insert_rep.
  - intros n [hp oht] m k (ht & Ht & Hrep & _). simpl in *. subst.
    by apply get_value_represents.
Defined.

(** ** Properties *)

(** C18: on a table that stands for the map [m], [insert_entry] succeeds and
    leaves a table that stands for [m] with the key bound to the new value.
    A key that was present is reported by [HASH_ENTRY_UPDATED] and leaves
    the table's shape alone; a new key counts one more element, reports
    [HASH_ENTRY_COLLISION] exactly when another key already hashes to its
    bucket, and doubles the table and reports [HASH_TABLE_RESIZED] exactly
    when [check_grow] asks for it. *)
Theorem insert_entry_refines_map {V} (hp : heap V) ht m k a :
  represents hp ht m -> t_elem_count ht + 2 <= INT_MAX -> t_length ht * 2 < two64 ->
  exists code hp' ht',
    insert_entry alloc_ok hp (Some ht) (Some k) a = Ok (code, hp', Some ht') /\
    represents hp' ht' (<[k:=a]> m) /\
    match m !! k with
    | Some _ => code = Z.lor HASH_ENTRY_SUCCESS HASH_ENTRY_UPDATED /\ ht' = ht
    | None =>
        t_elem_count ht' = t_elem_count ht + 1 /\
        exists collided : bool,
          (collided = true <-> collides (Z.to_nat (t_length ht)) m k) /\
          code = Z.lor (Z.lor HASH_ENTRY_SUCCESS (if collided then HASH_ENTRY_COLLISION else 0))
                   (if grows (t_length ht) (t_elem_count ht + 1) then HASH_TABLE_RESIZED else 0) /\
          t_length ht' = (if grows (t_length ht) (t_elem_count ht + 1)
                          then 2 * t_length ht else t_length ht)
    end.
Proof. by apply insert_entry_represents. Qed.

(** A table built by inserting keys one after the other. *)
Definition build (ks : list string) : outcome (heap nat * option hash_table) :=
  insert_all st_create (zip ks (Some <$> seq 0 (List.length ks))).

Lemma build_rep ks :
  (List.length ks <= 32)%nat ->
  exists hp ht, build ks = Ok (hp, Some ht) /\
    represents hp ht (foldl (fun acc kv => <[kv.1:=kv.2]> acc) ∅ (zip ks (Some <$> seq 0 (List.length ks)))).
Proof.
  intros Hks.
  destruct (insert_all_rep (zip ks (Some <$> seq 0 (List.length ks)))
              (32 - List.length ks) st_create (∅ : gmap string (option nat)))
    as ([hp oht] & Hb & ht & Hoht & Hrep & _).
  - assert (List.length (zip ks (Some <$> seq 0 (List.length ks))) = List.length ks) as ->.
    { rewrite length_zip_with, length_fmap, length_seq. lia. }
    replace (List.length ks + (32 - List.length ks))%nat with 32%nat by lia.
    exact (st_create_rep (StringTableSpec:=hash_string_table_spec nat)).
  - simpl in *. subst. by exists hp, ht.
Qed.

Definition two_keys : list string := ["USER"%string; "PASS"%string].

Lemma insert_entry_refines_map_witness :
  exists hp ht m code hp' ht',
    build two_keys = Ok (hp, Some ht) /\
    insert_entry alloc_ok hp (Some ht) (Some "QUIT"%string) (Some 7%nat) = Ok (code, hp', Some ht') /\
    represents hp' ht' (<["QUIT"%string:=Some 7%nat]> m).
Proof.
  destruct (build_rep two_keys) as (hp & ht & Hb & Hrep); [vm_compute; lia|].
  assert (exists c l, t_elem_count ht = c /\ t_length ht = l /\ c = 2 /\ l = 21) as (c & l & Hc & Hl & -> & ->).
  { eexists _, _. split; [done|]. split; [done|].
    vm_compute in Hb. injection Hb as _ <-. done. }
  destruct (insert_entry_refines_map hp ht _ "QUIT" (Some 7%nat) Hrep) as (code & hp' & ht' & Hi & Hr & _).
  - rewrite Hc. zcompute.
  - rewrite Hl. zcompute.
  - exists hp, ht. eexists _, code, hp', ht'. exact (conj Hb (conj Hi Hr)).
Defined.

(** C20: on a table that stands for [m], [get_ptr_to_value_by_key] returns the
    value [m] gives the key (NULL when it gives none) and
    [check_key_exists] tells whether the key is bound. *)
Theorem lookup_refines_map {V} (hp : heap V) ht m k :
  represents hp ht m ->
  get_ptr_to_value_by_key hp (Some ht) (Some k) = Ok (default None (m !! k)) /\
  check_key_exists hp (Some ht) (Some k) = Ok (if decide (is_Some (m !! k)) then 1 else 0).
Proof. intros Hrep. split; [by apply get_value_represents | by apply check_key_represents]. Qed.

Lemma lookup_refines_map_witness :
  exists hp ht, build two_keys = Ok (hp, Some ht) /\
    get_ptr_to_value_by_key hp (Some ht) (Some "PASS"%string) = Ok (Some 1%nat).
Proof.
  destruct (build_rep two_keys) as (hp & ht & Hb & Hrep); [vm_compute; lia|].
  exists hp, ht. split; [exact Hb|].
  destruct (lookup_refines_map hp ht _ "PASS" Hrep) as [-> _]. reflexivity.
Defined.

(** C19: on a table that stands for [m], [delete_entry] removes the key: it
    answers success when the key was bound and [HASH_ENTRY_FAILED] with
    nothing changed when it was not.  The element count is never lowered. *)
Theorem delete_entry_refines_map {V} (hp : heap V) ht m k :
  represents hp ht m ->
  exists code hp' ht',
    delete_entry hp (Some ht) (Some k) = Ok (code, hp', Some ht') /\
    represents hp' ht' (delete k m) /\
    t_elem_count ht' = t_elem_count ht /\ t_length ht' = t_length ht /\
    (if decide (is_Some (m !! k)) then Z.testbit code 0 = true
     else code = HASH_ENTRY_FAILED /\ hp' = hp /\ ht' = ht).
Proof. apply delete_entry_represents. Qed.

Lemma delete_entry_refines_map_witness :
  exists hp ht code hp' ht', build two_keys = Ok (hp, Some ht) /\
    delete_entry hp (Some ht) (Some "USER"%string) = Ok (code, hp', Some ht') /\
    t_elem_count ht' = t_elem_count ht.
Proof.
  destruct (build_rep two_keys) as (hp & ht & Hb & Hrep); [vm_compute; lia|].
  destruct (delete_entry_refines_map hp ht _ "USER" Hrep) as (code & hp' & ht' & Hd & _ & Hc & _).
  exists hp, ht, code, hp', ht'. exact (conj Hb (conj Hd Hc)).
Defined.

(** C21: [free_hash_table] frees every cell of the table exactly once and
    leaves no cell behind. *)
Theorem free_hash_table_releases_all {V} (hp : heap V) ht m :
  represents hp ht m -> free_hash_table hp (Some ht) = Ok (HASH_FREED, ∅).
Proof. apply free_hash_table_represents. Qed.

Lemma free_hash_table_releases_all_witness :
  exists hp ht, build two_keys = Ok (hp, Some ht) /\
    free_hash_table hp (Some ht) = Ok (HASH_FREED, ∅).
Proof.
  destruct (build_rep two_keys) as (hp & ht & Hb & Hrep); [vm_compute; lia|].
  exists hp, ht. exact (conj Hb (free_hash_table_releases_all hp ht _ Hrep)).
Defined.

(** The load invariant of a table: below three quarters with room for one
    more element. *)
Definition load_ok (ht : hash_table) : Prop :=
  4 * (t_elem_count ht + 1) < 3 * t_length ht.

Lemma grows_exact len count :
  0 < len < 4194304 -> 0 <= count -> 4 * count < 3 * len + 4 ->
  grows len count = (3 * len <=? 4 * (count + 1)).
Proof.
  intros Hl Hc Hb. unfold grows, DEFAULT_LOAD_FACTOR.
  rewrite (round32_exact len), (round32_exact (len * 3)), (round32_exact (count + 1)) by lia.
  by rewrite Z.mul_comm.
Qed.

(** [insert_entry] keeps the load factor, computed in binary32 floats,
    below 0.75 as long as the table has fewer than [2 ^ 22] buckets: an
    insertion that would reach it doubles the table. *)
Theorem insert_entry_load {V} (hp : heap V) ht m k a :
  represents hp ht m -> load_ok ht -> 2 <= t_length ht < 4194304 -> 0 <= t_elem_count ht ->
  exists code hp' ht',
    insert_entry alloc_ok hp (Some ht) (Some k) a = Ok (code, hp', Some ht') /\
    load_ok ht' /\ t_length ht <= t_length ht'.
Proof.
  unfold load_ok. intros Hrep Hload Hlen Hcnt.
  destruct (insert_entry_represents alloc_ok hp ht m k a) as (code & hp' & ht' & Hi & _ & Hc);
    [done..|unfold INT_MAX; lia|unfold two64; lia|].
  exists code, hp', ht'. split; [done|].
  destruct (m !! k); [destruct Hc as [_ ->]; lia|].
  destruct Hc as (Hcnt' & _ & _ & _ & ->). rewrite Hcnt', grows_exact by lia.
  destruct (Z.leb_spec (3 * t_length ht) (4 * (t_elem_count ht + 1 + 1))); lia.
Qed.

Lemma insert_entry_load_witness :
  exists hp ht code hp' ht', build two_keys = Ok (hp, Some ht) /\
    insert_entry alloc_ok hp (Some ht) (Some "QUIT"%string) None = Ok (code, hp', Some ht') /\
    load_ok ht'.
Proof.
  destruct (build_rep two_keys) as (hp & ht & Hb & Hrep); [vm_compute; lia|].
  assert (t_elem_count ht = 2 /\ t_length ht = 21) as [Hc Hl].
  { vm_compute in Hb. injection Hb as _ <-. done. }
  destruct (insert_entry_load hp ht _ "QUIT" None Hrep) as (code & hp' & ht' & Hi & Hld & _);
    [unfold load_ok; rewrite Hc, Hl; lia | rewrite Hl; lia | rewrite Hc; lia |].
  exists hp, ht, code, hp', ht'. exact (conj Hb (conj Hi Hld)).
Defined.
