(* ===== verification/CommandParser.v ===== *)
(** * The command line parser (src/engine/command_parser.c)

    [parse_text_command] splits what one read of the control connection
    returned into an upper-cased command word and at most [MAX_ARGS]
    arguments, with double quotes and backslash escapes.  The input is a C
    string; [malloc_ok n] tells whether the allocation of argument [n]
    succeeds. *)

From S2P Require Import Prelude CString.
From stdpp Require Import gmap.
From stdpp Require Import options.

Local Open Scope Z_scope.

Definition MAX_ARGS : Z := 256.
Definition MAX_ARG_LEN : Z := 4096.

(** [args] holds the non-NULL entries of the C array, in order. *)
Record cftp_command_t := Command {
  command : string;
  args : list string;
  argc : Z;
}.

(** [cmd->args[i]], [None] being NULL. *)
Definition arg_at (cmd : cftp_command_t) (i : nat) : option string := args cmd !! i.

(** The loop that copies the command word, [room] being the space left. *)
Fixpoint scan_command (room : nat) (input : string) : string * string :=
  match room, input with
  | S room', String c rest =>
      if isspace c then (EmptyString, input)
      else let '(w, r) := scan_command room' rest in (String (toupper c) w, r)
  | _, _ => (EmptyString, input)
  end.

(** The loop that copies one argument: quotes toggle [in_quotes] and take no
    room, a backslash takes the next character as it is. *)
Fixpoint scan_arg (room : nat) (in_quotes : bool) (input : string) : string * string :=
  match input with
  | EmptyString => (EmptyString, EmptyString)
  | String c rest =>
      match room with
      | O => (EmptyString, input)
      | S room' =>
          if Ascii.eqb c dquote then scan_arg room (negb in_quotes) rest
          else if negb in_quotes && isspace c then (EmptyString, input)
          else
            match rest with
            | String d rest' =>
                if Ascii.eqb c backslash then
                  let '(a, r) := scan_arg room' in_quotes rest' in (String d a, r)
                else
                  let '(a, r) := scan_arg room' in_quotes rest in (String c a, r)
            | EmptyString => (String c EmptyString, EmptyString)
            end
      end
  end.

(** [while ( *input && argc < MAX_ARGS)], counting down [left]. *)
Fixpoint parse_args (malloc_ok : nat -> bool) (left argc : nat) (input : string) : list string :=
  match left with
  | O => []
  | S left' =>
      match skip_spaces input with
      | EmptyString => []
      | s =>
          if malloc_ok argc then
            let '(a, r) := scan_arg (Z.to_nat (MAX_ARG_LEN - 1)) false s in
            a :: parse_args malloc_ok left' (S argc) (skip_spaces r)
          else []
      end
  end.

Definition parse_text_command (malloc_ok : nat -> bool) (input : string) : cftp_command_t :=
  let '(w, r) := scan_command (Z.to_nat (MAX_ARG_LEN - 1)) (skip_spaces input) in
  let l := parse_args malloc_ok (Z.to_nat MAX_ARGS) 0 (skip_spaces r) in
  Command w l (Z.of_nat (List.length l)).

(** [destroy_command] on the heap: [blocks] are the pointers in [args],
    [heap] the blocks that are allocated; [free] of anything else is
    undefined. *)
Fixpoint free_args (blocks : list nat) (heap : gset nat) : outcome (gset nat) :=
  match blocks with
  | [] => mret heap
  | p :: blocks' => if decide (p ∈ heap) then free_args blocks' (heap ∖ {[p]}) else Undefined
  end.

Definition destroy_command (blocks : list nat) (cmd : cftp_command_t) (heap : gset nat)
  : outcome (gset nat) :=
  free_args (take (Z.to_nat (argc cmd)) blocks) heap.

(** Every allocation succeeds. *)
Definition always : nat -> bool := fun _ => true.

(** The successive calls of [malloc] that succeeded give the entries of
    [args], in order; all of them are given back and nothing else. *)
Lemma free_args_all blocks : forall heap : gset nat,
  NoDup blocks -> list_to_set blocks ## heap ->
  free_args blocks (list_to_set blocks ∪ heap) = Ok heap.
Proof.
  induction blocks as [|p blocks IH]; intros heap Hnd Hd; cbn [free_args list_to_set].
  - f_equal. set_solver.
  - apply NoDup_cons in Hnd as [Hp Hnd]. rewrite decide_True by set_solver.
    replace (({[p]} ∪ list_to_set blocks ∪ heap) ∖ {[p]}) with (list_to_set blocks ∪ heap : gset nat);
      [apply IH; [done|set_solver]|].
    apply set_eq. intros x. set_unfold. destruct (decide (x = p)) as [->|]; naive_solver.
Qed.

Lemma destroy_releases_all malloc_ok input blocks (heap : gset nat) :
  let cmd := parse_text_command malloc_ok input in
  List.length blocks = List.length (args cmd) -> NoDup blocks -> list_to_set blocks ## heap ->
  destroy_command blocks cmd (list_to_set blocks ∪ heap) = Ok heap.
Proof.
  intros cmd Hl Hnd Hd. unfold destroy_command.
  assert (Z.to_nat (argc cmd) = List.length blocks) as ->.
  { subst cmd. rewrite Hl. unfold parse_text_command. destruct (scan_command _ _).
    cbn [argc args]. apply Nat2Z.id. }
  rewrite firstn_all. by apply free_args_all.
Qed.

(** ** How a client quotes arguments *)

Fixpoint escape (s : string) : string :=
  match s with
  | EmptyString => EmptyString
  | String c s' =>
      if Ascii.eqb c dquote || Ascii.eqb c backslash
      then String backslash (String c (escape s'))
      else String c (escape s')
  end.

Definition quote_arg (a : string) : string :=
  String dquote (escape a +:+ String dquote EmptyString).

Fixpoint format_args (l : list string) : string :=
  match l with
  | [] => crlf
  | a :: l' => String space (quote_arg a +:+ format_args l')
  end.

Definition format_command (w : string) (l : list string) : string := w +:+ format_args l.

(** Words and separators as a client that does not quote sends them. *)
Definition plain_char (c : ascii) : bool :=
  negb (isspace c) && negb (Ascii.eqb c dquote) && negb (Ascii.eqb c backslash).

Definition plain_word (w : string) : Prop :=
  w <> EmptyString /\ all_chars plain_char w = true /\ strlen w < MAX_ARG_LEN.

Definition separator (s : string) : Prop :=
  s <> EmptyString /\ all_chars isspace s = true.

Fixpoint join_words (l : list (string * string)) : string :=
  match l with
  | [] => EmptyString
  | (sep, w) :: l' => sep +:+ (w +:+ join_words l')
  end.

(** ** Scanning *)

Lemma isspace_plain c : plain_char c = true ->
  isspace c = false /\ Ascii.eqb c dquote = false /\ Ascii.eqb c backslash = false.
Proof.
  unfold plain_char. rewrite !andb_true_iff, !negb_true_iff. tauto.
Qed.

Lemma skip_spaces_sep s t :
  all_chars isspace s = true -> skip_spaces (s +:+ t) = skip_spaces t.
Proof. induction s as [|c s IH]; simpl; [done|]. intros [-> H]%andb_true_iff. auto. Qed.

Lemma skip_spaces_idem s : skip_spaces (skip_spaces s) = skip_spaces s.
Proof.
  destruct (skip_spaces s) as [|c t] eqn:E; [done|].
  simpl. by rewrite (skip_spaces_head _ _ _ E).
Qed.

Lemma skip_spaces_start c t : isspace c = false -> skip_spaces (String c t) = String c t.
Proof. intros H. simpl. by rewrite H. Qed.

(** A string that does not go on with a non-space character. *)
Definition stops (s : string) : Prop :=
  forall c t, s = String c t -> isspace c = true.

Lemma scan_command_word room w rest :
  all_chars (fun c => negb (isspace c)) w = true -> (String.length w <= room)%nat ->
  stops rest -> scan_command room (w +:+ rest) = (map_string toupper w, rest).
Proof.
  revert room. induction w as [|c w IH]; intros room Hw Hr Hstop; simpl in *.
  - destruct room, rest as [|c t]; try done.
    simpl. by rewrite (Hstop c t eq_refl).
  - destruct room as [|room]; [lia|].
    apply andb_true_iff in Hw as [Hc%negb_true_iff Hw]. simpl. rewrite Hc.
    rewrite IH; [done|done|lia|done].
Qed.

Lemma scan_arg_cons room q c rest :
  Ascii.eqb c dquote = false -> negb q && isspace c = false ->
  Ascii.eqb c backslash = false ->
  scan_arg (S room) q (String c rest) =
    (let '(a, r) := scan_arg room q rest in (String c a, r)).
Proof.
  intros Hq Hs Hb. cbn [scan_arg]. rewrite Hq, Hs, Hb. by destruct rest.
Qed.

Lemma scan_arg_escaped room q d rest :
  scan_arg (S room) q (String backslash (String d rest)) =
    (let '(a, r) := scan_arg room q rest in (String d a, r)).
Proof. cbn [scan_arg]. by destruct q. Qed.

Lemma scan_arg_plain room w rest :
  all_chars plain_char w = true -> (String.length w <= room)%nat -> stops rest ->
  scan_arg room false (w +:+ rest) = (w, rest).
Proof.
  revert room. induction w as [|c w IH]; intros room Hw Hr Hstop;
    simpl in Hw, Hr; cbn [String.append].
  - destruct rest as [|c t]; [done|]. simpl. destruct room; [done|].
    pose proof (Hstop c t eq_refl) as Hc.
    assert (Ascii.eqb c dquote = false) as -> by (revert Hc; ascii_cases c).
    by rewrite Hc.
  - destruct room as [|room]; [lia|].
    apply andb_true_iff in Hw as [(Hs & Hq & Hb)%isspace_plain Hw].
    rewrite scan_arg_cons by (rewrite ?Hs; done). rewrite IH; [done|done|lia|done].
Qed.

Lemma scan_arg_escape room a rest :
  (String.length a < room)%nat ->
  scan_arg room true (escape a +:+ String dquote rest) =
    (let '(b, r) := scan_arg (room - String.length a) false rest in (a +:+ b, r)).
Proof.
  revert room. induction a as [|c a IH]; intros room Hr; simpl in Hr.
  - destruct room; [lia|]. simpl. by destruct (scan_arg _ _ _).
  - destruct room as [|room]; [lia|]. cbn [escape].
    destruct (Ascii.eqb c dquote || Ascii.eqb c backslash) eqn:E.
    + cbn [String.append]. rewrite scan_arg_escaped, IH by lia. simpl.
      by destruct (scan_arg _ _ _).
    + apply orb_false_iff in E as [Eq Eb]. cbn [String.append].
      rewrite scan_arg_cons, IH by (done || lia). simpl. by destruct (scan_arg _ _ _).
Qed.

Lemma scan_arg_stop room s : stops s -> scan_arg room false s = (EmptyString, s).
Proof. intros Hs. apply (scan_arg_plain room EmptyString s); [done|simpl; lia|done]. Qed.

Lemma scan_arg_quoted room a rest :
  (String.length a < room)%nat -> stops rest ->
  scan_arg room false (quote_arg a +:+ rest) = (a, rest).
Proof.
  intros Hr Hs. unfold quote_arg. cbn [String.append].
  destruct room as [|room]; [lia|]. cbn [scan_arg].
  change (Ascii.eqb dquote dquote) with true. cbn match.
  rewrite string_app_assoc. cbn [String.append negb].
  rewrite scan_arg_escape by lia. rewrite scan_arg_stop by done.
  by rewrite string_app_nil_r.
Qed.

Lemma length_scan_arg room q s : (String.length (scan_arg room q s).1 <= room)%nat.
Proof.
  remember (String.length s) as n eqn:Hn.
  revert room q s Hn. induction (lt_wf n) as [n _ IH]. intros room q s ->.
  destruct s as [|c rest]; cbn [scan_arg]; [simpl; lia|].
  destruct room as [|room]; [simpl; lia|].
  assert (forall q' s', (String.length s' <= String.length rest)%nat ->
    forall r, (String.length (scan_arg r q' s').1 <= r)%nat) as IH'.
  { intros q' s' Hs r. eapply IH; [|done]. simpl. lia. }
  destruct (Ascii.eqb c dquote); [by apply IH'|].
  destruct (negb q && isspace c); [simpl; lia|].
  destruct rest as [|d rest']; [simpl; lia|].
  destruct (Ascii.eqb c backslash).
  - specialize (IH' q rest' ltac:(simpl; lia) room).
    destruct (scan_arg room q rest'). simpl in *. lia.
  - specialize (IH' q _ ltac:(reflexivity) room).
    destruct (scan_arg room q (String d rest')). simpl in *. lia.
Qed.

Lemma length_scan_command room s : (String.length (scan_command room s).1 <= room)%nat.
Proof.
  revert s. induction room as [|room IH]; intros [|c s]; simpl; try lia.
  case_match; simpl; [lia|]. specialize (IH s). destruct (scan_command room s). simpl in *. lia.
Qed.

Lemma scan_command_chars room s :
  all_chars (fun c => negb (isspace c) && Ascii.eqb (toupper c) c) (scan_command room s).1 = true.
Proof.
  revert s. induction room as [|room IH]; intros [|c s]; simpl; try done.
  destruct (isspace c) eqn:E; [done|]. specialize (IH s).
  destruct (scan_command room s). simpl in *.
  by rewrite toupper_isspace, E, toupper_idem, Ascii.eqb_refl, IH.
Qed.

(** ** Arguments *)

Lemma parse_args_bounds ok left n s :
  (List.length (parse_args ok left n s) <= left)%nat /\
  Forall (fun a => strlen a < MAX_ARG_LEN) (parse_args ok left n s).
Proof.
  revert n s. induction left as [|left IH]; intros n s; cbn [parse_args]; [by split|].
  destruct (skip_spaces s) as [|c t]; [split; [simpl; lia|constructor]|].
  destruct (ok n); [|split; [simpl; lia|constructor]].
  destruct (scan_arg _ _ _) as [a r] eqn:E.
  destruct (IH (S n) (skip_spaces r)) as [IH1 IH2]. split; [simpl; lia|].
  constructor; [|done].
  pose proof (length_scan_arg (Z.to_nat (MAX_ARG_LEN - 1)) false (String c t)) as Hl.
  rewrite E in Hl. simpl in Hl. unfold strlen, MAX_ARG_LEN in *. lia.
Qed.

(** With failing allocations the arguments are cut at the first failure. *)
Lemma parse_args_skip ok left n s :
  parse_args ok left n (skip_spaces s) = parse_args ok left n s.
Proof. destruct left; cbn [parse_args]; [done|]. by rewrite skip_spaces_idem. Qed.

Lemma format_args_stops l : stops (format_args l).
Proof. destruct l; intros c t; simpl; intros [= <- _]; done. Qed.

Lemma quote_arg_head a rest : exists t, quote_arg a +:+ rest = String dquote t.
Proof. unfold quote_arg. simpl. eauto. Qed.

Lemma parse_args_format left n l :
  (List.length l <= left)%nat ->
  Forall (fun a => strlen a < MAX_ARG_LEN - 1) l ->
  parse_args always left n (format_args l) = l.
Proof.
  revert left n. induction l as [|a l IH]; intros left n Hl Hall.
  { destruct left; done. }
  destruct left as [|left]; [simpl in Hl; lia|].
  apply Forall_cons in Hall as [Ha Hall]. cbn [parse_args format_args].
  cbn [skip_spaces]. change (isspace space) with true. cbn match.
  destruct (quote_arg_head a (format_args l)) as [t Ht].
  rewrite Ht, skip_spaces_start by done. cbn match. unfold always at 1. rewrite <- Ht.
  rewrite scan_arg_quoted.
  - rewrite parse_args_skip, IH; [done|simpl in Hl; lia|done].
  - unfold strlen, MAX_ARG_LEN in *. lia.
  - apply format_args_stops.
Qed.

Lemma join_words_stops l :
  Forall (fun sw => separator sw.1 /\ plain_word sw.2) l -> stops (join_words l).
Proof.
  intros Hall c t H. destruct l as [|[[|d sep] w] l]; [done| |]; simpl in H.
  - apply Forall_cons in Hall as [[[? _] _] _]. done.
  - apply Forall_cons in Hall as [[[_ Hs] _] _]. simpl in Hs.
    injection H as <- _. by apply andb_true_iff in Hs as [? _].
Qed.

Lemma plain_word_head w rest :
  plain_word w -> exists c t, w +:+ rest = String c t /\ isspace c = false.
Proof.
  intros (Hne & Hw & _). destruct w as [|c w]; [done|].
  simpl in Hw. apply andb_true_iff in Hw as [(Hs & _)%isspace_plain _].
  exists c, (w +:+ rest). done.
Qed.

Lemma parse_args_words left n l tail :
  Forall (fun sw => separator sw.1 /\ plain_word sw.2) l ->
  all_chars isspace tail = true ->
  parse_args always left n (join_words l +:+ tail) = take left l.*2.
Proof.
  intros Hall Htail. revert left n.
  induction Hall as [|[sep w] l [[Hne Hsep] Hw] Hall IH]; intros left n.
  { simpl. destruct left; cbn [parse_args]; [done|].
    rewrite <- (string_app_nil_r tail). rewrite skip_spaces_sep by done. done. }
  destruct left as [|left]; [done|]. cbn [parse_args]. simpl in Hsep, Hw.
  cbn [join_words]. rewrite !string_app_assoc, skip_spaces_sep by done.
  destruct (plain_word_head w (join_words l +:+ tail) Hw) as (c & t & Heq & Hc).
  rewrite Heq, skip_spaces_start by done. cbn match. unfold always at 1. rewrite <- Heq.
  destruct Hw as (_ & Hw & Hlen). rewrite scan_arg_plain.
  - rewrite parse_args_skip. simpl. f_equal. apply IH.
  - done.
  - unfold strlen, MAX_ARG_LEN in *. lia.
  - intros d u Hd. destruct l as [|sw l].
    + simpl in Hd. subst. simpl in Htail. by apply andb_true_iff in Htail as [? _].
    + destruct (join_words (sw :: l)) as [|e v] eqn:E.
      * apply Forall_cons in Hall as [[[? _] _] _]. destruct sw as [[|] ?]; [done|].
        simpl in E. done.
      * simpl in Hd. injection Hd as <- _. by eapply (join_words_stops (sw :: l) Hall).
Qed.

(** ** Properties *)

Lemma format_args_skip l : parse_args always (Z.to_nat MAX_ARGS) 0 (skip_spaces (format_args l))
  = parse_args always (Z.to_nat MAX_ARGS) 0 (format_args l).
Proof. apply parse_args_skip. Qed.

Lemma parse_words_general lead w rest :
  all_chars isspace lead = true -> w <> EmptyString ->
  all_chars (fun c => negb (isspace c)) w = true -> strlen w < MAX_ARG_LEN -> stops rest ->
  parse_text_command always (lead +:+ (w +:+ rest)) =
    let l := parse_args always (Z.to_nat MAX_ARGS) 0 rest in
    Command (map_string toupper w) l (Z.of_nat (List.length l)).
Proof.
  intros Hlead Hne Hw Hlen Hstop. unfold parse_text_command.
  rewrite skip_spaces_sep by done.
  destruct w as [|c w]; [done|]. simpl in Hw.
  apply andb_true_iff in Hw as Hw'. destruct Hw' as [Hc%negb_true_iff _].
  cbn [String.append]. rewrite skip_spaces_start by done.
  change (String c (w +:+ rest)) with (String c w +:+ rest).
  rewrite scan_command_word; [|done| |done].
  - by rewrite parse_args_skip.
  - unfold strlen, MAX_ARG_LEN in *. lia.
Qed.

(** A command with one unquoted argument. *)
Lemma parse_one_arg word sep arg tail :
  word <> EmptyString -> all_chars (fun c => negb (isspace c)) word = true ->
  strlen word < MAX_ARG_LEN -> separator sep -> plain_word arg -> all_chars isspace tail = true ->
  parse_text_command always (word +:+ (sep +:+ (arg +:+ tail))) =
  Command (map_string toupper word) [arg] 1.
Proof.
  intros Hne Hw Hlen Hsep Harg Htail.
  replace (word +:+ (sep +:+ (arg +:+ tail)))
    with (EmptyString +:+ (word +:+ (join_words [(sep, arg)] +:+ tail)))
    by (cbn [join_words String.append]; by rewrite !string_app_nil_r, string_app_assoc).
  rewrite parse_words_general; [|done|done|done|done|].
  - cbv zeta. rewrite parse_args_words; [done|by apply Forall_singleton|done].
  - intros c t. cbn [join_words]. destruct Hsep as [Hs Hsp], sep as [|d sep]; [done|].
    intros [= <- _]. by apply andb_true_iff in Hsp as [? _].
Qed.

(** C35: whatever the input and whichever allocations fail, the command word
    and every argument fit their 4096-byte buffers with the terminator, there
    are at most [MAX_ARGS] arguments and [argc] counts them; the command word
    is upper case and without white space. *)
Theorem parse_text_command_bounds malloc_ok input :
  let cmd := parse_text_command malloc_ok input in
  argc cmd = Z.of_nat (List.length (args cmd)) /\ 0 <= argc cmd <= MAX_ARGS /\
  strlen (command cmd) < MAX_ARG_LEN /\
  Forall (fun a => strlen a < MAX_ARG_LEN) (args cmd) /\
  all_chars (fun c => negb (isspace c) && Ascii.eqb (toupper c) c) (command cmd) = true.
Proof.
  unfold parse_text_command.
  pose proof (length_scan_command (Z.to_nat (MAX_ARG_LEN - 1)) (skip_spaces input)) as Hl.
  pose proof (scan_command_chars (Z.to_nat (MAX_ARG_LEN - 1)) (skip_spaces input)) as Hc.
  destruct (scan_command _ _) as [w r]. simpl in Hl, Hc. cbn [argc args command].
  destruct (parse_args_bounds malloc_ok (Z.to_nat MAX_ARGS) 0 (skip_spaces r)) as [H1 H2].
  unfold strlen, MAX_ARG_LEN, MAX_ARGS in *.
  split; [done|]. split; [lia|]. split; [lia|]. by split.
Qed.

(** C34: a command sent with its arguments quoted (each between double quotes,
    with quotes and backslashes escaped by a backslash) and ended by CRLF is
    parsed back to the same arguments, whatever characters they contain, and
    to the upper-cased command word. *)
Theorem parse_format_roundtrip w l :
  w <> EmptyString -> all_chars (fun c => negb (isspace c)) w = true ->
  strlen w < MAX_ARG_LEN -> Z.of_nat (List.length l) <= MAX_ARGS ->
  Forall (fun a => strlen a < MAX_ARG_LEN - 1) l ->
  parse_text_command always (format_command w l) =
    Command (map_string toupper w) l (Z.of_nat (List.length l)).
Proof.
  intros Hne Hw Hlen Hl Hall. unfold format_command.
  change (w +:+ format_args l) with (EmptyString +:+ (w +:+ format_args l)).
  rewrite parse_words_general by (done || apply format_args_stops). cbn zeta.
  rewrite parse_args_format; [done|unfold MAX_ARGS in *; lia|done].
Qed.

Lemma parse_format_roundtrip_witness :
  parse_text_command always (format_command "stor" ["a b.txt"%string; EmptyString]) =
    Command "STOR" ["a b.txt"%string; EmptyString] 2.
Proof.
  apply (parse_format_roundtrip "stor" ["a b.txt"%string; EmptyString]);
    [done|done|zcompute|zcompute|repeat (apply Forall_cons; split); [zcompute..|by apply Forall_nil]].
Defined.

Ltac plain_words :=
  split; [split; [discriminate | reflexivity]
         |split; [discriminate | split; [reflexivity | zcompute]]].

(** The parser separates words by any white space, line ends included:
    words sent over several lines in one read become the arguments of the
    first command word (the first [MAX_ARGS] of them), so a second command of
    the same read is never executed as a command. *)
Theorem parse_ignores_line_ends lead w l tail :
  all_chars isspace lead = true -> plain_word w ->
  Forall (fun sw => separator sw.1 /\ plain_word sw.2) l -> separator tail ->
  args (parse_text_command always (lead +:+ (w +:+ (join_words l +:+ tail)))) =
    take (Z.to_nat MAX_ARGS) l.*2 /\
  command (parse_text_command always (lead +:+ (w +:+ (join_words l +:+ tail)))) =
    map_string toupper w.
Proof.
  intros Hlead (Hne & Hw & Hlen) Hall [Htne Htail].
  assert (stops (join_words l +:+ tail)) as Hstop.
  { intros c t H. destruct (join_words l) as [|d u] eqn:E.
    - simpl in H. subst. simpl in Htail. by apply andb_true_iff in Htail as [? _].
    - simpl in H. injection H as <- _. by eapply (join_words_stops l Hall). }
  rewrite parse_words_general; [|done|done| |done|done].
  - cbv zeta. cbn [args command]. split; [|reflexivity]. by apply parse_args_words.
  - revert Hw. apply all_chars_impl. by intros c (-> & _)%isspace_plain.
Qed.

Lemma parse_ignores_line_ends_witness :
  args (parse_text_command always
         ("USER" +:+ (" alice" +:+ (crlf +:+ ("PASS" +:+ (" pw" +:+ crlf)))))) =
    ["alice"%string; "PASS"%string; "pw"%string].
Proof.
  apply (parse_ignores_line_ends EmptyString "USER"
           [(" ", "alice"); (crlf, "PASS"); (" ", "pw")]%string crlf).
  - done.
  - split; [done|split; [done|zcompute]].
  - repeat (apply Forall_cons; split); [plain_words..|apply Forall_nil; done].
  - done.
Defined.
