(* ===== verification/Config.v ===== *)
(** * Configuration (src/config_manager/config_manager.c, configurations.h)

    Reading the configuration file line by line into [configurations_t], and
    seeding a default file when none exists.  The file system the seeding
    works on is a parameter ([ConfigFS]); [ConfigFSLaws] states the POSIX
    behaviour the theorems about the seeded file rely on. *)

From S2P Require Import Prelude CString.
From stdpp Require Import options.

Local Open Scope Z_scope.

Record configurations_t := Config {
  max_connections : Z;
  connection_accept_timeout : Z;
  data_connection_accept_timeout : Z;
  port : Z;
  passive_port_start : Z;
  passive_port_end : Z;
  server_name : string;
  ssl_cert_file : string;
  ssl_key_file : string;
}.

Definition set_max_connections v c := Config v (connection_accept_timeout c)
  (data_connection_accept_timeout c) (port c) (passive_port_start c) (passive_port_end c)
  (server_name c) (ssl_cert_file c) (ssl_key_file c).
Definition set_connection_accept_timeout v c := Config (max_connections c) v
  (data_connection_accept_timeout c) (port c) (passive_port_start c) (passive_port_end c)
  (server_name c) (ssl_cert_file c) (ssl_key_file c).
Definition set_data_connection_accept_timeout v c := Config (max_connections c)
  (connection_accept_timeout c) v (port c) (passive_port_start c) (passive_port_end c)
  (server_name c) (ssl_cert_file c) (ssl_key_file c).
Definition set_port v c := Config (max_connections c) (connection_accept_timeout c)
  (data_connection_accept_timeout c) v (passive_port_start c) (passive_port_end c)
  (server_name c) (ssl_cert_file c) (ssl_key_file c).
Definition set_passive_port_start v c := Config (max_connections c)
  (connection_accept_timeout c) (data_connection_accept_timeout c) (port c) v
  (passive_port_end c) (server_name c) (ssl_cert_file c) (ssl_key_file c).
Definition set_passive_port_end v c := Config (max_connections c)
  (connection_accept_timeout c) (data_connection_accept_timeout c) (port c)
  (passive_port_start c) v (server_name c) (ssl_cert_file c) (ssl_key_file c).
Definition set_server_name v c := Config (max_connections c) (connection_accept_timeout c)
  (data_connection_accept_timeout c) (port c) (passive_port_start c) (passive_port_end c)
  v (ssl_cert_file c) (ssl_key_file c).
Definition set_ssl_cert_file v c := Config (max_connections c) (connection_accept_timeout c)
  (data_connection_accept_timeout c) (port c) (passive_port_start c) (passive_port_end c)
  (server_name c) v (ssl_key_file c).
Definition set_ssl_key_file v c := Config (max_connections c) (connection_accept_timeout c)
  (data_connection_accept_timeout c) (port c) (passive_port_start c) (passive_port_end c)
  (server_name c) (ssl_cert_file c) v.

Definition PATH_MAX : Z := 4096.
Definition SERVER_NAME_MAX : Z := 256.
Definition LINE_MAX : Z := 256.
Definition CFTP_SERVER_CONFIG_FILE : string := "/etc/cftp_server.conf".

Definition fill_default_configurations : configurations_t :=
  Config 10000 60 9 21 40000 41000
    (snprintf_s (Z.to_nat SERVER_NAME_MAX) "Harkirat's FTP Server")
    (snprintf_s (Z.to_nat PATH_MAX) "/etc/ssl/certs/cftp_server.crt")
    (snprintf_s (Z.to_nat PATH_MAX) "/etc/ssl/private/cftp_server.key").

(** ** Values *)

Fixpoint equals_icase (a b : string) : bool :=
  match a, b with
  | String c a', String d b' =>
      if Ascii.eqb (tolower c) (tolower d) then equals_icase a' b' else false
  | EmptyString, EmptyString => true
  | _, _ => false
  end.

Definition parse_int (v : string) : option Z :=
  match v with
  | EmptyString => None
  | _ =>
      match strtol v with
      | (_, true, _) | (_, _, None) => None
      | (val, false, Some rest) =>
          match trim_left rest with
          | EmptyString =>
              if (val <? INT_MIN) || (INT_MAX <? val) then None else Some val
          | _ => None
          end
      end
  end.

(** [if (parse_int(v, &iv) && lo <= iv && iv <= hi) cfg->field = iv]; one
    bound is missing in the code when it is the limit of [int] here. *)
Definition assign_int (v : string) (lo hi : Z) (set : Z -> configurations_t -> configurations_t)
    (cfg : configurations_t) : configurations_t :=
  match parse_int v with
  | Some iv => if (lo <=? iv) && (iv <=? hi) then set iv cfg else cfg
  | None => cfg
  end.

Definition assign_kv (cfg : configurations_t) (k v : string) : configurations_t :=
  if equals_icase k "max_connections" then
    assign_int v 1 INT_MAX set_max_connections cfg
  else if equals_icase k "connection_accept_timeout" then
    assign_int v 0 INT_MAX set_connection_accept_timeout cfg
  else if equals_icase k "data_connection_accept_timeout" then
    assign_int v 0 INT_MAX set_data_connection_accept_timeout cfg
  else if equals_icase k "passive_port_start" then
    assign_int v 1024 65535 set_passive_port_start cfg
  else if equals_icase k "passive_port_end" then
    assign_int v 1024 65535 set_passive_port_end cfg
  else if equals_icase k "port" then
    assign_int v 20 65535 set_port cfg
  else if equals_icase k "server_name" then
    set_server_name (trim_right (snprintf_s (Z.to_nat SERVER_NAME_MAX) v)) cfg
  else if equals_icase k "ssl_cert_file" then
    set_ssl_cert_file (trim_right (snprintf_s (Z.to_nat PATH_MAX) v)) cfg
  else if equals_icase k "ssl_key_file" then
    set_ssl_key_file (trim_right (snprintf_s (Z.to_nat PATH_MAX) v)) cfg
  else cfg.

Definition post_validate (cfg : configurations_t) : configurations_t :=
  let cfg := if passive_port_start cfg <? 1 then set_passive_port_start 1 cfg else cfg in
  let cfg := if 65535 <? passive_port_end cfg then set_passive_port_end 65535 cfg else cfg in
  if passive_port_end cfg <? passive_port_start cfg then
    let t := passive_port_start cfg in
    set_passive_port_end t (set_passive_port_start (passive_port_end cfg) cfg)
  else cfg.

(** ** Lines *)

(** [fgets]: at most [room] bytes, up to and including a line feed. *)
Fixpoint fgets_scan (room : nat) (content : string) : string * string :=
  match room, content with
  | S room', String c rest =>
      if Ascii.eqb c lf then (String c EmptyString, rest)
      else let '(l, r) := fgets_scan room' rest in (String c l, r)
  | _, _ => (EmptyString, content)
  end.

Definition fgets (size : Z) (content : string) : option (string * string) :=
  match content with
  | EmptyString => None
  | _ => Some (fgets_scan (Z.to_nat (size - 1)) content)
  end.

(** The body of the [while (fgets(...))] loop. *)
Definition read_line (cfg : configurations_t) (buffer : string) : configurations_t :=
  match trim (c_str buffer) with
  | EmptyString => cfg
  | String c _ as line =>
      if Ascii.eqb c "#" then cfg
      else
        match strchr_split line "=" with
        | None => cfg
        | Some (k, v) =>
            match trim k with
            | EmptyString => cfg
            | key => assign_kv cfg key (trim v)
            end
        end
  end.

Fixpoint read_lines (fuel : nat) (content : string) (cfg : configurations_t)
  : outcome configurations_t :=
  match fuel with
  | O => Hang
  | S fuel' =>
      match fgets LINE_MAX content with
      | None => mret cfg
      | Some (line, rest) => read_lines fuel' rest (read_line cfg line)
      end
  end.

Definition read_content (content : string) (cfg : configurations_t) : outcome configurations_t :=
  cfg' ← read_lines (S (String.length content)) content cfg; mret (post_validate cfg').

(** ** Seeding *)

Definition nl : string := String lf EmptyString.

Definition default_content : string :=
  "# cftp server configuration (directive=value, '#' for comments)" +:+ nl +:+
  nl +:+ "# Limits and timeouts" +:+ nl +:+
  "max_connections=10000" +:+ nl +:+
  "connection_accept_timeout=60" +:+ nl +:+
  "data_connection_accept_timeout=9" +:+ nl +:+
  nl +:+ "# Ports range (IANA dynamic/private ports)" +:+ nl +:+
  "passive_port_start=40000" +:+ nl +:+
  "passive_port_end=41000" +:+ nl +:+
  "port=21" +:+ nl +:+
  nl +:+ "# Identity" +:+ nl +:+
  "server_name=Harkirat's CFTP Server" +:+ nl +:+
  nl +:+ "# TLS settings" +:+ nl +:+
  nl +:+ "# Certificate paths (adjust per distro)" +:+ nl +:+
  "ssl_cert_file=/etc/ssl/certs/cftp_server.crt" +:+ nl +:+
  "ssl_key_file=/etc/ssl/private/cftp_server.key" +:+ nl.

(** The system calls of the seeding; [errno] is not kept, only whether a
    missing file was the reason [stat] failed. *)
Inductive stat_result := StatOk | StatENOENT | StatError.

Class ConfigFS (os : Type) := {
  cfs_stat : os -> string -> stat_result;
  cfs_mkstemp : os -> string -> option (Z * string) * os;
  cfs_fchmod : os -> Z -> Z -> bool * os;
  cfs_write : os -> Z -> string -> Z * os;
  cfs_fsync : os -> Z -> bool * os;
  cfs_close : os -> Z -> bool * os;
  cfs_rename : os -> string -> string -> bool * os;
  cfs_unlink : os -> string -> bool * os;
  cfs_sync_dir : os -> string -> os;
  cfs_fopen : os -> string -> option string;
}.

(** The text before the last [c] of [s]. *)
Fixpoint strrchr_before (s : string) (c : ascii) : option string :=
  match s with
  | EmptyString => None
  | String d s' =>
      match strrchr_before s' c with
      | Some p => Some (String d p)
      | None => if Ascii.eqb d c then Some EmptyString else None
      end
  end.

Definition dir_of (path : string) : string :=
  match strrchr_before (strtake (Z.to_nat (PATH_MAX - 1)) path) "/" with
  | None | Some EmptyString => "/"
  | Some d => d
  end.

Section Seeding.
Context {os : Type} `{ConfigFS os}.

(** The [while (to_write > 0)] loop; a negative count is [None]. *)
Fixpoint write_all (fuel : nat) (s : os) (fd : Z) (p : string) : outcome (bool * os) :=
  match p with
  | EmptyString => mret (true, s)
  | _ =>
      match fuel with
      | O => Hang
      | S fuel' =>
          let '(w, s') := cfs_write s fd p in
          if w <? 0 then mret (false, s')
          else write_all fuel' s' fd (strdrop (Z.to_nat w) p)
      end
  end.

Definition seed_default_config_if_missing (fuel : nat) (s : os) (path_opt : option string)
  : outcome (Z * os) :=
  let path := default CFTP_SERVER_CONFIG_FILE path_opt in
  match cfs_stat s path with
  | StatOk => mret (1, s)
  | StatError => mret (-1, s)
  | StatENOENT =>
      if PATH_MAX - 16 <=? Z.min (strlen path) (PATH_MAX - 1) then mret (-1, s)
      else
        let '(tmp, s1) := cfs_mkstemp s (snprintf_s (Z.to_nat PATH_MAX) (path +:+ ".tmp.XXXXXX")) in
        match tmp with
        | None => mret (-1, s1)
        | Some (fd, tmp_path) =>
            let '(ok, s2) := cfs_fchmod s1 fd 420 in
            if negb ok then mret (-1, (cfs_unlink (cfs_close s2 fd).2 tmp_path).2)
            else
              '(ok, s3) ← write_all fuel s2 fd default_content;
              if negb ok then mret (-1, (cfs_unlink (cfs_close s3 fd).2 tmp_path).2)
              else
                let '(ok, s4) := cfs_fsync s3 fd in
                if negb ok then mret (-1, (cfs_unlink (cfs_close s4 fd).2 tmp_path).2)
                else
                  let '(ok, s5) := cfs_close s4 fd in
                  if negb ok then mret (-1, (cfs_unlink s5 tmp_path).2)
                  else
                    let '(ok, s6) := cfs_rename s5 tmp_path path in
                    if negb ok then mret (-1, (cfs_unlink s6 tmp_path).2)
                    else mret (0, cfs_sync_dir s6 (dir_of path))
        end
  end.

Definition read_configurations (fuel : nat) (s : os) (file_path : option string)
  : outcome (configurations_t * os) :=
  let path := default CFTP_SERVER_CONFIG_FILE file_path in
  let config := fill_default_configurations in
  '(_, s') ← seed_default_config_if_missing fuel s file_path;
  match cfs_fopen s' path with
  | None => mret (config, s')
  | Some content => config' ← read_content content config; mret (config', s')
  end.
End Seeding.

(** What POSIX promises about the calls: the files by path, the file an open
    descriptor writes to, and how each call changes them. *)
Class ConfigFSLaws (os : Type) `{ConfigFS os} := {
  cfs_file : os -> string -> option string;
  cfs_open : os -> Z -> option string;
  mkstemp_none : forall s t s', cfs_mkstemp s t = (None, s') ->
    forall q, cfs_file s' q = cfs_file s q;
  mkstemp_some : forall s t fd tmp s', cfs_mkstemp s t = (Some (fd, tmp), s') ->
    String.length tmp = String.length t /\ cfs_file s tmp = None /\
    cfs_file s' tmp = Some EmptyString /\ cfs_open s' fd = Some tmp /\
    forall q, q <> tmp -> cfs_file s' q = cfs_file s q;
  fchmod_keeps : forall s fd m q, cfs_file (cfs_fchmod s fd m).2 q = cfs_file s q;
  fchmod_open : forall s fd m, cfs_open (cfs_fchmod s fd m).2 fd = cfs_open s fd;
  write_appends : forall s fd p c d w s',
    cfs_open s fd = Some p -> cfs_file s p = Some c -> d <> EmptyString ->
    cfs_write s fd d = (w, s') ->
    cfs_open s' fd = Some p /\ (forall q, q <> p -> cfs_file s' q = cfs_file s q) /\
    (w < 0 -> is_Some (cfs_file s' p)) /\
    (0 <= w -> cfs_file s' p = Some (c +:+ strtake (Z.to_nat w) d));
  write_progress : forall s fd d, d <> EmptyString -> (cfs_write s fd d).1 <> 0;
  fsync_keeps : forall s fd q, cfs_file (cfs_fsync s fd).2 q = cfs_file s q;
  close_keeps : forall s fd q, cfs_file (cfs_close s fd).2 q = cfs_file s q;
  rename_fails : forall s a b s', cfs_rename s a b = (false, s') ->
    forall q, cfs_file s' q = cfs_file s q;
  rename_moves : forall s a b s', cfs_rename s a b = (true, s') -> a <> b ->
    cfs_file s' b = cfs_file s a /\ cfs_file s' a = None /\
    forall q, q <> a -> q <> b -> cfs_file s' q = cfs_file s q;
  unlink_removes : forall s p s', cfs_unlink s p = (true, s') -> cfs_file s' p = None;
  unlink_fails : forall s p s', cfs_unlink s p = (false, s') ->
    forall q, cfs_file s' q = cfs_file s q;
  unlink_keeps : forall s p q, q <> p -> cfs_file (cfs_unlink s p).2 q = cfs_file s q;
  sync_dir_keeps : forall s d q, cfs_file (cfs_sync_dir s d) q = cfs_file s q;
}.

(** ** Reading terminates and keeps the configuration sane *)

(** The ranges the rest of the server relies on. *)
Record config_values_ok (c : configurations_t) : Prop := {
  ok_max : 1 <= max_connections c <= INT_MAX;
  ok_accept : 0 <= connection_accept_timeout c <= INT_MAX;
  ok_data : 0 <= data_connection_accept_timeout c <= INT_MAX;
  ok_port : 20 <= port c <= 65535;
  ok_start : 1024 <= passive_port_start c <= 65535;
  ok_end : 1024 <= passive_port_end c <= 65535;
  ok_name : strlen (server_name c) < SERVER_NAME_MAX;
  ok_cert : strlen (ssl_cert_file c) < PATH_MAX;
  ok_key : strlen (ssl_key_file c) < PATH_MAX;
}.

Definition config_ok (c : configurations_t) : Prop :=
  config_values_ok c /\ passive_port_start c <= passive_port_end c.

Lemma fill_default_ok : config_ok fill_default_configurations.
Proof. split; [split|]; cbn; unfold INT_MAX; (lia || zcompute). Qed.

Lemma assign_int_ok v lo hi set cfg :
  config_values_ok cfg ->
  (forall iv, lo <= iv <= hi -> config_values_ok (set iv cfg)) ->
  config_values_ok (assign_int v lo hi set cfg).
Proof.
  intros Hc Hs. unfold assign_int. destruct (parse_int v) as [iv|]; [|done].
  destruct ((lo <=? iv) && (iv <=? hi)) eqn:E; [|done]. zify_bool. auto.
Qed.

Lemma strlen_field n v : 0 < n -> strlen (trim_right (snprintf_s (Z.to_nat n) v)) < n.
Proof.
  intros Hn. pose proof (length_trim_right (snprintf_s (Z.to_nat n) v)) as H1.
  pose proof (length_snprintf_s (Z.to_nat n) v ltac:(lia)) as H2. unfold strlen. lia.
Qed.

Lemma assign_kv_ok cfg k v : config_values_ok cfg -> config_values_ok (assign_kv cfg k v).
Proof.
  intros Hc. pose proof Hc as [].
  assert (forall n, 0 < n -> strlen (trim_right (snprintf_s (Z.to_nat n) v)) < n) as Hf
    by (intros; by apply strlen_field).
  unfold assign_kv.
  repeat match goal with
  | |- context [if equals_icase ?a ?b then _ else _] => destruct (equals_icase a b)
  end; try done;
  try (apply assign_int_ok; [done|]; intros iv Hiv);
  split; simpl; try done; try lia; apply Hf; done.
Qed.

Lemma read_line_ok cfg buffer : config_values_ok cfg -> config_values_ok (read_line cfg buffer).
Proof. intros Hc. unfold read_line. repeat case_match; try done; by apply assign_kv_ok. Qed.

Lemma fgets_scan_app room s : (fgets_scan room s).1 +:+ (fgets_scan room s).2 = s.
Proof.
  revert s. induction room as [|room IH]; intros [|c s]; simpl; try done.
  destruct (Ascii.eqb c lf); [done|]. specialize (IH s).
  destruct (fgets_scan room s). simpl in *. by rewrite IH.
Qed.

Lemma fgets_scan_nonempty room c s :
  (0 < room)%nat -> exists d l, (fgets_scan room (String c s)).1 = String d l.
Proof.
  destruct room; [lia|]. intros _. cbn [fgets_scan].
  destruct (Ascii.eqb c lf); simpl; [eauto|]. destruct (fgets_scan room s). simpl. eauto.
Qed.

Lemma fgets_progress content line rest :
  fgets LINE_MAX content = Some (line, rest) ->
  content = line +:+ rest /\ (String.length rest < String.length content)%nat.
Proof.
  unfold fgets. destruct content as [|c s]; [done|]. intros Heq.
  apply (inj Some) in Heq.
  assert (0 < Z.to_nat (LINE_MAX - 1))%nat as Hroom by (unfold LINE_MAX; lia).
  pose proof (fgets_scan_app (Z.to_nat (LINE_MAX - 1)) (String c s)) as Happ.
  destruct (fgets_scan_nonempty _ c s Hroom) as (d & l & Hl).
  rewrite Heq in Happ, Hl. cbn [fst snd] in Happ, Hl. subst line. split; [done|].
  apply (f_equal String.length) in Happ. rewrite length_string_app in Happ.
  simpl in Happ |- *. lia.
Qed.

Lemma read_lines_ok fuel content cfg :
  (String.length content < fuel)%nat -> config_values_ok cfg ->
  exists cfg', read_lines fuel content cfg = Ok cfg' /\ config_values_ok cfg'.
Proof.
  revert content cfg. induction fuel as [|fuel IH]; intros content cfg Hf Hc; [lia|].
  cbn [read_lines]. destruct (fgets LINE_MAX content) as [[line rest]|] eqn:E; [|by exists cfg].
  destruct (fgets_progress _ _ _ E) as [_ Hlt].
  apply IH; [lia|]. by apply read_line_ok.
Qed.

Lemma post_validate_ok cfg : config_values_ok cfg -> config_ok (post_validate cfg).
Proof.
  intros []. unfold post_validate.
  destruct (Z.ltb_spec (passive_port_start cfg) 1); [lia|].
  destruct (Z.ltb_spec 65535 (passive_port_end cfg)); [lia|].
  destruct (Z.ltb_spec (passive_port_end cfg) (passive_port_start cfg));
    (split; [split|]; simpl; (done || lia)).
Qed.

Lemma read_content_ok content cfg :
  config_values_ok cfg -> exists cfg', read_content content cfg = Ok cfg' /\ config_ok cfg'.
Proof.
  intros Hc. unfold read_content.
  destruct (read_lines_ok (S (String.length content)) content cfg) as (cfg' & -> & Hok); [lia|done|].
  simpl. eexists. split; [done|]. by apply post_validate_ok.
Qed.

(** ** Seeding *)

Section SeedProofs.
Context {os : Type} `{ConfigFSLaws os}.
#[local] Set Default Proof Using "Type*".

Lemma length_strdrop_lt n d :
  (0 < n)%nat -> d <> EmptyString -> (String.length (strdrop n d) < String.length d)%nat.
Proof. intros Hn Hd. rewrite length_strdrop. destruct d; [done|]. simpl. lia. Qed.

(** Enough fuel for the write loop: every call that does not fail takes at
    least one byte. *)
Lemma write_all_returns fuel s fd d :
  (String.length d <= fuel)%nat -> exists r, write_all fuel s fd d = Ok r.
Proof.
  revert s d. induction fuel as [|fuel IH]; intros s d Hf.
  { destruct d; [by eexists|simpl in Hf; lia]. }
  destruct d as [|c d]; [by eexists|]. cbn [write_all].
  pose proof (write_progress s fd (String c d)) as Hp.
  destruct (cfs_write s fd (String c d)) as [w s']. simpl in Hp.
  destruct (Z.ltb_spec w 0); [by eexists|]. apply IH.
  pose proof (length_strdrop_lt (Z.to_nat w) (String c d)) as Hl.
  specialize (Hp ltac:(done)). specialize (Hl ltac:(lia) ltac:(done)). lia.
Qed.

Lemma write_all_file fuel s fd p c d ok s' :
  cfs_open s fd = Some p -> cfs_file s p = Some c ->
  write_all fuel s fd d = Ok (ok, s') ->
  (forall q, q <> p -> cfs_file s' q = cfs_file s q) /\
  (ok = true -> cfs_file s' p = Some (c +:+ d)).
Proof.
  revert s c d. induction fuel as [|fuel IH]; intros s c d Hop Hc Hw.
  { destruct d; [|done]. simpl in Hw. injection Hw as <- <-.
    rewrite string_app_nil_r. by split. }
  destruct d as [|x d].
  { simpl in Hw. injection Hw as <- <-. rewrite string_app_nil_r. by split. }
  cbn [write_all] in Hw. destruct (cfs_write s fd (String x d)) as [w s1] eqn:Ew.
  assert (String x d <> EmptyString) as Hd by done.
  destruct (write_appends _ _ _ _ _ _ _ Hop Hc Hd Ew) as (Hop1 & Hq1 & Hneg & Hpos).
  destruct (Z.ltb_spec w 0).
  - injection Hw as <- <-. by split.
  - destruct (IH s1 _ _ Hop1 (Hpos ltac:(lia)) Hw) as [Hq2 Hok]. split.
    + intros q Hq. by rewrite Hq2, Hq1.
    + intros Htrue. rewrite (Hok Htrue).
      by rewrite string_app_assoc, strtake_strdrop.
Qed.

(** What a failed attempt leaves: every file as it was, or, when the final
    [unlink] of the temporary file is itself refused, that one file more. *)
Definition left_by_failure (s s' : os) (path : string) : Prop :=
  (forall q, cfs_file s' q = cfs_file s q) \/
  exists s0 tmp,
    cfs_unlink s0 tmp = (false, s') /\ cfs_file s tmp = None /\
    String.length tmp = (String.length path + 11)%nat /\
    forall q, q <> tmp -> cfs_file s' q = cfs_file s q.

Lemma unlink_restores s s' tmp path :
  cfs_file s tmp = None -> String.length tmp = (String.length path + 11)%nat ->
  (forall q, q <> tmp -> cfs_file s' q = cfs_file s q) ->
  left_by_failure s (cfs_unlink s' tmp).2 path.
Proof.
  intros Ht Hlen Hq. destruct (cfs_unlink s' tmp) as [[] s''] eqn:E; simpl.
  - left. intros q. destruct (decide (q = tmp)) as [->|Hne].
    + by rewrite (unlink_removes _ _ _ E).
    + pose proof (unlink_keeps s' tmp q Hne) as Hk. rewrite E in Hk. simpl in Hk.
      rewrite Hk. by apply Hq.
  - right. exists s', tmp. split; [done|]. do 2 (split; [done|]). intros q Hne.
    rewrite (unlink_fails _ _ _ E). by apply Hq.
Qed.

Definition seeded (s s' : os) (path : string) (r : Z) : Prop :=
  if r =? 0 then
    cfs_file s' path = Some default_content /\
    forall q, q <> path -> cfs_file s' q = cfs_file s q
  else left_by_failure s s' path.

Lemma seed_template_length path :
  strlen path < PATH_MAX - 16 ->
  String.length (snprintf_s (Z.to_nat PATH_MAX) (path +:+ ".tmp.XXXXXX"))
    = (String.length path + 11)%nat.
Proof.
  intros Hl. unfold snprintf_s. rewrite length_strtake, length_string_app.
  unfold strlen, PATH_MAX in *. simpl String.length. lia.
Qed.

Lemma seed_spec fuel s path_opt r s' :
  seed_default_config_if_missing fuel s path_opt = Ok (r, s') ->
  seeded s s' (default CFTP_SERVER_CONFIG_FILE path_opt) r.
Proof.
  unfold seed_default_config_if_missing. set (path := default _ path_opt).
  destruct (cfs_stat s path); [by intros [= <- <-]; left| |by intros [= <- <-]; left].
  destruct (Z.leb_spec (PATH_MAX - 16) (Z.min (strlen path) (PATH_MAX - 1)));
    [by intros [= <- <-]; left|].
  destruct (cfs_mkstemp s _) as [[[fd tmp]|] s1] eqn:Em;
    [|intros [= <- <-]; left; by eapply mkstemp_none].
  destruct (mkstemp_some _ _ _ _ _ Em) as (Hlen & Hfresh & Hempty & Hopen & Hq1).
  rewrite seed_template_length in Hlen by (unfold PATH_MAX in *; lia).
  assert (tmp <> path) as Htp by (intros ->; lia).
  pose proof (fchmod_keeps s1 fd 420) as Hq2. pose proof (fchmod_open s1 fd 420) as Ho2.
  destruct (cfs_fchmod s1 fd 420) as [ok s2]. simpl in Hq2, Ho2.
  destruct ok; cbn [negb].
  2: { intros [= <- <-]. apply unlink_restores; [done..|]. intros q' Hq'.
       by rewrite close_keeps, Hq2, Hq1. }
  destruct (write_all fuel s2 fd default_content) as [[ok s3]| |] eqn:Ew; [|done|done].
  rewrite Ok_bind.
  destruct (write_all_file fuel s2 fd tmp EmptyString default_content ok s3) as [Hq3 Hok3];
    [congruence|by rewrite Hq2|done|].
  assert (forall q, q <> tmp -> cfs_file s3 q = cfs_file s q) as Hq3'.
  { intros q Hq. by rewrite Hq3, Hq2, Hq1. }
  destruct ok; cbn [negb].
  2: { intros [= <- <-]. apply unlink_restores; [done..|]. intros q' Hq'.
       by rewrite close_keeps, Hq3'. }
  specialize (Hok3 eq_refl). cbn [String.append] in Hok3.
  pose proof (fsync_keeps s3 fd) as Hq4.
  destruct (cfs_fsync s3 fd) as [ok s4]. simpl in Hq4. destruct ok; cbn [negb].
  2: { intros [= <- <-]. apply unlink_restores; [done..|]. intros q' Hq'.
       by rewrite close_keeps, Hq4, Hq3'. }
  pose proof (close_keeps s4 fd) as Hq5.
  destruct (cfs_close s4 fd) as [ok s5]. simpl in Hq5. destruct ok; cbn [negb].
  2: { intros [= <- <-]. apply unlink_restores; [done..|]. intros q' Hq'.
       by rewrite Hq5, Hq4, Hq3'. }
  destruct (cfs_rename s5 tmp path) as [ok s6] eqn:Er. destruct ok; cbn [negb].
  2: { intros [= <- <-]. apply unlink_restores; [done..|]. intros q' Hq'.
       by rewrite (rename_fails _ _ _ _ Er), Hq5, Hq4, Hq3'. }
  intros [= <- <-]. destruct (rename_moves _ _ _ _ Er Htp) as (Hm1 & Hm2 & Hm3).
  unfold seeded. simpl. split.
  - by rewrite sync_dir_keeps, Hm1, Hq5, Hq4, Hok3.
  - intros q Hq. rewrite sync_dir_keeps. destruct (decide (q = tmp)) as [->|].
    + by rewrite Hm2.
    + by rewrite Hm3, Hq5, Hq4, Hq3'.
Qed.

Lemma seed_returns fuel s path_opt :
  (String.length default_content <= fuel)%nat ->
  exists r, seed_default_config_if_missing fuel s path_opt = Ok r.
Proof.
  intros Hf. unfold seed_default_config_if_missing.
  destruct (cfs_stat s _); [by eexists| |by eexists].
  destruct (_ <=? _); [by eexists|].
  destruct (cfs_mkstemp s _) as [[[fd tmp]|] s1]; [|by eexists].
  destruct (cfs_fchmod s1 fd 420) as [ok s2]. destruct ok; [|by eexists]. cbn [negb].
  destruct (write_all_returns fuel s2 fd default_content Hf) as [[ok s3] ->].
  rewrite Ok_bind. destruct ok; cbn [negb]; [|by eexists].
  destruct (cfs_fsync s3 fd) as [ok s4]. destruct ok; cbn [negb]; [|by eexists].
  destruct (cfs_close s4 fd) as [ok s5]. destruct ok; cbn [negb]; [|by eexists].
  destruct (cfs_rename s5 _ _) as [ok s6]. destruct ok; cbn [negb]; by eexists.
Qed.
End SeedProofs.

(** ** An in-memory file system *)

(** Files by name, open descriptors, and the most one [write] takes. *)
Record memfs := MemFS {
  mf_files : gmap string string;
  mf_fds : gmap Z string;
  mf_chunk : nat;
}.

Definition memfs_write (s : memfs) (fd : Z) (d : string) : Z * memfs :=
  match mf_fds s !! fd with
  | None => (-1, s)
  | Some p =>
      match mf_files s !! p with
      | None => (-1, s)
      | Some c =>
          let w := Nat.min (S (mf_chunk s)) (String.length d) in
          (Z.of_nat w, MemFS (<[p:=c +:+ strtake w d]> (mf_files s)) (mf_fds s) (mf_chunk s))
      end
  end.

#[export] Instance memfs_config_fs : ConfigFS memfs := {
  cfs_stat s p := if mf_files s !! p is Some _ then StatOk else StatENOENT;
  cfs_mkstemp s t :=
    match mf_files s !! t with
    | Some _ => (None, s)
    | None => (Some (3, t), MemFS (<[t:=EmptyString]> (mf_files s)) (<[3:=t]> (mf_fds s)) (mf_chunk s))
    end;
  cfs_fchmod s _ _ := (true, s);
  cfs_write := memfs_write;
  cfs_fsync s _ := (true, s);
  cfs_close s fd := (true, MemFS (mf_files s) (delete fd (mf_fds s)) (mf_chunk s));
  cfs_rename s a b :=
    match mf_files s !! a with
    | None => (false, s)
    | Some c => (true, MemFS (<[b:=c]> (delete a (mf_files s))) (mf_fds s) (mf_chunk s))
    end;
  cfs_unlink s p := (true, MemFS (delete p (mf_files s)) (mf_fds s) (mf_chunk s));
  cfs_sync_dir s _ := s;
  cfs_fopen s p := mf_files s !! p;
}.

#[export, refine] Instance memfs_config_fs_laws : ConfigFSLaws memfs := {
  cfs_file s p := mf_files s !! p;
  cfs_open s fd := mf_fds s !! fd;
}.
Proof.
  - intros s t s'. simpl. case_match; [by intros [= <-]|done].
  - intros s t fd tmp s'. simpl. destruct (mf_files s !! t) eqn:E; [done|].
    intros [= <- <- <-]. simpl. rewrite !lookup_insert_eq. repeat split; [done|].
    intros q Hq. by rewrite lookup_insert_ne.
  - done.
  - done.
  - intros s fd p c d w s' Hfd Hp Hd. simpl. unfold memfs_write. rewrite Hfd, Hp.
    intros [= <- <-]. simpl. rewrite lookup_insert_eq.
    split; [done|]. split; [intros q Hq; by rewrite lookup_insert_ne|].
    split; [lia|]. by rewrite Nat2Z.id.
  - intros s fd d Hd. simpl. unfold memfs_write. repeat case_match; simpl; try done.
    destruct d; [done|]. simpl. lia.
  - done.
  - done.
  - intros s a b s'. simpl. case_match; [done|]. by intros [= <-].
  - intros s a b s'. simpl. destruct (mf_files s !! a) eqn:E; [|done].
    intros [= <-] Hab. simpl. rewrite lookup_insert_eq, lookup_insert_ne, lookup_delete_eq by done.
    repeat split. intros q Hqa Hqb.
    by rewrite lookup_insert_ne, lookup_delete_ne.
  - intros s p s' [= <-]. simpl. apply lookup_delete_eq.
  - done.
  - intros. simpl. by apply lookup_delete_ne.
  - done.
Defined.

Definition no_files : memfs := MemFS ∅ ∅ 7.

(** ** Lines with a number *)

Definition int_keys : list (string * (Z * Z * (Z -> configurations_t -> configurations_t))) :=
  [("max_connections"%string, (1, INT_MAX, set_max_connections));
   ("connection_accept_timeout"%string, (0, INT_MAX, set_connection_accept_timeout));
   ("data_connection_accept_timeout"%string, (0, INT_MAX, set_data_connection_accept_timeout));
   ("passive_port_start"%string, (1024, 65535, set_passive_port_start));
   ("passive_port_end"%string, (1024, 65535, set_passive_port_end));
   ("port"%string, (20, 65535, set_port))].

Definition non_space (c : ascii) : bool := negb (isspace c).

Lemma trim_right_spaces t : all_chars isspace t = true -> trim_right t = EmptyString.
Proof. induction t as [|c t IH]; simpl; [done|]. intros [Hc Ht]%andb_true_iff. by rewrite IH, Hc. Qed.

Lemma trim_right_word w t :
  all_chars non_space w = true -> all_chars isspace t = true -> trim_right (w +:+ t) = w.
Proof.
  intros Hw Ht. induction w as [|c w IH]; simpl; [by apply trim_right_spaces|].
  simpl in Hw. apply andb_true_iff in Hw as [Hc%negb_true_iff Hw].
  rewrite (IH Hw). destruct w; [by rewrite Hc|done].
Qed.

Lemma trim_word c w t :
  all_chars non_space (String c w) = true -> all_chars isspace t = true ->
  trim (String c w +:+ t) = String c w.
Proof.
  intros Hw Ht. unfold trim, trim_left.
  assert (isspace c = false) as Hc.
  { simpl in Hw. by apply andb_true_iff in Hw as [Hc%negb_true_iff _]. }
  cbn [String.append]. simpl skip_spaces. rewrite Hc.
  change (String c (w +:+ t)) with (String c w +:+ t). by apply trim_right_word.
Qed.

Lemma strchr_split_app a b c :
  all_chars (fun d => negb (Ascii.eqb d c)) a = true ->
  strchr_split (a +:+ String c b) c = Some (a, b).
Proof.
  induction a as [|d a IH]; simpl; [by rewrite Ascii.eqb_refl|].
  intros [Hd%negb_true_iff Ha]%andb_true_iff. by rewrite Hd, IH.
Qed.

Lemma digits_non_space s : all_chars isdigit s = true -> all_chars non_space s = true.
Proof.
  apply all_chars_impl. intros c Hc. unfold non_space. by rewrite isdigit_not_space.
Qed.

Lemma parse_int_print n :
  0 <= n <= LONG_MAX ->
  parse_int (print_unsigned n) = if INT_MAX <? n then None else Some n.
Proof.
  intros Hn. unfold parse_int.
  destruct (print_unsigned_cons n) as (c & s & E & _); [lia|].
  rewrite E. rewrite <- E, strtol_print by done. simpl.
  destruct (Z.ltb_spec n INT_MIN); [unfold INT_MIN in *; lia|]. done.
Qed.

Lemma assign_int_print n lo hi set cfg :
  0 <= n <= LONG_MAX -> hi <= INT_MAX ->
  assign_int (print_unsigned n) lo hi set cfg =
    if (lo <=? n) && (n <=? hi) then set n cfg else cfg.
Proof.
  intros Hn Hhi. unfold assign_int. rewrite parse_int_print by done.
  destruct (Z.ltb_spec INT_MAX n); [|done].
  destruct (Z.leb_spec n hi); [lia|]. by rewrite andb_false_r.
Qed.

Lemma read_line_kv cfg k v :
  k <> EmptyString -> all_chars non_space k = true ->
  all_chars (fun d => negb (Ascii.eqb d "=")) k = true ->
  strtake 1 k <> "#"%string -> no_nul k = true ->
  all_chars isdigit v = true -> v <> EmptyString ->
  read_line cfg (k +:+ String "=" (v +:+ nl)) = assign_kv cfg k v.
Proof.
  intros Hne Hk Heq Hhash Hnul Hv Hvne. unfold read_line.
  destruct k as [|c k]; [done|].
  assert (no_nul v = true) as Hvn by (by apply digits_no_nul).
  assert (all_chars non_space v = true) as Hvs by (by apply digits_non_space).
  rewrite c_str_no_nul.
  2: { rewrite no_nul_app, Hnul. simpl. rewrite no_nul_app, Hvn. done. }
  assert (String c k +:+ String "=" (v +:+ nl) = String c (k +:+ String "=" v) +:+ nl) as ->.
  { simpl. f_equal. by rewrite string_app_assoc. }
  rewrite trim_word; [|simpl in *; rewrite all_chars_app; simpl|done].
  2: { apply andb_true_iff in Hk as [-> ->]. by rewrite Hvs. }
  assert (Ascii.eqb c "#" = false) as ->.
  { apply Ascii.eqb_neq. intros ->. apply Hhash. simpl. by destruct k. }
  change (String c (k +:+ String "=" v)) with (String c k +:+ String "=" v).
  rewrite strchr_split_app by done.
  rewrite <- (string_app_nil_r (String c k)) at 1. rewrite trim_word by done. f_equal.
  destruct v as [|d v]; [done|].
  rewrite <- (string_app_nil_r (String d v)) at 1. by rewrite trim_word.
Qed.

(** ** Long lines *)

Lemma read_lines_S fuel content cfg :
  read_lines (S fuel) content cfg =
    match fgets LINE_MAX content with
    | None => mret cfg
    | Some (line, rest) => read_lines fuel rest (read_line cfg line)
    end.
Proof. reflexivity. Qed.

Lemma read_lines_mono f g content c y :
  read_lines f content c = Ok y -> (f <= g)%nat -> read_lines g content c = Ok y.
Proof.
  revert content c g. induction f as [|f IH]; intros content c g Hf Hfg; [done|].
  destruct g as [|g]; [lia|]. rewrite read_lines_S in Hf |- *.
  destruct (fgets LINE_MAX content) as [[l r]|]; [|done]. eapply IH; [done|lia].
Qed.

Lemma read_lines_returns fuel content cfg :
  (String.length content < fuel)%nat -> exists x, read_lines fuel content cfg = Ok x.
Proof.
  revert content cfg. induction fuel as [|fuel IH]; intros content cfg Hf; [lia|].
  rewrite read_lines_S. destruct (fgets LINE_MAX content) as [[line rest]|] eqn:E; [|by eexists].
  destruct (fgets_progress _ _ _ E) as [_ Hlt]. apply IH. lia.
Qed.

Lemma fgets_scan_full a rest n :
  all_chars (fun c => negb (Ascii.eqb c lf)) a = true ->
  fgets_scan (String.length a + n) (a +:+ rest)
    = (let '(l, r) := fgets_scan n rest in (a +:+ l, r)).
Proof.
  induction a as [|c a IH]; simpl; [by destruct (fgets_scan n rest)|].
  intros [Hc%negb_true_iff Ha]%andb_true_iff.
  rewrite Hc, (IH Ha). by destruct (fgets_scan n rest).
Qed.

Lemma fgets_long_comment pad rest :
  String.length pad = 254%nat -> all_chars (fun c => negb (Ascii.eqb c lf)) pad = true ->
  fgets LINE_MAX (String "#" (pad +:+ rest)) = Some (String "#" pad, rest).
Proof.
  intros Hlen Hpad. unfold fgets. f_equal.
  pose proof (fgets_scan_full (String "#" pad) rest 0) as Hscan.
  replace (String.length (String "#" pad) + 0)%nat with (Z.to_nat (LINE_MAX - 1)) in Hscan
    by (simpl; unfold LINE_MAX; lia).
  cbn [String.append] in Hscan. rewrite Hscan by done.
  assert (fgets_scan 0 rest = (EmptyString, rest)) as -> by (by destruct rest).
  by rewrite string_app_nil_r.
Qed.

Lemma read_line_comment pad cfg : read_line cfg (String "#" pad) = cfg.
Proof.
  unfold read_line. simpl c_str. unfold trim, trim_left. simpl skip_spaces. cbn [trim_right].
  by destruct (trim_right (c_str pad)).
Qed.

Lemma read_configurations_returns {os} `{ConfigFSLaws os} fuel (s : os) file_path :
  (String.length default_content <= fuel)%nat ->
  exists cfg s', read_configurations fuel s file_path = Ok (cfg, s') /\ config_ok cfg.
Proof.
  intros Hf. unfold read_configurations.
  destruct (seed_returns fuel s file_path Hf) as [[r s'] ->]. rewrite Ok_bind.
  destruct (cfs_fopen s' _) as [content|].
  - destruct (read_content_ok content fill_default_configurations) as (cfg & -> & Hok);
      [apply fill_default_ok|]. by exists cfg, s'.
  - eexists _, _. split; [done|]. apply fill_default_ok.
Qed.

(** ** Properties *)

(** C36: on every file system that keeps [ConfigFSLaws] (of which the proof
    needs only that a [write] that does not fail takes a byte), for every
    configuration file (missing, unreadable or with any bytes in it)
    [read_configurations] returns, and the configuration it fills has
    [max_connections] at least 1, the port in 20..65535, the passive range
    ordered within 1024..65535, non-negative timeouts and strings that fit
    their buffers. *)
Theorem read_configurations_ok {os} `{ConfigFSLaws os} fuel (s : os) file_path :
  (String.length default_content <= fuel)%nat ->
  exists cfg s', read_configurations fuel s file_path = Ok (cfg, s') /\ config_ok cfg.
Proof. apply read_configurations_returns. Qed.

Lemma read_configurations_ok_witness :
  exists cfg s', read_configurations 2000 no_files None = Ok (cfg, s') /\ config_ok cfg.
Proof. apply (read_configurations_ok 2000 no_files None). vm_compute. lia. Defined.

(** C37: seeding is atomic: when [seed_default_config_if_missing] returns 0
    the file at the path has the complete default text and every other file
    is as before.  On every other return value no file that existed has
    changed and the configuration file has not appeared; one temporary file,
    named eleven bytes longer than the path and new, may be left, and then
    only because the last call, its own [unlink], was refused. *)
Theorem seed_default_config_atomic {os} `{ConfigFSLaws os} fuel (s : os) path_opt r s' :
  let path := default CFTP_SERVER_CONFIG_FILE path_opt in
  seed_default_config_if_missing fuel s path_opt = Ok (r, s') ->
  if r =? 0 then
    cfs_file s' path = Some default_content /\
    forall q, q <> path -> cfs_file s' q = cfs_file s q
  else
    (forall q, cfs_file s' q = cfs_file s q) \/
    exists s0 tmp,
      cfs_unlink s0 tmp = (false, s') /\ cfs_file s tmp = None /\
      String.length tmp = (String.length path + 11)%nat /\
      forall q, q <> tmp -> cfs_file s' q = cfs_file s q.
Proof. apply seed_spec. Qed.

Lemma seed_default_config_atomic_witness :
  exists s', seed_default_config_if_missing 2000 no_files None = Ok (0, s') /\
    cfs_file s' CFTP_SERVER_CONFIG_FILE = Some default_content.
Proof.
  destruct (seed_default_config_if_missing 2000 no_files None) as [[r s']| |] eqn:E;
    [|exfalso; vm_compute in E; discriminate..].
  assert (r = 0) as Hr by (vm_compute in E; congruence).
  exists s'. pose proof (seed_default_config_atomic 2000 no_files None r s' E) as Ha.
  simpl in Ha. rewrite Hr in *. split; [reflexivity|]. exact (proj1 Ha).
Defined.

(** The seeded default file, read back, gives the built-in defaults
    except for the server name, which the file spells "CFTP". *)
Theorem default_content_read_back :
  read_content default_content fill_default_configurations =
    Ok (set_server_name "Harkirat's CFTP Server" fill_default_configurations).
Proof. vm_compute. reflexivity. Qed.

(** A line "key=n" for one of the six numeric keys sets its field to [n]
    when [n] is in the key's range and changes nothing otherwise, however
    large [n] is. *)
Theorem numeric_line cfg k lo hi set n :
  (k, (lo, hi, set)) ∈ int_keys -> 0 <= n <= LONG_MAX ->
  read_line cfg (k +:+ String "=" (print_unsigned n +:+ nl)) =
    if (lo <=? n) && (n <=? hi) then set n cfg else cfg.
Proof.
  intros Hin Hn.
  assert (print_unsigned n <> EmptyString) as Hne.
  { by destruct (print_unsigned_cons n) as (c & s & -> & _); [lia|]. }
  unfold int_keys in Hin.
  repeat (apply elem_of_cons in Hin as [[= -> -> -> ->]|Hin];
    [rewrite read_line_kv by (done || apply all_digits_print; lia);
     unfold assign_kv; simpl equals_icase; cbn match;
     apply assign_int_print; [done|unfold INT_MAX; lia]|]).
  by apply not_elem_of_nil in Hin.
Qed.

Lemma numeric_line_witness :
  read_line fill_default_configurations ("port=2121" +:+ nl) =
    set_port 2121 fill_default_configurations.
Proof.
  apply (numeric_line fill_default_configurations "port" 20 65535 set_port 2121).
  - unfold int_keys. do 5 right. left.
  - split; zcompute.
Defined.

(** A comment line of 255 bytes or more is only skipped up to its 255th
    byte: whatever follows on the same line is read as a line of its own. *)
Theorem long_comment_spills pad rest cfg :
  String.length pad = 254%nat -> all_chars (fun c => negb (Ascii.eqb c lf)) pad = true ->
  read_content (String "#" (pad +:+ rest)) cfg = read_content rest cfg.
Proof.
  intros Hlen Hpad. unfold read_content.
  destruct (read_lines_returns (S (String.length rest)) rest cfg) as [x Hx]; [lia|].
  rewrite Hx. cbn [String.length]. rewrite length_string_app, Hlen.
  rewrite read_lines_S, fgets_long_comment, read_line_comment by done.
  rewrite (read_lines_mono _ (S (254 + String.length rest)) _ _ _ Hx) by lia. done.
Qed.

Lemma long_comment_spills_witness :
  let pad := string_of_list_ascii (repeat "x"%char 254) in
  read_content (String "#" (pad +:+ ("port=2121" +:+ nl))) fill_default_configurations =
    Ok (set_port 2121 fill_default_configurations).
Proof.
  cbv zeta.
  rewrite (long_comment_spills _ ("port=2121" +:+ nl) fill_default_configurations).
  - vm_compute. reflexivity.
  - vm_compute. reflexivity.
  - vm_compute. reflexivity.
Defined.
