(* ===== verification/Security.v ===== *)
(** * Path filter and growing buffers (src/security/security.c)

    [is_path_safe] is the textual filter the command handlers apply before
    they touch a path.  [get_passwd_from_uid] and [get_group_from_gid] retry
    a reentrant lookup with a buffer that doubles, with an overflow test on
    [size_t]. *)

From S2P Require Import Prelude CString.
From stdpp Require Import options.

Local Open Scope Z_scope.

(** ** Paths *)

Definition is_path_safe (params : option string) : bool :=
  match params with
  | Some p => if 0 <? strlen p then negb (strstr_found p "..") else true
  | None => true
  end.

(** The components of a path, empty ones included. *)
Fixpoint components (p : string) : list string :=
  match p with
  | EmptyString => [EmptyString]
  | String c p' =>
      if Ascii.eqb c "/" then EmptyString :: components p'
      else match components p' with
           | [] => [String c EmptyString]
           | w :: ws => String c w :: ws
           end
  end.

(** Lexical resolution: the directories from the root, innermost first. *)
Fixpoint walk (stack : list string) (comps : list string) : list string :=
  match comps with
  | [] => stack
  | w :: ws =>
      if String.eqb w EmptyString || String.eqb w "." then walk stack ws
      else if String.eqb w ".." then walk (tail stack) ws
      else walk (w :: stack) ws
  end.

Definition absolute (p : string) : bool := String.prefix "/" p.

Definition resolve (cwd : list string) (p : string) : list string :=
  walk (if absolute p then [] else cwd) (components p).

(** ** Growing buffers *)

Definition BUFFLEN : Z := 1024.
Definition MAX_TRIES : nat := Z.to_nat 0x1000.

Inductive grow_result :=
  | GrowBuffer (len : Z)
  | GrowOverflow
  | GrowNoMemory
  | GrowError.

(** The [for] loop and the test after it; [get len] is the error code of the
    call with a buffer of [len] bytes, [e] that of the last call.  The second
    component lists the sizes tried. *)
Fixpoint grow_loop (tries : nat) (get : Z -> Z) (realloc_ok : Z -> bool) (len e : Z)
  : grow_result * list Z :=
  match tries with
  | O => (if e =? 0 then GrowBuffer len else GrowError, [])
  | S tries' =>
      let e' := get len in
      if e' =? 0 then (GrowBuffer len, [len])
      else
        let new_len := u64 (2 * len) in
        if new_len <? len then (GrowOverflow, [len])
        else if negb (realloc_ok new_len) then (GrowNoMemory, [len])
        else
          let '(r, tried) := grow_loop tries' get realloc_ok new_len e' in
          (r, len :: tried)
  end.

(** [None] for a NULL [result] argument. *)
Definition get_passwd_from_uid (getpwuid_r : Z -> Z -> Z) (realloc_ok : Z -> bool)
    (uid : Z) (result_given : bool) : option (grow_result * list Z) :=
  if result_given then Some (grow_loop MAX_TRIES (getpwuid_r uid) realloc_ok BUFFLEN 0) else None.

Definition get_group_from_gid (getgrgid_r : Z -> Z -> Z) (realloc_ok : Z -> bool)
    (gid : Z) (result_given : bool) : option (grow_result * list Z) :=
  if result_given then Some (grow_loop MAX_TRIES (getgrgid_r gid) realloc_ok BUFFLEN 0) else None.

(** [n] sizes the loop can try, from [1024 * 2 ^ k] on. *)
Definition grow_sizes (k n : nat) : list Z := (fun i => 1024 * 2 ^ Z.of_nat i) <$> seq k n.

(** ** Lemmas *)

Lemma is_path_safe_spec p :
  is_path_safe (Some p) = true <-> ~ exists a b, p = a +:+ (".." +:+ b).
Proof.
  rewrite <- strstr_found_spec. unfold is_path_safe.
  destruct (Z.ltb_spec 0 (strlen p)) as [|Hz].
  - destruct (strstr_found p ".."); simpl; naive_solver.
  - destruct p; [|unfold strlen in Hz; simpl in Hz; lia]. simpl. naive_solver.
Qed.

Lemma components_nonempty p : components p <> [].
Proof. destruct p as [|c p]; simpl; [done|]. repeat case_match; done. Qed.

Lemma component_substring p w : w ∈ components p -> exists a b, p = a +:+ (w +:+ b).
Proof.
  assert (forall p w ws, components p = w :: ws -> exists b, p = w +:+ b) as Hhead.
  { clear. induction p as [|c p IH]; intros w ws; simpl.
    - intros [= <- <-]. by exists EmptyString.
    - destruct (Ascii.eqb c "/"); [intros [= <- <-]; by exists (String c p)|].
      destruct (components p) as [|w' ws'] eqn:E; [by destruct (components_nonempty p)|].
      intros [= <- <-]. destruct (IH w' ws' eq_refl) as [b ->]. by exists b. }
  revert w. induction p as [|c p IH]; intros w; simpl.
  - intros ->%list_elem_of_singleton. by exists EmptyString, EmptyString.
  - destruct (Ascii.eqb c "/").
    + intros [->|Hw]%elem_of_cons; [by exists EmptyString, (String c p)|].
      destruct (IH w Hw) as (a & b & ->). by exists (String c a), b.
    + destruct (components p) as [|w' ws'] eqn:E; [by destruct (components_nonempty p)|].
      intros [->|Hw]%elem_of_cons.
      * destruct (Hhead p w' ws' E) as [b ->]. by exists EmptyString, b.
      * destruct (IH w) as (a & b & ->); [by right|]. by exists (String c a), b.
Qed.

Lemma walk_suffix stack comps :
  ".."%string ∉ comps -> exists pre, walk stack comps = pre ++ stack.
Proof.
  revert stack. induction comps as [|w ws IH]; intros stack Hni; simpl; [by exists []|].
  apply not_elem_of_cons in Hni as [Hw Hni].
  destruct (String.eqb w EmptyString || String.eqb w "."); [by apply IH|].
  destruct (String.eqb_spec w ".."); [by subst|].
  destruct (IH (w :: stack) Hni) as [pre ->]. exists (pre ++ [w]). by rewrite <- app_assoc.
Qed.

Lemma size_double k : 2 * (1024 * 2 ^ Z.of_nat k) = 1024 * 2 ^ Z.of_nat (S k).
Proof. rewrite Nat2Z.inj_succ, Z.pow_succ_r by lia. lia. Qed.

Lemma size_bound k : (k < 54)%nat -> 1024 <= 1024 * 2 ^ Z.of_nat k <= 9223372036854775808.
Proof.
  intros Hk.
  pose proof (Z.pow_pos_nonneg 2 (Z.of_nat k) ltac:(lia) ltac:(lia)).
  pose proof (Z.pow_le_mono_r 2 (Z.of_nat k) 53 ltac:(lia) ltac:(lia)) as Hle.
  change (2 ^ 53) with 9007199254740992 in Hle. lia.
Qed.

(** What a run from the [k]th size does. *)
Definition grow_ok (get : Z -> Z) (k : nat) (out : grow_result * list Z) : Prop :=
  let '(r, tried) := out in
  (0 < List.length tried <= 54 - k)%nat /\
  tried = grow_sizes k (List.length tried) /\
  (forall len, r = GrowBuffer len -> last tried = Some len /\ get len = 0) /\
  Forall (fun l => get l <> 0) (removelast tried) /\
  r <> GrowError.

Lemma grow_ok_stop get k r :
  (k < 54)%nat -> r <> GrowError ->
  (forall len, r = GrowBuffer len -> len = 1024 * 2 ^ Z.of_nat k /\ get len = 0) ->
  grow_ok get k (r, [1024 * 2 ^ Z.of_nat k]).
Proof.
  intros Hk Hr Hb. split; [simpl; lia|]. split; [done|].
  split; [intros len Hlen; by destruct (Hb len Hlen) as [-> ?]|]. by split.
Qed.

Lemma grow_ok_cons get k r tried :
  get (1024 * 2 ^ Z.of_nat k) <> 0 -> grow_ok get (S k) (r, tried) ->
  grow_ok get k (r, 1024 * 2 ^ Z.of_nat k :: tried).
Proof.
  intros Hnz (Hlen & Htr & Hb & Hall & Hr). split; [simpl; lia|].
  destruct tried as [|l tried]; [simpl in Hlen; lia|].
  split; [simpl in *; by rewrite Htr at 1|].
  split; [done|]. split; [|done]. by constructor.
Qed.

Lemma grow_loop_ok m : forall tries k get realloc_ok e,
  (k + m = 53)%nat -> (m < tries)%nat ->
  grow_ok get k (grow_loop tries get realloc_ok (1024 * 2 ^ Z.of_nat k) e).
Proof.
  induction m as [|m IH]; intros [|tries] k get realloc_ok e Hk Ht; [lia| |lia|];
    cbn [grow_loop];
    (destruct (Z.eqb_spec (get (1024 * 2 ^ Z.of_nat k)) 0) as [Hz|Hnz];
     [apply grow_ok_stop; [lia|done|by intros len [= <-]]|]);
    rewrite size_double.
  - replace (u64 (1024 * 2 ^ Z.of_nat (S k))) with 0
      by (replace k with 53%nat by lia; vm_compute; reflexivity).
    pose proof (size_bound k ltac:(lia)).
    destruct (Z.ltb_spec 0 (1024 * 2 ^ Z.of_nat k)); [|lia].
    apply grow_ok_stop; [lia|done|done].
  - pose proof (size_bound k ltac:(lia)). pose proof (size_bound (S k) ltac:(lia)).
    pose proof (size_double k). rewrite u64_id by (unfold two64 in *; lia).
    destruct (Z.ltb_spec (1024 * 2 ^ Z.of_nat (S k)) (1024 * 2 ^ Z.of_nat k)) as [Hlt|_];
      [clear IH; lia|].
    destruct (realloc_ok _); cbn [negb]; [|apply grow_ok_stop; [lia|done|done]].
    specialize (IH tries (S k) get realloc_ok (get (1024 * 2 ^ Z.of_nat k))).
    destruct (grow_loop tries _ _ _ _) as [r tried]. apply grow_ok_cons; [done|].
    apply IH; lia.
Qed.

(** ** Properties *)

(** C11: [is_path_safe] accepts a path exactly when it has no two consecutive
    dots, and an accepted path never leaves the directory it starts from:
    resolving it component by component only goes down from the root of an
    absolute path, from the working directory of a relative one. *)
Theorem is_path_safe_confines p cwd :
  (is_path_safe (Some p) = true <-> ~ exists a b, p = a +:+ (".." +:+ b)) /\
  (is_path_safe (Some p) = true ->
   exists below, resolve cwd p = below ++ (if absolute p then [] else cwd)).
Proof.
  split; [apply is_path_safe_spec|]. intros Hsafe%is_path_safe_spec.
  apply walk_suffix. intros Hin%component_substring. done.
Qed.

(** The retry loop tries the buffer sizes 1024, 2048, 4096, ... in this
    order, at most 54 of them: it stops at the first size the lookup accepts,
    and the [size_t] overflow test stops it before a size wraps, so the
    4096-try limit is never what ends it. *)
Theorem grow_loop_bounded getpwuid_r realloc_ok uid :
  exists r tried,
    get_passwd_from_uid getpwuid_r realloc_ok uid true = Some (r, tried) /\
    get_group_from_gid getpwuid_r realloc_ok uid true = Some (r, tried) /\
    (0 < List.length tried <= 54)%nat /\
    tried = grow_sizes 0 (List.length tried) /\
    (forall len, r = GrowBuffer len -> last tried = Some len /\ getpwuid_r uid len = 0) /\
    Forall (fun l => getpwuid_r uid l <> 0) (removelast tried) /\ r <> GrowError.
Proof.
  unfold get_passwd_from_uid, get_group_from_gid.
  assert (53 < MAX_TRIES)%nat as Ht by (apply Nat.ltb_lt; vm_compute; reflexivity).
  pose proof (grow_loop_ok 53 MAX_TRIES 0 (getpwuid_r uid) realloc_ok 0 eq_refl Ht) as Hok.
  change (1024 * 2 ^ Z.of_nat 0) with BUFFLEN in Hok.
  destruct (grow_loop _ _ _ _ _) as [r tried]. exists r, tried.
  split; [done|]. split; [done|]. exact Hok.
Qed.
