(* ===== verification/Connection.v ===== *)
(** * The connection record (src/core/connection.h)

    [connection_t] is the state one control connection keeps.  Pointers to
    libevent objects are handles ([None] is NULL); a function pointer that the
    code assigns to a callback field is a constructor of [data_callback_t].
    The fields no line of the program reads or writes ([uid], [gid],
    [control_fd], [passive_fd], [data_event], [interprocess_fd], [ssl_ctx]
    after the fork) are
    left out. *)

From S2P Require Import Prelude CString.
From stdpp Require Import options.

Local Open Scope Z_scope.

(** The functions stored in a [data_callback_t] field. *)
Inductive data_callback_t :=
  | close_data_connection_on_writecb
  | disable_connection_cb
  | close_on_listcb
  | close_on_retrcb
  | download_completion_on_plain_connection_cb
  | send_next_chunk
  | list_tls_on_bev_event_connected
  | stor_tls_on_bev_event_connected
  | on_stor_read
  | on_eof_event_cb.

#[export] Instance data_callback_eq_dec : EqDecision data_callback_t.
Proof. solve_decision. Defined.

Inductive transfer_mode_t := TRANSFER_MODE_ASCII | TRANSFER_MODE_BINARY | TRANSFER_MODE_EBCDIC.

Definition FILE_CHUNK_SIZE : Z := 0x4000000.

(** The chunk buffer is filled and written out in the same call, so only the
    position is kept. *)
Record file_stream_t := FileStream {
  fs_fd : Z;
  fs_offset : Z;
  fs_filesize : Z;
}.

Record connection_t := Connection {
  username : string;
  transfer_mode : transfer_mode_t;
  control_write_cb : option data_callback_t;
  source_ip : string;
  data_fd : Z;
  authenticated : bool;
  error_buf : string;
  data_port : Z;
  control_active : Z;
  data_active : Z;
  upgraded_to_tls : Z;
  data_tls_required : bool;
  data_read_cb : option data_callback_t;
  data_write_cb : option data_callback_t;
  data_tls_event_connected_cb : option data_callback_t;
  data_eof_event_cb : option data_callback_t;
  data_stream : option file_stream_t;
  path : string;
  description : bool;
  hidden : bool;
  human : bool;
  fd : Z;
  bev : option nat;
  pasv_listener : option nat;
  data_bev : option nat;
  upload_fd : Z;
  timeout_event : option nat;
  interprocess_bev : option nat;
}.

(** [calloc(1, sizeof(connection_t))]. *)
Definition zero_connection : connection_t :=
  Connection EmptyString TRANSFER_MODE_ASCII None EmptyString 0 false EmptyString 0 0 0 0 false
    None None None None None EmptyString false false false 0 None None None 0 None None.

(** ** Field assignment *)

Definition eta (c : connection_t) : connection_t :=
  Connection (username c) (transfer_mode c) (control_write_cb c) (source_ip c) (data_fd c)
    (authenticated c) (error_buf c) (data_port c) (control_active c) (data_active c)
    (upgraded_to_tls c) (data_tls_required c) (data_read_cb c) (data_write_cb c)
    (data_tls_event_connected_cb c) (data_eof_event_cb c) (data_stream c) (path c)
    (description c) (hidden c) (human c) (fd c) (bev c) (pasv_listener c) (data_bev c)
    (upload_fd c) (timeout_event c) (interprocess_bev c).

(** [setter proj] is the function that replaces the field [proj]. *)
Ltac setter proj :=
  let v := fresh "v" in
  let c := fresh "c" in
  intros v c;
  let body := eval cbv beta delta [eta] in (eta c) in
  match eval pattern (proj c) in body with
  | ?f _ => let t := eval cbv beta in (f v) in exact t
  end.

Definition set_username : string -> connection_t -> connection_t := ltac:(setter username).
Definition set_transfer_mode : transfer_mode_t -> connection_t -> connection_t :=
  ltac:(setter transfer_mode).
Definition set_control_write_cb : option data_callback_t -> connection_t -> connection_t :=
  ltac:(setter control_write_cb).
Definition set_source_ip : string -> connection_t -> connection_t := ltac:(setter source_ip).
Definition set_data_fd : Z -> connection_t -> connection_t := ltac:(setter data_fd).
Definition set_authenticated : bool -> connection_t -> connection_t := ltac:(setter authenticated).
Definition set_error_buf : string -> connection_t -> connection_t := ltac:(setter error_buf).
Definition set_data_port : Z -> connection_t -> connection_t := ltac:(setter data_port).
Definition set_control_active : Z -> connection_t -> connection_t := ltac:(setter control_active).
Definition set_data_active : Z -> connection_t -> connection_t := ltac:(setter data_active).
Definition set_upgraded_to_tls : Z -> connection_t -> connection_t := ltac:(setter upgraded_to_tls).
Definition set_data_tls_required : bool -> connection_t -> connection_t :=
  ltac:(setter data_tls_required).
Definition set_data_read_cb : option data_callback_t -> connection_t -> connection_t :=
  ltac:(setter data_read_cb).
Definition set_data_write_cb : option data_callback_t -> connection_t -> connection_t :=
  ltac:(setter data_write_cb).
Definition set_data_tls_event_connected_cb : option data_callback_t -> connection_t -> connection_t :=
  ltac:(setter data_tls_event_connected_cb).
Definition set_data_eof_event_cb : option data_callback_t -> connection_t -> connection_t :=
  ltac:(setter data_eof_event_cb).
Definition set_data_stream : option file_stream_t -> connection_t -> connection_t :=
  ltac:(setter data_stream).
Definition set_path : string -> connection_t -> connection_t := ltac:(setter path).
Definition set_description : bool -> connection_t -> connection_t := ltac:(setter description).
Definition set_hidden : bool -> connection_t -> connection_t := ltac:(setter hidden).
Definition set_human : bool -> connection_t -> connection_t := ltac:(setter human).
Definition set_fd : Z -> connection_t -> connection_t := ltac:(setter fd).
Definition set_bev : option nat -> connection_t -> connection_t := ltac:(setter bev).
Definition set_pasv_listener : option nat -> connection_t -> connection_t :=
  ltac:(setter pasv_listener).
Definition set_data_bev : option nat -> connection_t -> connection_t := ltac:(setter data_bev).
Definition set_upload_fd : Z -> connection_t -> connection_t := ltac:(setter upload_fd).
Definition set_timeout_event : option nat -> connection_t -> connection_t :=
  ltac:(setter timeout_event).
Definition set_interprocess_bev : option nat -> connection_t -> connection_t :=
  ltac:(setter interprocess_bev).

(** [__sync_add_and_fetch_8(&connection->data_active, 1)]: an eight byte
    addition on the four byte [data_active], whose carry goes into the next
    field, [upgraded_to_tls]. *)
Definition add_and_fetch_8 (c : connection_t) : connection_t :=
  let wide := u64 (u32 (data_active c) + two32 * u32 (upgraded_to_tls c) + 1) in
  let signed n := if n <=? INT_MAX then n else n - two32 in
  set_upgraded_to_tls (signed (wide / two32)) (set_data_active (signed (wide mod two32)) c).

Lemma add_and_fetch_8_others c :
  authenticated (add_and_fetch_8 c) = authenticated c /\ bev (add_and_fetch_8 c) = bev c /\
  data_tls_required (add_and_fetch_8 c) = data_tls_required c /\
  data_bev (add_and_fetch_8 c) = data_bev c.
Proof. unfold add_and_fetch_8. by split_and!. Qed.

(** Values the two fields have: [data_active] is a small count, the flag is
    0 or 1. *)
Definition flags_ok (c : connection_t) : Prop :=
  0 <= data_active c < INT_MAX /\ 0 <= upgraded_to_tls c <= 1.

(** Reduction of field reads through field assignments. *)
Ltac fields :=
  cbn [username transfer_mode control_write_cb source_ip data_fd authenticated error_buf data_port
    control_active data_active upgraded_to_tls data_tls_required data_read_cb data_write_cb
    data_tls_event_connected_cb data_eof_event_cb data_stream path description hidden human fd bev
    pasv_listener data_bev upload_fd timeout_event interprocess_bev
    set_username set_transfer_mode set_control_write_cb set_source_ip set_data_fd set_authenticated
    set_error_buf set_data_port set_control_active set_data_active set_upgraded_to_tls
    set_data_tls_required set_data_read_cb set_data_write_cb set_data_tls_event_connected_cb
    set_data_eof_event_cb set_data_stream set_path set_description set_hidden set_human set_fd
    set_bev set_pasv_listener set_data_bev set_upload_fd set_timeout_event
    set_interprocess_bev].

Lemma eta_connection c : eta c = c.
Proof. by destruct c. Qed.

(** The carry never reaches [upgraded_to_tls]. *)
Lemma add_and_fetch_8_ok c :
  flags_ok c ->
  data_active (add_and_fetch_8 c) = data_active c + 1 /\
  upgraded_to_tls (add_and_fetch_8 c) = upgraded_to_tls c.
Proof.
  intros [Ha Hu]. unfold INT_MAX in Ha.
  assert (u64 (u32 (data_active c) + two32 * u32 (upgraded_to_tls c) + 1)
    = upgraded_to_tls c * two32 + (data_active c + 1)) as E.
  { rewrite !u32_id by (unfold two32; lia). rewrite u64_id; [|unfold two64, two32; lia].
    unfold two32. lia. }
  unfold add_and_fetch_8. rewrite E. fields.
  rewrite Z.div_add_l, Z.div_small by (unfold two32; lia).
  rewrite Z.add_comm, Z.mod_add, Z.mod_small by (unfold two32; lia).
  unfold INT_MAX. rewrite !(proj2 (Z.leb_le _ _)) by lia. lia.
Qed.
