(* ===== verification/System.v ===== *)
(** * Calls to the system and the handler monad

    Everything a handler asks of the kernel, of libevent, of OpenSSL or of
    the C library's databases is a [call] with a typed [reply].  The answers
    come from an abstract system state through the class [Sys]; nothing is
    assumed about them unless a theorem says so.  A handler is a computation
    over [world]: the connection record, the system, the ledger of libevent
    handles the program holds, and the record of the calls made so far.

    The ledger follows libevent's rule that a handle may be used from its
    creation until it is freed: using a NULL or freed handle, or freeing one
    twice, is [Undefined]. *)

From S2P Require Import Prelude CString Connection.
From stdpp Require Import options.

Local Open Scope Z_scope.

(** ** Data the calls return *)

Record stat_t := Stat {
  st_mode : Z;
  st_nlink : Z;
  st_uid : Z;
  st_gid : Z;
  st_size : Z;
  st_mtime : Z;
}.

Definition S_ISDIR (mode : Z) : bool := Z.land mode 0xF000 =? 0x4000.
Definition S_ISLNK (mode : Z) : bool := Z.land mode 0xF000 =? 0xA000.

Record passwd := Passwd {
  pw_dir : string;
  pw_uid : Z;
  pw_gid : Z;
}.

(** An address as [fill_source_ip] receives it: IPv4 in host order, or the
    text of an IPv6 one. *)
Inductive sockaddr := SockInet (ip : Z) | SockInet6 (text : string) | SockOther (family : Z).

(** ** Calls *)

Inductive call :=
  (* files; a result of -1 is a failure *)
  | CStat (path : string)
  | CLstat (path : string)
  | CFstat (fd : Z)
  | CChdir (path : string)
  | CMkdir (path : string) (mode : Z)
  | CRmdir (path : string)
  | CUnlink (path : string)
  | CGetcwd
  | COpendir (path : string)   (* the names the following [readdir]s return *)
  | CClosedir (path : string)
  | COpenRead (path : string)  (* O_RDONLY *)
  | COpenWrite (path : string) (* O_WRONLY | O_CREAT | O_TRUNC, 0644 *)
  | CRead (fd : Z) (count : Z)
  | CFsync (fd : Z)
  | CClose (fd : Z)
  (* users *)
  | CGetpwnam (name : string)
  | CGetspnam (name : string)
  | CCrypt (password salt : string)
  | CChroot (path : string)
  | CSetgid (gid : Z)
  | CSetuid (uid : Z)
  | CAskRoot (request : string)  (* the reply of the listening process; None is its end *)
  | CGetuid
  (* miscellaneous *)
  | CGetsockname (fd : Z)
  | CGetsockopt (fd : Z)       (* the pending error of a socket *)
  | CStrftimeLocal (mtime : Z) (* "%b %d %H:%M" of [localtime] *)
  | CCalloc (size : Z)
  | CCallocConnection          (* calloc(1, sizeof(connection_t)) *)
  (* libevent *)
  | CBevSocketNew (h : nat) (fd : Z)
  | CBevSslSocketNew (h : nat) (fd : Z)
  | CBevSslFilterNew (h under : nat)
  | CBevSetcb (h : nat) (set : bool)
  | CBevSslError (h : nat)
  | CBevGetfd (h : nat)
  | CBevEnable (h : nat)
  | CBevDisable (h : nat)
  | CBevSetWriteWatermark (h : nat) (low : Z)
  | CBevWrite (h : nat) (bytes : string)
  | CBevAddFile (h : nat) (fd len : Z)
  | CBevRemove (h : nat) (count : Z)
  | CInputLength (h : nat)
  | COutputLength (h : nat)
  | CEvbufferWrite (h : nat) (fd : Z)
  | CBevFree (h : nat)
  | CListenerNewBind (h : nat) (ip port : Z)
  | CListenerDisable (h : nat)
  | CListenerFree (h : nat)
  | CEventNewRead (h : nat) (fd : Z)
  | CEventAdd (h : nat)
  | CTimerNew (h : nat)
  | CTimerAdd (h : nat) (seconds : Z)
  | CTimerDel (h : nat)
  | CEventFree (h : nat)
  | CLoopbreak.

Definition reply (c : call) : Type :=
  match c with
  | CStat _ | CLstat _ | CFstat _ => option stat_t
  | CChdir _ | CMkdir _ _ | CRmdir _ | CUnlink _ | CChroot _ | CSetgid _ | CSetuid _ => Z
  | COpenRead _ | COpenWrite _ => Z
  | CGetcwd | CRead _ _ => option string
  | COpendir _ => option (list string)
  | CGetpwnam _ => option passwd
  | CGetspnam _ | CCrypt _ _ | CAskRoot _ => option string
  | CGetsockname _ | CGetsockopt _ => option Z
  | CStrftimeLocal _ | CBevRemove _ _ => string
  | CInputLength _ | COutputLength _ | CBevSslError _ | CBevGetfd _ | CGetuid => Z
  | CCalloc _ | CCallocConnection | CBevSocketNew _ _ | CBevSslSocketNew _ _ | CBevSslFilterNew _ _
  | CListenerNewBind _ _ _ | CEventNewRead _ _ | CTimerNew _ => bool
  | _ => unit
  end.

(** The environment: how the system answers a call and changes. *)
Class Sys (S : Type) := sys_step : forall c : call, S -> reply c * S.

(** One call made, with its answer. *)
Inductive event := Did (c : call) (r : reply c).

(** ** Handles *)

(** What a handle refers to, with the callbacks it was created for. *)
Inductive kind :=
  | KControlBev
  | KDataBev
  | KInterprocessBev (* the child's end of the socket pair *)
  | KServerIpcBev    (* the listening process's end *)
  | KListener
  | KServerListener  (* inherited from the listening process *)
  | KKillEvent       (* on_parent_dead *)
  | KAuthTimer       (* terminate_process_on_timeout *)
  | KAcceptTimer.    (* kill_listener_on_timeout *)

Definition is_bev (k : kind) : bool :=
  match k with KControlBev | KDataBev | KInterprocessBev | KServerIpcBev => true | _ => false end.
Definition is_listener (k : kind) : bool :=
  match k with KListener | KServerListener => true | _ => false end.
Definition is_event (k : kind) : bool :=
  match k with KKillEvent | KAuthTimer | KAcceptTimer => true | _ => false end.

#[export] Instance kind_eq_dec : EqDecision kind.
Proof. solve_decision. Defined.

Record ledger := Ledger {
  next : nat;
  live : gmap nat kind;
}.

Record world (S : Type) := World {
  conn : connection_t;
  sys : S;
  handles : ledger;
  trace : list event;
}.
Arguments World {S} _ _ _ _.
Arguments conn {S} _.
Arguments sys {S} _.
Arguments handles {S} _.
Arguments trace {S} _.

(** ** The handler monad *)

Definition act (S A : Type) : Type := world S -> outcome (A * world S).

#[export] Instance act_ret S : MRet (act S) := fun A a w => Ok (a, w).
#[export] Instance act_bind S : MBind (act S) := fun A B f m w =>
  match m w with
  | Ok (a, w') => f a w'
  | Undefined => Undefined
  | Hang => Hang
  end.

Section Actions.
Context {S : Type} `{Sys S}.

Definition fail_undefined {A} : act S A := fun _ => Undefined.
Definition hang {A} : act S A := fun _ => Hang.
(** [exit] in the middle of a handler: nothing of the process runs after it. *)
Definition exit_process {A} : act S A := hang.

(** Reading and assigning fields of the connection. *)
Definition get {A} (f : connection_t -> A) : act S A := fun w => Ok (f (conn w), w).
Definition put (f : connection_t -> connection_t) : act S unit :=
  fun w => Ok (tt, World (f (conn w)) (sys w) (handles w) (trace w)).

Definition do_call (c : call) : act S (reply c) := fun w =>
  let '(r, s) := sys_step c (sys w) in
  Ok (r, World (conn w) s (handles w) (trace w ++ [Did c r])).

(** A pointer argument that the callee dereferences. *)
Definition nonnull {A} (p : option A) : act S A :=
  match p with Some a => mret a | None => fail_undefined end.

(** A live handle of the right kind. *)
Definition use (ok : kind -> bool) (p : option nat) : act S nat := fun w =>
  match p with
  | Some h =>
      match live (handles w) !! h with
      | Some k => if ok k then Ok (h, w) else Undefined
      | None => Undefined
      end
  | None => Undefined
  end.

Definition forget (h : nat) : act S unit := fun w =>
  Ok (tt, World (conn w) (sys w)
    (Ledger (next (handles w)) (delete h (live (handles w)))) (trace w)).

(** The handle the next object will get. *)
Definition new_handle : act S nat := fun w => Ok (next (handles w), w).

Definition handle_kind (h : nat) : act S (option kind) := fun w =>
  Ok (live (handles w) !! h, w).

Definition allocate (k : kind) (ok : bool) : act S (option nat) := fun w =>
  let h := next (handles w) in
  if ok then
    Ok (Some h, World (conn w) (sys w) (Ledger (h + 1) (<[h := k]> (live (handles w)))) (trace w))
  else Ok (None, w).

(** *** libevent *)

Definition bufferevent_socket_new (k : kind) (fd : Z) : act S (option nat) :=
  h ← new_handle; ok ← do_call (CBevSocketNew h fd); allocate k ok.
Definition bufferevent_openssl_socket_new (k : kind) (fd : Z) : act S (option nat) :=
  h ← new_handle; ok ← do_call (CBevSslSocketNew h fd); allocate k ok.
(** The filter owns the underlying bufferevent from here on and frees it
    with itself; the program keeps no pointer to it. *)
Definition bufferevent_openssl_filter_new (under : option nat) : act S (option nat) :=
  u ← use is_bev under; h ← new_handle; ok ← do_call (CBevSslFilterNew h u); allocate KControlBev ok.
Definition bufferevent_setcb (b : option nat) (set : bool) : act S unit :=
  h ← use is_bev b; do_call (CBevSetcb h set).
Definition bufferevent_enable (b : option nat) : act S unit :=
  h ← use is_bev b; do_call (CBevEnable h).
Definition bufferevent_disable (b : option nat) : act S unit :=
  h ← use is_bev b; do_call (CBevDisable h).
Definition bufferevent_setwatermark (b : option nat) (low : Z) : act S unit :=
  h ← use is_bev b; do_call (CBevSetWriteWatermark h low).
Definition bufferevent_write (b : option nat) (bytes : string) : act S unit :=
  h ← use is_bev b; do_call (CBevWrite h bytes).
Definition evbuffer_add_file (b : option nat) (fd len : Z) : act S unit :=
  h ← use is_bev b; do_call (CBevAddFile h fd len).
Definition evbuffer_remove (b : option nat) (count : Z) : act S string :=
  h ← use is_bev b; do_call (CBevRemove h count).
Definition input_length (b : option nat) : act S Z :=
  h ← use is_bev b; do_call (CInputLength h).
Definition bufferevent_get_openssl_error (b : option nat) : act S Z :=
  h ← use is_bev b; do_call (CBevSslError h).
Definition bufferevent_getfd (b : option nat) : act S Z :=
  h ← use is_bev b; do_call (CBevGetfd h).
Definition output_length (b : option nat) : act S Z :=
  h ← use is_bev b; do_call (COutputLength h).
Definition evbuffer_write (b : option nat) (fd : Z) : act S unit :=
  h ← use is_bev b; do_call (CEvbufferWrite h fd).
Definition bufferevent_free (b : option nat) : act S unit :=
  h ← use is_bev b; do_call (CBevFree h);; forget h.

Definition evconnlistener_new_bind (ip port : Z) : act S (option nat) :=
  h ← new_handle; ok ← do_call (CListenerNewBind h ip port); allocate KListener ok.
Definition evconnlistener_disable (l : option nat) : act S unit :=
  h ← use is_listener l; do_call (CListenerDisable h).
Definition evconnlistener_free (l : option nat) : act S unit :=
  h ← use is_listener l; do_call (CListenerFree h);; forget h.

Definition event_new_read (fd : Z) : act S (option nat) :=
  h ← new_handle; ok ← do_call (CEventNewRead h fd); allocate KKillEvent ok.
Definition event_add (t : option nat) : act S unit :=
  h ← use is_event t; do_call (CEventAdd h).
Definition evtimer_new (k : kind) : act S (option nat) :=
  h ← new_handle; ok ← do_call (CTimerNew h); allocate k ok.
Definition evtimer_add (t : option nat) (seconds : Z) : act S unit :=
  h ← use is_event t; do_call (CTimerAdd h seconds).
Definition evtimer_del (t : option nat) : act S unit :=
  h ← use is_event t; do_call (CTimerDel h).
Definition event_free (t : option nat) : act S unit :=
  h ← use is_event t; do_call (CEventFree h);; forget h.
End Actions.

(** ** What a handler does to the state

    [keeps R m]: whenever [m] returns, the states before and after are
    related by [R]. *)
Definition keeps {S A} (R : world S -> world S -> Prop) (m : act S A) : Prop :=
  forall w a w', m w = Ok (a, w') -> R w w'.

Lemma act_bind_Ok {S A B} (m : act S A) (f : A -> act S B) w b w' :
  (m ≫= f) w = Ok (b, w') <-> exists a w1, m w = Ok (a, w1) /\ f a w1 = Ok (b, w').
Proof.
  unfold mbind, act_bind. split.
  - destruct (m w) as [[a w1]| |]; try done. eauto.
  - by intros (a & w1 & -> & ?).
Qed.

(** Forward steps. *)
Lemma act_bind_run {S A B} (m : act S A) (f : A -> act S B) w a w1 :
  m w = Ok (a, w1) -> (m ≫= f) w = f a w1.
Proof. unfold mbind, act_bind. by intros ->. Qed.

Lemma do_call_run {S} `{Sys S} c (w : world S) r s :
  sys_step c (sys w) = (r, s) ->
  do_call c w = Ok (r, World (conn w) s (handles w) (trace w ++ [Did c r])).
Proof. unfold do_call. by intros ->. Qed.

(** The state after a call. *)
Definition called {S} `{Sys S} (c : call) (w : world S) : world S :=
  World (conn w) (snd (sys_step c (sys w))) (handles w)
    (trace w ++ [Did c (fst (sys_step c (sys w)))]).

Lemma do_call_called {S} `{Sys S} c (w : world S) :
  do_call c w = Ok (fst (sys_step c (sys w)), called c w).
Proof. unfold do_call, called. by destruct (sys_step c (sys w)). Qed.

Lemma call_bind {S B} `{Sys S} c (f : reply c -> act S B) (w : world S) :
  (do_call c ≫= f) w = f (fst (sys_step c (sys w))) (called c w).
Proof. unfold mbind, act_bind. by rewrite do_call_called. Qed.

Lemma use_live {S} (w : world S) ok k h :
  live (handles w) !! h = Some k -> ok k = true -> use ok (Some h) w = Ok (h, w).
Proof. intros Hl Hk. unfold use. by rewrite Hl, Hk. Qed.

Lemma do_call_Ok {S} `{Sys S} c (w : world S) r w' :
  do_call c w = Ok (r, w') -> exists s, w' = World (conn w) s (handles w) (trace w ++ [Did c r]).
Proof.
  unfold do_call. destruct (sys_step c (sys w)) as [r0 s]. intros [= <- <-]. by exists s.
Qed.

Lemma put_Ok {S} f (w : world S) u w' :
  put f w = Ok (u, w') -> w' = World (f (conn w)) (sys w) (handles w) (trace w).
Proof. by intros [= <- <-]. Qed.

Lemma get_Ok {S A} (f : connection_t -> A) (w : world S) a w' :
  get f w = Ok (a, w') -> a = f (conn w) /\ w' = w.
Proof. by intros [= <- <-]. Qed.

Lemma ret_Ok {S A} (a b : A) (w w' : world S) :
  (mret a : act S A) w = Ok (b, w') -> b = a /\ w' = w.
Proof. by intros [= <- <-]. Qed.

Lemma nonnull_Ok {S A} (p : option A) a (w w' : world S) :
  nonnull p w = Ok (a, w') -> p = Some a /\ w' = w.
Proof. destruct p; [|done]. by intros [-> ->]%ret_Ok. Qed.

Lemma use_Ok {S} ok p h (w w' : world S) :
  use ok p w = Ok (h, w') ->
  p = Some h /\ w' = w /\ exists k, live (handles w) !! h = Some k /\ ok k = true.
Proof. unfold use. repeat case_match; try done. intros [= <- <-]. eauto. Qed.

(** Unfolds a computation that returned into its steps. *)
Ltac inv_act :=
  repeat match goal with
  | H : (_ ≫= _) _ = Ok _ |- _ => apply act_bind_Ok in H; destruct H as (? & ? & ? & H)
  | H : do_call ?c _ = Ok _ |- _ => apply (do_call_Ok c) in H; destruct H as [? ->];
      cbn [conn sys handles trace] in *
  | H : put _ _ = Ok _ |- _ => apply put_Ok in H; subst;
      cbn [conn sys handles trace] in *
  | H : get _ _ = Ok _ |- _ => apply get_Ok in H; destruct H as [-> ->]
  | H : mret _ _ = Ok _ |- _ => apply ret_Ok in H; destruct H as [-> ->]
  | H : nonnull _ _ = Ok _ |- _ => apply nonnull_Ok in H; destruct H as [? ->]
  | H : use _ _ _ = Ok _ |- _ => apply use_Ok in H; destruct H as (? & -> & ? & ? & ?)
  | H : fail_undefined _ = Ok _ |- _ => discriminate H
  end.

(** A relation that every primitive step respects, [okput], [okcall] and
    [okkind] being the assignments, the calls and the new objects it allows. *)
Class Tame {S} (okput : (connection_t -> connection_t) -> Prop) (okcall : call -> Prop)
    (okkind : kind -> Prop) (R : world S -> world S -> Prop) := {
  tame_preorder : PreOrder R;
  tame_put : forall f w, okput f -> R w (World (f (conn w)) (sys w) (handles w) (trace w));
  tame_call : forall c r w s, okcall c ->
    R w (World (conn w) s (handles w) (trace w ++ [Did c r]));
  tame_allocate : forall k w, okkind k ->
    R w (World (conn w) (sys w)
      (Ledger (next (handles w) + 1) (<[next (handles w) := k]> (live (handles w)))) (trace w));
  tame_forget : forall h w,
    R w (World (conn w) (sys w) (Ledger (next (handles w)) (delete h (live (handles w)))) (trace w));
}.

Section Tame.
Context {S : Type} `{Sys S} {okput : (connection_t -> connection_t) -> Prop}.
Context {okcall : call -> Prop} {okkind : kind -> Prop} {R : world S -> world S -> Prop}.
Context `{!Tame okput okcall okkind R}.
#[local] Set Default Proof Using "Type*".

Lemma keeps_refl_of {A} (m : act S A) :
  (forall w a w', m w = Ok (a, w') -> w' = w) -> keeps R m.
Proof. intros Hm w a w' E. rewrite (Hm _ _ _ E). apply tame_preorder. Qed.

Lemma keeps_bind {A B} (m : act S A) (f : A -> act S B) :
  keeps R m -> (forall a, keeps R (f a)) -> keeps R (m ≫= f).
Proof.
  intros Hm Hf w b w' (a & w1 & H1 & H2)%act_bind_Ok.
  pose proof tame_preorder as [_ Ht]. eapply Ht; [by eapply Hm | by eapply Hf].
Qed.

Lemma keeps_ret {A} (a : A) : keeps R (mret a : act S A).
Proof. apply keeps_refl_of. by intros w a' w' [= <- <-]. Qed.

Lemma keeps_get {A} (f : connection_t -> A) : keeps R (get f : act S A).
Proof. apply keeps_refl_of. by intros w a' w' [= <- <-]. Qed.

Lemma keeps_undefined {A} : keeps R (fail_undefined : act S A).
Proof. by intros w a w'. Qed.

Lemma keeps_hang {A} : keeps R (hang : act S A).
Proof. by intros w a w'. Qed.

Lemma keeps_use ok p : keeps R (use ok p : act S nat).
Proof. apply keeps_refl_of. unfold use. intros w a w'. by repeat case_match; intros [= <- <-]. Qed.

Lemma keeps_new_handle : keeps R (new_handle : act S nat).
Proof. apply keeps_refl_of. by intros w a' w' [= <- <-]. Qed.

Lemma keeps_handle_kind h : keeps R (handle_kind h : act S (option kind)).
Proof. apply keeps_refl_of. by intros w a' w' [= <- <-]. Qed.

Lemma keeps_put f : okput f -> keeps R (put f : act S unit).
Proof. intros Hf w a w' [= <- <-]. by apply tame_put. Qed.

Lemma keeps_call c : okcall c -> keeps R (do_call c).
Proof.
  intros Hc w a w'. unfold do_call. destruct (sys_step c (sys w)) as [r s].
  intros [= <- <-]. by apply tame_call.
Qed.

Lemma keeps_forget h : keeps R (forget h : act S unit).
Proof. intros w a w' [= <- <-]. apply tame_forget. Qed.

Lemma keeps_allocate k ok : okkind k -> keeps R (allocate k ok : act S (option nat)).
Proof.
  intros Hk w a w'. unfold allocate. destruct ok; intros [= <- <-];
    [by apply tame_allocate | apply tame_preorder].
Qed.
End Tame.

(** Walks through a handler, [side] proving that the assignments and calls it
    meets are allowed; [known] closes the goals for recursive functions. *)
Ltac head_of m := lazymatch m with ?f _ => head_of f | _ => m end.

Ltac walk side known :=
  repeat lazymatch goal with
  | |- keeps _ (_ ≫= _) => apply keeps_bind; [|intros ?]
  | |- keeps _ (mret _) => apply keeps_ret
  | |- keeps _ (get _) => apply keeps_get
  | |- keeps _ (put _) => apply keeps_put; side
  | |- keeps _ (do_call ?c) => apply (keeps_call c); side
  | |- keeps _ (use _ _) => apply keeps_use
  | |- keeps _ new_handle => apply keeps_new_handle
  | |- keeps _ (handle_kind _) => apply keeps_handle_kind
  | |- keeps _ (allocate _ _) => apply keeps_allocate; side
  | |- keeps _ (forget _) => apply keeps_forget
  | |- keeps _ fail_undefined => apply keeps_undefined
  | |- keeps _ hang => apply keeps_hang
  | |- keeps _ (match ?x with _ => _ end) => destruct x eqn:?
  | |- keeps _ (let '_ := ?x in _) => destruct x
  | |- keeps _ ?m => first [known | let h := head_of m in unfold h]
  end.

(** Applies a [keeps] fact proved by the given tactic to a computation. *)
Ltac apply_keeps tac :=
  match goal with
  | |- ?m ?w = Ok _ -> ?R ?w _ =>
      let Hk := fresh in assert (keeps R m) as Hk by tac; apply Hk
  end.
