(* ===== verification/SmallSystem.v ===== *)
(** * A small concrete system

    An instance of [Sys] with a few files, directories and users, on which
    the witnesses evaluate handlers and sessions. *)

From S2P Require Import Prelude CString Connection System.
From stdpp Require Import options.

Local Open Scope Z_scope.

(** An open descriptor: the file and, for reading, what is left of it. *)
Record small := Small {
  files : list (string * string);
  dirs : list (string * list string);
  users : list (string * (passwd * string));  (* with the stored hash *)
  opened : list (Z * (string * string));
  inputs : list (nat * string);               (* bytes received per bufferevent *)
}.

Definition assoc {A} (k : string) (l : list (string * A)) : option A :=
  match list_find (fun x => x.1 = k) l with Some (_, (_, a)) => Some a | None => None end.

Definition assoc_fd (k : Z) (l : list (Z * (string * string))) : option (string * string) :=
  match list_find (fun x => x.1 = k) l with Some (_, (_, a)) => Some a | None => None end.

Definition input_of (h : nat) (s : small) : string :=
  match list_find (fun x => x.1 = h) (inputs s) with Some (_, (_, a)) => a | None => EmptyString end.

Definition remove_key {A} (k : string) (l : list (string * A)) : list (string * A) :=
  filter (fun x => x.1 <> k) l.

Definition set_input (h : nat) (t : string) (s : small) : small :=
  Small (files s) (dirs s) (users s) (opened s) ((h, t) :: filter (fun x => x.1 <> h) (inputs s)).

Definition set_files (f : list (string * string)) (s : small) : small :=
  Small f (dirs s) (users s) (opened s) (inputs s).

Definition set_dirs (d : list (string * list string)) (s : small) : small :=
  Small (files s) d (users s) (opened s) (inputs s).

Definition set_opened (o : list (Z * (string * string))) (s : small) : small :=
  Small (files s) (dirs s) (users s) o (inputs s).

Definition small_stat (p : string) (s : small) : option stat_t :=
  match assoc p (files s) with
  | Some content => Some (Stat 0x81a4 1 1000 1000 (strlen content) 1700000000)
  | None => if assoc p (dirs s) is Some _ then Some (Stat 0x41ed 2 1000 1000 4096 1700000000) else None
  end.

(** The hash of a password is the password with a mark. *)
Definition small_crypt (password : string) : string := "$" +:+ password.

Definition next_fd (s : small) : Z := 100 + Z.of_nat (List.length (opened s)).

#[export] Instance small_sys : Sys small := fun c s =>
  match c as c return reply c * small with
  | CStat p | CLstat p => (small_stat p s, s)
  | CFstat fd =>
      (match assoc_fd fd (opened s) with Some (p, _) => small_stat p s | None => None end, s)
  | CChdir p => (if String.eqb p "/" then 0 else if assoc p (dirs s) is Some _ then 0 else -1, s)
  | CMkdir p _ => (0, set_dirs ((p, []) :: dirs s) s)
  | CRmdir p => (0, set_dirs (remove_key p (dirs s)) s)
  | CUnlink p => (if assoc p (files s) is Some _ then 0 else -1, set_files (remove_key p (files s)) s)
  | CGetcwd => (Some "/"%string, s)
  | COpendir p => (assoc p (dirs s), s)
  | COpenRead p =>
      match assoc p (files s) with
      | Some content => (next_fd s, set_opened ((next_fd s, (p, content)) :: opened s) s)
      | None => (-1, s)
      end
  | COpenWrite p =>
      (next_fd s, set_files ((p, EmptyString) :: remove_key p (files s))
                   (set_opened ((next_fd s, (p, EmptyString)) :: opened s) s))
  | CRead fd n =>
      match assoc_fd fd (opened s) with
      | Some (p, rest) =>
          (* at most three bytes at a time *)
          (Some (strtake 3 rest),
           set_opened ((fd, (p, strdrop 3 rest)) :: filter (fun x => x.1 <> fd) (opened s)) s)
      | None => (None, s)
      end
  | CGetpwnam name => (match assoc name (users s) with Some (e, _) => Some e | None => None end, s)
  | CGetspnam name => (match assoc name (users s) with Some (_, h) => Some h | None => None end, s)
  | CCrypt password _ => (Some (small_crypt password), s)
  | CChroot _ | CSetgid _ | CSetuid _ => (0, s)
  | CAskRoot _ => (Some "alice"%string, s)
  | CGetuid => (1000, s)
  | CGetsockname _ => (Some 0x7f000001, s)
  | CGetsockopt _ => (Some 0, s)
  | CStrftimeLocal _ => ("Nov 14 22:13"%string, s)
  | CCalloc _ | CCallocConnection | CBevSocketNew _ _ | CBevSslSocketNew _ _ | CBevSslFilterNew _ _
  | CListenerNewBind _ _ _ | CEventNewRead _ _ | CTimerNew _ => (true, s)
  | CBevRemove h _ => (input_of h s, set_input h EmptyString s)
  | CInputLength h => (strlen (input_of h s), s)
  | COutputLength _ | CBevSslError _ => (0, s)
  | CBevGetfd _ => (7, s)
  | CEvbufferWrite h fd =>
      (tt, match assoc_fd fd (opened s) with
           | Some (p, _) =>
               set_input h EmptyString
                 (set_files ((p, default EmptyString (assoc p (files s)) +:+ input_of h s)
                             :: remove_key p (files s)) s)
           | None => s
           end)
  | _ => (tt, s)
  end.

(** One user, a file and two directories. *)
Definition sample_small : small :=
  Small [("notes.txt", "hello, world"); ("box/a", "1"); ("box/b", "2")]%string
    [(".", ["notes.txt"; "box"]); ("box", [".."; "a"; "b"; "."])]%string
    [("alice", (Passwd "/home/alice" 1000 1000, "$secret"))]%string [] [].

(** ** Calls on descriptors *)

Lemma small_read (fd n : Z) s p rest :
  assoc_fd fd (opened s) = Some (p, rest) ->
  small_sys (CRead fd n) s =
    (Some (strtake 3 rest),
     set_opened ((fd, (p, strdrop 3 rest)) :: filter (fun x => x.1 <> fd) (opened s)) s).
Proof. intros E. cbn [small_sys]. by rewrite E. Qed.

Lemma assoc_fd_cons fd x l : assoc_fd fd ((fd, x) :: l) = Some x.
Proof. unfold assoc_fd. cbn [list_find]. by rewrite decide_True by done. Qed.

Lemma small_evbuffer_write (h : nat) (fd : Z) s p rest :
  assoc_fd fd (opened s) = Some (p, rest) ->
  small_sys (CEvbufferWrite h fd) s =
    (tt, set_input h EmptyString
           (set_files ((p, default EmptyString (assoc p (files s)) +:+ input_of h s)
                       :: remove_key p (files s)) s)).
Proof. intros E. cbn [small_sys]. by rewrite E. Qed.

Lemma input_of_set h t s : input_of h (set_input h t s) = t.
Proof. unfold input_of, set_input. cbn [inputs list_find]. by rewrite decide_True by done. Qed.

Lemma assoc_cons {A} k (a : A) l : assoc k ((k, a) :: l) = Some a.
Proof. unfold assoc. cbn [list_find]. by rewrite decide_True by done. Qed.
