(* ===== verification/Control.v ===== *)
(** * The control connection (src/engine/control_handler.c)

    Replies, the TLS upgrade, the authentication timeout and the callbacks of
    the control bufferevent.  [disable_connection_cb] of
    src/core/connection.c is here too, since the error path of the control
    connection runs it. *)

From S2P Require Import Prelude CString Connection System SmallSystem.
From stdpp Require Import options.

Local Open Scope Z_scope.

(** ** Status codes (src/engine/ftp_status_codes.h) *)

Definition FTP_STATUS_FILE_STATUS_OKAY : Z := 150.
Definition FTP_STATUS_COMMAND_OK : Z := 200.
Definition FTP_STATUS_FILE_STATUS : Z := 213.
Definition FTP_STATUS_NAME_SYSTEM_TYPE : Z := 215.
Definition FTP_STATUS_SERVICE_READY : Z := 220.
Definition FTP_STATUS_SERVICE_CLOSING : Z := 221.
Definition FTP_STATUS_DATA_CONNECTION_CLOSING : Z := 226.
Definition FTP_STATUS_ENTERING_PASSIVE_MODE : Z := 227.
Definition FTP_STATUS_ENTERING_EPSV_MODE : Z := 229.
Definition FTP_STATUS_USER_LOGGED_IN : Z := 230.
Definition FTP_STATUS_AUTH_TLS_OK : Z := 234.
Definition FTP_STATUS_FILE_ACTION_OK : Z := 250.
Definition FTP_STATUS_PATHNAME_CREATED : Z := 257.
Definition FTP_STATUS_USER_NAME_OK : Z := 331.
Definition FTP_STATUS_SERVICE_NOT_AVAILABLE : Z := 421.
Definition FTP_STATUS_CANNOT_OPEN_DATA : Z := 425.
Definition FTP_STATUS_ACTION_ABORTED : Z := 451.
Definition FTP_STATUS_INSUFFICIENT_STORAGE : Z := 452.
Definition FTP_STATUS_SYNTAX_ERROR_PARAMS : Z := 501.
Definition FTP_STATUS_COMMAND_NOT_IMPLEMENTED_PERM : Z := 502.
Definition FTP_STATUS_UNSUPPORTED_TYPE : Z := 504.
Definition FTP_STATUS_NOT_LOGGED_IN : Z := 530.
Definition FTP_STATUS_FILE_ACTION_NOT_TAKEN_PERM : Z := 550.
Definition FTP_STATUS_FILE_NAME_NOT_ALLOWED : Z := 553.

Definition MAX_RESPONSE_BUFFER_LENGTH : Z := 0x100.

(** ** libevent's event flags *)

Definition BEV_EVENT_EOF : Z := 0x10.
Definition BEV_EVENT_ERROR : Z := 0x20.
Definition BEV_EVENT_TIMEOUT : Z := 0x40.
Definition BEV_EVENT_CONNECTED : Z := 0x80.

Definition has_flag (events flag : Z) : bool := negb (Z.land events flag =? 0).

Lemma has_flag_lor events a b : has_flag events (Z.lor a b) = has_flag events a || has_flag events b.
Proof.
  unfold has_flag. rewrite Z.land_lor_distr_r, <- negb_andb. f_equal.
  destruct (Z.eqb_spec (Z.lor (Z.land events a) (Z.land events b)) 0) as [E|E].
  - apply Z.lor_eq_0_iff in E as [-> ->]. done.
  - destruct (Z.eqb_spec (Z.land events a) 0) as [Ea|]; [|done].
    destruct (Z.eqb_spec (Z.land events b) 0) as [Eb|]; [|done].
    rewrite Ea, Eb in E. done.
Qed.

(** The reply line as [send_control_message] formats it. *)
Definition control_line (status_code : Z) (text : string) : string :=
  snprintf_s (Z.to_nat MAX_RESPONSE_BUFFER_LENGTH)
    ((if status_code =? 0 then EmptyString else print_unsigned status_code +:+ " ") +:+ (text +:+ crlf)).

Section Control.
Context {S : Type} `{Sys S}.

Definition write_text_response (b : option nat) (text : string) : act S unit :=
  match b with
  | Some _ => bufferevent_write b text
  | None => mret tt
  end.

Definition send_control_message (status_code : Z) (text : string) : act S unit :=
  b ← get bev;
  match b with
  | None => mret tt
  | Some _ => bufferevent_write b (control_line status_code text)
  end.

Definition upgrade_to_tls : act S unit :=
  send_control_message FTP_STATUS_AUTH_TLS_OK "AUTH TLS Success";;
  old ← get bev;
  bufferevent_disable old;;
  bev_ssl ← bufferevent_openssl_filter_new old;
  put (set_bev bev_ssl);;
  bufferevent_setcb bev_ssl true;;
  bufferevent_enable bev_ssl;;
  put (set_upgraded_to_tls 1).

Definition terminate_process_on_timeout : act S unit :=
  put (set_control_write_cb (Some disable_connection_cb));;
  send_control_message FTP_STATUS_SERVICE_NOT_AVAILABLE "Control connection timed out !".

(** [disable_connection_cb(bev, ctx)] with a non-NULL [ctx]. *)
Definition run_disable_connection_cb (b : option nat) : act S unit :=
  bufferevent_disable b;;
  bufferevent_free b;;
  do_call CLoopbreak.

Definition on_event (b : option nat) (events : Z) : act S unit :=
  if has_flag events BEV_EVENT_CONNECTED then mret tt
  else if has_flag events BEV_EVENT_EOF || has_flag events BEV_EVENT_ERROR then
    run_disable_connection_cb b
  else mret tt.

(** [run cb b] executes the callback stored in a field. *)
Definition on_write (run : data_callback_t -> option nat -> act S unit) (b : option nat)
  : act S unit :=
  match b with
  | None => mret tt
  | Some _ =>
      cb ← get control_write_cb;
      match cb with Some f => run f b | None => mret tt end;;
      put (set_control_write_cb None)
  end.
End Control.

(** ** Lemmas *)

(** A three digit status code prints as three digits. *)
Lemma print_status n :
  100 <= n < 1000 ->
  exists a b c, print_unsigned n = String a (String b (String c EmptyString)) /\
    isdigit a = true /\ isdigit b = true /\ isdigit c = true.
Proof.
  intros Hn. unfold print_unsigned. cbn [dec_acc].
  pose proof (Z.mod_pos_bound n 10 ltac:(lia)).
  pose proof (Z.mod_pos_bound (n / 10) 10 ltac:(lia)).
  pose proof (Z.mod_pos_bound (n / 10 / 10) 10 ltac:(lia)).
  assert (10 <= n / 10 < 100) as Ht.
  { split; [apply Z.div_le_lower_bound | apply Z.div_lt_upper_bound]; lia. }
  assert (1 <= n / 10 / 10 < 10) as Hh.
  { split; [apply Z.div_le_lower_bound | apply Z.div_lt_upper_bound]; lia. }
  destruct (Z.ltb_spec n 10); [lia|]. destruct (Z.ltb_spec (n / 10) 10); [lia|].
  destruct (Z.ltb_spec (n / 10 / 10) 10); [|lia].
  eexists _, _, _. split; [done|]. split_and!; apply isdigit_digit; lia.
Qed.

(** No line feed in the text. *)
Definition no_lf (s : string) : bool := all_chars (fun c => negb (Ascii.eqb c lf)) s.

Lemma no_lf_app a b : no_lf (a +:+ b) = no_lf a && no_lf b.
Proof. apply all_chars_app. Qed.

Lemma no_lf_digits s : all_chars isdigit s = true -> no_lf s = true.
Proof. apply all_chars_impl. intros c. ascii_cases c. Qed.

Lemma no_lf_crlf s : no_lf s = true -> strstr_found s crlf = false.
Proof.
  intros Hs. destruct (strstr_found s crlf) eqn:E; [|done].
  apply strstr_found_spec in E as (a & b & ->). exfalso. revert Hs.
  rewrite !no_lf_app. unfold crlf, no_lf. cbn [all_chars]. simpl. by rewrite andb_false_r.
Qed.

Lemma control_line_short status text :
  100 <= status < 1000 -> strlen text <= 249 ->
  control_line status text = print_unsigned status +:+ (" " +:+ (text +:+ crlf)).
Proof.
  intros Hs Ht. unfold control_line. destruct (Z.eqb_spec status 0); [lia|].
  destruct (print_status status Hs) as (a & b & c & -> & _).
  unfold snprintf_s. rewrite string_app_assoc. apply strtake_all.
  rewrite !length_string_app. unfold strlen in Ht.
  change (Z.to_nat MAX_RESPONSE_BUFFER_LENGTH - 1)%nat with 255%nat. simpl. lia.
Qed.

Lemma control_line_long status text :
  100 <= status < 1000 -> 250 <= strlen text ->
  control_line status text =
    print_unsigned status +:+ (" " +:+ strtake 251 (text +:+ crlf)).
Proof.
  intros Hs Ht. unfold control_line. destruct (Z.eqb_spec status 0); [lia|].
  destruct (print_status status Hs) as (a & b & c & -> & _).
  unfold snprintf_s. change (Z.to_nat MAX_RESPONSE_BUFFER_LENGTH - 1)%nat with 255%nat. done.
Qed.

Lemma control_line_cut status text :
  100 <= status < 1000 -> no_lf text = true -> 250 <= strlen text ->
  strstr_found (control_line status text) crlf = false.
Proof.
  intros Hs Hlf Ht. rewrite control_line_long by done. apply no_lf_crlf.
  rewrite !no_lf_app, no_lf_digits by (apply all_digits_print; lia).
  change (no_lf " ") with true. rewrite !andb_true_l, strtake_app, no_lf_app.
  unfold no_lf at 1. rewrite all_chars_strtake by done. unfold strlen in Ht.
  rewrite andb_true_l.
  destruct (251 - String.length text)%nat as [|[|n]] eqn:E; [done|done|lia].
Qed.

Lemma length_control_line status text : strlen (control_line status text) <= 255.
Proof.
  unfold control_line, snprintf_s, strlen. rewrite length_strtake.
  change (Z.to_nat MAX_RESPONSE_BUFFER_LENGTH - 1)%nat with 255%nat. lia.
Qed.

Lemma send_control_run {S} `{Sys S} (w : world S) h status text :
  bev (conn w) = Some h -> live (handles w) !! h = Some KControlBev ->
  exists s, send_control_message status text w =
    Ok (tt, World (conn w) s (handles w)
      (trace w ++ [Did (CBevWrite h (control_line status text)) tt])).
Proof.
  intros Hb Hl. unfold send_control_message. erewrite act_bind_run; [|done]. rewrite Hb.
  unfold bufferevent_write. erewrite act_bind_run; [|by eapply use_live].
  destruct (sys_step (CBevWrite h (control_line status text)) (sys w)) as [[] s] eqn:E. exists s. by erewrite do_call_run.
Qed.

(** ** Properties *)

(** A reply is written in one piece on the control connection and is at
    most 255 bytes long.  A text of up to 249 bytes gives the complete line
    "code text CRLF"; a longer one is cut so that no line end is left in
    what the client receives. *)
Theorem send_control_message_line {S} `{Sys S} (w : world S) h status text :
  100 <= status < 1000 -> no_lf text = true ->
  bev (conn w) = Some h -> live (handles w) !! h = Some KControlBev ->
  (exists w', send_control_message status text w = Ok (tt, w') /\ conn w' = conn w /\
    trace w' = trace w ++ [Did (CBevWrite h (control_line status text)) tt]) /\
  strlen (control_line status text) <= 255 /\
  (strlen text <= 249 ->
     control_line status text = print_unsigned status +:+ (" " +:+ (text +:+ crlf))) /\
  (250 <= strlen text -> strstr_found (control_line status text) crlf = false).
Proof.
  intros Hs Hlf Hb Hl. split_and!.
  - destruct (send_control_run w h status text) as (s & ->); [done..|]. by eexists.
  - apply length_control_line.
  - by apply control_line_short.
  - by apply control_line_cut.
Qed.

(** A connection with its control bufferevent, handle 0. *)
Definition sample_world : world small :=
  World (set_bev (Some 0%nat) zero_connection) sample_small (Ledger 1 {[0%nat := KControlBev]}) [].

Example send_control_message_line_witness :
  (exists w', send_control_message 221 "Goodbye!" sample_world = Ok (tt, w') /\
    conn w' = conn sample_world /\
    trace w' = [Did (CBevWrite 0 ("221 Goodbye!" +:+ crlf)) tt]) /\
  strlen (control_line 221 "Goodbye!") <= 255.
Proof.
  destruct (send_control_message_line sample_world 0 221 "Goodbye!") as (Hw & Hb & _);
    [lia|reflexivity..|].
  split; [exact Hw|exact Hb].
Defined.
