(* ===== verification/ServerState.v ===== *)
(** * The listening process (src/core/server_state.c, src/core/connection.c,
      src/ipc/interprocess_handler.c)

    [server_state_t] is the global state of the process that listens.  Its
    operations are the set-up of the passive port range, the accept callback
    of the control port and the callbacks of the socket pair kept for each
    child. *)

From S2P Require Import Prelude CString Config Connection Control.
From stdpp Require Import options.

Local Open Scope Z_scope.

Record pasv_port_range_t := PasvRange {
  range_start : Z;
  range_end : Z;
  range_n : Z;
}.

Record server_state_t := ServerState {
  config : configurations_t;
  pasv_range : pasv_port_range_t;
  current_connections : Z;
  server_version : string;
}.

(** [start] and [end] are C [int]s, the fields are [uint16_t]. *)
Definition connections_init_pasv_range (start end_ : Z) : pasv_port_range_t :=
  let '(start, end_) := if end_ <? start then (end_, start) else (start, end_) in
  let start := if start <? 1 then 1 else start in
  let end_ := if 65535 <? end_ then 65535 else end_ in
  PasvRange (u16 start) (u16 end_) (end_ - start + 1).

Definition SERVER_VERSION_LEN : Z := 64.

(** [cfg] is what [read_configurations] stored; [None] is [exit(-1)]. *)
Definition init_server_state (cfg : configurations_t) (version : string)
    (certificate_ok private_key_ok base_ok : bool) : option server_state_t :=
  if negb certificate_ok || negb private_key_ok then None
  else
    let range := connections_init_pasv_range (passive_port_start cfg) (passive_port_end cfg) in
    if base_ok then
      Some (ServerState cfg range 0 (snprintf_s (Z.to_nat SERVER_VERSION_LEN) version))
    else None.

Definition set_current_connections (n : Z) (s : server_state_t) : server_state_t :=
  ServerState (config s) (pasv_range s) n (server_version s).

(** ** The process *)

(** [ipc_bevs] are the socket pairs with a live bufferevent, [open_fds] every
    descriptor the process holds besides its own. *)
Record listening_process := Listening {
  state : server_state_t;
  ipc_bevs : list Z;
  open_fds : list Z;
}.

(** What the calls made while accepting return. *)
Record accept_answers := Answers {
  client_fd : Z;
  rpc_fd : option (Z * Z); (* socketpair *)
  pipe_fd : Z * Z;         (* pipe, which is not tested *)
  bev_created : bool;      (* bufferevent_socket_new *)
}.

Inductive accept_result := MaxConnections | NoSocketPair | NoBufferevent | Registered.

Definition register_interprocess_fd_on_server (interprocess_fd : Z) (ok : bool)
    (p : listening_process) : accept_result * listening_process :=
  if ok then
    (Registered,
     Listening
       (set_current_connections (u32 (current_connections (state p) + 1)) (state p))
       (interprocess_fd :: ipc_bevs p) (open_fds p))
  else (NoBufferevent, p).

Definition close (fd : Z) (p : listening_process) : listening_process :=
  Listening (state p) (ipc_bevs p) (filter (.≠ fd) (open_fds p)).

(** The listening process's side of [control_connection_accept_cb]: a failed
    [fork] is not told apart from a parent's return. *)
Definition control_connection_accept_cb (a : accept_answers) (p : listening_process)
  : accept_result * listening_process :=
  let p := Listening (state p) (ipc_bevs p) (client_fd a :: open_fds p) in
  if max_connections (config (state p)) <=? current_connections (state p) then
    (MaxConnections, close (client_fd a) p)
  else
    match rpc_fd a with
    | None => (NoSocketPair, close (client_fd a) p)
    | Some (rpc0, rpc1) =>
        let '(pipe0, pipe1) := pipe_fd a in
        let p := Listening (state p) (ipc_bevs p) (rpc0 :: rpc1 :: pipe0 :: pipe1 :: open_fds p) in
        let p := close pipe0 p in
        let p := close rpc1 p in
        let p := close (client_fd a) p in
        register_interprocess_fd_on_server rpc0 (bev_created a) p
    end.

(** [event_cb] of either process; [ctx] tells whether the context pointer is
    non-NULL, [None] is [exit(-1)]. *)
Definition event_cb (ctx : bool) (uid : Z) (fd events : Z) (p : listening_process)
  : option listening_process :=
  if negb ctx then Some p
  else if has_flag events (Z.lor BEV_EVENT_EOF BEV_EVENT_ERROR) then
    if uid =? 0 then
      Some (Listening
        (set_current_connections (u32 (current_connections (state p) + 1)) (state p))
        (filter (.≠ fd) (ipc_bevs p)) (filter (.≠ fd) (open_fds p)))
    else None
  else Some p.

(** The events of the listening process: [register_interprocess_fd_on_server]
    registers [event_cb] with a NULL context. *)
Inductive server_event :=
  | Incoming (a : accept_answers)
  | IpcEvent (fd events : Z).

Definition server_step (p : listening_process) (e : server_event)
  : option accept_result * listening_process :=
  match e with
  | Incoming a => let '(r, p') := control_connection_accept_cb a p in (Some r, p')
  | IpcEvent fd events => (None, default p (event_cb false 0 fd events p))
  end.

Fixpoint server_run (p : listening_process) (es : list server_event)
  : list accept_result * listening_process :=
  match es with
  | [] => ([], p)
  | e :: es' =>
      let '(r, p1) := server_step p e in
      let '(rs, p2) := server_run p1 es' in
      (match r with Some r => r :: rs | None => rs end, p2)
  end.

#[export] Instance accept_result_eq_dec : EqDecision accept_result.
Proof. solve_decision. Defined.

Definition registered (rs : list accept_result) : nat :=
  List.length (filter (.= Registered) rs).

(** ** Lemmas *)

Definition limit (p : listening_process) : Z := max_connections (config (state p)).
Definition current (p : listening_process) : Z := current_connections (state p).

(** What one event does to the counter: only a registration changes it, and
    it needs a free slot. *)
Lemma server_step_counter p e r p' :
  server_step p e = (r, p') -> 0 <= current p -> limit p < two32 ->
  limit p' = limit p /\
  (r = Some Registered -> current p < limit p /\ current p' = current p + 1) /\
  (r <> Some Registered -> current p' = current p) /\
  (r <> None -> limit p <= current p -> r = Some MaxConnections).
Proof.
  unfold limit, current. intros Hstep H0 Hl. destruct e as [a|fd events]; simpl in Hstep.
  - unfold control_connection_accept_cb in Hstep. simpl in Hstep.
    destruct (Z.leb_spec (max_connections (config (state p))) (current_connections (state p))).
    { injection Hstep as <- <-. simpl. split_and!; [done|done|done|done]. }
    destruct (rpc_fd a) as [[r0 r1]|].
    2:{ injection Hstep as <- <-. simpl. split_and!; [done|done|done|lia]. }
    destruct (pipe_fd a) as [p0 p1]. unfold register_interprocess_fd_on_server in Hstep.
    destruct (bev_created a); injection Hstep as <- <-; simpl.
    + rewrite u32_id by lia. split_and!; [done|intros; lia|done|lia].
    + split_and!; [done|done|done|lia].
  - unfold event_cb in Hstep. simpl in Hstep. injection Hstep as <- <-. by split_and!.
Qed.

Lemma server_run_counter es : forall p rs p',
  server_run p es = (rs, p') -> 0 <= current p <= limit p -> limit p < two32 ->
  limit p' = limit p /\ current p' = current p + Z.of_nat (registered rs) /\
  current p' <= limit p /\
  (limit p <= current p -> Forall (.= MaxConnections) rs).
Proof.
  induction es as [|e es IH]; intros p rs p' Hrun Hc Hl; simpl in Hrun.
  - injection Hrun as <- <-. unfold registered. simpl. split_and!; [done|lia|lia|done].
  - destruct (server_step p e) as [r p1] eqn:E.
    destruct (server_step_counter p e r p1 E ltac:(lia) Hl) as (Hlim & Hreg & Hnot & Hrej).
    destruct (server_run p1 es) as [rs' p2] eqn:Er. injection Hrun as <- <-.
    assert (0 <= current p1 <= limit p1) as Hc1.
    { destruct (decide (r = Some Registered)) as [Hr|Hr];
        [destruct (Hreg Hr); lia | rewrite (Hnot Hr); lia]. }
    destruct (IH p1 rs' p2 Er Hc1 ltac:(lia)) as (Hlim2 & Hcnt & Hle & Hall).
    split; [lia|].
    destruct r as [[]|]; unfold registered in *; rewrite ?filter_cons; simpl;
      first [rewrite (Hnot ltac:(done)) in * | destruct (Hreg eq_refl) as [? Hcur]; rewrite Hcur in *];
      (split; [lia|split; [lia|]]); intros Hfull; try (specialize (Hrej ltac:(done) Hfull));
      try done; try lia; try (constructor; [done|]); by apply Hall; lia.
Qed.

(** ** Properties *)

(** For every configuration that passes validation the passive port range
    is non-empty, lies within 1024..65535, keeps the configured ends, and its
    [n] is the number of ports between them. *)
Theorem pasv_range_of_config cfg version :
  config_ok cfg ->
  exists s, init_server_state cfg version true true true = Some s /\
    let r := pasv_range s in
    range_start r = passive_port_start cfg /\ range_end r = passive_port_end cfg /\
    1024 <= range_start r <= range_end r /\ range_end r <= 65535 /\
    range_n r = range_end r - range_start r + 1 /\ 1 <= range_n r.
Proof.
  intros [[] Hle]. eexists. split; [done|]. simpl.
  unfold connections_init_pasv_range.
  destruct (Z.ltb_spec (passive_port_end cfg) (passive_port_start cfg)); [lia|].
  destruct (Z.ltb_spec (passive_port_start cfg) 1); [lia|].
  destruct (Z.ltb_spec 65535 (passive_port_end cfg)); [lia|]. simpl.
  rewrite !u16_id by (unfold two16; lia). lia.
Qed.

(** C38: a connection slot is never given back.  Whatever the order of
    incoming connections and of events on the socket pairs (the end of a
    child included), the number of connections registered over the life of
    the process never exceeds [max_connections], and once the counter has
    reached it every later connection is rejected. *)
Theorem connection_slots_never_released p es rs p' :
  server_run p es = (rs, p') -> 0 <= current p <= limit p -> limit p < two32 ->
  current p + Z.of_nat (registered rs) <= limit p /\
  current p' = current p + Z.of_nat (registered rs) /\
  (current p = limit p -> Forall (.= MaxConnections) rs).
Proof.
  intros Hrun Hc Hl. destruct (server_run_counter es p rs p' Hrun Hc Hl) as (_ & Hcnt & Hle & Hall).
  split; [lia|]. split; [done|]. intros Heq. apply Hall. lia.
Qed.

(** ** Witnesses *)

Lemma pasv_range_of_config_witness :
  config_ok fill_default_configurations /\
  exists s, init_server_state fill_default_configurations "1.0" true true true = Some s /\
    range_n (pasv_range s) = 1001.
Proof.
  split; [exact fill_default_ok|].
  destruct (pasv_range_of_config fill_default_configurations "1.0" fill_default_ok)
    as (s & Hs & Hstart & Hend & _ & _ & Hn & _).
  exists s. split; [exact Hs|]. simpl in *. rewrite Hn, Hstart, Hend. reflexivity.
Defined.

(** Two slots, a client that leaves, then two more clients. *)
Definition sample_process : listening_process :=
  Listening (ServerState (set_max_connections 2 fill_default_configurations)
    (PasvRange 40000 41000 1001) 0 "1.0") [] [].

Definition sample_events : list server_event :=
  [Incoming (Answers 10 (Some (11, 12)) (13, 14) true);
   IpcEvent 11 (Z.lor 1 BEV_EVENT_EOF);
   Incoming (Answers 10 (Some (15, 16)) (17, 18) true);
   IpcEvent 15 (Z.lor 1 BEV_EVENT_EOF);
   Incoming (Answers 10 (Some (19, 20)) (21, 22) true)].

Lemma connection_slots_never_released_witness :
  let '(rs, p') := server_run sample_process sample_events in
  rs = [Registered; Registered; MaxConnections] /\
  current sample_process + Z.of_nat (registered rs) <= limit sample_process /\
  current p' = 2.
Proof.
  split; [reflexivity|].
  pose proof (connection_slots_never_released sample_process sample_events _ _ eq_refl) as Hw.
  assert (0 <= current sample_process <= limit sample_process) as Hc
    by (split; apply Z.leb_le; vm_compute; reflexivity).
  assert (limit sample_process < two32) as Hl by zcompute.
  destruct (Hw Hc Hl) as (Hle & Hcur & _). split; [exact Hle|]. rewrite Hcur. reflexivity.
Defined.
