(* ===== verification/Startup.v ===== *)
(** * From the start to the loop (src/engine/main.c, start_server_listener of
      src/core/connection.c)

    [main] composes the configuration, the global state, the listening socket
    and the events of the listening process. *)

From S2P Require Import Prelude CString Config Connection ServerState.
From stdpp Require Import options.

Local Open Scope Z_scope.

(** What the libraries and the kernel answer before the loop. *)
Record boot_answers := Boot {
  sigaction_ok : bool;
  certificate_ok : bool;
  private_key_ok : bool;
  base_ok : bool;
  bind_ok : Z -> bool; (* evconnlistener_new_bind on a port *)
}.

(** The port bound, [None] being [exit(1)]; [htons] takes a [uint16_t]. *)
Definition start_server_listener (bind : Z -> bool) (port : Z) : option Z :=
  let sin_port := u16 port in
  if bind sin_port then Some sin_port else None.

(** [Exit] before the loop, or the port, the answers to the connections and
    the state when the loop has handled the events. *)
Inductive main_result :=
  | Exit (code : Z)
  | Served (port : Z) (results : list accept_result) (p : listening_process).

(** The library objects of the global state: [true] is live.  Freeing one
    that is not is undefined. *)
Record server_objects := Objects { ssl_ctx : bool; base : bool }.

Definition destroy_server_state (o : server_objects) : outcome server_objects :=
  if ssl_ctx o && base o then mret (Objects false false) else Undefined.

(** *** Children that ended *)

Record child := Child { pid : Z; ended : bool }.

(** [waitpid(-1, NULL, WNOHANG)]: a child that ended leaves the table; 0
    when all that are left run, -1 when there is none. *)
Fixpoint waitpid_nohang (cs : list child) : Z * list child :=
  match cs with
  | [] => (-1, [])
  | c :: cs' =>
      if ended c then (pid c, cs')
      else let '(r, cs'') := waitpid_nohang cs' in (if 0 <? r then r else 0, c :: cs'')
  end.

Fixpoint sigchld_handler (fuel : nat) (cs : list child) : outcome (list child) :=
  match fuel with
  | O => Hang
  | S fuel' =>
      let '(r, cs') := waitpid_nohang cs in
      if 0 <? r then sigchld_handler fuel' cs' else mret cs'
  end.

Definition main {os} `{ConfigFS os} (fuel : nat) (s : os) (version : string) (a : boot_answers)
    (events : list server_event) : outcome (main_result * os) :=
  if negb (sigaction_ok a) then mret (Exit 1, s)
  else
    '(cfg, s') ← read_configurations fuel s None;
    match init_server_state cfg version (certificate_ok a) (private_key_ok a) (base_ok a) with
    | None => mret (Exit (-1), s')
    | Some srv =>
        match start_server_listener (bind_ok a) (port (config srv)) with
        | None => mret (Exit 1, s')
        | Some p =>
            let '(rs, proc) := server_run (Listening srv [] []) events in
            _ ← destroy_server_state (Objects true true);
            mret (Served p rs proc, s')
        end
    end.

(** ** Lemmas *)

Definition running (cs : list child) : list child := filter (fun c => ended c = false) cs.
Definition zombies (cs : list child) : nat := List.length (filter (fun c => ended c = true) cs).

Lemma waitpid_step cs :
  Forall (fun c => 0 < pid c) cs ->
  let '(r, cs') := waitpid_nohang cs in
  Forall (fun c => 0 < pid c) cs' /\ running cs' = running cs /\
  (if 0 <? r then zombies cs = S (zombies cs') else cs' = running cs /\ zombies cs = 0%nat).
Proof.
  unfold running, zombies. induction 1 as [|c cs Hc Hcs IH]; [done|]. cbn [waitpid_nohang].
  destruct (ended c) eqn:Ec.
  - rewrite (proj2 (Z.ltb_lt 0 _)) by done. rewrite !filter_cons, Ec. by rewrite decide_False by done.
  - destruct (waitpid_nohang cs) as [r cs']. destruct IH as (Hp & Hr & Hz).
    rewrite !filter_cons, !Ec. rewrite !decide_True, !decide_False by done.
    split; [by constructor|]. split; [by rewrite Hr|].
    destruct (0 <? r) eqn:E; [by rewrite E|]. destruct Hz as [-> Hz]. by split.
Qed.

(** Signals are not queued, so one run of the handler may have to take
    several children: it takes all that ended and leaves the others, with one
    call more than there are. *)
Theorem sigchld_reaps_all fuel : forall cs,
  Forall (fun c => 0 < pid c) cs -> (zombies cs < fuel)%nat ->
  sigchld_handler fuel cs = Ok (running cs).
Proof.
  induction fuel as [|fuel IH]; intros cs Hcs Hf; [lia|]. cbn [sigchld_handler].
  pose proof (waitpid_step cs Hcs) as Hs. destruct (waitpid_nohang cs) as [r cs'].
  destruct Hs as (Hcs' & Hr & Hz). destruct (0 <? r); [|by destruct Hz as [-> _]].
  rewrite IH; [by rewrite Hr|done|lia].
Qed.

Lemma server_step_config p e r p' :
  server_step p e = (r, p') ->
  config (state p') = config (state p) /\ pasv_range (state p') = pasv_range (state p).
Proof.
  destruct e as [a|fd events]; simpl.
  - unfold control_connection_accept_cb, register_interprocess_fd_on_server.
    intros E. repeat case_match; simplify_eq/=; done.
  - by intros [= _ <-].
Qed.

Lemma server_run_config es : forall p rs p',
  server_run p es = (rs, p') ->
  config (state p') = config (state p) /\ pasv_range (state p') = pasv_range (state p).
Proof.
  induction es as [|e es IH]; intros p rs p' E; simpl in E; [by injection E as _ <-|].
  destruct (server_step p e) as [r p1] eqn:E1. destruct (server_run p1 es) as [rs' p2] eqn:E2.
  injection E as _ <-. destruct (server_step_config _ _ _ _ E1) as [<- <-]. by apply IH in E2.
Qed.

(** Everything the start asks for is there. *)
Definition boot_ok (a : boot_answers) (port : Z) : bool :=
  sigaction_ok a && certificate_ok a && private_key_ok a && base_ok a && bind_ok a port.

(** ** Properties *)

(** C17: whatever the configuration file contains (or when there is none),
    [main] gets through the start.  If the signal handler, the certificate, its
    key, the event base and the listening socket are there it listens on
    exactly the configured port, which is in 20..65535, with the configured
    passive range, non-empty and within 1024..65535, and over all events that
    follow serves at most [max_connections] clients; otherwise it exits with
    an error before the first connection. *)
Theorem main_serves {os} `{ConfigFSLaws os} fuel (s : os) version a events :
  (String.length default_content <= fuel)%nat ->
  exists cfg s1 r s2, read_configurations fuel s None = Ok (cfg, s1) /\
    main fuel s version a events = Ok (r, s2) /\
    match r with
    | Exit code => boot_ok a (port cfg) = false /\ (code = 1 \/ code = -1)
    | Served p results proc =>
        boot_ok a (port cfg) = true /\ p = port cfg /\ 20 <= p <= 65535 /\
        config (state proc) = cfg /\
        range_start (pasv_range (state proc)) = passive_port_start cfg /\
        range_end (pasv_range (state proc)) = passive_port_end cfg /\
        1024 <= passive_port_start cfg <= passive_port_end cfg /\ passive_port_end cfg <= 65535 /\
        current_connections (state proc) = Z.of_nat (registered results) /\
        Z.of_nat (registered results) <= max_connections cfg
    end.
Proof.
  intros Hf. destruct (read_configurations_returns fuel s None Hf) as (cfg & s1 & Hread & Hok).
  exists cfg, s1. unfold main, boot_ok. rewrite Hread, Ok_bind.
  destruct (sigaction_ok a); cbn [negb andb]; [|eexists _, _; do 2 (split; [done|]); split; [done|by left]].
  pose proof Hok as [[] Hle].
  destruct (pasv_range_of_config cfg version Hok) as (srv & Hsrv & Hstart & Hend & _).
  destruct (certificate_ok a) eqn:Ec, (private_key_ok a) eqn:Ek, (base_ok a) eqn:Eb;
    try (eexists _, _; do 2 (split; [done|]); split; [done|by right]).
  rewrite Hsrv. cbn [andb].
  assert (config srv = cfg /\ current_connections srv = 0) as [Hcfg Hcur] by (injection Hsrv as <-; done).
  unfold start_server_listener. rewrite Hcfg, u16_id by (unfold two16; lia).
  destruct (bind_ok a (port cfg)) eqn:Ebind; [|eexists _, _; do 2 (split; [done|]); split; [done|by left]].
  destruct (server_run (Listening srv [] []) events) as [rs proc] eqn:Erun.
  destruct (server_run_config _ _ _ _ Erun) as [Hc Hr]. cbn [state] in Hc, Hr.
  destruct (server_run_counter _ _ _ _ Erun) as (_ & Hcount & Hlim & _).
  { unfold current, limit. cbn [state]. rewrite Hcur, Hcfg. lia. }
  { unfold limit. cbn [state]. rewrite Hcfg. unfold INT_MAX, two32 in *. lia. }
  unfold current, limit in *. cbn [state] in *.
  eexists _, _. do 2 (split; [done|]).
  cbv beta iota. rewrite Hc, Hr, Hstart, Hend. rewrite Hcfg in *. split_and!; (done || lia).
Qed.

(** No configuration file, everything there, two clients. *)
Definition boot_sample : boot_answers := Boot true true true true (fun _ => true).

Example main_serves_witness :
  exists cfg s1 r s2, read_configurations 2000 no_files None = Ok (cfg, s1) /\
    main 2000 no_files "1.0" boot_sample sample_events = Ok (r, s2) /\
    match r with Exit _ => False | Served p results _ => p = port cfg /\ registered results = 3%nat end.
Proof.
  destruct (main_serves 2000 no_files "1.0" boot_sample sample_events)
    as (cfg & s1 & r & s2 & Hc & Hm & Hr); [vm_compute; lia|].
  exists cfg, s1, r, s2. split; [exact Hc|]. split; [exact Hm|].
  destruct r as [code|p results proc].
  - destruct Hr as [Hr _]. discriminate Hr.
  - split; [exact (proj1 (proj2 Hr))|]. vm_compute in Hm. injection Hm as _ <- _ _. reflexivity.
Defined.
