(* ===== verification/DataHandler.v ===== *)
(** * The data connection (src/engine/data_handler.c)

    Opening the passive listener, accepting the data connection, the
    callbacks of its bufferevent and closing it.  [fill_source_ip] of
    src/core/connection.c is here with the comparison that uses it. *)

From S2P Require Import Prelude CString Config Connection System SmallSystem Control.
From S2P Require Import ServerState.
From stdpp Require Import options.

Local Open Scope Z_scope.

(** [inet_ntop(AF_INET, ...)] of an address in host order. *)
Definition ip_byte (ip : Z) (i : Z) : Z := Z.land (Z.shiftr ip (8 * i)) 0xFF.

Definition dotted (sep : string) (ip : Z) : string :=
  print_unsigned (ip_byte ip 3) +:+ (sep +:+ (print_unsigned (ip_byte ip 2) +:+ (sep +:+
  (print_unsigned (ip_byte ip 1) +:+ (sep +:+ print_unsigned (ip_byte ip 0)))))).

(** [buf] is what the destination held before. *)
Definition fill_source_ip (addr : sockaddr) (buf : string) : string :=
  match addr with
  | SockInet ip => dotted "." ip
  | SockInet6 text => text
  | SockOther _ => buf
  end.

(** [sizeof(INET6_ADDRSTRLEN)] is the size of an [int]. *)
Definition SIZEOF_INET6_ADDRSTRLEN : nat := 4.

Definition same_source (source_ip ip_str : string) : bool :=
  strncmp_eq source_ip ip_str SIZEOF_INET6_ADDRSTRLEN.

(** The texts of the two replies to a passive command. *)
Definition RESPONSE_LEN : Z := 256.

Definition epsv_response (pasv_port : Z) : string :=
  snprintf_s (Z.to_nat RESPONSE_LEN)
    ("Entering Extended Passive Mode (|||" +:+ (print_unsigned pasv_port +:+ "|)")).

Definition pasv_response (ip pasv_port : Z) : string :=
  snprintf_s (Z.to_nat RESPONSE_LEN)
    ("Entering Passive Mode. " +:+ (dotted "," ip +:+ ("," +:+
      (print_unsigned (pasv_port / 256) +:+ ("," +:+ print_unsigned (pasv_port mod 256)))))).

Section DataHandler.
Context {S : Type} `{Sys S}.
Variable srv : server_state_t.

Definition close_data_connection : act S unit :=
  b ← get data_bev;
  match b with
  | None =>
      put (set_data_bev None);;
      put (set_data_tls_event_connected_cb None);;
      put (set_data_eof_event_cb None);;
      put (set_data_read_cb None);;
      put (set_data_write_cb None);;
      put (set_data_active 0);;
      put (set_upload_fd (-1))
  | Some _ =>
      bufferevent_setcb b false;;
      bufferevent_disable b;;
      bufferevent_free b;;
      put (set_data_bev None);;
      put (set_data_tls_event_connected_cb None);;
      put (set_data_eof_event_cb None);;
      put (set_data_read_cb None);;
      put (set_data_write_cb None);;
      put (set_data_active 0);;
      put (set_upload_fd (-1));;
      s ← get data_stream;
      match s with
      | Some _ => put (set_data_stream None)
      | None => mret tt
      end
  end.

(** [ip_str] is what the stack buffer holds on entry. *)
Definition data_connection_accept_cb (ip_str : string) (listener : nat) (fd : Z)
    (addr : sockaddr) : act S unit :=
  source ← get source_ip;
  if negb (same_source source (fill_source_ip addr ip_str)) then do_call (CClose fd)
  else
    evconnlistener_free (Some listener);;
    put (set_data_active 0);;
    put (set_pasv_listener None);;
    put (set_data_fd fd);;
    tls ← get data_tls_required;
    b ← (if (tls : bool) then bufferevent_openssl_socket_new KDataBev fd
         else bufferevent_socket_new KDataBev fd);
    put (set_data_bev b);;
    match b with
    | None => mret tt
    | Some _ =>
        bufferevent_setcb b true;;
        bufferevent_enable b;;
        (if (tls : bool) then mret tt else put add_and_fetch_8);;
        t ← get timeout_event;
        evtimer_del t;;
        event_free t
    end.

(** The [for] loop over the port range; the result is [pasv_port] after it.
    [uint16_t] arithmetic makes the increment wrap. *)
Fixpoint bind_loop (fuel : nat) (ip pasv_port : Z) : act S Z :=
  match fuel with
  | O => hang
  | Datatypes.S fuel' =>
      if pasv_port <=? range_end (pasv_range srv) then
        put (set_data_port pasv_port);;
        l ← evconnlistener_new_bind ip pasv_port;
        put (set_pasv_listener l);;
        match l with
        | Some _ => mret pasv_port
        | None => bind_loop fuel' ip (u16 (pasv_port + 1))
        end
      else mret pasv_port
  end.

Definition data_connection_listener_config (fuel : nat) (extended : bool) : act S unit :=
  l0 ← get pasv_listener;
  match l0 with
  | Some _ => evconnlistener_free l0;; put (set_pasv_listener None)
  | None => mret tt
  end;;
  control ← get Connection.fd;
  name ← do_call (CGetsockname control);
  match name with
  | Some ip =>
      pasv_port ← bind_loop fuel ip (range_start (pasv_range srv));
      l ← get pasv_listener;
      match l with
      | None => send_control_message FTP_STATUS_CANNOT_OPEN_DATA "Can't open passive connection"
      | Some _ =>
          t ← evtimer_new KAcceptTimer;
          put (set_timeout_event t);;
          evtimer_add t (data_connection_accept_timeout (config srv));;
          if extended then
            send_control_message FTP_STATUS_ENTERING_EPSV_MODE (epsv_response pasv_port)
          else
            send_control_message FTP_STATUS_ENTERING_PASSIVE_MODE (pasv_response ip pasv_port)
      end
  | None => send_control_message FTP_STATUS_CANNOT_OPEN_DATA "Can't open passive connection"
  end.

Definition kill_listener_on_timeout : act S unit :=
  l ← get pasv_listener;
  match l with
  | Some _ =>
      evconnlistener_disable l;;
      evconnlistener_free l;;
      put (set_pasv_listener None)
  | None => mret tt
  end.

(** *** Callbacks of the data bufferevent *)

Variable run : data_callback_t -> option nat -> act S unit.

Definition run_field (field : connection_t -> option data_callback_t) (b : option nat)
  : act S unit :=
  cb ← get field;
  match cb with Some f => run f b | None => mret tt end.

Definition data_connection_read_cb (b : option nat) : act S unit := run_field data_read_cb b.

Definition data_connection_write_cb (b : option nat) : act S unit := run_field data_write_cb b.

(** The loop that empties the error queue of OpenSSL. *)
Fixpoint openssl_errors (fuel : nat) (b : option nat) : act S unit :=
  match fuel with
  | O => hang
  | Datatypes.S fuel' =>
      error ← bufferevent_get_openssl_error b;
      if error =? 0 then mret tt else openssl_errors fuel' b
  end.

(** The error branch: what it reads goes to the log only. *)
Definition report_data_error (fuel : nat) (b : option nat) : act S unit :=
  tls ← get data_tls_required;
  (if (tls : bool) then openssl_errors fuel b else mret tt);;
  sock ← bufferevent_getfd b;
  if 0 <=? sock then do_call (CGetsockopt sock);; mret tt else mret tt.

Definition data_connection_event_cb (fuel : nat) (b : option nat) (events : Z) : act S unit :=
  (if has_flag events BEV_EVENT_CONNECTED then
     put add_and_fetch_8;;
     tls ← get data_tls_required;
     if (tls : bool) then bufferevent_enable b;; run_field data_tls_event_connected_cb b
     else mret tt
   else mret tt);;
  (if has_flag events BEV_EVENT_ERROR then report_data_error fuel b else mret tt);;
  (if has_flag events BEV_EVENT_EOF then run_field data_eof_event_cb b else mret tt);;
  if has_flag events (Z.lor BEV_EVENT_EOF (Z.lor BEV_EVENT_ERROR BEV_EVENT_TIMEOUT))
  then close_data_connection else mret tt.
End DataHandler.

(** ** Walking through the loops *)

Lemma keeps_openssl_errors {S} `{Sys S} {okput okcall okkind R} `{!Tame (S:=S) okput okcall okkind R}
    fuel b :
  (forall h, okcall (CBevSslError h)) -> keeps R (openssl_errors (S:=S) fuel b).
Proof.
  intros H1. induction fuel as [|fuel IH]; cbn [openssl_errors]; walk ltac:(solve [eauto]) ltac:(apply IH).
Qed.

Lemma keeps_bind_loop {S} `{Sys S} {okput okcall okkind R} `{!Tame (S:=S) okput okcall okkind R}
    srv fuel ip p :
  (forall n, okput (set_data_port n)) -> (forall l, okput (set_pasv_listener l)) ->
  (forall h ip p, okcall (CListenerNewBind h ip p)) -> okkind KListener ->
  keeps R (bind_loop (S:=S) srv fuel ip p).
Proof.
  intros H1 H2 H3 H4. revert p. induction fuel as [|fuel IH]; intros p; cbn [bind_loop];
    walk ltac:(solve [eauto]) ltac:(apply IH).
Qed.

(** ** The port loop, run to its end *)

(** A port that could not be bound. *)
Definition refused (h : nat) (ip p : Z) : event := Did (CListenerNewBind h ip p) false.

Definition attempts (h : nat) (ip first p : Z) : list event :=
  map (refused h ip) (seqZ first (p - first)).

Lemma attempts_snoc h ip first p :
  first <= p -> attempts h ip first (p + 1) = attempts h ip first p ++ [refused h ip p].
Proof.
  intros Hp. unfold attempts. replace (p + 1 - first) with ((p - first) + 1) by lia.
  rewrite seqZ_app, map_app by lia. f_equal. rewrite (seqZ_cons _ 1) by lia. simpl.
  by replace (first + (p - first)) with p by lia.
Qed.

Lemma evconnlistener_new_bind_run {S} `{Sys S} ip p (w : world S) :
  exists (ok : bool) s, evconnlistener_new_bind ip p w =
    Ok (if ok then Some (next (handles w)) else None,
        World (conn w) s
          (if ok then Ledger (next (handles w) + 1) (<[next (handles w) := KListener]> (live (handles w)))
           else handles w)
          (trace w ++ [Did (CListenerNewBind (next (handles w)) ip p) ok])).
Proof.
  destruct (sys_step (CListenerNewBind (next (handles w)) ip p) (sys w)) as [ok s] eqn:E.
  exists ok, s. unfold evconnlistener_new_bind. erewrite act_bind_run; [|done].
  erewrite act_bind_run; [|exact (do_call_run (CListenerNewBind _ ip p) w _ _ E)]. by destruct ok.
Qed.

(** What is left after the loop started at [first]. *)
Inductive bind_result {S} (ip first last : Z) (w : world S) (p : Z) (w' : world S) : Prop :=
  | Bound : first <= p <= last ->
      conn w' = set_pasv_listener (Some (next (handles w))) (set_data_port p (conn w)) ->
      handles w' = Ledger (next (handles w) + 1) (<[next (handles w) := KListener]> (live (handles w))) ->
      trace w' = trace w ++ attempts (next (handles w)) ip first p ++
        [Did (CListenerNewBind (next (handles w)) ip p) true] ->
      bind_result ip first last w p w'
  | Exhausted : p = Z.max first (last + 1) -> pasv_listener (conn w') = None -> bev (conn w') = bev (conn w) ->
      handles w' = handles w ->
      trace w' = trace w ++ attempts (next (handles w)) ip first p ->
      bind_result ip first last w p w'.

Lemma bind_loop_run {S} `{Sys S} srv fuel ip first w0 : forall p (w : world S),
  0 <= first <= p -> range_end (pasv_range srv) < 65535 -> p <= 65535 ->
  p <= Z.max first (range_end (pasv_range srv) + 1) ->
  range_end (pasv_range srv) - p + 1 < Z.of_nat fuel -> (0 < fuel)%nat ->
  pasv_listener (conn w) = None -> handles w = handles w0 -> bev (conn w) = bev (conn w0) ->
  (forall l q, set_pasv_listener l (set_data_port q (conn w)) =
     set_pasv_listener l (set_data_port q (conn w0))) ->
  trace w = trace w0 ++ attempts (next (handles w0)) ip first p ->
  exists q w', bind_loop srv fuel ip p w = Ok (q, w') /\
    bind_result ip first (range_end (pasv_range srv)) w0 q w'.
Proof.
  induction fuel as [|fuel IH]; intros p w Hp He Hp' Hm Hf Hpos Hn Hh Hb Hc Ht; [lia|].
  cbn [bind_loop]. destruct (Z.leb_spec p (range_end (pasv_range srv))) as [Hle|Hgt].
  - erewrite act_bind_run; [|done].
    set (w1 := World _ _ _ _).
    destruct (evconnlistener_new_bind_run ip p w1) as (ok & s & Hl).
    erewrite act_bind_run; [|exact Hl]. erewrite act_bind_run; [|done].
    subst w1. cbn [conn sys handles trace] in *. rewrite Hh in *. destruct ok.
    + eexists p, _. split; [done|]. apply Bound; simpl; [lia|apply Hc|done|].
      by rewrite Ht, <- app_assoc.
    + rewrite u16_id by (unfold two16; lia). apply IH; simpl; [lia..|done|done|done| |].
      * intros l q. rewrite <- Hc. reflexivity.
      * rewrite Ht, <- app_assoc, attempts_snoc by lia. done.
  - exists p, w. split; [done|]. apply Exhausted; [lia|done..].
Qed.

(** ** The client's reading of the replies

    RFC 959 has the client scan the 227 reply for six decimal numbers, RFC
    2428 the 229 reply for one. *)

Fixpoint to_digit (s : string) : string :=
  match s with
  | String c s' => if isdigit c then s else to_digit s'
  | EmptyString => EmptyString
  end.

(** [n] numbers, one separator after each. *)
Fixpoint numbers (n : nat) (s : string) : option (list Z) :=
  match n with
  | O => Some []
  | Datatypes.S n' =>
      let '(v, count, rest) := read_digits s 0 0 in
      match count with
      | O => None
      | Datatypes.S _ => vs ← numbers n' (strdrop 1 rest); Some (v :: vs)
      end
  end.

Definition client_pasv (line : string) : option (Z * Z) :=
  match numbers 6 (to_digit (strdrop 4 line)) with
  | Some [a; b; c; d; hi; lo] => Some (((a * 256 + b) * 256 + c) * 256 + d, hi * 256 + lo)
  | _ => None
  end.

Definition client_epsv (line : string) : option Z :=
  match numbers 1 (to_digit (strdrop 4 line)) with Some [p] => Some p | _ => None end.

Lemma numbers_print n v c rest :
  0 <= v < 10 ^ 20 -> isdigit c = false ->
  numbers (Datatypes.S n) (print_unsigned v +:+ (String c EmptyString +:+ rest)) = (vs ← numbers n rest; Some (v :: vs)).
Proof.
  intros Hv Hc. cbn [numbers]. change (String c EmptyString +:+ rest) with (String c rest).
  destruct (read_digits_print v (String c rest)) as (k & Hk & ->); [done|by intros ? ? [= <- _]|].
  by destruct k; [lia|].
Qed.

Lemma to_digit_print v rest :
  0 <= v -> to_digit (print_unsigned v +:+ rest) = print_unsigned v +:+ rest.
Proof.
  intros Hv. destruct (print_unsigned_cons v Hv) as (c & s & -> & Hc). simpl. by rewrite Hc.
Qed.

Lemma ip_byte_div ip i : 0 <= i -> ip_byte ip i = ip / 2 ^ (8 * i) mod 256.
Proof.
  intros Hi. unfold ip_byte. rewrite Z.shiftr_div_pow2 by lia.
  apply (Z.land_ones _ 8). lia.
Qed.

Lemma ip_byte_range ip i : 0 <= ip_byte ip i < 256.
Proof. unfold ip_byte. rewrite (Z.land_ones _ 8) by lia. apply Z.mod_pos_bound. lia. Qed.

Lemma ip_bytes_join ip :
  0 <= ip < two32 ->
  ((ip_byte ip 3 * 256 + ip_byte ip 2) * 256 + ip_byte ip 1) * 256 + ip_byte ip 0 = ip.
Proof.
  intros Hip. rewrite !ip_byte_div by lia. unfold two32 in Hip.
  change (2 ^ (8 * 3)) with (256 * 256 * 256). change (2 ^ (8 * 2)) with (256 * 256).
  change (2 ^ (8 * 1)) with 256. change (2 ^ (8 * 0)) with 1.
  rewrite <- !Z.div_div, Z.div_1_r by lia. Z.to_euclidean_division_equations. lia.
Qed.

Lemma length_dotted sep ip : strlen sep = 1 -> strlen (dotted sep ip) <= 83.
Proof.
  unfold dotted, strlen. rewrite !length_string_app. intros.
  pose proof (length_print (ip_byte ip 0)). pose proof (length_print (ip_byte ip 1)).
  pose proof (length_print (ip_byte ip 2)). pose proof (length_print (ip_byte ip 3)). lia.
Qed.

Lemma to_digit_app a b :
  all_chars (fun c => negb (isdigit c)) a = true -> to_digit (a +:+ b) = to_digit b.
Proof.
  induction a as [|c a IH]; simpl; [done|]. intros [->%negb_true_iff Ha]%andb_true_iff. by apply IH.
Qed.

Lemma client_text status text :
  100 <= status < 1000 -> strlen text <= 249 ->
  strdrop 4 (control_line status text) = text +:+ crlf.
Proof.
  intros Hs Ht. rewrite control_line_short by done.
  by destruct (print_status status Hs) as (a & b & c & -> & _).
Qed.

(** ** Properties *)

(** C39: the address in the 227 reply and the port in the 229 reply, read back
    by the client from the line it receives, are the IPv4 address and the
    port the server put in, for every address and every port. *)
Theorem passive_reply_readback ip port :
  0 <= ip < two32 -> 0 <= port < two16 ->
  client_pasv (control_line FTP_STATUS_ENTERING_PASSIVE_MODE (pasv_response ip port)) = Some (ip, port) /\
  client_epsv (control_line FTP_STATUS_ENTERING_EPSV_MODE (epsv_response port)) = Some port.
Proof.
  intros Hip Hp. unfold two16 in Hp.
  pose proof (length_print port). pose proof (length_print (port / 256)).
  pose proof (length_print (port mod 256)). pose proof (length_dotted "," ip eq_refl) as Hd.
  pose proof (ip_byte_range ip) as Hb.
  pose proof (Z.mod_pos_bound port 256 ltac:(lia)).
  assert (0 <= port / 256 < 256) by (Z.to_euclidean_division_equations; lia).
  unfold strlen in Hd. split.
  - unfold pasv_response, snprintf_s. change (Z.to_nat RESPONSE_LEN - 1)%nat with 255%nat.
    rewrite strtake_all by (string_lengths; lia).
    unfold client_pasv. rewrite client_text by (first [by split | unfold strlen; string_lengths; lia]).
    unfold dotted. rewrite !string_app_assoc, to_digit_app, to_digit_print by (done || apply Hb).
    change crlf with (String cr EmptyString +:+ String lf EmptyString).
    pose proof (Hb 0). pose proof (Hb 1). pose proof (Hb 2). pose proof (Hb 3).
    rewrite !numbers_print by (done || lia). cbn [numbers mbind option_bind].
    rewrite ip_bytes_join by done. do 2 f_equal. pose proof (Z.div_mod port 256). lia.
  - unfold epsv_response, snprintf_s. change (Z.to_nat RESPONSE_LEN - 1)%nat with 255%nat.
    rewrite strtake_all by (string_lengths; lia).
    unfold client_epsv. rewrite client_text by (first [by split | unfold strlen; string_lengths; lia]).
    rewrite !string_app_assoc, to_digit_app, to_digit_print by (done || lia).
    change ("|)" +:+ crlf) with ("|" +:+ (")" +:+ crlf)).
    by rewrite numbers_print by (done || lia).
Qed.

Example passive_reply_readback_witness :
  client_pasv "227 Entering Passive Mode. 192,168,0,7,156,64
" = Some (0xC0A80007, 40000) /\
  client_pasv (control_line FTP_STATUS_ENTERING_PASSIVE_MODE (pasv_response 0xC0A80007 40000))
    = Some (0xC0A80007, 40000).
Proof. split; [reflexivity|]. apply (passive_reply_readback 0xC0A80007 40000); by split. Defined.

(** Every address passes the source check against itself, but the check
    compares four characters only: an address whose text begins with the
    same four characters is taken for the same source, and any other one is
    turned away with its socket closed and the session left as it was. *)
Theorem source_check {S} `{Sys S} ip_str listener fd addr (w : world S) :
  same_source (fill_source_ip addr EmptyString) (fill_source_ip addr EmptyString) = true /\
  (exists near, near <> 0xCB007105 /\
     same_source (dotted "." 0xCB007105) (fill_source_ip (SockInet near) ip_str) = true) /\
  (strtake 4 (source_ip (conn w)) <> strtake 4 (fill_source_ip addr ip_str) ->
   exists s, data_connection_accept_cb ip_str listener fd addr w =
     Ok (tt, World (conn w) s (handles w) (trace w ++ [Did (CClose fd) tt]))).
Proof.
  split_and!.
  - unfold same_source, strncmp_eq. apply String.eqb_refl.
  - exists 0xCB64FEFE. split; [done|]. by vm_compute.
  - intros Hne. unfold data_connection_accept_cb. erewrite act_bind_run; [|done].
    unfold same_source, strncmp_eq. change SIZEOF_INET6_ADDRSTRLEN with 4%nat. rewrite (proj2 (String.eqb_neq _ _) Hne).
    cbn [negb]. destruct (sys_step (CClose fd) (sys w)) as [[] s] eqn:E. exists s. by erewrite do_call_run.
Qed.

Example source_check_witness :
  exists s, data_connection_accept_cb EmptyString 1 9 (SockInet 0x0A000001)
      (World (set_source_ip "192.168.0.7" zero_connection) sample_small (Ledger 1 ∅) []) =
    Ok (tt, World (set_source_ip "192.168.0.7" zero_connection) s (Ledger 1 ∅) [Did (CClose 9) tt]).
Proof.
  apply (source_check EmptyString 1 9 (SockInet 0x0A000001)
    (World (set_source_ip "192.168.0.7" zero_connection) sample_small (Ledger 1 ∅) [])).
  by vm_compute.
Defined.

(** The listener of an earlier passive command, closed first. *)
Definition replaced (c : connection_t) : list event :=
  match pasv_listener c with Some l => [Did (CListenerFree l) tt] | None => [] end.

Definition cannot_open (h : nat) : event :=
  Did (CBevWrite h (control_line FTP_STATUS_CANNOT_OPEN_DATA "Can't open passive connection")) tt.

(** What PASV and EPSV do, call by call: the failure reply with no listener,
    because the control connection has no address or because every port of
    the range was tried and refused; or a live listener on the first port of
    the range that could be bound, under a timer that runs, and a reply that
    names that port and the address of the control connection. *)
Inductive passive_result {S} (srv : server_state_t) (extended : bool) (w : world S) (h : nat)
    (w' : world S) : Prop :=
  | NoAddress :
      pasv_listener (conn w') = None ->
      trace w' = trace w ++ replaced (conn w) ++
        [Did (CGetsockname (fd (conn w))) None; cannot_open h] ->
      passive_result srv extended w h w'
  | NoPort ip :
      pasv_listener (conn w') = None ->
      trace w' = trace w ++ replaced (conn w) ++ Did (CGetsockname (fd (conn w))) (Some ip) ::
        map (refused (next (handles w)) ip)
          (seqZ (range_start (pasv_range srv))
             (range_end (pasv_range srv) + 1 - range_start (pasv_range srv))) ++ [cannot_open h] ->
      passive_result srv extended w h w'
  | Listens ip p lh th :
      range_start (pasv_range srv) <= p <= range_end (pasv_range srv) ->
      pasv_listener (conn w') = Some lh -> live (handles w') !! lh = Some KListener ->
      timeout_event (conn w') = Some th -> live (handles w') !! th = Some KAcceptTimer ->
      data_port (conn w') = p ->
      trace w' = trace w ++ replaced (conn w) ++ Did (CGetsockname (fd (conn w))) (Some ip) ::
        attempts lh ip (range_start (pasv_range srv)) p ++
        [Did (CListenerNewBind lh ip p) true; Did (CTimerNew th) true;
         Did (CTimerAdd th (data_connection_accept_timeout (config srv))) tt;
         Did (CBevWrite h (if extended
                           then control_line FTP_STATUS_ENTERING_EPSV_MODE (epsv_response p)
                           else control_line FTP_STATUS_ENTERING_PASSIVE_MODE (pasv_response ip p))) tt] ->
      passive_result srv extended w h w'.

(** Ports from [first] to [Z.max first (last + 1)], exclusive. *)
Lemma attempts_all h ip first last :
  attempts h ip first (Z.max first (last + 1)) = map (refused h ip) (seqZ first (last + 1 - first)).
Proof.
  unfold attempts. f_equal. unfold seqZ. f_equal. f_equal. lia.
Qed.

Lemma evtimer_new_run {S} `{Sys S} k (w : world S) :
  (forall t s, fst (sys_step (CTimerNew t) s) = true) ->
  exists s, evtimer_new k w =
    Ok (Some (next (handles w)),
        World (conn w) s (Ledger (next (handles w) + 1) (<[next (handles w) := k]> (live (handles w))))
          (trace w ++ [Did (CTimerNew (next (handles w))) true])).
Proof.
  intros Ht. destruct (sys_step (CTimerNew (next (handles w))) (sys w)) as [ok s] eqn:E. exists s.
  specialize (Ht (next (handles w)) (sys w)). rewrite E in Ht. simpl in Ht. subst ok.
  unfold evtimer_new. erewrite act_bind_run; [|done].
  by erewrite act_bind_run; [|exact (do_call_run (CTimerNew _) w _ _ E)].
Qed.

Lemma evtimer_add_run {S} `{Sys S} t k seconds (w : world S) :
  live (handles w) !! t = Some k -> is_event k = true ->
  exists s, evtimer_add (Some t) seconds w =
    Ok (tt, World (conn w) s (handles w) (trace w ++ [Did (CTimerAdd t seconds) tt])).
Proof.
  intros Hl Hk. destruct (sys_step (CTimerAdd t seconds) (sys w)) as [[] s] eqn:E. exists s.
  unfold evtimer_add. erewrite act_bind_run; [|by eapply use_live]. by erewrite do_call_run.
Qed.

Section Passive.
Context {S : Type} `{Sys S} (srv : server_state_t) (fuel : nat) (extended : bool).
Hypothesis timers : forall t s, fst (sys_step (CTimerNew t) s) = true.
Hypothesis range_ok : 0 <= range_start (pasv_range srv) <= 65535.
Hypothesis end_ok : range_end (pasv_range srv) < 65535.
Hypothesis fuel_ok :
  range_end (pasv_range srv) - range_start (pasv_range srv) + 1 < Z.of_nat fuel /\ (0 < fuel)%nat.

Lemma passive_closed (w : world S) h :
  bev (conn w) = Some h -> live (handles w) !! h = Some KControlBev ->
  (h < next (handles w))%nat -> pasv_listener (conn w) = None ->
  exists w', data_connection_listener_config srv fuel extended w = Ok (tt, w') /\
    passive_result srv extended w h w'.
Proof using Type*.
  intros Hb Hl Hlt Hn. unfold data_connection_listener_config.
  erewrite act_bind_run; [|done]. rewrite Hn. erewrite act_bind_run; [|done].
  erewrite act_bind_run; [|done].
  destruct (sys_step (CGetsockname (fd (conn w))) (sys w)) as [name s] eqn:E.
  erewrite act_bind_run; [|exact (do_call_run (CGetsockname _) w _ _ E)].
  set (w1 := World _ _ _ _). destruct name as [ip|].
  2:{ destruct (send_control_run w1 h FTP_STATUS_CANNOT_OPEN_DATA "Can't open passive connection")
        as (s' & ->); [done..|]. eexists. split; [done|].
      apply NoAddress; simpl; [done|]. unfold replaced. rewrite Hn. by rewrite <- app_assoc. }
  destruct (bind_loop_run srv fuel ip (range_start (pasv_range srv)) w1 (range_start (pasv_range srv)) w1)
    as (p & w2 & Hloop & Hres); try done; [lia..|by unfold attempts; rewrite Z.sub_diag, app_nil_r|].
  erewrite act_bind_run; [|exact Hloop]. erewrite act_bind_run; [|done].
  destruct Hres as [Hp Hc Hh Ht|Hp Hn' Hb' Hh Ht].
  - rewrite Hc. fields. subst w1. cbn [conn sys handles trace] in *.
    destruct (evtimer_new_run KAcceptTimer w2 timers) as (s2 & Ht2).
    erewrite act_bind_run; [|exact Ht2]. erewrite act_bind_run; [|done].
    rewrite Hh. cbn [conn sys handles trace next live].
    edestruct (evtimer_add_run (next (handles w) + 1)%nat KAcceptTimer) as (s3 & Ha);
      [|done|erewrite act_bind_run; [|exact Ha]]; [by simplify_map_eq|]. clear Ha Ht2.
    set (line := if extended then control_line FTP_STATUS_ENTERING_EPSV_MODE (epsv_response p)
                 else control_line FTP_STATUS_ENTERING_PASSIVE_MODE (pasv_response ip p)).
    lazymatch goal with |- exists w', ?m ?w3 = _ /\ _ =>
      assert (exists s4, (if extended
        then send_control_message FTP_STATUS_ENTERING_EPSV_MODE (epsv_response p)
        else send_control_message FTP_STATUS_ENTERING_PASSIVE_MODE (pasv_response ip p)) w3 =
        Ok (tt, World (conn w3) s4 (handles w3) (trace w3 ++ [Did (CBevWrite h line) tt]))) as (s4 & Hs4)
    end.
    { subst line. assert (bev (conn w2) = Some h) as Hb2 by (rewrite Hc; by fields).
      destruct extended; apply send_control_run; cbn [conn handles live]; fields; try done;
        by rewrite !lookup_insert_ne by lia. }
    eexists. split; [etrans; [|exact Hs4]; by destruct extended|].
    eapply (Listens _ _ _ _ _ ip p
      (next (handles w)) (next (handles w) + 1)); cbn [conn handles live trace]; rewrite ?Hc; fields; try done.
    + by rewrite lookup_insert_ne, lookup_insert_eq by lia.
    + by rewrite lookup_insert_eq.
    + rewrite Ht. unfold replaced. rewrite Hn, <- !app_assoc. by destruct extended.
  - rewrite Hn'.
    destruct (send_control_run w2 h FTP_STATUS_CANNOT_OPEN_DATA "Can't open passive connection")
      as (s' & ->); [by rewrite Hb'|by rewrite Hh|].
    eexists. split; [done|]. apply (NoPort _ _ _ _ _ ip); [done|].
    cbn [trace]. rewrite Ht, Hp, attempts_all. subst w1. cbn [trace handles].
    unfold replaced. rewrite Hn. by rewrite <- !app_assoc.
Qed.

(** C24: PASV and EPSV return, whatever listener was there before; that one
    is closed first.  Then either [getsockname] fails for the control connection,
    or every port of the range was tried in order and refused, and the reply
    says so; or the listener is on the first port that could be bound, is
    recorded, live and under a running timer, and the reply names that port
    and, for PASV, the address [getsockname] gave for the control connection.
    Asked for: a range that ends below 65535 and timers that can be made. *)
Theorem passive_listener_reply (w : world S) h :
  bev (conn w) = Some h -> live (handles w) !! h = Some KControlBev ->
  (h < next (handles w))%nat ->
  (forall l, pasv_listener (conn w) = Some l -> live (handles w) !! l = Some KListener) ->
  exists w', data_connection_listener_config srv fuel extended w = Ok (tt, w') /\
    passive_result srv extended w h w'.
Proof using Type*.
  intros Hb Hl Hlt Hn. destruct (pasv_listener (conn w)) as [l|] eqn:E; [|by apply passive_closed].
  specialize (Hn l eq_refl).
  destruct (sys_step (CListenerFree l) (sys w)) as [[] s] eqn:Es.
  set (w1 := World (set_pasv_listener None (conn w)) s
    (Ledger (next (handles w)) (delete l (live (handles w)))) (trace w ++ [Did (CListenerFree l) tt])).
  assert (data_connection_listener_config srv fuel extended w =
          data_connection_listener_config srv fuel extended w1) as ->.
  { unfold data_connection_listener_config. erewrite act_bind_run; [|done]. rewrite E.
    unfold evconnlistener_free.
    erewrite act_bind_run; [|erewrite act_bind_run; [|erewrite act_bind_run; [|by eapply use_live];
      erewrite act_bind_run; [done|by apply (do_call_run (CListenerFree l))]]; done].
    done. }
  assert (h <> l) by (intros ->; congruence).
  destruct (passive_closed w1 h) as (w' & Hw' & Hr); simpl; fields; try done; [by rewrite lookup_delete_ne|].
  exists w'. split; [done|].
  assert (replaced (conn w) = [Did (CListenerFree l) tt]) as Hrep by (unfold replaced; by rewrite E).
  destruct Hr as [Hb1 Hb2|ip Hb1 Hb2|ip p lh th Hp H1 H2 H3 H4 H5 H6].
  - apply NoAddress; [done|]. rewrite Hb2, Hrep. simpl. by rewrite <- app_assoc.
  - apply (NoPort _ _ _ _ _ ip); [done|]. rewrite Hb2, Hrep. simpl. by rewrite <- app_assoc.
  - apply (Listens _ _ _ _ _ ip p lh th); try done. rewrite H6, Hrep. simpl. by rewrite <- app_assoc.
Qed.
End Passive.

(** A session with its control connection, on the small system. *)
Definition passive_world : world small :=
  World (set_bev (Some 0%nat) zero_connection) sample_small (Ledger 1 {[0%nat := KControlBev]}) [].

Definition passive_server (first last : Z) : server_state_t :=
  ServerState fill_default_configurations (PasvRange first last (last - first + 1)) 0 "1.0".

Example passive_listener_reply_witness :
  exists w', data_connection_listener_config (passive_server 40000 40003) 10 false passive_world = Ok (tt, w') /\
    passive_result (passive_server 40000 40003) false passive_world 0 w'.
Proof.
  apply (passive_listener_reply (passive_server 40000 40003) 10 false); simpl; try done; lia.
Defined.

(** The loop variable wraps at 65535 and the loop starts again. *)
Lemma bind_loop_wraps {S} `{Sys S} srv fuel ip p (w : world S) :
  range_end (pasv_range srv) = 65535 -> 0 <= p <= 65535 ->
  (forall h ip p s, fst (sys_step (CListenerNewBind h ip p) s) = false) ->
  bind_loop srv fuel ip p w = Hang.
Proof.
  intros He Hp Hfail. revert p w Hp. induction fuel as [|fuel IH]; intros p w Hp; [done|].
  cbn [bind_loop]. rewrite He, (proj2 (Z.leb_le p 65535)) by lia.
  erewrite act_bind_run; [|done].
  destruct (evconnlistener_new_bind_run ip p
    (World (set_data_port p (conn w)) (sys w) (handles w) (trace w))) as (ok & s & Hl).
  assert (ok = false) as ->.
  { revert Hl. unfold evconnlistener_new_bind. erewrite act_bind_run; [|done].
    specialize (Hfail (next (handles w)) ip p (sys w)). unfold mbind, act_bind, do_call, allocate. simpl.
    destruct (sys_step _ _) as [ok' s']. simpl in Hfail. subst ok'. by destruct ok. }
  erewrite act_bind_run; [|exact Hl]. erewrite act_bind_run; [|done].
  apply IH. unfold u16, two16. pose proof (Z.mod_pos_bound (p + 1) 65536). lia.
Qed.

(** C40: with a range that ends at 65535 and no port to be had, the port loop
    never ends: no number of iterations is enough.  Such a range is within
    what the configuration allows. *)
Theorem passive_command_never_ends {S} `{Sys S} cfg version extended (w : world S) ip s :
  passive_port_start cfg <= 65535 <= passive_port_end cfg ->
  (forall h ip p s, fst (sys_step (CListenerNewBind h ip p) s) = false) ->
  pasv_listener (conn w) = None ->
  sys_step (CGetsockname (fd (conn w))) (sys w) = (Some ip, s) ->
  exists srv, init_server_state cfg version true true true = Some srv /\
    forall fuel, data_connection_listener_config srv fuel extended w = Hang.
Proof.
  intros Hr Hfail Hn Hs. unfold init_server_state. cbn [negb orb].
  eexists. split; [done|]. intros fuel. unfold data_connection_listener_config.
  erewrite act_bind_run; [|done]. rewrite Hn. do 2 (erewrite act_bind_run; [|done]).
  erewrite act_bind_run; [|exact (do_call_run (CGetsockname _) w _ _ Hs)].
  unfold mbind at 1, act_bind at 1.
  rewrite bind_loop_wraps; [done| | |done]; simpl; unfold connections_init_pasv_range;
    repeat case_match; simplify_eq/=; zify_bool; unfold u16, two16 in *; try lia;
    rewrite ?Z.mod_small by lia; try lia.
Qed.

(** The small system with every port taken. *)
Definition ports_taken : Sys small := fun c s =>
  match c as c return reply c * small with
  | CListenerNewBind _ _ _ => (false, s)
  | c => small_sys c s
  end.

Example passive_command_never_ends_witness :
  exists srv, init_server_state (set_passive_port_end 65535 fill_default_configurations) "1.0" true true true
      = Some srv /\
    forall fuel, @data_connection_listener_config small ports_taken srv fuel true passive_world = Hang.
Proof.
  apply (@passive_command_never_ends small ports_taken _ "1.0" true passive_world 0x7f000001 sample_small);
    try done; simpl; lia.
Defined.
