(* ===== verification/Calendar.v ===== *)
(** * UTC time as the MDTM reply prints it

    [gmtime] and the [strftime] formats of src/actions/command_actions.c: the
    proleptic Gregorian calendar, computed from the count of seconds since
    1970, and its inverse. *)

From S2P Require Import Prelude CString.
From stdpp Require Import options.

Local Open Scope Z_scope.

(** [tm_year] is the year itself and [tm_mon] counts from 1. *)
Record tm := Tm {
  tm_year : Z;
  tm_mon : Z;
  tm_mday : Z;
  tm_hour : Z;
  tm_min : Z;
  tm_sec : Z;
}.

Definition is_leap (y : Z) : bool :=
  (y mod 4 =? 0) && (negb (y mod 100 =? 0) || (y mod 400 =? 0)).

Definition days_in_year (y : Z) : Z := if is_leap y then 366 else 365.

Definition month_lengths (y : Z) : list Z :=
  [31; if is_leap y then 29 else 28; 31; 30; 31; 30; 31; 31; 30; 31; 30; 31].

(** Days from 1601-01-01 to 1970-01-01, and in four centuries. *)
Definition DAYS_1601 : Z := 134774.
Definition DAYS_400 : Z := 146097.

Fixpoint year_loop (fuel : nat) (y d : Z) : Z * Z :=
  match fuel with
  | O => (y, d)
  | S fuel' => if d <? days_in_year y then (y, d) else year_loop fuel' (y + 1) (d - days_in_year y)
  end.

Fixpoint month_loop (lens : list Z) (m d : Z) : Z * Z :=
  match lens with
  | [] => (m, d)
  | l :: ls => if d <? l then (m, d) else month_loop ls (m + 1) (d - l)
  end.

Definition civil_of_days (days : Z) : Z * Z * Z :=
  let d := days + DAYS_1601 in
  let '(y, r) := year_loop 400 (1601 + 400 * (d / DAYS_400)) (d mod DAYS_400) in
  let '(m, k) := month_loop (month_lengths y) 1 r in
  (y, m, k + 1).

(** [None] when the year does not fit in an [int]. *)
Definition gmtime (t : Z) : option tm :=
  let s := t mod 86400 in
  let '(y, m, d) := civil_of_days (t / 86400) in
  if (INT_MIN <=? y - 1900) && (y - 1900 <=? INT_MAX) then
    Some (Tm y m d (s / 3600) (s / 60 mod 60) (s mod 60))
  else None.

Definition pad2 (n : Z) : string := String (digit (n / 10)) (String (digit (n mod 10)) EmptyString).

(** ["%Y%m%d%H%M%S"]. *)
Definition strftime_mdtm (x : tm) : string :=
  print_int (tm_year x) +:+ (pad2 (tm_mon x) +:+ (pad2 (tm_mday x) +:+
  (pad2 (tm_hour x) +:+ (pad2 (tm_min x) +:+ pad2 (tm_sec x))))).

(** ** The inverse *)

(** Days from 1970-01-01 to the first of January of year [y]. *)
Definition days_before_year (y : Z) : Z :=
  let p := y - 1 in 365 * p + p / 4 - p / 100 + p / 400 - 719162.

Definition timegm (x : tm) : Z :=
  let months := fold_right Z.add 0 (take (Z.to_nat (tm_mon x - 1)) (month_lengths (tm_year x))) in
  (days_before_year (tm_year x) + months + (tm_mday x - 1)) * 86400
  + tm_hour x * 3600 + tm_min x * 60 + tm_sec x.

(** [n] digits of a string from position [k] on, as a client reads them. *)
Definition digits_at (k n : nat) (s : string) : Z :=
  let '(v, _, _) := read_digits (strtake n (strdrop k s)) 0 0 in v.

Definition read_mdtm (s : string) : tm :=
  Tm (digits_at 0 4 s) (digits_at 4 2 s) (digits_at 6 2 s)
     (digits_at 8 2 s) (digits_at 10 2 s) (digits_at 12 2 s).

(** ** The calendar *)

Lemma days_before_year_succ y : days_before_year (y + 1) = days_before_year y + days_in_year y.
Proof.
  unfold days_before_year, days_in_year, is_leap.
  replace (y + 1 - 1) with y by lia.
  destruct (Z.eqb_spec (y mod 4) 0), (Z.eqb_spec (y mod 100) 0), (Z.eqb_spec (y mod 400) 0);
    simpl; Z.to_euclidean_division_equations; lia.
Qed.

Lemma days_before_year_era y e : days_before_year (y + 400 * e) = days_before_year y + DAYS_400 * e.
Proof. unfold days_before_year, DAYS_400. Z.to_euclidean_division_equations; lia. Qed.

Lemma days_in_year_pos y : 0 < days_in_year y.
Proof. unfold days_in_year. case_match; lia. Qed.

(** The loop stops within the given number of years. *)
Lemma year_loop_ok fuel : forall y d,
  0 <= d < days_before_year (y + Z.of_nat fuel) - days_before_year y ->
  exists y' d', year_loop fuel y d = (y', d') /\ 0 <= d' < days_in_year y' /\
    y <= y' < y + Z.of_nat fuel /\ days_before_year y' + d' = days_before_year y + d.
Proof.
  induction fuel as [|fuel IH]; intros y d Hd; cbn [year_loop].
  - replace (y + Z.of_nat 0) with y in Hd by lia. lia.
  - pose proof (days_before_year_succ y).
    destruct (Z.ltb_spec d (days_in_year y)).
    + exists y, d. split; [done|]. lia.
    + replace (y + Z.of_nat (S fuel)) with (y + 1 + Z.of_nat fuel) in * by lia.
      destruct (IH (y + 1) (d - days_in_year y)) as (y' & d' & -> & Hd' & Hy' & Heq); [lia|].
      exists y', d'. split; [done|]. lia.
Qed.

Lemma month_loop_ok lens : forall m d,
  0 <= d < fold_right Z.add 0 lens ->
  exists k l, month_loop lens m d = (m + Z.of_nat k, d - fold_right Z.add 0 (take k lens)) /\
    lens !! k = Some l /\ 0 <= d - fold_right Z.add 0 (take k lens) < l.
Proof.
  induction lens as [|l ls IH]; intros m d Hd; simpl in *; [lia|].
  destruct (Z.ltb_spec d l).
  - exists 0%nat, l. simpl. split; [f_equal; lia|]. split; [done|lia].
  - destruct (IH (m + 1) (d - l)) as (k & l' & -> & Hl & Hr); [lia|].
    exists (S k), l'. simpl. split; [f_equal; lia|]. split; [done|lia].
Qed.

Lemma month_lengths_sum y : fold_right Z.add 0 (month_lengths y) = days_in_year y.
Proof. unfold month_lengths, days_in_year. by destruct (is_leap y). Qed.

Lemma month_length_le y k l : month_lengths y !! k = Some l -> l <= 31.
Proof.
  unfold month_lengths. intros Hk. apply list_elem_of_lookup_2 in Hk.
  repeat (apply elem_of_cons in Hk as [->|Hk]; [try case_match; lia|]). by apply elem_of_nil in Hk.
Qed.

Lemma civil_of_days_ok days :
  exists y m d, civil_of_days days = (y, m, d) /\ 1 <= m <= 12 /\ 1 <= d <= 31 /\
    days_before_year y + fold_right Z.add 0 (take (Z.to_nat (m - 1)) (month_lengths y)) + (d - 1)
      = days /\
    days_before_year y <= days < days_before_year (y + 1).
Proof.
  unfold civil_of_days. set (d0 := days + DAYS_1601).
  pose proof (Z.mod_pos_bound d0 DAYS_400 ltac:(done)) as Hr.
  pose proof (Z.div_mod d0 DAYS_400 ltac:(done)) as Hd0.
  set (y0 := 1601 + 400 * (d0 / DAYS_400)) in *.
  assert (days_before_year (y0 + Z.of_nat 400) - days_before_year y0 = DAYS_400) as Hera.
  { rewrite (days_before_year_era y0 1 : days_before_year (y0 + Z.of_nat 400) = _). lia. }
  destruct (year_loop_ok 400 y0 (d0 mod DAYS_400)) as (y & r & E & Hr' & _ & Heq); [lia|].
  rewrite E.
  destruct (month_loop_ok (month_lengths y) 1 r) as (k & l & -> & Hk & Hrest).
  { by rewrite month_lengths_sum. }
  exists y, (1 + Z.of_nat k), (r - fold_right Z.add 0 (take k (month_lengths y)) + 1).
  pose proof (lookup_lt_Some _ _ _ Hk) as Hlt. simpl in Hlt.
  pose proof (month_length_le y k l Hk).
  split; [done|]. split; [lia|]. split; [lia|].
  replace (Z.to_nat (1 + Z.of_nat k - 1)) with k by lia.
  assert (days_before_year y0 = DAYS_400 * (d0 / DAYS_400) - DAYS_1601) as Hy0.
  { unfold y0. rewrite days_before_year_era. change (days_before_year 1601) with (- DAYS_1601). lia. }
  rewrite days_before_year_succ. lia.
Qed.

Lemma days_before_year_mono y z : y <= z -> days_before_year y <= days_before_year z.
Proof. unfold days_before_year. intros. Z.to_euclidean_division_equations; lia. Qed.

Lemma gmtime_ok t x :
  gmtime t = Some x ->
  timegm x = t /\ 1 <= tm_mon x <= 12 /\ 1 <= tm_mday x <= 31 /\
  0 <= tm_hour x <= 23 /\ 0 <= tm_min x <= 59 /\ 0 <= tm_sec x <= 59 /\
  days_before_year (tm_year x) <= t / 86400 < days_before_year (tm_year x + 1).
Proof.
  unfold gmtime. destruct (civil_of_days_ok (t / 86400)) as (y & m & d & -> & Hm & Hd & Heq & Hy).
  destruct (_ && _); [|done]. intros [= <-]. unfold timegm.
  cbn [tm_year tm_mon tm_mday tm_hour tm_min tm_sec]. rewrite Heq.
  split; [Z.to_euclidean_division_equations; lia|].
  split; [done|]. split; [done|].
  split; [Z.to_euclidean_division_equations; lia|].
  split; [Z.to_euclidean_division_equations; lia|].
  split; [Z.to_euclidean_division_equations; lia|done].
Qed.

(** ** The text *)

Lemma length_dec_acc_exact k : forall fuel n acc,
  10 ^ Z.of_nat k <= n < 10 ^ Z.of_nat (S k) -> (k < fuel)%nat ->
  String.length (dec_acc fuel n acc) = (S k + String.length acc)%nat.
Proof.
  induction k as [|k IH]; intros [|fuel] n acc Hn Hf; try lia; cbn [dec_acc].
  - destruct (Z.ltb_spec n 10); [done|]. change (10 ^ Z.of_nat 1) with 10 in Hn. lia.
  - rewrite !Nat2Z.inj_succ, !Z.pow_succ_r in Hn by lia.
    rewrite Nat2Z.inj_succ, Z.pow_succ_r in IH by lia.
    pose proof (Z.pow_pos_nonneg 10 (Z.of_nat k) ltac:(lia) ltac:(lia)).
    destruct (Z.ltb_spec n 10); [lia|].
    rewrite IH; [simpl; lia| |lia].
    split; [apply Z.div_le_lower_bound | apply Z.div_lt_upper_bound]; lia.
Qed.

Definition value (s : string) : Z := let '(v, _, _) := read_digits s 0 0 in v.

Lemma value_pad2 n : 0 <= n < 100 -> value (pad2 n) = n.
Proof.
  intros Hn. unfold value, pad2. cbn [read_digits].
  assert (0 <= n / 10 < 10) by (split; [apply Z.div_pos | apply Z.div_lt_upper_bound]; lia).
  pose proof (Z.mod_pos_bound n 10 ltac:(lia)).
  rewrite !isdigit_digit, !code_digit by done.
  pose proof (Z.div_mod n 10 ltac:(lia)). lia.
Qed.

Lemma digits_pad2 n : 0 <= n < 100 -> all_chars isdigit (pad2 n) = true.
Proof.
  intros Hn. unfold pad2. cbn [all_chars].
  rewrite !isdigit_digit; [done|by apply Z.mod_pos_bound|].
  split; [apply Z.div_pos | apply Z.div_lt_upper_bound]; lia.
Qed.

Lemma value_print n : 0 <= n < 10 ^ 20 -> value (print_unsigned n) = n.
Proof.
  intros Hn. unfold value.
  destruct (read_digits_print n EmptyString Hn) as (k & _ & Hr); [done|].
  rewrite string_app_nil_r in Hr. by rewrite Hr.
Qed.

Lemma digits_at_app s a b c k n :
  s = a +:+ (b +:+ c) ->
  String.length a = k -> String.length b = n -> digits_at k n s = value b.
Proof.
  intros -> <- <-. unfold digits_at, value.
  replace (strtake (String.length b) (strdrop (String.length a) (a +:+ (b +:+ c)))) with b; [done|].
  assert (strdrop (String.length a) (a +:+ (b +:+ c)) = b +:+ c) as ->.
  { induction a; simpl; [by destruct (b +:+ c)|done]. }
  rewrite strtake_app, Nat.sub_diag, strtake_all by done.
  destruct c; by rewrite string_app_nil_r.
Qed.

Lemma mdtm_text x :
  1000 <= tm_year x <= 9999 -> 1 <= tm_mon x <= 12 -> 1 <= tm_mday x <= 31 ->
  0 <= tm_hour x <= 23 -> 0 <= tm_min x <= 59 -> 0 <= tm_sec x <= 59 ->
  String.length (strftime_mdtm x) = 14%nat /\ all_chars isdigit (strftime_mdtm x) = true /\
  read_mdtm (strftime_mdtm x) = x.
Proof.
  destruct x as [y m d h n s]. cbn [tm_year tm_mon tm_mday tm_hour tm_min tm_sec].
  intros Hy Hm Hd Hh Hn Hs. unfold strftime_mdtm.
  cbn [tm_year tm_mon tm_mday tm_hour tm_min tm_sec].
  assert (print_int y = print_unsigned y) as ->.
  { unfold print_int. destruct (Z.ltb_spec y 0); [lia|done]. }
  assert (String.length (print_unsigned y) = 4%nat) as Hlen.
  { apply (length_dec_acc_exact 3 20 y EmptyString); [change (1000 <= y < 10000)|]; lia. }
  split; [|split].
  - rewrite !length_string_app, Hlen. done.
  - rewrite !all_chars_app, all_digits_print, !digits_pad2 by lia. done.
  - unfold read_mdtm. set (Y := print_unsigned y) in *.
    f_equal.
    + rewrite (digits_at_app _ EmptyString Y (pad2 m +:+ (pad2 d +:+ (pad2 h +:+ (pad2 n +:+ pad2 s)))))
        by done. apply value_print. lia.
    + rewrite (digits_at_app _ Y (pad2 m) (pad2 d +:+ (pad2 h +:+ (pad2 n +:+ pad2 s)))) by done.
      apply value_pad2. lia.
    + rewrite (digits_at_app _ (Y +:+ pad2 m) (pad2 d) (pad2 h +:+ (pad2 n +:+ pad2 s)));
        [apply value_pad2; lia|by rewrite !string_app_assoc|by rewrite !length_string_app, Hlen|done].
    + rewrite (digits_at_app _ (Y +:+ (pad2 m +:+ pad2 d)) (pad2 h) (pad2 n +:+ pad2 s));
        [apply value_pad2; lia|by rewrite !string_app_assoc|by rewrite !length_string_app, Hlen|done].
    + rewrite (digits_at_app _ (Y +:+ (pad2 m +:+ (pad2 d +:+ pad2 h))) (pad2 n) (pad2 s));
        [apply value_pad2; lia|by rewrite !string_app_assoc|by rewrite !length_string_app, Hlen|done].
    + rewrite (digits_at_app _ (Y +:+ (pad2 m +:+ (pad2 d +:+ (pad2 h +:+ pad2 n)))) (pad2 s) EmptyString);
        [apply value_pad2; lia|by rewrite !string_app_assoc, string_app_nil_r
        |by rewrite !length_string_app, Hlen|done].
Qed.

(** The years a count of seconds between 1970 and 9999 falls in. *)
Lemma gmtime_year t :
  0 <= t < 253402300800 -> exists x, gmtime t = Some x /\ 1970 <= tm_year x <= 9999.
Proof.
  intros Ht.
  assert (0 <= t / 86400 < 2932897) as Hd
    by (split; [apply Z.div_pos | apply Z.div_lt_upper_bound]; lia).
  destruct (civil_of_days_ok (t / 86400)) as (y & m & d & E & _ & _ & _ & Hy).
  assert (1970 <= y <= 9999) as Hyear.
  { split.
    - destruct (Z.le_gt_cases 1970 y); [done|].
      pose proof (days_before_year_mono (y + 1) 1970 ltac:(lia)) as Hm.
      change (days_before_year 1970) with 0 in Hm. lia.
    - destruct (Z.le_gt_cases y 9999); [done|].
      pose proof (days_before_year_mono 10000 y ltac:(lia)) as Hm.
      change (days_before_year 10000) with 2932897 in Hm. lia. }
  unfold gmtime. rewrite E.
  destruct (Z.leb_spec INT_MIN (y - 1900)); [|unfold INT_MIN in *; lia].
  destruct (Z.leb_spec (y - 1900) INT_MAX); [|unfold INT_MAX in *; lia].
  by eexists.
Qed.
