(* ===== verification/Auth.v ===== *)
(** * Users and the switch to them (src/security/auth.c)

    [user_exists] remembers the name of a USER command, and
    [authenticate_and_switch_user] checks a password against the shadow
    database and confines the process to the user's home directory and
    ids. *)

From S2P Require Import Prelude CString Connection System SmallSystem.
From stdpp Require Import options.

Local Open Scope Z_scope.

Definition ROOT : string := "root".

(** [strncmp(username, ROOT, strlen(ROOT)) == 0]. *)
Definition starts_with_root (username : string) : bool :=
  strncmp_eq username ROOT (String.length ROOT).

Definition USERNAME_LEN : nat := 256.
Definition ERROR_BUF_LEN : nat := 256.

Section Auth.
Context {S : Type} `{Sys S}.

(** [strncpy] into the 256 bytes of [connection->username]: a longer name
    fills them without a terminator, and the zero bytes of the next field
    ([uid], which nothing writes) end the string. *)
Definition user_exists (name : string) : act S bool :=
  if starts_with_root name then mret false
  else
    pw ← do_call (CGetpwnam name);
    match pw with
    | Some _ => put (set_username (strtake USERNAME_LEN name));; mret true
    | None => mret false
    end.

Definition auth_error (text : string) : act S bool :=
  put (set_error_buf (snprintf_s ERROR_BUF_LEN text));; mret false.

(** [error_buf] is the connection's buffer at the only call. *)
Definition authenticate_and_switch_user (name password : string) : act S bool :=
  pw ← do_call (CGetpwnam name);
  match pw with
  | None => auth_error ("530 User '" +:+ (name +:+ ("' not found" +:+ crlf)))
  | Some pw =>
      shadow ← do_call (CGetspnam name);
      match shadow with
      | None => auth_error ("530 User '" +:+ (name +:+ ("' not found" +:+ crlf)))
      | Some sp_pwdp =>
          crypted ← do_call (CCrypt password sp_pwdp);
          encrypted ← nonnull crypted;
          if negb (strcmp_eq encrypted sp_pwdp) then
            auth_error ("530 Incorrect password for user '" +:+ (name +:+ ("'" +:+ crlf)))
          else
            r ← do_call (CChroot (pw_dir pw));
            if negb (r =? 0) then
              auth_error ("530 chroot failed for '" +:+ (name +:+ ("'" +:+ crlf)))
            else
              r ← do_call (CChdir "/");
              if negb (r =? 0) then
                auth_error ("530 chdir failed for '" +:+ (name +:+ ("'" +:+ crlf)))
              else
                g ← do_call (CSetgid (pw_gid pw));
                u ← (if g =? 0 then do_call (CSetuid (pw_uid pw)) else mret (-1));
                if negb (u =? 0) then
                  auth_error ("530 permission denied for '" +:+ (name +:+ ("'" +:+ crlf)))
                else
                  put (set_error_buf (snprintf_s ERROR_BUF_LEN
                    ("230 User '" +:+ (name +:+ ("' authenticated successfully" +:+ crlf)))));;
                  mret true
      end
  end.
End Auth.

(** ** What a login asks of the system *)

(** The calls of a successful login, with their answers. *)
Definition login_events (name password hash : string) (entry : passwd) : list event :=
  [Did (CGetpwnam name) (Some entry);
   Did (CGetspnam name) (Some hash);
   Did (CCrypt password hash) (Some hash);
   Did (CChroot (pw_dir entry)) 0;
   Did (CChdir "/") 0;
   Did (CSetgid (pw_gid entry)) 0;
   Did (CSetuid (pw_uid entry)) 0].

(** Calls that change the identity or the root of the process. *)
Definition privileged (e : event) : bool :=
  let '(Did c _) := e in
  match c with CChroot _ | CChdir _ | CSetgid _ | CSetuid _ => true | _ => false end.

Definition setuid_done (e : event) : bool :=
  match e with Did (CSetuid _) r => r =? 0 | _ => false end.

(** The calls [l] of one run with result [ok]. *)
Record login_run (name password : string) (ok : bool) (l : list event) : Prop := {
  run_success : ok = true -> exists entry hash, l = login_events name password hash entry;
  run_failure : ok = false -> Forall (fun e => setuid_done e = false) l;
  run_checked : existsb privileged l = true ->
    exists entry hash rest,
      l = Did (CGetpwnam name) (Some entry) :: Did (CGetspnam name) (Some hash) ::
          Did (CCrypt password hash) (Some hash) :: rest;
}.

Lemma auth_error_Ok {S} text (w : world S) ok w' :
  auth_error text w = Ok (ok, w') ->
  ok = false /\ trace w' = trace w /\ authenticated (conn w') = authenticated (conn w) /\
  username (conn w') = username (conn w).
Proof. unfold auth_error. intros H. inv_act. simpl. by fields. Qed.

Lemma login_run_failed {S} name password text (w w1 w2 : world S) ok l :
  auth_error text w1 = Ok (ok, w2) ->
  authenticated (conn w1) = authenticated (conn w) -> username (conn w1) = username (conn w) ->
  trace w1 = trace w ++ l -> login_run name password false l ->
  authenticated (conn w2) = authenticated (conn w) /\ username (conn w2) = username (conn w) /\
  exists l, trace w2 = trace w ++ l /\ login_run name password ok l.
Proof. intros (-> & -> & -> & ->)%auth_error_Ok Ha Hu Hl Hr. eauto. Qed.

(** A branch that ends in [auth_error]. *)
Ltac stop H0 :=
  eapply login_run_failed; [exact H0|done|done|cbn [trace]; rewrite <- ?app_assoc; done|];
  split; [done|intros _; repeat constructor; cbn [setuid_done];
    first [done | by apply Z.eqb_neq]|first [done|eauto]].

Lemma authenticate_run {S} `{Sys S} name password (w : world S) ok w' :
  authenticate_and_switch_user name password w = Ok (ok, w') ->
  authenticated (conn w') = authenticated (conn w) /\ username (conn w') = username (conn w) /\
  exists l, trace w' = trace w ++ l /\ login_run name password ok l.
Proof.
  unfold authenticate_and_switch_user. intros H0. inv_act.
  destruct x as [entry|]; [|stop H0]. inv_act.
  destruct x as [hash|]; [|stop H0]. inv_act.
  destruct (strcmp_eq _ hash) eqn:Eh; cbn [negb] in H0; [|stop H0]. inv_act.
  apply String.eqb_eq in Eh. subst.
  destruct (Z.eqb_spec x0 0) as [->|]; cbn [negb] in H0; [|stop H0]. inv_act.
  destruct (Z.eqb_spec x 0) as [->|]; cbn [negb] in H0; [|stop H0]. inv_act.
  match goal with E : (if ?g =? 0 then _ else _) _ = _ |- _ =>
    destruct (Z.eqb_spec g 0) as [->|]; inv_act; [|stop H0] end.
  match type of H0 with context [negb (?u =? 0)] =>
    destruct (Z.eqb_spec u 0) as [->|Hu]; cbn [negb] in H0 end.
  - inv_act. cbn [conn trace]. fields. split; [done|]. split; [done|].
    exists (login_events name password hash entry).
    rewrite <- !app_assoc. split; [done|]. split; [eauto|done|]. intros _. by do 3 eexists.
  - stop H0.
Qed.

(** ** Properties *)

(** C3: [authenticate_and_switch_user] answers yes exactly after the complete
    sequence: both database entries found, the password's hash equal to the
    stored one, then [chroot] to the user's home, [chdir("/")], [setgid] and
    [setuid], each successful and in this order.  When it answers no, no
    [setuid] succeeded; and no call of the confinement is ever made before
    the hash has been compared with success. *)
Theorem authenticate_sequence {S} `{Sys S} name password (w : world S) ok w' :
  authenticate_and_switch_user name password w = Ok (ok, w') ->
  exists l, trace w' = trace w ++ l /\
    (ok = true <-> exists entry hash, l = login_events name password hash entry) /\
    (existsb privileged l = true ->
     exists entry hash rest,
       l = Did (CGetpwnam name) (Some entry) :: Did (CGetspnam name) (Some hash) ::
           Did (CCrypt password hash) (Some hash) :: rest) /\
    (existsb setuid_done l = ok).
Proof.
  intros (_ & _ & l & Hl & [Hs Hf Hc])%authenticate_run. exists l. split; [done|].
  assert (existsb setuid_done l = ok) as Hdone.
  { destruct ok.
    - by destruct (Hs eq_refl) as (entry & hash & ->).
    - specialize (Hf eq_refl). clear -Hf. induction Hf as [|e l He _ IH]; [done|].
      simpl. by rewrite He. }
  split_and!; [|done|done].
  split; [done|]. intros (entry & hash & ->). by rewrite <- Hdone.
Qed.

Definition fresh_world : world small := World zero_connection sample_small (Ledger 0 ∅) [].

(** The right password of the sample user, and a wrong one. *)
Example authenticate_sequence_witness :
  (exists w', authenticate_and_switch_user "alice" "secret" fresh_world = Ok (true, w') /\
    exists entry hash, trace w' = login_events "alice" "secret" hash entry) /\
  (exists w', authenticate_and_switch_user "alice" "guess" fresh_world = Ok (false, w') /\
    existsb privileged (trace w') = false).
Proof.
  split.
  - destruct (authenticate_and_switch_user "alice" "secret" fresh_world) as [[ok w']| |] eqn:E;
      [|by vm_compute in E..].
    pose proof E as E'. vm_compute in E'. injection E' as <- E'. exists w'. split; [reflexivity|].
    destruct (authenticate_sequence _ _ _ _ _ E) as (l & Hl & Ho & _).
    rewrite Hl. by apply Ho.
  - destruct (authenticate_and_switch_user "alice" "guess" fresh_world) as [[ok w']| |] eqn:E;
      [|by vm_compute in E..].
    pose proof E as E'. vm_compute in E'. injection E' as <- E'. exists w'. split; [reflexivity|].
    destruct (authenticate_sequence _ _ _ _ _ E) as (l & Hl & _ & Hp & _). subst w'. simpl in Hl. subst l.
    by vm_compute.
Defined.
