(* ===== verification/Ipc.v ===== *)
(** * Names for numeric ids (src/ipc/interprocess_handler.c and
      [execute_root_command] of src/engine/command_parser.c)

    A child has no access to the user database once it is confined, so it
    asks the listening process over a socket pair: "UID n" or "GID n" one
    way, the name with its NUL the other. *)

From S2P Require Import Prelude CString CommandParser Connection System SmallSystem.
From stdpp Require Import options.

Local Open Scope Z_scope.

(** ** The listening process *)

Section Root.
(** [getpwuid] and [getgrgid]: the name of an entry. *)
Variable getpwuid : Z -> option string.
Variable getgrgid : Z -> option string.

Definition invalid_format : string := "500 Invalid UID format" +:+ crlf.
Definition invalid_gid_format : string := "500 Invalid GID format" +:+ crlf.

Definition name_reply (name : option string) : string :=
  snprintf_s (Z.to_nat MAX_ARG_LEN) (default "unknown" name) +:+ String nul EmptyString.

(** What is written back, [None] being nothing at all. *)
Definition execute_root_command (malloc_ok : nat -> bool) (input : string) : option string :=
  let cmd := parse_text_command malloc_ok input in
  if negb (argc cmd =? 1) then Some invalid_format
  else
    let arg := nth 0 (args cmd) EmptyString in
    if strcmp_eq (command cmd) "UID" then
      match sscanf_u arg with
      | None => Some invalid_format
      | Some uid => Some (name_reply (getpwuid uid))
      end
    else if strcmp_eq (command cmd) "GID" then
      match sscanf_u arg with
      | None => Some invalid_gid_format
      | Some gid => Some (name_reply (getgrgid gid))
      end
    else None.
End Root.

(** [on_read] with a NULL cookie takes at most 1023 bytes of what arrived. *)
Definition INPUT_LEN : nat := 1024.

Definition on_read_input (received : string) : string := c_str (strtake (INPUT_LEN - 1) received).

(** ** The child *)

Definition NAME_LEN : nat := 256.

(** [ipc_reply_cb]: what the reply leaves in a buffer of [size] bytes. *)
Definition ipc_reply_cb (size : nat) (received : string) : string :=
  c_str (strtake (size - 1) received).

Definition uid_request (uid : Z) : string := snprintf_s NAME_LEN ("UID " +:+ print_unsigned uid).
Definition gid_request (gid : Z) : string := snprintf_s NAME_LEN ("GID " +:+ print_unsigned gid).

Section Child.
Context {S : Type} `{Sys S}.

Definition register_interprocess_fd_on_child (interprocess_fd : Z) : act S unit :=
  b ← bufferevent_socket_new KInterprocessBev interprocess_fd;
  put (set_interprocess_bev b);;
  match b with
  | None => mret tt
  | Some _ => bufferevent_setcb b true;; bufferevent_enable b
  end.

(** [event_cb] with the reply context, at the end of the stream or an error:
    the handle is freed, and only a process of the user id 0 goes on. *)
Definition event_cb (b : option nat) : act S unit :=
  bufferevent_disable b;;
  bufferevent_setcb b false;;
  bufferevent_free b;;
  uid ← do_call CGetuid;
  if negb (uid =? 0) then exit_process else mret tt.

(** The nested event loop runs until the reply arrives or the listening
    process ends; without a reply the buffer still holds the request.  The
    field is read again at each use, as the code does. *)
Definition ask_custom_command (buffer : string) (buffer_size : nat) : act S string :=
  if Nat.eqb buffer_size 0 then mret buffer
  else
    b ← get interprocess_bev;
    bufferevent_setcb b true;;
    b ← get interprocess_bev;
    bufferevent_write b buffer;;
    received ← do_call (CAskRoot buffer);
    reply ← (match received with
             | Some r => mret (ipc_reply_cb buffer_size r)
             | None => event_cb b;; mret buffer
             end);
    b ← get interprocess_bev;
    bufferevent_setcb b true;;
    mret reply.

Definition ask_root_for_username (uid : Z) : act S string :=
  ask_custom_command (uid_request uid) NAME_LEN.

Definition ask_root_for_groupname (gid : Z) : act S string :=
  ask_custom_command (gid_request gid) NAME_LEN.
End Child.

(** ** A request and its answer *)

Lemma digits_plain d : all_chars isdigit d = true -> all_chars plain_char d = true.
Proof. apply all_chars_impl. intros c. ascii_cases c. Qed.

(** The parent's view of "WORD n". *)
Lemma parse_request word n :
  word <> EmptyString -> all_chars (fun c => negb (isspace c)) word = true ->
  all_chars (fun c => negb (Ascii.eqb c nul)) word = true ->
  strlen word < 100 -> 0 <= n ->
  parse_text_command always
    (on_read_input (snprintf_s NAME_LEN ((word +:+ " ") +:+ print_unsigned n))) =
  Command (map_string toupper word) [print_unsigned n] 1.
Proof.
  intros Hne Hw Hnul Hlen Hn. unfold strlen in Hlen. pose proof (length_print n) as Hp.
  unfold snprintf_s, on_read_input, NAME_LEN, INPUT_LEN.
  rewrite (strtake_all (256 - 1)), strtake_all by (string_lengths; lia).
  rewrite c_str_no_nul by (rewrite !no_nul_app, no_nul_print, no_nul_all_chars, Hnul by done; done).
  rewrite string_app_assoc.
  pose proof (parse_one_arg word " " (print_unsigned n) EmptyString) as Hparse.
  rewrite string_app_nil_r in Hparse. apply Hparse; [done|done|unfold strlen, MAX_ARG_LEN; lia|done| |done].
  split; [|split].
  - destruct (print_unsigned_cons n Hn) as (c & s & -> & _). done.
  - by apply digits_plain, all_digits_print.
  - unfold strlen, MAX_ARG_LEN. lia.
Qed.

(** The name as it reaches the child. *)
Lemma reply_name name :
  (forall n, name = Some n -> no_nul n = true) ->
  ipc_reply_cb NAME_LEN (name_reply name) = strtake 255 (default "unknown" name)%string.
Proof.
  intros Hn. unfold ipc_reply_cb, name_reply, NAME_LEN. change (256 - 1)%nat with 255%nat.
  set (text := (default "unknown" name)%string).
  assert (no_nul text = true) as Ht by (subst text; destruct name; simpl; auto).
  unfold snprintf_s. set (big := (Z.to_nat MAX_ARG_LEN - 1)%nat).
  assert (Nat.min 255 big = 255%nat) as Hbig by (unfold big, MAX_ARG_LEN; lia). clearbody big.
  assert (forall k s, no_nul s = true -> no_nul (strtake k s) = true) as Htake
    by (intros k s Hs; rewrite no_nul_all_chars in *; by apply all_chars_strtake).
  rewrite strtake_app, strtake_strtake, length_strtake, Hbig.
  destruct (255 - Nat.min big (String.length text))%nat as [|k].
  - change (strtake 0 (String nul EmptyString)) with EmptyString.
    rewrite string_app_nil_r. by apply c_str_no_nul, Htake.
  - change (strtake (Datatypes.S k) (String nul EmptyString))
      with (String nul (strtake k EmptyString)).
    by apply c_str_app_nul, Htake.
Qed.

Lemma sscanf_id id : 0 <= id < two32 -> sscanf_u (print_unsigned id) = Some id.
Proof. intros Hid. rewrite <- (string_app_nil_r (print_unsigned id)). by apply sscanf_u_print. Qed.

Lemma execute_uid getpwuid getgrgid id :
  0 <= id < two32 ->
  execute_root_command getpwuid getgrgid always (on_read_input (uid_request id)) =
  Some (name_reply (getpwuid id)).
Proof.
  intros Hid. unfold execute_root_command, uid_request.
  change ("UID " +:+ print_unsigned id) with (("UID" +:+ " ") +:+ print_unsigned id).
  rewrite parse_request by (done || lia). cbn [argc args command nth].
  change (strcmp_eq (map_string toupper "UID") "UID") with true.
  change (negb (1 =? 1)) with false. cbv beta iota. by rewrite sscanf_id.
Qed.

Lemma execute_gid getpwuid getgrgid id :
  0 <= id < two32 ->
  execute_root_command getpwuid getgrgid always (on_read_input (gid_request id)) =
  Some (name_reply (getgrgid id)).
Proof.
  intros Hid. unfold execute_root_command, gid_request.
  change ("GID " +:+ print_unsigned id) with (("GID" +:+ " ") +:+ print_unsigned id).
  rewrite parse_request by (done || lia). cbn [argc args command nth].
  change (strcmp_eq (map_string toupper "GID") "UID") with false.
  change (strcmp_eq (map_string toupper "GID") "GID") with true.
  change (negb (1 =? 1)) with false. cbv beta iota. by rewrite sscanf_id.
Qed.

(** A child that can ask: its end of the socket pair is registered. *)
Definition can_ask {S} (w : world S) : Prop :=
  exists b, interprocess_bev (conn w) = Some b /\ live (handles w) !! b = Some KInterprocessBev.

(** The calls of one question. *)
Definition asking (b : nat) (request reply : string) : list event :=
  [Did (CBevSetcb b true) tt; Did (CBevWrite b request) tt;
   Did (CAskRoot request) (Some reply); Did (CBevSetcb b true) tt].

Lemma bufferevent_setcb_run {S} `{Sys S} b k set (w : world S) :
  live (handles w) !! b = Some k -> is_bev k = true ->
  exists s, bufferevent_setcb (Some b) set w =
    Ok (tt, World (conn w) s (handles w) (trace w ++ [Did (CBevSetcb b set) tt])).
Proof.
  intros Hl Hk. unfold bufferevent_setcb. erewrite act_bind_run; [|by eapply use_live].
  rewrite do_call_called. unfold called.
  destruct (sys_step (CBevSetcb b set) (sys w)) as [[] s]. by exists s.
Qed.

Lemma bufferevent_write_run {S} `{Sys S} b k bytes (w : world S) :
  live (handles w) !! b = Some k -> is_bev k = true ->
  exists s, bufferevent_write (Some b) bytes w =
    Ok (tt, World (conn w) s (handles w) (trace w ++ [Did (CBevWrite b bytes) tt])).
Proof.
  intros Hl Hk. unfold bufferevent_write. erewrite act_bind_run; [|by eapply use_live].
  rewrite do_call_called. unfold called.
  destruct (sys_step (CBevWrite b bytes) (sys w)) as [[] s]. by exists s.
Qed.

Lemma ask_run {S} `{Sys S} buffer size (w : world S) b r :
  size <> 0%nat -> interprocess_bev (conn w) = Some b ->
  live (handles w) !! b = Some KInterprocessBev ->
  (forall s, fst (sys_step (CAskRoot buffer) s) = Some r) ->
  exists s, ask_custom_command buffer size w =
    Ok (ipc_reply_cb size r, World (conn w) s (handles w) (trace w ++ asking b buffer r)).
Proof.
  intros Hs Hb Hl Hr. unfold ask_custom_command.
  rewrite (proj2 (Nat.eqb_neq size 0) Hs).
  erewrite act_bind_run; [|done]. rewrite Hb.
  destruct (bufferevent_setcb_run b KInterprocessBev true w) as (s1 & E1); [done..|].
  erewrite act_bind_run; [|exact E1]. erewrite act_bind_run; [|done]. cbn [conn]. rewrite Hb.
  set (w1 := World _ s1 _ _).
  destruct (bufferevent_write_run b KInterprocessBev buffer w1) as (s2 & E2); [done..|].
  erewrite act_bind_run; [|exact E2]. set (w2 := World _ s2 _ _).
  destruct (sys_step (CAskRoot buffer) (sys w2)) as [r' s3] eqn:E3.
  specialize (Hr (sys w2)). rewrite E3 in Hr. cbn [fst] in Hr. subst r'.
  erewrite act_bind_run; [|exact (do_call_run (CAskRoot _) w2 _ _ E3)].
  erewrite act_bind_run; [|done]. erewrite act_bind_run; [|done]. cbn [conn w1 w2]. rewrite Hb.
  set (w3 := World _ s3 _ _).
  destruct (bufferevent_setcb_run b KInterprocessBev true w3) as (s4 & E4); [done..|].
  erewrite act_bind_run; [|exact E4]. exists s4. unfold asking, w3, w2, w1. cbn [conn handles trace].
  by rewrite <- !app_assoc.
Qed.

(** ** Properties *)

(** The name a listing shows for a numeric id is the one the listening
    process finds in its databases ("unknown" when it has none), cut to the
    255 bytes of the child's buffer: the request, its parsing by the parent,
    the parent's reply and its reading by the child lose nothing else, for
    every 32-bit id. *)
Theorem names_for_ids {S} `{Sys S} getpwuid getgrgid id (w : world S) :
  can_ask w ->
  (forall request s, fst (sys_step (CAskRoot request) s) =
     execute_root_command getpwuid getgrgid always (on_read_input request)) ->
  (forall n, getpwuid id = Some n -> no_nul n = true) ->
  (forall n, getgrgid id = Some n -> no_nul n = true) ->
  0 <= id < two32 ->
  (exists w', ask_root_for_username id w =
     Ok (strtake 255 (default "unknown" (getpwuid id))%string, w') /\ conn w' = conn w) /\
  (exists w', ask_root_for_groupname id w =
     Ok (strtake 255 (default "unknown" (getgrgid id))%string, w') /\ conn w' = conn w).
Proof.
  intros (b & Hb & Hl) Hsys Hp Hg Hid.
  unfold ask_root_for_username, ask_root_for_groupname. split.
  - destruct (ask_run (uid_request id) NAME_LEN w b (name_reply (getpwuid id))) as (s & ->);
      [done..|by intros s; rewrite Hsys, execute_uid|].
    rewrite reply_name by done. by eexists.
  - destruct (ask_run (gid_request id) NAME_LEN w b (name_reply (getgrgid id))) as (s & ->);
      [done..|by intros s; rewrite Hsys, execute_gid|].
    rewrite reply_name by done. by eexists.
Qed.

(** The small system with a parent that knows one user. *)
Definition one_user (id : Z) : option string := if id =? 1000 then Some "alice"%string else None.

Definition parent_answers : Sys small := fun c s =>
  match c as c return reply c * small with
  | CAskRoot request =>
      (execute_root_command one_user one_user always (on_read_input request), s)
  | c => small_sys c s
  end.

(** A connection with its end of the socket pair, handle 1. *)
Definition asking_world : world small :=
  World (set_interprocess_bev (Some 1%nat) zero_connection) sample_small
    (Ledger 2 {[1%nat := KInterprocessBev]}) [].

Example names_for_ids_witness :
  exists w', @ask_root_for_username small parent_answers 1000 asking_world = Ok ("alice"%string, w').
Proof.
  destruct (@names_for_ids small parent_answers one_user one_user 1000 asking_world)
    as [(w' & Hw & _) _].
  - by exists 1%nat.
  - intros request s. reflexivity.
  - intros n [= <-]. reflexivity.
  - intros n [= <-]. reflexivity.
  - split; reflexivity || discriminate.
  - exists w'. exact Hw.
Defined.
