(* ===== verification/IpcLink.v ===== *)
(** * The socket pair between a child and the listening process
      (src/ipc/interprocess_handler.c)

    Ipc.v answers a request in one step.  Here both ends are bufferevents with
    their own buffers, the child waits in a nested event loop, and what
    happens on the pair while it waits is a list of [link_event]s. *)

From S2P Require Import Prelude CString CommandParser Connection System SmallSystem Control.
From S2P Require Import Ipc.
From stdpp Require Import options.

Local Open Scope Z_scope.

(** ** The child's bufferevent *)

(** The context pointer of its callbacks. *)
Inductive ipc_ctx := CtxNull | CtxReply | CtxConnection.

(** [input] holds what libevent has read from the socket for it. *)
Record ipc_bev := IpcBev {
  read_cb : bool;      (* ipc_reply_cb is the read callback *)
  bev_ctx : ipc_ctx;   (* with event_cb as the event callback *)
  bev_enabled : bool;
  input : string;
}.

(** [connection->interprocess_bev]. *)
Inductive bev_ptr := BevNull | BevLive (b : ipc_bev) | BevFreed.

(** The pair: bytes written by one end and not yet read by the other. *)
Record link := Link {
  interprocess_bev : bev_ptr;
  to_parent : string;
  to_child : string;
  parent_input : string;
  parent_alive : bool;
  child_uid : Z;
}.

Definition set_bev_ptr (b : bev_ptr) (l : link) : link :=
  Link b (to_parent l) (to_child l) (parent_input l) (parent_alive l) (child_uid l).

(** A pair as [socketpair] makes it, the record coming from [calloc]. *)
Definition new_link (uid : Z) : link := Link BevNull EmptyString EmptyString EmptyString true uid.

(** [created]: whether libevent made the object. *)
Definition register_interprocess_fd_on_child (created : bool) (l : link) : link :=
  if created then set_bev_ptr (BevLive (IpcBev false CtxNull true EmptyString)) l
  else set_bev_ptr BevNull l.

(** [bufferevent_setcb] dereferences its argument. *)
Definition bev_setcb (cb : bool) (ctx : ipc_ctx) (l : link) : outcome link :=
  match interprocess_bev l with
  | BevLive b => mret (set_bev_ptr (BevLive (IpcBev cb ctx (bev_enabled b) (input b))) l)
  | BevNull | BevFreed => Undefined
  end.

Definition bev_write (bytes : string) (l : link) : outcome link :=
  match interprocess_bev l with
  | BevLive _ => mret (Link (interprocess_bev l) (to_parent l +:+ bytes) (to_child l)
                        (parent_input l) (parent_alive l) (child_uid l))
  | BevNull | BevFreed => Undefined
  end.

(** [event_cb] on the child's end; [None] is [exit(-1)].  The counter it
    touches is the child's copy, which nothing reads. *)
Definition child_event_cb (events : Z) (b : ipc_bev) (l : link) : option link :=
  match bev_ctx b with
  | CtxNull => Some l
  | CtxReply | CtxConnection =>
      if has_flag events (Z.lor BEV_EVENT_EOF BEV_EVENT_ERROR) then
        if child_uid l =? 0 then Some (set_bev_ptr BevFreed l) else None
      else Some l
  end.

(** ** Both ends while the child waits *)

Inductive link_event :=
  | ParentReads   (* the listening process finds bytes of this pair *)
  | ChildReads    (* the nested loop finds its socket readable *)
  | ParentExits.

(** [reply_context_t]; its buffer size is the caller's. *)
Record reply_context_t := ReplyContext { buffer : string; reply_received : bool }.

(** The read callback takes at most [size - 1] bytes of what has arrived. *)
Definition ipc_reply_cb_read (size : nat) (b : ipc_bev) : reply_context_t * ipc_bev :=
  (ReplyContext (ipc_reply_cb size (input b)) true,
   IpcBev (read_cb b) (bev_ctx b) (bev_enabled b) (strdrop (size - 1) (input b))).

Section Link.
Variable getpwuid : Z -> option string.
Variable getgrgid : Z -> option string.
Variable malloc_ok : nat -> bool.

(** [on_read] of the listening process, whose reply goes back the other way. *)
Definition parent_on_read (l : link) : link :=
  if parent_alive l && negb (strlen (to_parent l) =? 0) then
    let received := parent_input l +:+ to_parent l in
    let reply := execute_root_command getpwuid getgrgid malloc_ok (on_read_input received) in
    Link (interprocess_bev l) EmptyString (to_child l +:+ default EmptyString reply)
      (strdrop (INPUT_LEN - 1) received) true (child_uid l)
  else l.

Definition parent_exits (l : link) : link :=
  Link (interprocess_bev l) (to_parent l) (to_child l) (parent_input l) false (child_uid l).

(** The child's side of [event_base_dispatch]: it returns after
    [event_base_loopexit], or when no event is left; [Hang] is a child that
    still waits when the list is over.  libevent moves all bytes that are
    there into the input buffer before it calls the read callback, and
    reports the end of the stream when there are none. *)
Fixpoint nested_loop (size : nat) (es : list link_event) (r : reply_context_t) (l : link)
  : outcome (option (reply_context_t * link)) :=
  match interprocess_bev l with
  | BevLive b =>
      if negb (bev_enabled b) then mret (Some (r, l)) else
      match es with
      | [] => Hang
      | ParentReads :: es' => nested_loop size es' r (parent_on_read l)
      | ParentExits :: es' => nested_loop size es' r (parent_exits l)
      | ChildReads :: es' =>
          if strlen (to_child l) =? 0 then
            if parent_alive l then nested_loop size es' r l
            else
              match child_event_cb BEV_EVENT_EOF b l with
              | None => mret None
              | Some l' => nested_loop size es' r l'
              end
          else
            let b' := IpcBev (read_cb b) (bev_ctx b) (bev_enabled b) (input b +:+ to_child l) in
            let l' := Link (BevLive b') (to_parent l) EmptyString (parent_input l)
                        (parent_alive l) (child_uid l) in
            if read_cb b then
              let '(r', b'') := ipc_reply_cb_read size b' in
              mret (Some (r', set_bev_ptr (BevLive b'') l'))
            else nested_loop size es' r l'
      end
  | BevNull | BevFreed => mret (Some (r, l))
  end.

(** [request] is what the caller's buffer of [size] bytes holds. *)
Definition ask_custom_command (request : string) (size : nat) (es : list link_event) (l : link)
  : outcome (option (string * link)) :=
  if Nat.eqb size 0 then mret (Some (request, l))
  else
    l1 ← bev_setcb true CtxReply l;
    l2 ← bev_write request l1;
    res ← nested_loop size es (ReplyContext request false) l2;
    match res with
    | None => mret None
    | Some (r, l3) =>
        l4 ← bev_setcb false CtxConnection l3;
        mret (Some (buffer r, l4))
    end.

(** A question: a user or a group id, and what happens while it is asked. *)
Inductive question := Username (uid : Z) | Groupname (gid : Z).

Definition request_of (q : question) : string :=
  match q with Username uid => uid_request uid | Groupname gid => gid_request gid end.

Definition ask_root (q : question) : list link_event -> link -> outcome (option (string * link)) :=
  ask_custom_command (request_of q) NAME_LEN.

(** The questions of a listing, one after the other. *)
Fixpoint ask_all (qs : list (question * list link_event)) (l : link)
  : outcome (option (list string * link)) :=
  match qs with
  | [] => mret (Some ([], l))
  | (q, es) :: qs' =>
      res ← ask_root q es l;
      match res with
      | None => mret None
      | Some (name, l1) =>
          rest ← ask_all qs' l1;
          mret (match rest with
                | None => None
                | Some (names, l2) => Some (name :: names, l2)
                end)
      end
  end.
End Link.

(** ** One question *)

Definition name_of (getpwuid getgrgid : Z -> option string) (q : question) : string :=
  default "unknown"%string
    (match q with Username uid => getpwuid uid | Groupname gid => getgrgid gid end).

Definition id_of (q : question) : Z :=
  match q with Username uid => uid | Groupname gid => gid end.

(** The parent runs, and after it the child, before the parent can exit. *)
Fixpoint reply_comes (es : list link_event) : bool :=
  match es with
  | ParentReads :: es' => reply_comes es'
  | ChildReads :: _ => true
  | _ => false
  end.

Fixpoint answered (es : list link_event) : bool :=
  match es with
  | ChildReads :: es' => answered es'
  | ParentReads :: es' => reply_comes es'
  | _ => false
  end.

(** No bytes on the way, [pending] left in the child's buffer. *)
Definition ready (pending : string) (l : link) : Prop :=
  exists cb ctx uid,
    l = Link (BevLive (IpcBev cb ctx true pending)) EmptyString EmptyString EmptyString true uid.

(** [name_reply] with the name spelled out. *)
Definition reply_text (name : string) : string :=
  strtake (Z.to_nat MAX_ARG_LEN - 1) name +:+ String nul EmptyString.

Section Lemmas.
Variable getpwuid : Z -> option string.
Variable getgrgid : Z -> option string.
#[local] Set Default Proof Using "Type".

Lemma root_answers q :
  0 <= id_of q < two32 ->
  execute_root_command getpwuid getgrgid always (on_read_input (request_of q)) =
  Some (reply_text (name_of getpwuid getgrgid q)).
Proof. destruct q as [id|id]; intros Hid; [by apply execute_uid | by apply execute_gid]. Qed.

Lemma request_short q :
  0 <= id_of q < two32 -> (0 < String.length (request_of q) <= INPUT_LEN - 1)%nat.
Proof.
  intros Hid.
  assert (forall word, String.length word = 4%nat ->
    (0 < String.length (snprintf_s NAME_LEN (word +:+ print_unsigned (id_of q))) <= INPUT_LEN - 1)%nat)
    as Hw; [|destruct q; by apply Hw].
  intros word Hl. unfold snprintf_s, NAME_LEN, INPUT_LEN. rewrite length_strtake, length_string_app. lia.
Qed.

Lemma strlen_pos s : (0 < String.length s)%nat -> (strlen s =? 0) = false.
Proof. unfold strlen. intros. apply Z.eqb_neq. lia. Qed.

(** The reply is on its way. *)
Lemma loop_reply size es r uid pending reply :
  reply_comes es = true -> (0 < String.length reply)%nat ->
  nested_loop getpwuid getgrgid always size es r
    (Link (BevLive (IpcBev true CtxReply true pending)) EmptyString reply EmptyString true uid) =
  Ok (Some (ReplyContext (ipc_reply_cb size (pending +:+ reply)) true,
    Link (BevLive (IpcBev true CtxReply true (strdrop (size - 1) (pending +:+ reply))))
      EmptyString EmptyString EmptyString true uid)).
Proof.
  intros He Hr. induction es as [|[] es IH]; [done|by apply IH| |done].
  cbn [nested_loop interprocess_bev bev_enabled negb to_child]. by rewrite strlen_pos.
Qed.

(** The request is on its way. *)
Lemma loop_request size es r uid pending q :
  answered es = true -> 0 <= id_of q < two32 ->
  let received := pending +:+ reply_text (name_of getpwuid getgrgid q) in
  nested_loop getpwuid getgrgid always size es r
    (Link (BevLive (IpcBev true CtxReply true pending)) (request_of q) EmptyString EmptyString true uid) =
  Ok (Some (ReplyContext (ipc_reply_cb size received) true,
    Link (BevLive (IpcBev true CtxReply true (strdrop (size - 1) received)))
      EmptyString EmptyString EmptyString true uid)).
Proof.
  intros He Hid. induction es as [|[] es IH]; [done| |by apply IH|done].
  destruct (request_short q Hid) as [Hpos Hle].
  cbn [nested_loop interprocess_bev bev_enabled negb]. unfold parent_on_read.
  cbn [parent_alive to_parent interprocess_bev parent_input to_child child_uid andb].
  rewrite strlen_pos by done. cbn [negb].
  change (EmptyString +:+ request_of q) with (request_of q).
  rewrite root_answers by done. cbn [default].
  replace (strdrop (INPUT_LEN - 1) (request_of q)) with EmptyString.
  2:{ pose proof (length_strdrop (INPUT_LEN - 1) (request_of q)) as Hl.
      replace (String.length (request_of q) - (INPUT_LEN - 1))%nat with 0%nat in Hl by lia.
      by destruct (strdrop (INPUT_LEN - 1) (request_of q)). }
  apply loop_reply; [done|]. unfold reply_text. rewrite length_string_app. simpl. lia.
Qed.

Lemma setcb_live cb cb0 ctx ctx0 inp tp tc pin alive uid :
  bev_setcb cb ctx (Link (BevLive (IpcBev cb0 ctx0 true inp)) tp tc pin alive uid) =
  Ok (Link (BevLive (IpcBev cb ctx true inp)) tp tc pin alive uid).
Proof. done. Qed.

Lemma write_live bytes cb ctx inp tc pin alive uid :
  bev_write bytes (Link (BevLive (IpcBev cb ctx true inp)) EmptyString tc pin alive uid) =
  Ok (Link (BevLive (IpcBev cb ctx true inp)) bytes tc pin alive uid).
Proof. done. Qed.

(** One question reads at most 255 bytes of what is pending and of the
    reply; the rest stays. *)
Lemma ask_ready q es pending l :
  ready pending l -> answered es = true -> 0 <= id_of q < two32 ->
  let received := pending +:+ reply_text (name_of getpwuid getgrgid q) in
  exists l', ask_root getpwuid getgrgid always q es l = Ok (Some (ipc_reply_cb NAME_LEN received, l')) /\
    ready (strdrop (NAME_LEN - 1) received) l'.
Proof.
  intros (cb & ctx & uid & ->) He Hid received. unfold ask_root, ask_custom_command.
  change (Nat.eqb NAME_LEN 0) with false. cbv iota.
  erewrite setcb_live, Ok_bind by done. erewrite write_live, Ok_bind by done.
  rewrite (loop_request NAME_LEN es _ uid pending q He Hid), Ok_bind.
  eexists. split; [done|]. by eexists _, _, _.
Qed.
End Lemmas.

(** A name that fits, with its NUL, in the 255 bytes of a read. *)
Definition short_name (name : string) : Prop := no_nul name = true /\ strlen name < 255.

Lemma reply_text_uncut name :
  strlen name < MAX_ARG_LEN -> reply_text name = name +:+ String nul EmptyString.
Proof.
  unfold reply_text, strlen, MAX_ARG_LEN. intros Hl. by rewrite strtake_all by lia.
Qed.

Lemma strdrop_app_exact n a b : String.length a = n -> strdrop n (a +:+ b) = b.
Proof. intros <-. by induction a. Qed.

Lemma strdrop_all n s : (String.length s <= n)%nat -> strdrop n s = EmptyString.
Proof.
  intros Hl. pose proof (length_strdrop n s) as E. destruct (strdrop n s); [done|simpl in E; lia].
Qed.

Lemma strdrop_app n a b :
  (n <= String.length a)%nat -> strdrop n (a +:+ b) = strdrop n a +:+ b.
Proof. revert n. induction a; intros [|n] Hn; simpl in *; auto with lia. Qed.

Lemma no_nul_strdrop n s : no_nul s = true -> no_nul (strdrop n s) = true.
Proof.
  intros Hs. rewrite <- (strtake_strdrop n s), no_nul_app in Hs.
  by apply andb_true_iff in Hs as [_ Hs].
Qed.

(** A text of at most 254 bytes, its NUL, and whatever follows. *)
Lemma reply_cb_nul name rest :
  no_nul name = true -> (String.length name < 255)%nat ->
  ipc_reply_cb NAME_LEN (name +:+ String nul rest) = name.
Proof.
  intros Hn Hl. unfold ipc_reply_cb, NAME_LEN. change (256 - 1)%nat with 255%nat.
  rewrite strtake_app, strtake_all by lia.
  destruct (255 - String.length name)%nat as [|k] eqn:E; [lia|].
  by apply c_str_app_nul.
Qed.

Lemma reply_read name :
  short_name name ->
  ipc_reply_cb NAME_LEN (reply_text name) = name /\
  strdrop (NAME_LEN - 1) (reply_text name) = EmptyString.
Proof.
  unfold short_name, strlen. intros [Hn Hl].
  rewrite reply_text_uncut by (unfold strlen, MAX_ARG_LEN; lia). split.
  - apply reply_cb_nul; [done|lia].
  - apply strdrop_all. unfold NAME_LEN. rewrite length_string_app. simpl. lia.
Qed.

(** The same questions put to [CAskRoot], as the handlers do. *)
Definition ask_at_once {S} `{Sys S} (q : question) : act S string :=
  match q with
  | Username uid => ask_root_for_username uid
  | Groupname gid => ask_root_for_groupname gid
  end.

Fixpoint ask_all_at_once {S} `{Sys S} (qs : list question) : act S (list string) :=
  match qs with
  | [] => mret []
  | q :: qs' => name ← ask_at_once q; names ← ask_all_at_once qs'; mret (name :: names)
  end.

Lemma ask_at_once_run {S} `{Sys S} getpwuid getgrgid q (w : world S) :
  (forall request s, fst (sys_step (CAskRoot request) s) =
     execute_root_command getpwuid getgrgid always (on_read_input request)) ->
  can_ask w -> 0 <= id_of q < two32 -> short_name (name_of getpwuid getgrgid q) ->
  exists w', ask_at_once q w = Ok (name_of getpwuid getgrgid q, w') /\ can_ask w'.
Proof.
  intros Hsys (b & Hb & Hl) Hid [Hr _]%reply_read.
  destruct (ask_run (request_of q) NAME_LEN w b (reply_text (name_of getpwuid getgrgid q)))
    as (s & E); [done..|by intros s; rewrite Hsys, root_answers|].
  rewrite Hr in E. eexists. split; [destruct q; exact E|]. by exists b.
Qed.

(** A question of a listing that the pair can answer. *)
Definition answerable (getpwuid getgrgid : Z -> option string)
    (x : question * list link_event) : Prop :=
  answered x.2 = true /\ 0 <= id_of x.1 < two32 /\ short_name (name_of getpwuid getgrgid x.1).

Lemma ask_all_ready getpwuid getgrgid qs : forall l,
  ready EmptyString l -> Forall (answerable getpwuid getgrgid) qs ->
  exists l', ask_all getpwuid getgrgid always qs l =
      Ok (Some (map (fun x => name_of getpwuid getgrgid x.1) qs, l')) /\ ready EmptyString l'.
Proof.
  induction qs as [|[q es] qs IH]; intros l Hl Hqs; [by exists l|].
  inversion_clear Hqs as [|? ? (He & Hid & Hn) Hrest]. cbn [fst snd] in *.
  destruct (reply_read _ Hn) as [Hread Hdrop].
  destruct (ask_ready getpwuid getgrgid q es EmptyString l Hl He Hid) as (l1 & E1 & H1).
  change (EmptyString +:+ ?t) with t in E1, H1. rewrite Hread in E1. rewrite Hdrop in H1.
  destruct (IH l1 H1 Hrest) as (l2 & E2 & H2).
  exists l2. split; [|done]. cbn [ask_all map fst]. by rewrite E1, Ok_bind, E2.
Qed.

(** ** Properties *)

(** C28: the socket pair implements the one-step answers the handlers are
    proved against.  From a freshly registered pair, for any questions of a
    session in any order, whatever else happens on the pair while each is
    asked (as long as the parent runs and then the child), every answer is
    the name in the parent's databases and nothing is left over for the next
    one, provided no name has more than 254 bytes.  The one-step side is asked
    in a state whose end of the socket pair is registered ([can_ask]). *)
Theorem names_over_link {S} `{Sys S} getpwuid getgrgid uid qs (w : world S) :
  can_ask w ->
  (forall request s, fst (sys_step (CAskRoot request) s) =
     execute_root_command getpwuid getgrgid always (on_read_input request)) ->
  Forall (answerable getpwuid getgrgid) qs ->
  let names := map (fun x => name_of getpwuid getgrgid x.1) qs in
  (exists l', ask_all getpwuid getgrgid always qs
      (register_interprocess_fd_on_child true (new_link uid)) = Ok (Some (names, l')) /\
    ready EmptyString l') /\
  (exists w', ask_all_at_once (map fst qs) w = Ok (names, w')).
Proof.
  intros Hw Hsys Hqs names. split.
  - apply ask_all_ready; [by eexists _, _, _|done].
  - subst names. revert w Hw. induction Hqs as [|[q es] qs (_ & Hid & Hn) _ IH]; intros w Hw; [by exists w|].
    destruct (ask_at_once_run getpwuid getgrgid q w Hsys Hw Hid Hn) as (w1 & E1 & H1).
    destruct (IH w1 H1) as (w2 & E2). exists w2. cbn [map ask_all_at_once fst].
    erewrite act_bind_run by exact E1. by erewrite act_bind_run by exact E2.
Qed.

(** C29: a name of 255 to 509 bytes is more than the child reads at once.
    Its own answer is the name cut to 255 bytes, and the bytes left over are
    the answer to the next question, whatever that asks: the tail of the long
    name, or the empty name when it has exactly 255 bytes. *)
Theorem long_name_shifts_answers getpwuid getgrgid uid q1 es1 q2 es2 :
  let name := name_of getpwuid getgrgid q1 in
  answered es1 = true -> answered es2 = true ->
  0 <= id_of q1 < two32 -> 0 <= id_of q2 < two32 ->
  no_nul name = true -> 255 <= strlen name < 510 ->
  exists l', ask_all getpwuid getgrgid always [(q1, es1); (q2, es2)]
    (register_interprocess_fd_on_child true (new_link uid)) =
    Ok (Some ([strtake 255 name; strdrop 255 name], l')).
Proof.
  intros name He1 He2 Hid1 Hid2 Hn Hl. unfold strlen in Hl.
  destruct (ask_ready getpwuid getgrgid q1 es1 EmptyString
    (register_interprocess_fd_on_child true (new_link uid))) as (l1 & E1 & H1);
    [by eexists _, _, _|done|done|].
  change (EmptyString +:+ ?t) with t in E1, H1. fold name in E1, H1.
  rewrite reply_text_uncut in E1, H1 by (unfold strlen, MAX_ARG_LEN; lia).
  change (NAME_LEN - 1)%nat with 255%nat in H1. rewrite strdrop_app in H1 by lia.
  destruct (ask_ready getpwuid getgrgid q2 es2 _ l1 H1 He2 Hid2) as (l2 & E2 & _).
  exists l2. cbn [ask_all]. rewrite E1, Ok_bind, E2. rewrite !Ok_bind. cbn [mret].
  assert (ipc_reply_cb NAME_LEN (name +:+ String nul EmptyString) = strtake 255 name) as ->.
  { unfold ipc_reply_cb. change (NAME_LEN - 1)%nat with 255%nat.
    rewrite strtake_app. replace (255 - String.length name)%nat with 0%nat by lia.
    change (strtake 0 (String nul EmptyString)) with EmptyString. rewrite string_app_nil_r.
    apply c_str_no_nul. rewrite no_nul_all_chars in *. by apply all_chars_strtake. }
  rewrite string_app_assoc. cbn [String.append]. rewrite reply_cb_nul; [done| |].
  - by apply no_nul_strdrop.
  - rewrite length_strdrop. lia.
Qed.

(** C30: nothing bounds the wait.  As long as the parent does not run, the
    child waits in its nested loop; when the parent ends instead, the child
    exits, except for an account with user id 0, where [event_cb] frees the
    bufferevent, returns, and [ask_custom_command] uses it again.  A pair
    whose bufferevent could not be created is used just the same. *)
Theorem ask_without_answer getpwuid getgrgid q uid pending idle rest l :
  ready pending l -> child_uid l = uid -> Forall (.= ChildReads) idle ->
  let ask es l := ask_root getpwuid getgrgid always q es l in
  ask idle l = Hang /\
  ask (idle ++ ParentExits :: ChildReads :: rest) l = (if uid =? 0 then Undefined else Ok None) /\
  ask rest (register_interprocess_fd_on_child false l) = Undefined.
Proof.
  intros (cb & ctx & u & ->) <- Hidle ask. subst ask. cbv beta. unfold ask_root, ask_custom_command.
  change (Nat.eqb NAME_LEN 0) with false. cbv iota. cbn [child_uid].
  erewrite setcb_live, !Ok_bind by done. erewrite write_live, !Ok_bind by done.
  assert (forall es r m inp,
    nested_loop getpwuid getgrgid always NAME_LEN (idle ++ es) r
      (Link (BevLive (IpcBev true CtxReply true inp)) m EmptyString EmptyString true u) =
    nested_loop getpwuid getgrgid always NAME_LEN es r
      (Link (BevLive (IpcBev true CtxReply true inp)) m EmptyString EmptyString true u)) as Hskip.
  { intros es r m inp. induction Hidle as [|e idle -> _ IH]; [done|]. by rewrite <- IH. }
  split; [|split].
  - rewrite <- (app_nil_r idle), Hskip. done.
  - rewrite Hskip. cbn [nested_loop interprocess_bev bev_enabled negb].
    unfold parent_exits. cbn [interprocess_bev to_child to_parent parent_input child_uid].
    change (strlen EmptyString =? 0) with true. cbv iota. cbn [parent_alive].
    unfold child_event_cb. cbn [bev_ctx child_uid].
    change (has_flag BEV_EVENT_EOF (Z.lor BEV_EVENT_EOF BEV_EVENT_ERROR)) with true. cbv iota.
    destruct (u =? 0); [|done]. by destruct rest.
  - done.
Qed.

(** ** Witnesses *)

Definition sample_schedule : list link_event := [ChildReads; ParentReads; ParentReads; ChildReads].

Definition sample_questions : list (question * list link_event) :=
  [(Username 1000, sample_schedule); (Groupname 5, [ParentReads; ChildReads]);
   (Username 1000, sample_schedule)].

Lemma names_over_link_witness :
  exists l', ask_all one_user one_user always sample_questions
      (register_interprocess_fd_on_child true (new_link 1000)) =
    Ok (Some (["alice"; "unknown"; "alice"]%string, l')).
Proof.
  destruct (@names_over_link small parent_answers one_user one_user 1000 sample_questions
    asking_world) as [(l' & E & _) _].
  - by exists 1%nat.
  - intros request s. reflexivity.
  - unfold sample_questions.
    repeat apply Forall_cons_2; [..|apply Forall_nil_2];
      (split; [reflexivity|split; split]); vm_compute; first [reflexivity | discriminate].
  - exists l'. exact E.
Defined.

(** An account whose name has 260 bytes. *)
Fixpoint repeated (c : ascii) (n : nat) : string :=
  match n with O => EmptyString | Datatypes.S n' => String c (repeated c n') end.

Definition long_user (id : Z) : option string :=
  if id =? 7 then Some (repeated "a" 260) else one_user id.

Lemma long_name_shifts_answers_witness :
  exists l', ask_all long_user one_user always
      [(Username 7, sample_schedule); (Username 1000, sample_schedule)]
      (register_interprocess_fd_on_child true (new_link 1000)) =
    Ok (Some ([repeated "a" 255; "aaaaa"%string], l')).
Proof.
  destruct (long_name_shifts_answers long_user one_user 1000 (Username 7) sample_schedule
    (Username 1000) sample_schedule) as (l' & E).
  - reflexivity.
  - reflexivity.
  - split; vm_compute; first [reflexivity | discriminate].
  - split; vm_compute; first [reflexivity | discriminate].
  - vm_compute. reflexivity.
  - split; vm_compute; first [reflexivity | discriminate].
  - exists l'. exact E.
Defined.

Lemma ask_without_answer_witness :
  ask_root one_user one_user always (Username 1000) [ChildReads; ParentExits; ChildReads]
    (register_interprocess_fd_on_child true (new_link 0)) = Undefined /\
  ask_root one_user one_user always (Username 1000) [ChildReads; ParentExits; ChildReads]
    (register_interprocess_fd_on_child true (new_link 1000)) = Ok None.
Proof.
  split.
  - apply (ask_without_answer one_user one_user (Username 1000) 0 EmptyString [ChildReads] []).
    + exists false, CtxNull, 0. reflexivity.
    + reflexivity.
    + apply Forall_cons_2; [reflexivity|apply Forall_nil_2].
  - apply (ask_without_answer one_user one_user (Username 1000) 1000 EmptyString [ChildReads] []).
    + exists false, CtxNull, 1000. reflexivity.
    + reflexivity.
    + apply Forall_cons_2; [reflexivity|apply Forall_nil_2].
Defined.
