(* ===== verification/Dele.v ===== *)
(** * The DELE command (src/actions/dele.c) *)

From S2P Require Import Prelude CString CommandParser Config Connection System SmallSystem Control.
From S2P Require Import Security.
From stdpp Require Import options.

Local Open Scope Z_scope.

(** [IF_MATCHES]: [strncmp] over [MAX_COMMAND_LENGTH] bytes. *)
Definition MAX_COMMAND_LENGTH : Z := 4096.

Definition matches (input expected : string) : bool :=
  strncmp_eq input expected (Z.to_nat MAX_COMMAND_LENGTH).

Record dele_args_t := DeleArgs {
  recursive : bool;
  force : bool;
  target : option string;
}.

Fixpoint parse_dele_args (l : list string) (a : dele_args_t) : option dele_args_t :=
  match l with
  | [] => Some a
  | x :: l' =>
      if matches x "-r" then parse_dele_args l' (DeleArgs true (force a) (target a))
      else if matches x "-f" then parse_dele_args l' (DeleArgs (recursive a) true (target a))
      else
        match target a with
        | None => parse_dele_args l' (DeleArgs (recursive a) (force a) (Some x))
        | Some _ => None
        end
  end.

(** [None] is [false]. *)
Definition parse_dele_params (cmd : cftp_command_t) : option dele_args_t :=
  match parse_dele_args (args cmd) (DeleArgs false false None) with
  | Some a => if target a is Some _ then Some a else None
  | None => None
  end.

(** [snprintf(buf, PATH_MAX, "%s/%s", dir, name)]. *)
Definition join_path (dir name : string) : string :=
  snprintf_s (Z.to_nat PATH_MAX) (dir +:+ ("/" +:+ name)).

Definition is_dot_entry (name : string) : bool := strcmp_eq name "." || strcmp_eq name "..".

Section Dele.
Context {S : Type} `{Sys S}.

(** The [readdir] loop, [rec] being the recursive call: [false] is the
    early return of -1. *)
Fixpoint delete_entries (rec : string -> act S Z) (path : string) (names : list string)
  : act S bool :=
  match names with
  | [] => mret true
  | name :: names' =>
      if is_dot_entry name then delete_entries rec path names'
      else
        let filepath := join_path path name in
        st ← do_call (CLstat filepath);
        match st with
        | None => delete_entries rec path names'
        | Some st =>
            if S_ISDIR (st_mode st) then
              r ← rec filepath;
              if r =? 0 then delete_entries rec path names' else mret false
            else
              do_call (CUnlink filepath);;
              delete_entries rec path names'
        end
  end.

(** [fuel] bounds the depth of the recursion. *)
Fixpoint delete_directory_recursively (fuel : nat) (path : string) : act S Z :=
  match fuel with
  | O => hang
  | Datatypes.S fuel' =>
      dir ← do_call (COpendir path);
      match dir with
      | None => mret (-1)
      | Some names =>
          finished ← delete_entries (delete_directory_recursively fuel') path names;
          do_call (CClosedir path);;
          if finished : bool then do_call (CRmdir path) else mret (-1)
      end
  end.

Definition delete_target (fuel : nat) (path : string) (a : dele_args_t) (st : stat_t) : act S unit :=
  if S_ISDIR (st_mode st) && negb (recursive a) then
    send_control_message FTP_STATUS_FILE_ACTION_NOT_TAKEN_PERM
      "Target is a directory. Use -r to delete recursively."
  else
    delete_res ← (if S_ISDIR (st_mode st) then delete_directory_recursively fuel path
                  else do_call (CUnlink path));
    if negb (delete_res =? 0) then
      if force a then
        send_control_message FTP_STATUS_FILE_ACTION_OK "Force delete: error ignored."
      else
        send_control_message FTP_STATUS_FILE_ACTION_NOT_TAKEN_PERM "Failed to delete."
    else send_control_message FTP_STATUS_FILE_ACTION_OK "Delete successful.".

Definition handle_dele_command (fuel : nat) (cmd : cftp_command_t) : act S unit :=
  match parse_dele_params cmd with
  | None =>
      send_control_message FTP_STATUS_SYNTAX_ERROR_PARAMS "Invalid arguments for DELE."
  | Some a =>
      if negb (is_path_safe (target a)) then
        send_control_message FTP_STATUS_FILE_ACTION_NOT_TAKEN_PERM "Invalid path"
      else
        path ← nonnull (target a);
        st ← do_call (CStat path);
        match st with
        | None =>
            if force a then
              send_control_message FTP_STATUS_FILE_ACTION_OK
                "Force delete: file does not exist."
            else
              send_control_message FTP_STATUS_FILE_ACTION_NOT_TAKEN_PERM "File not found."
        | Some st => delete_target fuel path a st
        end
  end.
End Dele.

(** ** Walking through the recursion *)

Section Walk.
Context {S : Type} `{Sys S} {okput okcall okkind R} `{!Tame (S:=S) okput okcall okkind R}.

Definition dele_calls_ok : Prop :=
  (forall p, okcall (CLstat p)) /\ (forall p, okcall (CUnlink p)) /\
  (forall p, okcall (COpendir p)) /\ (forall p, okcall (CClosedir p)) /\
  (forall p, okcall (CRmdir p)).

Lemma keeps_delete_entries rec path names :
  dele_calls_ok -> (forall p, keeps R (rec p)) -> keeps R (delete_entries (S:=S) rec path names).
Proof using Type*.
  intros (H1 & H2 & H3 & H4 & H5) Hrec. induction names as [|n ns IH]; cbn [delete_entries];
    walk ltac:(solve [eauto]) ltac:(first [apply IH | apply Hrec]).
Qed.

Lemma keeps_delete_directory fuel path :
  dele_calls_ok -> keeps R (delete_directory_recursively (S:=S) fuel path).
Proof using Type*.
  intros Hok. pose proof Hok as (H1 & H2 & H3 & H4 & H5).
  revert path. induction fuel as [|fuel IH]; intros path;
    cbn [delete_directory_recursively];
    walk ltac:(solve [eauto]) ltac:(apply keeps_delete_entries; [done|apply IH]).
Qed.
End Walk.

(** ** What the recursion touches *)

(** A path that is [dir] or begins with [dir] and a slash. *)
Definition under (dir p : string) : Prop := p = dir \/ exists r, p = dir +:+ ("/" +:+ r).

Lemma under_trans a b c : under a b -> under b c -> under a c.
Proof.
  intros [->|[r ->]] [->|[r' ->]]; [by left|by right; exists r'|by right; exists r|].
  right. exists (r +:+ ("/" +:+ r')). by rewrite !string_app_assoc.
Qed.

(** [PATH_MAX] cuts the joined path, at worst back to the directory. *)
Lemma join_path_under dir name : strlen dir < PATH_MAX -> under dir (join_path dir name).
Proof.
  intros Hd. unfold join_path, snprintf_s, under, strlen in *. rewrite strtake_app.
  rewrite (strtake_all _ dir) by (unfold PATH_MAX in *; lia).
  destruct (Z.to_nat PATH_MAX - 1 - String.length dir)%nat as [|k].
  - left. apply string_app_nil_r.
  - right. exists (strtake k name). done.
Qed.

Lemma strlen_join_path dir name : strlen (join_path dir name) < PATH_MAX.
Proof.
  unfold join_path, strlen. pose proof (length_snprintf_s (Z.to_nat PATH_MAX) (dir +:+ ("/" +:+ name))).
  unfold PATH_MAX in *. lia.
Qed.

(** The path of a call of the recursion. *)
Definition walk_path (e : event) : option string :=
  match e with
  | Did (COpendir p) _ | Did (CClosedir p) _ | Did (CLstat p) _ | Did (CUnlink p) _
  | Did (CRmdir p) _ => Some p
  | _ => None
  end.

Definition opens (e : event) : Z := match e with Did (COpendir _) (Some _) => 1 | _ => 0 end.
Definition closes (e : event) : Z := match e with Did (CClosedir _) _ => 1 | _ => 0 end.

Definition total (f : event -> Z) (l : list event) : Z := fold_right (fun e n => f e + n) 0 l.

Lemma total_app f l l' : total f (l ++ l') = total f l + total f l'.
Proof. unfold total. induction l as [|e l IH]; simpl; lia. Qed.

(** Only calls at or below [dir], every opened stream closed. *)
Record walk_run (dir : string) (l : list event) : Prop := {
  run_under : Forall (fun e => exists p, walk_path e = Some p /\ under dir p) l;
  run_closed : total opens l = total closes l;
}.

Definition walks {S} (dir : string) (w w' : world S) : Prop :=
  conn w' = conn w /\ exists l, trace w' = trace w ++ l /\ walk_run dir l.

Lemma walk_run_app dir l l' : walk_run dir l -> walk_run dir l' -> walk_run dir (l ++ l').
Proof.
  intros [H1 H2] [H3 H4]. split; [by apply Forall_app|]. rewrite !total_app. lia.
Qed.

Lemma walks_weaken {S} a b (w w' : world S) : under a b -> walks b w w' -> walks a w w'.
Proof.
  intros Hab (Hc & l & Ht & [Hu Ho]). split; [done|]. exists l. split; [done|]. split; [|done].
  eapply Forall_impl; [exact Hu|]. intros e (p & Hp & Hb). exists p. split; [done|]. by eapply under_trans.
Qed.

(** The calls the loop makes itself. *)
Definition entry_call (dir : string) (c : call) : Prop :=
  exists p, under dir p /\ (c = CLstat p \/ c = CUnlink p).

#[export] Instance walks_tame {S} `{Sys S} dir :
  Tame (S:=S) (fun _ => False) (entry_call dir) (fun _ => False) (walks dir).
Proof.
  split.
  - split.
    + intros w. split; [done|]. exists []. by rewrite app_nil_r.
    + intros w1 w2 w3 (Hc & l & Ht & Hl) (Hc' & l' & Ht' & Hl'). split; [congruence|].
      exists (l ++ l'). split; [by rewrite Ht', Ht, app_assoc|]. by apply walk_run_app.
  - done.
  - intros c r w s (p & Hp & Hc). split; [done|]. exists [Did c r]. split; [done|].
    destruct Hc as [-> | ->]; (split; [|done]); constructor; try done; by exists p.
  - done.
  - intros h w. split; [done|]. exists []. by rewrite app_nil_r.
Qed.

Lemma delete_entries_walks {S} `{Sys S} rec path names :
  strlen path < PATH_MAX ->
  (forall p, strlen p < PATH_MAX -> keeps (walks p) (rec p)) ->
  keeps (walks path) (delete_entries (S:=S) rec path names).
Proof.
  intros Hp Hrec. induction names as [|n ns IH]; cbn [delete_entries];
    walk ltac:(idtac) ltac:(first [exact IH | idtac]).
  - exists (join_path path n). split; [by apply join_path_under|by left].
  - intros w r w' E. eapply walks_weaken; [by apply (join_path_under path n)|].
    eapply Hrec; [apply strlen_join_path|done].
  - exists (join_path path n). split; [by apply join_path_under|by right].
Qed.

(** The last call of a deletion that succeeds is the [rmdir] of its target. *)
Lemma delete_directory_walks {S} `{Sys S} fuel : forall path (w : world S) r w',
  strlen path < PATH_MAX ->
  delete_directory_recursively fuel path w = Ok (r, w') ->
  walks path w w' /\
  (r = 0 -> exists l, trace w' = trace w ++ l ++ [Did (CRmdir path) 0]).
Proof.
  induction fuel as [|fuel IH]; intros path w r w' Hp E; [done|].
  cbn [delete_directory_recursively] in E.
  apply act_bind_Ok in E as (dir & w1 & [s1 ->]%(do_call_Ok (COpendir path)) & E).
  destruct dir as [names|].
  2:{ inv_act. split; [|done]. split; [done|]. eexists. split; [done|].
      split; [|done]. constructor; [|done]. exists path. split; [done|by left]. }
  apply act_bind_Ok in E as (fin & w2 & He & E).
  apply (delete_entries_walks (delete_directory_recursively fuel) path names) in He;
    [|done|intros p Hlp v a v' Ev; by eapply IH].
  destruct He as (Hc & l & Hl & [Hu Ho]). cbn [conn trace] in *.
  apply act_bind_Ok in E as ([] & w3 & [s3 ->]%(do_call_Ok (CClosedir path)) & E).
  destruct fin.
  - apply (do_call_Ok (CRmdir path)) in E as [s4 ->]. cbn [conn trace].
    split.
    + split; [done|]. eexists. split; [by rewrite Hl, <- !app_assoc|].
      split; [|rewrite !total_app; cbn [total fold_right opens closes]; lia].
      apply Forall_app. split; [|apply Forall_app; split; [done|]];
        repeat constructor; exists path; (split; [done|by left]).
    + intros ->. eexists (Did (COpendir path) (Some names) :: l ++ [Did (CClosedir path) tt]).
      rewrite Hl. simpl. by rewrite <- !app_assoc.
  - inv_act. split; [|done]. split; [done|]. eexists. split; [by rewrite Hl, <- !app_assoc|].
    split; [|rewrite !total_app; cbn [total fold_right opens closes]; lia].
    apply Forall_app. split; [|apply Forall_app; split; [done|]];
      repeat constructor; exists path; (split; [done|by left]).
Qed.

(** ** When it ends *)

(** [path] has at most [n] levels of directories below it, whatever else
    happens to the file system meanwhile. *)
Fixpoint shallow {S} `{Sys S} (n : nat) (path : string) : Prop :=
  forall s names name, fst (sys_step (COpendir path) s) = Some names -> name ∈ names ->
    is_dot_entry name = false ->
    forall s' st, fst (sys_step (CLstat (join_path path name)) s') = Some st ->
      S_ISDIR (st_mode st) = true ->
      match n with
      | O => False
      | Datatypes.S n' => shallow n' (join_path path name)
      end.

(** A loop whose recursive calls return, returns. *)
Lemma delete_entries_returns {S} `{Sys S} (rec : string -> act S Z) path names :
  (forall name s st w, name ∈ names -> is_dot_entry name = false ->
     fst (sys_step (CLstat (join_path path name)) s) = Some st -> S_ISDIR (st_mode st) = true ->
     exists r w', rec (join_path path name) w = Ok (r, w')) ->
  forall w, exists b w', delete_entries rec path names w = Ok (b, w').
Proof.
  induction names as [|n ns IH]; intros Hrec w; cbn [delete_entries]; [by eexists _, _|].
  assert (forall v, exists b w', delete_entries rec path ns v = Ok (b, w')) as IH'
    by (apply IH; intros; eapply Hrec; [by right|done..]).
  destruct (is_dot_entry n) eqn:En; [done|].
  destruct (sys_step (CLstat (join_path path n)) (sys w)) as [st s] eqn:E.
  erewrite act_bind_run; [|exact (do_call_run (CLstat _) w _ _ E)].
  destruct st as [st|]; [|done]. destruct (S_ISDIR (st_mode st)) eqn:Ed.
  - destruct (Hrec n (sys w) st (World (conn w) s (handles w)
      (trace w ++ [Did (CLstat (join_path path n)) (Some st)]))) as (r & w2 & Hr);
      [by left|done|by rewrite E|done|].
    erewrite act_bind_run; [|exact Hr]. destruct (r =? 0); [done|by eexists _, _].
  - match goal with |- exists b w', (_ ≫= _) ?v = _ =>
      destruct (sys_step (CUnlink (join_path path n)) (sys v)) as [u s2] eqn:E2;
      erewrite act_bind_run; [|exact (do_call_run (CUnlink _) v _ _ E2)]
    end. done.
Qed.

Lemma delete_directory_returns {S} `{Sys S} n : forall fuel path (w : world S),
  shallow n path -> (n < fuel)%nat ->
  exists r w', delete_directory_recursively fuel path w = Ok (r, w').
Proof.
  induction n as [|n IH]; intros fuel path w Hs Hf; (destruct fuel as [|fuel]; [lia|]);
    cbn [delete_directory_recursively];
    (destruct (sys_step (COpendir path) (sys w)) as [dir s] eqn:E);
    (erewrite act_bind_run; [|exact (do_call_run (COpendir path) w _ _ E)]);
    (destruct dir as [names|]; [|by eexists _, _]);
    set (w1 := World _ _ _ _);
    (destruct (delete_entries_returns (delete_directory_recursively fuel) path names) with (w := w1)
      as (b & w2 & Hb); [|erewrite act_bind_run; [|exact Hb];
        destruct (sys_step (CClosedir path) (sys w2)) as [[] s3] eqn:E3;
        erewrite act_bind_run; [|exact (do_call_run (CClosedir path) w2 _ _ E3)];
        destruct b; [|by eexists _, _]; set (w3 := World _ _ _ _);
        destruct (sys_step (CRmdir path) (sys w3)) as [r s4] eqn:E4;
        eexists _, _; exact (do_call_run (CRmdir path) w3 _ _ E4)]);
    intros name s' st v Hn Hd Hl Hi;
    pose proof (Hs (sys w) names name ltac:(by rewrite E) Hn Hd s' st Hl Hi) as Hnext; [done|].
  apply IH; [exact Hnext|lia].
Qed.

(** ** What a whole command does *)

(** Events that remove something, and those that did remove [t]. *)
Definition removes (e : event) : option string :=
  match e with Did (CUnlink p) _ | Did (CRmdir p) _ => Some p | _ => None end.

Definition deleted (t : string) (e : event) : bool :=
  match e with
  | Did (CUnlink p) r | Did (CRmdir p) r => String.eqb p t && (r =? 0)
  | _ => false
  end.

Definition wrote (line : string) (e : event) : bool :=
  match e with Did (CBevWrite _ bytes) _ => String.eqb bytes line | _ => false end.

Definition success_line : string := control_line FTP_STATUS_FILE_ACTION_OK "Delete successful.".

Record dele_run (a : dele_args_t) (t : string) (l : list event) : Prop := {
  dele_removes : forall e p, e ∈ l -> removes e = Some p ->
    is_path_safe (Some t) = true /\ under t p /\ (recursive a = false -> p = t);
  dele_closed : total opens l = total closes l;
  dele_success : existsb (wrote success_line) l = true -> existsb (deleted t) l = true;
}.

Lemma send_trace {S} `{Sys S} status text (w : world S) u w' :
  send_control_message status text w = Ok (u, w') ->
  exists l, trace w' = trace w ++ l /\
    (l = [] \/ exists h, l = [Did (CBevWrite h (control_line status text)) tt]).
Proof.
  unfold send_control_message. intros E. apply act_bind_Ok in E as (b & w1 & [= <- <-] & E).
  destruct (bev (conn w)) as [h|].
  - unfold bufferevent_write in E. inv_act.
    destruct u. eexists. split; [done|]. right. by eexists.
  - inv_act. exists []. rewrite app_nil_r. auto.
Qed.

Section DeleRun.
Context {S : Type} `{Sys S} (a : dele_args_t) (t : string).
#[local] Set Default Proof Using "Type*".

Lemma dele_run_app l l' : dele_run a t l -> dele_run a t l' -> dele_run a t (l ++ l').
Proof.
  intros [R1 C1 W1] [R2 C2 W2]. split.
  - intros e p [He|He]%elem_of_app; eauto.
  - rewrite !total_app. lia.
  - rewrite !existsb_app. intros [Hw|Hw]%orb_true_iff; apply orb_true_iff; auto.
Qed.

(** Events that remove, open and close nothing and are not the success line. *)
Lemma dele_run_quiet l :
  Forall (fun e => removes e = None /\ opens e = 0 /\ closes e = 0 /\ wrote success_line e = false) l ->
  dele_run a t l.
Proof.
  intros Hl. split.
  - intros e p He Hp. rewrite Forall_forall in Hl. destruct (Hl e He). congruence.
  - induction Hl as [|e l (_ & Ho & Hc & _) _ IH]; [done|].
    change (opens e + total opens l = closes e + total closes l). lia.
  - induction Hl as [|e l (_ & _ & _ & Hw) _ IH]; [done|]. cbn [existsb]. rewrite Hw. simpl.
    intros E. rewrite (IH E). apply orb_true_r.
Qed.

Lemma reply_run status text (w : world S) u w' :
  send_control_message status text w = Ok (u, w') ->
  String.eqb (control_line status text) success_line = false ->
  exists l, trace w' = trace w ++ l /\ dele_run a t l.
Proof.
  intros (l & Hl & Hc)%send_trace Hne. exists l. split; [done|]. apply dele_run_quiet.
  destruct Hc as [->|[h ->]]; [done|]. by repeat constructor.
Qed.

(** The reply to a deletion that succeeded. *)
Lemma success_run l (w w1 : world S) u w' :
  send_control_message FTP_STATUS_FILE_ACTION_OK "Delete successful." w1 = Ok (u, w') ->
  trace w1 = trace w ++ l -> dele_run a t l -> existsb (deleted t) l = true ->
  exists l, trace w' = trace w ++ l /\ dele_run a t l.
Proof.
  intros (l' & Hl' & Hc)%send_trace Hl Hr Hd. exists (l ++ l'). split; [by rewrite Hl', Hl, app_assoc|].
  destruct Hc as [->|[h ->]]; [by rewrite app_nil_r|]. destruct Hr as [R C W]. split.
  - intros e p [He| ->%list_elem_of_singleton]%elem_of_app; [eauto|done].
  - rewrite !total_app. cbn [total fold_right opens closes]. lia.
  - intros _. by rewrite existsb_app, Hd.
Qed.

Lemma walk_dele_run l :
  is_path_safe (Some t) = true -> recursive a = true -> walk_run t l -> dele_run a t l.
Proof.
  intros Hs Hr [Hu Hc]. rewrite Forall_forall in Hu. split; [|done|].
  - intros e p He Hp. destruct (Hu e He) as (q & Hq & Huq).
    split; [done|]. split; [|congruence]. destruct e as [[]]; simplify_eq/=; done.
  - intros Hw. apply existsb_exists in Hw as (e & He%list_elem_of_In & Hw).
    destruct (Hu e He) as (q & Hq & _). by destruct e as [[]].
Qed.

(** The deletion itself. *)
Lemma delete_stage fuel isdir (w : world S) r w' :
  (if isdir : bool then delete_directory_recursively fuel t else do_call (CUnlink t)) w = Ok (r, w') ->
  is_path_safe (Some t) = true -> strlen t < PATH_MAX -> (isdir = true -> recursive a = true) ->
  exists l, trace w' = trace w ++ l /\ dele_run a t l /\ (r = 0 -> existsb (deleted t) l = true).
Proof.
  intros E Hs Ht Hd. destruct isdir.
  - apply delete_directory_walks in E as ((_ & l & Hl & Hr) & Hok); [|done].
    exists l. split; [done|]. split; [by apply walk_dele_run; auto|].
    intros (l' & Hl')%Hok. rewrite Hl in Hl'. apply app_inv_head in Hl'. subst l.
    rewrite existsb_app. cbn [existsb deleted]. rewrite String.eqb_refl. apply orb_true_r.
  - apply (do_call_Ok (CUnlink t)) in E as [s ->]. eexists. split; [done|]. split.
    + split; [|done|done]. intros e p ->%list_elem_of_singleton [= <-]. split; [done|]. split; [by left|done].
    + intros ->. cbn [existsb deleted]. by rewrite String.eqb_refl.
Qed.

Lemma delete_target_run fuel st (w : world S) u w' :
  delete_target fuel t a st w = Ok (u, w') -> is_path_safe (Some t) = true -> strlen t < PATH_MAX ->
  exists l, trace w' = trace w ++ l /\ dele_run a t l.
Proof.
  intros E Hs Ht. unfold delete_target in E.
  destruct (S_ISDIR (st_mode st) && negb (recursive a)) eqn:Er; [by eapply reply_run; [exact E|]|].
  apply act_bind_Ok in E as (r & w1 & E1 & E).
  apply delete_stage in E1 as (l & Hl & Hr & Hok);
    [|done|done|by intros Hi; rewrite Hi in Er; destruct (recursive a)].
  assert (forall status text,
    String.eqb (control_line status text) success_line = false ->
    send_control_message status text w1 = Ok (u, w') ->
    exists l, trace w' = trace w ++ l /\ dele_run a t l) as Hreply.
  { intros status text Hne Es. destruct (reply_run _ _ _ _ _ Es Hne) as (l' & Hl' & Hr').
    exists (l ++ l'). split; [by rewrite Hl', Hl, app_assoc|]. by apply dele_run_app. }
  destruct (Z.eqb_spec r 0) as [->|]; cbn [negb] in E.
  - eapply success_run; [exact E|done|done|by apply Hok].
  - destruct (force a); (eapply Hreply; [|exact E]); by vm_compute.
Qed.
End DeleRun.

(** ** Properties *)

(** C12: whatever DELE removes is its target, and with -r also what lies below
    it, and only when the target passed the path filter; every directory it
    opens it closes; and "Delete successful." is only ever written after the
    target itself was removed. *)
Theorem dele_removes_below {S} `{Sys S} fuel cmd a t (w : world S) u w' :
  parse_dele_params cmd = Some a -> target a = Some t -> strlen t < PATH_MAX ->
  handle_dele_command fuel cmd w = Ok (u, w') ->
  exists l, trace w' = trace w ++ l /\ dele_run a t l.
Proof.
  intros Hc Ht Hlen E. unfold handle_dele_command in E. rewrite Hc, Ht in E.
  destruct (is_path_safe (Some t)) eqn:Hs; cbn [negb] in E; [|by eapply reply_run; [exact E|]].
  cbn [nonnull] in E. apply act_bind_Ok in E as (p & w0 & [= <- <-] & E).
  apply act_bind_Ok in E as (st & w1 & [s ->]%(do_call_Ok (CStat t)) & E).
  assert (exists l, trace w' = (trace w ++ [Did (CStat t) st]) ++ l /\ dele_run a t l) as (l & Hl & Hr).
  { destruct st as [st|]; [by eapply delete_target_run in E|].
    destruct (force a); (eapply (reply_run _ _ _ _ (World _ _ _ _)) in E; [exact E|by vm_compute]). }
  exists ([Did (CStat t) st] ++ l). split; [by rewrite app_assoc|].
  apply dele_run_app; [|done]. apply dele_run_quiet. by repeat constructor.
Qed.

Definition dele_world : world small :=
  World (set_bev (Some 0%nat) zero_connection) sample_small (Ledger 1 {[0%nat := KControlBev]}) [].

Definition dele_box : cftp_command_t := Command "DELE" ["-r"; "box"]%string 2.

Example dele_removes_below_witness :
  exists u w', handle_dele_command 3 dele_box dele_world = Ok (u, w') /\
    exists l, trace w' = l /\ dele_run (DeleArgs true false (Some "box"%string)) "box" l.
Proof.
  destruct (handle_dele_command 3 dele_box dele_world) as [[u w']| |] eqn:E; [|vm_compute in E; discriminate E..].
  exists u, w'. split; [reflexivity|].
  destruct (dele_removes_below 3 dele_box (DeleArgs true false (Some "box"%string)) "box" dele_world u w')
    as (l & Hl & Hr); [reflexivity|reflexivity|reflexivity|exact E|].
  exists l. split; [exact Hl|exact Hr].
Defined.

(** DELE of a directory whose levels of subdirectories are bounded
    returns, whatever else happens to the file system while it runs. *)
Theorem dele_terminates {S} `{Sys S} n fuel path (w : world S) :
  shallow n path -> (n < fuel)%nat ->
  exists r w', delete_directory_recursively fuel path w = Ok (r, w').
Proof. apply delete_directory_returns. Qed.

(** A directory that never changes, with one subdirectory. *)
Definition dir_stat : stat_t := Stat 0x41ed 2 1000 1000 4096 1700000000.
Definition file_stat : stat_t := Stat 0x81a4 1 1000 1000 1 1700000000.

Definition frozen_tree : Sys small := fun c s =>
  match c as c return reply c * small with
  | COpendir p =>
      (if String.eqb p "box" then Some ["."; "a"; "sub"] else if String.eqb p "box/sub" then Some ["x"]
       else None, s)%string
  | CLstat p => (Some (if String.eqb p "box/sub" then dir_stat else file_stat), s)
  | c => small_sys c s
  end.

Example dele_terminates_witness :
  exists r w', @delete_directory_recursively small frozen_tree 2 "box" dele_world = Ok (r, w').
Proof.
  apply (@dele_terminates small frozen_tree 1); [|lia].
  intros s names name [= <-] Hn Hd s' st.
  apply elem_of_cons in Hn as [->|Hn]; [discriminate Hd|].
  apply elem_of_cons in Hn as [->|Hn]; [intros [= <-] Hi; by vm_compute in Hi|].
  apply elem_of_cons in Hn as [->|Hn]; [|by apply elem_of_nil in Hn].
  intros _ _ s1 names1 name1 [= <-] Hn1 Hd1 s2 st2.
  apply elem_of_cons in Hn1 as [->|Hn1]; [|by apply elem_of_nil in Hn1].
  intros [= <-] Hi. by vm_compute in Hi.
Defined.

(** *** Directories nested to the longest path

    [delete_directory_recursively] keeps a directory stream open at every
    level, so the environment of the following theorem has descriptors to run
    out of: [opendir] takes one, fails when none is left, and [closedir]
    gives it back.  The directories are [root], [root/sub], [root/sub/sub]
    and so on, [depth] levels of them, with nothing else in them. *)
Fixpoint nest (root sub : string) (k : nat) : string :=
  match k with O => root | Datatypes.S k' => join_path (nest root sub k') sub end.

Class Nested (S : Type) `{Sys S} (root sub : string) (depth : nat) := {
  standing : S -> Prop;   (* the directories are there *)
  spare : S -> nat;       (* descriptors the process may still open *)
  nested_stat : forall s, standing s -> exists st s',
    sys_step (CStat root) s = (Some st, s') /\ S_ISDIR (st_mode st) = true /\
    standing s' /\ spare s' = spare s;
  nested_lstat : forall k s, (k <= depth)%nat -> standing s -> exists st s',
    sys_step (CLstat (nest root sub k)) s = (Some st, s') /\ S_ISDIR (st_mode st) = true /\
    standing s' /\ spare s' = spare s;
  nested_opendir : forall k s n, (k <= depth)%nat -> standing s -> spare s = Datatypes.S n ->
    exists names s', sys_step (COpendir (nest root sub k)) s = (Some names, s') /\
    sub ∈ names /\ Forall (fun name => is_dot_entry name = true \/ name = sub) names /\
    standing s' /\ spare s' = n;
  nested_opendir_full : forall k s, (k <= depth)%nat -> standing s -> spare s = 0%nat -> exists s',
    sys_step (COpendir (nest root sub k)) s = (None, s') /\ standing s' /\ spare s' = 0%nat;
  nested_closedir : forall k s u s', (k <= depth)%nat -> standing s ->
    sys_step (CClosedir (nest root sub k)) s = (u, s') ->
    standing s' /\ spare s' = Datatypes.S (spare s);
}.

Section Nested.
Context {S : Type} {sys_S : Sys S} {root sub : string} {depth : nat}.
Context {nested : Nested S root sub depth}.
Context (Hlen : strlen root + Z.of_nat depth * (1 + strlen sub) = PATH_MAX - 1).
Context (Hsub : is_dot_entry sub = false).

(** Joining a name to a path of 4095 bytes gives back the path. *)
Lemma join_longest path name : strlen path = PATH_MAX - 1 -> join_path path name = path.
Proof using.
  clear. intros Hp. unfold join_path, snprintf_s, strlen in *. rewrite strtake_app.
  rewrite (strtake_all _ path) by (unfold PATH_MAX in *; lia).
  replace (Z.to_nat PATH_MAX - 1 - String.length path)%nat with 0%nat by (unfold PATH_MAX in *; lia).
  apply string_app_nil_r.
Qed.

Lemma strlen_nest k :
  (k <= depth)%nat -> strlen (nest root sub k) = strlen root + Z.of_nat k * (1 + strlen sub).
Proof using Hlen.
  induction k as [|k IH]; intros Hk; [cbn [nest]; lia|]. cbn [nest].
  assert (strlen (nest root sub k) + (1 + strlen sub) <= PATH_MAX - 1) as Hb.
  { rewrite IH by lia. unfold strlen in *. nia. }
  unfold join_path, snprintf_s. rewrite strtake_all.
  - unfold strlen in *. rewrite !length_string_app. cbn [String.length]. lia.
  - unfold strlen, PATH_MAX in *. rewrite !length_string_app. cbn [String.length]. lia.
Qed.

(** So every level, however deep, is one of the first [depth]. *)
Lemma nest_level k : exists k', (k' <= depth)%nat /\ nest root sub k = nest root sub k'.
Proof using Hlen.
  induction k as [|k (k' & Hk' & IH)]; [exists 0%nat; split; [lia|done]|]. cbn [nest]. rewrite IH.
  destruct (decide (k' = depth)) as [->|].
  - exists depth. split; [done|]. apply join_longest. rewrite strlen_nest by done. lia.
  - exists (Datatypes.S k'). split; [lia|done].
Qed.

(** What a failed descent leaves: the environment as it was, [n] streams
    opened and closed, nothing removed. *)
Record descent (n : nat) (w w' : world S) (l : list event) : Prop := {
  descent_conn : conn w' = conn w;
  descent_handles : handles w' = handles w;
  descent_trace : trace w' = trace w ++ l;
  descent_standing : standing (sys w');
  descent_spare : spare (sys w') = spare (sys w);
  descent_opens : total opens l = Z.of_nat n;
  descent_closes : total closes l = Z.of_nat n;
  descent_removes : Forall (fun e => removes e = None) l;
}.

Definition descends (fuel n k : nat) : Prop :=
  forall w, standing (sys w) -> spare (sys w) = n ->
  exists w' l, delete_directory_recursively fuel (nest root sub k) w = Ok (-1, w') /\ descent n w w' l.

Lemma nested_entries fuel n k names :
  descends fuel n (Datatypes.S k) ->
  sub ∈ names -> Forall (fun name => is_dot_entry name = true \/ name = sub) names ->
  forall w, standing (sys w) -> spare (sys w) = n ->
  exists w' l, delete_entries (delete_directory_recursively fuel) (nest root sub k) names w
    = Ok (false, w') /\ descent n w w' l.
Proof using Type*.
  intros Hrec Hin Hall w Hw Hn. induction Hall as [|name names [Hd| ->] _ IH]; cbn [delete_entries].
  - by apply elem_of_nil in Hin.
  - rewrite Hd. apply IH. apply elem_of_cons in Hin as [Heq|]; [congruence|done].
  - rewrite Hsub. change (join_path (nest root sub k) sub) with (nest root sub (Datatypes.S k)).
    destruct (nest_level (Datatypes.S k)) as (k' & Hk' & Ek).
    destruct (nested_lstat k' (sys w) Hk' Hw) as (st & s & Es & Hdir & Hst & Hsp).
    rewrite <- Ek in Es.
    erewrite act_bind_run; [|exact (do_call_run (CLstat _) w _ _ Es)]. cbv beta iota. rewrite Hdir.
    destruct (Hrec (World (conn w) s (handles w) (trace w ++ [Did (CLstat (nest root sub (Datatypes.S k))) (Some st)])))
      as (w' & l & E & [D1 D2 D3 D4 D5 D6 D7 D8]); [done|by rewrite <- Hn|].
    erewrite act_bind_run; [|exact E]. cbv beta iota. change (-1 =? 0) with false. cbv iota.
    exists w', (Did (CLstat (nest root sub (Datatypes.S k))) (Some st) :: l). split; [done|].
    split; try done.
    + rewrite D3. cbn [trace]. by rewrite <- app_assoc.
    + by rewrite D5, <- Hsp.
    + by constructor.
Qed.

Lemma nested_descends n : forall fuel k, (n < fuel)%nat -> descends fuel n k.
Proof using Type*.
  induction n as [|n IH]; intros fuel k Hf w Hw Hn; (destruct fuel as [|fuel]; [lia|]);
    destruct (nest_level k) as (k' & Hk' & Ek); cbn [delete_directory_recursively].
  - destruct (nested_opendir_full k' (sys w) Hk' Hw Hn) as (s & Es & Hst & Hsp). rewrite <- Ek in Es.
    erewrite act_bind_run; [|exact (do_call_run (COpendir _) w _ _ Es)].
    eexists _, [Did (COpendir (nest root sub k)) None]. split; [reflexivity|].
    split; try done; [by rewrite Hn|by repeat constructor].
  - destruct (nested_opendir k' (sys w) n Hk' Hw Hn) as (names & s & Es & Hin & Hall & Hst & Hsp).
    rewrite <- Ek in Es. erewrite act_bind_run; [|exact (do_call_run (COpendir _) w _ _ Es)].
    cbv beta iota. set (w1 := World _ _ _ _).
    destruct (nested_entries fuel n k names (IH fuel (Datatypes.S k) ltac:(lia)) Hin Hall w1)
      as (w2 & l & E & [D1 D2 D3 D4 D5 D6 D7 D8]); [done..|].
    erewrite act_bind_run; [|exact E]. cbv beta.
    destruct (sys_step (CClosedir (nest root sub k)) (sys w2)) as [u s2] eqn:Ec.
    erewrite act_bind_run; [|exact (do_call_run (CClosedir _) w2 _ _ Ec)].
    rewrite Ek in Ec. destruct (nested_closedir k' _ _ _ Hk' D4 Ec) as [Hst2 Hsp2].
    eexists _, (Did (COpendir (nest root sub k)) (Some names) :: l ++ [Did (CClosedir (nest root sub k)) u]).
    split; [reflexivity|]. split; cbn [conn handles trace sys]; try done.
    + rewrite D3. unfold w1. cbn [trace]. by rewrite <- !app_assoc.
    + rewrite Hsp2, D5. unfold w1. cbn [sys]. congruence.
    + change (opens (Did (COpendir (nest root sub k)) (Some names)) + total opens (l ++ [Did (CClosedir (nest root sub k)) u]) = Z.of_nat (Datatypes.S n)).
      rewrite total_app, D6. cbn [total fold_right opens]. lia.
    + change (closes (Did (COpendir (nest root sub k)) (Some names)) + total closes (l ++ [Did (CClosedir (nest root sub k)) u]) = Z.of_nat (Datatypes.S n)).
      rewrite total_app, D7. cbn [total fold_right closes]. lia.
    + constructor; [done|]. apply Forall_app. split; [done|]. by repeat constructor.
Qed.
End Nested.

(** C31: DELE -r of directories nested until a path has 4095 bytes never
    deletes them.  Joining a name to such a path gives back the path itself,
    so the recursion opens the same last directory again and again until the
    process has no descriptor left; then it closes all it has opened, removes
    nothing and answers 550 "Failed to delete.", however many descriptors
    there were. *)
Theorem dele_runs_out_of_descriptors {S} {sys_S : Sys S} {root sub depth} `{!Nested S root sub depth}
    fuel (w : world S) h :
  strlen root + Z.of_nat depth * (1 + strlen sub) = PATH_MAX - 1 -> is_dot_entry sub = false ->
  parse_dele_params (Command "DELE" ["-r"; root]%string 2) = Some (DeleArgs true false (Some root)) ->
  is_path_safe (Some root) = true ->
  bev (conn w) = Some h -> live (handles w) !! h = Some KControlBev ->
  standing (sys w) -> (spare (sys w) < fuel)%nat ->
  exists w' st l,
    handle_dele_command fuel (Command "DELE" ["-r"; root]%string 2) w = Ok (tt, w') /\
    trace w' = trace w ++ Did (CStat root) (Some st) :: l ++
      [Did (CBevWrite h (control_line FTP_STATUS_FILE_ACTION_NOT_TAKEN_PERM "Failed to delete.")) tt] /\
    total opens l = Z.of_nat (spare (sys w)) /\ total closes l = Z.of_nat (spare (sys w)) /\
    Forall (fun e => removes e = None) l.
Proof.
  intros Hlen Hsub Hparse Hsafe Hbev Hlive Hw Hf.
  destruct (nested_stat (sys w) Hw) as (st & s & Es & Hdir & Hst & Hsp).
  set (w1 := World (conn w) s (handles w) (trace w ++ [Did (CStat root) (Some st)])).
  destruct (nested_descends Hlen Hsub (spare s) fuel 0 ltac:(lia) w1 Hst eq_refl)
    as (w2 & l & E & [D1 D2 D3 D4 D5 D6 D7 D8]).
  cbn [nest] in E.
  assert (exists w', send_control_message FTP_STATUS_FILE_ACTION_NOT_TAKEN_PERM "Failed to delete." w2
    = Ok (tt, w') /\ trace w' = trace w2 ++
      [Did (CBevWrite h (control_line FTP_STATUS_FILE_ACTION_NOT_TAKEN_PERM "Failed to delete.")) tt])
    as (w' & Ew & Tw).
  { destruct (send_control_run w2 h FTP_STATUS_FILE_ACTION_NOT_TAKEN_PERM "Failed to delete.")
      as (s' & ->); [by rewrite D1|by rewrite D2|]. by eexists. }
  exists w', st, l. split.
  - unfold handle_dele_command. rewrite Hparse. cbn [target]. rewrite Hsafe. cbn [negb nonnull].
    erewrite act_bind_run; [|reflexivity].
    erewrite act_bind_run; [|exact (do_call_run (CStat root) w _ _ Es)]. cbv beta iota.
    unfold delete_target. cbn [recursive negb force]. rewrite Hdir. cbn [andb].
    erewrite act_bind_run; [|exact E]. exact Ew.
  - rewrite Tw, D3, <- Hsp. unfold w1. cbn [trace].
    split; [by rewrite <- !app_assoc|]. done.
Qed.

(** A system with as many spare descriptors as its number, where every path
    is a directory whose one entry is "d". *)
Definition deep_sys : Sys (nat * small) := fun c s =>
  match c as c return reply c * (nat * small) with
  | CStat _ | CLstat _ => (Some dir_stat, s)
  | COpendir _ =>
      match s.1 with
      | O => (None, s)
      | Datatypes.S n => (Some [".."; "d"; "."]%string, (n, s.2))
      end
  | CClosedir _ => (tt, (Datatypes.S s.1, s.2))
  | c => let '(r, s') := small_sys c s.2 in (r, (s.1, s'))
  end.

Definition deep_nested : @Nested (nat * small) deep_sys "d" "d" 2047.
Proof.
  refine (@Build_Nested _ deep_sys "d" "d" 2047 (fun _ => True) fst _ _ _ _ _).
  - intros s _. by exists dir_stat, s.
  - intros k s _ _. by exists dir_stat, s.
  - intros k [m s] n _ _ Hn. simpl in Hn. subst m. exists [".."; "d"; "."]%string, (n, s).
    split; [done|]. split; [right; left|]. split; [|done].
    repeat constructor; ((left; reflexivity) || (right; reflexivity)).
  - intros k [m s] _ _ Hn. simpl in Hn. subst m. by exists (0%nat, s).
  - intros k [m s] u s' _ _ [= <- <-]. done.
Defined.

(** Sixty spare descriptors and "DELE -r d". *)
Example dele_runs_out_of_descriptors_witness :
  let w := World (conn dele_world) (60%nat, sys dele_world) (handles dele_world) [] in
  exists w' st l,
    @handle_dele_command _ deep_sys 61 (Command "DELE" ["-r"; "d"]%string 2) w = Ok (tt, w') /\
    trace w' = Did (CStat "d") (Some st) :: l ++
      [Did (CBevWrite 0 ("550 Failed to delete." +:+ crlf)) tt] /\
    total opens l = 60 /\ total closes l = 60 /\ Forall (fun e => removes e = None) l.
Proof.
  exact (@dele_runs_out_of_descriptors _ deep_sys "d" "d" 2047 deep_nested 61
    (World (conn dele_world) (60%nat, sys dele_world) (handles dele_world) []) 0
    ltac:(reflexivity) ltac:(reflexivity) ltac:(reflexivity) ltac:(reflexivity)
    ltac:(reflexivity) ltac:(reflexivity) I ltac:(simpl; lia)).
Defined.
