(* ===== verification/FileTree.v ===== *)
(** * DELE on a tree of files (src/actions/dele.c)

    What the recursive deletion does to the files themselves.  A tree maps
    each path to whether it is a directory; [TreeFS] states what the calls of
    the deletion do to it when nobody else uses the files and every removal is
    permitted.  The reference is [prune]: the tree without a path and
    everything below it. *)

From S2P Require Import Prelude CString CommandParser Config Connection System SmallSystem Control.
From S2P Require Import Security Dele.
From stdpp Require Import options.

Local Open Scope Z_scope.

(** ** Trees *)

(** An entry of a directory. *)
Definition entry (dir name : string) : string := dir +:+ ("/" +:+ name).

Definition no_slash (s : string) : bool := all_chars (fun c => negb (Ascii.eqb c "/")) s.

#[export] Instance under_dec dir p : Decision (under dir p).
Proof.
  destruct (decide (p = dir)) as [->|Hne]; [by left; left|].
  destruct (String.prefix (dir +:+ "/") p) eqn:E.
  - left. right. apply prefix_true in E as [b ->]. exists b. by rewrite string_app_assoc.
  - right. intros [?|[r ->]]; [done|].
    enough (String.prefix (dir +:+ "/") (dir +:+ ("/" +:+ r)) = true) by congruence.
    apply prefix_true. exists r. by rewrite string_app_assoc.
Defined.

Definition prune (path : string) (t : gmap string bool) : gmap string bool :=
  filter (fun kv => ~ under path kv.1) t.

(** Paths are at most as long as the system accepts, a file has nothing below
    it, what lies between a directory and a path below it are directories,
    and neither the entries "." and ".." nor empty names are in the tree. *)
Record wf_tree (t : gmap string bool) : Prop := {
  wf_length : forall p, is_Some (t !! p) -> strlen p < PATH_MAX;
  wf_file : forall p name, is_Some (t !! p) -> is_Some (t !! entry p name) -> t !! p = Some true;
  wf_between : forall p name r, is_Some (t !! p) -> no_slash name = true ->
    is_Some (t !! entry (entry p name) r) -> t !! entry p name = Some true;
  wf_entry : forall p name, is_Some (t !! entry p name) ->
    is_dot_entry name = false /\ name <> EmptyString;
}.

(** The calls that only look, or write to the client. *)
Definition quiet (c : call) : bool :=
  match c with
  | COpendir _ | CClosedir _ | CLstat _ | CStat _ | CBevWrite _ _ => true
  | _ => false
  end.

(** The files behind the calls.  [readdir] may return an entry more than
    once; symbolic links are files of the tree and no target of DELE. *)
Class TreeFS (S : Type) `{Sys S} := {
  tree : S -> gmap string bool;
  tree_quiet : forall c s, quiet c = true -> tree (snd (sys_step c s)) = tree s;
  tree_opendir : forall p s, tree s !! p = Some true ->
    exists names, fst (sys_step (COpendir p) s) = Some names /\
      forall name, is_dot_entry name = false ->
        (name ∈ names <-> no_slash name = true /\ is_Some (tree s !! entry p name));
  tree_lstat : forall p name s, tree s !! p = Some true ->
    no_slash name = true -> is_dot_entry name = false -> name <> EmptyString ->
    (fun st => S_ISDIR (st_mode st)) <$> fst (sys_step (CLstat (entry p name)) s) =
      tree s !! entry p name;
  tree_stat : forall p s d, tree s !! p = Some d ->
    (fun st => S_ISDIR (st_mode st)) <$> fst (sys_step (CStat p) s) = Some d;
  tree_unlink : forall p s, tree s !! p = Some false ->
    fst (sys_step (CUnlink p) s) = 0 /\ tree (snd (sys_step (CUnlink p) s)) = delete p (tree s);
  tree_rmdir : forall p s, tree s !! p = Some true ->
    (forall name, no_slash name = true -> tree s !! entry p name = None) ->
    fst (sys_step (CRmdir p) s) = 0 /\ tree (snd (sys_step (CRmdir p) s)) = delete p (tree s);
}.

(** ** Paths and entries *)

Lemma under_entry dir p : under dir p <-> p = dir \/ exists r, p = entry dir r.
Proof. done. Qed.

Lemma entry_assoc p name r : entry (entry p name) r = entry p (entry name r).
Proof. unfold entry. by rewrite !string_app_assoc. Qed.

Lemma app_inj_l (a b c : string) : a +:+ b = a +:+ c -> b = c.
Proof. induction a as [|x a IH]; simpl; [done|]. intros [= E]. by apply IH. Qed.

Lemma entry_inj p a b : entry p a = entry p b -> a = b.
Proof. unfold entry. intros E%app_inj_l. by injection E. Qed.

Lemma no_slash_app a b : no_slash (a +:+ b) = no_slash a && no_slash b.
Proof. apply all_chars_app. Qed.

Lemma no_slash_entry p name : no_slash (entry p name) = false.
Proof. unfold entry. rewrite no_slash_app. simpl. apply andb_false_r. Qed.

Lemma length_entry p name : strlen (entry p name) = strlen p + 1 + strlen name.
Proof. unfold entry, strlen. rewrite !length_string_app. simpl. lia. Qed.

(** The first component of a path. *)
Lemma first_component r :
  exists name, no_slash name = true /\ (r = name \/ exists r', r = entry name r').
Proof.
  induction r as [|c r (name & Hn & Hr)]; [exists EmptyString; auto|].
  destruct (Ascii.eqb_spec c "/") as [->|Hc].
  - exists EmptyString. split; [done|]. right. by exists r.
  - exists (String c name). split.
    + unfold no_slash in *. simpl. rewrite Hn. destruct (Ascii.eqb_spec c "/"); [done|]. done.
    + destruct Hr as [->|[r' ->]]; [by left|]. right. by exists r'.
Qed.

(** A proper descendant of a directory is below one of its entries. *)
Lemma below_entry p r :
  exists name, no_slash name = true /\ under (entry p name) (entry p r).
Proof.
  destruct (first_component r) as (name & Hn & [->|[r' ->]]); exists name; (split; [done|]).
  - by left.
  - right. exists r'. by rewrite <- entry_assoc.
Qed.

Lemma entry_not_under p name : ~ under (entry p name) p.
Proof.
  rewrite under_entry. intros [E|[r E]]; apply (f_equal strlen) in E;
    rewrite !length_entry in E; unfold strlen in E; lia.
Qed.

(** Different entries have disjoint subtrees. *)
Lemma entries_disjoint p a b :
  no_slash b = true -> under (entry p a) (entry p b) -> a = b.
Proof.
  rewrite under_entry. intros Hb [E|[r E]]; [by apply entry_inj in E|].
  rewrite entry_assoc in E. apply entry_inj in E as ->.
  by rewrite no_slash_entry in Hb.
Qed.

Lemma join_path_entry dir name :
  strlen (entry dir name) < PATH_MAX -> join_path dir name = entry dir name.
Proof.
  intros Hl. unfold join_path, snprintf_s, strlen, entry in *. apply strtake_all.
  unfold PATH_MAX in *. lia.
Qed.

(** ** Removing parts of a tree *)

(** [t'] is [t] without some subtrees. *)
Definition cut (t t' : gmap string bool) (gone : string -> Prop) : Prop :=
  (forall p, gone p -> t' !! p = None) /\ (forall p, ~ gone p -> t' !! p = t !! p) /\
  (forall p q, gone p -> under p q -> gone q).

Lemma prune_lookup path t p :
  prune path t !! p = if decide (under path p) then None else t !! p.
Proof.
  unfold prune. destruct (decide (under path p)) as [Hu|Hu].
  - apply map_lookup_filter_None. right. intros x _ Hx. by apply Hx.
  - destruct (t !! p) as [d|] eqn:E.
    + by apply map_lookup_filter_Some.
    + apply map_lookup_filter_None. by left.
Qed.

Lemma cut_prune path t : cut t (prune path t) (under path).
Proof.
  split_and!; intros p; rewrite ?prune_lookup.
  - intros Hu. by rewrite decide_True.
  - intros Hu. by rewrite decide_False.
  - intros q Hp Hq. by eapply under_trans.
Qed.

Lemma cut_Some t t' gone p d : (forall p, Decision (gone p)) ->
  cut t t' gone -> t' !! p = Some d -> t !! p = Some d /\ ~ gone p.
Proof.
  intros Hdec (Hg & Hk & _) Hp. destruct (Hdec p) as [Hx|Hx].
  - by rewrite (Hg p Hx) in Hp.
  - by rewrite <- (Hk p Hx).
Qed.

Lemma wf_cut t t' gone : (forall p, Decision (gone p)) -> cut t t' gone -> wf_tree t -> wf_tree t'.
Proof.
  intros Hdec Hc [H1 H2 H3 H4]. pose proof Hc as (_ & Hk & Hup).
  assert (forall p, is_Some (t' !! p) -> is_Some (t !! p) /\ ~ gone p) as Hsub
    by (intros p [d [Hd Hn]%(cut_Some t t' gone)]; eauto).
  split.
  - intros p [Hp _]%Hsub. auto.
  - intros p name [Hp Hn]%Hsub [Hq _]%Hsub. rewrite Hk by done. by eapply H2.
  - intros p name r [Hp _]%Hsub Hs [Hq Hnq]%Hsub.
    rewrite Hk; [by eapply H3|]. intros Hg. apply Hnq. eapply Hup; [exact Hg|]. right. by exists r.
  - intros p name [Hp _]%Hsub. by eapply H4.
Qed.

Lemma wf_prune path t : wf_tree t -> wf_tree (prune path t).
Proof. apply (wf_cut _ _ (under path)); [apply _|apply cut_prune]. Qed.

(** A file is a subtree of its own. *)
Lemma prune_file path t : wf_tree t -> t !! path = Some false -> prune path t = delete path t.
Proof.
  intros Hwf Hp. apply map_eq. intros q. rewrite prune_lookup.
  destruct (decide (q = path)) as [->|Hq].
  { rewrite lookup_delete_eq, decide_True; [done|by left]. }
  rewrite lookup_delete_ne by done. destruct (decide (under path q)) as [[?|[r ->]]|Hu]; [done| |done].
  fold (entry path r). destruct (t !! entry path r) eqn:E; [|done].
  assert (t !! path = Some true) by (apply (wf_file _ Hwf path r); eauto). congruence.
Qed.

(** A directory whose entries are all pruned, removed. *)
Definition below_names (path : string) (names : list string) (p : string) : Prop :=
  Exists (fun name => is_dot_entry name = false /\ under (entry path name) p) names.

#[export] Instance below_names_dec path names p : Decision (below_names path names p).
Proof. unfold below_names. apply _. Defined.

Definition prune_names (path : string) (names : list string) (t : gmap string bool) : gmap string bool :=
  filter (fun kv => ~ below_names path names kv.1) t.

Lemma prune_names_lookup path names t p :
  prune_names path names t !! p = if decide (below_names path names p) then None else t !! p.
Proof.
  unfold prune_names. destruct (decide (below_names path names p)) as [Hu|Hu].
  - apply map_lookup_filter_None. right. intros x _ Hx. by apply Hx.
  - destruct (t !! p) as [d|] eqn:E.
    + by apply map_lookup_filter_Some.
    + apply map_lookup_filter_None. by left.
Qed.

Lemma cut_prune_names path names t : cut t (prune_names path names t) (below_names path names).
Proof.
  split_and!; intros p; rewrite ?prune_names_lookup.
  - intros Hu. by rewrite decide_True.
  - intros Hu. by rewrite decide_False.
  - intros q Hp Hq. eapply Exists_impl; [exact Hp|]. intros name [Hd Hn].
    split; [done|]. by eapply under_trans.
Qed.

Lemma prune_names_nil path t : prune_names path [] t = t.
Proof.
  apply map_eq. intros p. rewrite prune_names_lookup, decide_False; [done|]. by intros ?%Exists_nil.
Qed.

Lemma prune_names_dot path name names t :
  is_dot_entry name = true -> prune_names path (name :: names) t = prune_names path names t.
Proof.
  intros Hd. apply map_eq. intros p. rewrite !prune_names_lookup.
  apply decide_ext. unfold below_names. rewrite Exists_cons. naive_solver congruence.
Qed.

Lemma prune_names_cons path name names t :
  is_dot_entry name = false ->
  prune_names path (name :: names) t = prune_names path names (prune (entry path name) t).
Proof.
  intros Hd. apply map_eq. intros p. rewrite !prune_names_lookup, prune_lookup.
  destruct (decide (below_names path (name :: names) p)) as [Hb|Hb];
    unfold below_names in Hb; rewrite Exists_cons in Hb;
    destruct (decide (below_names path names p)); try done.
  - rewrite decide_True; [done|]. naive_solver.
  - exfalso. naive_solver.
  - rewrite decide_False; [done|]. naive_solver.
Qed.

(** An entry that is gone already. *)
Lemma prune_missing p name t :
  wf_tree t -> is_Some (t !! p) -> no_slash name = true -> t !! entry p name = None ->
  prune (entry p name) t = t.
Proof.
  intros Hwf Hp Hs Hn. apply map_eq. intros q. rewrite prune_lookup.
  destruct (decide (under (entry p name) q)) as [[->|[r ->]]|]; [done| |done].
  fold (entry (entry p name) r). destruct (t !! entry (entry p name) r) eqn:E; [|done].
  assert (t !! entry p name = Some true) by (apply (wf_between _ Hwf p name r); eauto). congruence.
Qed.

(** Once every entry is gone the directory is empty, and without it the whole
    subtree is. *)
Lemma prune_names_all path names t :
  wf_tree t -> t !! path = Some true ->
  (forall name, is_dot_entry name = false ->
     (name ∈ names <-> no_slash name = true /\ is_Some (t !! entry path name))) ->
  (forall name, no_slash name = true -> prune_names path names t !! entry path name = None) /\
  delete path (prune_names path names t) = prune path t.
Proof.
  intros Hwf Hp Hnames.
  assert (forall name q, no_slash name = true -> under (entry path name) q ->
    is_Some (t !! q) -> below_names path names q) as Hbelow.
  { intros name q Hs Hu Hq.
    assert (is_Some (t !! entry path name)) as Hn.
    { destruct Hu as [->|[r ->]]; [done|]. eexists.
      apply (wf_between _ Hwf path name r); eauto. }
    destruct (wf_entry _ Hwf _ _ Hn) as [Hd _].
    apply Exists_exists. exists name. split; [by apply Hnames|done]. }
  split.
  - intros name Hs. rewrite prune_names_lookup. case_decide as Hb; [done|].
    destruct (t !! entry path name) eqn:E; [|done].
    destruct Hb. apply (Hbelow name); [done|by left|by eexists].
  - apply map_eq. intros q. rewrite prune_lookup.
    destruct (decide (q = path)) as [->|Hq]; [rewrite lookup_delete_eq, decide_True; [done|by left]|].
    rewrite lookup_delete_ne, prune_names_lookup by done.
    destruct (decide (under path q)) as [[?|[r ->]]|Hu]; [done| |].
    + fold (entry path r). case_decide as Hb; [done|]. destruct (t !! entry path r) eqn:E; [|done].
      destruct (below_entry path r) as (name & Hs & Hr).
      destruct Hb. apply (Hbelow name); [done|exact Hr|by eexists].
    + rewrite decide_False; [done|]. intros Hb. apply Hu.
      apply Exists_exists in Hb as (name & _ & _ & Hn). eapply under_trans; [|exact Hn].
      right. by exists name.
Qed.

(** ** The recursion, run on a tree *)

Section Run.
Context {S : Type} `{TreeFS S}.
#[local] Set Default Proof Using "Type*".

(** What stays the same while files are removed. *)
Definition only_files (w w' : world S) : Prop :=
  conn w' = conn w /\ handles w' = handles w /\ exists l, trace w' = trace w ++ l.

Lemma only_files_trans w1 w2 w3 : only_files w1 w2 -> only_files w2 w3 -> only_files w1 w3.
Proof.
  intros (C1 & H1 & l1 & T1) (C2 & H2 & l2 & T2). split; [congruence|]. split; [congruence|].
  exists (l1 ++ l2). by rewrite T2, T1, app_assoc.
Qed.

(** One call and what it does to the tree. *)
Lemma call_step c (w : world S) :
  do_call c w = Ok (fst (sys_step c (sys w)), called c w) /\ only_files w (called c w).
Proof. split; [apply do_call_called|]. split; [done|]. split; [done|]. by eexists. Qed.

Lemma quiet_step c (w : world S) :
  quiet c = true ->
  exists w', do_call c w = Ok (fst (sys_step c (sys w)), w') /\ only_files w w' /\
    tree (sys w') = tree (sys w).
Proof.
  intros Hq. destruct (call_step c w) as [E Ho]. exists (called c w).
  split; [done|]. split; [done|]. by apply tree_quiet.
Qed.

Lemma send_step status text h (w : world S) :
  bev (conn w) = Some h -> live (handles w) !! h = Some KControlBev ->
  exists w', send_control_message status text w = Ok (tt, w') /\
    conn w' = conn w /\ handles w' = handles w /\ tree (sys w') = tree (sys w) /\
    trace w' = trace w ++ [Did (CBevWrite h (control_line status text)) tt].
Proof.
  intros Hb Hl. unfold send_control_message. erewrite act_bind_run; [|done]. rewrite Hb.
  unfold bufferevent_write. erewrite act_bind_run; [|by eapply use_live].
  pose proof (tree_quiet (CBevWrite h (control_line status text)) (sys w) eq_refl) as Ht.
  destruct (sys_step (CBevWrite h (control_line status text)) (sys w)) as [[] s] eqn:E.
  eexists. split; [exact (do_call_run (CBevWrite _ _) w _ _ E)|]. by split_and!.
Qed.

(** A computation that removes the subtree of [path] and answers [r]. *)
Definition removes_subtree {A} (m : act S A) (r : A) (path : string) (w : world S) : Prop :=
  exists w', m w = Ok (r, w') /\ only_files w w' /\ tree (sys w') = prune path (tree (sys w)).

Lemma unlink_file p (w : world S) :
  wf_tree (tree (sys w)) -> tree (sys w) !! p = Some false ->
  removes_subtree (do_call (CUnlink p)) 0 p w.
Proof.
  intros Hwf Hp. destruct (tree_unlink p (sys w) Hp) as [Hr Ht].
  destruct (call_step (CUnlink p) w) as [E Ho]. rewrite Hr in E. eexists.
  split; [done|]. split; [done|]. cbn [called sys]. by rewrite Ht, prune_file.
Qed.

(** Names that [readdir] returned for a directory of the tree. *)
Definition entries_of (path : string) (names : list string) : Prop :=
  forall name, name ∈ names -> is_dot_entry name = false ->
    no_slash name = true /\ name <> EmptyString /\ strlen (entry path name) < PATH_MAX.

(** The loop removes the subtree of every name it is given. *)
Lemma delete_entries_prunes (rec : string -> act S Z) path names : forall w : world S,
  wf_tree (tree (sys w)) -> tree (sys w) !! path = Some true -> entries_of path names ->
  (forall name (w : world S), wf_tree (tree (sys w)) -> tree (sys w) !! entry path name = Some true ->
     removes_subtree (rec (entry path name)) 0 (entry path name) w) ->
  exists w', delete_entries rec path names w = Ok (true, w') /\ only_files w w' /\
    tree (sys w') = prune_names path names (tree (sys w)).
Proof.
  induction names as [|n ns IH]; intros w Hwf Hp Hns Hrec; cbn [delete_entries].
  { exists w. rewrite prune_names_nil. split; [done|]. split; [|done].
    split; [done|]. split; [done|]. exists []. by rewrite app_nil_r. }
  assert (entries_of path ns) as Hns' by (intros m Hm; apply Hns; by right).
  destruct (is_dot_entry n) eqn:En; [rewrite prune_names_dot by done; by apply IH|].
  destruct (Hns n) as (Hs & Hne & Hlen); [by left|done|].
  rewrite prune_names_cons, (join_path_entry path n Hlen) by done.
  destruct (quiet_step (CLstat (entry path n)) w) as (w1 & E1 & Ho1 & Ht1); [done|].
  pose proof (tree_lstat path n (sys w) Hp Hs En Hne) as Hst.
  assert (forall w2, only_files w1 w2 -> tree (sys w2) = prune (entry path n) (tree (sys w)) ->
    exists w', delete_entries rec path ns w2 = Ok (true, w') /\ only_files w w' /\
      tree (sys w') = prune_names path ns (prune (entry path n) (tree (sys w)))) as Hrest.
  { intros w2 Ho2 Ht2. destruct (IH w2) as (w' & E & Ho & Ht).
    - rewrite Ht2. by apply wf_prune.
    - rewrite Ht2, prune_lookup, decide_False; [done|apply entry_not_under].
    - done.
    - done.
    - exists w'. split; [done|]. rewrite Ht, Ht2. split; [|done].
      eapply only_files_trans; [|exact Ho]. by eapply only_files_trans. }
  erewrite act_bind_run; [|exact E1].
  destruct (fst (sys_step (CLstat (entry path n)) (sys w))) as [st|]; simpl in Hst; symmetry in Hst.
  - rewrite <- Ht1 in Hst, Hwf. destruct (S_ISDIR (st_mode st)) eqn:Ei.
    + destruct (Hrec n w1 Hwf Hst) as (w2 & E2 & Ho2 & Ht2).
      erewrite act_bind_run; [|exact E2]. rewrite Ht1 in Ht2. by apply Hrest.
    + destruct (unlink_file (entry path n) w1 Hwf Hst) as (w2 & E2 & Ho2 & Ht2).
      erewrite act_bind_run; [|exact E2]. rewrite Ht1 in Ht2. by apply Hrest.
  - apply Hrest; [|by rewrite prune_missing by eauto].
    split; [done|]. split; [done|]. exists []. by rewrite app_nil_r.
Qed.

(** The recursion removes the whole subtree of a directory; one unit of fuel
    is used per level, and each level makes the path longer. *)
Lemma delete_directory_prunes fuel : forall path (w : world S),
  wf_tree (tree (sys w)) -> tree (sys w) !! path = Some true ->
  PATH_MAX - strlen path <= Z.of_nat fuel ->
  removes_subtree (delete_directory_recursively fuel path) 0 path w.
Proof.
  induction fuel as [|fuel IH]; intros path w Hwf Hp Hf.
  { assert (strlen path < PATH_MAX) by (apply (wf_length _ Hwf); eauto). lia. }
  unfold removes_subtree. cbn [delete_directory_recursively].
  destruct (tree_opendir path (sys w) Hp) as (names & Hr & Hnames).
  destruct (quiet_step (COpendir path) w) as (w1 & E1 & Ho1 & Ht1); [done|]. rewrite Hr in E1.
  erewrite act_bind_run; [|exact E1]. cbv beta iota.
  destruct (prune_names_all path names _ Hwf Hp Hnames) as [Hempty Hall].
  destruct (delete_entries_prunes (delete_directory_recursively fuel) path names w1)
    as (w2 & E2 & Ho2 & Ht2); [by rewrite Ht1|by rewrite Ht1| | |].
  { intros name Hn Hd. apply Hnames in Hn as [Hs Hi]; [|done].
    destruct (wf_entry _ Hwf _ _ Hi) as [_ Hne]. split_and!; [done|done|]. by apply (wf_length _ Hwf). }
  { intros name v Hv Hvp. apply IH; [done|done|]. rewrite length_entry.
    assert (0 <= strlen name) by (unfold strlen; lia). lia. }
  erewrite act_bind_run; [|exact E2].
  destruct (quiet_step (CClosedir path) w2) as (w3 & E3 & Ho3 & Ht3); [done|].
  erewrite act_bind_run; [|exact E3]. rewrite Ht1 in Ht2. rewrite Ht2 in Ht3.
  destruct (tree_rmdir path (sys w3)) as [Hok Hdel].
  { rewrite Ht3, prune_names_lookup, decide_False; [done|].
    intros (n & _ & _ & Hu)%Exists_exists. by apply entry_not_under in Hu. }
  { intros name Hs. rewrite Ht3. by apply Hempty. }
  destruct (call_step (CRmdir path) w3) as [E4 Ho4]. rewrite Hok in E4.
  eexists. split; [done|]. cbn [called sys]. rewrite Hdel, Ht3, Hall. split; [|done].
  eapply only_files_trans; [|exact Ho4]. eapply only_files_trans; [|exact Ho3].
  by eapply only_files_trans.
Qed.
End Run.

(** ** A system that is a tree *)

Definition strip_prefix (prefix s : string) : option string :=
  if String.prefix prefix s then Some (strdrop (String.length prefix) s) else None.

Definition children (p : string) (t : gmap string bool) : list string :=
  omap (fun kv => n ← strip_prefix (entry p EmptyString) kv.1; if no_slash n then Some n else None)
    (map_to_list t).

Definition stat_of (d : bool) : stat_t := if d then dir_stat else file_stat.

#[export] Instance tree_sys : Sys (gmap string bool) := fun c t =>
  match c as c return reply c * gmap string bool with
  | CStat p | CLstat p => (stat_of <$> t !! p, t)
  | COpendir p =>
      (match t !! p with Some true => Some ("." :: ".." :: children p t)%string | _ => None end, t)
  | CUnlink p => match t !! p with Some false => (0, delete p t) | _ => (-1, t) end
  | CRmdir p =>
      match t !! p, children p t with Some true, [] => (0, delete p t) | _, _ => (-1, t) end
  | c => (fst (small_sys c sample_small), t)
  end.

Lemma strip_prefix_Some prefix s r : strip_prefix prefix s = Some r <-> s = prefix +:+ r.
Proof.
  assert (forall a b : string, strdrop (String.length a) (a +:+ b) = b) as Hdrop
    by (induction a; simpl; auto).
  unfold strip_prefix. destruct (String.prefix prefix s) eqn:E.
  - apply prefix_true in E as [b ->]. rewrite Hdrop. split; [by intros [= ->]|]. by intros ->%app_inj_l.
  - split; [done|]. intros ->. by rewrite prefix_app in E.
Qed.

Lemma elem_of_children p t name :
  name ∈ children p t <-> no_slash name = true /\ is_Some (t !! entry p name).
Proof.
  unfold children. rewrite list_elem_of_omap. split.
  - intros ([k d] & Hk%elem_of_map_to_list & Hs). apply bind_Some in Hs as (n & Hn & Hs).
    simpl in Hn. apply strip_prefix_Some in Hn as ->.
    destruct (no_slash n) eqn:E; [|done]. injection Hs as <-. split; [done|].
    exists d. unfold entry in *. rewrite string_app_assoc in Hk. exact Hk.
  - intros [Hn [d Hd]]. exists (entry p name, d). split; [by apply elem_of_map_to_list|].
    apply bind_Some. exists name. split; [|by rewrite Hn]. apply strip_prefix_Some. simpl.
    unfold entry. by rewrite string_app_assoc.
Qed.

#[export] Instance tree_fs : TreeFS (gmap string bool).
Proof.
  refine {| tree := fun t => t |}.
  - by intros [] s.
  - intros p s Hp. unfold sys_step. cbn [tree_sys]. rewrite Hp. eexists. split; [done|]. intros name Hd.
    rewrite !elem_of_cons, elem_of_children. split; [|tauto].
    intros [->|[->|Hn]]; [done|done|exact Hn].
  - intros p name s _ _ _ _. unfold sys_step. cbn [tree_sys fst]. by destruct (s !! entry p name) as [[]|].
  - intros p s d Hp. unfold sys_step. cbn [tree_sys fst]. rewrite Hp. by destruct d.
  - intros p s Hp. unfold sys_step. cbn [tree_sys]. by rewrite Hp.
  - intros p s Hp He. unfold sys_step. cbn [tree_sys]. rewrite Hp.
    destruct (children p s) as [|n l] eqn:E; [done|].
    destruct (proj1 (elem_of_children p s n)) as [Hs Hi]; [rewrite E; by left|].
    rewrite (He n Hs) in Hi. by destruct Hi.
Defined.

(** A test of [wf_tree] that goes through the ways to read each path as an
    entry of a directory. *)
Fixpoint splits (s : string) : list (string * string) :=
  match s with
  | EmptyString => []
  | String c s' =>
      (if Ascii.eqb c "/" then [(EmptyString, s')] else []) ++
      map (fun x => (String c x.1, x.2)) (splits s')
  end.

Definition is_some_dir (d : option bool) : bool := match d with Some true => true | _ => false end.

Definition split_ok (t : gmap string bool) (x : string * string) : bool :=
  negb (is_dot_entry x.2) && negb (String.eqb x.2 EmptyString) &&
  (if t !! x.1 is Some d then d else true) &&
  forallb (fun y => if t !! y.1 is Some _ then negb (no_slash y.2) || is_some_dir (t !! x.1) else true)
    (splits x.1).

Definition wf_treeb (t : gmap string bool) : bool :=
  forallb (fun kv => (strlen kv.1 <? PATH_MAX) && forallb (split_ok t) (splits kv.1)) (map_to_list t).

Lemma elem_of_splits p name : (p, name) ∈ splits (entry p name).
Proof.
  induction p as [|c p IH]; simpl; [by left|]. apply elem_of_app. right.
  apply list_elem_of_fmap. exists (p, name). by split.
Qed.

Lemma wf_treeb_ok t : wf_treeb t = true -> wf_tree t.
Proof.
  unfold wf_treeb. intros Hw.
  assert (forall p, is_Some (t !! p) -> (strlen p <? PATH_MAX) && forallb (split_ok t) (splits p) = true)
    as Hall.
  { intros p [d Hp]. rewrite forallb_forall in Hw. apply (Hw (p, d)).
    by apply list_elem_of_In, elem_of_map_to_list. }
  assert (forall p name, is_Some (t !! entry p name) -> split_ok t (p, name) = true) as Hsplit.
  { intros p name [_ Hs]%Hall%andb_true_iff. rewrite forallb_forall in Hs.
    apply Hs, list_elem_of_In, elem_of_splits. }
  unfold split_ok in Hsplit. cbn [fst snd] in Hsplit. split.
  - intros p [Hp%Z.ltb_lt _]%Hall%andb_true_iff. exact Hp.
  - intros p name [d Hp] Hs%Hsplit. rewrite Hp in *. rewrite !andb_true_iff in Hs.
    by destruct Hs as [[_ ->] _].
  - intros p name r [d Hp] Hn Hs%Hsplit. rewrite !andb_true_iff in Hs. destruct Hs as [_ Hs].
    rewrite forallb_forall in Hs.
    specialize (Hs (p, name) (proj1 (list_elem_of_In _ _) (elem_of_splits p name))).
    cbn [fst snd] in Hs. rewrite Hp, Hn in Hs. unfold is_some_dir in Hs. simpl in Hs.
    by repeat case_match.
  - intros p name Hs%Hsplit. rewrite !andb_true_iff, !negb_true_iff in Hs.
    destruct Hs as [[[Hd He] _] _]. split; [done|]. by apply String.eqb_neq.
Qed.

(** ** Properties *)

(** C13: on files that nobody else uses, DELE of a file, or of a directory
    with -r, is [prune]: it ends, what is left is the tree without the target
    and everything below it, nothing of the connection has changed, and the
    last call is the line "250 Delete successful.". *)
Theorem dele_is_prune {S} `{TreeFS S} fuel cmd a path isdir h (w : world S) :
  parse_dele_params cmd = Some a -> target a = Some path -> is_path_safe (Some path) = true ->
  bev (conn w) = Some h -> live (handles w) !! h = Some KControlBev ->
  wf_tree (tree (sys w)) -> tree (sys w) !! path = Some isdir ->
  (isdir = true -> recursive a = true) ->
  PATH_MAX - strlen path <= Z.of_nat fuel ->
  exists w' l, handle_dele_command fuel cmd w = Ok (tt, w') /\
    tree (sys w') = prune path (tree (sys w)) /\
    conn w' = conn w /\ handles w' = handles w /\
    trace w' = trace w ++ l ++ [Did (CBevWrite h success_line) tt].
Proof.
  intros Hc Ht Hs Hb Hl Hwf Hp Hr Hf. unfold handle_dele_command. rewrite Hc, Ht, Hs. cbn [negb nonnull].
  erewrite act_bind_run; [|done].
  destruct (quiet_step (CStat path) w) as (w1 & E1 & Ho1 & Ht1); [done|].
  pose proof (tree_stat path (sys w) isdir Hp) as Hst.
  destruct (fst (sys_step (CStat path) (sys w))) as [st|]; [|done].
  simpl in Hst. injection Hst as Hst. erewrite act_bind_run; [|exact E1]. cbv beta iota.
  unfold delete_target. rewrite Hst.
  replace (isdir && negb (recursive a)) with false by (destruct isdir; [by rewrite Hr|done]).
  assert (removes_subtree (if isdir then delete_directory_recursively fuel path
    else do_call (CUnlink path)) 0 path w1) as (w2 & E2 & Ho2 & Ht2).
  { rewrite <- Ht1 in Hwf, Hp. destruct isdir; [by apply delete_directory_prunes|by apply unlink_file]. }
  erewrite act_bind_run; [|exact E2]. cbv beta iota. change (negb (0 =? 0)) with false. cbv beta iota.
  destruct (only_files_trans _ _ _ Ho1 Ho2) as (Hcw & Hhw & l & Hlw).
  destruct (send_step FTP_STATUS_FILE_ACTION_OK "Delete successful." h w2)
    as (w3 & E3 & Hc3 & Hh3 & Ht3 & Hl3); [by rewrite Hcw|by rewrite Hhw|].
  exists w3, l. split; [exact E3|]. rewrite Hl3, Hlw, Ht3, Ht2, Ht1, app_assoc.
  split_and!; [done|congruence|congruence|done].
Qed.

(** A directory with a subdirectory, next to a file whose name begins alike. *)
Definition sample_tree : gmap string bool :=
  {["box" := true; "box/a" := false; "box/sub" := true; "box/sub/x" := false; "boxes" := false]}%string.

Definition tree_world : world (gmap string bool) :=
  World (set_bev (Some 0%nat) zero_connection) sample_tree (Ledger 1 {[0%nat := KControlBev]}) [].

Example dele_is_prune_witness :
  exists w' l, handle_dele_command (Z.to_nat PATH_MAX) dele_box tree_world = Ok (tt, w') /\
    tree (sys w') = {["boxes"%string := false]} /\
    trace w' = l ++ [Did (CBevWrite 0 success_line) tt].
Proof.
  destruct (dele_is_prune (Z.to_nat PATH_MAX) dele_box (DeleArgs true false (Some "box"%string))
    "box" true 0 tree_world) as (w' & l & E & Ht & _ & _ & Hl);
    [reflexivity|reflexivity|reflexivity|reflexivity|reflexivity| |reflexivity|reflexivity| |].
  - apply wf_treeb_ok. vm_compute. reflexivity.
  - rewrite Z2Nat.id by (vm_compute; discriminate). vm_compute. discriminate.
  - exists w', l. split; [exact E|]. split; [|exact Hl]. rewrite Ht. vm_compute. reflexivity.
Defined.
