(* ===== verification/Listing.v ===== *)
(** * The LIST and NLST commands (src/actions/list.c) *)

From S2P Require Import Prelude CString CommandParser Config Connection System SmallSystem Control.
From S2P Require Import Security Dele Ipc.
From stdpp Require Import options.

Local Open Scope Z_scope.

Record list_flags_t := ListFlags {
  all : bool;
  human_flag : bool;
  recursive_flag : bool;
  path_flag : option string;
}.

Fixpoint parse_list_args (l : list string) (f : list_flags_t) : option list_flags_t :=
  match l with
  | [] => Some f
  | x :: l' =>
      if matches x "-a" then
        parse_list_args l' (ListFlags true (human_flag f) (recursive_flag f) (path_flag f))
      else if matches x "-h" then
        parse_list_args l' (ListFlags (all f) true (recursive_flag f) (path_flag f))
      else if matches x "-R" then
        parse_list_args l' (ListFlags (all f) (human_flag f) true (path_flag f))
      else
        match path_flag f with
        | None =>
            parse_list_args l' (ListFlags (all f) (human_flag f) (recursive_flag f) (Some x))
        | Some _ => None
        end
  end.

Definition parse_list_flags (cmd : cftp_command_t) : option list_flags_t :=
  parse_list_args (args cmd) (ListFlags false false false None).

(** ** Formatting *)

(** [%Nd] and [%Ns] pad on the left, [%-Ns] on the right. *)
Fixpoint spaces (n : nat) : string :=
  match n with O => EmptyString | S n' => String space (spaces n') end.

Definition pad_left (width : nat) (s : string) : string :=
  spaces (width - String.length s) +:+ s.

Definition pad_right (width : nat) (s : string) : string :=
  s +:+ spaces (width - String.length s).

Definition units : list string := ["B"; "K"; "M"; "G"; "T"; "P"].

(** The [while] loop of [human_readable_size] divides by 1024 exactly, so the
    double is [size / 1024 ^ unit]; [fuel] is the bound on [unit]. *)
Fixpoint unit_loop (fuel : nat) (s : Z) (unit : nat) : nat :=
  match fuel with
  | O => unit
  | S fuel' =>
      if 1024 * 1024 ^ Z.of_nat unit <=? s then unit_loop fuel' s (S unit) else unit
  end.

(** ["%.1f"] of [s / d]: tenths, rounded to nearest, ties to even. *)
Definition tenths (s d : Z) : Z :=
  let q := 10 * s / d in
  let r := 2 * (10 * s mod d) in
  if (d <? r) || ((d =? r) && Z.odd q) then q + 1 else q.

Definition SIZEBUF_LEN : nat := 32.

Definition human_readable_size (size : Z) : string :=
  let s := round_bits 53 size in
  let unit := unit_loop 5 s 0 in
  let t := tenths s (1024 ^ Z.of_nat unit) in
  snprintf_s SIZEBUF_LEN
    (print_unsigned (t / 10) +:+ ("." +:+ (print_unsigned (t mod 10) +:+ nth unit units EmptyString))).

(** [perms], bit by bit: [1 << (8 - i)] is position [i + 1]. *)
Definition rwx (i : nat) : ascii := nth (i mod 3)%nat ["r"%char; "w"%char; "x"%char] "-"%char.

Definition perm_char (mode : Z) (i : nat) : ascii :=
  if Z.land mode (Z.shiftl 1 (8 - Z.of_nat i)) =? 0 then "-"%char else rwx i.

Definition file_type_char (mode : Z) : ascii :=
  if S_ISDIR mode then "d"%char else if S_ISLNK mode then "l"%char else "-"%char.

Fixpoint string_of_list (l : list ascii) : string :=
  match l with [] => EmptyString | c :: l' => String c (string_of_list l') end.

Definition perms (mode : Z) : string :=
  String (file_type_char mode) (string_of_list (perm_char mode <$> seq 0 9)).

Definition size_field (human : bool) (size : Z) : string :=
  if human then human_readable_size size
  else snprintf_s SIZEBUF_LEN (pad_left 8 (print_int size)).

Definition TIMEBUF_LEN : nat := 32.

Definition unix_list_entry (name timebuf username groupname : string) (st : stat_t) (human : bool)
  : string :=
  snprintf_s (Z.to_nat PATH_MAX)
    (perms (st_mode st) +:+ (" " +:+ (pad_left 2 (print_int (st_nlink st)) +:+ (" " +:+
    (pad_right 8 username +:+ (" " +:+ (pad_right 8 groupname +:+ (" " +:+
    (pad_left 10 (size_field human (st_size st)) +:+ (" " +:+ (timebuf +:+ (" " +:+
    (name +:+ crlf))))))))))))).

Section Listing.
Context {S : Type} `{Sys S}.

Definition format_unix_list_entry (name : string) (st : stat_t) (human : bool) : act S string :=
  timebuf ← do_call (CStrftimeLocal (st_mtime st));
  username ← ask_root_for_username (st_uid st);
  groupname ← ask_root_for_groupname (st_gid st);
  mret (unix_list_entry name timebuf username groupname st human).

(** The [readdir] loop of [send_list_command_output]: the text it puts into
    the buffer. *)
Fixpoint list_entries (path : string) (description hidden human : bool) (names : list string)
  : act S string :=
  match names with
  | [] => mret EmptyString
  | name :: names' =>
      if is_dot_entry name then list_entries path description hidden human names'
      else
        st ← do_call (CLstat (join_path path name));
        match st with
        | None => list_entries path description hidden human names'
        | Some st =>
            if negb hidden && String.prefix "." name then
              list_entries path description hidden human names'
            else
              line ← (if description then format_unix_list_entry name st human
                      else mret (snprintf_s (Z.to_nat PATH_MAX) (name +:+ crlf)));
              rest ← list_entries path description hidden human names';
              mret (line +:+ rest)
        end
  end.

Definition send_list_command_output (params : string) (description hidden human : bool)
  : act S unit :=
  let path := strtake (Z.to_nat PATH_MAX) params in
  dir ← do_call (COpendir path);
  names ← nonnull dir;
  out ← list_entries path description hidden human names;
  do_call (CClosedir path);;
  if strlen out =? 0 then
    put (set_control_write_cb (Some close_data_connection_on_writecb));;
    put (set_data_tls_event_connected_cb (Some close_data_connection_on_writecb));;
    send_control_message FTP_STATUS_DATA_CONNECTION_CLOSING "Directory send OK"
  else
    put (set_data_write_cb (Some close_on_listcb));;
    b ← get data_bev;
    bufferevent_write b out.

Definition run_close_on_listcb (b : option nat) : act S unit :=
  match b with
  | None => mret tt
  | Some _ =>
      put (set_control_write_cb (Some close_data_connection_on_writecb));;
      send_control_message FTP_STATUS_DATA_CONNECTION_CLOSING "Directory send OK"
  end.

Definition run_list_tls_on_bev_event_connected (b : option nat) : act S unit :=
  match b with
  | None => mret tt
  | Some _ =>
      p ← get path; d ← get description; h ← get hidden; hu ← get human;
      send_list_command_output p d h hu
  end.

Definition invalid_list_path : act S unit :=
  put (set_control_write_cb (Some close_data_connection_on_writecb));;
  send_control_message FTP_STATUS_FILE_ACTION_NOT_TAKEN_PERM "Invalid path".

Definition handle_list_command (cmd : cftp_command_t) (desc : bool) : act S unit :=
  match parse_list_flags cmd with
  | None =>
      put (set_control_write_cb (Some close_data_connection_on_writecb));;
      send_control_message FTP_STATUS_SYNTAX_ERROR_PARAMS "Failed to parse parameters"
  | Some f =>
      b ← get data_bev;
      match b with
      | None =>
          send_control_message FTP_STATUS_CANNOT_OPEN_DATA "Cannot open data connection"
      | Some _ =>
          let path :=
            match path_flag f with
            | Some p => if 0 <? strlen p then snprintf_s (Z.to_nat PATH_MAX) p else "."%string
            | None => "."%string
            end in
          if negb (is_path_safe (Some path)) then invalid_list_path
          else
            dir ← do_call (COpendir path);
            match dir with
            | None => invalid_list_path
            | Some _ =>
                tls ← get data_tls_required;
                (if tls : bool then
                   put (set_path path);; put (set_description desc);;
                   put (set_hidden (all f));;
                   put (set_data_tls_event_connected_cb (Some list_tls_on_bev_event_connected));;
                   put (set_human (human_flag f))
                 else mret tt);;
                send_control_message FTP_STATUS_FILE_STATUS_OKAY "Here comes the directory listings";;
                if tls : bool then mret tt
                else send_list_command_output path desc (all f) (human_flag f)
            end
      end
  end.
End Listing.

(** ** Walking through the listing *)

Lemma keeps_list_entries {S} `{Sys S} {okput okcall okkind R} `{!Tame (S:=S) okput okcall okkind R}
    path description hidden human names :
  (forall n, is_dot_entry n = false -> okcall (CLstat (join_path path n))) -> (forall t, okcall (CStrftimeLocal t)) ->
  (forall r, okcall (CAskRoot r)) -> (forall h b, okcall (CBevSetcb h b)) ->
  (forall h t, okcall (CBevWrite h t)) -> (forall h, okcall (CBevDisable h)) ->
  (forall h, okcall (CBevFree h)) -> okcall CGetuid ->
  keeps R (list_entries (S:=S) path description hidden human names).
Proof.
  intros H1 H2 H3 H4 H5 H6 H7 H8. induction names as [|n ns IH]; cbn [list_entries];
    walk ltac:(solve [eauto]) ltac:(apply IH).
Qed.

(** ** Reading the permissions back *)

(** What a client makes of the nine characters after the file type. *)
Fixpoint read_bits (s : string) : Z :=
  match s with
  | EmptyString => 0
  | String c s' =>
      (if Ascii.eqb c "-" then 0 else 2 ^ Z.of_nat (String.length s')) + read_bits s'
  end.

Lemma perm_char_bit mode i :
  (i < 9)%nat -> Ascii.eqb (perm_char mode i) "-" = negb (Z.testbit mode (8 - Z.of_nat i)).
Proof.
  intros Hi. unfold perm_char.
  rewrite Z.shiftl_1_l.
  assert ((Z.land mode (2 ^ (8 - Z.of_nat i)) =? 0) = negb (Z.testbit mode (8 - Z.of_nat i))) as ->.
  { destruct (Z.testbit mode (8 - Z.of_nat i)) eqn:E; simpl; [apply Z.eqb_neq|apply Z.eqb_eq].
    - intros Hz. apply (f_equal (fun z => Z.testbit z (8 - Z.of_nat i))) in Hz.
      by rewrite Z.land_spec, E, Z.pow2_bits_true, Z.bits_0 in Hz by lia.
    - apply Z.bits_inj'. intros n Hn. rewrite Z.land_spec, Z.bits_0, Z.pow2_bits_eqb by lia.
      destruct (Z.eqb_spec (8 - Z.of_nat i) n) as [<-|]; [by rewrite E|by rewrite andb_false_r]. }
  destruct (Z.testbit mode (8 - Z.of_nat i)); [|done].
  do 9 (destruct i as [|i]; [done|]). lia.
Qed.

Lemma mod_pow2_step x k :
  0 <= k -> x mod 2 ^ Z.succ k = x mod 2 ^ k + 2 ^ k * Z.b2z (Z.testbit x k).
Proof.
  intros Hk. rewrite Z.pow_succ_r, Z.mul_comm, Z.rem_mul_r by lia. by rewrite Z.testbit_spec' by lia.
Qed.

Lemma read_bits_perms mode (n : nat) :
  (n <= 9)%nat ->
  read_bits (string_of_list (perm_char mode <$> seq (9 - n) n)) = mode mod 2 ^ Z.of_nat n.
Proof.
  induction n as [|n IH]; intros Hn; [by rewrite Z.mod_1_r|].
  rewrite (Nat2Z.inj_succ n), mod_pow2_step, <- IH by lia.
  replace (9 - n)%nat with (Datatypes.S (9 - Datatypes.S n)) by lia. cbn [seq fmap list_fmap string_of_list read_bits].
  rewrite perm_char_bit by lia.
  replace (8 - Z.of_nat (9 - Datatypes.S n)) with (Z.of_nat n) by lia.
  assert (forall l, String.length (string_of_list l) = List.length l) as Hlen
    by (intros l; induction l; simpl; congruence).
  rewrite Hlen, length_map, length_seq. destruct (Z.testbit mode (Z.of_nat n)); simpl; lia.
Qed.

(** ** Properties *)

(** The ten characters LIST prints for a mode say what the mode says: the
    nine permission bits read back from them are the low nine bits of the
    mode, and the first character is "d" exactly for directories and "l"
    exactly for symbolic links. *)
Theorem perms_readback mode :
  exists c bits, perms mode = String c bits /\ String.length bits = 9%nat /\
    read_bits bits = Z.land mode 0x1FF /\
    (c = "d"%char <-> S_ISDIR mode = true) /\ (c = "l"%char <-> S_ISLNK mode = true).
Proof.
  eexists _, _. split; [done|]. split; [done|]. split.
  - pose proof (read_bits_perms mode 9 ltac:(lia)) as E. change (9 - 9)%nat with 0%nat in E.
    rewrite E. symmetry. apply (Z.land_ones mode 9). lia.
  - unfold file_type_char. destruct (S_ISDIR mode) eqn:Ed.
    + split; [done|]. split; [done|]. intros El. exfalso.
      unfold S_ISDIR, S_ISLNK in *. apply Z.eqb_eq in Ed, El. congruence.
    + destruct (S_ISLNK mode); done.
Qed.

(** ** The text of a name listing *)

(** The names NLST shows: "." and ".." never, names that begin with a dot
    only with -a. *)
Definition visible (hidden : bool) (name : string) : bool :=
  negb (is_dot_entry name) && (hidden || negb (String.prefix "." name)).

Fixpoint name_lines (names : list string) : string :=
  match names with
  | [] => EmptyString
  | n :: ns => (n +:+ crlf) +:+ name_lines ns
  end.

(** What reading the entries asks of the system. *)
Definition lstat_event (e : event) : bool := match e with Did (CLstat _) _ => true | _ => false end.

Definition wrote_any (e : event) : bool := match e with Did (CBevWrite _ _) _ => true | _ => false end.

(** The entries a listing looks at with the answers it got, in order; one
    that [lstat] fails on is left out. *)
Definition looked_at (path : string) (a : string * option stat_t) : event :=
  Did (CLstat (join_path path a.1)) a.2.

Definition shown (hidden : bool) (a : string * option stat_t) : bool :=
  (if a.2 is Some _ then true else false) && visible hidden a.1.

Definition entries (names : list string) : list string :=
  List.filter (fun n => negb (is_dot_entry n)) names.

(** The text of a name listing. *)
Definition listing_text (hidden : bool) (answers : list (string * option stat_t)) : string :=
  name_lines (map fst (List.filter (shown hidden) answers)).

Lemma list_entries_names {S} `{Sys S} path hidden human names :
  Forall (fun n => strlen n + 2 < PATH_MAX) names ->
  forall w : world S, exists s answers, map fst answers = entries names /\
    list_entries path false hidden human names w =
    Ok (listing_text hidden answers,
        World (conn w) s (handles w) (trace w ++ map (looked_at path) answers)).
Proof.
  intros Hlen. induction Hlen as [|n ns Hn Hns IH]; intros w; cbn [list_entries].
  - exists (sys w), []. split; [done|]. rewrite app_nil_r. by destruct w.
  - unfold entries. cbn [List.filter].
    destruct (is_dot_entry n) eqn:Ed; cbn [negb]; [apply IH|].
    destruct (sys_step (CLstat (join_path path n)) (sys w)) as [st s] eqn:E.
    erewrite act_bind_run; [|exact (do_call_run (CLstat _) w _ _ E)].
    set (w1 := World _ _ _ _).
    destruct (IH w1) as (s' & answers & Hm & Hl). subst w1. cbn [conn handles trace] in Hl.
    exists s', ((n, st) :: answers). split; [cbn [map fst]; by f_equal|].
    unfold listing_text. cbn [List.filter map]. unfold looked_at at 1, shown at 1, visible. cbn [fst snd].
    rewrite Ed. cbn [negb andb]. destruct st as [st|]; [|rewrite Hl; by rewrite <- app_assoc].
    destruct (negb hidden && String.prefix "." n) eqn:Eh.
    + replace (true && (hidden || negb (String.prefix "." n))) with false
        by (destruct hidden, (String.prefix "." n); done).
      rewrite Hl. by rewrite <- app_assoc.
    + replace (true && (hidden || negb (String.prefix "." n))) with true
        by (destruct hidden, (String.prefix "." n); done).
      erewrite act_bind_run; [|done]. erewrite act_bind_run; [|exact Hl].
      rewrite <- app_assoc. unfold snprintf_s. rewrite strtake_all; [done|].
      unfold strlen, PATH_MAX, crlf in *. string_lengths. lia.
Qed.

Lemma looked_at_lstat path answers : Forall (fun e => lstat_event e = true) (map (looked_at path) answers).
Proof. induction answers; by constructor. Qed.

Lemma lstat_quiet l :
  Forall (fun e => lstat_event e = true) l ->
  total opens l = 0 /\ total closes l = 0 /\ Forall (fun e => wrote_any e = false) l.
Proof.
  induction 1 as [|e l He _ (Ho & Hc & Hw)]; [done|]. destruct e as [[] r]; try discriminate He.
  split_and!; [exact Ho|exact Hc|by constructor].
Qed.

Lemma filter_none {A} (p : A -> bool) l : Forall (fun x => p x = false) l -> List.filter p l = [].
Proof. induction 1 as [|x l Hx _ IH]; [done|]. simpl. by rewrite Hx. Qed.

(** The record of the connection after the listing was handed over. *)
Definition listed (out : string) (c : connection_t) : connection_t :=
  if strlen out =? 0 then
    set_data_tls_event_connected_cb (Some close_data_connection_on_writecb)
      (set_control_write_cb (Some close_data_connection_on_writecb) c)
  else set_data_write_cb (Some close_on_listcb) c.

(** The text of the listing, or the closing reply when there is none. *)
Definition listing_write (h d : nat) (out : string) : event :=
  if strlen out =? 0
  then Did (CBevWrite h (control_line FTP_STATUS_DATA_CONNECTION_CLOSING "Directory send OK")) tt
  else Did (CBevWrite d out) tt.

Lemma send_list_names {S} `{Sys S} path hidden human names (w : world S) h d :
  bev (conn w) = Some h -> live (handles w) !! h = Some KControlBev ->
  data_bev (conn w) = Some d -> live (handles w) !! d = Some KDataBev ->
  strlen path < PATH_MAX ->
  fst (sys_step (COpendir path) (sys w)) = Some names ->
  Forall (fun n => strlen n + 2 < PATH_MAX) names ->
  exists s answers, map fst answers = entries names /\
    let out := listing_text hidden answers in
    send_list_command_output path false hidden human w =
      Ok (tt, World (listed out (conn w)) s (handles w)
        (trace w ++ Did (COpendir path) (Some names) :: map (looked_at path) answers ++
          [Did (CClosedir path) tt; listing_write h d out])).
Proof.
  intros Hb Hbl Hd Hdl Hlen Hdir Hnames. unfold send_list_command_output.
  rewrite strtake_all by (unfold strlen, PATH_MAX in *; lia).
  destruct (sys_step (COpendir path) (sys w)) as [dir s1] eqn:E.
  cbn [fst] in Hdir. subst dir.
  erewrite act_bind_run; [|exact (do_call_run (COpendir path) w _ _ E)]. cbn [nonnull].
  erewrite act_bind_run; [|done].
  destruct (list_entries_names path hidden human names Hnames
    (World (conn w) s1 (handles w) (trace w ++ [Did (COpendir path) (Some names)])))
    as (s2 & answers & Hm & Hl).
  erewrite act_bind_run; [|exact Hl]. cbn [conn handles trace]. clear Hl.
  set (out := listing_text hidden answers).
  destruct (sys_step (CClosedir path) s2) as [[] s3] eqn:E3.
  erewrite act_bind_run; [|by apply (do_call_run (CClosedir path))]. cbn [conn handles trace].
  set (v := World _ s3 _ _).
  assert (exists s4,
    (if strlen out =? 0 then
       put (set_control_write_cb (Some close_data_connection_on_writecb));;
       put (set_data_tls_event_connected_cb (Some close_data_connection_on_writecb));;
       send_control_message FTP_STATUS_DATA_CONNECTION_CLOSING "Directory send OK"
     else
       put (set_data_write_cb (Some close_on_listcb));;
       b ← get data_bev; bufferevent_write b out) v =
    Ok (tt, World (listed out (conn w)) s4 (handles w) (trace v ++ [listing_write h d out])))
    as (s4 & E4).
  { unfold listed, listing_write. destruct (strlen out =? 0).
    - do 2 (erewrite act_bind_run; [|done]). cbn [conn handles trace sys v].
      apply (send_control_run (World _ s3 _ _)); [cbn [conn]; by fields|done].
    - do 2 (erewrite act_bind_run; [|done]). cbn [conn handles trace sys v]. fields. rewrite Hd.
      by apply (bufferevent_write_run d KDataBev out (World _ s3 _ _)). }
  exists s4, answers. split; [done|]. cbv zeta. etrans; [exact E4|]. cbn [v trace]. fold out.
  by rewrite <- !app_assoc.
Qed.

(** The path of a listing. *)
Definition list_path (f : list_flags_t) : string :=
  match path_flag f with
  | Some p => if 0 <? strlen p then snprintf_s (Z.to_nat PATH_MAX) p else "."%string
  | None => "."%string
  end.

Lemma list_path_short f : strlen (list_path f) < PATH_MAX.
Proof.
  unfold list_path. destruct (path_flag f) as [p|]; [|done]. destruct (0 <? strlen p); [|done].
  pose proof (length_snprintf_s (Z.to_nat PATH_MAX) p). unfold strlen, PATH_MAX in *. lia.
Qed.

(** The reply that opens a listing. *)
Definition listing_starts : string :=
  control_line FTP_STATUS_FILE_STATUS_OKAY "Here comes the directory listings".

Lemma send_control_called {S} `{Sys S} (w : world S) h status text :
  bev (conn w) = Some h -> live (handles w) !! h = Some KControlBev ->
  send_control_message status text w = Ok (tt, called (CBevWrite h (control_line status text)) w).
Proof.
  intros Hb Hl. unfold send_control_message. erewrite act_bind_run; [|done]. rewrite Hb.
  unfold bufferevent_write. erewrite act_bind_run; [|by eapply use_live].
  rewrite do_call_called. by destruct (fst (sys_step (CBevWrite h (control_line status text)) (sys w))).
Qed.

Lemma nlst_run {S} `{Sys S} cmd f (w : world S) h d names0 names :
  bev (conn w) = Some h -> live (handles w) !! h = Some KControlBev ->
  data_bev (conn w) = Some d -> live (handles w) !! d = Some KDataBev ->
  data_tls_required (conn w) = false ->
  parse_list_flags cmd = Some f -> is_path_safe (Some (list_path f)) = true ->
  let s1 := snd (sys_step (COpendir (list_path f)) (sys w)) in
  let s2 := snd (sys_step (CBevWrite h listing_starts) s1) in
  fst (sys_step (COpendir (list_path f)) (sys w)) = Some names0 ->
  fst (sys_step (COpendir (list_path f)) s2) = Some names ->
  Forall (fun n => strlen n + 2 < PATH_MAX) names ->
  exists s answers, map fst answers = entries names /\
    let out := listing_text (all f) answers in
    handle_list_command cmd false w =
      Ok (tt, World (listed out (conn w)) s (handles w)
        (trace w ++ [Did (COpendir (list_path f)) (Some names0); Did (CBevWrite h listing_starts) tt;
           Did (COpendir (list_path f)) (Some names)] ++ map (looked_at (list_path f)) answers ++
          [Did (CClosedir (list_path f)) tt; listing_write h d out])).
Proof.
  intros Hb Hbl Hd Hdl Htls Hf Hsafe s1 s2 Hdir0 Hdir Hnames.
  unfold handle_list_command. rewrite Hf. erewrite act_bind_run; [|done]. rewrite Hd.
  cbv zeta. change (match path_flag f with
    | Some p => if 0 <? strlen p then snprintf_s (Z.to_nat PATH_MAX) p else "."%string
    | None => "."%string end) with (list_path f).
  pose proof (list_path_short f) as Hlen.
  set (path := list_path f) in *. clearbody path. rewrite Hsafe. cbn [negb].
  rewrite (call_bind (COpendir path)), Hdir0. unfold called. rewrite Hdir0. fold s1.
  erewrite act_bind_run; [|done]. cbn [conn]. rewrite Htls. cbv beta iota.
  erewrite act_bind_run; [|done]. set (v := World _ s1 _ _).
  erewrite act_bind_run; [|by apply (send_control_called v h)]. cbv beta iota.
  destruct (send_list_names path (all f) (human_flag f) names (called (CBevWrite h listing_starts) v) h d)
    as (s3 & answers & Hm & E); [done..|].
  exists s3, answers. split; [done|]. cbv zeta. etrans; [exact E|].
  unfold called. cbn [conn handles trace sys v].
  destruct (sys_step (CBevWrite h listing_starts) s1) as [[] ?]. cbn [fst]. by rewrite <- !app_assoc.
Qed.

(** What a listing on a protected channel leaves for the end of the
    handshake. *)
Definition deferred (f : list_flags_t) (desc : bool) (c : connection_t) : connection_t :=
  set_human (human_flag f)
    (set_data_tls_event_connected_cb (Some list_tls_on_bev_event_connected)
      (set_hidden (all f) (set_description desc (set_path (list_path f) c)))).

Lemma list_deferred_run {S} `{Sys S} cmd f desc (w : world S) h names :
  bev (conn w) = Some h -> live (handles w) !! h = Some KControlBev ->
  data_bev (conn w) <> None -> data_tls_required (conn w) = true ->
  parse_list_flags cmd = Some f -> is_path_safe (Some (list_path f)) = true ->
  fst (sys_step (COpendir (list_path f)) (sys w)) = Some names ->
  exists s, handle_list_command cmd desc w =
    Ok (tt, World (deferred f desc (conn w)) s (handles w)
      (trace w ++ [Did (COpendir (list_path f)) (Some names); Did (CBevWrite h listing_starts) tt])).
Proof.
  intros Hb Hbl Hd Htls Hf Hsafe Hdir.
  unfold handle_list_command. rewrite Hf. erewrite act_bind_run; [|done].
  destruct (data_bev (conn w)) as [d|] eqn:Ed; [|done].
  cbv zeta. change (match path_flag f with
    | Some p => if 0 <? strlen p then snprintf_s (Z.to_nat PATH_MAX) p else "."%string
    | None => "."%string end) with (list_path f).
  rewrite Hsafe. cbn [negb]. unfold deferred. set (path := list_path f) in *.
  rewrite (call_bind (COpendir path)), Hdir. unfold called. rewrite Hdir.
  erewrite act_bind_run; [|done]. cbn [conn]. rewrite Htls. cbv beta iota.
  erewrite act_bind_run; [|done]. cbn [conn sys handles trace]. set (v := World _ _ _ _).
  destruct (send_control_run v h FTP_STATUS_FILE_STATUS_OKAY "Here comes the directory listings")
    as (s2 & H2); [done..|].
  erewrite act_bind_run; [|exact H2]. exists s2. cbn [conn handles trace v]. rewrite <- app_assoc. done.
Qed.

(** ** Properties of NLST *)

(** A plain NLST of a directory that can be read answers 150 and hands
    the data connection exactly the visible names [lstat] finds, one per line,
    in the order the directory gives them; with no such name it sends nothing
    on the data connection and the closing reply at once.  Of the two
    directory streams it opens, one is never closed. *)
Theorem nlst_output {S} `{Sys S} cmd f (w : world S) h d names0 names :
  bev (conn w) = Some h -> live (handles w) !! h = Some KControlBev ->
  data_bev (conn w) = Some d -> live (handles w) !! d = Some KDataBev ->
  data_tls_required (conn w) = false ->
  parse_list_flags cmd = Some f -> is_path_safe (Some (list_path f)) = true ->
  let s1 := snd (sys_step (COpendir (list_path f)) (sys w)) in
  let s2 := snd (sys_step (CBevWrite h listing_starts) s1) in
  fst (sys_step (COpendir (list_path f)) (sys w)) = Some names0 ->
  fst (sys_step (COpendir (list_path f)) s2) = Some names ->
  Forall (fun n => strlen n + 2 < PATH_MAX) names ->
  exists w' l answers, handle_list_command cmd false w = Ok (tt, w') /\ trace w' = trace w ++ l /\
    List.filter lstat_event l = map (looked_at (list_path f)) answers /\
    map fst answers = entries names /\
    List.filter wrote_any l =
      [Did (CBevWrite h listing_starts) tt; listing_write h d (listing_text (all f) answers)] /\
    total opens l = total closes l + 1.
Proof.
  intros Hb Hbl Hd Hdl Htls Hf Hsafe s1 s2 Hdir0 Hdir Hnames.
  destruct (nlst_run cmd f w h d names0 names) as (s & answers & Hm & E); [done..|].
  pose proof (looked_at_lstat (list_path f) answers) as Hl.
  destruct (lstat_quiet _ Hl) as (Ho & Hc & Hw).
  eexists _, _, answers. split; [exact E|]. split; [done|]. split; [|split; [done|split]].
  - rewrite !List.filter_app. cbn [List.filter lstat_event app].
    assert (List.filter lstat_event (map (looked_at (list_path f)) answers) =
      map (looked_at (list_path f)) answers) as -> by (clear; induction answers; simpl; congruence).
    unfold listing_write. destruct (strlen _ =? 0); apply app_nil_r.
  - rewrite !List.filter_app, (filter_none _ _ Hw). unfold listing_write.
    cbn [app List.filter wrote_any]. by destruct (strlen _ =? 0).
  - rewrite !total_app, Ho, Hc. unfold listing_write. by destruct (strlen _ =? 0).
Qed.

Definition listing_world : world small :=
  World (set_data_bev (Some 1%nat) (set_bev (Some 0%nat) zero_connection)) sample_small
    (Ledger 2 {[0%nat := KControlBev; 1%nat := KDataBev]}) [].

(** The frozen directory of the DELE examples. *)
Example nlst_output_witness :
  exists w' l answers,
    @handle_list_command small frozen_tree (Command "NLST" ["box"]%string 1) false listing_world
      = Ok (tt, w') /\ trace w' = l /\ map fst answers = ["a"; "sub"]%string /\
    List.filter wrote_any l =
      [Did (CBevWrite 0 (control_line 150 "Here comes the directory listings")) tt;
       listing_write 0 1 (listing_text false answers)].
Proof.
  destruct (@nlst_output small frozen_tree (Command "NLST" ["box"]%string 1)
    (ListFlags false false false (Some "box"%string)) listing_world 0 1
    ["."; "a"; "sub"]%string ["."; "a"; "sub"]%string)
    as (w' & l & answers & Hr & Ht & _ & Ha & Hw & _); [reflexivity..|repeat constructor|].
  exists w', l, answers. split; [exact Hr|]. split; [exact Ht|]. split; [exact Ha|exact Hw].
Defined.
