(* ===== verification/Retr.v ===== *)
(** * The RETR command (src/actions/retr.c) *)

From S2P Require Import Prelude CString Connection System SmallSystem Control.
From stdpp Require Import options.

Local Open Scope Z_scope.

Section Retr.
Context {S : Type} `{Sys S}.

(** [n] is -1 when [read] fails. *)
Definition run_send_next_chunk (b : option nat) : act S unit :=
  stream ← get data_stream;
  fs ← nonnull stream;
  chunk ← do_call (CRead (fs_fd fs) FILE_CHUNK_SIZE);
  let n := match chunk with Some bytes => strlen bytes | None => -1 end in
  (if fs_offset fs + n =? fs_filesize fs
   then put (set_data_write_cb (Some close_on_retrcb)) else mret tt);;
  if n <=? 0 then
    do_call (CClose (fs_fd fs));;
    put (set_data_stream (Some (FileStream (-1) (fs_offset fs) (fs_filesize fs))))
  else
    bufferevent_write b (default EmptyString chunk);;
    put (set_data_stream (Some (FileStream (fs_fd fs) (fs_offset fs + n) (fs_filesize fs)))).

Definition ftp_send_file_with_evbuffer (filepath : string) : act S unit :=
  b ← get data_bev;
  match b with
  | None => mret tt
  | Some _ =>
      fd ← do_call (COpenRead filepath);
      if fd <? 0 then mret tt
      else
        st ← do_call (CFstat fd);
        match st with
        | None => do_call (CClose fd)
        | Some st =>
            send_control_message FTP_STATUS_FILE_STATUS_OKAY "Sending file";;
            fs ← do_call (CCalloc (FILE_CHUNK_SIZE + 24));
            (if fs : bool then
               put (set_data_stream (Some (FileStream fd 0 (st_size st))))
             else fail_undefined);;
            put (set_data_write_cb (Some send_next_chunk));;
            bufferevent_setwatermark b (128 * 1024);;
            bufferevent_enable b;;
            run_send_next_chunk b
        end
  end.

Definition ftp_send_file_plain (filepath : string) : act S unit :=
  b ← get data_bev;
  match b with
  | None => mret tt
  | Some _ =>
      fd ← do_call (COpenRead filepath);
      if fd <? 0 then
        send_control_message FTP_STATUS_FILE_ACTION_NOT_TAKEN_PERM "Failed to open file"
      else
        st ← do_call (CFstat fd);
        match st with
        | None =>
            do_call (CClose fd);;
            send_control_message FTP_STATUS_FILE_ACTION_NOT_TAKEN_PERM "Failed to open file"
        | Some st =>
            send_control_message FTP_STATUS_FILE_STATUS_OKAY "Sending file";;
            put (set_data_write_cb (Some download_completion_on_plain_connection_cb));;
            evbuffer_add_file b fd (st_size st)
        end
  end.

Definition cftp_send_file (params : string) : act S unit :=
  tls ← get data_tls_required;
  if tls : bool then ftp_send_file_with_evbuffer params else ftp_send_file_plain params.

Definition transfer_complete : act S unit :=
  put (set_control_write_cb (Some close_data_connection_on_writecb));;
  send_control_message FTP_STATUS_DATA_CONNECTION_CLOSING "Transfer complete".

Definition run_download_completion (b : option nat) : act S unit :=
  len ← output_length b;
  if len =? 0 then transfer_complete else mret tt.

Definition run_close_on_retrcb (b : option nat) : act S unit :=
  match b with
  | None => mret tt
  | Some _ => transfer_complete
  end.
End Retr.

(** ** A whole transfer in chunks

    libevent calls the write callback each time the output has drained to the
    watermark; [pump] is that sequence of calls, for as long as the callback
    is [send_next_chunk]. *)

Fixpoint pump {S} `{Sys S} (fuel : nat) (b : option nat) : act S unit :=
  cb ← get data_write_cb;
  match cb with
  | Some send_next_chunk =>
      match fuel with
      | O => hang
      | Datatypes.S fuel' => run_send_next_chunk b;; pump fuel' b
      end
  | _ => mret tt
  end.

(** A system on which [read] returns what is left of a file piece by piece. *)
Class FileReads (S : Type) `{Sys S} := {
  left_in : S -> Z -> string;
  read_piece : forall fd n s, 0 < n -> left_in s fd <> EmptyString -> exists piece,
    fst (sys_step (CRead fd n) s) = Some piece /\ piece <> EmptyString /\
    left_in s fd = piece +:+ left_in (snd (sys_step (CRead fd n) s)) fd;
  write_leaves : forall h bytes fd s,
    left_in (snd (sys_step (CBevWrite h bytes) s)) fd = left_in s fd;
}.

(** The bytes written to a bufferevent, and the descriptors closed. *)
Fixpoint written_to (d : nat) (l : list event) : string :=
  match l with
  | [] => EmptyString
  | Did (CBevWrite h bytes) _ :: l' =>
      if Nat.eqb h d then bytes +:+ written_to d l' else written_to d l'
  | _ :: l' => written_to d l'
  end.

Definition closes_fd (e : event) : bool := match e with Did (CClose _) _ => true | _ => false end.

Section Chunks.
Context {S : Type} `{FileReads S} (d : nat).
#[local] Set Default Proof Using "Type*".

(** One call that finds something to send. *)
Lemma send_next_chunk_run (w : world S) fd off size :
  live (handles w) !! d = Some KDataBev ->
  data_stream (conn w) = Some (FileStream fd off size) -> left_in (sys w) fd <> EmptyString ->
  exists piece s, piece <> EmptyString /\
    left_in (sys w) fd = piece +:+ left_in s fd /\
    run_send_next_chunk (Some d) w = Ok (tt,
      World (set_data_stream (Some (FileStream fd (off + strlen piece) size))
               (if off + strlen piece =? size then set_data_write_cb (Some close_on_retrcb) (conn w)
                else conn w))
        s (handles w)
        (trace w ++ [Did (CRead fd FILE_CHUNK_SIZE) (Some piece); Did (CBevWrite d piece) tt])).
Proof.
  intros Hl Hs Hne.
  destruct (read_piece fd FILE_CHUNK_SIZE (sys w)) as (piece & Hp & Hpe & Hleft); [done..|].
  destruct (sys_step (CRead fd FILE_CHUNK_SIZE) (sys w)) as [r s1] eqn:E.
  cbn [fst snd] in Hp, Hleft. subst r.
  assert (0 < strlen piece) as Hlen by (destruct piece; [done|]; unfold strlen; simpl; lia).
  destruct (sys_step (CBevWrite d piece) s1) as [[] s2] eqn:E2.
  exists piece, s2. split; [done|]. split.
  { pose proof (write_leaves d piece fd s1) as Hw. rewrite E2 in Hw. cbn [snd] in Hw. by rewrite Hw. }
  unfold run_send_next_chunk. erewrite act_bind_run; [|done]. rewrite Hs. cbn [nonnull].
  erewrite act_bind_run; [|done]. cbn [fs_fd fs_offset fs_filesize].
  erewrite act_bind_run; [|exact (do_call_run (CRead _ _) w _ _ E)]. cbv zeta beta iota.
  destruct (Z.leb_spec (strlen piece) 0) as [|_]; [lia|].
  destruct (off + strlen piece =? size); (erewrite act_bind_run; [|done]); cbn [default];
    unfold bufferevent_write;
    (erewrite act_bind_run;
      [|erewrite act_bind_run; [|by eapply use_live]; by apply (do_call_run (CBevWrite d piece))]);
    unfold put; cbn [conn sys handles trace]; by rewrite <- app_assoc.
Qed.

Lemma written_to_app l l' : written_to d (l ++ l') = written_to d l +:+ written_to d l'.
Proof.
  induction l as [|[c r] l IH]; [done|]. cbn [List.app written_to]. destruct c; try done.
  destruct (Nat.eqb _ _); [|done]. by rewrite IH, string_app_assoc.
Qed.

Lemma pump_run fuel : forall (w : world S) fd off size,
  live (handles w) !! d = Some KDataBev ->
  data_stream (conn w) = Some (FileStream fd off size) ->
  data_write_cb (conn w) = Some send_next_chunk ->
  left_in (sys w) fd <> EmptyString -> off + strlen (left_in (sys w) fd) = size ->
  strlen (left_in (sys w) fd) <= Z.of_nat fuel ->
  exists w' l, pump fuel (Some d) w = Ok (tt, w') /\ trace w' = trace w ++ l /\
    written_to d l = left_in (sys w) fd /\ existsb closes_fd l = false /\
    data_write_cb (conn w') = Some close_on_retrcb /\
    data_stream (conn w') = Some (FileStream fd size size).
Proof.
  induction fuel as [|fuel IH]; intros w fd off size Hl Hs Hcb Hne Hsize Hfuel.
  { destruct (left_in (sys w) fd); [done|]. unfold strlen in Hfuel. simpl in Hfuel. lia. }
  cbn [pump]. erewrite act_bind_run; [|done]. rewrite Hcb.
  destruct (send_next_chunk_run w fd off size Hl Hs Hne) as (piece & s & Hp & Hleft & Hrun).
  erewrite act_bind_run; [|exact Hrun]. clear Hrun. rewrite Hleft in *.
  unfold strlen in Hsize, Hfuel |- *. rewrite length_string_app in Hsize, Hfuel.
  assert (0 < String.length piece)%nat as Hlen by (destruct piece; [done|]; simpl; lia).
  set (l0 := [Did (CRead fd FILE_CHUNK_SIZE) (Some piece); Did (CBevWrite d piece) tt]).
  assert (written_to d l0 = piece) as Hw0
    by (unfold l0; cbn [written_to]; by rewrite Nat.eqb_refl, string_app_nil_r).
  destruct (Z.eqb_spec (off + Z.of_nat (String.length piece)) size) as [Hend|Hmore].
  - assert (left_in s fd = EmptyString) as -> by (destruct (left_in s fd); [done|]; simpl in Hsize; lia).
    eexists _, l0. rewrite string_app_nil_r.
    split; [destruct fuel; cbn [pump]; (erewrite act_bind_run; [|done]); by cbn [conn]; fields|].
    split; [done|]. split; [done|]. split; [done|]. cbn [conn]. fields. split; [done|]. by rewrite Hend.
  - destruct (IH (World (set_data_stream (Some (FileStream fd (off + Z.of_nat (String.length piece)) size))
        (conn w)) s (handles w) (trace w ++ l0)) fd (off + Z.of_nat (String.length piece)) size)
      as (w' & l & Hr & Ht & Hw & Hc & Hend); cbn [conn sys handles trace]; fields; try done.
    + intros E. rewrite E in Hsize. simpl in Hsize. lia.
    + unfold strlen. lia.
    + unfold strlen. lia.
    + exists w', (l0 ++ l). split; [exact Hr|]. split; [by rewrite Ht, app_assoc|].
      split; [by rewrite written_to_app, Hw0, Hw|]. split; [|done]. by rewrite existsb_app, Hc.
Qed.
End Chunks.

(** ** Properties *)

(** A RETR on a protected channel sends the file unchanged: the pieces
    written to the data connection, in order, are the bytes that were left in
    the file, at most one piece per byte, and after the last one the callback
    is the one that reports the end.  The descriptor of the file is not closed
    on this path. *)
Theorem retr_chunks_are_the_file {S} `{FileReads S} fuel d (w : world S) fd size :
  live (handles w) !! d = Some KDataBev ->
  data_stream (conn w) = Some (FileStream fd 0 size) ->
  data_write_cb (conn w) = Some send_next_chunk ->
  strlen (left_in (sys w) fd) = size -> 0 < size <= Z.of_nat fuel ->
  exists w' l, pump fuel (Some d) w = Ok (tt, w') /\ trace w' = trace w ++ l /\
    written_to d l = left_in (sys w) fd /\ existsb closes_fd l = false /\
    data_write_cb (conn w') = Some close_on_retrcb /\
    data_stream (conn w') = Some (FileStream fd size size).
Proof.
  intros Hl Hs Hcb Hsize Hfuel. apply (pump_run d fuel w fd 0); try done; [|lia..].
  intros E. rewrite E in Hsize. unfold strlen in Hsize. simpl in Hsize. lia.
Qed.

(** The small system reads three bytes at a time. *)
#[export, refine] Instance small_reads : FileReads small := {
  left_in s fd := match assoc_fd fd (opened s) with Some (_, rest) => rest | None => EmptyString end;
}.
Proof.
  - intros fd n s Hn Hne. destruct (assoc_fd fd (opened s)) as [[p rest]|] eqn:E; [|done].
    pose proof (small_read fd n s p rest E) as R.
    change (small_sys (CRead fd n) s) with (sys_step (CRead fd n) s) in R. rewrite R.
    exists (strtake 3 rest). split; [done|]. split; [by destruct rest|].
    cbn [snd opened set_opened]. by rewrite assoc_fd_cons, strtake_strdrop.
  - done.
Defined.

(** A session that has opened the notes for a protected transfer. *)
Definition retr_world : world small :=
  World (set_data_write_cb (Some send_next_chunk)
           (set_data_stream (Some (FileStream 100 0 12)) zero_connection))
    (set_opened [(100, ("notes.txt", "hello, world"))]%string sample_small)
    (Ledger 2 {[1%nat := KDataBev]}) [].

Example retr_chunks_are_the_file_witness :
  exists w' l, pump 12 (Some 1%nat) retr_world = Ok (tt, w') /\ trace w' = l /\
    written_to 1 l = "hello, world"%string /\ existsb closes_fd l = false.
Proof.
  destruct (retr_chunks_are_the_file 12 1 retr_world 100 12) as (w' & l & Hr & Ht & Hw & Hc & _);
    [reflexivity..|lia|].
  exists w', l. split; [exact Hr|]. split; [exact Ht|]. split; [exact Hw|exact Hc].
Defined.
