(* ===== verification/Stor.v ===== *)
(** * The STOR command (src/actions/stor.c) *)

From S2P Require Import Prelude CString Connection System SmallSystem Control.
From stdpp Require Import options.

Local Open Scope Z_scope.

Section Stor.
Context {S : Type} `{Sys S}.

Definition cftp_recv_file_with_evbuffer (filepath : string) : act S unit :=
  b ← get data_bev;
  match b with
  | None => send_control_message FTP_STATUS_CANNOT_OPEN_DATA "Cannot open data connection"
  | Some _ =>
      fd ← do_call (COpenWrite filepath);
      if fd <? 0 then
        put (set_control_write_cb (Some close_data_connection_on_writecb));;
        send_control_message FTP_STATUS_FILE_ACTION_NOT_TAKEN_PERM
          "Failed to open file for writing"
      else
        put (set_upload_fd fd);;
        put (set_data_eof_event_cb (Some on_eof_event_cb));;
        tls ← get data_tls_required;
        (if tls : bool then
           put (set_data_tls_event_connected_cb (Some stor_tls_on_bev_event_connected))
         else put (set_data_read_cb (Some on_stor_read)));;
        send_control_message FTP_STATUS_FILE_STATUS_OKAY "Read to receive"
  end.

Definition run_stor_tls_on_bev_event_connected (b : option nat) : act S unit :=
  match b with
  | None => mret tt
  | Some _ => put (set_data_read_cb (Some on_stor_read))
  end.

(** [while (evbuffer_get_length(input) > 0) evbuffer_write(input, fd)]. *)
Fixpoint drain (fuel : nat) (b : option nat) : act S unit :=
  match fuel with
  | O => hang
  | Datatypes.S fuel' =>
      len ← input_length b;
      if 0 <? len then
        fd ← get upload_fd;
        evbuffer_write b fd;;
        drain fuel' b
      else mret tt
  end.

Definition run_on_stor_read (fuel : nat) (b : option nat) : act S unit := drain fuel b.

Definition run_on_eof_event_cb (fuel : nat) (b : option nat) : act S unit :=
  d ← get data_bev;
  match d, b with
  | Some _, Some _ =>
      fd ← get upload_fd;
      if 0 <=? fd then
        drain fuel d;;
        do_call (CFsync fd);;
        do_call (CClose fd);;
        put (set_upload_fd (-1));;
        send_control_message FTP_STATUS_DATA_CONNECTION_CLOSING "Transfer complete"
      else
        send_control_message FTP_STATUS_INSUFFICIENT_STORAGE "An error occurred"
  | _, _ => mret tt
  end.
End Stor.

(** ** Walking through the write loop *)

Lemma keeps_drain {S} `{Sys S} {okput okcall okkind R} `{!Tame (S:=S) okput okcall okkind R} fuel b :
  (forall h, okcall (CInputLength h)) -> (forall h fd, okcall (CEvbufferWrite h fd)) ->
  keeps R (drain (S:=S) fuel b).
Proof.
  intros H1 H2. induction fuel as [|fuel IH]; cbn [drain]; walk ltac:(solve [eauto]) ltac:(apply IH).
Qed.

(** ** Storing what arrives *)

(** A system on which [evbuffer_write] moves some of what is pending, in
    order, to the end of the file. *)
Class Uploads (S : Type) `{Sys S} := {
  pending : S -> nat -> string;
  stored : S -> Z -> string;
  can_store : S -> Z -> Prop;
  pending_length : forall h s, sys_step (CInputLength h) s = (strlen (pending s h), s);
  write_some : forall h fd s, pending s h <> EmptyString -> can_store s fd -> exists piece,
    piece <> EmptyString /\
    pending s h = piece +:+ pending (snd (sys_step (CEvbufferWrite h fd) s)) h /\
    stored (snd (sys_step (CEvbufferWrite h fd) s)) fd = stored s fd +:+ piece /\
    can_store (snd (sys_step (CEvbufferWrite h fd) s)) fd;
  stored_fsync : forall n fd s, stored (snd (sys_step (CFsync n) s)) fd = stored s fd;
  stored_close : forall n fd s, stored (snd (sys_step (CClose n) s)) fd = stored s fd;
  stored_write : forall h bytes fd s, stored (snd (sys_step (CBevWrite h bytes) s)) fd = stored s fd;
}.

(** What the write loop does to the record of calls. *)
Definition drain_event (e : event) : bool :=
  match e with Did (CInputLength _) _ | Did (CEvbufferWrite _ _) _ => true | _ => false end.

Section Upload.
Context {S : Type} `{Uploads S}.
#[local] Set Default Proof Using "Type*".

Lemma input_length_run (w : world S) d :
  live (handles w) !! d = Some KDataBev ->
  input_length (Some d) w = Ok (strlen (pending (sys w) d),
    World (conn w) (sys w) (handles w)
      (trace w ++ [Did (CInputLength d) (strlen (pending (sys w) d))])).
Proof.
  intros Hl. unfold input_length. erewrite act_bind_run; [|by eapply use_live].
  by rewrite (do_call_run (CInputLength d) w _ _ (pending_length d (sys w))).
Qed.

Lemma drain_run fuel : forall (w : world S) d,
  live (handles w) !! d = Some KDataBev -> can_store (sys w) (upload_fd (conn w)) ->
  strlen (pending (sys w) d) < Z.of_nat fuel ->
  exists s l, drain fuel (Some d) w = Ok (tt, World (conn w) s (handles w) (trace w ++ l)) /\
    pending s d = EmptyString /\
    stored s (upload_fd (conn w)) = stored (sys w) (upload_fd (conn w)) +:+ pending (sys w) d /\
    can_store s (upload_fd (conn w)) /\ Forall (fun e => drain_event e = true) l.
Proof.
  induction fuel as [|fuel IH]; intros w d Hl Hfd Hlen; [unfold strlen in Hlen; lia|].
  cbn [drain]. erewrite act_bind_run; [|by apply input_length_run].
  set (w1 := World _ _ _ _).
  destruct (pending (sys w) d) as [|c rest] eqn:Ep.
  - eexists _, _. split; [done|]. split; [done|]. rewrite string_app_nil_r. by repeat constructor.
  - rewrite <- Ep in *.
    destruct (Z.ltb_spec 0 (strlen (pending (sys w) d))) as [_|Hn];
      [|rewrite Ep in Hn; unfold strlen in Hn; simpl in Hn; lia].
    erewrite act_bind_run; [|done].
    destruct (write_some d (upload_fd (conn w)) (sys w)) as (piece & Hp & Hpend & Hst & Hcan);
      [by rewrite Ep|done|].
    destruct (sys_step (CEvbufferWrite d (upload_fd (conn w))) (sys w)) as [[] s] eqn:E.
    cbn [snd] in Hpend, Hst, Hcan.
    erewrite act_bind_run;
      [|unfold evbuffer_write; erewrite act_bind_run; [|by eapply use_live];
        by apply (do_call_run (CEvbufferWrite d (upload_fd (conn w))))].
    subst w1. cbn [conn sys handles trace].
    match goal with |- exists s l, drain _ _ ?v = _ /\ _ =>
      destruct (IH v d) as (s' & l & Hr & He & Hs & Hcan' & Hl'); [done|done| |] end.
    { cbn [sys]. unfold strlen in *. rewrite Hpend, length_string_app in Hlen.
      destruct piece; [done|]. simpl in Hlen. lia. }
    cbn [conn sys handles trace] in *. rewrite Hr, <- !app_assoc. eexists _, _. split; [done|].
    split; [done|]. split; [by rewrite Hs, Hst, Hpend, string_app_assoc|]. by repeat constructor.
Qed.
End Upload.

(** A whole [STOR] ends with everything stored. *)
Definition upload_line : string :=
  control_line FTP_STATUS_DATA_CONNECTION_CLOSING "Transfer complete".

(** ** Properties *)

(** When the client closes the data connection of a STOR, everything it
    sent and that is still in the input buffer is appended to the file in
    order before the file is synchronised and closed, and only then the
    reply "Transfer complete" is written; the loop ends as long as each write
    stores something. *)
Theorem upload_is_complete {S} `{Uploads S} fuel b d h (w : world S) fd :
  data_bev (conn w) = Some d -> live (handles w) !! d = Some KDataBev ->
  bev (conn w) = Some h -> live (handles w) !! h = Some KControlBev ->
  upload_fd (conn w) = fd -> 0 <= fd -> can_store (sys w) fd ->
  strlen (pending (sys w) d) < Z.of_nat fuel ->
  exists w' l, run_on_eof_event_cb fuel (Some b) w = Ok (tt, w') /\
    trace w' = trace w ++ l ++ [Did (CFsync fd) tt; Did (CClose fd) tt; Did (CBevWrite h upload_line) tt] /\
    stored (sys w') fd = stored (sys w) fd +:+ pending (sys w) d /\
    conn w' = set_upload_fd (-1) (conn w) /\ handles w' = handles w /\
    Forall (fun e => drain_event e = true) l.
Proof.
  intros Hd Hdl Hb Hbl Hfd Hpos Hcan Hlen.
  destruct (drain_run fuel w d Hdl) as (s & l & Hdrain & _ & Hst & _ & Hl); [by rewrite Hfd|done|].
  unfold run_on_eof_event_cb. erewrite act_bind_run; [|done]. rewrite Hd.
  erewrite act_bind_run; [|done]. rewrite Hfd in *. rewrite (proj2 (Z.leb_le 0 fd)) by done.
  erewrite act_bind_run; [|exact Hdrain].
  destruct (sys_step (CFsync fd) s) as [[] s1] eqn:E1.
  erewrite act_bind_run; [|by apply (do_call_run (CFsync fd))].
  destruct (sys_step (CClose fd) s1) as [[] s2] eqn:E2.
  erewrite act_bind_run; [|by apply (do_call_run (CClose fd))].
  erewrite act_bind_run; [|done]. cbn [conn sys handles trace].
  match goal with |- exists w' l, send_control_message ?a ?t ?v = _ /\ _ =>
    destruct (sys_step (CBevWrite h (control_line a t)) s2) as [[] s3] eqn:E3;
    assert (send_control_message a t v = Ok (tt, World (conn v) s3 (handles v)
      (trace v ++ [Did (CBevWrite h (control_line a t)) tt]))) as ->
  end.
  { unfold send_control_message. erewrite act_bind_run; [|done]. cbn [conn]. fields. rewrite Hb.
    unfold bufferevent_write. erewrite act_bind_run; [|by eapply use_live].
    by apply (do_call_run (CBevWrite h _)). }
  eexists _, l. split; [done|]. cbn [conn sys handles trace]. split; [by rewrite <- !app_assoc|].
  split; [|done].
  pose proof (stored_fsync fd fd s) as F1. pose proof (stored_close fd fd s1) as F2.
  pose proof (stored_write h (control_line FTP_STATUS_DATA_CONNECTION_CLOSING "Transfer complete") fd s2) as F3.
  rewrite E1 in F1. rewrite E2 in F2. rewrite E3 in F3. cbn [snd] in F1, F2, F3. congruence.
Qed.

#[export, refine] Instance small_uploads : Uploads small := {
  pending s h := input_of h s;
  stored s fd := match assoc_fd fd (opened s) with
                 | Some (p, _) => default EmptyString (assoc p (files s))
                 | None => EmptyString
                 end;
  can_store s fd := assoc_fd fd (opened s) <> None;
}.
Proof.
  - done.
  - intros h fd s Hne Hc. exists (input_of h s). split; [done|].
    destruct (assoc_fd fd (opened s)) as [[p r]|] eqn:E; [|done].
    pose proof (small_evbuffer_write h fd s p r E) as R.
    change (small_sys (CEvbufferWrite h fd) s) with (sys_step (CEvbufferWrite h fd) s) in R. rewrite R.
    cbn [snd]. rewrite input_of_set, string_app_nil_r. cbn [set_input set_files opened files].
    rewrite E. split; [done|]. split; [by rewrite assoc_cons|done].
  - done.
  - done.
  - done.
Defined.

(** An upload with five bytes left to store. *)
Definition stor_world : world small :=
  World (set_upload_fd 100 (set_data_bev (Some 1%nat) (set_bev (Some 0%nat) zero_connection)))
    (set_input 1 "hello" (set_opened [(100, ("new.txt", EmptyString))]%string
      (set_files [("new.txt", "say: ")]%string sample_small)))
    (Ledger 2 {[0%nat := KControlBev; 1%nat := KDataBev]}) [].

Example upload_is_complete_witness :
  exists w' l, run_on_eof_event_cb 9 (Some 1%nat) stor_world = Ok (tt, w') /\
    trace w' = l ++ [Did (CFsync 100) tt; Did (CClose 100) tt; Did (CBevWrite 0 upload_line) tt] /\
    stored (sys w') 100 = "say: hello"%string.
Proof.
  destruct (upload_is_complete 9 1 1 0 stor_world 100) as (w' & l & Hr & Ht & Hs & _);
    [reflexivity..|lia|discriminate|reflexivity|].
  exists w', l. split; [exact Hr|]. split; [exact Ht|exact Hs].
Defined.

(** Without progress the loop has no end: a full disk stalls the session. *)
Lemma drain_endless {S} `{Sys S} fuel d : forall (w : world S),
  live (handles w) !! d = Some KDataBev ->
  (forall s, 0 < fst (sys_step (CInputLength d) s)) ->
  drain fuel (Some d) w = Hang.
Proof.
  induction fuel as [|fuel IH]; intros w Hl Hn; [done|]. cbn [drain].
  destruct (sys_step (CInputLength d) (sys w)) as [n s] eqn:E.
  pose proof (Hn (sys w)) as Hpos. rewrite E in Hpos. cbn [fst] in Hpos.
  erewrite act_bind_run;
    [|unfold input_length; erewrite act_bind_run; [|by eapply use_live];
      exact (do_call_run (CInputLength d) w _ _ E)].
  rewrite (proj2 (Z.ltb_lt 0 n)) by done. erewrite act_bind_run; [|done].
  unfold evbuffer_write.
  match goal with |- ((_ ≫= _) ≫= _) ?v = _ =>
    destruct (sys_step (CEvbufferWrite d (upload_fd (conn w))) (sys v)) as [[] s2] eqn:E2;
    erewrite act_bind_run;
      [|erewrite act_bind_run; [|by eapply use_live]; exact (do_call_run (CEvbufferWrite d _) v _ _ E2)]
  end.
  by apply IH.
Qed.
