(* ===== verification/Actions.v ===== *)
(** * The command handlers (src/actions/command_actions.c)

    One definition per handler, in the order of the source.  Handlers take
    the parsed command; the connection and the system are the state of the
    [act] monad. *)

From S2P Require Import Prelude CString CommandParser Config Connection System SmallSystem Control.
From S2P Require Import ServerState DataHandler Security Auth Calendar Dele Listing Retr Stor.
From stdpp Require Import options.

Local Open Scope Z_scope.

(** The text [cftp_invalid_action] builds for the log: [len] bytes of the
    buffer are used, [remaining] are left. *)
Fixpoint join_arguments (l : list string) (acc : string) : string :=
  match l with
  | [] => acc
  | a :: l' =>
      let remaining := MAX_COMMAND_LENGTH - strlen acc in
      let text := match l' with [] => a | _ => a +:+ " " end in
      let acc' := acc +:+ snprintf_s (Z.to_nat remaining) text in
      if remaining <=? strlen text then acc' else join_arguments l' acc'
  end.

Definition features : string :=
  "211-Features:" +:+ (crlf +:+ (" EPSV" +:+ (crlf +:+ (" PASV" +:+ (crlf +:+ (" AUTH" +:+ (crlf +:+
  (" SIZE" +:+ (crlf +:+ (" MDTM" +:+ (crlf +:+ (" MLSD" +:+ (crlf +:+ "211 End"))))))))))))).

Section Actions.
Context {S : Type} `{Sys S}.
Variable srv : server_state_t.
Variable fuel : nat.

Definition handle_cwd_command (params : string) : act S unit :=
  b ← get bev;
  if strlen params =? 0 then write_text_response b ("550 Missing path." +:+ crlf)
  else if negb (is_path_safe (Some params)) then
    send_control_message FTP_STATUS_FILE_ACTION_NOT_TAKEN_PERM "Invalid path"
  else
    let target_path := snprintf_s (Z.to_nat PATH_MAX) params in
    st ← do_call (CStat target_path);
    if negb (match st with Some st => S_ISDIR (st_mode st) | None => false end) then
      write_text_response b ("550 Not a directory." +:+ crlf)
    else
      r ← do_call (CChdir target_path);
      if r <? 0 then write_text_response b ("550 Failed to change directory." +:+ crlf)
      else write_text_response b ("250 Directory successfully changed." +:+ crlf).

Definition handle_mdtm_command (arg : string) : act S unit :=
  st ← do_call (CStat arg);
  match st with
  | Some st =>
      if S_ISDIR (st_mode st) then
        send_control_message FTP_STATUS_FILE_ACTION_NOT_TAKEN_PERM "Failed to get modification time"
      else
        gmt ← nonnull (gmtime (st_mtime st));
        send_control_message FTP_STATUS_FILE_STATUS (strftime_mdtm gmt)
  | None =>
      send_control_message FTP_STATUS_FILE_ACTION_NOT_TAKEN_PERM "Failed to get modification time"
  end.

(** [cmd->args[i]] as an argument that is dereferenced. *)
Definition argument (cmd : cftp_command_t) (i : nat) : act S string := nonnull (arg_at cmd i).

Definition not_one_argument (cmd : cftp_command_t) : bool := negb (argc cmd =? 1).

Definition syntax_error (text : string) : act S unit :=
  send_control_message FTP_STATUS_SYNTAX_ERROR_PARAMS text.

Definition cftp_syst_action (cmd : cftp_command_t) : act S unit :=
  send_control_message FTP_STATUS_NAME_SYSTEM_TYPE "UNIX Type: L8".

Definition cftp_quit_action (cmd : cftp_command_t) : act S unit :=
  send_control_message FTP_STATUS_SERVICE_CLOSING "Goodbye".

Definition cftp_auth_action (cmd : cftp_command_t) : act S unit :=
  if not_one_argument cmd then syntax_error "File path not provided"
  else
    a ← argument cmd 0;
    if matches a "TLS" then upgrade_to_tls
    else send_control_message FTP_STATUS_SYNTAX_ERROR_PARAMS "Invalid parameter".

Definition cftp_pbsz_action (cmd : cftp_command_t) : act S unit :=
  send_control_message FTP_STATUS_COMMAND_OK "PBSZ=0".

Definition cftp_prot_action (cmd : cftp_command_t) : act S unit :=
  if not_one_argument cmd then syntax_error "File path not provided"
  else
    a ← argument cmd 0;
    if matches a "P" then
      put (set_data_tls_required true);;
      send_control_message FTP_STATUS_COMMAND_OK "PROT now Private"
    else
      send_control_message FTP_STATUS_COMMAND_NOT_IMPLEMENTED_PERM "Unsupported PROT level".

Definition cftp_noop_action (cmd : cftp_command_t) : act S unit :=
  send_control_message FTP_STATUS_COMMAND_OK "NOOP command successful".

Definition cftp_feat_action (cmd : cftp_command_t) : act S unit :=
  send_control_message 0 features.

(** [join_arguments (args cmd) EmptyString] goes to the log. *)
Definition cftp_invalid_action (cmd : cftp_command_t) : act S unit :=
  send_control_message FTP_STATUS_COMMAND_NOT_IMPLEMENTED_PERM "Unknown command".

Definition cftp_non_authenticated (cmd : cftp_command_t) : act S unit :=
  send_control_message FTP_STATUS_NOT_LOGGED_IN "Not logged in".

Definition cftp_type_authenticated_action (cmd : cftp_command_t) : act S unit :=
  if not_one_argument cmd then syntax_error "File path not provided"
  else
    a ← argument cmd 0;
    if matches a "I" then
      put (set_transfer_mode TRANSFER_MODE_BINARY);;
      send_control_message FTP_STATUS_COMMAND_OK "Type set to I"
    else if matches a "A" then
      put (set_transfer_mode TRANSFER_MODE_ASCII);;
      send_control_message FTP_STATUS_COMMAND_OK "Type set to A"
    else send_control_message FTP_STATUS_UNSUPPORTED_TYPE "Unsupported type".

Definition cftp_epsv_authenticated_action (cmd : cftp_command_t) : act S unit :=
  data_connection_listener_config srv fuel true.

Definition cftp_pasv_authenticated_action (cmd : cftp_command_t) : act S unit :=
  data_connection_listener_config srv fuel false.

Definition cftp_nlst_authenticated_action (cmd : cftp_command_t) : act S unit :=
  handle_list_command cmd false.

Definition cftp_list_authenticated_action (cmd : cftp_command_t) : act S unit :=
  handle_list_command cmd true.

Definition cftp_size_authenticated_action (cmd : cftp_command_t) : act S unit :=
  if not_one_argument cmd then syntax_error "File path not provided"
  else
    a ← argument cmd 0;
    if negb (is_path_safe (Some a)) then
      send_control_message FTP_STATUS_FILE_ACTION_NOT_TAKEN_PERM "Invalid path"
    else
      st ← do_call (CStat a);
      match st with
      | Some st =>
          if S_ISDIR (st_mode st) then
            send_control_message FTP_STATUS_FILE_ACTION_NOT_TAKEN_PERM "File not found"
          else
            send_control_message FTP_STATUS_FILE_STATUS
              (snprintf_s (Z.to_nat MAX_COMMAND_LENGTH) (print_unsigned (u64 (st_size st))))
      | None => send_control_message FTP_STATUS_FILE_ACTION_NOT_TAKEN_PERM "File not found"
      end.

Definition cftp_retr_authenticated_action (cmd : cftp_command_t) : act S unit :=
  if not_one_argument cmd then syntax_error "File path not provided"
  else a ← argument cmd 0; cftp_send_file a.

Definition cftp_stor_authenticated_action (cmd : cftp_command_t) : act S unit :=
  if not_one_argument cmd then syntax_error "File path not provided"
  else a ← argument cmd 0; cftp_recv_file_with_evbuffer a.

Definition cftp_mdtm_authenticated_action (cmd : cftp_command_t) : act S unit :=
  if not_one_argument cmd then syntax_error "Invalid syntax in parameters"
  else a ← argument cmd 0; handle_mdtm_command a.

Definition cftp_dele_authenticated_action (cmd : cftp_command_t) : act S unit :=
  handle_dele_command fuel cmd.

Definition cftp_mkd_authenticated_action (cmd : cftp_command_t) : act S unit :=
  if not_one_argument cmd then syntax_error "Invalid syntax in parameters"
  else
    a ← argument cmd 0;
    if negb (is_path_safe (Some a)) then
      send_control_message FTP_STATUS_FILE_NAME_NOT_ALLOWED "File name not allowed"
    else
      st ← do_call (CStat a);
      match st with
      | Some _ =>
          send_control_message FTP_STATUS_FILE_ACTION_NOT_TAKEN_PERM "Directory already exists"
      | None =>
          r ← do_call (CMkdir a 0x1ed);
          if r =? 0 then
            send_control_message FTP_STATUS_PATHNAME_CREATED "Make directory successful"
          else
            send_control_message FTP_STATUS_FILE_ACTION_NOT_TAKEN_PERM
              "Failed to create directory."
      end.

Definition cftp_rmd_authenticated_action (cmd : cftp_command_t) : act S unit :=
  if not_one_argument cmd then syntax_error "Invalid syntax in parameters"
  else
    a ← argument cmd 0;
    if negb (is_path_safe (Some a)) then
      send_control_message FTP_STATUS_FILE_NAME_NOT_ALLOWED "File name not allowed"
    else
      st ← do_call (CStat a);
      if negb (match st with Some st => S_ISDIR (st_mode st) | None => false end) then
        send_control_message FTP_STATUS_FILE_ACTION_NOT_TAKEN_PERM "Directory not found"
      else
        r ← do_call (CRmdir a);
        if r =? 0 then
          send_control_message FTP_STATUS_FILE_ACTION_OK "Remove directory successful"
        else
          send_control_message FTP_STATUS_FILE_ACTION_NOT_TAKEN_PERM
            "Failed to remove directory. Ensure it's empty.".

Definition cftp_cwd_authenticated_action (cmd : cftp_command_t) : act S unit :=
  if not_one_argument cmd then syntax_error "Invalid syntax in parameters"
  else
    a ← argument cmd 0;
    if negb (strlen a =? 0) then handle_cwd_command a
    else syntax_error "Path not provided".

Definition pwd_response (cwd : string) : string :=
  snprintf_s (Z.to_nat (PATH_MAX + 32))
    (String dquote (cwd +:+ String dquote " is current directory")).

Definition cftp_pwd_authenticated_action (cmd : cftp_command_t) : act S unit :=
  cwd ← do_call CGetcwd;
  match cwd with
  | Some cwd => send_control_message FTP_STATUS_PATHNAME_CREATED (pwd_response cwd)
  | None =>
      send_control_message FTP_STATUS_FILE_ACTION_NOT_TAKEN_PERM
        "Failed to get current directory"
  end.

Definition cftp_abor_authenticated_action (cmd : cftp_command_t) : act S unit :=
  active ← get data_active;
  if negb (active =? 0) then
    close_data_connection;;
    send_control_message FTP_STATUS_ACTION_ABORTED "closed data connection; tansfer aborted"
  else
    put (set_control_write_cb (Some close_data_connection_on_writecb));;
    send_control_message FTP_STATUS_DATA_CONNECTION_CLOSING "No transfer in progress".

Definition cftp_authenticated (cmd : cftp_command_t) : act S unit :=
  send_control_message FTP_STATUS_USER_LOGGED_IN "Already logged in".

Definition cftp_user_authenticated (cmd : cftp_command_t) : act S unit :=
  if not_one_argument cmd then
    put (set_control_write_cb (Some disable_connection_cb));;
    syntax_error "Invalid syntax in parameters"
  else
    a ← argument cmd 0;
    found ← user_exists a;
    if found : bool then
      send_control_message FTP_STATUS_USER_NAME_OK "User name okay, need password"
    else send_control_message FTP_STATUS_NOT_LOGGED_IN "User not found".

Definition cftp_pass_authenticated (cmd : cftp_command_t) : act S unit :=
  if not_one_argument cmd then
    put (set_control_write_cb (Some disable_connection_cb));;
    syntax_error "Invalid syntax in parameters"
  else
    a ← argument cmd 0;
    name ← get username;
    ok ← authenticate_and_switch_user name a;
    if ok : bool then
      send_control_message FTP_STATUS_USER_LOGGED_IN "User logged in";;
      put (set_authenticated true);;
      t ← get timeout_event;
      evtimer_del t;;
      event_free t
    else send_control_message FTP_STATUS_NOT_LOGGED_IN "Invalid credentials".
End Actions.

(** ** Properties *)

(** C27: MDTM of a file writes one line, "213 " and fourteen digits; a client
    that reads them as year, month, day, hour, minute and second in UTC gets
    the modification time back, for every time from 1970 to 9999. *)
Theorem mdtm_reply_readback {S} `{Sys S} path (w : world S) h st s :
  bev (conn w) = Some h -> live (handles w) !! h = Some KControlBev ->
  sys_step (CStat path) (sys w) = (Some st, s) -> S_ISDIR (st_mode st) = false ->
  0 <= st_mtime st < 253402300800 ->
  exists w' digits, handle_mdtm_command path w = Ok (tt, w') /\
    trace w' = trace w ++ [Did (CStat path) (Some st);
      Did (CBevWrite h ("213 " +:+ (digits +:+ crlf))) tt] /\
    String.length digits = 14%nat /\ all_chars isdigit digits = true /\
    timegm (read_mdtm digits) = st_mtime st.
Proof.
  intros Hb Hl Hs Hd Ht. destruct (gmtime_year _ Ht) as (x & Hx & Hy).
  destruct (gmtime_ok _ _ Hx) as (Htm & Hm & Hday & Hh & Hmin & Hsec & _).
  destruct (mdtm_text x) as (Hlen & Hdig & Hread); [lia|done..|].
  set (w1 := World (conn w) s (handles w) (trace w ++ [Did (CStat path) (Some st)])).
  destruct (send_control_run w1 h FTP_STATUS_FILE_STATUS (strftime_mdtm x)) as (s' & Hsend); [done..|].
  eexists _, (strftime_mdtm x). split.
  { unfold handle_mdtm_command. erewrite act_bind_run; [|exact (do_call_run (CStat path) w _ _ Hs)].
    cbv beta iota. rewrite Hd, Hx. cbn [nonnull]. erewrite act_bind_run; [|done]. exact Hsend. }
  split; [|by rewrite Hread].
  cbn [trace]. subst w1. cbn [trace]. rewrite <- app_assoc.
  rewrite control_line_short by (first [by split | unfold strlen; lia]). done.
Qed.

Example mdtm_reply_readback_witness :
  exists w' digits, handle_mdtm_command "notes.txt" passive_world = Ok (tt, w') /\
    trace w' = [Did (CStat "notes.txt") (Some (Stat 0x81a4 1 1000 1000 12 1700000000));
      Did (CBevWrite 0 ("213 " +:+ (digits +:+ crlf))) tt] /\
    timegm (read_mdtm digits) = 1700000000.
Proof.
  destruct (mdtm_reply_readback "notes.txt" passive_world 0
    (Stat 0x81a4 1 1000 1000 12 1700000000) sample_small) as (w' & digits & Hr & Ht & _ & _ & Hm).
  - reflexivity.
  - reflexivity.
  - vm_compute. reflexivity.
  - vm_compute. reflexivity.
  - cbn [st_mtime]. lia.
  - exists w', digits. split; [exact Hr|]. split; [exact Ht|exact Hm].
Defined.
