(* ===== verification/Dispatch.v ===== *)
(** * Command dispatch (src/engine/command_parser.c, src/actions/command_actions.h)

    The registry that maps command words to their two callbacks, built on any
    table that meets [StringTableSpec], and [execute_ftp_command], which
    parses a line and runs the callback. *)

From S2P Require Import Prelude CString StringTable CommandParser Connection System.
From S2P Require Import ServerState Actions Config HashMap SmallSystem.
From stdpp Require Import options.

Local Open Scope Z_scope.

(** An [outcome] as a handler step. *)
Definition lift {S A} (m : outcome A) : act S A := fun w =>
  match m with Ok a => Ok (a, w) | Undefined => Undefined | Hang => Hang end.

Record command_cb (S : Type) := CommandCb {
  authenticated_cb : cftp_command_t -> act S unit;
  non_authenticated_cb : cftp_command_t -> act S unit;
}.
Arguments CommandCb {S} _ _.
Arguments authenticated_cb {S} _ _.
Arguments non_authenticated_cb {S} _ _.

Section Dispatch.
Context {S : Type} `{Sys S}.
Variable srv : server_state_t.
Variable fuel : nat.

Definition same_action (f : cftp_command_t -> act S unit) : command_cb S := CommandCb f f.

Definition authenticated_only (f : cftp_command_t -> act S unit) : command_cb S :=
  CommandCb f cftp_non_authenticated.

Definition command_actions : list (string * command_cb S) :=
  [("SYST", same_action cftp_syst_action);
   ("QUIT", same_action cftp_quit_action);
   ("AUTH", same_action cftp_auth_action);
   ("PBSZ", same_action cftp_pbsz_action);
   ("PROT", same_action cftp_prot_action);
   ("NOOP", same_action cftp_noop_action);
   ("FEAT", same_action cftp_feat_action);
   ("TYPE", authenticated_only cftp_type_authenticated_action);
   ("EPSV", authenticated_only (cftp_epsv_authenticated_action srv fuel));
   ("PASV", authenticated_only (cftp_pasv_authenticated_action srv fuel));
   ("NLST", authenticated_only cftp_nlst_authenticated_action);
   ("LIST", authenticated_only cftp_list_authenticated_action);
   ("SIZE", authenticated_only cftp_size_authenticated_action);
   ("RETR", authenticated_only cftp_retr_authenticated_action);
   ("STOR", authenticated_only cftp_stor_authenticated_action);
   ("MDTM", authenticated_only cftp_mdtm_authenticated_action);
   ("CWD", authenticated_only cftp_cwd_authenticated_action);
   ("PWD", authenticated_only cftp_pwd_authenticated_action);
   ("ABOR", authenticated_only cftp_abor_authenticated_action);
   ("MKD", authenticated_only cftp_mkd_authenticated_action);
   ("RMD", authenticated_only cftp_rmd_authenticated_action);
   ("DELE", authenticated_only (cftp_dele_authenticated_action fuel));
   ("USER", CommandCb cftp_authenticated cftp_user_authenticated);
   ("PASS", CommandCb cftp_authenticated cftp_pass_authenticated)]%string.

Section Registry.
Context {T : Type} `{StringTable T (command_cb S)}.

Definition register_command (registry : T) (command : string)
    (authenticated_cb non_authenticated_cb : cftp_command_t -> act S unit) : outcome (Z * T) :=
  st_insert registry command (Some (CommandCb authenticated_cb non_authenticated_cb)).

(** The loop of [initialize_execution_engine]; [None] is [exit(-1)]. *)
Fixpoint register_commands (registry : T) (l : list (string * command_cb S)) : outcome (option T) :=
  match l with
  | [] => mret (Some registry)
  | (name, cb) :: l' =>
      '(code, registry') ← register_command registry name (authenticated_cb cb)
        (non_authenticated_cb cb);
      if code =? 0 then mret None else register_commands registry' l'
  end.

Definition initialize_execution_engine : outcome (option T) :=
  register_commands st_create command_actions.

Definition run_command_cb (cb : command_cb S) (cmd : cftp_command_t) : act S unit :=
  a ← get authenticated;
  if a : bool then authenticated_cb cb cmd else non_authenticated_cb cb cmd.

Definition execute_ftp_command (registry : T) (malloc_ok : nat -> bool) (input : string)
  : act S unit :=
  let cmd := parse_text_command malloc_ok input in
  cb ← lift (st_get registry (command cmd));
  match cb with
  | Some cb => run_command_cb cb cmd
  | None => cftp_invalid_action cmd
  end.
End Registry.

(** The dispatch as a look-up in the static array. *)
Fixpoint find_action (l : list (string * command_cb S)) (name : string)
  : option (command_cb S) :=
  match l with
  | [] => None
  | (n, cb) :: l' => if String.eqb n name then Some cb else find_action l' name
  end.

Definition dispatch (cmd : cftp_command_t) : act S unit :=
  match find_action command_actions (command cmd) with
  | Some cb => run_command_cb cb cmd
  | None => cftp_invalid_action cmd
  end.

(** ** Lemmas *)

Definition actions_map (l : list (string * command_cb S)) (m : gmap string (option (command_cb S)))
  : gmap string (option (command_cb S)) :=
  foldl (fun acc kv => <[kv.1 := Some kv.2]> acc) m l.

Lemma actions_map_lookup l : forall m name,
  NoDup l.*1 ->
  actions_map l m !! name =
    match find_action l name with Some cb => Some (Some cb) | None => m !! name end.
Proof.
  induction l as [|[n cb] l IH]; intros m name Hnd; simpl; [done|].
  inversion_clear Hnd as [|? ? Hni Hnd']. rewrite IH by done.
  destruct (String.eqb_spec n name) as [->|Hne]; simpl.
  - assert (find_action l name = None) as ->.
    { clear IH Hnd'. induction l as [|[n' cb'] l IH]; simpl; [done|].
      apply not_elem_of_cons in Hni as [Hne Hni]. simpl in Hne.
      destruct (String.eqb_spec n' name); [congruence|]. by apply IH. }
    by rewrite lookup_insert_eq.
  - destruct (find_action l name); [done|]. by rewrite lookup_insert_ne.
Qed.

Lemma register_commands_rep {T} `{StringTableSpec T (command_cb S)} l : forall n (t : T) m,
  st_rep (List.length l + n) t m ->
  exists t', register_commands t l = Ok (Some t') /\ st_rep n t' (actions_map l m).
Proof.
  induction l as [|[name cb] l IH]; intros n t m Ht; simpl.
  - by exists t.
  - simpl in Ht. unfold register_command. destruct cb as [f g]. simpl.
    destruct (st_insert_rep _ _ _ name (Some (CommandCb f g)) Ht)
      as (code & t' & -> & Hcode & Ht').
    simpl. destruct (Z.eqb_spec code 0); [done|]. by apply IH.
Qed.

Lemma command_names_nodup : NoDup command_actions.*1.
Proof. cbn. by apply (bool_decide_unpack _). Qed.
End Dispatch.

Lemma keeps_run_command_cb {S} `{Sys S} {okput okcall okkind R}
    `{!Tame (S:=S) okput okcall okkind R} f g cmd :
  keeps R (f cmd) -> keeps R (g cmd) -> keeps R (run_command_cb (CommandCb f g) cmd).
Proof.
  intros Hf Hg. unfold run_command_cb. apply keeps_bind; [apply keeps_get|]. by intros [].
Qed.

(** ** Properties *)

(** C22: registering the 24 commands succeeds on any table that has room for
    them, and from then on [execute_ftp_command] is the direct look-up of the
    parsed command word in the static array: the callback of the column the
    authentication state selects runs, and a word that is not in the array
    runs [cftp_invalid_action]. *)
Theorem execute_is_dispatch {S} `{Sys S} {T} `{StringTableSpec T (command_cb S)} srv fuel :
  (List.length (command_actions srv fuel) <= st_capacity)%nat ->
  exists t, initialize_execution_engine srv fuel = Ok (Some t) /\
    forall malloc_ok input w,
      execute_ftp_command t malloc_ok input w =
      dispatch srv fuel (parse_text_command malloc_ok input) w.
Proof.
  intros Hcap.
  destruct (register_commands_rep (command_actions srv fuel)
    (st_capacity - List.length (command_actions srv fuel)) st_create ∅) as (t & Hi & Hrep).
  { rewrite Nat.add_comm, Nat.sub_add by done. apply st_create_rep. }
  exists t. split; [done|]. intros malloc_ok input w.
  unfold execute_ftp_command, dispatch. set (cmd := parse_text_command malloc_ok input).
  rewrite (st_get_rep _ _ _ (command cmd) Hrep).
  rewrite actions_map_lookup by apply command_names_nodup.
  destruct (find_action _ _); [done|]. by rewrite lookup_empty.
Qed.

(** The program's own table has 32 free slots for the 24 commands. *)
Example execute_is_dispatch_witness :
  exists t : heap (command_cb small) * option hash_table,
    initialize_execution_engine (ServerState fill_default_configurations (PasvRange 40000 41000 1001) 0 "1.0") 10
      = Ok (Some t) /\
    forall malloc_ok input w, execute_ftp_command t malloc_ok input w =
      dispatch (ServerState fill_default_configurations (PasvRange 40000 41000 1001) 0 "1.0") 10
        (parse_text_command malloc_ok input) w.
Proof. apply execute_is_dispatch. change (st_capacity (T:=heap (command_cb small) * option hash_table)) with 32%nat. cbn. lia. Defined.
