(* ===== verification/Session.v ===== *)
(** * A session as a sequence of events (src/engine/control_handler.c,
      src/core/connection.c, src/ipc/interprocess_handler.c)

    The process of one client sets up its connection and then runs libevent's
    loop.  An event of the loop is a [session_event]; [session_step] runs the
    callback the program registered for it, [session] is the reachability
    relation. *)

From S2P Require Import Prelude CString StringTable CommandParser Config Connection System.
From S2P Require Import Control.
From S2P Require Import ServerState DataHandler Auth Ipc Dele Listing Retr Stor Actions.
From S2P Require Import Dispatch.
From stdpp Require Import options.

Local Open Scope Z_scope.

Inductive session_event :=
  | ControlRead                                        (* on_read *)
  | ControlWritten                                     (* on_write *)
  | ControlEvent (events : Z)                          (* on_event *)
  | DataAccept (h : nat) (stack : string) (fd : Z) (addr : sockaddr)
  | DataRead (h : nat)
  | DataWritten (h : nat)
  | DataEvent (h : nat) (events : Z)
  | TimerFired (h : nat)
  | ParentGone (h : nat) (bytes : Z).                  (* on_parent_dead: result of [read] *)

(** The descriptors the listening process made before the fork: [rpc_fd] and
    [pipe_fd], both ends. *)
Record child_fds := ChildFds {
  rpc_parent : Z;   (* rpc_fd[0] *)
  rpc_child : Z;    (* rpc_fd[1] *)
  pipe_read : Z;    (* pipe_fd[0] *)
  pipe_write : Z;   (* pipe_fd[1] *)
}.

(** The child starts with the listener it inherits, handle 0. *)
Definition inherited : ledger := Ledger 1 {[0%nat := KServerListener]}.

Section Session.
Context {S : Type} `{Sys S}.
Variable srv : server_state_t.
Variable fuel : nat.

(** The function a callback field stores. *)
Definition run_callback (cb : data_callback_t) (b : option nat) : act S unit :=
  match cb with
  | close_data_connection_on_writecb => close_data_connection
  | disable_connection_cb => run_disable_connection_cb b
  | close_on_listcb => run_close_on_listcb b
  | close_on_retrcb => run_close_on_retrcb b
  | download_completion_on_plain_connection_cb => run_download_completion b
  | send_next_chunk => run_send_next_chunk b
  | list_tls_on_bev_event_connected => run_list_tls_on_bev_event_connected b
  | stor_tls_on_bev_event_connected => run_stor_tls_on_bev_event_connected b
  | on_stor_read => run_on_stor_read fuel b
  | on_eof_event_cb => run_on_eof_event_cb fuel b
  end.

(** [on_read] with the connection as its cookie. *)
Definition on_read (b : option nat) : act S unit :=
  input ← evbuffer_remove b (Z.of_nat INPUT_LEN - 1);
  dispatch srv fuel (parse_text_command always (c_str input)).

(** The set-up part of [start_control_connection_loop], [false] being its
    early return; the registry is that of [execute_is_dispatch]. *)
Definition start_control_connection_loop (fd pipe : Z) : act S bool :=
  put (set_fd fd);;
  b ← bufferevent_socket_new KControlBev fd;
  match b with
  | None => mret false
  | Some _ =>
      put (set_bev b);;
      kill ← event_new_read pipe;
      event_add kill;;
      t ← evtimer_new KAuthTimer;
      put (set_timeout_event t);;
      evtimer_add t (connection_accept_timeout (config srv));;
      send_control_message FTP_STATUS_SERVICE_READY "Welcome to CFTP Server";;
      bufferevent_setcb b true;;
      bufferevent_enable b;;
      mret true
  end.

(** [register_interprocess_fd_on_server], run by the child; the count of
    connections it raises is the child's copy, which nothing in a session
    reads. *)
Definition register_on_server (interprocess_fd : Z) : act S unit :=
  b ← bufferevent_socket_new KServerIpcBev interprocess_fd;
  match b with
  | None => mret tt
  | Some _ => bufferevent_setcb b true;; bufferevent_enable b
  end.

(** The [child == 0] branch of [control_connection_accept_cb]; it is left,
    with [false], only when [start_control_connection_loop] returns. *)
Definition child_side (fd : Z) (addr : sockaddr) (fds : child_fds) : act S bool :=
  do_call (CClose (pipe_write fds));;
  evconnlistener_free (Some 0%nat);;
  allocated ← do_call CCallocConnection;
  if negb allocated then fail_undefined
  else
    put (set_control_active 1);;
    put (set_source_ip (fill_source_ip addr EmptyString));;
    do_call (CClose (rpc_parent fds));;
    register_interprocess_fd_on_child (rpc_child fds);;
    start_control_connection_loop fd (pipe_read fds).

(** The rest of the function, meant for the parent. *)
Definition parent_side (fd : Z) (fds : child_fds) : act S unit :=
  do_call (CClose (pipe_read fds));;
  do_call (CClose (rpc_child fds));;
  do_call (CClose fd);;
  register_on_server (rpc_parent fds).

(** [control_connection_accept_cb] from the fork on, in the child. *)
Definition start_session (fd : Z) (addr : sockaddr) (fds : child_fds) : act S unit :=
  started ← child_side fd addr fds;
  if started : bool then mret tt else parent_side fd fds.

(** The connection record of the initial state is the one [calloc] makes. *)
Definition initial_world (s0 : S) : world S := World zero_connection s0 inherited [].

(** The event on the pipe from the parent, [n] being what [read] returned.
    [exit(1)] ends the process like the loop's end does. *)
Definition on_parent_dead (n : Z) : act S unit :=
  if 0 <? n then mret tt else do_call CLoopbreak.

(** The callback of an event. *)
Definition handle_event (e : session_event) : act S unit :=
  match e with
  | ControlRead => b ← get bev; on_read b
  | ControlWritten => b ← get bev; on_write run_callback b
  | ControlEvent events => b ← get bev; on_event b events
  | DataAccept h stack fd addr => data_connection_accept_cb stack h fd addr
  | DataRead h => data_connection_read_cb run_callback (Some h)
  | DataWritten h => data_connection_write_cb run_callback (Some h)
  | DataEvent h events => data_connection_event_cb run_callback fuel (Some h) events
  | TimerFired h =>
      k ← handle_kind h;
      match k with
      | Some KAuthTimer => terminate_process_on_timeout
      | _ => kill_listener_on_timeout
      end
  | ParentGone _ n => on_parent_dead n
  end.

(** The loop runs until it is told to stop. *)
Definition is_loopbreak (e : event) : bool :=
  match e with Did CLoopbreak _ => true | _ => false end.

Definition stopped (w : world S) : bool := existsb is_loopbreak (trace w).

(** libevent calls a callback only for a live object it was set on. *)
Definition enabled (w : world S) (e : session_event) : bool :=
  negb (stopped w) &&
  match e with
  | ControlRead | ControlWritten | ControlEvent _ => if bev (conn w) is Some _ then true else false
  | DataAccept h _ _ _ => if live (handles w) !! h is Some KListener then true else false
  | DataRead h | DataWritten h | DataEvent h _ =>
      if live (handles w) !! h is Some KDataBev then true else false
  | TimerFired h =>
      match live (handles w) !! h with
      | Some KAuthTimer | Some KAcceptTimer => true
      | _ => false
      end
  | ParentGone h _ => if live (handles w) !! h is Some KKillEvent then true else false
  end.

Inductive session (fd : Z) (addr : sockaddr) (fds : child_fds) (s0 : S) : world S -> Prop :=
  | session_start w :
      start_session fd addr fds (initial_world s0) = Ok (tt, w) ->
      session fd addr fds s0 w
  | session_event_step w e w' :
      session fd addr fds s0 w -> enabled w e = true -> handle_event e w = Ok (tt, w') ->
      session fd addr fds s0 w'
  | session_environment w s' :
      (* the rest of the system moves on between events *)
      session fd addr fds s0 w ->
      session fd addr fds s0 (World (conn w) s' (handles w) (trace w)).

(** An executable scenario: callbacks, and what the rest of the system does
    in between. *)
Inductive stimulus := Callback (e : session_event) | Environment (f : S -> S).

Fixpoint play (l : list stimulus) (w : world S) : outcome (world S) :=
  match l with
  | [] => mret w
  | Callback e :: l' =>
      if enabled w e then '(_, w') ← handle_event e w; play l' w' else Hang
  | Environment f :: l' => play l' (World (conn w) (f (sys w)) (handles w) (trace w))
  end.

Definition play_session (fd : Z) (addr : sockaddr) (fds : child_fds) (s0 : S) (l : list stimulus)
  : outcome (world S) :=
  '(_, w) ← start_session fd addr fds (initial_world s0);
  play l w.

Lemma play_app l1 l2 : forall w, play (l1 ++ l2) w = play l1 w ≫= play l2.
Proof using Type.
  induction l1 as [|[e|f] l1 IH]; intros w; cbn [play app]; [done| |apply IH].
  destruct (enabled w e); [|done]. by destruct (handle_event e w) as [[u w1]| |]; [apply IH|..].
Qed.

Lemma play_ok fd addr fds s0 l : forall w w',
  session fd addr fds s0 w -> play l w = Ok w' -> session fd addr fds s0 w'.
Proof using Type.
  induction l as [|[e|f] l IH]; intros w w' Hw E; cbn [play] in E.
  - by injection E as <-.
  - destruct (enabled w e) eqn:He; [|done]. apply bind_Ok in E as ([[] w1] & E1 & E2).
    eapply IH; [|exact E2]. by eapply session_event_step.
  - eapply IH; [|exact E]. by apply session_environment.
Qed.

Lemma play_session_ok fd addr fds s0 l w :
  play_session fd addr fds s0 l = Ok w -> session fd addr fds s0 w.
Proof using Type.
  intros ([[] w0] & E1 & E2)%bind_Ok. eapply play_ok; [by apply session_start|done].
Qed.
End Session.
Arguments Callback {S} _.
Arguments Environment {S} _.

(** Walks through any callback of a session, [known] closing the goals that
    have a lemma of their own. *)
Ltac walk_session_with side known :=
  walk side ltac:(first
    [ known
    | first [ apply keeps_bind_loop | apply keeps_openssl_errors | apply keeps_drain | apply keeps_list_entries
            | apply keeps_delete_directory; unfold dele_calls_ok; split_and! ];
      first [intros ?; side | intros ? ?; side | intros ? ? ?; side | side]]).

Ltac walk_session side := walk_session_with side fail.

(** Walks through the dispatch of any command. *)
Ltac walk_dispatch side :=
  unfold dispatch, command_actions; cbn [find_action];
  repeat (destruct (String.eqb _ _); [apply keeps_run_command_cb; walk_session side|]);
  walk_session side.
