(* ===== verification/Scenario.v ===== *)
(** * Concrete sessions

    Runs of [play_session] on the small system, which the witnesses use. *)

From S2P Require Import Prelude CString CommandParser Config Connection System ServerState.
From S2P Require Import Session SmallSystem.
From stdpp Require Import options.

Local Open Scope Z_scope.

Definition sample_server : server_state_t :=
  ServerState fill_default_configurations (PasvRange 40000 41000 1001) 0 "1.0".

(** The descriptors of the socket pair and the pipe. *)
Definition sample_fds : child_fds := ChildFds 8 9 6 11.

(** The client sends a line; the control bufferevent is handle 2. *)
Definition sends (line : string) : list (stimulus (S:=small)) :=
  [Environment (set_input 2 (line +:+ crlf)); Callback ControlRead; Callback ControlWritten].

Definition login_scenario (name password : string) : list (stimulus (S:=small)) :=
  sends ("USER " +:+ name) ++ sends ("PASS " +:+ password) ++ sends "SIZE notes.txt".

Definition played (l : list (stimulus (S:=small))) : world small :=
  match play_session sample_server 10 5 (SockInet 0x7f000001) sample_fds sample_small l with
  | Ok w => w
  | _ => World zero_connection sample_small (Ledger 0 ∅) []
  end.

(** The session after a login as alice. *)
Definition logged_in_world : world small := played (login_scenario "alice" "secret").
