(* ===== verification/Transfers.v ===== *)
(** * Whole transfers (src/engine/data_handler.c, src/actions/retr.c, stor.c,
      list.c, src/engine/control_handler.c)

    A transfer is a command and the callbacks that follow it.  On an open
    plain data connection each of the three ends with the data where it
    belongs, the replies 150 and 226, and the data connection freed. *)

From S2P Require Import Prelude CString StringTable CommandParser Config Connection System.
From S2P Require Import Control.
From S2P Require Import ServerState DataHandler Security Auth Ipc Dele Listing Retr Stor Actions.
From S2P Require Import Dispatch Session SmallSystem Scenario.
From stdpp Require Import options.

Local Open Scope Z_scope.

(** A logged-in session with control bufferevent [h] and a data connection
    [d], protected when [tls] is set. *)
Record connected {S} (tls : bool) (h d : nat) (w : world S) : Prop := {
  c_running : stopped w = false;
  c_login : authenticated (conn w) = true;
  c_plain : data_tls_required (conn w) = tls;
  c_bev : bev (conn w) = Some h;
  c_bev_live : live (handles w) !! h = Some KControlBev;
  c_data : data_bev (conn w) = Some d;
  c_data_live : live (handles w) !! d = Some KDataBev;
}.

(** The data connection is gone, the control connection goes on. *)
Definition transfer_over {S} (h d : nat) (w : world S) : Prop :=
  data_bev (conn w) = None /\ live (handles w) !! d = None /\
  bev (conn w) = Some h /\ live (handles w) !! h = Some KControlBev /\ stopped w = false.

Definition freed (d : nat) : list event :=
  [Did (CBevSetcb d false) tt; Did (CBevDisable d) tt; Did (CBevFree d) tt].

Definition reply_150 (text : string) : string := control_line FTP_STATUS_FILE_STATUS_OKAY text.
Definition reply_226 (text : string) : string := control_line FTP_STATUS_DATA_CONNECTION_CLOSING text.

Lemma stopped_app {S} (w : world S) c (s : S) l :
  stopped w = false -> Forall (fun e => is_loopbreak e = false) l ->
  stopped (World c s (handles w) (trace w ++ l)) = false.
Proof.
  unfold stopped. cbn [trace]. intros Hs Hl. rewrite existsb_app, Hs. cbn [orb].
  induction Hl as [|e l He _ IH]; [done|]. cbn [existsb]. by rewrite He.
Qed.

(** What libevent reports after a name listing: the data is out, when there
    is any, and the closing reply is out. *)
Definition listing_turns {S} (d : nat) (out : string) (f g : S -> S) : list (stimulus (S:=S)) :=
  (if strlen out =? 0 then [] else [Environment f; Callback (DataWritten d)]) ++
  [Environment g; Callback ControlWritten].

Section Transfers.
Context {S : Type} `{Sys S}.
Variable srv : server_state_t.
Variable fuel : nat.
#[local] Set Default Proof Using "Type*".

(** Replying leaves the connection open. *)
Lemma connected_send tls h d (w : world S) status text :
  connected tls h d w ->
  exists s, let w' := World (conn w) s (handles w)
                        (trace w ++ [Did (CBevWrite h (control_line status text)) tt]) in
    s = snd (sys_step (CBevWrite h (control_line status text)) (sys w)) /\
    send_control_message status text w = Ok (tt, w') /\ connected tls h d w'.
Proof.
  intros []. eexists. split; [done|]. split.
  - unfold send_control_message. erewrite act_bind_run; [|done]. rewrite c_bev0.
    unfold bufferevent_write. erewrite act_bind_run; [|by eapply use_live].
    rewrite do_call_called. unfold called.
    by destruct (sys_step (CBevWrite h (control_line status text)) (sys w)) as [[] s].
  - split; try done. by apply stopped_app; [|repeat constructor].
Qed.

Lemma free_data_run tls h d (w : world S) :
  connected tls h d w ->
  exists w', close_data_connection w = Ok (tt, w') /\ trace w' = trace w ++ freed d /\
    sys w' = snd (sys_step (CBevFree d) (snd (sys_step (CBevDisable d)
               (snd (sys_step (CBevSetcb d false) (sys w)))))) /\
    transfer_over h d w'.
Proof.
  intros []. unfold close_data_connection. erewrite act_bind_run; [|done]. rewrite c_data0.
  unfold bufferevent_setcb, bufferevent_disable, bufferevent_free, mbind, act_bind, do_call, forget, put, get.
  rewrite (use_live w is_bev KDataBev) by done.
  destruct (sys_step (CBevSetcb d false) (sys w)) as [[] s1]. cbn [snd].
  rewrite (use_live _ is_bev KDataBev) by done. cbn [sys handles conn trace].
  destruct (sys_step (CBevDisable d) s1) as [[] s2]. cbn [snd].
  rewrite (use_live _ is_bev KDataBev) by done. cbn [sys handles conn trace].
  destruct (sys_step (CBevFree d) s2) as [[] s3]. cbn [sys handles conn trace snd].
  rewrite <- !app_assoc. cbn [app].
  assert (forall c, bev c = Some h -> data_bev c = None ->
    transfer_over (S:=S) h d (World c s3 (Ledger (next (handles w)) (delete d (live (handles w))))
      (trace w ++ freed d))) as Hover.
  { intros c Hb Hd. split; [done|]. split; [apply lookup_delete_eq|]. split; [done|].
    split; [|by apply (stopped_app w c s3); [|repeat constructor]].
    cbn [handles live]. rewrite lookup_delete_ne; [done|]. intros ->. congruence. }
  fields. destruct (data_stream (conn w)); eexists;
    (split; [done|]; split; [done|]; split; [done|]; apply Hover; by fields).
Qed.

(** The closing reply is out. *)
Lemma close_on_written tls h d (w : world S) :
  connected tls h d w -> control_write_cb (conn w) = Some close_data_connection_on_writecb ->
  exists w', play srv fuel [Callback ControlWritten] w = Ok w' /\
    trace w' = trace w ++ freed d /\ transfer_over h d w'.
Proof.
  intros Hw Hcb. destruct (free_data_run tls h d w Hw) as (w1 & E1 & Ht & _ & Hover). destruct Hw.
  cbn [play]. unfold enabled. rewrite c_running0, c_bev0. cbn [negb andb handle_event].
  eexists. split.
  - erewrite act_bind_run; [|done]. rewrite c_bev0. unfold on_write.
    erewrite act_bind_run; [|done]. rewrite Hcb. cbn [run_callback].
    erewrite act_bind_run; [|exact E1]. done.
  - split; [done|]. destruct Hover as (? & ? & ? & ? & ?). split_and!; done.
Qed.

(** *** RETR *)

Lemma dispatch_retr tls h d (w : world S) file :
  connected tls h d w -> dispatch srv fuel (Command "RETR" [file] 1) w = cftp_send_file file w.
Proof.
  intros []. unfold dispatch, command_actions.
  cbn [find_action command String.eqb Ascii.eqb Bool.eqb]. unfold run_command_cb, authenticated_only.
  erewrite act_bind_run; [|done]. rewrite c_login0. cbn [authenticated_cb].
  unfold cftp_retr_authenticated_action.
  change (not_one_argument (Command "RETR" [file] 1)) with false. cbv beta iota.
  change (argument (Command "RETR" [file] 1) 0) with (mret file : act S string).
  by erewrite act_bind_run; [|done].
Qed.

(** The command queues the file behind the reply 150. *)
Lemma retr_command h d (w : world S) file fd st :
  connected false h d w ->
  fst (sys_step (COpenRead file) (sys w)) = fd -> 0 <= fd ->
  fst (sys_step (CFstat fd) (snd (sys_step (COpenRead file) (sys w)))) = Some st ->
  exists w1, dispatch srv fuel (Command "RETR" [file] 1) w = Ok (tt, w1) /\
    trace w1 = trace w ++ [Did (COpenRead file) fd; Did (CFstat fd) (Some st);
      Did (CBevWrite h (reply_150 "Sending file")) tt; Did (CBevAddFile d fd (st_size st)) tt] /\
    connected false h d w1 /\
    data_write_cb (conn w1) = Some download_completion_on_plain_connection_cb.
Proof.
  intros Hw Hfd Hpos Hst. rewrite (dispatch_retr false h d) by done. destruct Hw. unfold cftp_send_file.
  erewrite act_bind_run; [|done]. rewrite c_plain0. unfold ftp_send_file_plain.
  erewrite act_bind_run; [|done]. rewrite c_data0.
  rewrite (call_bind (COpenRead file)), Hfd, (proj2 (Z.ltb_ge fd 0)) by done.
  rewrite (call_bind (CFstat fd)).
  change (fst (sys_step (CFstat fd) (sys (called (COpenRead file) w)))) with
    (fst (sys_step (CFstat fd) (snd (sys_step (COpenRead file) (sys w))))). rewrite Hst.
  set (w2 := called _ _).
  assert (connected false h d w2) as Hw2.
  { subst w2. unfold called. cbn [conn handles trace]. rewrite <- app_assoc.
    split; try done. by apply stopped_app; [|repeat constructor]. }
  destruct (connected_send false h d w2 FTP_STATUS_FILE_STATUS_OKAY "Sending file" Hw2) as (s3 & _ & E3 & Hw3).
  erewrite act_bind_run; [|exact E3]. erewrite act_bind_run; [|done].
  unfold evbuffer_add_file. cbn [conn sys handles trace].
  erewrite act_bind_run; [|eapply use_live; [exact c_data_live0|done]].
  rewrite do_call_called.
  match goal with |- context [sys_step ?c (sys ?v)] => destruct (fst (sys_step c (sys v))) eqn:Er end.
  eexists. split; [done|]. unfold called at 1. cbn [trace conn].
  assert (forall e, trace w2 ++ [e] = trace w ++ [Did (COpenRead file) fd; Did (CFstat fd) (Some st); e]) as Ht.
  { intros e. subst w2. unfold called. cbn [trace sys]. rewrite Hst, Hfd, <- !app_assoc. done. }
  rewrite Er, Ht. split; [by rewrite <- app_assoc|]. split; [|done].
  unfold called. cbn [conn handles trace]. rewrite <- app_assoc. split; try done.
  by apply (stopped_app w); [|repeat constructor].
Qed.

(** The system moves on and the output has something left, or nothing. *)
Definition output_turn (d : nat) (f : S -> S) : list (stimulus (S:=S)) :=
  [Environment f; Callback (DataWritten d)].

Lemma connected_env tls h d (w : world S) (s : S) :
  connected tls h d w -> connected tls h d (World (conn w) s (handles w) (trace w)).
Proof. by intros []. Qed.

Lemma connected_called tls h d (w : world S) c :
  connected tls h d w -> c <> CLoopbreak -> connected tls h d (called c w).
Proof.
  intros [] Hc. split; try done. apply (stopped_app w); [done|].
  constructor; [by destruct c|constructor].
Qed.

Lemma enabled_data tls h d (w : world S) e :
  connected tls h d w -> e ∈ [DataRead d; DataWritten d; DataEvent d BEV_EVENT_EOF;
    DataEvent d BEV_EVENT_CONNECTED] -> enabled w e = true.
Proof.
  intros [] He. unfold enabled. rewrite c_running0.
  repeat (apply elem_of_cons in He as [->|He]; [by rewrite c_data_live0|]). by apply elem_of_nil in He.
Qed.

Lemma play_callback e (w w1 : world S) l :
  enabled w e = true -> handle_event srv fuel e w = Ok (tt, w1) ->
  play srv fuel (Callback e :: l) w = play srv fuel l w1.
Proof. intros He E. cbn [play]. by rewrite He, E. Qed.

(** A callback announces the end of the transfer. *)
Lemma announce_run tls h d (w : world S) text :
  connected tls h d w ->
  exists w', (put (set_control_write_cb (Some close_data_connection_on_writecb));;
      send_control_message FTP_STATUS_DATA_CONNECTION_CLOSING text) w = Ok (tt, w') /\
    connected tls h d w' /\ trace w' = trace w ++ [Did (CBevWrite h (reply_226 text)) tt] /\
    control_write_cb (conn w') = Some close_data_connection_on_writecb.
Proof.
  intros Hw. erewrite act_bind_run; [|done].
  match goal with |- context [send_control_message _ _ ?v] =>
    destruct (connected_send tls h d v FTP_STATUS_DATA_CONNECTION_CLOSING text) as (s & _ & E & Hv) end.
  { by destruct Hw. }
  eexists. split; [exact E|]. split; [exact Hv|]. done.
Qed.

Lemma output_turn_run h d (w : world S) f :
  connected false h d w -> data_write_cb (conn w) = Some download_completion_on_plain_connection_cb ->
  let n := fst (sys_step (COutputLength d) (f (sys w))) in
  exists w', play srv fuel (output_turn d f) w = Ok w' /\ connected false h d w' /\
    trace w' = trace w ++ Did (COutputLength d) n ::
      (if n =? 0 then [Did (CBevWrite h (reply_226 "Transfer complete")) tt] else []) /\
    (if n =? 0 then control_write_cb (conn w') = Some close_data_connection_on_writecb
     else data_write_cb (conn w') = Some download_completion_on_plain_connection_cb).
Proof.
  intros Hw Hcb n. set (w0 := World (conn w) (f (sys w)) (handles w) (trace w)).
  assert (connected false h d w0) as Hw0 by by apply connected_env.
  pose proof (connected_called false h d w0 (COutputLength d) Hw0 ltac:(done)) as Hw1.
  set (w1 := called (COutputLength d) w0) in Hw1.
  assert (forall w', (if n =? 0 then transfer_complete else mret tt) w1 = Ok (tt, w') ->
    play srv fuel (output_turn d f) w = Ok w') as Hplay.
  { intros w' E. unfold output_turn. cbn [play]. fold w0.
    rewrite (enabled_data false h d) by (done || (right; left)).
    cbn [handle_event]. unfold data_connection_write_cb, run_field.
    erewrite act_bind_run; [|done]. change (conn w0) with (conn w). rewrite Hcb. cbn [run_callback].
    unfold run_download_completion, output_length.
    erewrite act_bind_run; [|erewrite act_bind_run; [|eapply use_live; [apply Hw0|done]];
      exact (do_call_called (COutputLength d) w0)].
    fold w1. change (fst (sys_step (COutputLength d) (sys w0))) with n. by rewrite E. }
  assert (trace w1 = trace w ++ [Did (COutputLength d) n]) as Ht by done.
  destruct (n =? 0) eqn:En.
  - destruct (announce_run false h d w1 "Transfer complete" Hw1) as (w' & E & Hw' & Ht' & Hc).
    exists w'. split; [by apply Hplay|]. split; [done|]. split; [|done].
    by rewrite Ht', Ht, <- app_assoc.
  - exists w1. split; [by apply Hplay|]. split; [done|]. split; [done|exact Hcb].
Qed.
(** *** LIST and NLST *)

Lemma connected_listed tls h d (w : world S) out names (s : S) l dir :
  connected tls h d w -> Forall (fun e => lstat_event e = true) l ->
  Forall (fun e => is_loopbreak e = false) names ->
  connected tls h d (World (listed out (conn w)) s (handles w)
    (trace w ++ names ++ l ++ [Did (CClosedir dir) tt; listing_write h d out])).
Proof.
  intros [] Hl Hn.
  assert (stopped (World (listed out (conn w)) s (handles w)
    (trace w ++ names ++ l ++ [Did (CClosedir dir) tt; listing_write h d out])) = false) as Hst.
  { apply (stopped_app w); [done|]. repeat apply Forall_app_2; [done| |].
    - eapply Forall_impl; [exact Hl|]. by intros [[] ?].
    - constructor; [done|]. constructor; [|constructor]. unfold listing_write. by destruct (_ =? 0). }
  revert c_login0 c_plain0 c_bev0 c_data0 Hst. unfold listed. generalize (conn w). intros c Ha Hp Hb Hd Hst.
  split; try done; cbn [conn]; by destruct (_ =? 0).
Qed.

(** The listing was handed over: its data, when there is any, and the
    closing reply go out. *)
Lemma listing_end tls h d (w : world S) out f g c :
  connected tls h d w -> conn w = listed out c ->
  exists w', play srv fuel (listing_turns d out f g) w = Ok w' /\
    trace w' = trace w ++
      (if strlen out =? 0 then []
       else [Did (CBevWrite h (reply_226 "Directory send OK")) tt]) ++ freed d /\
    transfer_over h d w'.
Proof.
  intros Hw Hc.
  assert (forall v, connected tls h d v ->
    control_write_cb (conn v) = Some close_data_connection_on_writecb ->
    exists w2, play srv fuel [Environment g; Callback ControlWritten] v = Ok w2 /\
      trace w2 = trace v ++ freed d /\ transfer_over h d w2) as Hclose.
  { intros v Hv Hcb. by apply (close_on_written tls h d (World (conn v) (g (sys v)) (handles v) (trace v)));
      [apply connected_env|]. }
  unfold listing_turns, listed in *. destruct (strlen out =? 0).
  - apply Hclose; [done|]. by rewrite Hc.
  - set (v0 := World (conn w) (f (sys w)) (handles w) (trace w)).
    assert (connected tls h d v0) as Hv0 by by apply connected_env.
    destruct (announce_run tls h d v0 "Directory send OK" Hv0) as (v1 & Ev & Hv1 & Tv & Hcv).
    destruct (Hclose v1 Hv1 Hcv) as (w2 & E2 & T2 & Hover). exists w2.
    split; [|split; [|done]].
    + rewrite play_app. transitivity (Ok v1 ≫= play srv fuel [Environment g; Callback ControlWritten]);
        [apply (f_equal (fun o => o ≫= play srv fuel _))|exact E2].
      cbn [play]. fold v0. rewrite (enabled_data tls h d) by (done || (right; left)).
      cbn [handle_event]. unfold data_connection_write_cb, run_field.
      erewrite act_bind_run; [|done]. change (conn v0) with (conn w). rewrite Hc.
      change (data_write_cb (set_data_write_cb (Some close_on_listcb) c)) with (Some close_on_listcb).
      cbn [run_callback]. unfold run_close_on_listcb. by rewrite Ev.
    + by rewrite T2, Tv, <- app_assoc.
Qed.

(** The table leads to the listing. *)
Lemma dispatch_nlst tls h d (w w1 : world S) cmd :
  connected tls h d w -> command cmd = "NLST"%string ->
  handle_list_command cmd false w = Ok (tt, w1) -> dispatch srv fuel cmd w = Ok (tt, w1).
Proof.
  intros [] Hcmd E. unfold dispatch, command_actions. rewrite Hcmd.
  cbn [find_action String.eqb Ascii.eqb Bool.eqb].
  unfold run_command_cb, authenticated_only. erewrite act_bind_run; [|done].
  rewrite c_login0. exact E.
Qed.
End Transfers.

(** *** STOR *)

(** Calls on libevent objects that move no bytes of the transfer. *)
Definition aside (c : call) : bool :=
  match c with
  | CBevWrite _ _ | CBevSetcb _ _ | CBevEnable _ | CBevDisable _ | CBevFree _ => true
  | _ => false
  end.

(** Bytes of the client reach the input of a bufferevent; replies and the
    end of the connection touch neither what is stored nor what is pending
    elsewhere. *)
Class Arrivals (S : Type) `{Uploads S} := {
  arrive : nat -> string -> S -> S;
  arrive_pending : forall h x s, pending (arrive h x s) h = pending s h +:+ x;
  arrive_stored : forall h x fd s, stored (arrive h x s) fd = stored s fd;
  arrive_can : forall h x fd s, can_store s fd -> can_store (arrive h x s) fd;
  write_pending : forall b x h s, pending (snd (sys_step (CBevWrite b x) s)) h = pending s h;
  write_can : forall b x fd s, can_store s fd -> can_store (snd (sys_step (CBevWrite b x) s)) fd;
  enable_pending : forall b h s, pending (snd (sys_step (CBevEnable b) s)) h = pending s h;
  enable_can : forall b fd s, can_store s fd -> can_store (snd (sys_step (CBevEnable b) s)) fd;
  aside_stored : forall c fd s, aside c = true -> stored (snd (sys_step c s)) fd = stored s fd;
}.

(** What happens between the command and the end: bytes arrive, libevent
    reports that there are some, or it reports the end of the handshake. *)
Inductive upload_turn := Arrive (x : string) | Report | Handshake.

Definition turn_of {S} `{Arrivals S} (d : nat) (t : upload_turn) : stimulus (S:=S) :=
  match t with
  | Arrive x => Environment (arrive d x)
  | Report => Callback (DataRead d)
  | Handshake => Callback (DataEvent d BEV_EVENT_CONNECTED)
  end.

Fixpoint sent_text (l : list upload_turn) : string :=
  match l with
  | [] => EmptyString
  | Arrive x :: l' => x +:+ sent_text l'
  | _ :: l' => sent_text l'
  end.

(** The calls they lead to. *)
Definition upload_event (e : event) : bool :=
  match e with Did (CBevEnable _) _ => true | _ => drain_event e end.

Section Upload.
Context {S : Type} `{Arrivals S}.
Variable srv : server_state_t.
Variable fuel : nat.
#[local] Set Default Proof Using "Type*".

(** A STOR in progress: [text] is what the client has sent so far.  On a
    protected connection nothing is stored before the handshake callback. *)
Record receiving (tls : bool) (h d : nat) (fd : Z) (text : string) (w : world S) : Prop := {
  r_connected : connected tls h d w;
  r_fd : upload_fd (conn w) = fd;
  r_read : data_read_cb (conn w) = Some on_stor_read \/ tls = true /\ data_read_cb (conn w) = None;
  r_tls : tls = true -> data_tls_event_connected_cb (conn w) = Some stor_tls_on_bev_event_connected;
  r_eof : data_eof_event_cb (conn w) = Some on_eof_event_cb;
  r_can : can_store (sys w) fd;
  r_text : stored (sys w) fd +:+ pending (sys w) d = text;
}.

Lemma stor_command tls h d (w : world S) file fd :
  connected tls h d w -> (tls = true -> data_read_cb (conn w) = None) -> 0 <= fd ->
  let opened := sys_step (COpenWrite file) (sys w) in
  fst opened = fd -> can_store (snd opened) fd -> stored (snd opened) fd = EmptyString ->
  exists w1, dispatch srv fuel (Command "STOR" [file] 1) w = Ok (tt, w1) /\
    trace w1 = trace w ++ [Did (COpenWrite file) fd; Did (CBevWrite h (reply_150 "Read to receive")) tt] /\
    receiving tls h d fd (pending (snd opened) d) w1.
Proof.
  intros Hw Hnone Hpos opened Hfd Hcan Hst. pose proof Hw as [].
  unfold dispatch, command_actions.
  cbn [find_action command String.eqb Ascii.eqb Bool.eqb]. unfold run_command_cb, authenticated_only.
  erewrite act_bind_run; [|done]. rewrite c_login0. cbn [authenticated_cb].
  unfold cftp_stor_authenticated_action.
  change (not_one_argument (Command "STOR" [file] 1)) with false. cbv beta iota.
  change (argument (Command "STOR" [file] 1) 0) with (mret file : act S string).
  erewrite act_bind_run; [|done]. unfold cftp_recv_file_with_evbuffer.
  erewrite act_bind_run; [|done]. rewrite c_data0.
  rewrite (call_bind (COpenWrite file)).
  change (fst (sys_step (COpenWrite file) (sys w))) with (fst opened).
  rewrite Hfd, (proj2 (Z.ltb_ge fd 0)) by done.
  do 3 (erewrite act_bind_run; [|done]). cbn [called conn]. fields. rewrite c_plain0.
  set (c1 := set_data_eof_event_cb (Some on_eof_event_cb) (set_upload_fd fd (conn w))).
  set (c2 := if tls then set_data_tls_event_connected_cb (Some stor_tls_on_bev_event_connected) c1
             else set_data_read_cb (Some on_stor_read) c1).
  set (v := World c2 (snd opened) (handles w) (trace w ++ [Did (COpenWrite file) fd])).
  erewrite (act_bind_run _ _ _ tt v); [|subst v c2; destruct tls; by rewrite <- Hfd].
  assert (upload_fd c2 = fd /\ data_eof_event_cb c2 = Some on_eof_event_cb) as [Hc2 Hc3]
    by (subst c2; by destruct tls).
  destruct (connected_send tls h d v FTP_STATUS_FILE_STATUS_OKAY "Read to receive") as (s & Es & E & Hv).
  { split; try done; try (subst v c2; destruct tls; by cbn [conn]).
    by apply (stopped_app w); [|repeat constructor]. }
  rewrite E. eexists. split; [done|]. split; [cbn [trace v]; by rewrite <- app_assoc|].
  split; [exact Hv|done|..|done| |]; cbn [conn sys v]; try rewrite Es.
  - subst c2. destruct tls; [right; split; [done|by apply Hnone]|by left].
  - intros ->. done.
  - by apply write_can.
  - cbn [sys v]. by rewrite stored_write, write_pending, Hst.
Qed.

Lemma receiving_env tls h d fd text (w : world S) x :
  receiving tls h d fd text w ->
  receiving tls h d fd (text +:+ x) (World (conn w) (arrive d x (sys w)) (handles w) (trace w)).
Proof.
  intros []. split; cbn [conn sys]; try done.
  - by apply connected_env.
  - by apply arrive_can.
  - by rewrite arrive_stored, arrive_pending, <- string_app_assoc, r_text0.
Qed.

Lemma pending_short tls h d fd text (w : world S) :
  receiving tls h d fd text w -> strlen (pending (sys w) d) <= strlen text.
Proof. intros []. rewrite <- r_text0. unfold strlen. rewrite length_string_app. lia. Qed.

Lemma drain_quiet l :
  Forall (fun e => drain_event e = true) l ->
  Forall (fun e => is_loopbreak e = false) l /\ Forall (fun e => wrote_any e = false) l /\
  Forall (fun e => closes_fd e = false) l.
Proof. intros Hl. split_and!; (eapply Forall_impl; [exact Hl|]); by intros [[] ?]. Qed.

(** A report that bytes are there stores them, once the callback is set. *)
Lemma report_run tls h d fd text (w : world S) :
  receiving tls h d fd text w -> strlen text < Z.of_nat fuel ->
  exists w' l, play srv fuel [Callback (DataRead d)] w = Ok w' /\ trace w' = trace w ++ l /\
    receiving tls h d fd text w' /\ Forall (fun e => upload_event e = true) l.
Proof.
  intros Hw Hlen. pose proof (pending_short _ _ _ _ _ _ Hw) as Hp. pose proof Hw as [Hc].
  cbn [play]. rewrite (enabled_data tls h d) by (done || left). cbn [handle_event].
  unfold data_connection_read_cb, run_field. erewrite act_bind_run; [|done].
  destruct r_read0 as [Hr|[_ Hr]]; rewrite Hr; [|exists w, []; by rewrite app_nil_r].
  destruct (drain_run fuel w d) as (s & l & E & Hnone & Hst & Hcan & Hl);
    [apply Hc|by rewrite r_fd0|lia|].
  cbn [run_callback]. unfold run_on_stor_read. rewrite E. eexists _, l. split; [done|]. split; [done|].
  split; [|eapply Forall_impl; [exact Hl|]; by intros [[] ?]].
  rewrite r_fd0 in *. split; cbn [conn sys]; try done; try by left.
  - destruct Hc. split; try done. apply (stopped_app w); [done|]. by apply drain_quiet.
  - by rewrite Hnone, Hst, string_app_nil_r, r_text0.
Qed.

Lemma add_and_fetch_8_upload c :
  upload_fd (add_and_fetch_8 c) = upload_fd c /\ data_read_cb (add_and_fetch_8 c) = data_read_cb c /\
  data_tls_event_connected_cb (add_and_fetch_8 c) = data_tls_event_connected_cb c /\
  data_eof_event_cb (add_and_fetch_8 c) = data_eof_event_cb c.
Proof. unfold add_and_fetch_8. by split_and!. Qed.

(** The end of the handshake; a plain connection only counts it. *)
Lemma handshake_upload tls h d fd text (w : world S) :
  receiving tls h d fd text w ->
  exists w' l, play srv fuel [Callback (DataEvent d BEV_EVENT_CONNECTED)] w = Ok w' /\
    trace w' = trace w ++ l /\
    receiving tls h d fd text w' /\ Forall (fun e => upload_event e = true) l.
Proof.
  intros []. pose proof r_connected0 as [].
  destruct (add_and_fetch_8_others (conn w)) as (Ea & Eb & Et & Ed).
  destruct (add_and_fetch_8_upload (conn w)) as (Eu & Er & Eh & Ee).
  cbn [play]. rewrite (enabled_data tls h d) by (done || (right; right; right; left)). cbn [handle_event].
  unfold data_connection_event_cb.
  change (has_flag BEV_EVENT_CONNECTED BEV_EVENT_CONNECTED) with true.
  change (has_flag BEV_EVENT_CONNECTED BEV_EVENT_EOF) with false.
  change (has_flag BEV_EVENT_CONNECTED (Z.lor BEV_EVENT_EOF (Z.lor BEV_EVENT_ERROR BEV_EVENT_TIMEOUT)))
    with false. cbv iota.
  remember (add_and_fetch_8 (conn w)) as c eqn:Hdef. rewrite <- Eu in r_fd0.
  set (v := World c (sys w) (handles w) (trace w)).
  assert (connected tls h d v) as Hv by (split; cbn [conn handles v]; try done; congruence).
  destruct tls.
  - destruct (sys_step (CBevEnable d) (sys w)) as [[] s] eqn:Es.
    pose proof (enable_pending d d (sys w)) as Hpend. pose proof (enable_can d fd (sys w) r_can0) as Hcan.
    pose proof (aside_stored (CBevEnable d) fd (sys w) eq_refl) as Hst.
    rewrite Es in Hpend, Hcan, Hst. cbn [snd] in Hpend, Hcan, Hst.
    exists (World (set_data_read_cb (Some on_stor_read) c) s (handles w) (trace w ++ [Did (CBevEnable d) tt])),
      [Did (CBevEnable d) tt].
    split; [|split; [done|split; [|by repeat constructor]]].
    + erewrite act_bind_run; [erewrite act_bind_run; [done|done]|].
      erewrite act_bind_run; [|done]. erewrite act_bind_run; [|done]. cbn [conn]. rewrite <- Hdef. fold v.
      rewrite Et, c_plain0. unfold bufferevent_enable.
      erewrite act_bind_run; [|erewrite act_bind_run; [|eapply use_live; [exact c_data_live0|done]];
        exact (do_call_run (CBevEnable d) v _ _ Es)].
      unfold run_field. erewrite act_bind_run; [|done]. cbn [conn v].
      by rewrite Eh, (r_tls0 eq_refl).
    + split; cbn [conn sys]; fields; try congruence; try by left.
      * destruct Hv. split; try done. by apply (stopped_app w); [|repeat constructor].
      * by rewrite Eh.
  - exists v, []. rewrite app_nil_r. split; [|split; [done|split; [|constructor]]].
    + erewrite act_bind_run; [erewrite act_bind_run; [done|done]|].
      erewrite act_bind_run; [|done]. erewrite act_bind_run; [|done]. cbn [conn]. rewrite <- Hdef. fold v.
      by rewrite Et, c_plain0.
    + split; cbn [conn sys v]; first [congruence | done | by rewrite Er].
Qed.

Lemma turns_run tls h d fd turns : forall text (w : world S),
  receiving tls h d fd text w -> strlen (text +:+ sent_text turns) < Z.of_nat fuel ->
  exists w' l, play srv fuel (map (turn_of d) turns) w = Ok w' /\ trace w' = trace w ++ l /\
    receiving tls h d fd (text +:+ sent_text turns) w' /\ Forall (fun e => upload_event e = true) l.
Proof.
  induction turns as [|t turns IH]; intros text w Hw Hlen.
  { exists w, []. cbn [map play sent_text]. by rewrite app_nil_r, string_app_nil_r. }
  assert (strlen text < Z.of_nat fuel) as Hshort
    by (unfold strlen in *; rewrite length_string_app in Hlen; lia).
  assert (exists w1 l1, play srv fuel [turn_of d t] w = Ok w1 /\ trace w1 = trace w ++ l1 /\
    receiving tls h d fd (text +:+ sent_text [t]) w1 /\ Forall (fun e => upload_event e = true) l1)
    as (w1 & l1 & E1 & T1 & Hw1 & Hl1).
  { destruct t as [x| |]; cbn [sent_text turn_of]; rewrite ?string_app_nil_r.
    - eexists _, []. rewrite app_nil_r. split; [done|]. split; [done|]. split; [|constructor].
      by apply receiving_env.
    - by apply report_run.
    - by apply handshake_upload. }
  destruct (IH _ w1 Hw1) as (w2 & l2 & E2 & T2 & Hw2 & Hl2).
  { by destruct t; cbn [sent_text] in *; rewrite ?string_app_nil_r, ?string_app_assoc in *. }
  exists w2, (l1 ++ l2). change (map (turn_of d) (t :: turns)) with ([turn_of d t] ++ map (turn_of d) turns).
  rewrite play_app, E1, Ok_bind. split; [done|]. split; [by rewrite T2, T1, app_assoc|].
  split; [|by apply Forall_app].
  by destruct t; cbn [sent_text] in *; rewrite ?string_app_nil_r, ?string_app_assoc in *.
Qed.

(** The client closes the data connection. *)
Lemma upload_end tls h d fd text (w : world S) :
  receiving tls h d fd text w -> 0 <= fd -> strlen text < Z.of_nat fuel ->
  exists w' l, play srv fuel [Callback (DataEvent d BEV_EVENT_EOF)] w = Ok w' /\
    trace w' = trace w ++ l ++ [Did (CFsync fd) tt; Did (CClose fd) tt;
      Did (CBevWrite h (reply_226 "Transfer complete")) tt] ++ freed d /\
    Forall (fun e => drain_event e = true) l /\ stored (sys w') fd = text /\ transfer_over h d w'.
Proof.
  intros Hw Hpos Hlen. pose proof (pending_short _ _ _ _ _ _ Hw) as Hp.
  pose proof Hw as [[]]. subst fd.
  destruct (upload_is_complete fuel d d h w (upload_fd (conn w)))
    as (w1 & l & E1 & T1 & Hst & Hc & Hh & Hl); [done..|lia|].
  assert (connected tls h d w1) as Hw1.
  { split; try (by rewrite ?Hc, ?Hh). unfold stopped. rewrite T1.
    apply (stopped_app w (conn w) (sys w)); [done|]. apply Forall_app. split; [by apply drain_quiet|].
    repeat constructor. }
  destruct (free_data_run tls h d w1 Hw1) as (w2 & E2 & T2 & Hs2 & Hover).
  exists w2, l. split; [|split; [|split; [done|split; [|done]]]].
  - cbn [play]. rewrite (enabled_data tls h d) by (done || (right; right; left)). cbn [handle_event].
    unfold data_connection_event_cb.
    change (has_flag BEV_EVENT_EOF BEV_EVENT_CONNECTED) with false.
    change (has_flag BEV_EVENT_EOF BEV_EVENT_ERROR) with false.
    change (has_flag BEV_EVENT_EOF BEV_EVENT_EOF) with true.
    change (has_flag BEV_EVENT_EOF (Z.lor BEV_EVENT_EOF (Z.lor BEV_EVENT_ERROR BEV_EVENT_TIMEOUT)))
      with true. cbv iota.
    erewrite act_bind_run; [|done]. erewrite act_bind_run; [|done].
    erewrite act_bind_run;
      [|unfold run_field; erewrite act_bind_run; [|done]; rewrite r_eof0; exact E1].
    by rewrite E2.
  - rewrite T2, T1, <- !app_assoc. done.
  - rewrite Hs2, !aside_stored by done. by rewrite Hst.
Qed.
End Upload.

(** What can happen while a session waits for the client: anything but a
    command, a new connection, an end, an error, a time-out or a handshake
    on one of the two connections, and the end of the listening process. *)
Definition waiting_turn {S} (d : nat) (L : ledger) (t : stimulus (S:=S)) : Prop :=
  match t with
  | Environment _ | Callback ControlWritten => True
  | Callback (DataRead h) | Callback (DataWritten h) => h = d
  | Callback (ControlEvent events) =>
      has_flag events BEV_EVENT_CONNECTED = true \/
      has_flag events BEV_EVENT_EOF = false /\ has_flag events BEV_EVENT_ERROR = false
  | Callback (DataEvent h events) =>
      h = d /\ has_flag events BEV_EVENT_CONNECTED = false /\
      has_flag events BEV_EVENT_EOF = false /\ has_flag events BEV_EVENT_ERROR = false /\
      has_flag events BEV_EVENT_TIMEOUT = false
  | Callback (TimerFired h) => live L !! h = Some KAcceptTimer
  | Callback (ParentGone h n) => live L !! h = Some KKillEvent /\ 0 < n
  | Callback ControlRead | Callback (DataAccept _ _ _ _) => False
  end.

Section Listings.
Context {S : Type} `{Sys S}.
Variable srv : server_state_t.
Variable fuel : nat.
#[local] Set Default Proof Using "Type*".

(** The handshake ends after the command: the listing is sent. *)
Lemma handshake_run h d (v : world S) c0 fl names :
  let dir := Did (COpendir (list_path fl)) (Some names) in
  connected true h d v -> conn v = deferred fl false c0 ->
  fst (sys_step (COpendir (list_path fl)) (snd (sys_step (CBevEnable d) (sys v)))) = Some names ->
  Forall (fun n => strlen n + 2 < PATH_MAX) names ->
  exists v2 answers, map fst answers = entries names /\
    let out := listing_text (all fl) answers in
    handle_event srv fuel (DataEvent d BEV_EVENT_CONNECTED) v = Ok (tt, v2) /\
    connected true h d v2 /\ conn v2 = listed out (add_and_fetch_8 (deferred fl false c0)) /\
    trace v2 = trace v ++ [Did (CBevEnable d) tt; dir] ++ map (looked_at (list_path fl)) answers ++
      [Did (CClosedir (list_path fl)) tt; listing_write h d out].
Proof.
  intros dir Hv Hc0 Hdir Hnames. pose proof Hv as [].
  set (c := add_and_fetch_8 (deferred fl false c0)).
  destruct (sys_step (CBevEnable d) (sys v)) as [[] s1] eqn:Es. cbn [snd] in Hdir.
  set (v1 := World c s1 (handles v) (trace v ++ [Did (CBevEnable d) tt])).
  assert (connected true h d v1) as Hv1.
  { assert (authenticated c = authenticated (conn v) /\ bev c = bev (conn v) /\
      data_tls_required c = data_tls_required (conn v) /\ data_bev c = data_bev (conn v))
      as (Ea & Eb & Et & Ed) by (rewrite Hc0; apply add_and_fetch_8_others).
    split; cbn [conn handles v1]; try congruence.
    apply (stopped_app v); [done|repeat constructor]. }
  destruct (send_list_names (list_path fl) (all fl) (human_flag fl) names v1 h d)
    as (s2 & answers & Hm & El); [apply Hv1..|apply list_path_short|done|done|].
  cbv zeta in El. fold dir in El. set (out := listing_text (all fl) answers) in *.
  set (v2 := World _ s2 _ _) in El.
  exists v2, answers. split; [done|]. cbv zeta. fold out. split; [|split; [|split; [done|]]].
  - cbn [handle_event]. unfold data_connection_event_cb.
    change (has_flag BEV_EVENT_CONNECTED BEV_EVENT_CONNECTED) with true.
    change (has_flag BEV_EVENT_CONNECTED BEV_EVENT_EOF) with false.
    change (has_flag BEV_EVENT_CONNECTED BEV_EVENT_ERROR) with false.
    change (has_flag BEV_EVENT_CONNECTED (Z.lor BEV_EVENT_EOF (Z.lor BEV_EVENT_ERROR BEV_EVENT_TIMEOUT)))
      with false. cbv iota.
    erewrite act_bind_run; [erewrite act_bind_run; [erewrite act_bind_run; [done|done]|done]|].
    erewrite act_bind_run; [|done]. erewrite act_bind_run; [|done].
    cbn [conn]. change (data_tls_required (add_and_fetch_8 (conn v))) with (data_tls_required (conn v)).
    rewrite c_plain0, Hc0. fold c. unfold bufferevent_enable.
    erewrite act_bind_run;
      [|erewrite act_bind_run; [|eapply use_live; [exact c_data_live0|done]];
        exact (do_call_run (CBevEnable d) (World c (sys v) (handles v) (trace v)) _ _ Es)].
    unfold run_field. erewrite act_bind_run; [|done].
    change (data_tls_event_connected_cb _) with (Some list_tls_on_bev_event_connected).
    cbn [run_callback]. exact El.
  - exact (connected_listed true h d v1 out [dir] s2 _ (list_path fl) Hv1
      (looked_at_lstat (list_path fl) answers) ltac:(by repeat constructor)).
  - subst v2 v1. cbn [trace]. by rewrite <- !app_assoc.
Qed.

(** With no callback set and no listener, nothing happens at all. *)
Definition idle_record (c : connection_t) : Prop :=
  control_write_cb c = None /\ data_read_cb c = None /\ data_write_cb c = None /\
  pasv_listener c = None.

Lemma waiting_step tls h d e (v : world S) :
  waiting_turn d (handles v) (Callback e : stimulus (S:=S)) ->
  connected tls h d v -> idle_record (conn v) ->
  enabled v e = true /\ exists v1, handle_event srv fuel e v = Ok (tt, v1) /\
    connected tls h d v1 /\ idle_record (conn v1) /\ handles v1 = handles v /\ trace v1 = trace v.
Proof.
  intros Ht Hv Hi. pose proof Hv as []. pose proof Hi as (Hc & Hr & Hw & Hl).
  assert (forall m : act S unit, m v = Ok (tt, v) -> exists v1, m v = Ok (tt, v1) /\
    connected tls h d v1 /\ idle_record (conn v1) /\ handles v1 = handles v /\ trace v1 = trace v)
    as Hsame by (intros m Em; by exists v).
  unfold enabled. rewrite c_running0.
  destruct e as [| |ev|h' st f a|h'|h'|h' ev|h'|h' n]; cbn [waiting_turn negb andb handle_event] in *;
    try done; rewrite ?c_bev0.
  - split; [done|]. erewrite act_bind_run; [|done]. rewrite c_bev0. unfold on_write.
    erewrite act_bind_run; [|done]. rewrite Hc.
    eexists. split; [reflexivity|]. split; [by split|]. done.
  - split; [done|]. apply Hsame. erewrite act_bind_run; [|done]. unfold on_event.
    destruct Ht as [->|[-> ->]]; [done|]. by destruct (has_flag ev BEV_EVENT_CONNECTED).
  - subst h'. rewrite c_data_live0. split; [done|]. apply Hsame.
    unfold data_connection_read_cb, run_field. erewrite act_bind_run; [|done]. by rewrite Hr.
  - subst h'. rewrite c_data_live0. split; [done|]. apply Hsame.
    unfold data_connection_write_cb, run_field. erewrite act_bind_run; [|done]. by rewrite Hw.
  - destruct Ht as (-> & H1 & H2 & H3 & H4). rewrite c_data_live0. split; [done|]. apply Hsame.
    unfold data_connection_event_cb. rewrite !has_flag_lor, H1, H2, H3, H4. done.
  - rewrite Ht. split; [done|]. apply Hsame. unfold handle_kind.
    erewrite act_bind_run; [|done]. rewrite Ht. unfold kill_listener_on_timeout.
    erewrite act_bind_run; [|done]. by rewrite Hl.
  - destruct Ht as [-> Hn]. split; [done|]. apply Hsame. unfold on_parent_dead.
    by rewrite (proj2 (Z.ltb_lt 0 n)).
Qed.

Lemma waiting_silent tls h d L turns :
  Forall (waiting_turn d L) turns ->
  forall v : world S, handles v = L -> connected tls h d v -> idle_record (conn v) ->
  exists w2, play srv fuel turns v = Ok w2 /\ trace w2 = trace v.
Proof.
  induction 1 as [|t turns Ht _ IH]; intros v <- Hv Hi; [by exists v|].
  destruct t as [ev|fe].
  - destruct (waiting_step tls h d ev v Ht Hv Hi) as (He & v1 & E & Hv1 & Hi1 & Hh & Tr).
    destruct (IH v1 Hh Hv1 Hi1) as (w2 & E2 & T2). exists w2.
    split; [|by rewrite T2]. etrans; [by apply (play_callback srv fuel ev v v1)|done].
  - destruct (IH (World (conn v) (fe (sys v)) (handles v) (trace v))) as (w2 & E & T);
      [done|by apply connected_env|done|]. by exists w2.
Qed.
End Listings.

(** ** Properties *)

Definition asks_length (e : event) : bool :=
  match e with Did (COutputLength _) _ => true | _ => false end.

(** C15: a plain RETR from the command to the end.  A file that can be opened
    is queued on the data connection behind the reply 150; libevent reports
    progress any number of times, which changes nothing while bytes are left;
    when none is left 226 is written, and when that reply is out the data
    connection is freed.  Nothing else is done, and the session can go on. *)
Theorem retr_conversation {S} `{Sys S} srv fuel h d (w : world S) file fd st waits drained other :
  connected false h d w ->
  fst (sys_step (COpenRead file) (sys w)) = fd -> 0 <= fd ->
  fst (sys_step (CFstat fd) (snd (sys_step (COpenRead file) (sys w)))) = Some st ->
  Forall (fun f : S -> S => forall s, fst (sys_step (COutputLength d) (f s)) <> 0) waits ->
  (forall s, fst (sys_step (COutputLength d) (drained s)) = 0) ->
  exists w1 w2 l, dispatch srv fuel (Command "RETR" [file] 1) w = Ok (tt, w1) /\
    play srv fuel (concat (map (output_turn d) waits) ++ output_turn d drained ++
      [Environment other; Callback ControlWritten]) w1 = Ok w2 /\
    trace w2 = trace w ++ l /\
    List.filter (fun e => negb (asks_length e)) l =
      [Did (COpenRead file) fd; Did (CFstat fd) (Some st);
       Did (CBevWrite h (reply_150 "Sending file")) tt; Did (CBevAddFile d fd (st_size st)) tt;
       Did (CBevWrite h (reply_226 "Transfer complete")) tt] ++ freed d /\
    transfer_over h d w2.
Proof.
  intros Hw Hfd Hpos Hst Hwaits Hdrained.
  destruct (retr_command srv fuel h d w file fd st Hw Hfd Hpos Hst) as (w1 & E1 & T1 & Hw1 & Hcb).
  exists w1.
  assert (forall w1, connected false h d w1 ->
    data_write_cb (conn w1) = Some download_completion_on_plain_connection_cb ->
    exists w2 l, play srv fuel (concat (map (output_turn d) waits)) w1 = Ok w2 /\
      trace w2 = trace w1 ++ l /\ Forall (fun e => asks_length e = true) l /\ connected false h d w2 /\
      data_write_cb (conn w2) = Some download_completion_on_plain_connection_cb) as Hwait.
  { clear -Hwaits. induction Hwaits as [|f fs Hf _ IH]; intros w1 Hw1 Hcb.
    - exists w1, []. by rewrite app_nil_r.
    - destruct (output_turn_run srv fuel h d w1 f Hw1 Hcb) as (w2 & E2 & Hw2 & T2 & Hc2).
      rewrite (proj2 (Z.eqb_neq _ _) (Hf (sys w1))) in T2, Hc2.
      destruct (IH w2 Hw2 Hc2) as (w3 & l & E3 & T3 & Hl & Hw3 & Hc3).
      exists w3, (Did (COutputLength d) (fst (sys_step (COutputLength d) (f (sys w1)))) :: l).
      cbn [map concat]. rewrite play_app, E2. cbn [mbind].
      split; [exact E3|]. split; [by rewrite T3, T2, <- app_assoc|].
      split; [by constructor|done]. }
  destruct (Hwait w1 Hw1 Hcb) as (w2 & l & E2 & T2 & Hl & Hw2 & Hc2).
  destruct (output_turn_run srv fuel h d w2 drained Hw2 Hc2) as (w3 & E3 & Hw3 & T3 & Hc3).
  rewrite Hdrained in T3, Hc3. cbn [Z.eqb] in T3, Hc3.
  destruct (close_on_written srv fuel false h d (World (conn w3) (other (sys w3)) (handles w3) (trace w3)))
    as (w4 & E4 & T4 & Hover); [by apply connected_env|done|].
  eexists w4, _. split; [exact E1|]. split.
  { rewrite play_app, E2. cbn [mbind]. rewrite Ok_bind, play_app, E3, Ok_bind. exact E4. }
  split; [rewrite T4; cbn [trace]; by rewrite T3, T2, T1, <- !app_assoc|]. split; [|done].
  rewrite !List.filter_app.
  assert (List.filter (fun e => negb (asks_length e)) l = []) as ->
    by (clear -Hl; induction Hl as [|e l He _ IH]; [done|]; cbn [List.filter]; by rewrite He).
  done.
Qed.

(** C16: a STOR from the command to the end, on a plain or a protected data
    connection.  In whatever pieces the bytes of the client arrive, whether or
    not libevent reports them before the next, and wherever the end of the
    handshake falls (before the command, between the pieces, never): when the
    client closes the data connection the file holds exactly the bytes sent,
    in order, has been synchronised and closed once, then 226 is written and
    the data connection freed; 150 and 226 are the only replies and nothing
    else is done. *)
Theorem stor_conversation {S} `{Arrivals S} srv fuel tls h d (w : world S) file fd turns :
  let opened := sys_step (COpenWrite file) (sys w) in
  let text := pending (snd opened) d +:+ sent_text turns in
  connected tls h d w -> (tls = true -> data_read_cb (conn w) = None) ->
  fst opened = fd -> 0 <= fd ->
  can_store (snd opened) fd -> stored (snd opened) fd = EmptyString ->
  strlen text < Z.of_nat fuel ->
  exists w1 w2 l, dispatch srv fuel (Command "STOR" [file] 1) w = Ok (tt, w1) /\
    play srv fuel (map (turn_of d) turns ++ [Callback (DataEvent d BEV_EVENT_EOF)]) w1 = Ok w2 /\
    stored (sys w2) fd = text /\
    trace w2 = trace w ++
      [Did (COpenWrite file) fd; Did (CBevWrite h (reply_150 "Read to receive")) tt] ++ l ++
      [Did (CFsync fd) tt; Did (CClose fd) tt;
       Did (CBevWrite h (reply_226 "Transfer complete")) tt] ++ freed d /\
    Forall (fun e => upload_event e = true) l /\ transfer_over h d w2.
Proof.
  intros opened text Hw Hnone Hfd Hpos Hcan Hst Hlen.
  destruct (stor_command srv fuel tls h d w file fd Hw Hnone Hpos Hfd Hcan Hst) as (w1 & E1 & T1 & Hw1).
  destruct (turns_run srv fuel tls h d fd turns _ w1 Hw1 Hlen) as (w2 & l1 & E2 & T2 & Hw2 & Hl1).
  destruct (upload_end srv fuel tls h d fd text w2 Hw2 Hpos Hlen) as (w3 & l2 & E3 & T3 & Hl2 & Hs3 & Hover).
  exists w1, w3, (l1 ++ l2). split; [exact E1|]. split.
  { rewrite play_app. etrans; [apply (f_equal (fun o => o ≫= _)); exact E2|exact E3]. }
  split; [done|]. split; [|split; [apply Forall_app; split; [done|]|done]].
  - by rewrite T3, T2, T1, <- !app_assoc.
  - eapply Forall_impl; [exact Hl2|]. by intros [[] ?].
Qed.

(** C25: a plain NLST from the command to the end.  The reply 150, then on
    the data connection exactly the visible names that [lstat] finds, one per
    line, in the order the directory gives them (nothing when there is none),
    then 226, and when that is out the data connection is freed.  Nothing else
    is done but one [lstat] of each name but "." and "..", and of the two
    directory streams one is closed.  Asked of the system: the two [opendir]s
    of this command succeed, and no name fills the path buffer. *)
Theorem nlst_conversation {S} `{Sys S} srv fuel h d (w : world S) cmd fl names0 names :
  connected false h d w -> command cmd = "NLST"%string ->
  parse_list_flags cmd = Some fl -> is_path_safe (Some (list_path fl)) = true ->
  let s1 := snd (sys_step (COpendir (list_path fl)) (sys w)) in
  let s2 := snd (sys_step (CBevWrite h listing_starts) s1) in
  fst (sys_step (COpendir (list_path fl)) (sys w)) = Some names0 ->
  fst (sys_step (COpendir (list_path fl)) s2) = Some names ->
  Forall (fun n => strlen n + 2 < PATH_MAX) names ->
  exists w1 answers, dispatch srv fuel cmd w = Ok (tt, w1) /\ map fst answers = entries names /\
    let out := listing_text (all fl) answers in
    forall f g, exists w2, play srv fuel (listing_turns d out f g) w1 = Ok w2 /\
    trace w2 = trace w ++
      [Did (COpendir (list_path fl)) (Some names0);
       Did (CBevWrite h (reply_150 "Here comes the directory listings")) tt;
       Did (COpendir (list_path fl)) (Some names)] ++ map (looked_at (list_path fl)) answers ++
      [Did (CClosedir (list_path fl)) tt] ++
      (if strlen out =? 0 then [] else [Did (CBevWrite d out) tt]) ++
      [Did (CBevWrite h (reply_226 "Directory send OK")) tt] ++ freed d /\
    transfer_over h d w2.
Proof.
  intros Hw Hcmd Hfl Hsafe s1 s2 Hdir0 Hdir Hnames. pose proof Hw as [].
  destruct (nlst_run cmd fl w h d names0 names) as (s & answers & Hm & E); [done..|].
  set (out := listing_text (all fl) answers). cbv zeta in E. fold out in E.
  set (w1 := World _ s _ _) in E. exists w1, answers. split; [by eapply dispatch_nlst|].
  split; [done|]. intros out' f g. subst out'. fold out.
  assert (connected false h d w1) as Hw1
    by (apply connected_listed; [done|apply looked_at_lstat|by repeat constructor]).
  destruct (listing_end srv fuel false h d w1 out f g (conn w) Hw1 eq_refl) as (w2 & E2 & T2 & Hover).
  exists w2. split; [exact E2|]. split; [|done].
  rewrite T2. subst w1. cbn [trace]. unfold listing_write.
  destruct (strlen out =? 0); by rewrite <- !app_assoc.
Qed.

(** C26: NLST on a protected data connection writes 150 and keeps its
    arguments for the end of the handshake.  When that comes, the client gets
    the names and the 226 of a plain connection.  But a handshake that was
    over before the command is not reported again: then, with no passive
    listener and no other transfer going on, whatever happens until the
    client sends another command or connection, or one of the two connections
    ends, fails, times out or is negotiated anew, or the listening process
    ends, in any order and any number, makes no call at all: not a byte nor a
    reply is sent, and the client waits. *)
Theorem protected_listing {S} `{Sys S} srv fuel h d (w : world S) cmd fl names0 :
  connected true h d w -> command cmd = "NLST"%string ->
  parse_list_flags cmd = Some fl -> is_path_safe (Some (list_path fl)) = true ->
  fst (sys_step (COpendir (list_path fl)) (sys w)) = Some names0 ->
  exists w1, dispatch srv fuel cmd w = Ok (tt, w1) /\
    trace w1 = trace w ++ [Did (COpendir (list_path fl)) (Some names0);
      Did (CBevWrite h (reply_150 "Here comes the directory listings")) tt] /\
    (forall e names,
       fst (sys_step (COpendir (list_path fl)) (snd (sys_step (CBevEnable d) (e (sys w1))))) = Some names ->
       Forall (fun n => strlen n + 2 < PATH_MAX) names ->
       exists answers, map fst answers = entries names /\
       let out := listing_text (all fl) answers in
       forall f g, exists w2,
         play srv fuel ([Environment e; Callback (DataEvent d BEV_EVENT_CONNECTED)] ++
           listing_turns d out f g) w1 = Ok w2 /\
         trace w2 = trace w1 ++ [Did (CBevEnable d) tt; Did (COpendir (list_path fl)) (Some names)] ++
           map (looked_at (list_path fl)) answers ++ [Did (CClosedir (list_path fl)) tt] ++
           (if strlen out =? 0 then [] else [Did (CBevWrite d out) tt]) ++
           [Did (CBevWrite h (reply_226 "Directory send OK")) tt] ++ freed d /\
         transfer_over h d w2) /\
    (idle_record (conn w) -> forall turns, Forall (waiting_turn d (handles w)) turns ->
     exists w2, play srv fuel turns w1 = Ok w2 /\ trace w2 = trace w1).
Proof.
  intros Hw Hcmd Hfl Hsafe Hdir0. pose proof Hw as [].
  destruct (list_deferred_run cmd fl false w h names0) as (s & E); try done; [congruence|].
  set (w1 := World _ s _ _) in E.
  assert (connected true h d w1) as Hw1
    by (split; try done; apply (stopped_app w); [done|repeat constructor]).
  exists w1. split; [by eapply dispatch_nlst|]. split; [done|]. split.
  - intros e names Hdir Hnames. set (v0 := World (conn w1) (e (sys w1)) (handles w1) (trace w1)).
    assert (connected true h d v0) as Hv0 by by apply connected_env.
    destruct (handshake_run srv fuel h d v0 (conn w) fl names Hv0 eq_refl Hdir Hnames)
      as (v2 & answers & Hm & Ev & Hv2 & Hc2 & T2).
    exists answers. split; [done|]. set (out := listing_text (all fl) answers) in *. cbv zeta.
    intros f g.
    destruct (listing_end srv fuel true h d v2 out f g _ Hv2 Hc2) as (w2 & E2 & T3 & Hover).
    exists w2. split; [|split; [|done]].
    + cbn [app play]. fold v0. rewrite (enabled_data true h d) by (done || (right; right; right; left)).
      by rewrite Ev.
    + rewrite T3, T2. unfold listing_write.
      destruct (strlen out =? 0); rewrite <- ?app_assoc; cbn [app]; by rewrite <- ?app_assoc.
  - intros Hi turns Hturns. by apply (waiting_silent srv fuel true h d (handles w)).
Qed.

(** ** Witnesses *)

(** A logged-in session with an open data connection. *)
Definition open_world : world small :=
  World (set_authenticated true (set_data_bev (Some 1%nat) (set_bev (Some 0%nat) zero_connection)))
    sample_small (Ledger 2 {[0%nat := KControlBev; 1%nat := KDataBev]}) [].

Lemma open_world_connected : connected false 0 1 open_world.
Proof. split; reflexivity. Qed.

(** A system on which the output of the data connection drains in two turns. *)
Definition draining : Sys (small * Z) := fun c s =>
  match c as c return reply c * (small * Z) with
  | COutputLength _ => (snd s, s)
  | c => let '(r, s') := small_sys c (fst s) in (r, (s', snd s))
  end.

Definition draining_world : world (small * Z) :=
  World (conn open_world) (sample_small, 12) (handles open_world) [].

Lemma retr_conversation_witness :
  exists w1 w2, @dispatch _ draining sample_server 10 (Command "RETR" ["notes.txt"%string] 1) draining_world
      = Ok (tt, w1) /\
    @play _ draining sample_server 10 (concat (map (output_turn 1) [fun s => (fst s, 5)]) ++
      output_turn 1 (fun s => (fst s, 0)) ++ [Environment id; Callback ControlWritten]) w1 = Ok w2 /\
    data_bev (conn w2) = None.
Proof.
  destruct (@retr_conversation _ draining sample_server 10 0 1 draining_world "notes.txt" 100
    (Stat 0x81a4 1 1000 1000 12 1700000000) [fun s => (fst s, 5)] (fun s => (fst s, 0)) id)
    as (w1 & w2 & l & E1 & E2 & _ & _ & Hover).
  - split; reflexivity.
  - reflexivity.
  - lia.
  - reflexivity.
  - apply Forall_cons_2; [intros s; discriminate|apply Forall_nil_2].
  - intros s. reflexivity.
  - exists w1, w2. split; [exact E1|]. split; [exact E2|exact (proj1 Hover)].
Defined.

#[export, refine] Instance small_arrivals : Arrivals small := {
  arrive h x s := set_input h (input_of h s +:+ x) s;
}.
Proof.
  - intros h x s. apply input_of_set.
  - done.
  - done.
  - done.
  - done.
  - done.
  - done.
  - intros c fd s Hc. by destruct c.
Defined.

(** A session with a protected data connection whose handshake is not over. *)
Definition protected_world : world small :=
  World (set_data_tls_required true (conn open_world)) sample_small (handles open_world) [].

Lemma stor_conversation_witness :
  exists w1 w2, dispatch sample_server 20 (Command "STOR" ["new.txt"%string] 1) protected_world = Ok (tt, w1) /\
    play sample_server 20 (map (turn_of 1)
        [Arrive "hello "; Report; Arrive "wor"; Handshake; Arrive "ld"; Report; Arrive "!"] ++
      [Callback (DataEvent 1 BEV_EVENT_EOF)]) w1 = Ok w2 /\
    assoc "new.txt" (files (sys w2)) = Some "hello world!"%string.
Proof.
  destruct (stor_conversation sample_server 20 true 0 1 protected_world "new.txt" 100
    [Arrive "hello "; Report; Arrive "wor"; Handshake; Arrive "ld"; Report; Arrive "!"])
    as (w1 & w2 & l & E1 & E2 & Hst & _).
  - split; reflexivity.
  - reflexivity.
  - reflexivity.
  - lia.
  - discriminate.
  - reflexivity.
  - vm_compute. reflexivity.
  - exists w1, w2. split; [exact E1|]. split; [exact E2|].
    vm_compute in E1. injection E1 as <-. vm_compute in E2. injection E2 as <-. reflexivity.
Defined.

(** The frozen directory, but its entry "sub" cannot be looked at. *)
Definition hidden_sub : Sys small := fun c s =>
  match c as c return reply c * small with
  | CLstat p => (if String.eqb p "box/sub" then None else Some file_stat, s)
  | c => frozen_tree c s
  end.

Lemma nlst_conversation_witness :
  exists w1 w2 answers, @dispatch _ hidden_sub sample_server 10 (Command "NLST" ["box"]%string 1) open_world
      = Ok (tt, w1) /\ map fst answers = ["a"; "sub"]%string /\
    @play _ hidden_sub sample_server 10 (listing_turns 1 (listing_text false answers) id id) w1 = Ok w2 /\
    data_bev (conn w2) = None.
Proof.
  destruct (@nlst_conversation small hidden_sub sample_server 10 0 1 open_world
    (Command "NLST" ["box"]%string 1) (ListFlags false false false (Some "box"%string))
    ["."; "a"; "sub"]%string ["."; "a"; "sub"]%string)
    as (w1 & answers & E1 & Hm & Hplay);
    [exact open_world_connected|reflexivity..|repeat constructor|].
  destruct (Hplay id id) as (w2 & E2 & _ & Hover).
  exists w1, w2, answers. split; [exact E1|]. split; [exact Hm|]. split; [exact E2|exact (proj1 Hover)].
Defined.

Lemma protected_listing_witness :
  exists w1 w2 w3 answers,
    @dispatch _ hidden_sub sample_server 10 (Command "NLST" ["box"]%string 1) protected_world
      = Ok (tt, w1) /\
    @play _ hidden_sub sample_server 10 ([Environment id; Callback (DataEvent 1 BEV_EVENT_CONNECTED)] ++
      listing_turns 1 (listing_text false answers) id id) w1 = Ok w2 /\
    data_bev (conn w2) = None /\
    @play _ hidden_sub sample_server 10 [Callback (DataWritten 1); Callback ControlWritten;
      Callback (ControlEvent BEV_EVENT_TIMEOUT); Callback (DataRead 1)] w1 = Ok w3 /\ trace w3 = trace w1.
Proof.
  destruct (@protected_listing small hidden_sub sample_server 10 0 1 protected_world
    (Command "NLST" ["box"]%string 1) (ListFlags false false false (Some "box"%string))
    ["."; "a"; "sub"]%string)
    as (w1 & E1 & _ & Hsend & Hstall); [split; reflexivity|reflexivity..|].
  destruct (Hsend id ["."; "a"; "sub"]%string) as (answers & Hm & Hplay);
    [reflexivity|repeat constructor|].
  destruct (Hplay id id) as (w2 & E2 & _ & Hover).
  destruct (Hstall ltac:(repeat split)
    [Callback (DataWritten 1); Callback ControlWritten;
     Callback (ControlEvent BEV_EVENT_TIMEOUT); Callback (DataRead 1)]) as (w3 & E3 & T3).
  - repeat (apply Forall_cons_2; [cbn [waiting_turn]; first [reflexivity | exact I | by right]|]).
    apply Forall_nil_2.
  - exists w1, w2, w3, answers. split; [exact E1|]. split; [exact E2|]. split; [exact (proj1 Hover)|].
    split; [exact E3|exact T3].
Defined.
