(* ===== verification/Downloads.v ===== *)
(** * A protected RETR from the command to the end (src/actions/retr.c,
      src/engine/data_handler.c)

    The command sends the first piece of the file itself; libevent then calls
    the write callback each time the output has drained, until the last piece
    is out. *)

From S2P Require Import Prelude CString CommandParser Config Connection System Control ServerState.
From S2P Require Import DataHandler Retr Actions Dispatch Session SmallSystem Scenario Transfers.
From stdpp Require Import options.

Local Open Scope Z_scope.

(** Calls that leave what is to be read from a file alone. *)
Definition reads_nothing (c : call) : bool :=
  match c with
  | CFstat _ | CCalloc _ | CBevWrite _ _ | CBevSetWriteWatermark _ _ | CBevEnable _ => true
  | _ => false
  end.

Class FileServes (S : Type) `{FileReads S} := {
  others_leave : forall c fd s, reads_nothing c = true ->
    left_in (snd (sys_step c s)) fd = left_in s fd;
}.

(** A piece read and written. *)
Definition chunk_event (d : nat) (e : event) : bool :=
  match e with Did (CRead _ _) _ => true | Did (CBevWrite b _) _ => Nat.eqb b d | _ => false end.

Section Downloads.
Context {S : Type} `{FileServes S}.
Variable srv : server_state_t.
Variable fuel : nat.
#[local] Set Default Proof Using "Type*".

(** A download of which [rest] is still to be sent. *)
Record sending (h d : nat) (fd : Z) (rest : string) (w : world S) : Prop := {
  s_connected : connected true h d w;
  s_stream : exists off size, data_stream (conn w) = Some (FileStream fd off size) /\
    off + strlen rest = size;
  s_left : left_in (sys w) fd = rest;
  s_cb : data_write_cb (conn w) =
    Some (if strlen rest =? 0 then close_on_retrcb else send_next_chunk);
}.

(** One call of the callback. *)
Lemma piece_run h d fd rest (w : world S) :
  sending h d fd rest w -> rest <> EmptyString ->
  exists piece rest' w', rest = piece +:+ rest' /\ piece <> EmptyString /\
    run_send_next_chunk (Some d) w = Ok (tt, w') /\ sending h d fd rest' w' /\
    trace w' = trace w ++ [Did (CRead fd FILE_CHUNK_SIZE) (Some piece); Did (CBevWrite d piece) tt].
Proof.
  intros [Hc (off & size & Hs & Hsize) Hl Hcb] Hne. pose proof Hc as [].
  destruct (send_next_chunk_run d w fd off size) as (piece & s & Hp & Hleft & Hrun);
    [done|done|by rewrite Hl|].
  rewrite Hl in Hleft. exists piece, (left_in s fd). eexists. split; [done|]. split; [done|].
  split; [exact Hrun|]. split; [|done].
  assert (size - (off + strlen piece) = strlen (left_in s fd)) as Hrest.
  { rewrite Hleft in Hsize. unfold strlen in *. rewrite length_string_app in Hsize. lia. }
  split; cbn [conn sys].
  - destruct (_ =? size); split; try done; by apply (stopped_app w); [|repeat constructor].
  - exists (off + strlen piece), size. split; [by destruct (_ =? size)|lia].
  - done.
  - rewrite (proj2 (Z.eqb_neq _ _)) in Hcb by (destruct rest; [done|]; unfold strlen; simpl; lia).
    destruct (Z.eqb_spec (off + strlen piece) size), (Z.eqb_spec (strlen (left_in s fd)) 0);
      first [lia|done].
Qed.

Lemma sending_env h d fd rest (w : world S) s :
  sending h d fd rest w -> left_in s fd = left_in (sys w) fd ->
  sending h d fd rest (World (conn w) s (handles w) (trace w)).
Proof. intros [] Hs. split; try done; [by apply connected_env|]. cbn [sys]. congruence. Qed.

(** The output has drained while the rest of the system moved on. *)
Lemma chunk_turn_run h d fd rest (w : world S) f :
  sending h d fd rest w -> rest <> EmptyString -> (forall s, left_in (f s) fd = left_in s fd) ->
  exists piece rest' w', rest = piece +:+ rest' /\ piece <> EmptyString /\
    play srv fuel (output_turn d f) w = Ok w' /\ sending h d fd rest' w' /\
    trace w' = trace w ++ [Did (CRead fd FILE_CHUNK_SIZE) (Some piece); Did (CBevWrite d piece) tt].
Proof.
  intros Hw Hne Hf. pose proof (sending_env _ _ _ _ _ (f (sys w)) Hw (Hf _)) as Hw0.
  destruct (piece_run h d fd rest _ Hw0 Hne) as (piece & rest' & w' & Hr & Hp & E & Hw' & T).
  exists piece, rest', w'. split_and!; try done. unfold output_turn. cbn [play].
  rewrite (enabled_data true h d) by (apply Hw0 || (right; left)). cbn [handle_event].
  unfold data_connection_write_cb, run_field. erewrite act_bind_run; [|done]. cbn [conn].
  rewrite (s_cb _ _ _ _ _ Hw), (proj2 (Z.eqb_neq _ _))
    by (destruct rest; [done|]; unfold strlen; simpl; lia).
  cbn [run_callback]. by rewrite E.
Qed.

Lemma written_piece d fd piece l :
  written_to d ([Did (CRead fd FILE_CHUNK_SIZE) (Some piece); Did (CBevWrite d piece) tt] ++ l)
    = piece +:+ written_to d l.
Proof. cbn [written_to app]. by rewrite Nat.eqb_refl. Qed.

Lemma chunk_turns_run h d fd f n : forall rest (w : world S),
  sending h d fd rest w -> (String.length rest <= n)%nat ->
  (forall s, left_in (f s) fd = left_in s fd) ->
  exists k w' l, (k <= n)%nat /\ play srv fuel (concat (repeat (output_turn d f) k)) w = Ok w' /\
    sending h d fd EmptyString w' /\ trace w' = trace w ++ l /\ written_to d l = rest /\
    Forall (fun e => chunk_event d e = true) l.
Proof.
  induction n as [|n IH]; intros rest w Hw Hn Hf.
  all: destruct (decide (rest = EmptyString)) as [->|Hne];
    [exists 0%nat, w, []; rewrite app_nil_r; split_and!; (done || lia)|].
  { destruct rest; [done|simpl in Hn; lia]. }
  destruct (chunk_turn_run h d fd rest w f Hw Hne Hf) as (piece & rest' & w1 & -> & Hp & E1 & Hw1 & T1).
  destruct (IH rest' w1 Hw1) as (k & w2 & l & Hk & E2 & Hw2 & T2 & Hl & Hc); [|done|].
  { rewrite length_string_app in Hn. destruct piece; [done|]. simpl in Hn. lia. }
  eexists (Datatypes.S k), w2, (_ ++ l). cbn [repeat concat]. rewrite play_app, E1, Ok_bind.
  split; [lia|]. split; [done|]. split; [done|]. split; [by rewrite T2, T1, <- app_assoc|].
  split; [by rewrite written_piece, Hl|]. apply Forall_app. split; [|done].
  repeat constructor. cbn [chunk_event]. apply Nat.eqb_refl.
Qed.

(** The command up to the first piece. *)
Lemma retr_ready h d (w : world S) file fd st :
  let opened := sys_step (COpenRead file) (sys w) in
  connected true h d w -> fst opened = fd -> 0 <= fd ->
  fst (sys_step (CFstat fd) (snd opened)) = Some st ->
  (forall s, fst (sys_step (CCalloc (FILE_CHUNK_SIZE + 24)) s) = true) ->
  strlen (left_in (snd opened) fd) = st_size st -> 0 < st_size st ->
  exists w1, dispatch srv fuel (Command "RETR" [file] 1) w = run_send_next_chunk (Some d) w1 /\
    sending h d fd (left_in (snd opened) fd) w1 /\
    trace w1 = trace w ++ [Did (COpenRead file) fd; Did (CFstat fd) (Some st);
      Did (CBevWrite h (reply_150 "Sending file")) tt; Did (CCalloc (FILE_CHUNK_SIZE + 24)) true;
      Did (CBevSetWriteWatermark d (128 * 1024)) tt; Did (CBevEnable d) tt].
Proof.
  intros opened Hw Hfd Hpos Hst Halloc Hsize Hne. rewrite (dispatch_retr srv fuel true h d) by done.
  unfold cftp_send_file. erewrite act_bind_run; [|done]. rewrite (c_plain _ _ _ _ Hw).
  unfold ftp_send_file_with_evbuffer. erewrite act_bind_run; [|done]. rewrite (c_data _ _ _ _ Hw).
  rewrite (call_bind (COpenRead file)). fold opened. rewrite Hfd, (proj2 (Z.ltb_ge fd 0)) by done.
  rewrite (call_bind (CFstat fd)).
  change (fst (sys_step (CFstat fd) (sys (called (COpenRead file) w)))) with
    (fst (sys_step (CFstat fd) (snd opened))). rewrite Hst.
  set (w2 := called (CFstat fd) (called (COpenRead file) w)).
  assert (connected true h d w2) as Hw2 by by do 2 (apply connected_called; [|done]).
  assert (trace w2 = trace w ++ [Did (COpenRead file) fd; Did (CFstat fd) (Some st)]) as T2.
  { unfold w2, called. cbn [trace sys]. rewrite <- app_assoc. fold opened. by rewrite Hfd, Hst. }
  destruct (connected_send true h d w2 FTP_STATUS_FILE_STATUS_OKAY "Sending file" Hw2)
    as (s3 & Es3 & E3 & Hw3).
  erewrite act_bind_run; [|exact E3].
  match type of Hw3 with connected _ _ _ ?v => set (w3 := v) in * end.
  rewrite (call_bind (CCalloc _)), Halloc. cbv iota.
  do 2 (erewrite act_bind_run; [|done]). cbn [conn sys handles trace].
  match goal with |- context [(bufferevent_setwatermark _ _ ≫= _) ?v] => set (w4 := v) end.
  assert (connected true h d w4) as Hw4.
  { pose proof (connected_called true h d w3 (CCalloc (FILE_CHUNK_SIZE + 24)) Hw3 ltac:(done)) as [].
    by split. }
  unfold bufferevent_setwatermark, bufferevent_enable.
  erewrite act_bind_run; [|erewrite act_bind_run; [|eapply use_live; [apply Hw4|done]];
    exact (do_call_called (CBevSetWriteWatermark d (128 * 1024)) w4)].
  set (w5 := called (CBevSetWriteWatermark d (128 * 1024)) w4).
  assert (connected true h d w5) as Hw5 by by apply connected_called.
  erewrite act_bind_run; [|erewrite act_bind_run; [|eapply use_live; [apply Hw5|done]];
    exact (do_call_called (CBevEnable d) w5)].
  set (w6 := called (CBevEnable d) w5).
  exists w6. split; [done|]. split; [split|].
  - by apply connected_called.
  - exists 0, (st_size st). split; [done|lia].
  - unfold w6, w5, called. cbn [sys]. rewrite !others_leave by done. unfold w4. cbn [sys].
    unfold called. cbn [sys]. rewrite others_leave by done. unfold w3. cbn [sys]. rewrite Es3.
    rewrite others_leave by done. unfold w2, called. cbn [sys]. by rewrite others_leave.
  - rewrite (proj2 (Z.eqb_neq _ _)); [done|]. unfold strlen in *. lia.
  - unfold w6, w5, called. cbn [trace]. unfold w4. cbn [trace]. unfold called, w3. cbn [trace].
    rewrite T2, Halloc, <- !app_assoc.
    by repeat match goal with |- context [fst (@sys_step ?S ?H ?c ?s)] => destruct (fst (@sys_step S H c s)) end.
Qed.

(** The last piece is out. *)
Lemma download_end h d fd (w : world S) f g :
  sending h d fd EmptyString w ->
  exists w', play srv fuel (output_turn d f ++ [Environment g; Callback ControlWritten]) w = Ok w' /\
    trace w' = trace w ++ [Did (CBevWrite h (reply_226 "Transfer complete")) tt] ++ freed d /\
    transfer_over h d w'.
Proof.
  intros [Hc _ _ Hcb]. pose proof (connected_env true h d w (f (sys w)) Hc) as Hc0.
  set (w0 := World _ (f (sys w)) _ _) in Hc0.
  destruct (announce_run true h d w0 "Transfer complete" Hc0) as (w1 & E1 & Hw1 & T1 & Hcb1).
  destruct (close_on_written srv fuel true h d (World (conn w1) (g (sys w1)) (handles w1) (trace w1)))
    as (w2 & E2 & T2 & Hover); [by apply connected_env|done|].
  exists w2. split; [|split; [by rewrite T2; cbn [trace]; rewrite T1, <- app_assoc|done]].
  unfold output_turn. cbn [app play]. fold w0.
  rewrite (enabled_data true h d) by (done || (right; left)). cbn [handle_event].
  unfold data_connection_write_cb, run_field. erewrite act_bind_run; [|done]. cbn [conn w0].
  rewrite Hcb. change (strlen EmptyString =? 0) with true. cbv iota. fold w0.
  cbn [run_callback]. unfold run_close_on_retrcb, transfer_complete. rewrite E1, Ok_bind. exact E2.
Qed.
End Downloads.

(** ** Properties *)

(** C14: a RETR on a protected data connection from the command to the end.
    Behind the reply 150 the command sends the first piece; each time libevent
    reports that the output has drained the next one is sent, in at most as
    many reports as the file has bytes, whatever the rest of the system does to
    other files meanwhile.  The pieces written to the data connection are the
    file, in order; the report after the last one leads to 226, and when that
    is out the data connection is freed.  Nothing else is done: the descriptor
    of the file is never closed. *)
Theorem protected_retr_conversation {S} `{FileServes S} srv fuel h d (w : world S) file fd st f g :
  let opened := sys_step (COpenRead file) (sys w) in
  let content := left_in (snd opened) fd in
  connected true h d w -> fst opened = fd -> 0 <= fd ->
  fst (sys_step (CFstat fd) (snd opened)) = Some st ->
  (forall s, fst (sys_step (CCalloc (FILE_CHUNK_SIZE + 24)) s) = true) ->
  strlen content = st_size st -> 0 < st_size st ->
  (forall s, left_in (f s) fd = left_in s fd) ->
  exists w1 w2 k l, dispatch srv fuel (Command "RETR" [file] 1) w = Ok (tt, w1) /\
    (k < String.length content)%nat /\
    play srv fuel (concat (repeat (output_turn d f) k) ++ output_turn d f ++
      [Environment g; Callback ControlWritten]) w1 = Ok w2 /\
    trace w2 = trace w ++
      [Did (COpenRead file) fd; Did (CFstat fd) (Some st);
       Did (CBevWrite h (reply_150 "Sending file")) tt; Did (CCalloc (FILE_CHUNK_SIZE + 24)) true;
       Did (CBevSetWriteWatermark d (128 * 1024)) tt; Did (CBevEnable d) tt] ++ l ++
      [Did (CBevWrite h (reply_226 "Transfer complete")) tt] ++ freed d /\
    written_to d l = content /\ Forall (fun e => chunk_event d e = true) l /\
    transfer_over h d w2.
Proof.
  intros opened content Hw Hfd Hpos Hst Halloc Hsize Hne Hf.
  destruct (retr_ready srv fuel h d w file fd st Hw Hfd Hpos Hst Halloc Hsize Hne) as (w0 & E0 & Hw0 & T0).
  fold opened content in Hw0.
  assert (content <> EmptyString) as Hc by (intros E; rewrite E in Hsize; unfold strlen in Hsize; simpl in Hsize; lia).
  destruct (piece_run h d fd content w0 Hw0 Hc) as (piece & rest & w1 & Hr & Hp & E1 & Hw1 & T1).
  destruct (chunk_turns_run srv fuel h d fd f (String.length rest) rest w1 Hw1 (Nat.le_refl _) Hf)
    as (k & w2 & l & Hk & E2 & Hw2 & T2 & Hl & Hch).
  destruct (download_end srv fuel h d fd w2 f g Hw2) as (w3 & E3 & T3 & Hover).
  exists w1, w3, k, ([Did (CRead fd FILE_CHUNK_SIZE) (Some piece); Did (CBevWrite d piece) tt] ++ l).
  split; [etrans; [exact E0|exact E1]|]. split.
  { rewrite Hr, length_string_app. destruct piece; [done|]. simpl. lia. }
  split; [|split; [|split; [|split; [|done]]]].
  - rewrite play_app. etrans; [apply (f_equal (fun o => o ≫= _)); exact E2|exact E3].
  - by rewrite T3, T2, T1, T0, <- !app_assoc.
  - by rewrite written_piece, Hl.
  - apply Forall_app. split; [|done]. repeat constructor. cbn [chunk_event]. apply Nat.eqb_refl.
Qed.

#[export] Instance small_serves : FileServes small.
Proof. constructor. intros c fd s Hc. by destruct c. Qed.

Example protected_retr_conversation_witness :
  exists w1 w2 k l, dispatch sample_server 1 (Command "RETR" ["notes.txt"%string] 1) protected_world = Ok (tt, w1) /\
    play sample_server 1 (concat (repeat (output_turn 1 (set_input 0 "x")) k) ++ output_turn 1 (set_input 0 "x") ++
      [Environment id; Callback ControlWritten]) w1 = Ok w2 /\
    written_to 1 l = "hello, world"%string /\ data_bev (conn w2) = None.
Proof.
  destruct (protected_retr_conversation sample_server 1 0 1 protected_world "notes.txt" 100
    (Stat 0x81a4 1 1000 1000 12 1700000000) (set_input 0 "x") id)
    as (w1 & w2 & k & l & E1 & _ & E2 & _ & Hl & _ & Hover).
  - split; reflexivity.
  - reflexivity.
  - lia.
  - reflexivity.
  - intros s. reflexivity.
  - reflexivity.
  - simpl. lia.
  - intros s. reflexivity.
  - exists w1, w2, k, l. split; [exact E1|]. split; [exact E2|]. split; [exact Hl|exact (proj1 Hover)].
Defined.
