(* ===== verification/Login.v ===== *)
(** * Who may do what (src/engine/command_parser.c, src/security/auth.c)

    Proofs about the order of a session: no file is touched before a login,
    and a login is the full sequence of checks and confinement steps for a
    name that does not begin with "root". *)

From S2P Require Import Prelude CString StringTable CommandParser Config Connection System.
From S2P Require Import Control.
From S2P Require Import ServerState DataHandler Auth Ipc Dele Listing Retr Stor Actions.
From S2P Require Import Dispatch Session SmallSystem Scenario.
From stdpp Require Import options.

Local Open Scope Z_scope.

(** Calls on the file system, on descriptors and on new sockets. *)
Definition file_call (c : call) : bool :=
  match c with
  | CStat _ | CLstat _ | CFstat _ | CMkdir _ _ | CRmdir _ | CUnlink _ | CGetcwd | COpendir _
  | CClosedir _ | COpenRead _ | COpenWrite _ | CRead _ _ | CFsync _ | CClose _
  | CListenerNewBind _ _ _ | CBevAddFile _ _ _ | CEvbufferWrite _ _ => true
  | _ => false
  end.

Definition is_file_event (e : event) : bool := let '(Did c _) := e in file_call c.

(** A login for an allowed name is part of the record of calls. *)
Definition logged_in (tr : list event) : Prop :=
  exists pre name password hash entry post,
    tr = pre ++ login_events name password hash entry ++ post /\ starts_with_root name = false.

Lemma logged_in_app tr l : logged_in tr -> logged_in (tr ++ l).
Proof.
  intros (pre & name & pw & hash & entry & post & -> & Hn).
  exists pre, name, pw, hash, entry, (post ++ l). by rewrite <- !app_assoc.
Qed.

Lemma starts_with_root_strtake name :
  starts_with_root name = false -> starts_with_root (strtake USERNAME_LEN name) = false.
Proof.
  unfold starts_with_root, strncmp_eq, USERNAME_LEN. by rewrite strtake_strtake.
Qed.

(** ** Relations between the states before and after a callback *)

Section Relations.
Context {S : Type} `{Sys S}.

(** A session stays logged in. *)
Definition stays (w w' : world S) : Prop :=
  authenticated (conn w) = true -> authenticated (conn w') = true.

Definition stays_put (f : connection_t -> connection_t) : Prop :=
  forall c, authenticated c = true -> authenticated (f c) = true.

#[export] Instance stays_tame : Tame stays_put (fun _ => True) (fun _ => True) stays.
Proof.
  split; unfold stays; [|intros; simpl; auto|done..].
  split; [by intros w|]. intros w1 w2 w3; auto.
Qed.

(** No data connection exists, as is the case before a login. *)
Record bare (w : world S) : Prop := {
  bare_live : forall h k, live (handles w) !! h = Some k -> k <> KListener /\ k <> KDataBev;
  bare_listener : pasv_listener (conn w) = None;
  bare_bev : data_bev (conn w) = None;
  bare_cb : control_write_cb (conn w) = None \/
            control_write_cb (conn w) = Some disable_connection_cb;
}.

(** What a callback may do before a login: it logs in, or it makes no call
    but [ok] ones and opens no data connection. *)
Definition no_files (ok : event -> Prop) (w w' : world S) : Prop :=
  (bare w -> bare w') /\ exists l, trace w' = trace w ++ l /\ Forall ok l.

Definition outside (ok : event -> Prop) (w w' : world S) : Prop :=
  stays w w' /\ (authenticated (conn w') = true \/ no_files ok w w').

Definition outside_put (f : connection_t -> connection_t) : Prop :=
  stays_put f /\
  forall c, authenticated (f c) = true \/
    ((pasv_listener c = None -> pasv_listener (f c) = None) /\
    (data_bev c = None -> data_bev (f c) = None) /\
    (control_write_cb c = None \/ control_write_cb c = Some disable_connection_cb ->
     control_write_cb (f c) = None \/ control_write_cb (f c) = Some disable_connection_cb)).

Lemma no_files_trans ok w1 w2 w3 : no_files ok w1 w2 -> no_files ok w2 w3 -> no_files ok w1 w3.
Proof.
  intros [H1 (l1 & E1 & F1)] [H2 (l2 & E2 & F2)]. split; [auto|].
  exists (l1 ++ l2). rewrite E2, E1, app_assoc. split; [done|]. by apply Forall_app.
Qed.

Lemma no_files_same_trace ok w w' : (bare w -> bare w') -> trace w' = trace w -> no_files ok w w'.
Proof. intros Hb E. split; [done|]. exists []. by rewrite app_nil_r. Qed.

#[export] Instance outside_tame ok :
  Tame outside_put (fun c => forall r, ok (Did c r)) (fun k => k <> KListener /\ k <> KDataBev)
    (outside ok).
Proof.
  split; unfold outside.
  - split.
    + intros w. split; [by intros ?|]. right. by apply no_files_same_trace.
    + intros w1 w2 w3 [S1 H1] [S2 H2]. split; [unfold stays in *; auto|].
      destruct H2 as [|H2]; [by left|]. destruct H1 as [H1|H1]; [left; by apply S2|].
      right. by eapply no_files_trans.
  - intros f w [Hs Hf]. split; [unfold stays; apply Hs|]. simpl.
    destruct (Hf (conn w)) as [|(Hp & Hd & Hc)]; [by left|]. right.
    apply no_files_same_trace; [|done]. intros [B1 B2 B3 B4]. split; simpl; auto.
  - intros c r w s Hc. split; [by intros ?|]. right. split; [by intros []|].
    exists [Did c r]. split; [done|]. constructor; [apply Hc|done].
  - intros k w Hk. split; [by intros ?|]. right. apply no_files_same_trace; [|done].
    intros [B1 B2 B3 B4]. split; simpl; [|done..].
    intros h k'. destruct (decide (h = next (handles w))) as [->|Hne].
    + rewrite lookup_insert_eq. by intros [= <-].
    + rewrite lookup_insert_ne by done. apply B1.
  - intros h w. split; [by intros ?|]. right. apply no_files_same_trace; [|done].
    intros [B1 B2 B3 B4]. split; simpl; [|done..].
    intros h' k. rewrite lookup_delete_Some. intros [_ ?]. by eapply B1.
Qed.

(** No root name is remembered, and being logged in has a login behind it. *)
Definition named (w : world S) : Prop :=
  starts_with_root (username (conn w)) = false /\
  (authenticated (conn w) = true -> logged_in (trace w)).

Definition names (w w' : world S) : Prop := named w -> named w'.

Definition names_put (f : connection_t -> connection_t) : Prop :=
  forall c, (authenticated (f c) = true -> authenticated c = true) /\
    (starts_with_root (username c) = false -> starts_with_root (username (f c)) = false).

#[export] Instance names_tame : Tame names_put (fun _ => True) (fun _ => True) names.
Proof.
  split; unfold names, named; [|intros f w Hf|intros c r w s _|done|done].
  - split; [by intros w|]. intros w1 w2 w3; auto.
  - destruct (Hf (conn w)). simpl. naive_solver.
  - simpl. intros [Hn Hl]. split; [done|]. intros Ha. by apply logged_in_app, Hl.
Qed.

(** The record of calls grows. *)
Definition extends (w w' : world S) : Prop :=
  username (conn w') = username (conn w) /\ exists l, trace w' = trace w ++ l.

#[export] Instance extends_tame :
  Tame (fun f => forall c, username (f c) = username c) (fun _ => True) (fun _ => True) extends.
Proof.
  assert (forall w : world S, exists l, trace w = trace w ++ l) as Hnil
    by (intros w; exists []; by rewrite app_nil_r).
  split; unfold extends; [|intros f w Hf; simpl; auto|intros c r w s _; simpl; eauto|simpl; auto..].
  split; [by intros w|]. intros w1 w2 w3 [U1 (l1 & E1)] [U2 (l2 & E2)].
  split; [congruence|]. exists (l1 ++ l2). by rewrite E2, E1, app_assoc.
Qed.
End Relations.

Ltac stays_side := first [exact I | intros ? ?; unfold add_and_fetch_8; fields; first [done | assumption]].
Ltac outside_side :=
  first [ intros ?; reflexivity | by split
        | split; [intros ? ?; fields; first [done|assumption]
                 | intros ?; fields; first [by left | right; split_and!; by auto]] ].
(** The same during the set-up, which closes inherited descriptors. *)
Ltac set_up_side :=
  first [ intros ?; left; reflexivity
        | intros []; right; eexists; split; [reflexivity|];
          repeat (rewrite elem_of_cons; first [left; reflexivity | right])
        | outside_side ].
Ltac names_side := first [exact I | by intros ?; unfold add_and_fetch_8; fields].

Section Login.
Context {S : Type} `{Sys S}.
Variable srv : server_state_t.
Variable fuel : nat.

Lemma run_callback_stays cb b : keeps (S:=S) stays (run_callback fuel cb b).
Proof. destruct cb; cbn [run_callback]; walk_session ltac:(stays_side). Qed.

Lemma dispatch_stays cmd : keeps (S:=S) stays (dispatch srv fuel cmd).
Proof.
  walk_dispatch ltac:(stays_side).
Qed.

Lemma handle_event_stays e : keeps (S:=S) stays (handle_event srv fuel e).
Proof.
  destruct e; cbn [handle_event];
    walk_session_with ltac:(stays_side) ltac:(first [apply dispatch_stays | apply run_callback_stays]).
Qed.

(** No file is touched. *)
Definition untouching : world S -> world S -> Prop := outside (fun e => is_file_event e = false).

(** Before a login a command runs its second callback. *)
Lemma run_command_cb_outside f g cmd w w' :
  authenticated (conn w) = false -> keeps (S:=S) untouching (g cmd) ->
  run_command_cb (CommandCb f g) cmd w = Ok (tt, w') -> untouching w w'.
Proof.
  intros Ha Hg. unfold run_command_cb, get, mbind, act_bind. rewrite Ha. apply Hg.
Qed.

Lemma dispatch_outside cmd w w' :
  authenticated (conn w) = false -> dispatch srv fuel cmd w = Ok (tt, w') -> untouching w w'.
Proof.
  intros Ha. unfold dispatch, command_actions. cbn [find_action].
  repeat (destruct (String.eqb _ _);
    [apply run_command_cb_outside; [done|walk_session ltac:(outside_side)]|]).
  intros E. revert E. generalize w w'.
  assert (keeps (S:=S) untouching (cftp_invalid_action cmd)) as Hk by walk_session ltac:(outside_side).
  intros ? ? E. by eapply Hk.
Qed.
Lemma handle_event_outside e w w' :
  bare w -> authenticated (conn w) = false -> enabled w e = true ->
  handle_event srv fuel e w = Ok (tt, w') -> untouching w w'.
Proof.
  intros Hb Ha He. pose proof (bare_live w Hb) as Hlive.
  apply andb_true_iff in He as [_ He].
  destruct e; cbn [handle_event].
  - intros (b & w1 & [= <- <-] & (input & w2 & E1 & E2)%act_bind_Ok)%act_bind_Ok.
    assert (untouching w w2) as H12.
    { revert E1. apply_keeps ltac:(walk_session ltac:(outside_side)). }
    destruct (authenticated (conn w2)) eqn:Ha2.
    + pose proof (dispatch_stays _ _ _ _ E2 Ha2). destruct H12 as [H12 _].
      split; [intros H1; congruence|by left].
    + apply dispatch_outside in E2; [|done]. pose proof (tame_preorder (R:=untouching)) as [_ Ht].
      by eapply Ht.
  - intros (b & w1 & [= <- <-] & E)%act_bind_Ok. revert E. unfold on_write.
    destruct (bev (conn w)); [|by intros [= <-]; apply tame_preorder].
    intros (cb & w1 & [= <- <-] & E)%act_bind_Ok. revert E.
    assert (forall m : act S unit, keeps untouching m -> keeps untouching (m;; put (set_control_write_cb None)))
      as Hk by (intros m Hm; apply keeps_bind; [done|intros; walk_session ltac:(outside_side)]).
    destruct (bare_cb w Hb) as [-> | ->]; apply Hk; walk_session ltac:(outside_side).
  - apply_keeps ltac:(walk_session ltac:(outside_side)).
  - destruct (live (handles w) !! h) as [[]|] eqn:E; try done. by destruct (Hlive _ _ E).
  - destruct (live (handles w) !! h) as [[]|] eqn:E; try done. by destruct (Hlive _ _ E).
  - destruct (live (handles w) !! h) as [[]|] eqn:E; try done. by destruct (Hlive _ _ E).
  - destruct (live (handles w) !! h) as [[]|] eqn:E; try done. by destruct (Hlive _ _ E).
  - apply_keeps ltac:(walk_session ltac:(outside_side)).
  - apply_keeps ltac:(walk_session ltac:(outside_side)).
Qed.

(** The set-up closes descriptors of the socket pair, the pipe and the
    client, and touches no other. *)
Definition set_up_event (fd : Z) (fds : child_fds) (e : event) : Prop :=
  is_file_event e = false \/
  exists d, e = Did (CClose d) tt /\
    d ∈ [pipe_write fds; rpc_parent fds; pipe_read fds; rpc_child fds; fd].

Lemma start_session_outside fd addr fds s0 w :
  start_session srv fd addr fds (initial_world s0) = Ok (tt, w) ->
  outside (set_up_event fd fds) (initial_world s0) w.
Proof.
  revert w. generalize (initial_world s0). intros w0 w. unfold start_session.
  apply_keeps ltac:(walk_session ltac:(set_up_side)).
Qed.

(** Before a login: no data connection, no file call since the set-up. *)
Lemma session_bare fd addr fds s0 w :
  session srv fuel fd addr fds s0 w -> authenticated (conn w) = false ->
  bare w /\ exists w0 l, start_session srv fd addr fds (initial_world s0) = Ok (tt, w0) /\
    trace w = trace w0 ++ l /\ Forall (set_up_event fd fds) (trace w0) /\
    Forall (fun e => is_file_event e = false) l.
Proof.
  induction 1 as [w Hs|w e w' _ IH He E|w s' _ IH]; intros Ha.
  - destruct (start_session_outside _ _ _ _ _ Hs) as [_ [Hl|[Hb (l & Ht & Hl)]]]; [congruence|].
    split.
    + apply Hb. split; simpl; [|done|done|by left].
      intros h k. rewrite lookup_singleton_Some. by intros [_ <-].
    + exists w, []. split; [done|]. rewrite app_nil_r. split; [done|]. split; [|done]. by rewrite Ht.
  - assert (authenticated (conn w) = false) as Haw.
    { destruct (authenticated (conn w)) eqn:Haw; [|done].
      pose proof (handle_event_stays _ _ _ _ E Haw). congruence. }
    destruct (IH Haw) as [Hb (w0 & l0 & Hs & Ht & Hset & Hf)].
    destruct (handle_event_outside _ _ _ Hb Haw He E) as [_ [Hl|[Hb' (l & Hl & Hlf)]]]; [congruence|].
    split; [auto|]. exists w0, (l0 ++ l). split; [done|]. split; [by rewrite Hl, Ht, app_assoc|].
    split; [done|]. by apply Forall_app.
  - destruct (IH Ha) as [[] Hf]. split; [|done]. by split.
Qed.

(** *** Names *)

Lemma user_exists_names name : keeps (S:=S) names (user_exists name).
Proof.
  unfold user_exists. destruct (starts_with_root name) eqn:E; walk_session ltac:(names_side).
  apply keeps_put. intros c. fields. split; [done|]. intros _. by apply starts_with_root_strtake.
Qed.

Lemma pass_names cmd : keeps (S:=S) names (cftp_pass_authenticated cmd).
Proof.
  unfold cftp_pass_authenticated. destruct (not_one_argument cmd); [walk_session ltac:(names_side)|].
  apply keeps_bind; [walk_session ltac:(names_side)|]. intros pw w u w' E Hw.
  apply act_bind_Ok in E as (name & w1 & [-> ->]%get_Ok & E).
  apply act_bind_Ok in E as (ok & w2 & (Ha & Hu & l & Hl & [Hs _ _])%authenticate_run & E).
  destruct Hw as [Hroot Hin].
  assert (extends w2 w') as [Hu' (l' & Hl')].
  { revert E. destruct ok; apply_keeps ltac:(walk_session ltac:(first [exact I | by intros ?])). }
  split; [congruence|]. intros Ha'. destruct ok.
  - destruct (Hs eq_refl) as (entry & hash & ->). rewrite Hl', Hl.
    exists (trace w), (username (conn w)), pw, hash, entry, l'. by rewrite <- app_assoc.
  - assert (names w2 w') as Hn by (revert E; apply_keeps ltac:(walk_session ltac:(names_side))).
    apply Hn; [|done]. split; [congruence|]. intros Ha2. rewrite Hl.
    apply logged_in_app, Hin. congruence.
Qed.

Lemma run_callback_names cb b : keeps (S:=S) names (run_callback fuel cb b).
Proof. destruct cb; cbn [run_callback]; walk_session ltac:(names_side). Qed.

Lemma dispatch_names cmd : keeps (S:=S) names (dispatch srv fuel cmd).
Proof.
  unfold dispatch, command_actions; cbn [find_action];
  repeat (destruct (String.eqb _ _); [apply keeps_run_command_cb;
    walk_session_with ltac:(names_side) ltac:(first [apply user_exists_names | apply pass_names])|]);
  walk_session ltac:(names_side).
Qed.

Lemma handle_event_names e : keeps (S:=S) names (handle_event srv fuel e).
Proof.
  destruct e; cbn [handle_event];
    walk_session_with ltac:(names_side) ltac:(first [apply dispatch_names | apply run_callback_names]).
Qed.

Lemma session_named fd addr fds s0 w : session srv fuel fd addr fds s0 w -> named w.
Proof.
  induction 1 as [w Hs|w e w' _ IH _ E|w s' _ IH]; [|by eapply handle_event_names|done].
  assert (names (initial_world s0) w) as Hn.
  { revert Hs. generalize (initial_world s0). intros w0. unfold start_session.
    apply_keeps ltac:(walk_session ltac:(names_side)). }
  apply Hn. by split.
Qed.
End Login.

(** ** Properties *)

(** C4: no session touches a file, opens a directory, a descriptor or a
    listening socket, or has a data connection, before it is logged in,
    whatever events and commands it goes through.  Its set-up closes
    descriptors it was forked with, and nothing else of the kind. *)
Theorem files_need_login {S} `{Sys S} srv fuel fd addr fds s0 w :
  session srv fuel fd addr fds s0 w -> authenticated (conn w) = false ->
  exists w0 l, start_session srv fd addr fds (initial_world s0) = Ok (tt, w0) /\
    trace w = trace w0 ++ l /\ Forall (set_up_event fd fds) (trace w0) /\
    Forall (fun e => is_file_event e = false) l /\
    data_bev (conn w) = None /\ pasv_listener (conn w) = None.
Proof.
  intros Hs Ha.
  destruct (session_bare _ _ _ _ _ _ _ Hs Ha) as [[_ Hp Hd _] (w0 & l & E & Ht & Hset & Hf)].
  by exists w0, l.
Qed.

(** C2: a session that is logged in went through the complete login
    sequence ([login_events]) for a name that does not begin with "root". *)
Theorem login_needs_credentials {S} `{Sys S} srv fuel fd addr fds s0 w :
  session srv fuel fd addr fds s0 w -> authenticated (conn w) = true -> logged_in (trace w).
Proof. intros Hs Ha. destruct (session_named _ _ _ _ _ _ _ Hs) as [_ Hl]. by apply Hl. Qed.

(** ** Witnesses *)

Lemma files_need_login_witness :
  authenticated (conn (played (login_scenario "root" "secret"))) = false /\
  exists (w0 : world small) l, trace (played (login_scenario "root" "secret")) = trace w0 ++ l /\
    Forall (set_up_event 5 sample_fds) (trace w0) /\
    Forall (fun e => is_file_event e = false) l.
Proof.
  assert (session sample_server 10 5 (SockInet 0x7f000001) sample_fds sample_small
    (played (login_scenario "root" "secret"))) as Hs
    by (apply (play_session_ok _ _ _ _ _ _ (login_scenario "root" "secret"));
        vm_compute; reflexivity).
  assert (authenticated (conn (played (login_scenario "root" "secret"))) = false) as Ha
    by (vm_compute; reflexivity).
  split; [exact Ha|].
  destruct (files_need_login _ _ _ _ _ _ _ Hs Ha) as (w0 & l & _ & Ht & Hset & Hf & _).
  exists w0, l. split; [exact Ht|]. split; [exact Hset|exact Hf].
Defined.

Lemma login_needs_credentials_witness :
  authenticated (conn (played (login_scenario "alice" "secret"))) = true /\
  logged_in (trace (played (login_scenario "alice" "secret"))).
Proof.
  assert (session sample_server 10 5 (SockInet 0x7f000001) sample_fds sample_small
    (played (login_scenario "alice" "secret"))) as Hs
    by (apply (play_session_ok _ _ _ _ _ _ (login_scenario "alice" "secret"));
        vm_compute; reflexivity).
  assert (authenticated (conn (played (login_scenario "alice" "secret"))) = true) as Ha
    by (vm_compute; reflexivity).
  split; [exact Ha|]. exact (login_needs_credentials _ _ _ _ _ _ _ Hs Ha).
Defined.
