(* ===== verification/Replies.v ===== *)
(** * Replies and path checks (src/engine/command_parser.c,
      src/actions/command_actions.c)

    How many replies a command gets, and which paths reach the system. *)

From S2P Require Import Prelude CString StringTable CommandParser Config Connection System.
From S2P Require Import Control.
From S2P Require Import ServerState DataHandler Security Auth Ipc Dele Listing Retr Stor.
From S2P Require Import Actions Dispatch Session SmallSystem Scenario.
From stdpp Require Import options.

Local Open Scope Z_scope.

(** Calls that put bytes into the output of a bufferevent. *)
Definition is_write (e : event) : bool :=
  match e with Did (CBevWrite _ _) _ | Did (CBevAddFile _ _ _) _ => true | _ => false end.

Definition written (l : list event) : list event := List.filter is_write l.

Section Says.
Context {S : Type} `{Sys S}.

(** [m], started with [h] as the control bufferevent, writes one message, on
    [h], and nothing anywhere else. *)
Definition says_at {A} (m : act S A) (w : world S) : Prop :=
  forall h a w', m w = Ok (a, w') -> bev (conn w) = Some h ->
    exists text l, trace w' = trace w ++ l /\ written l = [Did (CBevWrite h text) tt].

Definition says {A} (m : act S A) : Prop := forall w, says_at m w.

(** Nothing is written; [silent] keeps the control bufferevent too. *)
Definition quiet (w w' : world S) : Prop := exists l, trace w' = trace w ++ l /\ written l = [].
Definition silent (w w' : world S) : Prop := bev (conn w') = bev (conn w) /\ quiet w w'.

Definition silent_call (c : call) : Prop := forall r, is_write (Did c r) = false.

#[local] Set Default Proof Using "Type*".

#[export] Instance quiet_tame :
  Tame (fun _ => True) silent_call (fun _ => True) quiet.
Proof.
  assert (forall w : world S, exists l, trace w = trace w ++ l /\ written l = []) as Hnil
    by (intros w; exists []; by rewrite app_nil_r).
  split; unfold quiet; [|intros; simpl; auto|intros c r w s Hc; simpl|simpl; auto..].
  - split; [intros w; auto|]. intros w1 w2 w3 (l1 & E1 & M1) (l2 & E2 & M2).
    exists (l1 ++ l2). unfold written in *. by rewrite E2, E1, app_assoc, List.filter_app, M1, M2.
  - exists [Did c r]. split; [done|]. unfold written. cbn [List.filter]. by rewrite Hc.
Qed.

#[export] Instance silent_tame :
  Tame (fun f => forall c, bev (f c) = bev c) silent_call (fun _ => True) silent.
Proof.
  pose proof quiet_tame as [[Hr Ht] Hp Hc Ha Hf]. split; unfold silent.
  - split; [by split|]. intros w1 w2 w3 [B1 Q1] [B2 Q2]. split; [congruence|by eapply Ht].
  - intros f w Hf'. split; [apply Hf'|by apply (Hp f)].
  - intros c r w s Hcall. split; [done|by apply Hc].
  - intros k w Hk. split; [done|by apply Ha].
  - intros h w. split; [done|by apply Hf].
Qed.

(** Nothing before, one message after; or the other way round. *)
Lemma says_after {A B} (m : act S A) (f : A -> act S B) :
  keeps silent m -> (forall a, says (f a)) -> says (m ≫= f).
Proof.
  intros Hm Hf w h b w' (a & w1 & E1 & E2)%act_bind_Ok Hb.
  destruct (Hm _ _ _ E1) as [Hb1 (l1 & T1 & M1)].
  destruct (Hf _ _ _ _ _ E2 ltac:(by rewrite Hb1)) as (text & l2 & T2 & M2).
  exists text, (l1 ++ l2). unfold written in *. by rewrite T2, T1, app_assoc, List.filter_app, M1.
Qed.

Lemma says_before {A B} (m : act S A) (f : A -> act S B) :
  says m -> (forall a, keeps quiet (f a)) -> says (m ≫= f).
Proof.
  intros Hm Hf w h b w' (a & w1 & E1 & E2)%act_bind_Ok Hb.
  destruct (Hm _ _ _ _ E1 Hb) as (text & l1 & T1 & M1).
  destruct (Hf _ _ _ _ E2) as (l2 & T2 & M2).
  exists text, (l1 ++ l2). unfold written in *. by rewrite T2, T1, app_assoc, List.filter_app, M1, M2.
Qed.

Lemma says_bev {A} (f : option nat -> act S A) :
  (forall w h, bev (conn w) = Some h -> says_at (f (Some h)) w) -> says (b ← get bev; f b).
Proof.
  intros Hf w h a w' (b & w1 & [-> ->]%get_Ok & E)%act_bind_Ok Hb.
  rewrite Hb in E. exact (Hf w h Hb h _ _ E Hb).
Qed.

Lemma says_at_write (w : world S) h text :
  bev (conn w) = Some h -> says_at (bufferevent_write (Some h) text) w.
Proof.
  intros Hb h' a w' E Hb'. unfold bufferevent_write in E. inv_act. simplify_eq.
  destruct a. by exists text, [Did (CBevWrite x text) tt].
Qed.

Lemma says_send status text : says (send_control_message (S:=S) status text).
Proof. apply says_bev. intros w h Hb. by apply says_at_write. Qed.

Lemma says_undefined {A} : says (fail_undefined : act S A).
Proof. by intros w h a w'. Qed.

Lemma says_nonnull {A B} (p : option A) (f : A -> act S B) :
  (forall a, says (f a)) -> says (x ← nonnull p; f x).
Proof. intros Hf w h b w' (x & w1 & [_ ->]%nonnull_Ok & E)%act_bind_Ok. exact (Hf x _ _ _ _ E). Qed.

Lemma says_run_command_cb f g cmd w :
  (authenticated (conn w) = true -> says (f cmd)) -> says (g cmd) ->
  says_at (run_command_cb (CommandCb f g) cmd) w.
Proof.
  intros Hf Hg h a w' (b & w1 & [-> ->]%get_Ok & E)%act_bind_Ok Hb.
  destruct (authenticated (conn w)); [exact (Hf eq_refl _ _ _ _ E Hb)|exact (Hg _ _ _ _ E Hb)].
Qed.
End Says.

Ltac silent_side :=
  first [ exact I | intros ?; reflexivity | intros ?; unfold add_and_fetch_8; fields; reflexivity ].

(** Finds the one message on every branch of a handler; [handle_cwd_command]
    holds the control bufferevent in a variable. *)
Ltac speak :=
  lazymatch goal with
  | |- says (send_control_message _ _) => apply says_send
  | |- says fail_undefined => apply says_undefined
  | |- says (_ ≫= _) =>
      first [ apply says_nonnull; intros ?; speak
            | apply says_after; [solve [walk_session ltac:(silent_side)]|intros ?; speak]
            | apply says_before; [speak|intros ?; solve [walk_session ltac:(silent_side)]] ]
  | |- says (match ?x with _ => _ end) => destruct x; speak
  | |- says ?m => let h := head_of m in unfold h; speak
  end.

Section Commands.
Context {S : Type} `{Sys S}.
Variable srv : server_state_t.
Variable fuel : nat.
#[local] Set Default Proof Using "Type*".

(** CWD reads the control bufferevent first and writes to it later. *)
Lemma says_at_bind {A B} (m : act S A) (f : A -> act S B) w :
  keeps silent m ->
  (forall a w1, bev (conn w1) = bev (conn w) -> says_at (f a) w1) -> says_at (m ≫= f) w.
Proof.
  intros Hm Hf h b w' (a & w1 & E1 & E2)%act_bind_Ok Hb.
  destruct (Hm _ _ _ E1) as [Hb1 (l1 & T1 & M1)].
  destruct (Hf a w1 Hb1 _ _ _ E2 ltac:(by rewrite Hb1)) as (text & l2 & T2 & M2).
  exists text, (l1 ++ l2). unfold written in *. by rewrite T2, T1, app_assoc, List.filter_app, M1.
Qed.

Lemma says_cwd a : says (handle_cwd_command (S:=S) a).
Proof.
  unfold handle_cwd_command. apply says_bev. intros w h Hb.
  destruct (_ =? 0); [by apply says_at_write|]. destruct (negb _); [apply says_send|].
  cbv zeta. apply says_at_bind; [walk_session ltac:(silent_side)|]. intros st w1 Hb1.
  destruct (negb _); [apply says_at_write; by rewrite Hb1|].
  apply says_at_bind; [walk_session ltac:(silent_side)|]. intros r w2 Hb2.
  destruct (_ <? 0); apply says_at_write; by rewrite Hb2, Hb1.
Qed.

(** Commands of a logged-in client that may write another number. *)
Definition many_replies (name : string) : bool :=
  String.eqb name "RETR" || String.eqb name "LIST" || String.eqb name "NLST".

(** A command that gets exactly one reply at once. *)
Definition one_reply (cmd : cftp_command_t) (c : connection_t) : bool :=
  negb (authenticated c) || negb (many_replies (command cmd)) ||
  (String.eqb (command cmd) "RETR" && not_one_argument cmd).

Lemma dispatch_says cmd w :
  one_reply cmd (conn w) = true -> says_at (S:=S) (dispatch srv fuel cmd) w.
Proof.
  unfold one_reply. intros Hm. unfold dispatch, command_actions; cbn [find_action].
  repeat (match goal with |- context [String.eqb ?n (command cmd)] =>
    destruct (String.eqb_spec n (command cmd)) as [En|];
      [apply says_run_command_cb;
       [intros Ha; rewrite Ha in Hm; rewrite <- En in Hm; clear En; try discriminate Hm|];
       try (solve [speak])|] end).
  all: try solve [speak].
  - unfold cftp_retr_authenticated_action. cbn in Hm. rewrite Hm. speak.
  - unfold cftp_cwd_authenticated_action. destruct (not_one_argument cmd); [speak|].
    apply says_nonnull. intros a. destruct (negb (strlen a =? 0)); [apply says_cwd|speak].
  - apply says_send.
Qed.

(** Without a data connection RETR does nothing at all. *)
Lemma retr_without_data w a :
  data_bev (conn w) = None -> cftp_send_file (S:=S) a w = Ok (tt, w).
Proof.
  intros Hd. unfold cftp_send_file, get, mbind, act_bind.
  destruct (data_tls_required (conn w));
    unfold ftp_send_file_with_evbuffer, ftp_send_file_plain, get, mbind, act_bind; by rewrite Hd.
Qed.
End Commands.

(** ** Paths *)

(** A path a command may hand to the system: one of its own arguments, cut to
    the path buffer at most, that [is_path_safe] accepts. *)
Definition given (cmd : cftp_command_t) (p : string) : Prop :=
  is_path_safe (Some p) = true /\
  exists a, a ∈ args cmd /\ (p = a \/ p = snprintf_s (Z.to_nat PATH_MAX) a).

Definition listed_dir (cmd : cftp_command_t) (p : string) : Prop := given cmd p \/ p = "."%string.

(** Calls on the file system and on descriptors that each command may make. *)
Definition file_call_ok (cmd : cftp_command_t) (e : event) : Prop :=
  let '(Did c _) := e in
  match c with
  | CStat p => command cmd ∈ ["CWD"; "SIZE"; "MKD"; "RMD"]%string /\ given cmd p
  | CChdir p => command cmd = "CWD"%string /\ given cmd p
  | CMkdir p _ => command cmd = "MKD"%string /\ given cmd p
  | CRmdir p => command cmd = "RMD"%string /\ given cmd p
  | COpendir p | CClosedir p => command cmd ∈ ["LIST"; "NLST"]%string /\ listed_dir cmd p
  | CLstat p => command cmd ∈ ["LIST"; "NLST"]%string /\
      exists dir name, listed_dir cmd dir /\ is_dot_entry name = false /\ p = join_path dir name
  | CUnlink _ | COpenRead _ | COpenWrite _ | CRead _ _ | CFstat _ | CFsync _ | CClose _ | CGetcwd
  | CChroot _ | CSetuid _ | CSetgid _ | CBevAddFile _ _ _ | CEvbufferWrite _ _
  | CListenerNewBind _ _ _ => False
  | _ => True
  end.

(** What a callback of the data connection may make on its own: the calls of
    a listing, for a safe directory, and calls on open descriptors. *)
Definition data_call_ok (e : event) : Prop :=
  let '(Did c _) := e in
  match c with
  | COpendir p | CClosedir p => is_path_safe (Some p) = true
  | CLstat p => exists dir name, is_path_safe (Some dir) = true /\ is_dot_entry name = false /\
      p = join_path dir name
  | CStat _ | CChdir _ | CMkdir _ _ | CRmdir _ | CUnlink _ | COpenRead _ | COpenWrite _ | CGetcwd
  | CChroot _ | CSetuid _ | CSetgid _ | CListenerNewBind _ _ _ => False
  | _ => True
  end.

(** Calls all of one kind, the directory kept for a deferred listing safe. *)
Definition path_kept (c : connection_t) : Prop := is_path_safe (Some (path c)) = true.

Definition checked {S} (ok : event -> Prop) (w w' : world S) : Prop :=
  path_kept (conn w) -> path_kept (conn w') /\ exists l, trace w' = trace w ++ l /\ Forall ok l.

#[export] Instance checked_tame {S} ok :
  Tame (S:=S) (fun f => forall c, path_kept c -> path_kept (f c)) (fun c => forall r, ok (Did c r))
    (fun _ => True) (checked ok).
Proof.
  assert (forall w : world S, exists l, trace w = trace w ++ l /\ Forall ok l) as Hnil
    by (intros w; exists []; by rewrite app_nil_r).
  split; unfold checked; [|intros; simpl; auto|intros c r w s Hc; simpl|simpl; auto..].
  - split; [done|]. intros w1 w2 w3 H1 H2 Hp. destruct (H1 Hp) as (Hp2 & l1 & E1 & F1).
    destruct (H2 Hp2) as (Hp3 & l2 & E2 & F2). split; [done|].
    exists (l1 ++ l2). rewrite E2, E1, app_assoc. split; [done|]. by apply Forall_app.
  - intros Hp. split; [done|]. exists [Did c r]. split; [done|]. by constructor.
Qed.

Lemma is_path_safe_strtake n p :
  is_path_safe (Some p) = true -> is_path_safe (Some (strtake n p)) = true.
Proof.
  rewrite !is_path_safe_spec. intros Hp (a & b & E). apply Hp.
  exists a, (b +:+ strdrop n p). rewrite <- (strtake_strdrop n p) at 1. rewrite E.
  by rewrite !string_app_assoc.
Qed.

(** The commands that run their path through [is_path_safe]. *)
Definition path_filtered (name : string) : bool :=
  existsb (String.eqb name) ["CWD"; "SIZE"; "MKD"; "RMD"; "LIST"; "NLST"]%string.

Lemma keeps_nonnull_bind {S A B} `{Sys S} {okput okcall okkind R}
    `{!Tame (S:=S) okput okcall okkind R} (p : option A) (f : A -> act S B) :
  (forall a, p = Some a -> keeps R (f a)) -> keeps R (x ← nonnull p; f x).
Proof. intros Hf w b w' (x & w1 & [E ->]%nonnull_Ok & E')%act_bind_Ok. exact (Hf x E _ _ _ E'). Qed.

Lemma given_arg cmd a :
  arg_at cmd 0 = Some a -> is_path_safe (Some a) = true -> given cmd a.
Proof.
  unfold arg_at. intros Ha Hs. split; [done|]. exists a. split; [|by left].
  destruct (args cmd); simplify_eq/=. left.
Qed.

Lemma given_cut cmd a :
  arg_at cmd 0 = Some a -> is_path_safe (Some a) = true -> given cmd (snprintf_s (Z.to_nat PATH_MAX) a).
Proof.
  unfold arg_at. intros Ha Hs. split; [by apply is_path_safe_strtake|]. exists a. split; [|by right].
  destruct (args cmd); simplify_eq/=. left.
Qed.

(** The argument of LIST and NLST. *)
Lemma parse_list_args_path l : forall f f' p,
  parse_list_args l f = Some f' -> path_flag f' = Some p -> path_flag f = Some p \/ p ∈ l.
Proof.
  induction l as [|x l IH]; intros f f' p E Hp; cbn [parse_list_args] in E; [simplify_eq; by left|].
  repeat case_match; try done;
    (destruct (IH _ _ _ E Hp) as [Hf|Hf]; cbn [path_flag] in Hf; [|right; by right]);
    [by left..|]. simplify_eq. right. left.
Qed.

Lemma list_path_given cmd f :
  parse_list_flags cmd = Some f -> is_path_safe (Some (list_path f)) = true ->
  listed_dir cmd (list_path f).
Proof.
  intros Hf Hs. unfold list_path in *. destruct (path_flag f) as [p|] eqn:Ep; [|by right].
  destruct (0 <? strlen p); [|by right]. left. split; [done|]. exists p. split; [|by right].
  by destruct (parse_list_args_path _ _ _ _ Hf Ep).
Qed.

Ltac in_names := repeat (rewrite elem_of_cons; first [left; reflexivity | right]).

Ltac given_side :=
  match goal with H : negb (is_path_safe (Some ?a)) = false |- _ =>
    apply negb_false_iff in H; first [by apply given_arg | by apply given_cut] end.

Ltac checked_side :=
  first [ exact I | intros ?; exact I | intros ? ?; unfold path_kept, add_and_fetch_8; fields; assumption
        | intros ?; cbn [file_call_ok]; split;
          [first [congruence | match goal with En : _ = command _ |- _ => rewrite <- En end; in_names]
          |given_side] ].

Section Listings.
Context {S : Type} `{Sys S} (ok : event -> Prop) (params dir : string).
Context (Hdir : strtake (Z.to_nat PATH_MAX) params = dir).
Context (Hopen : forall r, ok (Did (COpendir dir) r)) (Hclose : forall r, ok (Did (CClosedir dir) r)).
Context (Hlook : forall name r, is_dot_entry name = false -> ok (Did (CLstat (join_path dir name)) r)).
Context (Hother : forall c r, (match c with
  | CStrftimeLocal _ | CAskRoot _ | CGetuid | CBevSetcb _ _ | CBevWrite _ _ | CBevDisable _ | CBevFree _ => True
  | _ => False end) -> ok (Did c r)).
#[local] Set Default Proof Using "Type*".

Lemma send_list_checked desc hidden human :
  keeps (checked ok) (send_list_command_output (S:=S) params desc hidden human).
Proof.
  unfold send_list_command_output. rewrite Hdir.
  walk ltac:(first [ exact Hopen | exact Hclose | exact I | by intros ?; apply Hother
                   | intros ? ?; unfold path_kept; fields; assumption ])
    ltac:(apply keeps_list_entries; [by intros n Hn r; apply Hlook|by intros; apply Hother..]).
Qed.
End Listings.

Section Checks.
Context {S : Type} `{Sys S}.
Variable srv : server_state_t.
Variable fuel : nat.
#[local] Set Default Proof Using "Type*".

Lemma list_checked cmd desc :
  command cmd ∈ ["LIST"; "NLST"]%string ->
  keeps (S:=S) (checked (file_call_ok cmd)) (handle_list_command cmd desc).
Proof.
  intros Hc. unfold handle_list_command. destruct (parse_list_flags cmd) as [f|] eqn:Ef;
    [|walk_session ltac:(checked_side)].
  apply keeps_bind; [apply keeps_get|]. intros [d|]; [|walk_session ltac:(checked_side)].
  cbv zeta. change (match path_flag f with
    | Some p => if 0 <? strlen p then snprintf_s (Z.to_nat PATH_MAX) p else "."%string
    | None => "."%string end) with (list_path f).
  destruct (is_path_safe (Some (list_path f))) eqn:Hs; cbn [negb];
    [|unfold invalid_list_path; walk_session ltac:(checked_side)].
  pose proof (list_path_given cmd f Ef Hs) as Hg. pose proof (list_path_short f) as Hlen.
  apply keeps_bind; [apply (keeps_call (COpendir (list_path f))); by intros r|].
  intros [names|]; [|unfold invalid_list_path; walk_session ltac:(checked_side)].
  apply keeps_bind; [apply keeps_get|]. intros tls.
  apply keeps_bind; [|intros _; apply keeps_bind; [walk_session ltac:(checked_side)|]; intros _].
  - destruct tls; [|apply keeps_ret]. apply keeps_bind; [by apply keeps_put|]. intros _.
    walk_session ltac:(checked_side).
  - destruct tls; [apply keeps_ret|].
    assert (strtake (Z.to_nat PATH_MAX) (list_path f) = list_path f) as Ecut
      by (apply strtake_all; unfold strlen, PATH_MAX in *; lia).
    apply (send_list_checked _ _ (list_path f) Ecut); try done.
    + intros name r Hn. split; [done|]. by exists (list_path f), name.
    + intros c r Hcall. by destruct c.
Qed.

Lemma dispatch_checked cmd :
  path_filtered (command cmd) = true ->
  keeps (S:=S) (checked (file_call_ok cmd)) (dispatch srv fuel cmd).
Proof.
  intros Hp. unfold dispatch, command_actions; cbn [find_action].
  repeat (match goal with |- context [String.eqb ?n (command cmd)] =>
    destruct (String.eqb_spec n (command cmd)) as [En|];
      [first
        [ solve [rewrite <- En in Hp; discriminate Hp]
        | apply keeps_run_command_cb; [|solve [walk_session ltac:(checked_side)]];
          first
            [ solve [apply list_checked; rewrite <- En; in_names]
            | lazymatch goal with |- keeps _ ?m => let h := head_of m in unfold h end;
              (destruct (not_one_argument cmd); [solve [walk_session ltac:(checked_side)]|]);
              apply keeps_nonnull_bind; intros a Ha; solve [walk_session ltac:(checked_side)] ] ]|]
    end).
  walk_session ltac:(checked_side).
Qed.

(** The callbacks of the data connection. *)
Lemma deferred_checked b : keeps (S:=S) (checked data_call_ok) (run_list_tls_on_bev_event_connected b).
Proof.
  unfold run_list_tls_on_bev_event_connected. destruct b as [b|]; [|apply keeps_ret].
  intros w u w' (p & w1 & [-> ->]%get_Ok & E)%act_bind_Ok Hp.
  assert (is_path_safe (Some (strtake (Z.to_nat PATH_MAX) (path (conn w)))) = true) as Hs
    by by apply is_path_safe_strtake.
  revert E Hp. generalize (path (conn w)) Hs. clear. intros params Hs E. revert E.
  assert (keeps (S:=S) (checked data_call_ok)
    (d ← get description; h ← get hidden; hu ← get human; send_list_command_output params d h hu)) as Hk.
  { do 3 (apply keeps_bind; [apply keeps_get|intros ?]). apply (send_list_checked _ _ _ eq_refl); try done.
    - intros name r Hn. by exists (strtake (Z.to_nat PATH_MAX) params), name.
    - intros c r Hc. by destruct c. }
  apply Hk.
Qed.

Ltac data_side :=
  first [ exact I | intros ?; exact I | intros ? ?; unfold path_kept, add_and_fetch_8; fields; assumption ].

Lemma run_callback_checked cb b : keeps (S:=S) (checked data_call_ok) (run_callback fuel cb b).
Proof.
  destruct cb; cbn [run_callback]; try solve [walk_session ltac:(data_side)]. apply deferred_checked.
Qed.

Lemma data_event_checked h events :
  keeps (S:=S) (checked data_call_ok) (handle_event srv fuel (DataEvent h events)).
Proof.
  cbn [handle_event]. walk_session_with ltac:(data_side) ltac:(apply run_callback_checked).
Qed.

(** Any event keeps a safe directory for a deferred listing. *)
Lemma checked_weaken {A} ok (m : act S A) : keeps (checked ok) m -> keeps (checked (fun _ => True)) m.
Proof.
  intros Hm w a w' E Hp. destruct (Hm _ _ _ E Hp) as (Hp' & l & Hl & _). split; [done|].
  exists l. split; [done|]. by apply Forall_true.
Qed.

Lemma dispatch_kept cmd : keeps (S:=S) (checked (fun _ => True)) (dispatch srv fuel cmd).
Proof.
  unfold dispatch, command_actions; cbn [find_action].
  repeat (match goal with |- context [String.eqb ?n (command cmd)] =>
    destruct (String.eqb_spec n (command cmd)) as [En|];
      [apply keeps_run_command_cb; [|solve [walk_session ltac:(data_side)]];
       first
         [ solve [walk_session ltac:(data_side)]
         | eapply checked_weaken, list_checked; rewrite <- En; in_names ]|]
    end).
  walk_session ltac:(data_side).
Qed.

Lemma handle_event_kept e : keeps (S:=S) (checked (fun _ => True)) (handle_event srv fuel e).
Proof.
  destruct e; cbn [handle_event];
    walk_session_with ltac:(data_side)
      ltac:(first [apply dispatch_kept | eapply checked_weaken, run_callback_checked]).
Qed.

Lemma session_path_kept fd addr fds s0 w :
  session srv fuel fd addr fds s0 w -> path_kept (conn w).
Proof.
  induction 1 as [w Hs|w e w' _ IH _ E|w s' _ IH]; [|by apply (handle_event_kept e _ _ _ E IH)|done].
  assert (checked (fun _ => True) (initial_world s0) w) as Hc.
  { revert Hs. generalize (initial_world s0). intros w0. unfold start_session.
    apply_keeps ltac:(walk_session ltac:(data_side)). }
  by apply Hc.
Qed.
End Checks.

(** ** Properties *)

(** C23: every command of a client that is not logged in, and every command
    but RETR, LIST and NLST of one that is, writes exactly one message, on
    the control bufferevent the command came in on and nowhere else, before
    its callback returns, on every branch, errors included; RETR with a
    wrong number of arguments too.  RETR of a logged-in client with one
    argument and no data connection writes none and does nothing at all. *)
Theorem one_reply_per_command {S} `{Sys S} srv fuel cmd (w w' : world S) h :
  dispatch srv fuel cmd w = Ok (tt, w') -> bev (conn w) = Some h ->
  (one_reply cmd (conn w) = true ->
   exists text l, trace w' = trace w ++ l /\ List.filter is_write l = [Did (CBevWrite h text) tt]) /\
  (command cmd = "RETR"%string -> not_one_argument cmd = false -> authenticated (conn w) = true ->
   data_bev (conn w) = None -> w' = w).
Proof.
  intros E Hb. split; [intros Hm; by eapply dispatch_says|].
  intros Hc Hn Ha Hd. revert E. unfold dispatch, command_actions. rewrite Hc. cbn [find_action].
  cbn [String.eqb Ascii.eqb Bool.eqb]. unfold run_command_cb, get, mbind at 1, act_bind at 1. rewrite Ha.
  cbn [authenticated_cb authenticated_only]. unfold cftp_retr_authenticated_action. rewrite Hn.
  intros (a & w1 & [_ ->]%nonnull_Ok & E)%act_bind_Ok.
  rewrite retr_without_data in E by done. by injection E.
Qed.

(** C10: CWD, SIZE, MKD, RMD, LIST and NLST make no call on the file system
    but their own kind ([stat] and [chdir] for CWD, [stat] for SIZE, [stat]
    and [mkdir] for MKD, [stat] and [rmdir] for RMD, [opendir], [lstat] of
    the entries and [closedir] for the listings), and each on a path that is
    one of the command's arguments, cut to the path buffer at most, that
    [is_path_safe] accepts (or "." for a listing without one).  None opens,
    creates or removes a file.  In every session, what the events of the data
    connection do on their own, a listing put off to the end of the handshake
    included, looks at directories that passed the filter and opens, creates
    and removes nothing by name. *)
Theorem filtered_commands_use_safe_paths {S} `{Sys S} srv fuel fd addr fds s0 (w w' : world S) :
  session srv fuel fd addr fds s0 w ->
  (forall cmd, dispatch srv fuel cmd w = Ok (tt, w') -> path_filtered (command cmd) = true ->
   exists l, trace w' = trace w ++ l /\ Forall (file_call_ok cmd) l) /\
  (forall h events, handle_event srv fuel (DataEvent h events) w = Ok (tt, w') ->
   exists l, trace w' = trace w ++ l /\ Forall data_call_ok l).
Proof.
  intros Hs%session_path_kept. split.
  - intros cmd E Hp. by apply (dispatch_checked srv fuel cmd Hp _ _ _ E).
  - intros h events E. by apply (data_event_checked srv fuel h events _ _ _ E).
Qed.

(** ** Witnesses *)

(** The state after a command, from the logged-in session. *)
Definition after (cmd : cftp_command_t) : world small :=
  match dispatch sample_server 10 cmd logged_in_world with Ok (_, w) => w | _ => logged_in_world end.

Lemma one_reply_per_command_witness :
  (exists text l, trace (after (Command "MKD" ["new"] 1)) = trace logged_in_world ++ l /\
    List.filter is_write l = [Did (CBevWrite 2 text) tt]) /\
  after (Command "RETR" ["notes.txt"] 1) = logged_in_world.
Proof.
  assert (bev (conn logged_in_world) = Some 2%nat) as Hb by (vm_compute; reflexivity).
  split.
  - refine (proj1 (one_reply_per_command sample_server 10 (Command "MKD" ["new"%string] 1)
      logged_in_world _ 2 _ Hb) _); vm_compute; reflexivity.
  - refine (proj2 (one_reply_per_command sample_server 10 (Command "RETR" ["notes.txt"%string] 1)
      logged_in_world _ 2 _ Hb) eq_refl eq_refl _ _); vm_compute; reflexivity.
Defined.

(** A protected session whose listing waits for the handshake. *)
Definition deferred_scenario : list (stimulus (S:=small)) :=
  login_scenario "alice" "secret" ++ sends "PROT P" ++ sends "PASV" ++
    [Callback (DataAccept 5 EmptyString 7 (SockInet 0x7f000001))] ++ sends "NLST box".

Definition after_handshake : world small :=
  match handle_event sample_server 10 (DataEvent 7 BEV_EVENT_CONNECTED) (played deferred_scenario) with
  | Ok (_, w) => w
  | _ => played deferred_scenario
  end.

Lemma filtered_commands_use_safe_paths_witness :
  (exists l, trace (after (Command "SIZE" ["notes.txt"] 1)) = trace logged_in_world ++ l /\
    Forall (file_call_ok (Command "SIZE" ["notes.txt"] 1)) l) /\
  (exists l, trace after_handshake = trace (played deferred_scenario) ++ l /\ Forall data_call_ok l /\
    l <> []).
Proof.
  split.
  - refine (proj1 (filtered_commands_use_safe_paths sample_server 10 5 (SockInet 0x7f000001) sample_fds
      sample_small logged_in_world (after (Command "SIZE" ["notes.txt"%string] 1)) _)
      (Command "SIZE" ["notes.txt"%string] 1) _ eq_refl).
    + apply (play_session_ok _ _ _ _ _ _ (login_scenario "alice" "secret")). vm_compute. reflexivity.
    + vm_compute. reflexivity.
  - destruct (proj2 (filtered_commands_use_safe_paths sample_server 10 5 (SockInet 0x7f000001) sample_fds
      sample_small (played deferred_scenario) after_handshake
      ltac:(apply (play_session_ok _ _ _ _ _ _ deferred_scenario); vm_compute; reflexivity))
      7%nat BEV_EVENT_CONNECTED ltac:(vm_compute; reflexivity)) as (l & Hl & Hok).
    exists l. split; [exact Hl|]. split; [exact Hok|]. intros ->. rewrite app_nil_r in Hl.
    apply (f_equal (@List.length event)) in Hl. vm_compute in Hl. discriminate Hl.
Defined.
