(* ===== verification/Safety.v ===== *)
(** * Handles and pointers of a session

    The invariant that relates the connection record to the handles the
    program holds, its preservation by every callback, and the absence of
    NULL dereferences, uses after free and double frees that follows. *)

From S2P Require Import Prelude CString StringTable CommandParser Config Connection System.
From S2P Require Import Control.
From S2P Require Import ServerState DataHandler Security Auth Ipc Calendar Dele Listing Retr.
From S2P Require Import Stor Actions Dispatch Session SmallSystem Scenario.
From stdpp Require Import options.

Local Open Scope Z_scope.

(** ** The invariant *)

Definition timer_of (ok : kind -> bool) (c : connection_t) (L : ledger) : Prop :=
  exists t k, timeout_event c = Some t /\ live L !! t = Some k /\ ok k = true.

Definition is_login_timer (k : kind) : bool := match k with KAuthTimer => true | _ => false end.

Definition timer_live : connection_t -> ledger -> Prop := timer_of is_event.
Definition login_timer : connection_t -> ledger -> Prop := timer_of is_login_timer.

(** The child's end of the socket pair. *)
Definition ipc_live (c : connection_t) (L : ledger) : Prop :=
  exists h, interprocess_bev c = Some h /\ live L !! h = Some KInterprocessBev.

(** The functions each callback field can hold. *)
Definition callbacks_ok (c : connection_t) : Prop :=
  control_write_cb c ∈ [None; Some close_data_connection_on_writecb; Some disable_connection_cb] /\
  data_read_cb c ∈ [None; Some on_stor_read] /\
  data_write_cb c ∈ [None; Some close_on_listcb; Some close_on_retrcb;
    Some download_completion_on_plain_connection_cb; Some send_next_chunk] /\
  data_tls_event_connected_cb c ∈ [None; Some list_tls_on_bev_event_connected;
    Some stor_tls_on_bev_event_connected; Some close_data_connection_on_writecb] /\
  data_eof_event_cb c ∈ [None; Some on_eof_event_cb].

Record inv_of (c : connection_t) (L : ledger) : Prop := {
  i_fresh : forall h k, live L !! h = Some k -> (h < next L)%nat;
  i_bev : forall h, bev c = Some h -> live L !! h = Some KControlBev;
  i_listener : forall h, pasv_listener c = Some h <-> live L !! h = Some KListener;
  i_data : forall h, data_bev c = Some h -> live L !! h = Some KDataBev;
  i_auth : authenticated c = false -> pasv_listener c = None /\ login_timer c L;
  i_timer : pasv_listener c <> None -> timer_live c L;
  i_chunk : data_write_cb c = Some send_next_chunk -> data_stream c <> None;
  i_ipc : ipc_live c L;
  i_cbs : callbacks_ok c;
}.

Definition inv {S} (w : world S) : Prop := inv_of (conn w) (handles w).

(** What is asked of the system: allocations succeed, [crypt] answers, file
    times have a year that fits in an [int], and a directory that was opened
    opens again after a reply was written. *)
Class Reliable (S : Type) `{Sys S} : Prop := {
  rel_bev : forall h fd s, fst (sys_step (CBevSocketNew h fd) s) = true;
  rel_filter : forall h u s, fst (sys_step (CBevSslFilterNew h u) s) = true;
  rel_event : forall h fd s, fst (sys_step (CEventNewRead h fd) s) = true;
  rel_timer : forall h s, fst (sys_step (CTimerNew h) s) = true;
  rel_calloc : forall n s, fst (sys_step (CCalloc n) s) = true;
  rel_crypt : forall p salt s, fst (sys_step (CCrypt p salt) s) <> None;
  rel_mtime : forall p s st, fst (sys_step (CStat p) s) = Some st -> gmtime (st_mtime st) <> None;
  rel_reopen : forall p s,
    fst (sys_step (COpendir p) s) <> None ->
    let s' := snd (sys_step (COpendir p) s) in
    fst (sys_step (COpendir p) s') <> None /\
    forall h bytes, fst (sys_step (COpendir p) (snd (sys_step (CBevWrite h bytes) s'))) <> None;
}.

(** The listening process answers the questions of a listing. *)
Definition name_request (request : string) : Prop :=
  exists id, request = uid_request id \/ request = gid_request id.

Definition answering (S : Type) `{Sys S} : Prop :=
  forall request s, name_request request -> fst (sys_step (CAskRoot request) s) <> None.

Definition answering_or (S : Type) `{Sys S} (ub : Prop) : Prop := answering S \/ ub.

Section Steps.
Context {S : Type} `{Sys S}.

(** [ub] is what an undefined outcome may be blamed on. *)
Definition post {A} (ub : Prop) (r : outcome (A * world S)) (Q : world S -> Prop) : Prop :=
  match r with Ok (_, w') => Q w' | Undefined => ub | Hang => True end.

(** The handles held, and the data bufferevent in use. *)
Definition frame : Type := ledger * option nat.
Definition framed (L : frame) (w : world S) : Prop :=
  handles w = L.1 /\ data_bev (conn w) = L.2.

(** Callbacks that create and free nothing. *)
Definition steady {A} (ub : Prop) (L : frame) (m : act S A) : Prop :=
  forall w, inv w -> framed L w -> post ub (m w) (fun w' => inv w' /\ framed L w').

Definition safe {A} (ub : Prop) (m : act S A) : Prop :=
  forall w, inv w -> post ub (m w) inv.

Variable ub : Prop.

Lemma steady_bind {A B} L (m : act S A) (f : A -> act S B) :
  steady ub L m -> (forall a, steady ub L (f a)) -> steady ub L (m ≫= f).
Proof.
  intros Hm Hf w Hw HL. specialize (Hm w Hw HL). unfold mbind, act_bind.
  destruct (m w) as [[a w1]| |]; [|done..]. destruct Hm. by apply Hf.
Qed.

Lemma steady_ret {A} L (a : A) : steady ub L (mret a : act S A).
Proof. by intros w Hw HL. Qed.

Lemma steady_hang {A} L : steady ub L (hang : act S A).
Proof. by intros w Hw HL. Qed.

Lemma steady_get {A} L (f : connection_t -> A) : steady ub L (get f : act S A).
Proof. by intros w Hw HL. Qed.

Lemma steady_put (L : frame) f :
  (forall c, inv_of c L.1 -> inv_of (f c) L.1) -> (forall c, data_bev (f c) = data_bev c) ->
  steady ub L (put f : act S unit).
Proof.
  intros Hf Hd w Hw [HL1 HL2]. unfold inv in Hw. rewrite HL1 in Hw. split; [|split].
  - unfold inv. simpl. rewrite HL1. by apply Hf.
  - done.
  - simpl. by rewrite Hd.
Qed.

Lemma steady_call L c : steady ub L (do_call c : act S (reply c)).
Proof. intros w Hw HL. unfold do_call. by destruct (sys_step c (sys w)). Qed.

(** A call whose answer matters. *)
Lemma steady_call_reply {B} L c (f : reply c -> act S B) :
  (forall s r, fst (sys_step c s) = r -> steady ub L (f r)) -> steady ub L (r ← do_call c; f r).
Proof.
  intros Hf w Hw HL. unfold mbind, act_bind, do_call.
  destruct (sys_step c (sys w)) as [r s] eqn:E.
  apply (Hf (sys w)); [by rewrite E|done|done].
Qed.

Lemma steady_use L ok h k :
  live L.1 !! h = Some k -> ok k = true -> steady ub L (use ok (Some h) : act S nat).
Proof. intros Hl Hk w Hw [HL HL2]. unfold use. rewrite HL, Hl, Hk. by split. Qed.

Lemma steady_use_none L ok : ub -> steady ub L (use ok None : act S nat).
Proof. by intros Hub w Hw HL. Qed.

Lemma steady_get_data {B} L (f : option nat -> act S B) :
  ((forall h, L.2 = Some h -> live L.1 !! h = Some KDataBev) -> steady ub L (f L.2)) ->
  steady ub L (b ← get data_bev; f b).
Proof.
  intros Hf w Hw [HL1 HL2]. unfold get, mbind, act_bind. rewrite HL2.
  apply Hf; [|done|by split]. rewrite <- HL1, <- HL2. apply Hw.
Qed.

Lemma steady_get_bev {B} L (f : option nat -> act S B) :
  (forall b, (forall h, b = Some h -> live L.1 !! h = Some KControlBev) -> steady ub L (f b)) ->
  steady ub L (b ← get bev; f b).
Proof. intros Hf w Hw [HL1 HL2]. apply Hf; [rewrite <- HL1; apply Hw|done|by split]. Qed.

Lemma steady_nonnull {A B} L (p : option A) (f : A -> act S B) :
  p <> None \/ ub -> (forall a, p = Some a -> steady ub L (f a)) -> steady ub L (x ← nonnull p; f x).
Proof.
  intros Hp Hf. destruct p as [a|]; [by apply Hf|]. destruct Hp; [done|]. by intros w Hw HL.
Qed.

Lemma steady_safe {A} (m : act S A) : (forall L, steady ub L m) -> safe ub m.
Proof.
  intros Hm w Hw. specialize (Hm (handles w, data_bev (conn w)) w Hw (conj eq_refl eq_refl)). destruct (m w) as [[a w']| |]; [|done..].
  by destruct Hm.
Qed.

Lemma safe_bind {A B} (m : act S A) (f : A -> act S B) :
  safe ub m -> (forall a, safe ub (f a)) -> safe ub (m ≫= f).
Proof.
  intros Hm Hf w Hw. specialize (Hm w Hw). unfold mbind, act_bind.
  destruct (m w) as [[a w1]| |]; [|done..]. by apply Hf.
Qed.

Lemma steady_send L status text : steady ub L (send_control_message (S:=S) status text).
Proof.
  unfold send_control_message. apply steady_get_bev. intros [h|] Hb; [|apply steady_ret].
  apply steady_bind; [by eapply steady_use; [apply Hb|]|]. intros a. apply (steady_call L (CBevWrite a _)).
Qed.
End Steps.

Ltac in_list := repeat (rewrite elem_of_cons; first [left; reflexivity | right]).

(** Assignments to fields the invariant does not constrain, or to the
    callback fields. *)
Ltac inv_put :=
  let c := fresh in let Hc := fresh in
  intros c Hc; destruct Hc as [? ? ? ? ? ? ? ? (? & ? & ? & ? & ?)];
  split; unfold timer_live, login_timer, timer_of, ipc_live, callbacks_ok in *; fields; try assumption; try done;
  try solve [split_and!; first [assumption | in_list]].

Ltac live_handle :=
  match goal with
  | Hb : forall h, Some ?n = Some h -> _ |- _ => eapply steady_use; [by apply Hb|reflexivity]
  | Hb : forall h, ?x = Some h -> _, E : ?x = Some ?n |- _ =>
      eapply steady_use; [exact (Hb n E)|reflexivity]
  | Hl : live _ !! ?n = Some _ |- _ => eapply steady_use; [exact Hl|reflexivity]
  end.

Ltac call_reply :=
  lazymatch goal with
  | |- steady _ _ (do_call ?c ≫= ?f) => apply (steady_call_reply _ _ c f); intros ? ? ?
  end.

Ltac settle known :=
  repeat lazymatch goal with
  | |- steady _ _ (send_control_message _ _) => apply steady_send
  | |- steady _ _ (do_call _ ≫= _) => call_reply
  | |- steady _ _ (_ ≫= _) =>
      first [ apply steady_get_data; intros ?; cbn [fst snd] in * | apply steady_get_bev; intros ? ?
            | apply steady_nonnull; [solve [known]|intros ? ?]
            | apply steady_bind; [|intros ?] ]
  | |- steady _ _ (mret _) => apply steady_ret
  | |- steady _ _ hang => apply steady_hang
  | |- steady _ _ (get _) => apply steady_get
  | |- steady _ _ (put _) => apply steady_put; [inv_put|intros ?; reflexivity]
  | |- steady _ _ (do_call ?c) => apply (steady_call _ _ c)
  | |- steady _ _ (use _ (Some _)) => live_handle
  | |- steady _ _ (use _ None) => known
  | |- steady _ _ (match ?x with _ => _ end) => destruct x eqn:?
  | |- steady _ _ ?m => first [known | progress cbv zeta | let h := head_of m in unfold h]
  end.

Definition well_formed (cmd : cftp_command_t) : Prop := argc cmd = Z.of_nat (List.length (args cmd)).

Lemma wf_arg cmd : well_formed cmd -> not_one_argument cmd = false -> arg_at cmd 0 <> None.
Proof.
  unfold well_formed, not_one_argument, arg_at. intros Hwf Hn%negb_false_iff%Z.eqb_eq.
  destruct (args cmd) as [|a l]; simpl in *; [lia|done].
Qed.

Lemma dele_target cmd a : parse_dele_params cmd = Some a -> target a <> None.
Proof. unfold parse_dele_params. repeat case_match; naive_solver. Qed.

(** The pointers a handler dereferences are not NULL. *)
Ltac rel_nonnull :=
  first
    [ left; by eapply wf_arg; eassumption
    | left; match goal with E : fst (sys_step (CCrypt _ _) _) = ?r |- ?r <> None =>
        rewrite <- E; apply rel_crypt end
    | left; eapply rel_mtime; match goal with E : fst (sys_step (CStat _) _) = _ |- _ =>
        first [exact E | etrans; [exact E|eassumption]] end
    | left; by eapply dele_target
    | left; congruence ].

Section Handlers.
Context {S : Type} `{Reliable S}.
Variable srv : server_state_t.
Variable fuel : nat.
Variable ub : Prop.
#[local] Set Default Proof Using "Type*".

(** A question to the listening process that gets its answer. *)
Lemma steady_ask L buffer size :
  answering_or S ub -> name_request buffer -> steady ub L (ask_custom_command (S:=S) buffer size).
Proof.
  intros answered Hreq w Hw HL. unfold ask_custom_command. destruct (Nat.eqb size 0); [done|].
  destruct (i_ipc _ _ Hw) as (b & Hb & Hl).
  erewrite act_bind_run; [|done]. rewrite Hb.
  destruct (bufferevent_setcb_run b KInterprocessBev true w) as (s1 & E1); [done..|].
  erewrite act_bind_run; [|exact E1]. erewrite act_bind_run; [|done]. cbn [conn]. rewrite Hb.
  set (w1 := World _ s1 _ _).
  destruct (bufferevent_write_run b KInterprocessBev buffer w1) as (s2 & E2); [done..|].
  erewrite act_bind_run; [|exact E2]. set (w2 := World _ s2 _ _).
  destruct (sys_step (CAskRoot buffer) (sys w2)) as [r s3] eqn:E3.
  erewrite act_bind_run; [|exact (do_call_run (CAskRoot _) w2 _ _ E3)].
  set (w3 := World _ s3 _ _). destruct r as [r|].
  - erewrite act_bind_run; [|done]. erewrite act_bind_run; [|done]. cbn [conn w1 w2 w3]. rewrite Hb.
    destruct (bufferevent_setcb_run b KInterprocessBev true w3) as (s4 & E4); [done..|].
    erewrite act_bind_run; [|exact E4]. done.
  - destruct answered as [Hans|Hub].
    { destruct (Hans buffer (sys w2) Hreq). by rewrite E3. }
    unfold event_cb, bufferevent_disable, bufferevent_free, bufferevent_setcb, mbind, act_bind, do_call, forget,
      get, mret, act_ret, exit_process, hang.
    rewrite (use_live w3 is_bev KInterprocessBev) by done.
    destruct (sys_step (CBevDisable b) (sys w3)) as [[] s4].
    rewrite (use_live _ is_bev KInterprocessBev) by done. cbn [sys handles conn trace].
    destruct (sys_step (CBevSetcb b false) s4) as [[] s5].
    rewrite (use_live _ is_bev KInterprocessBev) by done. cbn [sys handles conn trace].
    destruct (sys_step (CBevFree b) s5) as [[] s6]. cbn [sys handles conn trace].
    destruct (sys_step CGetuid s6) as [uid s7]. destruct (negb (uid =? 0)); [done|].
    cbn [sys handles conn trace w3 w2 w1]. rewrite Hb. unfold use. cbn [handles live].
    by rewrite lookup_delete_eq.
Qed.

Lemma steady_drain L b h :
  b = Some h -> live L.1 !! h = Some KDataBev -> steady ub L (drain (S:=S) fuel b).
Proof.
  intros -> Hl. induction fuel as [|n IH]; cbn [drain]; settle ltac:(first [rel_nonnull|apply IH]).
Qed.

Lemma steady_delete_entries L rec path names :
  (forall p, steady ub L (rec p)) -> steady ub L (delete_entries (S:=S) rec path names).
Proof.
  intros Hrec. induction names as [|n ns IH]; cbn [delete_entries];
    settle ltac:(first [apply IH | apply Hrec]).
Qed.

Lemma steady_delete_directory L n path : steady ub L (delete_directory_recursively (S:=S) n path).
Proof.
  revert path. induction n as [|n IH]; intros path; cbn [delete_directory_recursively];
    settle ltac:(apply steady_delete_entries, IH).
Qed.

Lemma steady_list_entries L path description hidden human names :
  answering_or S ub -> steady ub L (list_entries (S:=S) path description hidden human names).
Proof.
  intros answered. induction names as [|n ns IH]; cbn [list_entries]; settle ltac:(first [apply IH
    | apply steady_ask; [exact answered|eexists; by left]
    | apply steady_ask; [exact answered|eexists; by right]]).
Qed.

Ltac settle_all := settle ltac:(first [rel_nonnull | apply steady_delete_directory
  | by apply steady_list_entries]).

(** *** RETR *)

Lemma post_bind {A B} (m : act S A) (f : A -> act S B) w (P Q : world S -> Prop) :
  post ub (m w) P -> (forall a w1, P w1 -> m w = Ok (a, w1) -> post ub (f a w1) Q) ->
  post ub ((m ≫= f) w) Q.
Proof. unfold mbind, act_bind. destruct (m w) as [[a w1]| |]; [|done..]. intros Hp Hf. by apply Hf. Qed.

Lemma inv_chunk (w : world S) fs :
  inv w -> data_stream (conn w) = Some fs ->
  inv_of (set_data_write_cb (Some send_next_chunk) (conn w)) (handles w).
Proof.
  unfold inv. generalize (conn w). intros c Hc Hs. revert c Hc Hs. inv_put. fields. congruence.
Qed.

(** A call on a live data bufferevent leaves the connection as it is. *)
Lemma post_bev_call L h (P : connection_t -> Prop) (f : nat -> act S unit) w :
  live L.1 !! h = Some KDataBev -> inv w -> framed L w -> P (conn w) ->
  (forall w, exists s tr, f h w = Ok (tt, World (conn w) s (handles w) tr)) ->
  post ub ((x ← use is_bev (Some h); f x) w) (fun w' => inv w' /\ framed L w' /\ P (conn w')).
Proof.
  intros Hl Hw [HL1 HL2] HP Hf. unfold mbind, act_bind. rewrite <- HL1 in Hl.
  rewrite (use_live w is_bev KDataBev) by done. destruct (Hf w) as (s & tr & ->). by split_and!.
Qed.

(** A chunk is sent from an existing stream to a live data bufferevent. *)
Lemma steady_send_next_chunk L h w :
  inv w -> framed L w -> data_stream (conn w) <> None -> live L.1 !! h = Some KDataBev ->
  post ub (run_send_next_chunk (S:=S) (Some h) w) (fun w' => inv w' /\ framed L w').
Proof.
  intros Hw HL Hs Hl. unfold run_send_next_chunk.
  destruct (data_stream (conn w)) as [fs|] eqn:Es; [|done].
  assert (steady ub L (
    chunk ← do_call (CRead (fs_fd fs) FILE_CHUNK_SIZE);
    let n := match chunk with Some bytes => strlen bytes | None => -1 end in
    (if fs_offset fs + n =? fs_filesize fs
     then put (set_data_write_cb (Some close_on_retrcb)) else mret tt);;
    if n <=? 0 then
      do_call (CClose (fs_fd fs));;
      put (set_data_stream (Some (FileStream (-1) (fs_offset fs) (fs_filesize fs))))
    else
      bufferevent_write (Some h) (default EmptyString chunk);;
      put (set_data_stream (Some (FileStream (fs_fd fs) (fs_offset fs + n) (fs_filesize fs))))
    : act S unit)) as Hst by settle_all.
  unfold get, mbind at 1, act_bind at 1. rewrite Es. exact (Hst w Hw HL).
Qed.

Lemma steady_retr L a : steady ub L (cftp_send_file (S:=S) a).
Proof.
  unfold cftp_send_file. apply steady_bind; [apply steady_get|]. intros [|]; [|settle_all].
  unfold ftp_send_file_with_evbuffer. apply steady_get_data. intros Hb.
  destruct L.2 as [h|] eqn:EL; [|apply steady_ret].
  call_reply. destruct (_ <? 0); [apply steady_ret|]. call_reply.
  match goal with |- steady _ _ (match ?x with _ => _ end) => destruct x as [st|] end; [|settle_all].
  apply steady_bind; [apply steady_send|]. intros _. call_reply.
  rewrite rel_calloc in *. subst. intros w Hw HL.
  match goal with |- context [Some (FileStream ?f 0 ?n)] => set (fs := FileStream f 0 n) end.
  eapply (post_bind _ _ _ (fun w' => inv w' /\ framed L w' /\ data_stream (conn w') = Some fs)).
  { simpl. split; [|done]. unfold inv in *. simpl. revert Hw. generalize (conn w). inv_put. }
  intros _ w1 (Hw1 & HL1 & Hs1) _.
  eapply (post_bind _ _ _ (fun w' => inv w' /\ framed L w' /\ data_stream (conn w') = Some fs)).
  { simpl. split; [|done]. exact (inv_chunk w1 fs Hw1 Hs1). }
  intros _ w2 (Hw2 & HL2 & Hs2) _. specialize (Hb h eq_refl).
  do 2 (eapply (post_bind _ _ _ (fun w' => inv w' /\ framed L w' /\ data_stream (conn w') = Some fs));
    [apply (post_bev_call L h (fun c => data_stream c = Some fs)); try done;
     intros w'; unfold do_call;
     match goal with |- context [sys_step ?c (sys w')] => destruct (sys_step c (sys w')) as [[] ?] end;
     do 2 eexists; reflexivity | ];
    intros _ ? (? & ? & ?) _).
  apply steady_send_next_chunk; [done|done|congruence|done].
Qed.

(** *** LIST *)

Lemma get_bind {A B} (f : connection_t -> A) (k : A -> act S B) w :
  (get f ≫= k) w = k (f (conn w)) w.
Proof. done. Qed.

Lemma ret_bind {A B} (a : A) (k : A -> act S B) w : ((mret a : act S A) ≫= k) w = k a w.
Proof. done. Qed.

Lemma post_call {B} (Q : world S -> Prop) c (f : reply c -> act S B) w :
  (forall r s, sys_step c (sys w) = (r, s) ->
    post ub (f r (World (conn w) s (handles w) (trace w ++ [Did c r]))) Q) ->
  post ub ((r ← do_call c; f r) w) Q.
Proof.
  intros Hf. unfold mbind, act_bind, do_call. destruct (sys_step c (sys w)) as [r s] eqn:E.
  by apply Hf.
Qed.

Ltac post_reply :=
  lazymatch goal with |- post _ ((do_call ?c ≫= ?f) ?w) _ => apply (post_call _ c f w) end.

Lemma post_send_list (L : frame) p d h hu w :
  answering_or S ub -> inv w -> framed L w -> L.2 <> None \/ ub ->
  fst (sys_step (COpendir (strtake (Z.to_nat PATH_MAX) p)) (sys w)) <> None \/ ub ->
  post ub (send_list_command_output (S:=S) p d h hu w) (fun w' => inv w' /\ framed L w').
Proof.
  intros answered Hw HL Hd Hdir. unfold send_list_command_output. post_reply. intros r s E.
  rewrite E in Hdir. cbn [fst] in Hdir. match goal with |- post _ (?m _) _ => assert (steady ub L m) as Hst end.
  { apply steady_nonnull; [done|]. intros names _. destruct L as [L0 [hd|]].
    - settle_all.
    - destruct Hd as [Hd|Hub]; [done|]. settle ltac:(first [by apply steady_list_entries
        | by apply steady_use_none]). }
  by apply Hst.
Qed.

Lemma post_list (L : frame) cmd desc w :
  answering_or S ub -> inv w -> framed L w ->
  post ub (handle_list_command (S:=S) cmd desc w) (fun w' => inv w' /\ framed L w').
Proof.
  intros answered Hw HL. unfold handle_list_command.
  destruct (parse_list_flags cmd) as [f|].
  2:{ match goal with |- post _ (?m _) _ => assert (steady ub L m) as Hst by settle_all end.
      by apply Hst. }
  rewrite get_bind. destruct HL as [HL1 HL2]. rewrite HL2.
  destruct L as [L0 [hd|]]; cbn [fst snd] in *.
  2:{ assert (steady ub (L0, None) (send_control_message (S:=S) FTP_STATUS_CANNOT_OPEN_DATA
        "Cannot open data connection")) as Hst by apply steady_send. by apply Hst. }
  match goal with |- context [is_path_safe (Some ?p)] => set (path := p) end.
  destruct (negb (is_path_safe (Some path))).
  { assert (steady ub (L0, Some hd) (invalid_list_path (S:=S))) as Hst by settle_all. by apply Hst. }
  post_reply. intros r s E. destruct r as [names|].
  2:{ assert (steady ub (L0, Some hd) (invalid_list_path (S:=S))) as Hst by settle_all. by apply Hst. }
  set (w1 := World (conn w) s (handles w) (trace w ++ [Did (COpendir path) (Some names)])).
  assert (inv w1 /\ framed (L0, Some hd) w1) as [Hw1 HF1] by done.
  rewrite get_bind. destruct (data_tls_required (conn w1)).
  { match goal with |- post _ (?m _) _ => assert (steady ub (L0, Some hd) m) as Hst by settle_all end.
    by apply Hst. }
  rewrite ret_bind.
  pose proof (rel_reopen path (sys w)) as Hre. rewrite E in Hre. cbn [fst snd] in Hre.
  destruct (Hre ltac:(done)) as [Hre1 Hre2].
  eapply (post_bind _ _ _ (fun w' => inv w' /\ framed (L0, Some hd) w' /\
    fst (sys_step (COpendir path) (sys w')) <> None)).
  - unfold send_control_message, get, mbind, act_bind.
    destruct (bev (conn w1)) as [hb|] eqn:Eb; [|done].
    unfold bufferevent_write, mbind, act_bind.
    rewrite (use_live w1 is_bev KControlBev) by (first [by apply Hw1 | done]).
    unfold do_call. simpl. specialize (Hre2 hb (control_line FTP_STATUS_FILE_STATUS_OKAY
      "Here comes the directory listings")).
    destruct (sys_step (CBevWrite hb _) s) as [[] s2]. done.
  - intros _ w2 (Hw2 & HF2 & Hd2) _. apply post_send_list; [done|done|done|by left|]. left.
    replace (strtake (Z.to_nat PATH_MAX) path) with path; [done|]. symmetry. apply strtake_all.
    unfold path. destruct (path_flag f); [|vm_compute; lia].
    destruct (0 <? strlen s0); [|vm_compute; lia].
    unfold snprintf_s. rewrite length_strtake. lia.
Qed.

(** *** Callbacks that create or free objects *)

Lemma put_bind {B} f (k : unit -> act S B) w :
  (put f ≫= k) w = k tt (World (f (conn w)) (sys w) (handles w) (trace w)).
Proof. done. Qed.

(** The connection and the ledger after a step. *)
Definition at_state (c : connection_t) (L : ledger) (w : world S) : Prop :=
  conn w = c /\ handles w = L.

Definition unit_call (f : nat -> act S unit) : Prop :=
  forall h w, exists s tr, f h w = Ok (tt, World (conn w) s (handles w) tr).

Lemma unit_do_call (f : nat -> call) (Hf : forall h, reply (f h) = unit) :
  forall h w, exists r s tr, do_call (f h) w = Ok (r, World (conn w) s (handles w) tr).
Proof. intros h w. unfold do_call. destruct (sys_step (f h) (sys w)) as [r s]. eauto. Qed.

Lemma post_use {c L} ok h k (f : nat -> act S unit) w :
  at_state c L w -> live L !! h = Some k -> ok k = true -> unit_call f ->
  post ub ((x ← use ok (Some h); f x) w) (at_state c L).
Proof.
  intros [<- <-] Hl Hk Hf. unfold mbind, act_bind. rewrite (use_live w ok k) by done.
  by destruct (Hf h w) as (s & tr & ->).
Qed.

Definition without (h : nat) (L : ledger) : ledger := Ledger (next L) (delete h (live L)).

Lemma post_free {c L} ok h k (f : nat -> act S unit) w :
  at_state c L w -> live L !! h = Some k -> ok k = true -> unit_call f ->
  post ub ((x ← use ok (Some h); f x;; forget x) w) (at_state c (without h L)).
Proof.
  intros [<- <-] Hl Hk Hf. unfold mbind, act_bind. rewrite (use_live w ok k) by done.
  by destruct (Hf h w) as (s & tr & ->).
Qed.

Lemma timer_of_without ok c L h k :
  live L !! h = Some k -> ok k = false -> timer_of ok c L -> timer_of ok c (without h L).
Proof.
  intros Hl Hk (t & k' & E & Ht & Hk'). exists t, k'. split; [done|]. split; [|done]. simpl.
  rewrite lookup_delete_ne; [done|]. intros ->. congruence.
Qed.

Lemma ipc_without c L h k :
  live L !! h = Some k -> k <> KInterprocessBev -> ipc_live c L -> ipc_live c (without h L).
Proof.
  intros Hl Hk (b & E & Hb). exists b. split; [done|]. simpl.
  rewrite lookup_delete_ne; [done|]. intros ->. congruence.
Qed.

Lemma inv_of_without c L h k :
  inv_of c L -> live L !! h = Some k -> is_event k = false -> k <> KInterprocessBev ->
  bev c <> Some h -> pasv_listener c <> Some h -> data_bev c <> Some h ->
  inv_of c (without h L).
Proof.
  intros [] Hl Hk Hi Hb Hp Hd. pose proof (ipc_without c L h k Hl Hi i_ipc0) as Hipc.
  pose proof (timer_of_without is_event c L h k Hl Hk : timer_live c L -> timer_live c (without h L)) as Htl.
  assert (is_login_timer k = false) as Hk' by (by destruct k).
  pose proof (timer_of_without is_login_timer c L h k Hl Hk' : login_timer c L -> login_timer c (without h L)) as Hll.
  split; simpl; [| | | |intros Ha; destruct (i_auth0 Ha); auto|auto|done|done|done].
  - intros h' k'. rewrite lookup_delete_Some. intros [_ ?]. eauto.
  - intros h' E. rewrite lookup_delete_ne; [auto|congruence].
  - intros h'. rewrite lookup_delete_Some, <- i_listener0. split; [|tauto]. intros E.
    split; [congruence|done].
  - intros h' E. rewrite lookup_delete_ne; [auto|congruence].
Qed.

(** Objects of different kinds have different handles. *)
Lemma inv_not_bev c L h k : inv_of c L -> live L !! h = Some k -> k <> KControlBev -> bev c <> Some h.
Proof. intros [] Hl Hk E. apply i_bev0 in E. congruence. Qed.
Lemma inv_not_listener c L h k :
  inv_of c L -> live L !! h = Some k -> k <> KListener -> pasv_listener c <> Some h.
Proof. intros [] Hl Hk E. apply i_listener0 in E. congruence. Qed.
Lemma inv_not_data c L h k : inv_of c L -> live L !! h = Some k -> k <> KDataBev -> data_bev c <> Some h.
Proof. intros [] Hl Hk E. apply i_data0 in E. congruence. Qed.
End Handlers.

Ltac unit_calls :=
  let h := fresh in let w := fresh in intros h w; unfold do_call;
  match goal with |- context [sys_step ?c ?s] => destruct (sys_step c s) as [[] ?] end;
  do 2 eexists; reflexivity.

Ltac calls_ok :=
  let h := fresh in let w := fresh in intros h w; unfold do_call;
  match goal with |- context [sys_step ?c ?s] => destruct (sys_step c s) as [? ?] end;
  do 3 eexists; reflexivity.

Section Lifecycle.
Context {S : Type} `{Reliable S}.
Variable srv : server_state_t.
Variable fuel : nat.
Variable ub : Prop.
#[local] Set Default Proof Using "Type*".

Lemma inv_no_stream c L :
  inv_of c L -> data_write_cb c = None -> inv_of (set_data_stream None c) L.
Proof. intros Hc Hs. revert c Hc Hs. inv_put. fields. congruence. Qed.

Lemma safe_close_data_connection : safe ub (close_data_connection (S:=S)).
Proof.
  intros w Hw. unfold close_data_connection. rewrite get_bind.
  destruct (data_bev (conn w)) as [h|] eqn:Ed.
  - pose proof (i_data _ _ Hw h Ed) as Hl.
    eapply post_bind; [eapply (post_use ub (c:=conn w) (L:=handles w)); [by split|done|done|unit_calls]|].
    intros _ w1 H1 _.
    eapply post_bind; [eapply (post_use ub); [exact H1|done|done|unit_calls]|]. intros _ w2 H2 _.
    eapply post_bind; [eapply (post_free ub); [exact H2|done|done|unit_calls]|]. intros _ w3 [Hc HL] _.
    rewrite !put_bind, get_bind. cbn [conn sys handles trace]. rewrite Hc, HL.
    set (c' := set_upload_fd _ _).
    assert (inv_of c' (without h (handles w))) as Hc'.
    { apply (inv_of_without c' _ h KDataBev); [|done|done|done| | |done].
      - revert Hw. unfold c', inv. generalize (conn w). inv_put.
      - by eapply (inv_not_bev (conn w)).
      - by eapply (inv_not_listener (conn w)). }
    destruct (data_stream c'); [|done]. apply inv_no_stream; [done|]. unfold c'. by fields.
  - rewrite !put_bind. unfold inv in *. simpl. revert Hw. generalize (conn w). inv_put.
Qed.

Ltac settle_data := settle ltac:(first [rel_nonnull
  | eapply steady_drain; [reflexivity|by auto] | by apply steady_use_none]).

Lemma steady_on_stor_read L h :
  live L.1 !! h = Some KDataBev -> steady ub L (run_on_stor_read (S:=S) fuel (Some h)).
Proof. intros Hl. unfold run_on_stor_read. by eapply steady_drain. Qed.

Lemma steady_on_eof L b : steady ub L (run_on_eof_event_cb (S:=S) fuel b).
Proof. settle_data. Qed.

(** A callback of the data bufferevent [h]. *)
Lemma post_run_data cb h w :
  answering_or S ub -> inv w -> live (handles w) !! h = Some KDataBev ->
  (cb = send_next_chunk -> data_stream (conn w) <> None) ->
  cb <> disable_connection_cb -> cb <> list_tls_on_bev_event_connected \/ ub ->
  post ub (run_callback (S:=S) fuel cb (Some h) w) inv.
Proof.
  intros answered Hw Hl Hchunk Hdis Hlist.
  set (L := (handles w, data_bev (conn w)) : frame).
  assert (framed L w) as HL by done.
  assert (forall m : act S unit, steady ub L m -> post ub (m w) inv) as Hsteady.
  { intros m Hm. specialize (Hm w Hw HL). destruct (m w) as [[u w']| |]; [|done..]. by destruct Hm. }
  destruct cb; cbn [run_callback]; try done.
  - by apply safe_close_data_connection.
  - apply Hsteady. settle_data.
  - apply Hsteady. settle_data.
  - apply Hsteady. settle_data.
  - pose proof (steady_send_next_chunk ub L h w Hw HL (Hchunk eq_refl) Hl) as Hp.
    destruct (run_send_next_chunk _ _) as [[u w']| |]; [|done..]. by destruct Hp.
  - destruct Hlist as [?|Hub]; [done|]. unfold run_list_tls_on_bev_event_connected.
    rewrite !get_bind.
    pose proof (post_send_list ub L (path (conn w)) (description (conn w)) (hidden (conn w))
      (human (conn w)) w answered Hw HL (or_intror Hub) (or_intror Hub)) as Hp.
    destruct (send_list_command_output _ _ _ _ _) as [[u w']| |]; [|done..]. by destruct Hp.
  - apply Hsteady. settle_data.
  - apply Hsteady. by apply steady_on_stor_read.
  - apply Hsteady. apply steady_on_eof.
Qed.

Lemma post_run_field field h w :
  answering_or S ub -> inv w -> live (handles w) !! h = Some KDataBev ->
  (forall cb, field (conn w) = Some cb ->
    (cb = send_next_chunk -> data_stream (conn w) <> None) /\ cb <> disable_connection_cb /\
    (cb <> list_tls_on_bev_event_connected \/ ub)) ->
  post ub (run_field (S:=S) (run_callback fuel) field (Some h) w) inv.
Proof.
  intros answered Hw Hl Hf. unfold run_field. rewrite get_bind.
  destruct (field (conn w)) as [cb|]; [|done]. destruct (Hf cb eq_refl) as (? & ? & ?).
  by apply post_run_data.
Qed.

Ltac in_cases H := repeat (apply elem_of_cons in H as [H|H]); [..|by apply elem_of_nil in H].

Lemma post_data_read h w :
  answering_or S ub -> inv w -> live (handles w) !! h = Some KDataBev ->
  post ub (data_connection_read_cb (S:=S) (run_callback fuel) (Some h) w) inv.
Proof.
  intros answered Hw Hl. apply post_run_field; [done|done|done|]. intros cb E.
  destruct (i_cbs _ _ Hw) as (_ & Hc & _). rewrite E in Hc. in_cases Hc; simplify_eq.
  split; [done|]. split; [done|by left].
Qed.

Lemma post_data_write h w :
  answering_or S ub -> inv w -> live (handles w) !! h = Some KDataBev ->
  post ub (data_connection_write_cb (S:=S) (run_callback fuel) (Some h) w) inv.
Proof.
  intros answered Hw Hl. apply post_run_field; [done|done|done|]. intros cb E.
  destruct (i_cbs _ _ Hw) as (_ & _ & Hc & _). rewrite E in Hc.
  pose proof (i_chunk _ _ Hw) as Hs. rewrite E in Hs.
  in_cases Hc; simplify_eq; (split; [by auto|]); (split; [done|by left]).
Qed.

(** The handshake callback of LIST, see the theorem below. *)
Definition listing_pending (c : connection_t) (events : Z) : Prop :=
  has_flag events BEV_EVENT_CONNECTED = true /\ data_tls_required c = true /\
  data_tls_event_connected_cb c = Some list_tls_on_bev_event_connected.

(** A failed handshake whose success is reported with it, after a listing
    with nothing in it: the success callback frees the bufferevent, and the
    error branch uses it. *)
Definition handshake_closes (c : connection_t) (events : Z) : Prop :=
  has_flag events BEV_EVENT_CONNECTED = true /\ has_flag events BEV_EVENT_ERROR = true /\
  data_tls_required c = true /\
  data_tls_event_connected_cb c = Some close_data_connection_on_writecb.

Lemma steady_use_or L ok h k :
  (live L.1 !! h = Some k /\ ok k = true) \/ ub -> steady ub L (use ok (Some h) : act S nat).
Proof.
  intros Hl w Hw [HL HL2]. unfold use. rewrite HL. destruct Hl as [[-> ->]|Hub]; [done|].
  destruct (live L.1 !! h) as [k'|]; [|done]. by destruct (ok k').
Qed.

Lemma steady_report_error L h :
  live L.1 !! h = Some KDataBev \/ ub -> steady ub L (report_data_error (S:=S) fuel (Some h)).
Proof.
  intros Hl.
  assert (steady ub L (use is_bev (Some h) : act S nat)) as Hu
    by (apply (steady_use_or L is_bev h KDataBev); destruct Hl; [by left|by right]).
  assert (steady ub L (openssl_errors (S:=S) fuel (Some h))) as Ho.
  { induction fuel as [|n IH]; cbn [openssl_errors]; [apply steady_hang|].
    unfold bufferevent_get_openssl_error.
    apply steady_bind; [apply steady_bind; [exact Hu|intros a; apply (steady_call ub L (CBevSslError a))]|].
    intros error. destruct (error =? 0); [apply steady_ret|exact IH]. }
  unfold report_data_error, bufferevent_getfd. apply steady_bind; [apply steady_get|]. intros tls.
  apply steady_bind; [destruct tls; [exact Ho|apply steady_ret]|]. intros _.
  apply steady_bind; [apply steady_bind; [exact Hu|intros a; apply (steady_call ub L (CBevGetfd a))]|].
  intros sock. destruct (0 <=? sock); [|apply steady_ret].
  apply steady_bind; [apply (steady_call ub L (CGetsockopt sock))|intros _; apply steady_ret].
Qed.

(** The success of the handshake: the bufferevent is still there afterwards,
    when the error branch needs it. *)
Lemma post_handshake h events w :
  answering_or S ub -> inv w -> live (handles w) !! h = Some KDataBev ->
  ~ listing_pending (conn w) events \/ ub -> ~ handshake_closes (conn w) events \/ ub ->
  has_flag events BEV_EVENT_CONNECTED = true ->
  post ub ((put add_and_fetch_8;;
     tls ← get data_tls_required;
     if tls : bool then bufferevent_enable (Some h);; run_field (run_callback fuel) data_tls_event_connected_cb (Some h)
     else mret tt) w)
    (fun w' => inv w' /\ (has_flag events BEV_EVENT_ERROR = true ->
       live (handles w') !! h = Some KDataBev \/ ub)).
Proof.
  intros answered Hw Hl Hlist Hclose Ec.
  rewrite put_bind, get_bind. cbn [conn sys handles trace].
  set (w1 := World (add_and_fetch_8 (conn w)) (sys w) (handles w) (trace w)).
  assert (inv w1) as Hw1.
  { unfold inv, w1. simpl. revert Hw. unfold inv. generalize (conn w). unfold add_and_fetch_8. inv_put. }
  assert (data_tls_required (conn w1) = data_tls_required (conn w) /\
    data_tls_event_connected_cb (conn w1) = data_tls_event_connected_cb (conn w)) as [Ht Hcb]
    by (unfold w1, add_and_fetch_8; cbn [conn]; by fields).
  change (data_tls_required (add_and_fetch_8 (conn w))) with (data_tls_required (conn w1)).
  rewrite Ht. destruct (data_tls_required (conn w)) eqn:Etls; [|by split; [|left]].
  eapply post_bind.
  { apply (post_use ub (c:=conn w1) (L:=handles w) is_bev h KDataBev);
      [by split|exact Hl|done|unit_calls]. }
  intros _ w2 [Hc2 HL2] _.
  assert (inv w2) as Hw2 by (unfold inv; by rewrite Hc2, HL2).
  assert (live (handles w2) !! h = Some KDataBev) as Hl2 by (by rewrite HL2).
  destruct (data_tls_event_connected_cb (conn w2)) as [cb|] eqn:E;
    [|unfold run_field; rewrite get_bind, E; by split; [|left]].
  assert (post ub (run_field (S:=S) (run_callback fuel) data_tls_event_connected_cb (Some h) w2) inv ->
    ub \/ has_flag events BEV_EVENT_ERROR = false ->
    post ub (run_field (S:=S) (run_callback fuel) data_tls_event_connected_cb (Some h) w2)
      (fun w' => inv w' /\ (has_flag events BEV_EVENT_ERROR = true ->
         live (handles w') !! h = Some KDataBev \/ ub))) as Hany.
  { intros Hp He. destruct (run_field _ _ _ w2) as [[u w']| |]; [|done..]. split; [done|].
    intros Herr. destruct He as [?|He]; [by right|congruence]. }
  destruct (i_cbs _ _ Hw) as (_ & _ & _ & Hc & _). rewrite Hc2, Hcb in E. rewrite E in Hc.
  in_cases Hc; simplify_eq.
  - destruct Hlist as [Hn|Hub]; [by exfalso; apply Hn|]. apply Hany; [|by left].
    apply post_run_field; [done..|]. intros cb E2. rewrite Hc2, Hcb, E in E2. simplify_eq.
    split; [done|]. split; [done|by right].
  - set (L := (handles w2, data_bev (conn w2)) : frame).
    assert (steady ub L (run_callback (S:=S) fuel stor_tls_on_bev_event_connected (Some h))) as Hst
      by (cbn [run_callback]; settle_data).
    unfold run_field. rewrite get_bind, Hc2, Hcb, E.
    specialize (Hst w2 Hw2 (conj eq_refl eq_refl)).
    destruct (run_callback _ _ _ w2) as [[u w']| |]; [|done..]. destruct Hst as [Hi [HL' _]].
    split; [done|]. intros _. left. by rewrite HL'.
  - apply Hany.
    + apply post_run_field; [done..|]. intros cb E2. rewrite Hc2, Hcb, E in E2. simplify_eq.
      split; [done|]. split; [done|by left].
    + destruct Hclose as [Hn|?]; [|by left]. right.
      destruct (has_flag events BEV_EVENT_ERROR) eqn:He; [|done]. exfalso. by apply Hn.
Qed.

Lemma post_data_event h events w :
  answering_or S ub -> inv w -> live (handles w) !! h = Some KDataBev ->
  ~ listing_pending (conn w) events \/ ub -> ~ handshake_closes (conn w) events \/ ub ->
  post ub (data_connection_event_cb (S:=S) (run_callback fuel) fuel (Some h) events w) inv.
Proof.
  intros answered Hw Hl Hlist Hclose. unfold data_connection_event_cb.
  eapply (post_bind _ _ _ _ (fun w' => inv w' /\ (has_flag events BEV_EVENT_ERROR = true ->
    live (handles w') !! h = Some KDataBev \/ ub))).
  { destruct (has_flag events BEV_EVENT_CONNECTED) eqn:Ec; [by apply post_handshake|].
    by split; [|left]. }
  intros _ w1 [Hw1 Hl1] _. apply (post_bind _ _ _ _ inv).
  { destruct (has_flag events BEV_EVENT_ERROR); [|done].
    pose proof (steady_report_error (handles w1, data_bev (conn w1)) h (Hl1 eq_refl)) as Hst.
    specialize (Hst w1 Hw1 (conj eq_refl eq_refl)).
    destruct (report_data_error _ _ w1) as [[u w']| |]; [|done..]. by destruct Hst. }
  intros _ w2 Hw2 _. apply (post_bind _ _ _ _ inv).
  { destruct (has_flag events BEV_EVENT_EOF); [|done]. unfold run_field. rewrite get_bind.
    destruct (data_eof_event_cb (conn w2)) as [cb|] eqn:E; [|done].
    destruct (i_cbs _ _ Hw2) as (_ & _ & _ & _ & Hc). rewrite E in Hc. in_cases Hc; simplify_eq.
    cbn [run_callback]. by apply (steady_safe ub); [intros L; apply steady_on_eof|]. }
  intros _ w3 Hw3 _.
  match goal with |- context [if ?b then _ else _] => destruct b end;
    [by apply safe_close_data_connection|done].
Qed.

(** *** The control connection *)

Definition done_or_inv (w : world S) : Prop := inv w \/ stopped w = true.

Lemma post_disable h w :
  inv w -> bev (conn w) = Some h ->
  post ub (run_disable_connection_cb (S:=S) (Some h) w) (fun w' => stopped w' = true).
Proof.
  intros Hw Hb. pose proof (i_bev _ _ Hw h Hb) as Hl. unfold run_disable_connection_cb.
  eapply post_bind; [eapply (post_use ub (c:=conn w) (L:=handles w)); [by split|done|done|unit_calls]|].
  intros _ w1 H1 _.
  eapply post_bind; [eapply (post_free ub); [exact H1|done|done|unit_calls]|]. intros _ w2 _ _.
  unfold do_call. destruct (sys_step CLoopbreak (sys w2)) as [r s]. simpl.
  unfold stopped. cbn [trace]. rewrite existsb_app. simpl. by rewrite orb_true_r.
Qed.

Lemma post_weaken {A} (r : outcome (A * world S)) (P Q : world S -> Prop) :
  (forall w, P w -> Q w) -> post ub r P -> post ub r Q.
Proof. intros HPQ. destruct r as [[a w]| |]; simpl; auto. Qed.

Lemma post_on_write w :
  inv w -> bev (conn w) <> None ->
  post ub ((b ← get bev; on_write (S:=S) (run_callback fuel) b) w) done_or_inv.
Proof.
  intros Hw Hb. rewrite get_bind. destruct (bev (conn w)) as [h|] eqn:Eb; [|done].
  unfold on_write. rewrite get_bind.
  apply (post_bind _ _ _ _ done_or_inv).
  - destruct (control_write_cb (conn w)) as [cb|] eqn:E; [|by left].
    destruct (i_cbs _ _ Hw) as (Hc & _). rewrite E in Hc. in_cases Hc; simplify_eq; cbn [run_callback].
    + eapply post_weaken; [|by apply safe_close_data_connection]. by left.
    + eapply post_weaken; [|by apply post_disable]. by right.
  - intros _ w1 Hw1 _. simpl. destruct Hw1 as [Hw1|Hs]; [left|by right].
    unfold inv in *. simpl. revert Hw1. generalize (conn w1). inv_put.
Qed.

Lemma post_on_event events w :
  inv w -> bev (conn w) <> None ->
  post ub ((b ← get bev; on_event (S:=S) b events) w) done_or_inv.
Proof.
  intros Hw Hb. rewrite get_bind. destruct (bev (conn w)) as [h|] eqn:Eb; [|done].
  unfold on_event. destruct (has_flag _ _); [by left|]. destruct (_ || _); [|by left].
  eapply post_weaken; [|by apply post_disable]. by right.
Qed.

(** *** New objects *)

Definition with_new (k : kind) (L : ledger) : ledger :=
  Ledger (next L + 1) (<[next L := k]> (live L)).

Lemma live_with_new k L h k' : live L !! h = Some k' -> (forall h k, live L !! h = Some k -> (h < next L)%nat) ->
  live (with_new k L) !! h = Some k'.
Proof. intros Hl Hf. simpl. rewrite lookup_insert_ne; [done|]. apply Hf in Hl. lia. Qed.

Lemma timer_of_with_new ok c L k :
  (forall h k, live L !! h = Some k -> (h < next L)%nat) -> timer_of ok c L -> timer_of ok c (with_new k L).
Proof.
  intros Hf (t & k' & E & Hl & Hk). exists t, k'. split; [done|]. split; [|done].
  by apply live_with_new.
Qed.

Lemma ipc_with_new c L k :
  (forall h k, live L !! h = Some k -> (h < next L)%nat) -> ipc_live c L -> ipc_live c (with_new k L).
Proof. intros Hf (b & E & Hb). exists b. split; [done|]. by apply live_with_new. Qed.

Lemma inv_of_with_new c L k : inv_of c L -> k <> KListener -> inv_of c (with_new k L).
Proof.
  intros Hi Hk. pose proof (i_fresh _ _ Hi) as Hf. pose proof (timer_of_with_new is_event c L k Hf : timer_live c L -> timer_live c (with_new k L)) as Ht.
  pose proof (timer_of_with_new is_login_timer c L k Hf : login_timer c L -> login_timer c (with_new k L)) as Hlt.
  destruct Hi as [? ? Hp ? Hau ? ? Hipc ?]. apply (ipc_with_new c L k Hf) in Hipc. split; auto.
  - intros h k'. simpl. destruct (decide (h = next L)) as [->|Hne]; [intros _; lia|].
    rewrite lookup_insert_ne by done. intros ?%Hf. lia.
  - intros h E. apply live_with_new; auto.
  - intros h. rewrite Hp. simpl. destruct (decide (h = next L)) as [->|Hne].
    + rewrite lookup_insert_eq. split; [intros ?%Hf; lia|congruence].
    + by rewrite lookup_insert_ne.
  - intros h E. apply live_with_new; auto.
  - intros Ha. destruct (Hau Ha). auto.
Qed.

Lemma login_timer_live c L : login_timer c L -> timer_live c L.
Proof. intros (t & k & ? & ? & Hk). exists t, k. by destruct k. Qed.

(** Creating an object leaves the connection alone. *)
Lemma post_new {c L} k (mk : nat -> act S bool) {B} (f : option nat -> act S B)
    (R : world S -> Prop) w :
  at_state c L w ->
  (forall h w, exists b s tr, mk h w = Ok (b, World (conn w) s (handles w) tr)) ->
  (forall w', at_state c (with_new k L) w' -> post ub (f (Some (next L)) w') R) ->
  ((exists h w0 w1, mk h w0 = Ok (false, w1)) ->
   forall w', at_state c L w' -> post ub (f None w') R) ->
  post ub (((h ← new_handle; ok ← mk h; allocate k ok) ≫= f) w) R.
Proof.
  intros [<- <-] Hmk Hok Hfail. unfold new_handle, mbind, act_bind.
  destruct (Hmk (next (handles w)) w) as (b & s & tr & E). rewrite E. unfold allocate.
  destruct b; [by apply Hok|]. apply Hfail; [eauto|by split].
Qed.

Lemma inv_of_without_timer c L t k :
  inv_of c L -> live L !! t = Some k -> is_event k = true ->
  authenticated c = true -> pasv_listener c = None -> inv_of c (without t L).
Proof.
  intros [Hf Hb Hli Hd _ _ Hch Hipc Hcb] Hl Hk Ha Hp.
  apply (ipc_without c L t k Hl) in Hipc; [|by intros ->]. split; try done; simpl.
  - intros h' k'. rewrite lookup_delete_Some. intros [_ ?]. by eapply Hf.
  - intros h' E. rewrite lookup_delete_ne; [by apply Hb|]. intros <-. apply Hb in E. by simplify_eq.
  - intros h'. rewrite lookup_delete_Some, <- Hli, Hp. split; [done|]. by intros [? ?].
  - intros h' E. rewrite lookup_delete_ne; [by apply Hd|]. intros <-. apply Hd in E. by simplify_eq.
  - congruence.
Qed.

(** [evtimer_del] and [event_free] of the timer the connection points to. *)
Lemma post_drop_timer c L w :
  at_state c L w -> inv_of c L -> timer_live c L -> authenticated c = true -> pasv_listener c = None ->
  post ub ((t ← get timeout_event; evtimer_del t;; event_free t) w) inv.
Proof.
  intros Hw Hi (t & k & E & Hl & Hk) Ha Hp. rewrite get_bind. rewrite (proj1 Hw), E.
  eapply post_bind; [eapply (post_use ub); [exact Hw|exact Hl|exact Hk|unit_calls]|].
  intros _ w1 H1 _.
  eapply post_weaken; [|eapply (post_free ub); [exact H1|exact Hl|exact Hk|unit_calls]].
  intros w2 [Hc HL]. unfold inv. rewrite Hc, HL. by eapply inv_of_without_timer.
Qed.

(** What [data_connection_accept_cb] does with the new bufferevent. *)
Definition accepted (b : option nat) (tls : bool) : act S unit :=
  put (set_data_bev b);;
  match b with
  | None => mret tt
  | Some _ =>
      bufferevent_setcb b true;;
      bufferevent_enable b;;
      (if tls then mret tt else put add_and_fetch_8);;
      t ← get timeout_event;
      evtimer_del t;;
      event_free t
  end.

Lemma post_accepted c L b tls w :
  inv_of c L -> timer_live c L -> authenticated c = true -> pasv_listener c = None ->
  at_state c (if b is Some _ then with_new KDataBev L else L) w ->
  (forall x, b = Some x -> x = next L) ->
  post ub (accepted b tls w) inv.
Proof.
  intros Hi Ht Ha Hp Hw Hb. unfold accepted. rewrite put_bind, (proj1 Hw), (proj2 Hw).
  destruct b as [x|].
  2:{ unfold inv. simpl. revert c Hi Ht Ha Hp Hw. intros c Hi _ _ _ _. revert c Hi. inv_put. }
  rewrite (Hb x eq_refl). clear Hb x. set (L3 := with_new KDataBev L). set (h := next L).
  assert (live L3 !! h = Some KDataBev) as Hl3 by apply lookup_insert_eq.
  assert (inv_of (set_data_bev (Some h) c) L3) as Hi3.
  { assert (inv_of c L3) as Hic by (by apply inv_of_with_new). clearbody L3. revert c Hi Ht Ha Hp Hw Hic.
    intros c _ _ _ _ _ Hic. revert c Hic. inv_put. by intros ? [= <-]. }
  assert (timer_live (set_data_bev (Some h) c) L3) as Ht3
    by (apply (timer_of_with_new is_event c L); [by apply Hi|done]).
  set (c3 := set_data_bev (Some h) c) in *.
  assert (authenticated c3 = true /\ pasv_listener c3 = None) as [Ha3 Hp3] by done.
  clearbody c3 L3 h.
  eapply post_bind; [eapply (post_use ub (c:=c3) (L:=L3)); [by split|exact Hl3|done|unit_calls]|].
  intros _ w1 H1 _.
  eapply post_bind; [eapply (post_use ub); [exact H1|exact Hl3|done|unit_calls]|]. intros _ w2 H2 _.
  destruct tls.
  - rewrite ret_bind. by eapply post_drop_timer.
  - rewrite put_bind, (proj1 H2), (proj2 H2). eapply (post_drop_timer (add_and_fetch_8 c3) L3); try done.
    clear -Hi3. revert c3 Hi3. unfold add_and_fetch_8. inv_put.
Qed.

Lemma safe_accept stack h fd addr w :
  inv w -> live (handles w) !! h = Some KListener ->
  post ub (data_connection_accept_cb (S:=S) stack h fd addr w) inv.
Proof.
  intros Hw Hl. unfold data_connection_accept_cb. rewrite get_bind.
  destruct (negb _); [by apply (steady_safe ub (do_call (CClose fd))); [intros L; apply (steady_call ub L (CClose fd))|]|].
  assert (pasv_listener (conn w) = Some h) as Hp by (by apply (i_listener _ _ Hw)).
  assert (authenticated (conn w) = true) as Ha.
  { destruct (authenticated (conn w)) eqn:E; [done|]. destruct (i_auth _ _ Hw E). congruence. }
  destruct (i_timer _ _ Hw ltac:(by rewrite Hp)) as (t & kt & Et & Hlt & Hkt).
  eapply post_bind; [eapply (post_free ub (c:=conn w) (L:=handles w) is_listener h KListener);
    [by split|done|done|unit_calls]|].
  intros _ w1 [Hc1 HL1] _. rewrite !put_bind, get_bind. cbn [conn sys handles trace]. rewrite Hc1, HL1.
  set (c2 := set_data_fd fd (set_pasv_listener None (set_data_active 0 (conn w)))).
  set (L2 := without h (handles w)).
  assert (inv_of c2 L2) as Hi2.
  { unfold inv in Hw. unfold c2, L2. revert Hw Hp Ha Hl. clear. generalize (conn w). generalize (handles w).
    intros L c Hi Hp Ha Hl.
    destruct Hi as [Hf Hb Hli Hd _ _ Hch Hipc (? & ? & ? & ? & ?)].
    apply (ipc_without c L h KListener Hl ltac:(done)) in Hipc. split; fields; try done.
    - intros h' k. simpl. rewrite lookup_delete_Some. intros [_ ?]. by eapply Hf.
    - intros h' E. simpl. rewrite lookup_delete_ne; [by apply Hb|]. intros <-. apply Hb in E. congruence.
    - intros h'. simpl. rewrite lookup_delete_Some, <- Hli, Hp. split; [done|]. intros [? ?]. congruence.
    - intros h' E. simpl. rewrite lookup_delete_ne; [by apply Hd|]. intros <-. apply Hd in E. congruence.
    - congruence. }
  assert (authenticated c2 = true /\ pasv_listener c2 = None) as [Ha2 Hp2] by done.
  assert (timer_live c2 L2) as Ht2.
  { apply (timer_of_without _ _ _ h KListener); [done|done|]. by exists t, kt. }
  match goal with |- post _ (_ ?w2) _ => assert (at_state c2 L2 w2) as H2 by done end.
  assert (forall b w', at_state c2 (if b is Some _ then with_new KDataBev L2 else L2) w' ->
    (forall x, b = Some x -> x = next L2) -> post ub (accepted b (data_tls_required c2) w') inv) as Hrest
    by (intros; by eapply post_accepted).
  destruct (data_tls_required c2);
    (eapply post_new; [exact H2|calls_ok| |]; [intros w' Hw'|intros _ w' Hw'];
     apply Hrest; [exact Hw'|by intros ? [= <-]|exact Hw'|done]).
Qed.

Ltac post_reply :=
  lazymatch goal with |- post _ ((do_call ?c ≫= ?f) ?w) _ => apply (post_call ub _ c f w) end.

(** *** The passive listener *)

Lemma inv_close_listener c L h :
  inv_of c L -> pasv_listener c = Some h -> inv_of (set_pasv_listener None c) (without h L).
Proof.
  intros [Hf Hb Hli Hd Hau _ Hch Hipc Hcb] Hp. pose proof (proj1 (Hli h) Hp) as Hl.
  apply (ipc_without c L h KListener Hl ltac:(done)) in Hipc.
  split; fields; try done.
  - intros h' k. simpl. rewrite lookup_delete_Some. intros [_ ?]. by eapply Hf.
  - intros h' E. simpl. rewrite lookup_delete_ne; [by apply Hb|]. intros <-. apply Hb in E. congruence.
  - intros h'. simpl. rewrite lookup_delete_Some, <- Hli, Hp. split; [done|]. intros [? ?]. congruence.
  - intros h' E. simpl. rewrite lookup_delete_ne; [by apply Hd|]. intros <-. apply Hd in E. congruence.
  - intros Ha. destruct (Hau Ha). congruence.
Qed.

Lemma safe_kill_listener : safe ub (kill_listener_on_timeout (S:=S)).
Proof.
  intros w Hw. unfold kill_listener_on_timeout. rewrite get_bind.
  destruct (pasv_listener (conn w)) as [l|] eqn:Ep; [|done].
  pose proof (proj1 (i_listener _ _ Hw l) Ep) as Hl.
  eapply post_bind; [eapply (post_use ub (c:=conn w) (L:=handles w)); [by split|exact Hl|done|unit_calls]|].
  intros _ w1 H1 _.
  eapply post_bind; [eapply (post_free ub); [exact H1|exact Hl|done|unit_calls]|].
  intros _ w2 [Hc2 HL2] _. unfold inv. simpl. rewrite Hc2, HL2. by apply inv_close_listener.
Qed.

(** Logged in and without a listener. *)
Definition idle (w : world S) : Prop :=
  inv w /\ pasv_listener (conn w) = None /\ authenticated (conn w) = true.

(** A listener was just created; its timer is not there yet. *)
Definition listening (w : world S) : Prop :=
  exists c L, inv_of c L /\ pasv_listener c = None /\ authenticated c = true /\
    at_state (set_pasv_listener (Some (next L)) c) (with_new KListener L) w.

Lemma post_bind_loop ip n : forall p w,
  idle w -> post ub (bind_loop (S:=S) srv n ip p w) (fun w' => idle w' \/ listening w').
Proof.
  induction n as [|n IH]; intros p w (Hw & Hp & Ha); cbn [bind_loop]; [done|].
  destruct (_ <=? _); [|by left]. rewrite put_bind.
  set (c := set_data_port p (conn w)).
  assert (inv_of c (handles w)) as Hi.
  { unfold c. revert Hw. unfold inv. clear. generalize (conn w). inv_put. }
  assert (pasv_listener c = None /\ authenticated c = true) as [Hpc Hac] by done. clearbody c.
  eapply (post_new (c:=c) (L:=handles w)); [by split|calls_ok| |].
  - intros w' [Hc HL]. rewrite put_bind, Hc, HL. right. exists c, (handles w). by split_and!.
  - intros _ w' [Hc HL]. rewrite put_bind, Hc, HL. apply IH. split; [|done].
    unfold inv. cbn [conn handles]. replace (set_pasv_listener None c) with c; [done|].
    clear -Hpc. destruct c; cbn in Hpc. by subst.
Qed.

(** The timer completes the invariant. *)
Lemma inv_listening c L :
  inv_of c L -> pasv_listener c = None -> authenticated c = true ->
  inv_of (set_timeout_event (Some (next L + 1)%nat) (set_pasv_listener (Some (next L)) c))
    (with_new KAcceptTimer (with_new KListener L)).
Proof.
  intros [Hf Hb Hli Hd _ _ Hch Hipc Hcb] Hp Ha.
  assert (forall h k, live L !! h = Some k -> live (with_new KListener L) !! h = Some k) as H1
    by (intros; by apply live_with_new).
  assert (forall h k, live (with_new KListener L) !! h = Some k -> (h < next L + 1)%nat) as Hf1.
  { intros h k. simpl. destruct (decide (h = next L)) as [->|Hne]; [lia|].
    rewrite lookup_insert_ne by done. intros ?%Hf. lia. }
  assert (forall h k, live L !! h = Some k ->
    live (with_new KAcceptTimer (with_new KListener L)) !! h = Some k) as H2
    by (intros; apply live_with_new; [by apply H1|exact Hf1]).
  assert (timer_live (set_timeout_event (Some (next L + 1)%nat) (set_pasv_listener (Some (next L)) c))
    (with_new KAcceptTimer (with_new KListener L))) as Ht.
  { exists (next L + 1)%nat, KAcceptTimer. split; [done|]. split; [|done].
    cbn [live with_new next]. apply lookup_insert_eq. }
  assert (ipc_live c (with_new KAcceptTimer (with_new KListener L))) as Hipc2
    by (destruct Hipc as (b & E & Hlb); exists b; auto).
  split; fields; auto.
  - intros h k. cbn [live with_new next]. destruct (decide (h = next L + 1)%nat) as [->|Hne]; [lia|].
    rewrite lookup_insert_ne by done. intros ?%Hf1. lia.
  - intros h. cbn [live with_new next]. destruct (decide (h = next L + 1)%nat) as [->|Hne].
    + rewrite lookup_insert_eq. split; [intros [= ?]; lia|done].
    + rewrite lookup_insert_ne by done. destruct (decide (h = next L)) as [->|Hne'].
      * by rewrite lookup_insert_eq.
      * rewrite lookup_insert_ne by done. rewrite <- Hli, Hp. split; [congruence|done].
  - congruence.
Qed.

Lemma safe_listener_config extended w :
  inv w -> authenticated (conn w) = true ->
  post ub (data_connection_listener_config (S:=S) srv fuel extended w) inv.
Proof.
  intros Hw Ha. unfold data_connection_listener_config. rewrite get_bind.
  apply (post_bind _ _ _ _ idle).
  { destruct (pasv_listener (conn w)) as [l|] eqn:Ep; [|by split_and!].
    pose proof (proj1 (i_listener _ _ Hw l) Ep) as Hl.
    eapply post_bind; [eapply (post_free ub (c:=conn w) (L:=handles w));
      [by split|exact Hl|done|unit_calls]|].
    intros _ w2 [Hc2 HL2] _. unfold idle, inv. simpl. rewrite Hc2, HL2.
    split; [by apply inv_close_listener|done]. }
  intros _ w1 Hw1 _. rewrite get_bind. post_reply. intros r s _.
  set (w2 := World _ s _ _). assert (idle w2) as Hw2 by done. clearbody w2.
  assert (forall st text w, inv w -> post ub (send_control_message (S:=S) st text w) inv) as Hsend
    by (intros; apply (steady_safe ub); [intros L; apply steady_send|done]).
  destruct r as [ip|]; [|apply Hsend; by apply Hw2].
  eapply post_bind; [by apply post_bind_loop|]. intros p w3 [Hw3|Hw3] _; rewrite get_bind.
  { rewrite (proj1 (proj2 Hw3)). apply Hsend. by apply Hw3. }
  destruct Hw3 as (c & L & Hi & Hp & Hac & Hc3 & HL3). rewrite Hc3. fields.
  eapply (post_new (c:=conn w3) (L:=handles w3)); [by split|calls_ok| |].
  2:{ intros (h & w4 & w5 & E). exfalso. revert E. unfold do_call.
      pose proof (rel_timer h (sys w4)) as Hrel. destruct (sys_step (CTimerNew h) (sys w4)). simpl in Hrel.
      by intros [= -> _]. }
  intros w4 [Hc4 HL4]. rewrite put_bind, Hc4, HL4, Hc3, HL3. cbn [next with_new].
  set (c5 := set_timeout_event _ _). set (L5 := with_new KAcceptTimer (with_new KListener L)).
  assert (inv_of c5 L5) as Hi5 by (by apply inv_listening).
  assert (live L5 !! (next L + 1)%nat = Some KAcceptTimer) as Hl5 by apply lookup_insert_eq.
  eapply post_bind; [eapply (post_use ub (c:=c5) (L:=L5)); [by split|exact Hl5|done|unit_calls]|].
  intros _ w6 [Hc6 HL6] _. assert (inv w6) as Hw6 by (unfold inv; by rewrite Hc6, HL6).
  destruct extended; by apply Hsend.
Qed.

(** *** Commands *)

Lemma post_send_at c L status text w :
  inv_of c L -> at_state c L w -> post ub (send_control_message (S:=S) status text w) (at_state c L).
Proof.
  intros Hi Hw. unfold send_control_message. rewrite get_bind, (proj1 Hw).
  destruct (bev c) as [h|] eqn:Eb; [|done].
  eapply (post_use ub is_bev h KControlBev); [exact Hw|by apply Hi|done|unit_calls].
Qed.

Lemma use_bind2 {A B} ok h k (m : nat -> act S A) (f : A -> act S B) w :
  live (handles w) !! h = Some k -> ok k = true ->
  ((use ok (Some h) ≫= m) ≫= f) w = (m h ≫= f) w.
Proof. intros Hl Hk. unfold mbind, act_bind. by rewrite (use_live w ok k). Qed.

Lemma safe_upgrade_to_tls w :
  inv w -> bev (conn w) <> None -> post ub (upgrade_to_tls (S:=S) w) inv.
Proof.
  intros Hw Hb. unfold upgrade_to_tls.
  eapply post_bind; [apply (post_send_at (conn w) (handles w)); [exact Hw|by split]|].
  intros _ w1 H1 _. rewrite get_bind, (proj1 H1).
  destruct (bev (conn w)) as [h|] eqn:Eb; [|done]. pose proof (i_bev _ _ Hw h Eb) as Hl.
  eapply post_bind; [eapply (post_use ub); [exact H1|exact Hl|done|unit_calls]|].
  intros _ w2 H2 _. unfold bufferevent_openssl_filter_new.
  set (L2 := with_new KControlBev (handles w)).
  assert (forall w', at_state (conn w) L2 w' ->
    post ub ((put (set_bev (Some (next (handles w))));;
      bufferevent_setcb (Some (next (handles w))) true;;
      bufferevent_enable (Some (next (handles w)));;
      put (set_upgraded_to_tls 1)) w') inv) as Hrest.
  { intros w' [Hc' HL']. rewrite put_bind, Hc', HL'.
    assert (live L2 !! next (handles w) = Some KControlBev) as Hl2 by apply lookup_insert_eq.
    assert (inv_of (conn w) L2) as Hi2 by (by apply inv_of_with_new).
    set (h2 := next (handles w)) in *. clearbody L2 h2.
    eapply post_bind; [eapply (post_use ub (c:=set_bev (Some h2) (conn w)) (L:=L2));
      [by split|exact Hl2|done|unit_calls]|].
    intros _ w3 H3 _. eapply post_bind; [eapply (post_use ub); [exact H3|exact Hl2|done|unit_calls]|].
    intros _ w4 [Hc4 HL4] _. unfold inv. simpl. rewrite Hc4, HL4. clear -Hi2 Hl2.
    revert Hi2. generalize (conn w). inv_put. by intros ? [= <-]. }
  rewrite (use_bind2 is_bev h KControlBev) by (first [done | by rewrite (proj2 H2)]).
  eapply (post_new (c:=conn w) (L:=handles w) KControlBev); [exact H2|calls_ok|exact Hrest|].
  intros (h0 & w0 & w3 & E). exfalso. revert E. unfold do_call.
  pose proof (rel_filter h0 h (sys w0)) as Hrel.
  destruct (sys_step (CBevSslFilterNew h0 h) (sys w0)). simpl in Hrel. by intros [= -> _].
Qed.

Lemma safe_pass cmd w :
  inv w -> well_formed cmd -> authenticated (conn w) = false ->
  post ub (cftp_pass_authenticated (S:=S) cmd w) inv.
Proof.
  intros Hw Hwf Ha. unfold cftp_pass_authenticated.
  destruct (not_one_argument cmd) eqn:En.
  { match goal with |- post _ (?m _) _ => assert (forall L, steady ub L m) as Hst
      by (intros L; settle ltac:(rel_nonnull)) end. by apply (steady_safe ub). }
  unfold argument. destruct (arg_at cmd 0) as [pw|] eqn:Earg; [|by destruct (wf_arg cmd Hwf En)].
  unfold nonnull. rewrite ret_bind, get_bind.
  eapply post_bind.
  { assert (forall L, steady ub L (authenticate_and_switch_user (S:=S) (username (conn w)) pw)) as Hst
      by (intros L; settle ltac:(rel_nonnull)). by apply (steady_safe ub _ Hst). }
  intros ok w1 Hw1 (Ha1 & _ & _)%authenticate_run. rewrite Ha in Ha1. destruct ok.
  2:{ by apply (steady_safe ub); [intros L; apply steady_send|]. }
  destruct (i_auth _ _ Hw1 Ha1) as [Hp1 Ht1%login_timer_live].
  eapply post_bind; [apply (post_send_at (conn w1) (handles w1)); [exact Hw1|by split]|].
  intros _ w2 [Hc2 HL2] _. rewrite put_bind, Hc2, HL2.
  eapply (post_drop_timer (set_authenticated true (conn w1)) (handles w1)); try done.
  revert Hw1. unfold inv. clear. generalize (conn w1). inv_put.
Qed.

Lemma post_run_command_cb f g cmd w :
  (authenticated (conn w) = true -> post ub (f cmd w) inv) ->
  (authenticated (conn w) = false -> post ub (g cmd w) inv) ->
  post ub (run_command_cb (S:=S) (CommandCb f g) cmd w) inv.
Proof. intros Hf Hg. unfold run_command_cb. rewrite get_bind. destruct (authenticated (conn w)); auto. Qed.

Ltac by_steady := solve [apply (steady_safe ub); [intros L; settle ltac:(first [rel_nonnull
  | apply steady_delete_directory | apply steady_retr])|assumption]].

Lemma post_dispatch cmd w :
  answering_or S ub -> inv w -> well_formed cmd -> bev (conn w) <> None ->
  post ub (dispatch (S:=S) srv fuel cmd w) inv.
Proof.
  intros answered Hw Hwf Hb. unfold dispatch, command_actions. cbn [find_action].
  repeat (destruct (String.eqb _ _); [apply post_run_command_cb; intros Ha|]).
  all: try by_steady.
  1,2: unfold cftp_auth_action; destruct (not_one_argument cmd) eqn:En; [by_steady|];
    unfold argument; destruct (arg_at cmd 0) as [a|] eqn:Earg; [|by destruct (wf_arg cmd Hwf En)];
    unfold nonnull; rewrite ret_bind; destruct (matches a "TLS"); [by apply safe_upgrade_to_tls|by_steady].
  - by apply safe_listener_config.
  - by apply safe_listener_config.
  - eapply post_weaken; [|by apply (post_list ub (handles w, data_bev (conn w)))]. by intros ? [? _].
  - eapply post_weaken; [|by apply (post_list ub (handles w, data_bev (conn w)))]. by intros ? [? _].
  - unfold cftp_abor_authenticated_action. rewrite get_bind. destruct (negb _); [|by_steady].
    eapply post_bind; [by apply safe_close_data_connection|]. intros _ w1 Hw1 _. by_steady.
  - by apply safe_pass.
Qed.

Lemma post_on_read w :
  answering_or S ub -> inv w -> bev (conn w) <> None ->
  post ub ((b ← get bev; on_read (S:=S) srv fuel b) w) inv.
Proof.
  intros answered Hw Hb. rewrite get_bind. destruct (bev (conn w)) as [h|] eqn:Eb; [|done].
  pose proof (i_bev _ _ Hw h Eb) as Hl. unfold on_read, evbuffer_remove.
  rewrite (use_bind2 is_bev h KControlBev) by done. post_reply. intros input s _.
  apply post_dispatch; [done|exact Hw| |simpl; congruence].
  unfold well_formed, parse_text_command. by destruct (scan_command _ _).
Qed.

(** The end of the loop aside, every callback keeps the invariant; the
    handshake callback of LIST is the only one that can fail. *)
Lemma post_handle_event e w :
  answering_or S ub -> inv w -> enabled w e = true ->
  (forall h events, e = DataEvent h events ->
    ~ listing_pending (conn w) events /\ ~ handshake_closes (conn w) events) \/ ub ->
  post ub (handle_event (S:=S) srv fuel e w) done_or_inv.
Proof.
  intros answered Hw He Hlist. apply andb_true_iff in He as [_ He].
  assert (forall (A : Type) (r : outcome (A * world S)), post ub r inv -> post ub r done_or_inv) as Hpost
    by (intros A r; apply post_weaken; by left).
  destruct e; cbn [handle_event] in *;
    try (destruct (live (handles w) !! h) as [[]|] eqn:El; try done).
  - apply Hpost, post_on_read; [done|done|]. by destruct (bev (conn w)).
  - apply post_on_write; [done|]. by destruct (bev (conn w)).
  - apply post_on_event; [done|]. by destruct (bev (conn w)).
  - by apply Hpost, safe_accept.
  - by apply Hpost, post_data_read.
  - by apply Hpost, post_data_write.
  - apply Hpost, post_data_event; [done..| |];
      (destruct Hlist as [Hn|?]; [left; by eapply Hn|by right]).
  - apply Hpost. unfold handle_kind. unfold mbind, act_bind. rewrite El.
    apply (steady_safe ub); [intros L; settle ltac:(rel_nonnull)|done].
  - apply Hpost. unfold handle_kind. unfold mbind, act_bind. rewrite El. by apply safe_kill_listener.
  - unfold on_parent_dead. destruct (0 <? bytes); [by left|]. unfold do_call. destruct (sys_step CLoopbreak (sys w)). by left.
Qed.
End Lifecycle.

(** ** Sessions *)

Section Start.
Context {S : Type} `{Reliable S}.
Variable srv : server_state_t.
Variable ub : Prop.
#[local] Set Default Proof Using "Type*".

Lemma post_new_ok {c L} k (mk : nat -> act S bool) {B} (f : option nat -> act S B)
    (R : world S -> Prop) w :
  at_state c L w ->
  (forall h w, exists b s tr, mk h w = Ok (b, World (conn w) s (handles w) tr)) ->
  (forall h w0 w1, mk h w0 <> Ok (false, w1)) ->
  (forall w', at_state c (with_new k L) w' -> post ub (f (Some (next L)) w') R) ->
  post ub (((h ← new_handle; ok ← mk h; allocate k ok) ≫= f) w) R.
Proof.
  intros Hw Hmk Hnf Hok. eapply post_new; [exact Hw|exact Hmk|exact Hok|].
  intros (h & w0 & w1 & E). by destruct (Hnf h w0 w1).
Qed.

Ltac answers rel :=
  let E := fresh in let h := fresh in let w0 := fresh in let w1 := fresh in
  intros h w0 w1 E; revert E; unfold do_call;
  match goal with |- context [sys_step ?c (sys w0)] =>
    let Hr := fresh in assert (fst (sys_step c (sys w0)) = true) as Hr by apply rel;
    destruct (sys_step c (sys w0)); simpl in Hr; subst; discriminate end.

(** The handles after the set-up: 1 is the end of the socket pair, 2 the
    control bufferevent, 3 the event on the pipe and 4 the login timer. *)
Definition started : ledger :=
  with_new KAuthTimer (with_new KKillEvent (with_new KControlBev
    (with_new KInterprocessBev (without 0 inherited)))).

Lemma start_invariant c :
  pasv_listener c = None -> data_bev c = None -> data_write_cb c = None -> callbacks_ok c ->
  interprocess_bev c = Some 1%nat ->
  inv_of (set_timeout_event (Some 4%nat) (set_bev (Some 2%nat) c)) started.
Proof.
  intros Hp Hd Hw Hcb Hipc.
  assert (forall h k, live started !! h = Some k ->
    (h = 1 /\ k = KInterprocessBev \/ h = 2 /\ k = KControlBev \/ h = 3 /\ k = KKillEvent \/
     h = 4 /\ k = KAuthTimer)%nat) as HL.
  { intros h k. unfold started. cbn [live with_new next without inherited].
    rewrite !lookup_insert_Some, lookup_delete_Some, lookup_singleton_Some. naive_solver. }
  assert (live started !! 1%nat = Some KInterprocessBev /\ live started !! 2%nat = Some KControlBev /\
    live started !! 4%nat = Some KAuthTimer) as (L1 & L2 & L4) by done.
  assert (next started = 5%nat) as Hn by done. generalize dependent started. intros L HL L1 L2 L4 Hn.
  assert (login_timer (set_timeout_event (Some 4%nat) (set_bev (Some 2%nat) c)) L) as Ht
    by (by exists 4%nat, KAuthTimer).
  split; fields; auto.
  - intros h k Hk. rewrite Hn. destruct (HL h k Hk) as [[-> _]|[[-> _]|[[-> _]|[-> _]]]]; lia.
  - by intros h [= <-].
  - intros h. rewrite Hp. split; [done|]. intros Hk.
    destruct (HL h _ Hk) as [[_ ?]|[[_ ?]|[[_ ?]|[_ ?]]]]; done.
  - intros h. by rewrite Hd.
  - intros _. by apply login_timer_live.
  - by rewrite Hw.
  - by exists 1%nat.
Qed.

Lemma bufferevent_socket_new_ok k fd (w : world S) b w' :
  bufferevent_socket_new k fd w = Ok (b, w') -> b = Some (next (handles w)).
Proof.
  unfold bufferevent_socket_new, new_handle, allocate, mbind, act_bind, do_call.
  pose proof (rel_bev (next (handles w)) fd (sys w)) as Hr.
  destruct (sys_step (CBevSocketNew (next (handles w)) fd) (sys w)) as [ok s]. simpl in Hr. subst ok.
  by intros [= <- <-].
Qed.

(** The loop is always entered. *)
Lemma loop_started fd pipe (w : world S) b w' :
  start_control_connection_loop srv fd pipe w = Ok (b, w') -> b = true.
Proof.
  unfold start_control_connection_loop.
  intros (u & w1 & _ & (p & w2 & ->%bufferevent_socket_new_ok & E)%act_bind_Ok)%act_bind_Ok.
  repeat (apply act_bind_Ok in E as (? & ? & _ & E)). by apply ret_Ok in E as [-> _].
Qed.

Lemma post_loop c fd pipe w :
  at_state c (with_new KInterprocessBev (without 0 inherited)) w ->
  pasv_listener c = None -> data_bev c = None -> data_write_cb c = None -> callbacks_ok c ->
  interprocess_bev c = Some 1%nat ->
  post ub (start_control_connection_loop (S:=S) srv fd pipe w) inv.
Proof.
  intros [Hc0 HL0] Hp Hd Hw Hcb Hipc. unfold start_control_connection_loop.
  rewrite put_bind, Hc0, HL0. set (c1 := set_fd fd c).
  assert (inv_of (set_timeout_event (Some 4%nat) (set_bev (Some 2%nat) c1)) started) as Hi
    by by apply start_invariant.
  clearbody c1. set (L0 := with_new KInterprocessBev (without 0 inherited)) in *.
  eapply (post_new_ok (c:=c1) (L:=L0)); [by split|calls_ok|answers rel_bev|]. intros w1 [Hc1 HL1].
  rewrite put_bind, Hc1, HL1.
  eapply (post_new_ok (c:=set_bev (Some 2%nat) c1) (L:=with_new KControlBev L0));
    [by split|calls_ok|answers rel_event|]. intros w2 H2.
  eapply post_bind; [eapply (post_use ub is_event 3%nat KKillEvent); [exact H2|done|done|unit_calls]|].
  intros _ w3 H3 _.
  eapply post_new_ok; [exact H3|calls_ok|answers rel_timer|]. intros w4 [Hc4 HL4].
  rewrite put_bind, Hc4, HL4.
  set (c5 := set_timeout_event _ _). set (L5 := with_new KAuthTimer _).
  assert (inv_of c5 L5) as Hi5 by exact Hi.
  eapply post_bind; [eapply (post_use ub (c:=c5) (L:=L5) is_event 4%nat KAuthTimer);
    [by split|done|done|unit_calls]|]. intros _ w6 H6 _.
  eapply post_bind; [by eapply post_send_at|]. intros _ w7 H7 _.
  eapply post_bind; [eapply (post_use ub is_bev 2%nat KControlBev); [exact H7|done|done|unit_calls]|].
  intros _ w8 H8 _.
  eapply post_bind; [eapply (post_use ub is_bev 2%nat KControlBev); [exact H8|done|done|unit_calls]|].
  intros _ w9 [Hc9 HL9] _. unfold inv. cbn. by rewrite Hc9, HL9.
Qed.

Lemma post_register c fd w :
  at_state c (without 0 inherited) w ->
  post ub (register_interprocess_fd_on_child (S:=S) fd w)
    (at_state (set_interprocess_bev (Some 1%nat) c) (with_new KInterprocessBev (without 0 inherited))).
Proof.
  intros Hw. unfold register_interprocess_fd_on_child.
  eapply (post_new_ok (c:=c)); [exact Hw|calls_ok|answers rel_bev|]. intros w1 [Hc1 HL1].
  rewrite put_bind, Hc1, HL1. cbn [next without inherited].
  set (c2 := set_interprocess_bev _ _). set (L2 := with_new _ _).
  eapply post_bind; [eapply (post_use ub (c:=c2) (L:=L2) is_bev 1%nat KInterprocessBev);
    [by split|done|done|unit_calls]|]. intros _ w3 H3 _.
  eapply (post_use ub is_bev 1%nat KInterprocessBev); [exact H3|done|done|unit_calls].
Qed.

(** [calloc] aside, the set-up succeeds. *)
Lemma post_child fd addr fds s0 :
  (forall s, fst (sys_step CCallocConnection s) = true) \/ ub ->
  post ub (child_side (S:=S) srv fd addr fds (initial_world s0)) inv.
Proof.
  intros Hcalloc. unfold child_side, initial_world.
  eapply (post_call ub _ (CClose (pipe_write fds))). intros [] s1 _.
  set (w1 := World _ _ _ _).
  eapply post_bind; [eapply (post_free ub (c:=zero_connection) (L:=inherited) is_listener 0%nat KServerListener);
    [by split|done|done|unit_calls]|]. intros _ w2 H2 _.
  eapply (post_call ub _ CCallocConnection). intros r s2 E2.
  destruct r; [|destruct Hcalloc as [Hc|Hub]; [specialize (Hc (sys w2)); by rewrite E2 in Hc|exact Hub]].
  cbn [negb]. rewrite !put_bind. cbn [conn sys handles trace]. rewrite (proj1 H2), (proj2 H2).
  set (c3 := set_source_ip _ _).
  eapply (post_call ub _ (CClose (rpc_parent fds))). intros [] s3 _. cbn [conn sys handles trace].
  eapply post_bind; [by apply (post_register c3)|]. intros _ w4 H4 _.
  apply (post_loop (set_interprocess_bev (Some 1%nat) c3)); try done;
    unfold callbacks_ok, c3; fields; split_and!; in_list.
Qed.

Lemma child_started fd addr fds (w : world S) b w' :
  child_side srv fd addr fds w = Ok (b, w') -> b = true.
Proof.
  unfold child_side.
  intros (u1 & w1 & _ & (u2 & w2 & _ & (ok & w3 & _ & E)%act_bind_Ok)%act_bind_Ok)%act_bind_Ok.
  destruct ok; [|done]. cbn [negb] in E.
  do 4 (apply act_bind_Ok in E as (? & ? & _ & E)). by apply loop_started in E.
Qed.

Lemma post_start fd addr fds s0 :
  (forall s, fst (sys_step CCallocConnection s) = true) \/ ub ->
  post ub (start_session (S:=S) srv fd addr fds (initial_world s0)) inv.
Proof.
  intros Hcalloc. unfold start_session.
  eapply post_bind; [by apply post_child|]. by intros b w Hw ->%child_started.
Qed.
End Start.

Lemma session_done_or_inv {S} `{Reliable S} srv fuel fd addr fds s0 w :
  session srv fuel fd addr fds s0 w -> done_or_inv w.
Proof.
  induction 1 as [w Hs|w e w' _ IH He E|w s' _ IH].
  - left. pose proof (post_start srv True fd addr fds s0 (or_intror I)) as Hp. by rewrite Hs in Hp.
  - destruct IH as [IH|IH].
    + pose proof (post_handle_event srv fuel True e w (or_intror I) IH He (or_intror I)) as Hp. by rewrite E in Hp.
    + unfold enabled in He. by rewrite IH in He.
  - done.
Qed.

(** The small system keeps the promises. *)
#[export] Instance small_reliable : Reliable small.
Proof.
  constructor; [done..| |].
  - intros p s st. cbn. unfold small_stat. destruct (assoc p (files s)); [|destruct (assoc p (dirs s)); [|done]];
      intros [= <-]; by vm_compute.
  - intros p s Hp. by split.
Qed.

(** A LIST on a protected channel, overtaken by the removal of the directory. *)
Definition race_scenario : list (stimulus (S:=small)) :=
  login_scenario "alice" "secret" ++ sends "PROT P" ++ sends "PASV" ++
    [Callback (DataAccept 5 EmptyString 7 (SockInet 0x7f000001))] ++
    sends "LIST box" ++ sends "RMD box".

(** ** Properties *)

(** C7: in every state a session can reach (its loop not ended), the handles
    the connection record points to are live and of the right kind: the
    control bufferevent, the data bufferevent, the passive listener (the only
    live one), and a live timer whenever a listener exists or the user is not
    logged in; the end of the socket pair; a chunk callback comes with a
    stream.  Asked of the system: that it is [Reliable]. *)
Theorem session_invariant {S} `{Reliable S} srv fuel fd addr fds s0 w :
  session srv fuel fd addr fds s0 w -> stopped w = false -> inv w.
Proof. intros [Hi|Hs]%session_done_or_inv Hf; [done|congruence]. Qed.

(** In the middle of the race every handle is still in place. *)
Example session_invariant_witness :
  data_bev (conn (played race_scenario)) = Some 7%nat /\ inv (played race_scenario).
Proof.
  split; [by vm_compute|].
  apply (session_invariant sample_server 10 5 (SockInet 0x7f000001) sample_fds sample_small); [|by vm_compute].
  apply (play_session_ok _ _ _ _ _ _ race_scenario). by vm_compute.
Defined.

(** C1: as long as the system is [Reliable] and the listening process answers
    the questions of a listing, no callback of a session dereferences NULL,
    uses a freed handle or frees one twice: the control and data
    bufferevents, the end of the socket pair, listeners, timers and the events
    are all in the ledger, and the error branches are covered.  Nor does the
    set-up, when [calloc] succeeds.  Two events of a protected data connection
    are excepted: the end of a handshake with a listing put off to it, which
    opens the directory again after another command may have removed it; and
    the end of a handshake reported together with an error after an empty
    listing, whose callback frees the bufferevent the error branch then
    uses. *)
Theorem no_undefined_behaviour {S} `{Reliable S} srv fuel fd addr fds s0 :
  ((forall s, fst (sys_step CCallocConnection s) = true) ->
   start_session srv fd addr fds (initial_world s0) <> Undefined) /\
  forall w e, session srv fuel fd addr fds s0 w -> enabled w e = true -> answering S ->
  (forall h events, e = DataEvent h events ->
    ~ listing_pending (conn w) events /\ ~ handshake_closes (conn w) events) ->
  handle_event srv fuel e w <> Undefined.
Proof.
  split.
  - intros Hc E. pose proof (post_start srv False fd addr fds s0 (or_introl Hc)) as Hp. by rewrite E in Hp.
  - intros w e Hs He Hans Hl E. destruct (session_done_or_inv _ _ _ _ _ _ _ Hs) as [Hi|Hd].
    + pose proof (post_handle_event srv fuel False e w (or_introl Hans) Hi He (or_introl Hl)) as Hp.
      by rewrite E in Hp.
    + unfold enabled in He. by rewrite Hd in He.
Qed.

(** The error branch on a live protected data connection. *)
Example no_undefined_behaviour_witness :
  start_session sample_server 5 (SockInet 0x7f000001) sample_fds (initial_world sample_small) <> Undefined /\
  handle_event sample_server 10 (DataEvent 7 (Z.lor BEV_EVENT_ERROR BEV_EVENT_EOF)) (played race_scenario)
    <> Undefined.
Proof.
  split.
  - apply (proj1 (no_undefined_behaviour sample_server 10 5 (SockInet 0x7f000001) sample_fds sample_small)).
    reflexivity.
  - apply (proj2 (no_undefined_behaviour sample_server 10 5 (SockInet 0x7f000001) sample_fds sample_small)).
    + apply (play_session_ok _ _ _ _ _ _ race_scenario). by vm_compute.
    + by vm_compute.
    + intros request s _. discriminate.
    + intros h events [= <- <-]. split; intros [E _]; by vm_compute in E.
Defined.

(** The second exception of the theorem above is real as well: a plain data
    connection, a listing of an empty directory, PROT P before its closing
    reply is out, and an event that reports success and failure of a
    handshake at once. *)
Definition empty_listing_scenario : list (stimulus (S:=small)) :=
  login_scenario "alice" "secret" ++ sends "PASV" ++
    [Callback (DataAccept 5 EmptyString 7 (SockInet 0x7f000001))] ++ sends "MKD void" ++
    [Environment (set_input 2 ("NLST void" +:+ crlf)); Callback ControlRead;
     Environment (set_input 2 ("PROT P" +:+ crlf)); Callback ControlRead].

Theorem error_after_empty_listing :
  let events := Z.lor BEV_EVENT_CONNECTED BEV_EVENT_ERROR in
  session sample_server 10 5 (SockInet 0x7f000001) sample_fds sample_small (played empty_listing_scenario) /\
  enabled (played empty_listing_scenario) (DataEvent 7 events) = true /\
  handle_event sample_server 10 (DataEvent 7 events) (played empty_listing_scenario) = Undefined.
Proof.
  split; [|by vm_compute]. apply (play_session_ok _ _ _ _ _ _ empty_listing_scenario). by vm_compute.
Qed.

(** C32: the exception is real.  On a protected data channel a LIST of a
    directory, an RMD of it and then the end of the handshake, all accepted
    by the server, end in a read through the NULL that [opendir] returned. *)
Theorem tls_listing_race :
  session sample_server 10 5 (SockInet 0x7f000001) sample_fds sample_small (played race_scenario) /\
  enabled (played race_scenario) (DataEvent 7 BEV_EVENT_CONNECTED) = true /\
  handle_event sample_server 10 (DataEvent 7 BEV_EVENT_CONNECTED) (played race_scenario) = Undefined.
Proof.
  split; [|by vm_compute]. apply (play_session_ok _ _ _ _ _ _ race_scenario). by vm_compute.
Qed.
