(* ===== verification/Typing.v ===== *)
(** * The fields of the connection record (src/core/connection.h)

    In the model a character array of [connection_t] is a string and an [int]
    is an integer.  A record is well typed when they are values the C fields
    can hold; every state of every session is. *)

From S2P Require Import Prelude CString StringTable CommandParser Config Connection System.
From S2P Require Import Control.
From S2P Require Import ServerState DataHandler Auth Ipc Dele Listing Retr Stor Actions.
From S2P Require Import Dispatch Session SmallSystem Scenario.
From stdpp Require Import options.

Local Open Scope Z_scope.

Definition INET6_ADDRSTRLEN : Z := 46.

Definition is_int (n : Z) : Prop := INT_MIN <= n <= INT_MAX.

(** [username] may fill its array: [strncpy] then writes no terminator, and
    the zero bytes of [uid] behind it, which nothing assigns, end the string. *)
Record well_typed (c : connection_t) : Prop := {
  t_username : strlen (username c) <= Z.of_nat USERNAME_LEN;
  t_error_buf : strlen (error_buf c) < Z.of_nat ERROR_BUF_LEN;
  t_source_ip : strlen (source_ip c) < INET6_ADDRSTRLEN;
  t_path : strlen (path c) < PATH_MAX;
  t_mode : transfer_mode c = TRANSFER_MODE_ASCII \/ transfer_mode c = TRANSFER_MODE_BINARY;
  t_port : 0 <= data_port c < two16;
  t_control : control_active c = 1;
  t_active : is_int (data_active c);
  t_tls : is_int (upgraded_to_tls c);
}.

(** What the kernel tells of a peer's address fits in INET6_ADDRSTRLEN. *)
Definition addr_ok (addr : sockaddr) : Prop :=
  match addr with SockInet6 text => strlen text < INET6_ADDRSTRLEN | _ => True end.

(** ** Texts and counters *)

Lemma length_print_byte n : 0 <= n < 256 -> (String.length (print_unsigned n) <= 3)%nat.
Proof.
  intros Hn.
  assert (forallb (fun n => Nat.leb (String.length (print_unsigned n)) 3) (seqZ 0 256) = true) as Hall
    by (vm_compute; reflexivity).
  apply Nat.leb_le. rewrite forallb_forall in Hall. apply Hall, list_elem_of_In, elem_of_seqZ. lia.
Qed.

Lemma source_ip_fits addr : addr_ok addr -> strlen (fill_source_ip addr EmptyString) < INET6_ADDRSTRLEN.
Proof.
  destruct addr as [ip|text|family]; cbn [fill_source_ip addr_ok]; [intros _|done|done].
  unfold dotted, strlen, INET6_ADDRSTRLEN.
  pose proof (length_print_byte _ (ip_byte_range ip 0)).
  pose proof (length_print_byte _ (ip_byte_range ip 1)).
  pose proof (length_print_byte _ (ip_byte_range ip 2)).
  pose proof (length_print_byte _ (ip_byte_range ip 3)).
  string_lengths. lia.
Qed.

Lemma strlen_snprintf n s : (0 < n)%nat -> strlen (snprintf_s n s) < Z.of_nat n.
Proof. unfold strlen, snprintf_s. rewrite length_strtake. lia. Qed.

Lemma strlen_strtake n s : strlen (strtake n s) <= Z.of_nat n.
Proof. unfold strlen. rewrite length_strtake. lia. Qed.

(** The atomic addition leaves two [int]s, wherever its carry goes. *)
Lemma add_and_fetch_8_int c :
  is_int (data_active (add_and_fetch_8 c)) /\ is_int (upgraded_to_tls (add_and_fetch_8 c)).
Proof.
  assert (forall n, 0 <= n < two32 -> is_int (if n <=? INT_MAX then n else n - two32)) as Hs.
  { intros n Hn. unfold is_int, INT_MIN, INT_MAX, two32 in *. destruct (Z.leb_spec n 2147483647); lia. }
  unfold add_and_fetch_8. fields.
  split; apply Hs; [by apply Z.mod_pos_bound|].
  match goal with |- context [u64 ?n] => pose proof (u64_range n) as Hr; set (v := u64 n) in * end.
  unfold two64, two32 in *. split; [apply Z.div_pos; lia|apply Z.div_lt_upper_bound; lia].
Qed.

(** The path LIST keeps for the end of the handshake. *)
Lemma list_path_fits arg :
  strlen (match arg with
          | Some p => if 0 <? strlen p then snprintf_s (Z.to_nat PATH_MAX) p else "."%string
          | None => "."%string
          end) < PATH_MAX.
Proof. exact (list_path_short (ListFlags false false false arg)). Qed.

(** ** Callbacks *)

Section Typing.
Context {S : Type} `{Sys S}.

Definition typed_step (w w' : world S) : Prop := well_typed (conn w) -> well_typed (conn w').

Definition typed_put (f : connection_t -> connection_t) : Prop :=
  forall c, well_typed c -> well_typed (f c).

#[export] Instance typed_tame : Tame typed_put (fun _ => True) (fun _ => True) typed_step.
Proof.
  split; unfold typed_step; [|intros f w Hf; apply Hf|done..].
  split; [by intros w|]. intros w1 w2 w3; auto.
Qed.
End Typing.

Ltac typed_field :=
  first [ assumption | done | by left | by right
        | apply list_path_fits | apply strlen_strtake | by apply strlen_snprintf; vm_compute; lia ].

Lemma typed_add_and_fetch_8 : typed_put add_and_fetch_8.
Proof.
  intros c Hc. destruct (add_and_fetch_8_int c) as [Ha Hu]. destruct Hc.
  split; first [exact Ha | exact Hu | assumption].
Qed.

Ltac typed_side :=
  first [ exact I | exact typed_add_and_fetch_8
        | let c := fresh in let Hc := fresh in
          intros c Hc; destruct Hc; split; fields; typed_field ].

Section Session.
Context {S : Type} `{Sys S}.
Variable srv : server_state_t.
Variable fuel : nat.
Hypothesis range_ok : 0 <= range_start (pasv_range srv) < two16.
#[local] Set Default Proof Using "Type*".

Lemma bind_loop_typed n ip p :
  0 <= p < two16 -> keeps (S:=S) typed_step (bind_loop srv n ip p).
Proof.
  revert p. induction n as [|n IH]; intros p Hp; cbn [bind_loop];
    walk ltac:(typed_side) ltac:(apply IH, Z.mod_pos_bound; reflexivity).
Qed.

Ltac typed_known := by apply bind_loop_typed.

Lemma run_callback_typed cb b : keeps (S:=S) typed_step (run_callback fuel cb b).
Proof. destruct cb; cbn [run_callback]; walk_session ltac:(typed_side). Qed.

Lemma dispatch_typed cmd : keeps (S:=S) typed_step (dispatch srv fuel cmd).
Proof.
  unfold dispatch, command_actions; cbn [find_action];
  repeat (destruct (String.eqb _ _); [apply keeps_run_command_cb;
    walk_session_with ltac:(typed_side) ltac:(typed_known)|]);
  walk_session_with ltac:(typed_side) ltac:(typed_known).
Qed.

Lemma handle_event_typed e : keeps (S:=S) typed_step (handle_event srv fuel e).
Proof.
  destruct e; cbn [handle_event];
    walk_session_with ltac:(typed_side)
      ltac:(first [apply dispatch_typed | apply run_callback_typed | typed_known]).
Qed.

(** The record the set-up makes. *)
Lemma child_typed fd addr fds s0 b (w : world S) :
  addr_ok addr -> child_side srv fd addr fds (initial_world s0) = Ok (b, w) -> well_typed (conn w).
Proof.
  intros Ha E. unfold child_side in E.
  apply act_bind_Ok in E as (u1 & w1 & [s1 ->]%(do_call_Ok (CClose (pipe_write fds))) & E).
  apply act_bind_Ok in E as (u2 & w2 & E2 & E).
  assert (conn w2 = zero_connection) as Hc2 by (unfold evconnlistener_free, forget in E2; by inv_act; simplify_eq).
  apply act_bind_Ok in E as (ok & w3 & [s3 ->]%(do_call_Ok CCallocConnection) & E).
  destruct ok; [|done]. cbn [negb] in E.
  apply act_bind_Ok in E as (u4 & w4 & ->%put_Ok & E). cbn [conn] in E. rewrite Hc2 in E.
  match type of E with _ ?v = _ => assert (typed_step v w) as Hk end.
  { revert E. assert (typed_put (set_source_ip (fill_source_ip addr EmptyString))) as Hsrc.
    { intros c Hc. destruct Hc. split; fields; first [assumption|by apply source_ip_fits]. }
    match goal with |- ?m ?v = Ok _ -> _ => generalize v; intros v0 end.
    apply_keeps ltac:(walk_session_with ltac:(first [exact Hsrc | typed_side]) fail). }
  apply Hk. split; cbn [conn]; fields; first [by left|split; zcompute|zcompute|done].
Qed.
End Session.

(** ** Properties *)

(** C8: the connection record is well typed in every state of every session:
    the texts fit in their arrays with the bytes that end them, the transfer
    mode is one of the two the program sets, the data port is a port, the two
    counters are [int]s even where an addition on the wrong width touches
    both, and the connection stays marked as active. *)
Theorem connection_well_typed {S} `{Sys S} srv fuel fd addr fds s0 w :
  0 <= range_start (pasv_range srv) < two16 -> addr_ok addr ->
  session srv fuel fd addr fds s0 w -> well_typed (conn w).
Proof.
  intros Hr Ha. induction 1 as [w Hs|w e w' _ IH _ E|w s' _ IH]; [| |done].
  - apply act_bind_Ok in Hs as (b & w1 & E1 & E2).
    assert (typed_step w1 w) as Hk2
      by (revert E2; destruct b; apply_keeps ltac:(walk_session ltac:(typed_side))).
    apply Hk2. by eapply child_typed.
  - by eapply handle_event_typed.
Qed.

(** A session that logs in, opens a passive port and lists over TLS. *)
Example connection_well_typed_witness :
  well_typed (conn (played (login_scenario "alice" "secret" ++ sends "PROT P" ++ sends "EPSV"))).
Proof.
  apply (connection_well_typed sample_server 10 5 (SockInet 0x7f000001) sample_fds sample_small).
  - split; zcompute.
  - exact I.
  - apply (play_session_ok _ _ _ _ _ _
      (login_scenario "alice" "secret" ++ sends "PROT P" ++ sends "EPSV")).
    vm_compute. reflexivity.
Defined.
