(* ===== verification/Descriptors.v ===== *)
(** * Descriptors of a session (src/actions/retr.c, src/actions/stor.c,
      src/engine/data_handler.c)

    A descriptor belongs to the program from the call that returns it until
    it is closed or handed to libevent.  Over a whole session whose
    set-up reached the event loop the program uses only descriptors that belong
    to it; after a failed set-up it does not. *)

From S2P Require Import Prelude CString StringTable CommandParser Config Connection System.
From S2P Require Import Control.
From S2P Require Import ServerState DataHandler Security Auth Ipc Dele Listing Retr Stor Actions.
From S2P Require Import Dispatch Session SmallSystem Scenario Safety.
From stdpp Require Import options.

Local Open Scope Z_scope.

(** ** The account of descriptors *)

(** A descriptor comes with an event, or a call is made. *)
Inductive happening := Given (fd : Z) | Made (e : event).

(** The descriptors that belong to the program after it. *)
Definition effect (x : happening) (D : gset Z) : gset Z :=
  match x with
  | Given fd => {[fd]} ∪ D
  | Made (Did (COpenRead _) r) => if 0 <=? r then {[r]} ∪ D else D
  | Made (Did (COpenWrite _) r) => if 0 <=? r then {[r]} ∪ D else D
  | Made (Did (CClose fd) _) => D ∖ {[fd]}
  | Made (Did (CBevAddFile _ fd _) _) => D ∖ {[fd]}
  | Made (Did (CBevSocketNew _ fd) ok) => if ok : bool then D ∖ {[fd]} else D
  | Made (Did (CBevSslSocketNew _ fd) ok) => if ok : bool then D ∖ {[fd]} else D
  | Made _ => D
  end.

(** The descriptor a call is given.  [getsockname] and [getsockopt] are left
    out: they ask about sockets that libevent holds and closes. *)
Definition used (c : call) : option Z :=
  match c with
  | CRead fd _ | CFstat fd | CFsync fd | CClose fd | CBevAddFile _ fd _ | CEvbufferWrite _ fd
  | CBevSocketNew _ fd | CBevSslSocketNew _ fd | CEventNewRead _ fd => Some fd
  | _ => None
  end.

(** A descriptor becomes the program's. *)
Definition gives (x : happening) (fd : Z) : Prop :=
  match x with
  | Given n => n = fd
  | Made (Did (COpenRead _) r) | Made (Did (COpenWrite _) r) => r = fd
  | Made _ => False
  end.

(** The kernel gives out descriptors that are not in use. *)
Definition fresh_one (x : happening) (D : gset Z) : Prop :=
  match x with
  | Given fd => 0 <= fd /\ fd ∉ D
  | Made (Did (COpenRead _) r) | Made (Did (COpenWrite _) r) => 0 <= r -> r ∉ D
  | Made _ => True
  end.

(** A call is given a descriptor that belongs to the program, or -1, which
    the kernel refuses. *)
Definition proper_one (x : happening) (D : gset Z) : Prop :=
  match x with
  | Given _ => True
  | Made (Did c _) => match used c with Some fd => fd < 0 \/ fd ∈ D | None => True end
  end.

Fixpoint balance (D : gset Z) (l : list happening) : gset Z :=
  match l with [] => D | x :: l' => balance (effect x D) l' end.

Fixpoint always_one (P : happening -> gset Z -> Prop) (D : gset Z) (l : list happening) : Prop :=
  match l with [] => True | x :: l' => P x D /\ always_one P (effect x D) l' end.

Definition fresh : gset Z -> list happening -> Prop := always_one fresh_one.
Definition proper : gset Z -> list happening -> Prop := always_one proper_one.

Lemma balance_app D l1 l2 : balance D (l1 ++ l2) = balance (balance D l1) l2.
Proof. revert D. by induction l1; intros D; cbn [balance app]. Qed.

Lemma always_one_app P D l1 l2 :
  always_one P D (l1 ++ l2) <-> always_one P D l1 /\ always_one P (balance D l1) l2.
Proof.
  revert D. induction l1 as [|x l1 IH]; intros D; cbn [always_one balance app]; [tauto|].
  rewrite IH. tauto.
Qed.

(** Only what gives a descriptor adds it. *)
Lemma effect_adds x D fd : fd ∈ effect x D -> fd ∈ D \/ gives x fd.
Proof.
  destruct x as [n|[c r]]; cbn [effect gives]; [set_solver|].
  destruct c; cbn [gives]; try case_match; set_solver.
Qed.

Lemma balance_adds l fd : forall D, fd ∈ balance D l -> fd ∈ D \/ exists x, x ∈ l /\ gives x fd.
Proof.
  induction l as [|x l IH]; intros D; cbn [balance]; [auto|]. intros [Hd|(y & Hy & Hg)]%IH.
  - destruct (effect_adds _ _ _ Hd) as [?|Hg]; [auto|]. right. exists x. split; [by left|done].
  - right. exists y. split; [by right|done].
Qed.

(** Between two closings of a descriptor it was given again. *)
Lemma closed_twice D l1 l2 l3 fd :
  proper D (l1 ++ Made (Did (CClose fd) tt) :: l2 ++ Made (Did (CClose fd) tt) :: l3) -> 0 <= fd ->
  exists x, x ∈ l2 /\ gives x fd.
Proof.
  unfold proper. rewrite always_one_app. cbn [always_one]. rewrite always_one_app.
  cbn [always_one proper_one used effect]. intros (_ & _ & _ & Hp & _) Hfd.
  destruct Hp as [?|Hp]; [lia|]. destruct (balance_adds _ _ _ Hp) as [?|?]; [set_solver|done].
Qed.

(** ** What the connection record keeps *)

(** A STOR is in progress: one of its callbacks is set. *)
Definition uploading (c : connection_t) : Prop :=
  data_read_cb c = Some on_stor_read \/ data_eof_event_cb c = Some on_eof_event_cb \/
  data_tls_event_connected_cb c = Some stor_tls_on_bev_event_connected.

(** The descriptors of the record belong to the program, and are two; [up]
    tells whether [upload_fd] counts. *)
Record keeps_fds (up : Prop) (c : connection_t) (D : gset Z) : Prop := {
  k_upload : up -> upload_fd c < 0 \/ upload_fd c ∈ D;
  k_stream : forall fs, data_stream c = Some fs -> fs_fd fs < 0 \/ fs_fd fs ∈ D;
  k_apart : forall fs, up -> data_stream c = Some fs -> 0 <= fs_fd fs -> upload_fd c <> fs_fd fs;
  k_cbs : callbacks_ok c;
}.

Definition fds (c : connection_t) (D : gset Z) : Prop := keeps_fds (uploading c) c D.

(** Descriptor [x] belongs to the program and the record does not keep it. *)
Definition holding (x : Z) (c : connection_t) (D : gset Z) : Prop :=
  fds c D /\ 0 <= x /\ x ∈ D /\ (uploading c -> upload_fd c <> x) /\
  forall fs, data_stream c = Some fs -> fs_fd fs <> x.

(** A descriptor that was not there before is not kept. *)
Lemma fds_fresh x c D : fds c D -> 0 <= x -> x ∉ D -> holding x c ({[x]} ∪ D).
Proof.
  intros [Hu Hs Ha Hc] Hx Hn. unfold holding. split_and!; [split|..]; try done.
  - intros [?|?]%Hu; set_solver.
  - intros fs [?|?]%Hs; set_solver.
  - set_solver.
  - intros [?|?]%Hu <-; [lia|done].
  - intros fs [?|?]%Hs <-; [lia|done].
Qed.

(** What is held can go. *)
Lemma holding_gone x c D : holding x c D -> fds c (D ∖ {[x]}).
Proof.
  intros ([Hu Hs Ha Hc] & Hx & Hin & Hnu & Hns). split; [..|done|done].
  - intros Hup. destruct (Hu Hup); [auto|]. specialize (Hnu Hup). set_solver.
  - intros fs Hfs. destruct (Hs _ Hfs); [auto|]. specialize (Hns _ Hfs). set_solver.
Qed.

Lemma holding_fds x c D : holding x c D -> fds c D.
Proof. by intros [? _]. Qed.

(** ** Triples *)

Section Triples.
Context {S : Type} `{Sys S}.

Definition assertion : Type := connection_t -> gset Z -> Prop.

(** From a state with [J] the calls between two states are proper and lead
    to [K]. *)
Definition leads (J K : assertion) (w w' : world S) : Prop :=
  exists l, trace w' = trace w ++ l /\
    forall D, J (conn w) D -> fresh D (map Made l) ->
      proper D (map Made l) /\ K (conn w') (balance D (map Made l)).

Definition triple {A} (J : assertion) (m : act S A) (K : A -> assertion) : Prop :=
  forall w a w', m w = Ok (a, w') -> leads J (K a) w w'.

Definition accounts (J : assertion) : world S -> world S -> Prop := leads J J.

Lemma leads_still (J K : assertion) w w' :
  trace w' = trace w -> (forall D, J (conn w) D -> K (conn w') D) -> leads J K w w'.
Proof. intros Ht Hk. exists []. rewrite app_nil_r. split; [done|]. intros D HJ _. split; [done|by apply Hk]. Qed.

Lemma leads_trans J K L w1 w2 w3 : leads J K w1 w2 -> leads K L w2 w3 -> leads J L w1 w3.
Proof.
  intros (l1 & T1 & H1) (l2 & T2 & H2). exists (l1 ++ l2). split; [by rewrite T2, T1, app_assoc|].
  intros D HJ. unfold fresh, proper. rewrite map_app, !always_one_app, balance_app.
  intros [F1 F2]. destruct (H1 D HJ F1) as [P1 HK]. destruct (H2 _ HK F2). done.
Qed.

(** A single call. *)
Lemma leads_call (J K : assertion) c r w s :
  (forall cn D, J cn D -> fresh_one (Made (Did c r)) D ->
    proper_one (Made (Did c r)) D /\ K cn (effect (Made (Did c r)) D)) ->
  leads J K w (World (conn w) s (handles w) (trace w ++ [Did c r])).
Proof.
  intros Hc. exists [Did c r]. split; [done|]. intros D HJ [Hf _].
  destruct (Hc _ _ HJ Hf). by repeat split.
Qed.

Definition calm_put (J : assertion) (f : connection_t -> connection_t) : Prop :=
  forall c D, J c D -> J (f c) D.

Definition calm_call (J : assertion) (c : call) : Prop :=
  forall r cn D, J cn D -> fresh_one (Made (Did c r)) D ->
    proper_one (Made (Did c r)) D /\ J cn (effect (Made (Did c r)) D).

#[export] Instance accounts_tame J : Tame (calm_put J) (calm_call J) (fun _ => True) (accounts J).
Proof.
  split.
  - split; [intros w; by apply leads_still|intros w1 w2 w3; apply leads_trans].
  - intros f w Hf. apply leads_still; [done|]. intros D. apply Hf.
  - intros c r w s Hc. apply leads_call, Hc.
  - intros k w _. by apply leads_still.
  - intros h w. by apply leads_still.
Qed.

Lemma triple_keeps {A} J (m : act S A) : keeps (accounts J) m -> triple J m (fun _ => J).
Proof. intros Hm w a w' E. by eapply Hm. Qed.

Lemma keeps_triple {A} J (m : act S A) : triple J m (fun _ => J) -> keeps (accounts J) m.
Proof. intros Hm w a w' E. by eapply Hm. Qed.

Lemma triple_bind {A B} J (m : act S A) (f : A -> act S B) K L :
  triple J m K -> (forall a, triple (K a) (f a) L) -> triple J (m ≫= f) L.
Proof. intros Hm Hf w b w' (a & w1 & E1 & E2)%act_bind_Ok. eapply leads_trans; [by eapply Hm|by eapply Hf]. Qed.

Lemma triple_first {A B} J (m : act S A) (f : A -> act S B) L :
  keeps (accounts J) m -> (forall a, triple J (f a) L) -> triple J (m ≫= f) L.
Proof. intros Hm. by apply triple_bind, triple_keeps. Qed.

Lemma triple_pre {A} (J J' : assertion) (m : act S A) K :
  (forall c D, J c D -> J' c D) -> triple J' m K -> triple J m K.
Proof. intros Hj Hm w a w' E. eapply leads_trans; [by apply leads_still; [|apply Hj]|by eapply Hm]. Qed.

Lemma triple_post {A} J (m : act S A) (K K' : A -> assertion) :
  (forall a c D, K' a c D -> K a c D) -> triple J m K' -> triple J m K.
Proof. intros Hk Hm w a w' E. eapply leads_trans; [by eapply Hm|]. apply leads_still; [done|]. intros D; apply Hk. Qed.

Lemma triple_ret {A} (J : assertion) (a : A) (K : A -> assertion) :
  (forall c D, J c D -> K a c D) -> triple J (mret a : act S A) K.
Proof. intros Hk w a' w' [-> ->]%ret_Ok. apply leads_still; [done|]. intros D; apply Hk. Qed.

Lemma triple_get {A B} (J : assertion) (f : connection_t -> A) (k : A -> act S B) L :
  (forall x, triple (fun c D => J c D /\ f c = x) (k x) L) -> triple J (get f ≫= k) L.
Proof.
  intros Hk. apply (triple_bind _ _ _ (fun x c D => J c D /\ f c = x)); [|done].
  intros w a w' [-> ->]%get_Ok. by apply leads_still.
Qed.

Lemma triple_nonnull {A B} J (p : option A) (k : A -> act S B) L :
  (forall a, p = Some a -> triple J (k a) L) -> triple J (nonnull p ≫= k) L.
Proof.
  intros Hk w b w' (a & w1 & [Hp ->]%nonnull_Ok & E)%act_bind_Ok. by eapply Hk.
Qed.

Lemma triple_put (J K : assertion) f :
  (forall c D, J c D -> K (f c) D) -> triple J (put f : act S unit) (fun _ => K).
Proof. intros Hk w a w' ->%put_Ok. apply leads_still; [done|]. intros D; apply Hk. Qed.

Lemma triple_call c (J : assertion) (K : reply c -> assertion) :
  (forall r cn D, J cn D -> fresh_one (Made (Did c r)) D ->
    proper_one (Made (Did c r)) D /\ K r cn (effect (Made (Did c r)) D)) ->
  triple J (do_call c) K.
Proof. intros Hk w r w' (s & ->)%(do_call_Ok c). apply leads_call, Hk. Qed.

Lemma triple_undefined {A} J K : triple J (fail_undefined : act S A) K.
Proof. by intros w a w'. Qed.

Lemma triple_hang {A} J K : triple J (hang : act S A) K.
Proof. by intros w a w'. Qed.
End Triples.

(** An assignment that keeps the descriptors where they are. *)
Ltac fds_put :=
  let c := fresh in let D := fresh in let Hc := fresh in
  intros c D Hc; unfold holding, fds in *;
  destruct_and?;
  repeat match goal with Hk : keeps_fds _ _ _ |- _ => destruct Hk as [? ? ? (? & ? & ? & ? & ?)] end;
  split_and?; try split; unfold uploading, callbacks_ok in *; fields;
  first [ assumption | done | lia
        | by split_and!; first [assumption | in_list]
        | solve [intuition (auto with lia; congruence)]
        | solve [naive_solver lia] ].

Ltac on_call := lazymatch goal with |- triple _ (do_call ?c) _ => apply (triple_call c) end.

(** A call that is not about descriptors. *)
Ltac fds_call := let r := fresh in let c := fresh in let D := fresh in intros r c D ? _; split; [exact I|assumption].

Ltac fds_side := first [ exact I | fds_call | fds_put ].

Ltac plain := apply triple_keeps; walk ltac:(fds_side) fail.

Section Handlers.
Context {S : Type} `{Sys S}.

Lemma send_keeps (J : assertion) status text :
  (forall h bytes, calm_call J (CBevWrite h bytes)) ->
  keeps (S:=S) (accounts J) (send_control_message status text).
Proof. intros Hj. walk ltac:(apply Hj) fail. Qed.

Lemma run_send_next_chunk_fds b : triple (S:=S) fds (run_send_next_chunk b) (fun _ => fds).
Proof.
  unfold run_send_next_chunk. apply triple_get. intros stream. apply triple_nonnull. intros fs ->.
  set (J := fun c D => fds c D /\ data_stream c = Some fs).
  assert (forall cn D, J cn D -> fs_fd fs < 0 \/ fs_fd fs ∈ D) as Hown
    by (intros cn D [[_ Hs _ _] Hfs]; by apply Hs).
  apply (triple_bind _ _ _ (fun _ => J)).
  { on_call. intros r cn D HJ _. split; [by eapply Hown|exact HJ]. }
  intros chunk. cbv zeta. apply triple_first.
  { assert (calm_put fds (set_data_write_cb (Some close_on_retrcb))) as Hput by fds_put.
    destruct (_ =? _); walk ltac:(intros c D [? ?]; split; [by apply Hput|done]) fail. }
  intros _. destruct (_ <=? _).
  - apply (triple_bind _ _ _ (fun _ c D => fds (set_data_stream None c) D)).
    + on_call. intros r cn D HJ _. split; [by eapply Hown|]. cbn [effect].
      destruct HJ as [[Hu Hs Ha Hc] Hfs]. split; unfold uploading in *; fields; try done.
      intros Hup. specialize (Hu Hup). specialize (Ha _ Hup Hfs).
      destruct (Z.lt_ge_cases (upload_fd cn) 0); [by left|right].
      apply elem_of_difference. rewrite elem_of_singleton. split; [by destruct Hu; [lia|]|lia].
    + intros _. apply triple_put. intros c D [Hu Hs Ha Hc]. split; unfold uploading in *; fields; try done.
      * intros fs' [= <-]. simpl. lia.
      * intros fs' _ [= <-]. simpl. lia.
  - apply triple_first; [walk ltac:(fds_call) fail|]. intros _. apply triple_put.
    intros c D [[Hu Hs Ha Hc] Hfs]. split; unfold uploading in *; fields; try done.
    + intros fs' [= <-]. exact (Hs fs Hfs).
    + intros fs' Hup [= <-]. exact (Ha fs Hup Hfs).
Qed.

(** A descriptor that was just opened. *)
Lemma opened_fds c0 (r : Z) (k : act S unit) :
  (r < 0 -> triple fds k (fun _ => fds)) -> (0 <= r -> triple (holding r) k (fun _ => fds)) ->
  triple (fun cn D => exists D0, fds cn D0 /\ (0 <= r -> r ∉ D0) /\
    D = effect (Made (Did (COpenRead c0) r)) D0) k (fun _ => fds).
Proof.
  intros Hn Hp. destruct (Z.lt_ge_cases r 0) as [Hr|Hr].
  - eapply triple_pre, Hn, Hr. intros cn D (D0 & Hf & _ & ->). cbn [effect].
    by destruct (Z.leb_spec 0 r); [lia|].
  - eapply triple_pre, Hp, Hr. intros cn D (D0 & Hf & Hni & ->). cbn [effect].
    destruct (Z.leb_spec 0 r); [|lia]. apply fds_fresh; auto.
Qed.

Lemma close_held fd : triple (S:=S) (holding fd) (do_call (CClose fd)) (fun _ => fds).
Proof.
  on_call. intros r cn D HJ _. split; [right; apply HJ|by apply holding_gone].
Qed.

Lemma fstat_held fd : keeps (S:=S) (accounts (holding fd)) (do_call (CFstat fd)).
Proof. apply (keeps_call (CFstat fd)). intros r cn D HJ _. split; [right; apply HJ|exact HJ]. Qed.

Lemma open_read_fds path (k : Z -> act S unit) :
  (forall r, r < 0 -> triple fds (k r) (fun _ => fds)) ->
  (forall r, 0 <= r -> triple (holding r) (k r) (fun _ => fds)) ->
  triple fds (do_call (COpenRead path) ≫= k) (fun _ => fds).
Proof.
  intros Hn Hp. eapply triple_bind; [on_call; intros r cn D HJ Hf|intros r; apply (opened_fds path r); eauto].
  split; [done|]. by exists D.
Qed.

Lemma open_write_fds path (k : Z -> act S unit) :
  (forall r, r < 0 -> triple fds (k r) (fun _ => fds)) ->
  (forall r, 0 <= r -> triple (holding r) (k r) (fun _ => fds)) ->
  triple fds (do_call (COpenWrite path) ≫= k) (fun _ => fds).
Proof.
  intros Hn Hp. eapply triple_bind; [on_call; intros r cn D HJ Hf|intros r; apply (opened_fds path r); eauto].
  split; [done|]. by exists D.
Qed.

Lemma ftp_send_file_plain_fds path : triple (S:=S) fds (ftp_send_file_plain path) (fun _ => fds).
Proof.
  unfold ftp_send_file_plain. apply triple_first; [walk fail fail|]. intros [b|]; [|plain].
  apply open_read_fds; intros fd Hfd; destruct (Z.ltb_spec fd 0); try lia; [plain|].
  apply triple_first; [apply fstat_held|]. intros [st|].
  - apply triple_first; [walk ltac:(fds_side) fail|]. intros _.
    apply triple_first; [walk ltac:(fds_side) fail|]. intros _.
    apply triple_first; [walk fail fail|]. intros h. on_call. intros r cn D HJ _.
    split; [right; apply HJ|by apply holding_gone].
  - apply (triple_bind _ _ _ (fun _ => fds)); [apply close_held|]. intros _. plain.
Qed.

Lemma ftp_send_file_tls_fds path : triple (S:=S) fds (ftp_send_file_with_evbuffer path) (fun _ => fds).
Proof.
  unfold ftp_send_file_with_evbuffer. apply triple_first; [walk fail fail|]. intros [b|]; [|plain].
  apply open_read_fds; intros fd Hfd; destruct (Z.ltb_spec fd 0); try lia; [plain|].
  apply triple_first; [apply fstat_held|]. intros [st|]; [|apply close_held].
  apply triple_first; [walk ltac:(fds_side) fail|]. intros _.
  apply triple_first; [walk ltac:(fds_side) fail|]. intros ok.
  apply (triple_bind _ _ _ (fun _ => fds)).
  - destruct ok; [|apply triple_undefined]. apply triple_put.
    intros c D (Hf & Hpos & Hin & Hnu & _). destruct Hf as [Hu Hs Ha Hc].
    split; unfold uploading in *; fields; try done.
    + intros fs [= <-]. by right.
    + intros fs Hup [= <-] _. by apply Hnu.
  - intros _. repeat (apply triple_first; [walk ltac:(fds_side) fail|]; intros _).
    apply run_send_next_chunk_fds.
Qed.

Lemma cftp_recv_file_fds path : triple (S:=S) fds (cftp_recv_file_with_evbuffer path) (fun _ => fds).
Proof.
  unfold cftp_recv_file_with_evbuffer. apply triple_first; [walk fail fail|]. intros [b|]; [|plain].
  apply open_write_fds; intros fd Hfd; destruct (Z.ltb_spec fd 0); try lia; [plain|].
  apply (triple_bind _ _ _ (fun _ => keeps_fds True)).
  { apply triple_put. intros c D (Hf & Hpos & Hin & Hnu & Hns). destruct Hf as [Hu Hs Ha Hc].
    split; fields; auto. intros fs _ Hfs _ ->. by apply (Hns _ Hfs). }
  intros _. apply (triple_post _ _ _ (fun _ => keeps_fds True)).
  { intros _ c D [Hu Hs Ha Hc]. split; auto. }
  plain.
Qed.

(** An upload in progress: the descriptor belongs to the program. *)
Definition receiving (c : connection_t) (D : gset Z) : Prop := fds c D /\ uploading c.

Lemma receiving_owns c D : receiving c D -> upload_fd c < 0 \/ upload_fd c ∈ D.
Proof. intros [Hf Hup]. by apply (k_upload _ _ _ Hf). Qed.

Lemma drain_fds (J : assertion) fuel b :
  (forall c D, J c D -> upload_fd c < 0 \/ upload_fd c ∈ D) ->
  keeps (S:=S) (accounts J) (drain fuel b).
Proof.
  intros Hown. induction fuel as [|fuel IH]; [apply keeps_hang|]. cbn [drain].
  apply keeps_bind; [walk ltac:(fds_call) fail|]. intros n. destruct (0 <? n); [|apply keeps_ret].
  apply keeps_triple, triple_get. intros fd.
  apply (triple_bind _ _ _ (fun _ => J)); [|intros _; by apply triple_keeps].
  unfold evbuffer_write. apply triple_first; [walk fail fail|]. intros h.
  on_call. intros r cn D [HJ <-] _. split; [by apply Hown|done].
Qed.

Lemma run_on_stor_read_fds fuel b : triple (S:=S) receiving (run_on_stor_read fuel b) (fun _ => fds).
Proof.
  eapply triple_post, triple_keeps, drain_fds, receiving_owns. by intros _ c D [? _].
Qed.

Lemma run_stor_tls_fds b :
  triple (S:=S) receiving (run_stor_tls_on_bev_event_connected b) (fun _ => fds).
Proof.
  destruct b as [h|]; [|by apply triple_ret; intros c D [? _]].
  apply triple_put. intros c D [[Hu Hs Ha (? & ? & ? & ? & ?)] Hup].
  split; unfold uploading, callbacks_ok in *; fields; auto. split_and!; first [assumption|in_list].
Qed.

Lemma run_on_eof_fds fuel b : triple (S:=S) receiving (run_on_eof_event_cb fuel b) (fun _ => fds).
Proof.
  assert (forall c D, receiving c D -> fds c D) as Hr by by intros c D [? _].
  unfold run_on_eof_event_cb. apply triple_get. intros d.
  apply (triple_pre _ receiving); [by intros c D [? _]|].
  destruct d as [d|]; [|by apply triple_ret]. destruct b as [b|]; [|by apply triple_ret].
  apply triple_get. intros fd. destruct (Z.leb_spec 0 fd) as [Hfd|_];
    [|apply (triple_pre _ fds); [by intros c D [[? _] _]|plain]].
  set (J := fun c D => receiving c D /\ upload_fd c = fd).
  assert (forall cn D, J cn D -> fd < 0 \/ fd ∈ D) as Hown
    by (intros cn D [HJ <-]; by apply receiving_owns).
  apply triple_first; [by apply drain_fds; intros c D [HJ _]; apply receiving_owns|].
  intros _. apply (triple_bind _ _ _ (fun _ => J)).
  { on_call. intros r cn D HJ _. split; [by eapply Hown|exact HJ]. }
  intros _. apply (triple_bind _ _ _ (fun _ => keeps_fds False)).
  { on_call. intros r cn D HJ _. split; [by eapply Hown|]. cbn [effect].
    destruct HJ as [[[Hu Hs Ha Hc] Hup] <-]. split; try done.
    intros fs Hfs. destruct (Hs _ Hfs) as [?|Hin]; [by left|].
    destruct (Z.lt_ge_cases (fs_fd fs) 0); [by left|right]. apply elem_of_difference.
    rewrite elem_of_singleton. split; [done|]. intros E. by apply (Ha fs). }
  intros _. apply (triple_bind _ _ _ (fun _ => fds)).
  { apply triple_put. intros c D [Hu Hs Ha Hc]. split; fields; try done; [by left|].
    intros fs _ _ Hpos E. simpl in E. lia. }
  intros _. plain.
Qed.

Lemma data_connection_accept_fds stack listener fd addr :
  triple (S:=S) (holding fd) (data_connection_accept_cb stack listener fd addr) (fun _ => fds).
Proof.
  unfold data_connection_accept_cb. apply triple_first; [walk fail fail|]. intros src.
  destruct (negb _); [apply close_held|].
  apply triple_first; [walk ltac:(fds_side) fail|]. intros _.
  apply triple_first; [walk ltac:(fds_side) fail|]. intros _.
  apply triple_first; [walk ltac:(fds_side) fail|]. intros _.
  apply triple_first; [walk ltac:(fds_side) fail|]. intros _.
  apply triple_first; [walk ltac:(fds_side) fail|]. intros tls.
  apply (triple_bind _ _ _ (fun _ => fds)).
  - destruct tls.
    + unfold bufferevent_openssl_socket_new. apply triple_first; [walk fail fail|]. intros h.
      apply (triple_bind _ _ _ (fun _ => fds)); [|intros ok; plain].
      on_call. intros ok cn D HJ _. split; [right; apply HJ|]. cbn [effect].
      destruct ok; [by apply holding_gone|by apply (holding_fds fd)].
    + unfold bufferevent_socket_new. apply triple_first; [walk fail fail|]. intros h.
      apply (triple_bind _ _ _ (fun _ => fds)); [|intros ok; plain].
      on_call. intros ok cn D HJ _. split; [right; apply HJ|]. cbn [effect].
      destruct ok; [by apply holding_gone|by apply (holding_fds fd)].
  - intros b. plain.
Qed.
End Handlers.

(** ** Callbacks *)

(** The callbacks that use [upload_fd]. *)
Definition on_upload (cb : data_callback_t) : bool :=
  match cb with on_stor_read | on_eof_event_cb | stor_tls_on_bev_event_connected => true | _ => false end.

Definition callback_fields : list (connection_t -> option data_callback_t) :=
  [control_write_cb; data_read_cb; data_write_cb; data_tls_event_connected_cb; data_eof_event_cb].

(** They are set during an upload only. *)
Lemma on_upload_uploading field cb c :
  field ∈ callback_fields -> callbacks_ok c -> field c = Some cb -> on_upload cb = true -> uploading c.
Proof.
  intros Hf (H1 & H2 & H3 & H4 & H5) Hcb Hup.
  repeat (apply elem_of_cons in Hf as [->|Hf]; [rewrite Hcb in *|]); [..|by apply not_elem_of_nil in Hf];
    destruct cb; try done; unfold uploading; auto; set_solver.
Qed.

Section Session.
Context {S : Type} `{Sys S}.
Variable srv : server_state_t.
Variable fuel : nat.
#[local] Set Default Proof Using "Type*".

Lemma run_callback_fds cb b :
  triple (S:=S) (fun c D => fds c D /\ (on_upload cb = true -> uploading c)) (run_callback fuel cb b)
    (fun _ => fds).
Proof.
  destruct (on_upload cb) eqn:Hup.
  - apply (triple_pre _ receiving); [by intros c D [? Hu]; split; auto|].
    destruct cb; try done; cbn [run_callback];
      [apply run_stor_tls_fds|apply run_on_stor_read_fds|apply run_on_eof_fds].
  - apply (triple_pre _ fds); [by intros c D [? _]|]. destruct cb; try done; cbn [run_callback].
    all: try apply run_send_next_chunk_fds.
    all: apply triple_keeps; walk_session ltac:(fds_side).
Qed.

Lemma run_field_fds field b :
  field ∈ callback_fields -> keeps (S:=S) (accounts fds) (run_field (run_callback fuel) field b).
Proof.
  intros Hfield. apply keeps_triple, triple_get. intros [cb|]; [|by apply triple_ret; intros c D [? _]].
  eapply triple_pre, run_callback_fds. intros c D [Hf Hcb]. split; [done|]. intros Hup.
  by eapply on_upload_uploading, Hup; [..|apply Hf|exact Hcb].
Qed.

Lemma dispatch_fds cmd : keeps (S:=S) (accounts fds) (dispatch srv fuel cmd).
Proof.
  unfold dispatch, command_actions; cbn [find_action];
  repeat (destruct (String.eqb _ _); [apply keeps_run_command_cb;
    walk_session_with ltac:(fds_side)
      ltac:(apply keeps_triple; first [apply ftp_send_file_plain_fds | apply ftp_send_file_tls_fds
              | apply cftp_recv_file_fds])|]);
  walk_session ltac:(fds_side).
Qed.
(** The descriptor an event brings. *)
Definition brought (e : session_event) : list happening :=
  match e with DataAccept _ _ fd _ => [Given fd] | _ => [] end.

Lemma control_write_fds b : keeps (S:=S) (accounts fds) (on_write (run_callback fuel) b).
Proof.
  destruct b as [h|]; [|apply keeps_ret]. apply keeps_triple.
  change (on_write (run_callback fuel) (Some h)) with
    (run_field (run_callback fuel) control_write_cb (Some h);; put (S:=S) (set_control_write_cb None)).
  apply triple_first; [apply run_field_fds; by left|]. intros _. plain.
Qed.

Lemma data_event_fds b events :
  keeps (S:=S) (accounts fds) (data_connection_event_cb (run_callback fuel) fuel b events).
Proof.
  unfold data_connection_event_cb.
  walk_session_with ltac:(fds_side) ltac:(apply run_field_fds; unfold callback_fields; in_list).
Qed.

Lemma quiet_event_fds e : brought e = [] -> keeps (S:=S) (accounts fds) (handle_event srv fuel e).
Proof.
  destruct e; cbn [brought handle_event]; intros He; try discriminate He;
    walk_session_with ltac:(fds_side)
      ltac:(first [apply dispatch_fds | apply control_write_fds | apply data_event_fds
                  | apply run_field_fds; unfold callback_fields; in_list]).
Qed.

Lemma handle_event_fds e (w w' : world S) :
  handle_event srv fuel e w = Ok (tt, w') ->
  exists l, trace w' = trace w ++ l /\
    forall D, fds (conn w) D -> fresh D (brought e ++ map Made l) ->
      proper D (brought e ++ map Made l) /\ fds (conn w') (balance D (brought e ++ map Made l)).
Proof.
  intros E. destruct (brought e) as [|x b] eqn:Hb; [exact (quiet_event_fds e Hb w tt w' E)|].
  destruct e as [| | |h stack fd addr| | | | |]; try discriminate Hb. injection Hb as <- <-.
  destruct (data_connection_accept_fds stack h fd addr w tt w' E) as (l & Ht & Hl).
  exists l. split; [done|]. intros D HD [[Hpos Hni] Hf].
  destruct (Hl ({[fd]} ∪ D)) as [Hp Hk]; [by apply fds_fresh|done|]. split; [split; [exact I|exact Hp]|exact Hk].
Qed.

(** The record before anything was transferred. *)
Definition blank (c : connection_t) : Prop := ~ uploading c /\ data_stream c = None /\ callbacks_ok c.

Lemma blank_fds c D : blank c -> fds c D.
Proof. intros (Hu & Hs & Hc). split; try done; by rewrite Hs. Qed.

Lemma blank_zero : blank zero_connection.
Proof.
  split_and!; [by intros [?|[?|?]]|done|]. unfold callbacks_ok. cbn. split_and!; in_list.
Qed.

(** The record is blank and the descriptors of the list belong to the
    program, all different. *)
Definition owned (l : list Z) (c : connection_t) (D : gset Z) : Prop :=
  blank c /\ NoDup l /\ Forall (fun x => x ∈ D) l.

Lemma owned_less x l c D : owned (x :: l) c D -> owned l c (D ∖ {[x]}).
Proof.
  intros (Hb & [Hx Hl]%NoDup_cons & [_ Hin]%Forall_cons). split_and!; [done..|].
  rewrite Forall_forall in *. intros y Hy. apply elem_of_difference. split; [auto|]. set_solver.
Qed.

Lemma owned_rest x l c D : owned (x :: l) c D -> owned l c D.
Proof. by intros (Hb & [Hx Hl]%NoDup_cons & [_ Hin]%Forall_cons). Qed.

Lemma owned_head x l c D : owned (x :: l) c D -> x ∈ D.
Proof. by intros (_ & _ & [? _]%Forall_cons). Qed.

Lemma close_owned x l : triple (S:=S) (owned (x :: l)) (do_call (CClose x)) (fun _ => owned l).
Proof. on_call. intros r cn D HJ _. split; [right; by eapply owned_head|by apply owned_less]. Qed.

Lemma socket_owned k x l : triple (S:=S) (owned (x :: l)) (bufferevent_socket_new k x) (fun _ => owned l).
Proof.
  unfold bufferevent_socket_new. apply triple_first; [walk fail fail|]. intros h.
  apply (triple_bind _ _ _ (fun _ => owned l)); [|intros ok; plain].
  on_call. intros ok cn D HJ _. split; [right; by eapply owned_head|].
  cbn [effect]. destruct ok; [by apply owned_less|by eapply owned_rest].
Qed.

(** What the set-up does to the record keeps it blank. *)
Ltac owned_side :=
  first [ exact I
        | fds_call
        | let c := fresh in let D := fresh in let Hb := fresh in
          intros c D [Hb ?]; split; [exact Hb|assumption] ].

Lemma loop_fds fd pipe :
  triple (S:=S) (owned [fd; pipe]) (start_control_connection_loop srv fd pipe) (fun _ => fds).
Proof.
  set (K := fun c D => fds c D /\ pipe ∈ D).
  assert (forall b, calm_put K (set_bev b)) as H3 by (intros b c D [[] ?]; by split; [split|]).
  assert (forall b, calm_put K (set_timeout_event b)) as H4 by (intros b c D [[] ?]; by split; [split|]).
  unfold start_control_connection_loop. apply triple_first; [walk ltac:(owned_side) fail|]. intros _.
  eapply triple_bind; [apply socket_owned|]. intros b.
  apply (triple_pre _ K).
  { intros c D HJ. split; [by apply blank_fds, HJ|by eapply owned_head]. }
  apply (triple_post _ _ _ (fun _ => K)); [by intros _ c D [? _]|]. apply triple_keeps.
  walk ltac:(first [apply H3 | apply H4 | intros r c D [? ?] _; split; [by right|by split] | fds_call | exact I]) fail.
Qed.

Lemma child_fds_kept fd addr cf :
  triple (S:=S) (owned [pipe_write cf; rpc_parent cf; rpc_child cf; fd; pipe_read cf])
    (child_side srv fd addr cf) (fun _ => fds).
Proof.
  unfold child_side. eapply triple_bind; [apply close_owned|]. cbv beta. intros _.
  apply triple_first; [walk ltac:(owned_side) fail|]. intros _.
  apply triple_first; [walk ltac:(owned_side) fail|]. intros allocated.
  match goal with |- triple _ (if negb ?x then _ else _) _ => destruct x end; [|apply triple_undefined].
  cbn [negb].
  do 2 (apply triple_first; [walk ltac:(owned_side) fail|]; intros _).
  eapply triple_bind; [apply close_owned|]. cbv beta. intros _.
  eapply (triple_bind _ _ _ (fun _ => owned [fd; pipe_read cf])); [|intros _; apply loop_fds].
  unfold register_interprocess_fd_on_child. eapply triple_bind; [apply socket_owned|]. intros b.
  apply triple_keeps. walk ltac:(owned_side) fail.
Qed.

(** What the process starts with: the client's socket and both ends of the
    two pairs. *)
Definition at_fork (fd : Z) (cf : child_fds) : list happening :=
  [Given fd; Given (pipe_read cf); Given (pipe_write cf); Given (rpc_parent cf); Given (rpc_child cf)].

Lemma start_fds fd addr cf s0 (w : world S) :
  child_side srv fd addr cf (initial_world s0) = Ok (true, w) ->
  let h := at_fork fd cf ++ map Made (trace w) in
  fresh ∅ h -> proper ∅ h /\ fds (conn w) (balance ∅ h).
Proof.
  intros E h. destruct (child_fds_kept fd addr cf _ true w E) as (l & Ht & Hl).
  unfold initial_world in Ht. cbn [trace app] in Ht. subst l. intros ([_ N1] & [_ N2] & [_ N3] & [_ N4] & [_ N5] & Hf). cbn [effect] in *.
  destruct (Hl ({[rpc_child cf]} ∪ ({[rpc_parent cf]} ∪ ({[pipe_write cf]} ∪
    ({[pipe_read cf]} ∪ ({[fd]} ∪ ∅)))))) as [Hp Hk]; [|exact Hf|].
  - split_and!; [apply blank_zero| |rewrite !Forall_cons, Forall_nil; set_solver].
    rewrite !NoDup_cons, !elem_of_cons, elem_of_nil. split_and!; try apply NoDup_nil; set_solver.
  - split; [exact (conj I (conj I (conj I (conj I (conj I Hp)))))|exact Hk].
Qed.

(** ** The history of a session *)

(** The descriptors given to the session and the calls it made, in order, from
    a set-up that reached the event loop. *)
Inductive history (fd : Z) (addr : sockaddr) (cf : child_fds) (s0 : S) : world S -> list happening -> Prop :=
  | history_start w :
      child_side srv fd addr cf (initial_world s0) = Ok (true, w) ->
      history fd addr cf s0 w (at_fork fd cf ++ map Made (trace w))
  | history_event w h e w' l :
      history fd addr cf s0 w h -> enabled w e = true -> handle_event srv fuel e w = Ok (tt, w') ->
      trace w' = trace w ++ l ->
      history fd addr cf s0 w' (h ++ brought e ++ map Made l)
  | history_environment w h s' :
      history fd addr cf s0 w h ->
      history fd addr cf s0 (World (conn w) s' (handles w) (trace w)) h.

(** Every session whose set-up ran to its end has one; the other sessions are
    those in which the child went on as the parent does. *)
Lemma session_has_history fd addr cf s0 w :
  session srv fuel fd addr cf s0 w ->
  (exists h, history fd addr cf s0 w h) \/
  exists w0, child_side srv fd addr cf (initial_world s0) = Ok (false, w0).
Proof.
  induction 1 as [w Hs|w e w' _ IH He E|w s' _ IH].
  - apply act_bind_Ok in Hs as ([|] & w1 & E1 & E2); [|by right; exists w1].
    apply ret_Ok in E2 as [_ ->]. left. eexists. by apply history_start.
  - destruct IH as [[h Hh]|?]; [|by right]. left.
    destruct (handle_event_fds e w w' E) as (l & Ht & _). eexists. by eapply history_event.
  - destruct IH as [[h Hh]|?]; [|by right]. left. exists h. by apply history_environment.
Qed.

Lemma history_fds fd addr cf s0 w h :
  history fd addr cf s0 w h -> fresh ∅ h -> proper ∅ h /\ fds (conn w) (balance ∅ h).
Proof.
  induction 1 as [w Hs|w h e w' l _ IH _ E Ht|w h s' _ IH]; [by eapply start_fds| |done].
  intros [Hf1 Hf2]%always_one_app.
  destruct (IH Hf1) as [Hp Hk]. destruct (handle_event_fds e w w' E) as (l' & Ht' & Hl).
  rewrite Ht in Ht'. apply app_inv_head in Ht' as <-.
  destruct (Hl _ Hk Hf2) as [Hp2 Hk2]. split; [by apply always_one_app|by rewrite balance_app].
Qed.
End Session.

(** ** Histories that can be computed *)

#[export] Instance fresh_one_dec x D : Decision (fresh_one x D).
Proof. destruct x as [n|[c r]]; [apply _|destruct c; cbn [fresh_one]; apply _]. Defined.

#[export] Instance always_one_dec P D l `{!forall x D, Decision (P x D)} : Decision (always_one P D l).
Proof.
  revert D. induction l as [|x l IH]; intros D; cbn [always_one]; [apply _|].
  pose proof (IH (effect x D)). apply _.
Defined.

#[export] Instance fresh_dec D l : Decision (fresh D l).
Proof. unfold fresh. apply _. Defined.

#[export] Instance proper_one_dec x D : Decision (proper_one x D).
Proof. destruct x as [n|[c r]]; cbn [proper_one]; [apply _|]. destruct (used c); apply _. Defined.

#[export] Instance proper_dec D l : Decision (proper D l).
Proof. unfold proper. apply _. Defined.

Section Play.
Context {S : Type} `{Sys S}.
Variable srv : server_state_t.
Variable fuel : nat.

Fixpoint play_history (l : list (stimulus (S:=S))) (w : world S) (h : list happening)
  : outcome (world S * list happening) :=
  match l with
  | [] => Ok (w, h)
  | Callback e :: l' =>
      if enabled w e then
        '(_, w') ← handle_event srv fuel e w;
        play_history l' w' (h ++ brought e ++ map Made (drop (List.length (trace w)) (trace w')))
      else Hang
  | Environment f :: l' => play_history l' (World (conn w) (f (sys w)) (handles w) (trace w)) h
  end.

Lemma play_history_ok fd addr cf s0 l : forall w h w' h',
  history srv fuel fd addr cf s0 w h -> play_history l w h = Ok (w', h') ->
  history srv fuel fd addr cf s0 w' h'.
Proof.
  induction l as [|[e|f] l IH]; intros w h w' h' Hw E; cbn [play_history] in E.
  - by injection E as <- <-.
  - destruct (enabled w e) eqn:He; [|done]. apply bind_Ok in E as ([[] w1] & E1 & E2).
    eapply IH; [|exact E2]. eapply history_event; [done..|].
    destruct (handle_event_fds srv fuel e w w1 E1) as (l1 & Ht & _).
    rewrite Ht. by rewrite drop_app_length.
  - eapply IH; [|exact E]. by apply history_environment.
Qed.

Definition session_history (fd : Z) (addr : sockaddr) (cf : child_fds) (s0 : S)
    (l : list (stimulus (S:=S))) : outcome (world S * list happening) :=
  '(started, w) ← child_side srv fd addr cf (initial_world s0);
  if started : bool then play_history l w (at_fork fd cf ++ map Made (trace w)) else Hang.

Lemma session_history_ok fd addr cf s0 l w h :
  session_history fd addr cf s0 l = Ok (w, h) -> history srv fuel fd addr cf s0 w h.
Proof.
  intros ([[|] w0] & E1 & E2)%bind_Ok; [|done]. eapply play_history_ok; [|exact E2]. by apply history_start.
Qed.
End Play.

Definition closes (fd : Z) (x : happening) : bool :=
  match x with Made (Did (CClose n) _) => n =? fd | _ => false end.

(** An upload, then a protected download, on two data connections. *)
Definition transfers_scenario : list (stimulus (S:=small)) :=
  login_scenario "alice" "secret" ++ sends "PASV" ++
    [Callback (DataAccept 5 EmptyString 7 (SockInet 0x7f000001))] ++ sends "STOR new.txt" ++
    [Environment (set_input 7 "hello"); Callback (DataRead 7);
     Environment (set_input 7 " world"); Callback (DataEvent 7 BEV_EVENT_EOF); Callback ControlWritten] ++
  sends "PROT P" ++ sends "EPSV" ++
    [Callback (DataAccept 8 EmptyString 8 (SockInet 0x7f000001));
     Callback (DataEvent 10 BEV_EVENT_CONNECTED)] ++ sends "RETR notes.txt" ++
    [Callback (DataWritten 10); Callback (DataWritten 10); Callback (DataWritten 10)].

(** Properly used does not mean given back: when the data connection of a STOR
    ends with an error, the file stays open and nothing refers to it any more. *)
Definition interrupted_scenario : list (stimulus (S:=small)) :=
  login_scenario "alice" "secret" ++ sends "PASV" ++
    [Callback (DataAccept 5 EmptyString 7 (SockInet 0x7f000001))] ++ sends "STOR new.txt" ++
    [Environment (set_input 7 "hello"); Callback (DataRead 7); Callback (DataEvent 7 BEV_EVENT_ERROR)].

Lemma upload_descriptor_lost :
  match session_history sample_server 10 5 (SockInet 0x7f000001) sample_fds sample_small interrupted_scenario with
  | Ok (w, h) =>
      bool_decide (100 ∈ balance ∅ h) && (upload_fd (conn w) =? -1) &&
      bool_decide (data_stream (conn w) = None) = true
  | _ => False
  end.
Proof. vm_compute. reflexivity. Qed.

(** A set-up that fails is not among the histories, and does misuse
    descriptors: when libevent takes the child's end of the socket pair but not
    the control socket, the child goes on as the parent does, closes
    [rpc_fd[1]], which libevent holds by then, and registers [rpc_fd[0]],
    which it closed before. *)
Definition one_socket_sys : Sys small := fun c s =>
  match c as c return reply c * small with
  | CBevSocketNew h _ => (Nat.eqb h 1, s)
  | c => small_sys c s
  end.

Lemma failed_start_misuses_descriptors :
  match @start_session _ one_socket_sys sample_server 5 (SockInet 0x7f000001) sample_fds
      (initial_world sample_small) with
  | Ok (_, w) =>
      let h := at_fork 5 sample_fds ++ map Made (trace w) in
      bool_decide (fresh ∅ h) && negb (bool_decide (proper ∅ h)) &&
      existsb (closes (rpc_child sample_fds)) h = true
  | _ => False
  end.
Proof. vm_compute. reflexivity. Qed.

(** ** Properties *)

(** C9: over a whole session whose set-up reached the event loop, every
    descriptor a call is given belongs to the program at that point or is the
    -1 the kernel refuses: files opened by RETR and STOR, accepted data
    sockets, the control socket, and both ends of the socket pair and of the
    pipe made before the fork, each until it is closed or handed to libevent.
    In particular none is closed twice unless it was given again in between,
    whatever the order of the commands, the transfers and the ends of
    connections, as long as the kernel gives out descriptors that are not in
    use.  Not counted as uses are getsockname and getsockopt, which ask about
    sockets libevent holds.  A set-up that fails is left out: there the child
    goes on as the parent and does misuse descriptors. *)
Theorem descriptors_used_properly {S} `{Sys S} srv fuel fd addr cf s0 (w : world S) h :
  history srv fuel fd addr cf s0 w h -> fresh ∅ h ->
  proper ∅ h /\
  forall l1 l2 l3 n,
    h = l1 ++ Made (Did (CClose n) tt) :: l2 ++ Made (Did (CClose n) tt) :: l3 -> 0 <= n ->
    exists x, x ∈ l2 /\ gives x n.
Proof.
  intros Hh Hf. destruct (history_fds _ _ _ _ _ _ _ _ Hh Hf) as [Hp _]. split; [done|].
  intros l1 l2 l3 n -> Hn. by eapply closed_twice.
Qed.

(** The upload's descriptor is used for each piece, synchronised and closed. *)
Example descriptors_used_properly_witness :
  match session_history sample_server 10 5 (SockInet 0x7f000001) sample_fds sample_small transfers_scenario with
  | Ok (_, h) => proper ∅ h /\ existsb (closes 100) h = true
  | _ => False
  end.
Proof.
  assert (match session_history sample_server 10 5 (SockInet 0x7f000001) sample_fds sample_small
      transfers_scenario with
    | Ok (_, h) => bool_decide (fresh ∅ h) && existsb (closes 100) h
    | _ => false end = true) as Hb by (vm_compute; reflexivity).
  destruct (session_history sample_server 10 5 (SockInet 0x7f000001) sample_fds sample_small
    transfers_scenario) as [[w h]| |] eqn:E; [|discriminate Hb..].
  apply andb_true_iff in Hb as [Hf Hc]. apply bool_decide_eq_true in Hf. split; [|exact Hc].
  apply (descriptors_used_properly sample_server 10 5 (SockInet 0x7f000001) sample_fds sample_small w h);
    [by eapply session_history_ok|exact Hf].
Defined.
