(* ===== verification/Progress.v ===== *)
(** * What a session can be led to (src/engine/control_handler.c,
      src/actions/command_actions.c, src/engine/data_handler.c)

    A client with an account can log in from every reachable state; the timer
    of an earlier passive command closes the listener of a later one. *)

From S2P Require Import Prelude CString StringTable CommandParser Config Connection System.
From S2P Require Import Control.
From S2P Require Import ServerState DataHandler Security Auth Ipc Calendar Dele Listing Retr.
From S2P Require Import Stor Actions Dispatch Session SmallSystem Scenario Safety.
From stdpp Require Import options.

Local Open Scope Z_scope.

(** ** A client and its account *)

(** [receives h line s]: the bytes of [line] have arrived on bufferevent [h]. *)
Class Client (S : Type) `{Sys S} := {
  receives : nat -> string -> S -> S;
  receives_line : forall h line n s,
    strlen line <= n -> fst (sys_step (CBevRemove h n) (receives h line s)) = line;
}.

(** The four calls that confine the process succeed one after the other,
    each in the state the one before it leaves: nothing is asked of the state
    after [setuid]. *)
Definition may_confine {S} `{Sys S} (entry : passwd) (s : S) : Prop :=
  let s1 := snd (sys_step (CChroot (pw_dir entry)) s) in
  let s2 := snd (sys_step (CChdir "/") s1) in
  let s3 := snd (sys_step (CSetgid (pw_gid entry)) s2) in
  fst (sys_step (CChroot (pw_dir entry)) s) = 0 /\ fst (sys_step (CChdir "/") s1) = 0 /\
  fst (sys_step (CSetgid (pw_gid entry)) s2) = 0 /\ fst (sys_step (CSetuid (pw_uid entry)) s3) = 0.

(** The databases have the user, [crypt] of the password is the stored hash,
    and the process may confine itself to the user. *)
Record login_answers {S} `{Sys S} (name password hash : string) (entry : passwd) (s : S) : Prop := {
  ans_passwd : fst (sys_step (CGetpwnam name) s) = Some entry;
  ans_shadow : fst (sys_step (CGetspnam name) s) = Some hash;
  ans_crypt : fst (sys_step (CCrypt password hash) s) = Some hash;
  ans_confine : may_confine entry s;
}.

(** The look-ups and the traffic on the control connection, which a login
    makes before it confines the process. *)
Definition looks_up (c : call) : bool :=
  match c with
  | CGetpwnam _ | CGetspnam _ | CCrypt _ _ | CBevRemove _ _ | CBevWrite _ _ => true
  | _ => false
  end.

(** States of the system with the account; a look-up, a reply or a line from
    the client does not remove it. *)
Class Account (S : Type) `{Client S} (name password hash : string) (entry : passwd) := {
  has_account : S -> Prop;
  account_answers : forall s, has_account s -> login_answers name password hash entry s;
  account_step : forall c s,
    looks_up c = true -> has_account s -> has_account (snd (sys_step c s));
  account_receives : forall h line s, has_account s -> has_account (receives h line s);
}.

(** A word that fits in one line, as the client sends it. *)
Definition login_word (limit : Z) (w : string) : Prop :=
  w <> EmptyString /\ all_chars plain_char w = true /\ no_nul w = true /\ strlen w < limit.

Definition client_line (word arg : string) : string := word +:+ (" " +:+ (arg +:+ crlf)).

Lemma parse_client_line word arg :
  word <> EmptyString -> all_chars (fun c => negb (isspace c)) word = true -> no_nul word = true ->
  strlen word < 20 -> login_word 1000 arg ->
  strlen (client_line word arg) <= Z.of_nat INPUT_LEN - 1 /\
  parse_text_command always (c_str (client_line word arg)) =
    Command (map_string toupper word) [arg] 1.
Proof.
  intros Hne Hw Hnul Hlen (Ha & Hp & Han & Hal). unfold client_line. split.
  - unfold strlen, INPUT_LEN in *. string_lengths. simpl. lia.
  - rewrite c_str_no_nul by (rewrite !no_nul_app, Hnul, Han; done).
    apply parse_one_arg; [done|done|unfold MAX_ARG_LEN; lia|done| |done].
    split_and!; [done|done|unfold MAX_ARG_LEN; lia].
Qed.

Section Login.
Context {S : Type} `{Client S}.
Variable srv : server_state_t.
Variable fuel : nat.

(** A line that arrives is parsed and dispatched. *)
Definition arrived (h : nat) (line : string) (w : world S) : world S :=
  World (conn w) (receives h line (sys w)) (handles w) (trace w).

Lemma on_read_line h line (w : world S) :
  live (handles w) !! h = Some KControlBev -> strlen line <= Z.of_nat INPUT_LEN - 1 ->
  on_read srv fuel (Some h) (arrived h line w) =
  dispatch srv fuel (parse_text_command always (c_str line))
    (called (CBevRemove h (Z.of_nat INPUT_LEN - 1)) (arrived h line w)) /\
  trace (called (CBevRemove h (Z.of_nat INPUT_LEN - 1)) (arrived h line w)) =
    trace w ++ [Did (CBevRemove h (Z.of_nat INPUT_LEN - 1)) line].
Proof.
  intros Hl Hlen. unfold on_read, evbuffer_remove, called. cbn [conn sys handles trace arrived].
  rewrite (receives_line h line _ (sys w) Hlen). split; [|done].
  erewrite act_bind_run; [done|]. erewrite act_bind_run; [|by eapply use_live].
  rewrite do_call_called. unfold called. cbn [conn sys handles trace arrived].
  by rewrite (receives_line h line _ (sys w) Hlen).
Qed.

Lemma play_line h line l (w w' : world S) :
  stopped w = false -> bev (conn w) = Some h ->
  on_read srv fuel (Some h) (arrived h line w) = Ok (tt, w') ->
  play srv fuel (Environment (receives h line) :: Callback ControlRead :: l) w = play srv fuel l w'.
Proof.
  intros Hs Hb E. cbn [play]. fold (arrived h line w).
  assert (handle_event srv fuel ControlRead (arrived h line w) = Ok (tt, w')) as ->.
  { cbn [handle_event]. erewrite act_bind_run; [|done].
    change (conn (arrived h line w)) with (conn w). by rewrite Hb. }
  unfold enabled. change (stopped (arrived h line w)) with (stopped w).
  change (conn (arrived h line w)) with (conn w). by rewrite Hs, Hb.
Qed.

Lemma trace_called c (w : world S) (r : reply c) :
  fst (sys_step c (sys w)) = r -> trace (called c w) = trace w ++ [Did c r].
Proof. by intros <-. Qed.

Lemma trace_called_write h line (w : world S) :
  trace (called (CBevWrite h line) w) = trace w ++ [Did (CBevWrite h line) tt].
Proof. unfold called. cbn [trace]. by destruct (fst (sys_step (CBevWrite h line) (sys w))). Qed.

Lemma send_called status text h (w : world S) :
  bev (conn w) = Some h -> live (handles w) !! h = Some KControlBev ->
  send_control_message status text w = Ok (tt, called (CBevWrite h (control_line status text)) w).
Proof.
  intros Hb Hl. unfold send_control_message. erewrite act_bind_run; [|done]. rewrite Hb.
  unfold bufferevent_write. erewrite act_bind_run; [|by eapply use_live].
  rewrite do_call_called. by destruct (fst (sys_step (CBevWrite h (control_line status text)) (sys w))).
Qed.
End Login.

Section Steps.
Context {S : Type} `{Account S name password hash entry}.
Variable srv : server_state_t.
Variable fuel : nat.
#[local] Set Default Proof Using "Type*".

(** A state with the account, and a control connection [h]. *)
Definition ready (h : nat) (w : world S) : Prop :=
  has_account (sys w) /\ bev (conn w) = Some h /\ live (handles w) !! h = Some KControlBev.

Lemma ready_called c h w : looks_up c = true -> ready h w -> ready h (called c w).
Proof. intros Hc (Ha & Hb & Hl). split; [by apply account_step|]. by split. Qed.

Lemma ready_arrived h line w : ready h w -> ready h (arrived h line w).
Proof. intros (Ha & Hb & Hl). split; [by apply account_receives|]. by split. Qed.

Lemma user_step h (w : world S) :
  ready h w -> authenticated (conn w) = false -> starts_with_root name = false ->
  strlen name <= 256 ->
  exists w', dispatch srv fuel (Command "USER" [name] 1) w = Ok (tt, w') /\ ready h w' /\
    conn w' = set_username name (conn w) /\ handles w' = handles w /\
    trace w' = trace w ++ [Did (CGetpwnam name) (Some entry);
      Did (CBevWrite h (control_line FTP_STATUS_USER_NAME_OK "User name okay, need password")) tt].
Proof.
  intros Hw Ha Hroot Hlen. unfold dispatch, command_actions.
  cbn [find_action command String.eqb Ascii.eqb Bool.eqb]. unfold run_command_cb.
  erewrite act_bind_run; [|done]. rewrite Ha. cbn [non_authenticated_cb].
  unfold cftp_user_authenticated.
  change (not_one_argument (Command "USER" [name] 1)) with false. cbv beta iota.
  change (argument (Command "USER" [name] 1) 0) with (mret name : act S string).
  erewrite act_bind_run; [|done]. unfold user_exists. rewrite Hroot.
  pose proof (ans_passwd _ _ _ _ _ (account_answers _ (proj1 Hw))) as Hpw.
  set (w1 := called (CGetpwnam name) w). pose proof (ready_called (CGetpwnam name) h w eq_refl Hw) as Hr1.
  set (w2 := World (set_username name (conn w1)) (sys w1) (handles w1) (trace w1)).
  assert (ready h w2) as Hr2 by exact Hr1.
  erewrite act_bind_run; [|rewrite (call_bind (CGetpwnam name)), Hpw; erewrite act_bind_run;
    [done|unfold put; by rewrite strtake_all by (unfold strlen, USERNAME_LEN in *; lia)]].
  cbv beta iota. fold w1. fold w2. rewrite (send_called _ _ h) by apply Hr2. eexists. split; [done|].
  split; [by apply ready_called|]. split; [done|]. split; [done|].
  rewrite trace_called_write. subst w2 w1. cbn [called trace]. by rewrite Hpw, <- app_assoc.
Qed.

(** The password check and the confinement, with every answer as wanted. *)
Lemma authenticate_accepts h (w : world S) :
  ready h w ->
  exists w', authenticate_and_switch_user name password w = Ok (true, w') /\
    bev (conn w') = Some h /\ live (handles w') !! h = Some KControlBev /\
    (exists text, conn w' = set_error_buf text (conn w)) /\ handles w' = handles w /\
    trace w' = trace w ++ login_events name password hash entry.
Proof.
  intros Hw. unfold authenticate_and_switch_user.
  assert (forall w, ready h w -> login_answers name password hash entry (sys w)) as Hans
    by (intros v Hv; by apply account_answers, Hv).
  rewrite (call_bind (CGetpwnam name)), (ans_passwd _ _ _ _ _ (Hans w Hw)).
  pose proof (ready_called (CGetpwnam name) h w eq_refl Hw) as Hr1.
  rewrite (call_bind (CGetspnam name)), (ans_shadow _ _ _ _ _ (Hans _ Hr1)).
  pose proof (ready_called (CGetspnam name) h _ eq_refl Hr1) as Hr2.
  rewrite (call_bind (CCrypt password hash)), (ans_crypt _ _ _ _ _ (Hans _ Hr2)). cbn [nonnull].
  pose proof (ready_called (CCrypt password hash) h _ eq_refl Hr2) as Hr3.
  erewrite act_bind_run; [|done].
  unfold strcmp_eq. rewrite String.eqb_refl. cbn [negb].
  destruct (ans_confine _ _ _ _ _ (Hans _ Hr3)) as (Hk1 & Hk2 & Hk3 & Hk4). destruct Hr3 as (_ & Hb & Hl).
  set (v := called (CCrypt _ _) _) in *.
  rewrite (call_bind (CChroot (pw_dir entry))), Hk1. change (negb (0 =? 0)) with false. cbv beta iota.
  set (v1 := called (CChroot _) v).
  rewrite (call_bind (CChdir "/")). change (fst (sys_step (CChdir "/") (sys v1)) = 0) in Hk2. rewrite Hk2.
  change (negb (0 =? 0)) with false. cbv beta iota. set (v2 := called (CChdir _) v1).
  rewrite (call_bind (CSetgid (pw_gid entry))).
  change (fst (sys_step (CSetgid (pw_gid entry)) (sys v2)) = 0) in Hk3. rewrite Hk3.
  change (0 =? 0) with true. cbv beta iota. set (v3 := called (CSetgid _) v2).
  rewrite (call_bind (CSetuid (pw_uid entry))).
  change (fst (sys_step (CSetuid (pw_uid entry)) (sys v3)) = 0) in Hk4. rewrite Hk4.
  change (negb (0 =? 0)) with false. cbv beta iota.
  eexists. split; [done|]. split; [exact Hb|]. split; [exact Hl|]. split; [by eexists|]. split; [done|].
  subst v3 v2 v1 v. cbn [trace].
  rewrite (trace_called (CSetuid _) _ _ Hk4), (trace_called (CSetgid _) _ _ Hk3),
    (trace_called (CChdir _) _ _ Hk2), (trace_called (CChroot _) _ _ Hk1).
  rewrite (trace_called (CCrypt _ _) _ _ (ans_crypt _ _ _ _ _ (Hans _ Hr2))),
    (trace_called (CGetspnam _) _ _ (ans_shadow _ _ _ _ _ (Hans _ Hr1))),
    (trace_called (CGetpwnam _) _ _ (ans_passwd _ _ _ _ _ (Hans w Hw))).
  by rewrite <- !app_assoc.
Qed.

Lemma drop_timer_run t k (w : world S) :
  live (handles w) !! t = Some k -> is_event k = true ->
  exists w', (evtimer_del (Some t);; event_free (Some t)) w = Ok (tt, w') /\ conn w' = conn w /\
    trace w' = trace w ++ [Did (CTimerDel t) tt; Did (CEventFree t) tt].
Proof.
  intros Hl Hk. unfold evtimer_del, event_free.
  destruct (sys_step (CTimerDel t) (sys w)) as [[] s1] eqn:E1.
  erewrite act_bind_run; [|erewrite act_bind_run; [|by eapply use_live];
    exact (do_call_run (CTimerDel t) w _ _ E1)].
  set (w1 := World _ _ _ _). erewrite act_bind_run; [|by eapply (use_live w1)].
  destruct (sys_step (CEventFree t) (sys w1)) as [[] s2] eqn:E2.
  erewrite act_bind_run; [|exact (do_call_run (CEventFree t) w1 _ _ E2)].
  eexists. split; [done|]. split; [done|]. cbn [trace w1]. by rewrite <- app_assoc.
Qed.

Lemma pass_step h (w : world S) :
  ready h w -> authenticated (conn w) = false -> username (conn w) = name ->
  timer_live (conn w) (handles w) ->
  exists t w', dispatch srv fuel (Command "PASS" [password] 1) w = Ok (tt, w') /\
    timeout_event (conn w) = Some t /\
    authenticated (conn w') = true /\ username (conn w') = name /\
    trace w' = trace w ++ login_events name password hash entry ++
      [Did (CBevWrite h (control_line FTP_STATUS_USER_LOGGED_IN "User logged in")) tt;
       Did (CTimerDel t) tt; Did (CEventFree t) tt].
Proof.
  intros Hw Ha Hu (t & k & Ht & Hlt & Hk). unfold dispatch, command_actions.
  cbn [find_action command String.eqb Ascii.eqb Bool.eqb]. unfold run_command_cb.
  erewrite act_bind_run; [|done]. rewrite Ha. cbn [non_authenticated_cb].
  unfold cftp_pass_authenticated.
  change (not_one_argument (Command "PASS" [password] 1)) with false. cbv beta iota.
  change (argument (Command "PASS" [password] 1) 0) with (mret password : act S string).
  do 2 (erewrite act_bind_run; [|done]). rewrite Hu.
  destruct (authenticate_accepts h w Hw) as (w1 & E1 & Hb1 & Hl1 & (text & Hc1) & Hh1 & Ht1).
  erewrite act_bind_run; [|exact E1]. cbv beta iota.
  erewrite act_bind_run; [|rewrite (send_called _ _ h) by done; done].
  erewrite act_bind_run; [|done]. erewrite act_bind_run; [|done].
  cbn [called conn handles]. rewrite Hc1. fields. rewrite Ht.
  match goal with |- context [(evtimer_del _ ≫= _) ?v] =>
    destruct (drop_timer_run t k v) as (w' & E & Hc & Htr); [by cbn [handles]; rewrite Hh1|done|] end.
  exists t, w'. split; [exact E|]. split; [done|]. rewrite Hc. cbn [conn]. rewrite ?Hc1. fields.
  split; [done|]. split; [done|]. rewrite Htr. cbn [trace].
  rewrite trace_called_write, Ht1, <- !app_assoc. done.
Qed.
End Steps.

(** A timer that can still fire and that the record has forgotten. *)
Definition stale_timer {S} (t : nat) (w : world S) : Prop :=
  timeout_event (conn w) <> Some t /\ enabled w (TimerFired t) = true.

(** ** Properties *)

(** C5: from every state a session can reach before a login, whatever was
    sent and answered until then, a client with an account can log in: the
    two lines USER and PASS are enough, the replies are 331 and 230, the
    calls in between are exactly the login sequence, and the login timer is
    stopped.  Each line arrives in one piece on an empty input buffer.  The
    system is one on which libevent's constructors, calloc and crypt do not
    fail, file times can be converted and a directory just opened can be opened
    again ([Reliable]).  The account means that the databases have the user and
    the hash, and that chroot, chdir, setgid and setuid succeed one after the
    other from the state of the system; look-ups and traffic on the control
    connection do not change that, and nothing is required of these calls once
    setuid has been made. *)
Theorem login_possible {S} `{Reliable S} `{!Client S} {name password hash entry}
    `{!Account S name password hash entry} srv fuel fd addr fds s0 w h :
  session srv fuel fd addr fds s0 w -> enabled w ControlRead = true -> bev (conn w) = Some h ->
  authenticated (conn w) = false -> has_account (sys w) ->
  starts_with_root name = false -> strlen name <= 256 ->
  login_word 1000 name -> login_word 1000 password ->
  exists t w',
    play srv fuel
      [Environment (receives h (client_line "USER" name)); Callback ControlRead;
       Environment (receives h (client_line "PASS" password)); Callback ControlRead] w = Ok w' /\
    timeout_event (conn w) = Some t /\
    authenticated (conn w') = true /\ username (conn w') = name /\
    trace w' = trace w ++
      [Did (CBevRemove h (Z.of_nat INPUT_LEN - 1)) (client_line "USER" name);
       Did (CGetpwnam name) (Some entry);
       Did (CBevWrite h (control_line FTP_STATUS_USER_NAME_OK "User name okay, need password")) tt;
       Did (CBevRemove h (Z.of_nat INPUT_LEN - 1)) (client_line "PASS" password)] ++
      login_events name password hash entry ++
      [Did (CBevWrite h (control_line FTP_STATUS_USER_LOGGED_IN "User logged in")) tt;
       Did (CTimerDel t) tt; Did (CEventFree t) tt].
Proof.
  intros Hs He Hb Ha Hacc Hroot Hlen Hname Hpass.
  destruct (session_done_or_inv _ _ _ _ _ _ _ Hs) as [Hi|Hd]; [|by unfold enabled in He; rewrite Hd in He].
  pose proof (i_bev _ _ Hi h Hb) as Hl. destruct (i_auth _ _ Hi Ha) as [_ Htimer%login_timer_live].
  assert (ready h w) as Hr by by split_and!.
  destruct (parse_client_line "USER" name) as [Hlu Hpu]; [done..|].
  destruct (parse_client_line "PASS" password) as [Hlp Hpp]; [done..|].
  destruct (on_read_line srv fuel h (client_line "USER" name) w Hl Hlu) as [E1 T1].
  set (w1 := called _ _) in E1, T1.
  assert (ready h w1) as Hr1 by (by apply ready_called; [|apply ready_arrived]).
  rewrite Hpu in E1. destruct (user_step srv fuel h w1) as (w2 & E2 & Hr2 & Hc2 & Hh2 & T2); [done..|].
  destruct (on_read_line srv fuel h (client_line "PASS" password) w2 (proj2 (proj2 Hr2)) Hlp) as [E3 T3].
  set (w3 := called _ _) in E3, T3.
  assert (ready h w3) as Hr3 by (by apply ready_called; [|apply ready_arrived]).
  rewrite Hpp in E3.
  destruct (pass_step srv fuel h w3) as (t & w4 & E4 & Ht & Ha4 & Hu4 & T4); [done| | | |].
  { change (conn w3) with (conn w2). by rewrite Hc2. }
  { change (conn w3) with (conn w2). by rewrite Hc2. }
  { change (conn w3) with (conn w2). change (handles w3) with (handles w2). rewrite Hc2, Hh2. exact Htimer. }
  change (map_string toupper "USER") with "USER"%string in E1.
  change (map_string toupper "PASS") with "PASS"%string in E3.
  rewrite E2 in E1. rewrite E4 in E3. rewrite T1, <- app_assoc in T2. rewrite T2 in T3.
  assert (stopped w = false) as Hst by (unfold enabled in He; by destruct (stopped w)).
  exists t, w4. split; [|split].
  - rewrite (play_line srv fuel h _ _ w w2), (play_line srv fuel h _ _ w2 w4); try done; [|apply Hr2].
    unfold stopped in *. by rewrite T2, existsb_app, Hst.
  - change (conn w3) with (conn w2) in Ht. by rewrite Hc2 in Ht.
  - split; [done|]. split; [done|]. by rewrite T4, T3, <- !app_assoc.
Qed.

(** A system whose process has a user id: only the user id 0 may change its
    root, its group and its user, and [setuid] gives that up for good. *)
#[export] Instance kernel_sys : Sys (Z * small) := fun c s =>
  match c as c return reply c * (Z * small) with
  | CChroot _ | CSetgid _ => (if s.1 =? 0 then 0 else -1, s)
  | CSetuid uid => if s.1 =? 0 then (0, (uid, s.2)) else (-1, s)
  | CGetuid => (s.1, s)
  | c => let '(r, s') := small_sys c s.2 in (r, (s.1, s'))
  end.

#[export] Instance kernel_reliable : Reliable (Z * small).
Proof.
  constructor; [done..| |].
  - intros p [u s] st Hst. apply (rel_mtime (S:=small) p s st). rewrite <- Hst.
    unfold sys_step. cbn [kernel_sys]. by destruct (small_sys (CStat p) _).
  - intros p [u s] Hp. by split.
Qed.

#[export, refine] Instance kernel_client : Client (Z * small) := {
  receives h line s := (s.1, set_input h line s.2);
}.
Proof. intros h line n [u s] _. unfold sys_step. apply input_of_set. Defined.

Definition alice : passwd := Passwd "/home/alice" 1000 1000.

#[export, refine] Instance alice_account : Account (Z * small) "alice" "secret" "$secret" alice := {
  has_account s := s.1 = 0 /\ assoc "alice" (users s.2) = Some (alice, "$secret"%string);
}.
Proof.
  - intros [u s] [Hu Hs]. cbn [fst snd] in *. subst u.
    split; unfold may_confine, sys_step; cbn [kernel_sys small_sys fst snd]; by rewrite ?Hs.
  - intros c [u s] Hc [Hu Hs]. cbn [fst snd] in *. subst u.
    unfold sys_step. destruct c; try discriminate Hc; cbn [kernel_sys small_sys fst snd]; by split.
  - intros h line [u s] [Hu Hs]. by split.
Defined.

(** A client that was refused as root and then tries a command. *)
Definition refused_scenario : list (stimulus (S:=Z * small)) :=
  [Environment (receives 2 ("USER root" +:+ crlf)); Callback ControlRead;
   Environment (receives 2 ("LIST" +:+ crlf)); Callback ControlRead].

Definition refused_world : world (Z * small) :=
  match play_session sample_server 10 5 (SockInet 0x7f000001) sample_fds (0, sample_small)
      refused_scenario with
  | Ok w => w
  | _ => initial_world (0, sample_small)
  end.

Example login_possible_witness :
  exists w', play sample_server 10
      [Environment (receives 2 (client_line "USER" "alice")); Callback ControlRead;
       Environment (receives 2 (client_line "PASS" "secret")); Callback ControlRead]
      refused_world = Ok w' /\
    authenticated (conn w') = true /\ username (conn w') = "alice"%string.
Proof.
  destruct (login_possible (name:="alice") (password:="secret") (hash:="$secret") (entry:=alice)
    sample_server 10 5 (SockInet 0x7f000001) sample_fds (0, sample_small) refused_world 2)
    as (t & w' & Hw & _ & Ha & Hu & _).
  - apply (play_session_ok _ _ _ _ _ _ refused_scenario). vm_compute. reflexivity.
  - vm_compute. reflexivity.
  - vm_compute. reflexivity.
  - vm_compute. reflexivity.
  - split; vm_compute; reflexivity.
  - vm_compute. reflexivity.
  - vm_compute. discriminate.
  - split; [discriminate|]. repeat split; vm_compute; reflexivity.
  - split; [discriminate|]. repeat split; vm_compute; reflexivity.
  - exists w'. split; [exact Hw|]. split; [exact Ha|exact Hu].
Defined.

(** ** The timers of passive commands *)

(** Objects are created and none of the old ones is freed. *)
Definition grows {S} (w w' : world S) : Prop :=
  (next (handles w) <= next (handles w'))%nat /\
  forall h, (h < next (handles w))%nat -> live (handles w') !! h = live (handles w) !! h.

Lemma grows_trans {S} (w1 w2 w3 : world S) : grows w1 w2 -> grows w2 w3 -> grows w1 w3.
Proof. intros [N1 L1] [N2 L2]. split; [lia|]. intros h Hh. rewrite L2 by lia. by apply L1. Qed.

Lemma grows_refl {S} (w w' : world S) : handles w' = handles w -> grows w w'.
Proof. unfold grows. intros ->. by split. Qed.

Lemma allocate_grows {S} k ok (w : world S) r w' : allocate k ok w = Ok (r, w') -> grows w w'.
Proof.
  unfold allocate. destruct ok; intros [= <- <-]; [|by apply grows_refl].
  split; cbn [handles next live]; [lia|]. intros h Hh. apply lookup_insert_ne. lia.
Qed.

Lemma bind_loop_grows {S} `{Sys S} srv fuel ip : forall p (w : world S) q w',
  bind_loop srv fuel ip p w = Ok (q, w') -> grows w w'.
Proof.
  induction fuel as [|fuel IH]; intros p w q w' E; [done|]. cbn [bind_loop] in E.
  destruct (p <=? _); [|inv_act; by apply grows_refl].
  unfold evconnlistener_new_bind in E. apply act_bind_Ok in E as (u & w1 & E1 & E). inv_act.
  injection H2 as <- <-.
  apply allocate_grows in H0. assert (grows w x0) as Hg by exact H0. clear H0.
  destruct x; [inv_act; exact Hg|]. apply IH in E. eapply grows_trans; [exact Hg|exact E].
Qed.

Lemma send_grows {S} `{Sys S} status text (w : world S) u w' :
  send_control_message status text w = Ok (u, w') -> grows w w' /\ conn w' = conn w.
Proof.
  unfold send_control_message. intros E. apply act_bind_Ok in E as (b & w1 & [= <- <-] & E).
  destruct (bev (conn w)); [unfold bufferevent_write in E|]; inv_act; (split; [by apply grows_refl|done]).
Qed.

(** A passive command that opens a listener makes a new timer and frees at
    most the old listener. *)
Lemma listener_config_grows {S} `{Sys S} srv fuel extended (w w' : world S) l2 :
  data_connection_listener_config srv fuel extended w = Ok (tt, w') ->
  pasv_listener (conn w') = Some l2 ->
  (exists t2, timeout_event (conn w') = Some t2 /\ (next (handles w) <= t2)%nat) /\
  forall h, (h < next (handles w))%nat -> Some h <> pasv_listener (conn w) ->
    live (handles w') !! h = live (handles w) !! h.
Proof.
  intros E Hl. unfold data_connection_listener_config in E.
  apply act_bind_Ok in E as (l0 & w0 & [-> ->]%get_Ok & E).
  apply act_bind_Ok in E as ([] & w1 & E1 & E).
  assert (next (handles w1) = next (handles w) /\ pasv_listener (conn w1) = None /\
    forall h, Some h <> pasv_listener (conn w) ->
    live (handles w1) !! h = live (handles w) !! h) as (Hn1 & Hp1 & Hl1).
  { clear E. destruct (pasv_listener (conn w)) as [l|] eqn:Ep.
    2:{ apply ret_Ok in E1 as [_ ->]. by split_and!. }
    unfold evconnlistener_free, forget in E1. inv_act.
    injection H1 as <-. injection H0 as <- <-. cbn [conn handles next live]. fields.
    split; [done|]. split; [done|]. intros h Hh. apply lookup_delete_ne. congruence. }
  apply act_bind_Ok in E as (control & w2 & [-> ->]%get_Ok & E).
  apply act_bind_Ok in E as (answer & w3 & [s ->]%(do_call_Ok (CGetsockname _)) & E).
  destruct answer as [ip|]; [|apply send_grows in E as [_ Hc]; rewrite Hc in Hl; simpl in Hl; congruence].
  apply act_bind_Ok in E as (p & w4 & [Hn4 Hl4]%bind_loop_grows & E). cbn [handles] in Hn4, Hl4.
  apply act_bind_Ok in E as (l & w5 & [-> ->]%get_Ok & E).
  destruct (pasv_listener (conn w4)) as [l|] eqn:Ep;
    [|apply send_grows in E as [_ Hc]; rewrite Hc in Hl; congruence].
  apply act_bind_Ok in E as (t & w6 & Et & E). unfold evtimer_new in Et. inv_act.
  assert (conn x2 = set_timeout_event t (conn w6) /\ handles x2 = handles w6) as [Hc2 Hh2]
    by (unfold evtimer_add in H1; inv_act; done).
  destruct t as [t2|]; [|discriminate H1]. clear H1. injection H2 as <- <-.
  pose proof (allocate_grows _ _ _ _ _ Et) as [Hn6 Hl6]. cbn [handles next] in Hn6, Hl6.
  assert (grows x2 w' /\ conn w' = conn x2) as [[Hn2 Hgw] Hcw]
    by (destruct extended; by apply send_grows in E).
  rewrite Hh2 in Hgw, Hn2. split.
  - rewrite Hcw, Hc2. fields. unfold allocate in Et. destruct x5.
    + injection Et as <- _. eexists. split; [done|]. cbn [handles]. lia.
    + discriminate Et.
  - intros h Hh Hne. rewrite Hgw, Hl6, Hl4, Hl1 by (done || lia). done.
Qed.

(** C33: a passive command does not stop the timer of the one before it.  The
    old timer stays live and may fire, though the record has forgotten it,
    and when it does it closes the listener that was just announced to the
    client. *)
Theorem stale_timer_kills_listener {S} `{Reliable S} srv fuel fd addr fds s0 extended
    (w w' : world S) t1 l2 :
  session srv fuel fd addr fds s0 w -> stopped w = false -> authenticated (conn w) = true ->
  live (handles w) !! t1 = Some KAcceptTimer ->
  data_connection_listener_config srv fuel extended w = Ok (tt, w') ->
  stopped w' = false -> pasv_listener (conn w') = Some l2 ->
  stale_timer t1 w' /\
  exists w'', handle_event srv fuel (TimerFired t1) w' = Ok (tt, w'') /\
    live (handles w') !! l2 = Some KListener /\ live (handles w'') !! l2 = None /\
    pasv_listener (conn w'') = None.
Proof.
  intros Hs Hst Ha Ht E Hst' Hl.
  destruct (session_done_or_inv _ _ _ _ _ _ _ Hs) as [Hi|Hd]; [|congruence].
  pose proof (safe_listener_config srv fuel True extended w Hi Ha) as Hi'. rewrite E in Hi'. simpl in Hi'.
  destruct (listener_config_grows _ _ _ _ _ _ E Hl) as [(t2 & Ht2 & Hn) Hkeep].
  pose proof (i_fresh _ _ Hi _ _ Ht) as Hlt.
  pose proof (proj1 (i_listener _ _ Hi' l2) Hl) as Hll.
  assert (live (handles w') !! t1 = Some KAcceptTimer) as Ht'.
  { rewrite Hkeep; [done|done|]. intros Hp. symmetry in Hp.
    apply (i_listener _ _ Hi) in Hp. congruence. }
  split; [split; [rewrite Ht2; intros [= ->]; lia|unfold enabled; by rewrite Hst', Ht']|].
  cbn [handle_event].
  erewrite act_bind_run; [|unfold handle_kind; by rewrite Ht']. cbv beta iota.
  unfold kill_listener_on_timeout. erewrite act_bind_run; [|done]. rewrite Hl.
  unfold evconnlistener_disable, evconnlistener_free.
  erewrite act_bind_run; [|erewrite act_bind_run; [|by eapply use_live];
    exact (do_call_called (CListenerDisable l2) w')].
  erewrite act_bind_run; [|erewrite act_bind_run;
    [|by eapply (use_live (called (CListenerDisable l2) w'))]; by rewrite (call_bind (CListenerFree l2))].
  eexists. split; [done|]. split; [done|]. split; [apply lookup_delete_eq|done].
Qed.

(** Two PASV in a row. *)
Definition two_passive_world : world small :=
  played (login_scenario "alice" "secret" ++ sends "PASV").

Example stale_timer_kills_listener_witness :
  exists w' w'', data_connection_listener_config sample_server 10 true two_passive_world = Ok (tt, w') /\
    handle_event sample_server 10 (TimerFired 6) w' = Ok (tt, w'') /\
    pasv_listener (conn w') = Some 7%nat /\ pasv_listener (conn w'') = None.
Proof.
  destruct (data_connection_listener_config sample_server 10 true two_passive_world)
    as [[[] w']| |] eqn:E; [|vm_compute in E; discriminate E..].
  destruct (stale_timer_kills_listener sample_server 10 5 (SockInet 0x7f000001) sample_fds sample_small true
    two_passive_world w' 6 7) as (_ & w'' & Hw & _ & _ & Hp).
  - apply (play_session_ok _ _ _ _ _ _ (login_scenario "alice" "secret" ++ sends "PASV")).
    vm_compute. reflexivity.
  - vm_compute. reflexivity.
  - vm_compute. reflexivity.
  - vm_compute. reflexivity.
  - exact E.
  - vm_compute in E. injection E as <-. vm_compute. reflexivity.
  - vm_compute in E. injection E as <-. vm_compute. reflexivity.
  - exists w', w''. split; [reflexivity|]. split; [exact Hw|]. split; [|exact Hp].
    vm_compute in E. injection E as <-. vm_compute. reflexivity.
Defined.
