(* ===== verification/Idle.v ===== *)
(** * A client that does not log in (src/engine/control_handler.c)

    The login timer is armed when the session starts, stays armed until a
    login, and ends the session when it fires. *)

From S2P Require Import Prelude CString StringTable CommandParser Config Connection System.
From S2P Require Import Control.
From S2P Require Import ServerState DataHandler Security Auth Ipc Calendar Dele Listing Retr.
From S2P Require Import Stor Actions Dispatch Session SmallSystem Scenario Login Safety Progress.
From stdpp Require Import options.

Local Open Scope Z_scope.

(** ** What happens before a login *)

Section Relation.
Context {S : Type} `{Sys S}.

(** A step after which the session is logged in, or which forgets neither
    the timer nor, unless a reply is reported as written ([wr]), the decision
    to close. *)
Definition waits (wr : bool) (c c' : connection_t) : Prop :=
  timeout_event c' = timeout_event c /\
  (wr = false -> control_write_cb c = Some disable_connection_cb ->
   control_write_cb c' = Some disable_connection_cb).

Definition armed (wr : bool) (w w' : world S) : Prop :=
  stays w w' /\ (exists l, trace w' = trace w ++ l) /\
  (authenticated (conn w') = true \/ waits wr (conn w) (conn w')).

Definition armed_put (wr : bool) (f : connection_t -> connection_t) : Prop :=
  stays_put f /\ forall c, authenticated (f c) = true \/ waits wr c (f c).

#[export] Instance armed_tame wr : Tame (armed_put wr) (fun _ => True) (fun _ => True) (armed wr).
Proof.
  assert (forall w w' : world S, conn w' = conn w -> (exists l, trace w' = trace w ++ l) -> armed wr w w')
    as Hsame.
  { intros w w' E Ht. split; [unfold stays; by rewrite E|]. split; [done|]. right. by rewrite E. }
  assert (forall w : world S, exists l, trace w = trace w ++ l) as Hnil
    by (intros w; exists []; by rewrite app_nil_r).
  split; [split| | | |]; [|intros w1 w2 w3| |intros; apply Hsame; simpl; eauto..].
  - intros w. by apply Hsame.
  - intros (S1 & (l1 & E1) & H1) (S2 & (l2 & E2) & H2). split; [unfold stays in *; auto|].
    split; [exists (l1 ++ l2); by rewrite E2, E1, app_assoc|].
    destruct H2 as [|[T2 C2]]; [by left|]. destruct H1 as [H1|[T1 C1]]; [left; by apply S2|].
    right. split; [congruence|auto].
  - intros f w [Hs Hf]. split; [unfold stays; apply Hs|].
    split; [exact (Hnil w)|]. apply Hf.
Qed.
End Relation.

Ltac armed_side :=
  first [ exact I
        | split; [intros ? ?; fields; first [done|assumption]
                 | intros ?; fields; first [by left | right; split; [done|]; by auto]] ].

Section Idle.
Context {S : Type} `{Reliable S}.
Variable srv : server_state_t.
Variable fuel : nat.
#[local] Set Default Proof Using "Type*".

Lemma dispatch_armed cmd w w' :
  authenticated (conn w) = false -> dispatch srv fuel cmd w = Ok (tt, w') -> armed false w w'.
Proof.
  intros Ha. unfold dispatch, command_actions. cbn [find_action].
  assert (forall f g, keeps (S:=S) (armed false) (g cmd) ->
    run_command_cb (CommandCb f g) cmd w = Ok (tt, w') -> armed false w w') as Hrun.
  { intros f g Hg. unfold run_command_cb, get, mbind, act_bind. rewrite Ha. apply Hg. }
  repeat (destruct (String.eqb _ _); [apply Hrun; walk_session ltac:(armed_side)|]).
  assert (keeps (S:=S) (armed false) (cftp_invalid_action cmd)) as Hk by walk_session ltac:(armed_side).
  apply Hk.
Qed.

(** A callback other than [on_write], or [on_write] when [wr] is set. *)
Lemma handle_event_armed wr e w w' :
  bare w -> authenticated (conn w) = false -> enabled w e = true ->
  e <> ControlWritten \/ wr = true ->
  handle_event srv fuel e w = Ok (tt, w') -> armed wr w w'.
Proof.
  intros Hb Ha He Hwr. pose proof (bare_live w Hb) as Hlive.
  assert (forall v v' : world S, armed false v v' -> armed wr v v') as Hweak.
  { intros v v' (Hs & Hl & H1). split; [done|]. split; [done|].
    destruct H1 as [H1|[Ht Hc]]; [by left|]. right. by split; [|intros _; apply Hc]. }
  apply andb_true_iff in He as [_ He]. destruct e; cbn [handle_event];
    try solve [destruct (live (handles w) !! h) as [[]|] eqn:E; try done; by destruct (Hlive _ _ E)].
  - intros E. apply Hweak. revert E.
    intros (b & w1 & [= <- <-] & (input & w2 & E1 & E2)%act_bind_Ok)%act_bind_Ok.
    assert (armed false w w2 /\ authenticated (conn w2) = false) as [H12 Ha2].
    { unfold evbuffer_remove in E1. inv_act. split; [|done].
      apply (tame_call (S:=S) (R:=armed false)). exact I. }
    apply dispatch_armed in E2; [|done]. pose proof (tame_preorder (S:=S) (R:=armed false)) as [_ Ht].
    by eapply Ht.
  - intros (b & w1 & [= <- <-] & E)%act_bind_Ok. revert E. unfold on_write.
    destruct Hwr as [Hwr|Hwr]; [done|]. subst wr.
    destruct (bev (conn w)); [|by intros [= <-]; apply tame_preorder].
    intros (cb & w1 & [= <- <-] & E)%act_bind_Ok. revert E.
    destruct (bare_cb w Hb) as [-> | ->]; apply_keeps ltac:(walk_session ltac:(armed_side)).
  - apply_keeps ltac:(walk_session ltac:(armed_side)).
  - apply_keeps ltac:(walk_session ltac:(armed_side)).
  - apply_keeps ltac:(walk_session ltac:(armed_side)).
Qed.

Lemma not_logged_in e w w' :
  handle_event srv fuel e w = Ok (tt, w') -> authenticated (conn w') = false ->
  authenticated (conn w) = false.
Proof.
  intros E Ha. destruct (authenticated (conn w)) eqn:Haw; [|done].
  pose proof (handle_event_stays srv fuel e w tt w' E Haw). congruence.
Qed.

(** The timer the record holds was armed with the configured time. *)
Definition login_deadline (w : world S) : Prop :=
  exists t, timeout_event (conn w) = Some t /\
    Did (CTimerAdd t (connection_accept_timeout (config srv))) tt ∈ trace w.

Lemma armed_deadline wr (w w' : world S) :
  armed wr w w' -> authenticated (conn w') = false -> login_deadline w -> login_deadline w'.
Proof.
  intros (_ & (l & Hl) & [|[Ht _]]) Ha (t & Et & Hin); [congruence|].
  exists t. rewrite Ht, Hl. split; [done|]. apply elem_of_app. by left.
Qed.

(** The loop starts with the timer armed. *)
Lemma loop_deadline fd pipe (w w' : world S) :
  start_control_connection_loop srv fd pipe w = Ok (true, w') ->
  authenticated (conn w') = false -> login_deadline w'.
Proof.
  unfold start_control_connection_loop. intros E Ha.
  apply act_bind_Ok in E as (u1 & w1 & _ & E).
  apply act_bind_Ok in E as ([b|] & w2 & _ & E); [|done].
  do 3 apply act_bind_Ok in E as (? & ? & _ & E).
  apply act_bind_Ok in E as (t & w3 & _ & E).
  apply act_bind_Ok in E as (u4 & w4 & ->%put_Ok & E).
  apply act_bind_Ok in E as (u5 & w5 & E5 & E).
  assert (armed false w5 w') as Hrest by (revert E; apply_keeps ltac:(walk_session ltac:(armed_side))).
  eapply armed_deadline; [exact Hrest|done|].
  unfold evtimer_add in E5. inv_act. eexists. split; [done|].
  cbn [trace]. apply elem_of_app. right. destruct u5. by left.
Qed.

Lemma start_deadline fd addr fds s0 w :
  start_session srv fd addr fds (initial_world s0) = Ok (tt, w) ->
  authenticated (conn w) = false -> login_deadline w.
Proof.
  intros (b & w1 & E1 & E2)%act_bind_Ok Ha. pose proof (child_started _ _ _ _ _ _ _ E1) as ->.
  apply ret_Ok in E2 as [_ ->]. unfold child_side in E1.
  do 2 apply act_bind_Ok in E1 as (? & ? & _ & E1).
  apply act_bind_Ok in E1 as (ok & ? & _ & E1). destruct ok; [|done]. cbn [negb] in E1.
  do 4 apply act_bind_Ok in E1 as (? & ? & _ & E1). by eapply loop_deadline.
Qed.

Lemma session_deadline fd addr fds s0 w :
  session srv fuel fd addr fds s0 w -> authenticated (conn w) = false -> login_deadline w.
Proof.
  induction 1 as [w Hs|w e w' Hw IH He E|w s' _ IH]; intros Ha; [by eapply start_deadline| |by apply IH].
  pose proof (not_logged_in _ _ _ E Ha) as Haw.
  destruct (session_bare _ _ _ _ _ _ _ Hw Haw) as [Hbare _].
  eapply (armed_deadline true); [|done|by apply IH].
  by eapply handle_event_armed; [..|by right|exact E].
Qed.

(** A session goes on from [w1] to [w2] with no reply reported as written. *)
Inductive unwritten (w1 : world S) : world S -> Prop :=
  | unwritten_refl : unwritten w1 w1
  | unwritten_step w e w' :
      unwritten w1 w -> e <> ControlWritten -> enabled w e = true ->
      handle_event srv fuel e w = Ok (tt, w') -> unwritten w1 w'
  | unwritten_environment w s :
      unwritten w1 w -> unwritten w1 (World (conn w) s (handles w) (trace w)).

Lemma unwritten_session fd addr fds s0 w1 w2 :
  session srv fuel fd addr fds s0 w1 -> unwritten w1 w2 -> session srv fuel fd addr fds s0 w2.
Proof.
  intros Hs. induction 1 as [|w e w' _ IH _ He E|w s _ IH]; [done| |by apply session_environment].
  by eapply session_event_step.
Qed.

(** The decision to close outlives everything but a login. *)
Lemma unwritten_closing fd addr fds s0 w1 w2 :
  session srv fuel fd addr fds s0 w1 ->
  control_write_cb (conn w1) = Some disable_connection_cb ->
  unwritten w1 w2 -> authenticated (conn w2) = false ->
  control_write_cb (conn w2) = Some disable_connection_cb.
Proof.
  intros Hs Hcb. induction 1 as [|w e w' Hw IH Hne He E|w s _ IH]; intros Ha; [done| |by apply IH].
  pose proof (not_logged_in _ _ _ E Ha) as Haw.
  destruct (session_bare _ _ _ _ _ _ _ (unwritten_session _ _ _ _ _ _ Hs Hw) Haw) as [Hbare _].
  destruct (handle_event_armed false e w w' Hbare Haw He (or_introl Hne) E)
    as (_ & _ & [Ha'|[_ Hc]]); [congruence|].
  apply Hc; [done|by apply IH].
Qed.

(** The reply is written: the bufferevent is freed and the loop told to end. *)
Lemma close_run h (w : world S) :
  bev (conn w) = Some h -> live (handles w) !! h = Some KControlBev ->
  control_write_cb (conn w) = Some disable_connection_cb ->
  exists w', handle_event srv fuel ControlWritten w = Ok (tt, w') /\
    stopped w' = true /\ live (handles w') !! h = None /\
    trace w' = trace w ++ [Did (CBevDisable h) tt; Did (CBevFree h) tt; Did CLoopbreak tt].
Proof.
  intros Hb Hl Hcb. cbn [handle_event]. erewrite act_bind_run; [|done]. rewrite Hb. unfold on_write.
  erewrite act_bind_run; [|done]. rewrite Hcb. cbn [run_callback].
  unfold run_disable_connection_cb, bufferevent_disable, bufferevent_free.
  unfold mbind, act_bind, do_call, forget, put.
  rewrite (use_live w is_bev KControlBev) by done.
  destruct (sys_step (CBevDisable h) (sys w)) as [[] s1].
  rewrite (use_live _ is_bev KControlBev) by done. cbn [sys handles conn trace].
  destruct (sys_step (CBevFree h) s1) as [[] s2]. cbn [sys handles conn trace].
  destruct (sys_step CLoopbreak s2) as [[] s3]. cbn [sys handles conn trace].
  eexists. split; [done|]. rewrite <- !app_assoc. split_and!; [|apply lookup_delete_eq|done].
  unfold stopped. cbn [trace]. rewrite !existsb_app. cbn [existsb is_loopbreak app].
  by rewrite !orb_true_r.
Qed.
End Idle.

(** ** Properties *)

(** C6: a client that does not log in is cut off.  In every state before a
    login the timer the session armed at its start with the configured time
    is still live and may fire; when it does, exactly one reply, 421, is
    written; and from then on, whatever the client sends and whatever else
    happens short of a login, the next report that a reply was written frees
    the bufferevent and ends the loop.  The system is one on which libevent's
    constructors, calloc and crypt do not fail, file times can be converted and
    a directory just opened can be opened again ([Reliable]), so that the set-up reaches the event loop. *)
Theorem idle_client_is_cut_off {S} `{Reliable S} srv fuel fd addr fds s0 (w : world S) h :
  session srv fuel fd addr fds s0 w -> stopped w = false -> authenticated (conn w) = false ->
  bev (conn w) = Some h ->
  exists t w1, timeout_event (conn w) = Some t /\
    Did (CTimerAdd t (connection_accept_timeout (config srv))) tt ∈ trace w /\
    enabled w (TimerFired t) = true /\ handle_event srv fuel (TimerFired t) w = Ok (tt, w1) /\
    trace w1 = trace w ++ [Did (CBevWrite h
      (control_line FTP_STATUS_SERVICE_NOT_AVAILABLE "Control connection timed out !")) tt] /\
    forall w2, unwritten srv fuel w1 w2 -> authenticated (conn w2) = false ->
      enabled w2 ControlWritten = true ->
      exists h2 w3, handle_event srv fuel ControlWritten w2 = Ok (tt, w3) /\
        bev (conn w2) = Some h2 /\ live (handles w3) !! h2 = None /\ stopped w3 = true.
Proof.
  intros Hs Hst Ha Hb.
  destruct (session_done_or_inv _ _ _ _ _ _ _ Hs) as [Hi|Hd]; [|congruence].
  destruct (i_auth _ _ Hi Ha) as [_ (t & k & Et & Hlt & Hk)].
  assert (k = KAuthTimer) as -> by (by destruct k). pose proof (i_bev _ _ Hi h Hb) as Hl.
  destruct (session_deadline srv fuel _ _ _ _ _ Hs Ha) as (t' & Et' & Hin).
  assert (t' = t) as -> by congruence.
  assert (enabled w (TimerFired t) = true) as He by (unfold enabled; by rewrite Hst, Hlt).
  set (w0 := World (set_control_write_cb (Some disable_connection_cb) (conn w)) (sys w)
               (handles w) (trace w)).
  set (line := control_line FTP_STATUS_SERVICE_NOT_AVAILABLE "Control connection timed out !").
  assert (handle_event srv fuel (TimerFired t) w = Ok (tt, called (CBevWrite h line) w0)) as E.
  { cbn [handle_event]. erewrite act_bind_run; [|unfold handle_kind; by rewrite Hlt]. cbv beta iota.
    unfold terminate_process_on_timeout. erewrite act_bind_run; [|done].
    by apply (send_called _ _ h w0). }
  exists t, (called (CBevWrite h line) w0). split_and!; try done; [exact (trace_called_write h line w0)|].
  intros w2 Hw2 Ha2 He2.
  assert (session srv fuel fd addr fds s0 (called (CBevWrite h line) w0)) as Hs1
    by (by eapply session_event_step).
  pose proof (unwritten_closing srv fuel _ _ _ _ _ _ Hs1 eq_refl Hw2 Ha2) as Hcb.
  pose proof (unwritten_session srv fuel _ _ _ _ _ _ Hs1 Hw2) as Hs2.
  apply andb_true_iff in He2 as [Hn2 He2].
  destruct (session_done_or_inv _ _ _ _ _ _ _ Hs2) as [Hi2|Hd2]; [|by rewrite Hd2 in Hn2].
  destruct (bev (conn w2)) as [h2|] eqn:Hb2; [|done].
  destruct (close_run srv fuel h2 w2 Hb2 (i_bev _ _ Hi2 h2 Hb2) Hcb) as (w3 & E3 & Hst3 & Hl3 & _).
  by exists h2, w3.
Qed.

(** A client that gives a name, waits until the timer fires and then tries
    another command before the reply is out. *)
Definition after (e : session_event) (w : world small) : world small :=
  match handle_event sample_server 10 e w with Ok (_, w') => w' | _ => w end.

Definition idle_world : world small := played (sends "USER alice").
Definition fired_world : world small := after (TimerFired 4) idle_world.
Definition line_world : world small :=
  World (conn fired_world) (set_input 2 ("NOOP" +:+ crlf) (sys fired_world))
    (handles fired_world) (trace fired_world).
Definition late_world : world small := after ControlRead line_world.

Lemma Ok_world_inj (a b : world small) : Ok (tt, a) = Ok (tt, b) -> a = b.
Proof. by intros [=]. Qed.

Example idle_client_is_cut_off_witness :
  exists w3, handle_event sample_server 10 ControlWritten late_world = Ok (tt, w3) /\
    stopped w3 = true.
Proof.
  destruct (idle_client_is_cut_off sample_server 10 5 (SockInet 0x7f000001) sample_fds sample_small idle_world 2)
    as (t & w1 & Et & _ & _ & E1 & _ & Hclose).
  - apply (play_session_ok _ _ _ _ _ _ (sends "USER alice")). vm_compute. reflexivity.
  - vm_compute. reflexivity.
  - vm_compute. reflexivity.
  - vm_compute. reflexivity.
  - assert (timeout_event (conn idle_world) = Some 4%nat) as Et2 by (vm_compute; reflexivity).
    assert (t = 4%nat) as Ht by congruence. rewrite Ht in E1.
    assert (handle_event sample_server 10 (TimerFired 4) idle_world = Ok (tt, fired_world)) as Ef
      by (vm_compute; reflexivity).
    rewrite Ef in E1. apply Ok_world_inj in E1. subst w1.
    assert (enabled line_world ControlRead = true) as Hen by (vm_compute; reflexivity).
    assert (handle_event sample_server 10 ControlRead line_world = Ok (tt, late_world)) as El
      by (vm_compute; reflexivity).
    assert (unwritten sample_server 10 fired_world line_world) as Hu
      by (apply unwritten_environment, unwritten_refl).
    destruct (Hclose late_world) as (h2 & w3 & E3 & _ & _ & Hst).
    + refine (unwritten_step sample_server 10 fired_world line_world ControlRead late_world Hu _ Hen El).
      discriminate.
    + vm_compute. reflexivity.
    + vm_compute. reflexivity.
    + exists w3. split; [exact E3|exact Hst].
Defined.
