(* ===== verification/Logger.v ===== *)
(** * The logger (src/core/logger.c)

    [print_log] composes a message in a fixed buffer of 520 bytes through
    pointers advanced by the values [snprintf] returns, which are the lengths
    before truncation.  The buffer is a list of characters and a store outside
    it is [Undefined]. *)

From S2P Require Import Prelude CString.
From stdpp Require Import options.

Local Open Scope Z_scope.

Definition LOGGER_HALF_BUFFER : Z := 256.
Definition NORMAL_LEN : Z := 8.
Definition TRUNC_LOG_WARN : string := "[.. Log truncated due to too much length]".
Definition TRUNC_LOG_LEN : Z := 43.

(** ** Colours and levels *)

Definition esc (s : string) : string := String "027"%char s.
Definition KNRM : string := esc "[1;0m".
Definition KRED : string := esc "[1;31m".
Definition KGRN : string := esc "[32m".
Definition KYEL : string := esc "[1;33m".
Definition KMAG : string := esc "[35m".
Definition KCYN : string := esc "[1;36m".
Definition KWHT : string := esc "[37m".

Inductive logtype := ERR_LEVEL | INF_LEVEL | WRN_LEVEL | DBG_LEVEL | PRN_LEVEL.

Definition level (t : logtype) : Z :=
  match t with
  | ERR_LEVEL => 0x1
  | INF_LEVEL => 0x2
  | WRN_LEVEL => 0x4
  | DBG_LEVEL => 0x8
  | PRN_LEVEL => 0x10
  end.

Definition get_log_str (t : logtype) : string :=
  match t with
  | ERR_LEVEL => KRED +:+ "ERROR"
  | INF_LEVEL => KGRN +:+ "INFO"
  | WRN_LEVEL => KYEL +:+ "WARNING"
  | DBG_LEVEL => KCYN +:+ "DEBUG"
  | PRN_LEVEL => KWHT
  end.

(** [enabled_logs] after [initialize_logger], with and without [DEBUG]. *)
Definition initialize_logger (debug : bool) : Z :=
  let logs := Z.lor (Z.lor (level INF_LEVEL) (level WRN_LEVEL)) (level ERR_LEVEL) in
  if debug then Z.lor logs (level DBG_LEVEL) else logs.

(** ** The buffer *)

Fixpoint chars (s : string) : list ascii :=
  match s with EmptyString => [] | String c s' => c :: chars s' end.

Fixpoint text_of (l : list ascii) : string :=
  match l with [] => EmptyString | c :: l' => String c (text_of l') end.

(** [strcpy(buf + off, text)]. *)
Definition put_text (off : Z) (text : string) (buf : list ascii) : outcome (list ascii) :=
  if off + strlen text + 1 <=? Z.of_nat (List.length buf) then
    let o := Z.to_nat off in
    Ok (take o buf ++ chars text ++ nul :: drop (o + String.length text + 1) buf)
  else Undefined.

(** [snprintf(buf + off, size, "%s", text)]. *)
Definition snprintf_at (size : Z) (off : Z) (text : string) (buf : list ascii) : outcome (list ascii) :=
  put_text off (snprintf_s (Z.to_nat size) text) buf.

(** What follows the last slash. *)
Fixpoint basename (s : string) : string :=
  match s with
  | EmptyString => EmptyString
  | String c s' =>
      if strstr_found s' "/" then basename s' else if Ascii.eqb c "/" then s' else s
  end.

Definition log_prefix (t : logtype) (time_buf source_file : string) (line_number : Z)
    (function_name : string) : string :=
  if Z.land (level t) (level PRN_LEVEL) =? 0 then
    "[" +:+ (time_buf +:+ ("] " +:+ (get_log_str t +:+ (": " +:+ (basename source_file +:+ (":" +:+
      (print_int line_number +:+ (": " +:+ (function_name +:+ ": ")))))))))
  else "[" +:+ (time_buf +:+ ("] " +:+ get_log_str t)).

(** The message handed to [log_func] and whether a line end follows; [text]
    is the caller's format with its arguments, [None] a disabled level. *)
Definition print_log (enabled_logs : Z) (t : logtype) (time_buf source_file : string)
    (line_number : Z) (function_name text : string) : outcome (option (string * bool)) :=
  if Z.land enabled_logs (level t) =? 0 then mret None
  else
    let message1 := replicate (Z.to_nat (LOGGER_HALF_BUFFER * 2 + NORMAL_LEN)) nul in
    let prefix := log_prefix t time_buf source_file line_number function_name in
    let res1 := strlen prefix in
    message1 ← snprintf_at LOGGER_HALF_BUFFER 0 prefix message1;
    let res2 := strlen text in
    message1 ← snprintf_at LOGGER_HALF_BUFFER res1 text message1;
    '(res2, message1) ←
      (if LOGGER_HALF_BUFFER <=? Z.max res1 res2 + 1 then
         let warning := "... " +:+ TRUNC_LOG_WARN in
         m ← put_text (res1 + LOGGER_HALF_BUFFER - TRUNC_LOG_LEN) warning message1;
         mret (LOGGER_HALF_BUFFER + strlen warning, m)
       else mret (res2, message1));
    message1 ← snprintf_at NORMAL_LEN (res1 + res2) KNRM message1;
    mret (Some (c_str (text_of message1), Z.land (level t) (level PRN_LEVEL) =? 0)).

(** [print_log_to_console] of src/engine/main.c, [console] being what was
    printed so far, and the call of the function given to [initialize_logger]. *)
Definition print_log_to_console (message console : string) : string := console +:+ message.

Definition print_log_event (log_func : string -> string -> string) (message : string)
    (is_newline : bool) (console : string) : string :=
  let console := log_func message console in
  if is_newline then log_func (String lf EmptyString) console else console.

(** ** The macros of src/core/error.h *)

(** The global [enabled_logs], which only the macros read. *)
Definition ENABLED_LOGS : Z := 0xF.

(** [debug]: whether the program was built with [DEBUG]. *)
Definition LOGM (debug : bool) (t : logtype) (time_buf file : string) (line : Z) (fn text : string)
    (console : string) : outcome string :=
  if Z.land ENABLED_LOGS (level t) =? 0 then mret console
  else
    printed ← print_log (initialize_logger debug) t time_buf file line fn text;
    mret (match printed with
          | Some (message, is_newline) => print_log_event print_log_to_console message is_newline console
          | None => console
          end).

Definition ERROR (debug : bool) := LOGM debug ERR_LEVEL.
Definition INFO (debug : bool) := LOGM debug INF_LEVEL.
Definition WARN (debug : bool) := LOGM debug WRN_LEVEL.
Definition DEBG (debug : bool) := LOGM debug DBG_LEVEL.
Definition PRINT (debug : bool) := LOGM debug PRN_LEVEL.

Example log_line :
  print_log (initialize_logger false) INF_LEVEL "2024-01-01 00:00:00" "/src/core/connection.c" 66
    "control_connection_accept_cb" "Control connection with 10.0.0.1" =
  Ok (Some ("[2024-01-01 00:00:00] " +:+ (KGRN +:+
    ("INFO: connection.c:66: control_connection_accept_cb: Control connection with 10.0.0.1" +:+ KNRM)), true)).
Proof. vm_compute. reflexivity. Qed.

(** ** The buffer as text and padding *)

Lemma length_chars s : List.length (chars s) = String.length s.
Proof. induction s; simpl; congruence. Qed.

Lemma chars_app a b : chars (a +:+ b) = chars a ++ chars b.
Proof. induction a; simpl; congruence. Qed.

Definition padded (s : string) (k : nat) : list ascii := chars s ++ replicate k nul.

(** A store over the last part [b] of the text, which it covers. *)
Lemma put_text_over a b t k :
  (String.length b <= String.length t)%nat -> (String.length t + 1 <= String.length b + k)%nat ->
  put_text (strlen a) t (padded (a +:+ b) k) =
    Ok (padded (a +:+ t) (String.length b + k - String.length t)).
Proof.
  intros Hb Ht. unfold put_text, padded, strlen. rewrite !length_app, length_replicate, !length_chars, length_string_app.
  rewrite (proj2 (Z.leb_le _ _)) by lia. f_equal.
  rewrite Nat2Z.id, !chars_app, <- !app_assoc.
  rewrite take_app_length' by (by rewrite length_chars). do 2 f_equal.
  rewrite !drop_app, drop_ge by (rewrite length_chars; lia).
  rewrite (drop_ge (chars b)) by (rewrite !length_chars; lia). rewrite !length_chars. simpl.
  rewrite drop_replicate.
  replace (String.length b + k - String.length t)%nat
    with (Datatypes.S (k - (String.length a + String.length t + 1 - String.length a - String.length b)))%nat by lia.
  done.
Qed.

Lemma put_text_end s t k :
  (String.length t + 1 <= k)%nat ->
  put_text (strlen s) t (padded s k) = Ok (padded (s +:+ t) (k - String.length t)).
Proof.
  intros Hk. rewrite <- (string_app_nil_r s) at 2. rewrite put_text_over by (simpl; lia). done.
Qed.

Lemma put_text_start t k :
  (String.length t + 1 <= k)%nat ->
  put_text 0 t (replicate k nul) = Ok (padded t (k - String.length t)).
Proof. apply (put_text_end EmptyString). Qed.

(** A store behind the terminator is not seen. *)
Lemma put_text_behind s t k j :
  (0 < j)%nat -> (j + String.length t + 1 <= k)%nat -> no_nul s = true ->
  exists m, put_text (strlen s + Z.of_nat j) t (padded s k) = Ok m /\ c_str (text_of m) = s.
Proof.
  intros Hj Hk Hs. unfold put_text, padded, strlen. rewrite length_app, length_replicate, length_chars.
  rewrite (proj2 (Z.leb_le _ _)) by lia. eexists. split; [done|].
  replace (Z.to_nat (Z.of_nat (String.length s) + Z.of_nat j)) with (String.length s + j)%nat by lia.
  rewrite take_app, take_ge by (rewrite length_chars; lia).
  rewrite length_chars. replace (String.length s + j - String.length s)%nat with j by lia.
  rewrite take_replicate, Nat.min_l by lia. destruct j as [|j]; [lia|]. rewrite <- app_assoc. cbn [replicate app].
  clear Hk Hj. induction s as [|c s IH]; [done|]. simpl in *.
  apply andb_true_iff in Hs as [Hc%negb_true_iff Hs]. rewrite Hc. f_equal. by apply IH.
Qed.

Lemma c_str_padded s k : no_nul s = true -> (0 < k)%nat -> c_str (text_of (padded s k)) = s.
Proof.
  intros Hs Hk. destruct k as [|k]; [lia|]. unfold padded. clear Hk.
  induction s as [|c s IH]; [done|]. simpl in *.
  apply andb_true_iff in Hs as [Hc%negb_true_iff Hs]. rewrite Hc. f_equal. by apply IH.
Qed.

(** ** Properties *)

(** With a prefix of at most 212 bytes [print_log] stays within its
    buffer whatever the text.  A text of less than 255 bytes is printed whole
    between the prefix and the code that resets the colour; of a longer one
    the first 213 bytes and the warning are printed, and the reset code is
    lost behind the terminator. *)
Theorem print_log_message enabled t time_buf file line fn text :
  let prefix := log_prefix t time_buf file line fn in
  Z.land enabled (level t) <> 0 -> no_nul prefix = true -> no_nul text = true ->
  strlen prefix <= 212 ->
  exists m, print_log enabled t time_buf file line fn text =
      Ok (Some (m, Z.land (level t) (level PRN_LEVEL) =? 0)) /\
    (strlen text < 255 -> m = prefix +:+ (text +:+ KNRM)) /\
    (255 <= strlen text -> m = prefix +:+ (strtake 213 text +:+ ("... " +:+ TRUNC_LOG_WARN))).
Proof.
  intros prefix He Hp Ht Hlen. unfold print_log. rewrite (proj2 (Z.eqb_neq _ _)) by done.
  fold prefix. clearbody prefix. cbv zeta. unfold snprintf_at, snprintf_s, LOGGER_HALF_BUFFER, NORMAL_LEN.
  change (Z.to_nat 256 - 1)%nat with 255%nat. change (Z.to_nat (256 * 2 + 8)) with 520%nat.
  change (Z.to_nat 8 - 1)%nat with 7%nat.
  change (strtake 7 KNRM) with KNRM.
  rewrite (strtake_all 255 prefix) by (unfold strlen in *; lia).
  unfold strlen in Hlen. pose proof (length_strtake 255 text) as Hn.
  rewrite put_text_start by lia. rewrite Ok_bind.
  rewrite put_text_end by lia. rewrite Ok_bind.
  destruct (Z.leb_spec 256 (Z.max (strlen prefix) (strlen text) + 1)) as [Hlong|Hshort].
  - assert (255 <= strlen text) as Hl by (unfold strlen in *; lia).
    set (a := prefix +:+ strtake 213 text). set (b := strdrop 213 (strtake 255 text)).
    set (warning := "... " +:+ TRUNC_LOG_WARN).
    assert (prefix +:+ strtake 255 text = a +:+ b) as ->.
    { unfold a, b. rewrite string_app_assoc. f_equal.
      rewrite <- (strtake_strdrop 213 (strtake 255 text)) at 1. by rewrite strtake_strtake. }
    assert (String.length b = 42%nat) as Hb
      by (unfold b, strlen in *; rewrite length_strdrop, Hn; lia).
    assert (String.length a = (String.length prefix + 213)%nat) as Ha
      by (unfold a, strlen in *; rewrite length_string_app, length_strtake; lia).
    assert (String.length warning = 45%nat) as Hw by reflexivity.
    replace (strlen prefix + 256 - TRUNC_LOG_LEN) with (strlen a)
      by (unfold strlen, TRUNC_LOG_LEN; lia).
    unfold strlen in Hl. rewrite put_text_over by lia. rewrite Ok_bind.
    change (mret ?x ≫= ?f) with (f x). cbv beta iota.
    replace (strlen prefix + (256 + strlen warning)) with (strlen (a +:+ warning) + Z.of_nat 43)
      by (unfold strlen; rewrite length_string_app, Ha, Hw; lia).
    edestruct (put_text_behind (a +:+ warning) KNRM) as (m & Hm & Hc);
      [| | |rewrite Hm, Ok_bind]; [lia|change (String.length KNRM) with 6%nat; lia| |].
    { unfold a. rewrite !no_nul_app, Hp. rewrite no_nul_all_chars in Ht |- *.
      by rewrite all_chars_strtake. }
    exists (a +:+ warning). rewrite Hc. split; [done|]. split; [unfold strlen in *; lia|].
    intros _. unfold a. by rewrite string_app_assoc.
  - assert (strlen text < 255) as Hl by lia. unfold strlen in Hl. rewrite !strtake_all by lia.
    change (mret ?x ≫= ?f) with (f x). cbv beta iota.
    replace (strlen prefix + strlen text) with (strlen (prefix +:+ text))
      by (unfold strlen; rewrite length_string_app; lia).
    assert (String.length KNRM = 6%nat) as Hk by reflexivity.
    rewrite put_text_end, Ok_bind by lia.
    exists (prefix +:+ (text +:+ KNRM)). rewrite string_app_assoc. split; [|split; [done|lia]].
    rewrite c_str_padded; [done| |lia]. by rewrite !no_nul_app, Hp, Ht.
Qed.

Example print_log_message_witness :
  exists m, print_log (initialize_logger true) DBG_LEVEL "2024-01-01 00:00:00" "src/core/connection.c" 40
      "control_connection_accept_cb" "Accepted new connection on fd 9" = Ok (Some (m, true)) /\
    m = "[2024-01-01 00:00:00] " +:+ (KCYN +:+
      ("DEBUG: connection.c:40: control_connection_accept_cb: Accepted new connection on fd 9" +:+ KNRM)).
Proof.
  destruct (print_log_message (initialize_logger true) DBG_LEVEL "2024-01-01 00:00:00"
    "src/core/connection.c" 40 "control_connection_accept_cb" "Accepted new connection on fd 9")
    as (m & Hm & Hs & _).
  - discriminate.
  - vm_compute. reflexivity.
  - vm_compute. reflexivity.
  - apply Z.leb_le. vm_compute. reflexivity.
  - exists m. split; [exact Hm|]. rewrite (Hs ltac:(apply Z.ltb_lt; vm_compute; reflexivity)).
    vm_compute. reflexivity.
Defined.

(** ** What reaches the console *)

(** The levels a build prints: errors, warnings and information always,
    debugging messages in a debug build, [PRINT] never. *)
Definition printed_level (debug : bool) (t : logtype) : bool :=
  match t with DBG_LEVEL => debug | PRN_LEVEL => false | _ => true end.

Lemma enabled_level debug t :
  (Z.land ENABLED_LOGS (level t) =? 0) || (Z.land (initialize_logger debug) (level t) =? 0) =
  negb (printed_level debug t).
Proof. by destruct debug, t. Qed.

(** A macro prints its message and a line end, or nothing at all. *)
Theorem logm_console debug t time_buf file line fn text console :
  let prefix := log_prefix t time_buf file line fn in
  no_nul prefix = true -> no_nul text = true -> strlen prefix <= 212 -> strlen text < 255 ->
  LOGM debug t time_buf file line fn text console =
  Ok (if printed_level debug t
      then console +:+ ((prefix +:+ (text +:+ KNRM)) +:+ String lf EmptyString) else console).
Proof.
  intros prefix Hp Ht Hlen Htext. pose proof (enabled_level debug t) as He.
  unfold LOGM. destruct (Z.land ENABLED_LOGS (level t) =? 0); cbn [orb] in He.
  { by destruct (printed_level debug t). }
  destruct (Z.eqb_spec (Z.land (initialize_logger debug) (level t)) 0) as [Hz|Hz].
  { destruct (printed_level debug t); [done|]. unfold print_log. by rewrite (proj2 (Z.eqb_eq _ _) Hz). }
  destruct (print_log_message (initialize_logger debug) t time_buf file line fn text Hz Hp Ht Hlen)
    as (m & E & Hm & _).
  rewrite E, Ok_bind, (Hm Htext). destruct (printed_level debug t) eqn:Epl; [|done].
  assert ((Z.land (level t) (level PRN_LEVEL) =? 0) = true) as -> by (by destruct t).
  unfold print_log_event, print_log_to_console. by rewrite string_app_assoc.
Qed.

Lemma print_is_silent debug time_buf file line fn text console :
  PRINT debug time_buf file line fn text console = Ok console.
Proof. done. Qed.
