(* ===== verification/Hexdump.v ===== *)
(** * The memory dump of src/core/error.c

    [hexdump] prints bytes in rows of sixteen with a column of characters.
    The column is a 17-byte buffer that is printed when the next row begins;
    the theorem says that the text is the table one expects. *)

From S2P Require Import Prelude CString.
From stdpp Require Import options.

Local Open Scope Z_scope.

Definition PER_LINE : nat := 16.
Definition LENGTH_LIMIT : nat := 5000.

(** ["%0<width>zX"] of a number that fits. *)
Definition hex_digit (d : Z) : ascii :=
  if d <? 10 then digit d else ascii_of_N (Z.to_N (55 + d)).

Fixpoint print_hex (width : nat) (n : Z) : string :=
  match width with
  | O => EmptyString
  | S width' => print_hex width' (n / 16) +:+ String (hex_digit (n mod 16)) EmptyString
  end.

Definition column_char (b : ascii) : ascii :=
  if (code b <? 0x20) || (0x7E <? code b) then "."%char else b.

Definition newline : string := String lf EmptyString.

Definition row_start (i : nat) : string := " +" +:+ (print_hex 8 (Z.of_nat i) +:+ ": ").

Definition cell (b : ascii) : string := " " +:+ (print_hex 2 (code b) +:+ " ").

(** What [printf("%s", ascii)] prints. *)
Definition column_text (buf : list ascii) : string := c_str (string_of_list_ascii buf).

(** The [for] loop from index [i] on; [buf] is the array [ascii]. *)
Fixpoint hex_loop (i : nat) (bytes buf : list ascii) : string * list ascii :=
  match bytes with
  | [] => (EmptyString, buf)
  | b :: bytes' =>
      let k := (i mod PER_LINE)%nat in
      let head := if (k =? 0)%nat then " " +:+ (column_text buf +:+ (newline +:+ row_start i))
                  else EmptyString in
      let buf' := <[(k + 1)%nat := nul]> (<[k := column_char b]> buf) in
      let '(text, last) := hex_loop (S i) bytes' buf' in
      (head +:+ (cell b +:+ text), last)
  end.

(** The [while] loop after it, [i] being the number of bytes printed. *)
Definition padding (i : nat) : nat :=
  if (i mod PER_LINE =? 0)%nat then 0%nat else (PER_LINE - i mod PER_LINE)%nat.

Fixpoint blanks (n : nat) : string :=
  match n with O => EmptyString | S n' => "    " +:+ blanks n' end.

(** The lines before the rows; [length] is that of the memory. *)
Definition hexdump_header (length : nat) (address : string) : string :=
  "*** Hexdump Debug Utility ***" +:+ (newline +:+ ("Printing data of length " +:+
  (print_unsigned (Z.of_nat length) +:+ (" from " +:+ (address +:+ (" address" +:+ (newline +:+
  (if (LENGTH_LIMIT <? length)%nat
   then "Temporarily set limit of 5000 on length" +:+ newline else EmptyString)))))))).

(** The rows of [length] bytes; [calloc] clears the array. *)
Definition hexdump_rows (bytes : list ascii) : string :=
  let '(text, buf) := hex_loop 0 bytes (repeat nul (PER_LINE + 1)) in
  text +:+ (blanks (padding (List.length bytes)) +:+ (" " +:+ (column_text buf +:+ newline))).

(** [memory] is [None] for NULL; [address] is what ["%p"] prints for it.  The
    result is what reaches the standard output. *)
Definition hexdump (memory : option (list ascii)) (address : string) : string :=
  match memory with
  | None | Some [] => EmptyString
  | Some bytes =>
      hexdump_header (List.length bytes) address +:+ hexdump_rows (take LENGTH_LIMIT bytes)
  end.

(** ** The table *)

Definition column (bytes : list ascii) : string := string_of_list_ascii (map column_char bytes).

Definition cells (bytes : list ascii) : string := fold_right (fun b s => cell b +:+ s) EmptyString bytes.

(** One row: the offset, sixteen cells or blanks, the characters. *)
Definition row (i : nat) (bytes : list ascii) : string :=
  row_start i +:+ (cells bytes +:+ (blanks (PER_LINE - List.length bytes) +:+
    (" " +:+ (column bytes +:+ newline)))).

Fixpoint table (fuel i : nat) (bytes : list ascii) : string :=
  match fuel, bytes with
  | S fuel', _ :: _ => row i (take PER_LINE bytes) +:+ table fuel' (i + PER_LINE) (drop PER_LINE bytes)
  | _, _ => EmptyString
  end.

(** ** Lemmas *)

Lemma column_char_not_nul b : Ascii.eqb (column_char b) nul = false.
Proof. unfold column_char. destruct (_ || _) eqn:E; [done|]. revert E. ascii_cases b. Qed.

Lemma column_no_nul l : no_nul (column l) = true.
Proof. induction l as [|b l IH]; [done|]. cbn. by rewrite column_char_not_nul. Qed.

(** The buffer in the middle of a row: the characters so far, then a NUL. *)
Definition holds (pre : list ascii) (buf : list ascii) : Prop :=
  List.length buf = (PER_LINE + 1)%nat /\ exists rest, buf = map column_char pre ++ nul :: rest.

Lemma holds_text pre buf : holds pre buf -> column_text buf = column pre.
Proof.
  intros (_ & rest & ->). unfold column_text.
  replace (string_of_list_ascii (map column_char pre ++ nul :: rest))
    with (column pre +:+ String nul (string_of_list_ascii rest))
    by (unfold column; induction (map column_char pre) as [|x l IH]; simpl; congruence).
  apply c_str_app_nul, column_no_nul.
Qed.

(** Storing one more character of the row. *)
Lemma holds_store pre b buf :
  (List.length pre < PER_LINE)%nat ->
  List.length buf = (PER_LINE + 1)%nat ->
  (exists rest, buf = map column_char pre ++ rest) ->
  holds (pre ++ [b]) (<[(List.length pre + 1)%nat := nul]> (<[List.length pre := column_char b]> buf)).
Proof.
  intros Hpre Hlen (rest & ->). split; [by rewrite !length_insert|].
  unfold PER_LINE in *. rewrite length_app, length_map in Hlen. destruct rest as [|x [|y rest]]; simpl in Hlen; [lia|lia|].
  exists rest. rewrite map_app. simpl.
  replace (List.length pre) with (List.length (map column_char pre) + 0)%nat at 2
    by (rewrite length_map; lia).
  rewrite insert_app_r. simpl.
  replace (List.length pre + 1)%nat with (List.length (map column_char pre) + 1)%nat
    by (by rewrite length_map).
  rewrite insert_app_r. simpl. by rewrite <- app_assoc.
Qed.

(** All that is printed from byte [i] on. *)
Definition finish (i : nat) (bytes buf : list ascii) : string :=
  (hex_loop i bytes buf).1 +:+ (blanks (padding (i + List.length bytes)) +:+
    (" " +:+ (column_text (hex_loop i bytes buf).2 +:+ newline))).

Lemma finish_nil i buf :
  finish i [] buf = blanks (padding i) +:+ (" " +:+ (column_text buf +:+ newline)).
Proof. unfold finish. simpl. by rewrite Nat.add_0_r. Qed.

Lemma finish_cons i b bytes buf :
  finish i (b :: bytes) buf =
    (if (i mod PER_LINE =? 0)%nat then " " +:+ (column_text buf +:+ (newline +:+ row_start i))
     else EmptyString) +:+ (cell b +:+ finish (S i) bytes
       (<[(i mod PER_LINE + 1)%nat := nul]> (<[(i mod PER_LINE)%nat := column_char b]> buf))).
Proof.
  unfold finish. cbn [hex_loop]. destruct (hex_loop (S i) bytes _) as [text last]. cbn [fst snd].
  rewrite !string_app_assoc. cbn [List.length]. by rewrite Nat.add_succ_r.
Qed.

Lemma next_in_row i k : (i mod PER_LINE = k)%nat -> (k + 1 < PER_LINE)%nat -> (S i mod PER_LINE = k + 1)%nat.
Proof.
  unfold PER_LINE. intros <- Hk. replace (S i) with (i + 1)%nat by lia.
  rewrite Nat.Div0.add_mod. change (1 mod 16)%nat with 1%nat. by apply Nat.mod_small.
Qed.

Lemma next_row i : (i mod PER_LINE = 15)%nat -> (S i mod PER_LINE = 0)%nat.
Proof.
  unfold PER_LINE. intros Hi. replace (S i) with (i + 1)%nat by lia.
  by rewrite Nat.Div0.add_mod, Hi.
Qed.

Lemma table_nil fuel i : table fuel i [] = EmptyString.
Proof. by destruct fuel. Qed.

(** At the start of a row, and in the middle of one. *)
Lemma finish_table bytes : forall i buf fuel, (List.length bytes <= fuel)%nat ->
  ((i mod PER_LINE = 0)%nat -> List.length buf = (PER_LINE + 1)%nat ->
   finish i bytes buf = " " +:+ (column_text buf +:+ (newline +:+ table fuel i bytes))) /\
  (forall pre, (i mod PER_LINE = List.length pre)%nat -> (0 < List.length pre)%nat -> holds pre buf ->
   let m := (PER_LINE - List.length pre)%nat in
   finish i bytes buf =
     cells (take m bytes) +:+ (blanks (m - List.length (take m bytes)) +:+
       (" " +:+ (column (pre ++ take m bytes) +:+ (newline +:+ table fuel (i + m) (drop m bytes)))))).
Proof.
  induction bytes as [|b bytes IH]; intros i buf fuel Hf.
  - rewrite finish_nil. unfold padding. split.
    + intros -> _. cbn [Nat.eqb]. by rewrite table_nil.
    + intros pre Hi Hpos Hh. rewrite Hi, take_nil, drop_nil, table_nil, app_nil_r, (holds_text pre) by done.
      destruct (Nat.eqb_spec (List.length pre) 0); [lia|].
      cbn [cells fold_right List.length]. by rewrite Nat.sub_0_r, string_app_nil_r.
  - rewrite finish_cons. simpl in Hf. split.
    + intros Hi Hlen. rewrite Hi. cbn [Nat.eqb]. destruct fuel as [|fuel]; [lia|].
      assert (holds [b] (<[(0 + 1)%nat := nul]> (<[0%nat := column_char b]> buf))) as Hh.
      { apply (holds_store [] b buf); [unfold PER_LINE; simpl; lia|done|by exists buf]. }
      destruct (IH (S i) (<[(0 + 1)%nat := nul]> (<[0%nat := column_char b]> buf)) fuel) as [_ Hmid];
        [lia|].
      specialize (Hmid [b]). cbv zeta in Hmid. rewrite Hmid; 
        [|exact (next_in_row i 0 Hi ltac:(unfold PER_LINE; lia))|simpl; lia|done].
      cbn [table]. unfold row. change (PER_LINE - List.length [b])%nat with 15%nat.
      change (take PER_LINE (b :: bytes)) with (b :: take 15 bytes).
      change (drop PER_LINE (b :: bytes)) with (drop 15 bytes).
      replace (S i + 15)%nat with (i + PER_LINE)%nat by (unfold PER_LINE; lia).
      cbn [List.length cells fold_right app]. fold (cells (take 15 bytes)).
      change (PER_LINE - S ?n)%nat with (15 - n)%nat. by rewrite !string_app_assoc.
    + intros pre Hi Hpos Hh. rewrite Hi.
      destruct (Nat.eqb_spec (List.length pre) 0); [lia|].
      assert (List.length pre < PER_LINE)%nat as Hlt
        by (rewrite <- Hi; apply Nat.mod_upper_bound; unfold PER_LINE; lia).
      assert (holds (pre ++ [b]) (<[(List.length pre + 1)%nat := nul]>
        (<[List.length pre := column_char b]> buf))) as Hh'.
      { apply holds_store; [done|apply Hh|]. destruct Hh as (_ & rest & ->). by eexists. }
      set (buf' := <[_ := nul]> _) in *. clearbody buf'.
      assert ((PER_LINE - List.length pre)%nat = S (PER_LINE - List.length (pre ++ [b]))) as Hm
        by (rewrite length_app; simpl; lia).
      cbv zeta. rewrite Hm. set (m := (PER_LINE - List.length (pre ++ [b]))%nat) in *.
      cbn [take drop List.length cells fold_right]. fold (cells (take m bytes)).
      replace (i + S m)%nat with (S i + m)%nat by lia. cbn [Nat.sub].
      replace (pre ++ b :: take m bytes) with ((pre ++ [b]) ++ take m bytes) by (by rewrite <- app_assoc).
      destruct (IH (S i) buf' fuel) as [Hrow Hmid]; [lia|].
      destruct (Nat.eq_dec m 0%nat) as [Hm0|Hm0].
      * rewrite Hm0 in *. rewrite Hrow, (holds_text _ _ Hh');
          [|apply next_row; unfold PER_LINE in *; lia|apply Hh'].
        cbn [take drop cells fold_right List.length]. rewrite Nat.add_0_r, app_nil_r.
        cbn [blanks Nat.sub]. by rewrite !string_app_assoc.
      * specialize (Hmid (pre ++ [b])). cbv zeta in Hmid. fold m in Hmid. rewrite Hmid.
        { by rewrite !string_app_assoc. }
        { rewrite length_app. simpl. apply next_in_row; [done|].
          unfold m in Hm0. rewrite length_app in Hm0. simpl in Hm0. lia. }
        { rewrite length_app. simpl. lia. }
        { done. }
Qed.

(** ** Properties *)

(** The text of [hexdump] is a header and the table of the first 5000
    bytes: one row per sixteen bytes with its offset, each byte in
    hexadecimal, blanks for the missing bytes of the last row, and every byte
    of the row as a character, although the program prints the characters of
    a row only when it begins the next one. *)
Theorem hexdump_is_table bytes address :
  bytes <> [] ->
  hexdump (Some bytes) address =
    hexdump_header (List.length bytes) address +:+ (" " +:+ (newline +:+
      table (Nat.min LENGTH_LIMIT (List.length bytes)) 0 (take LENGTH_LIMIT bytes))).
Proof.
  intros Hne. destruct bytes as [|b bytes]; [done|]. unfold hexdump.
  set (all := b :: bytes). clearbody all. generalize LENGTH_LIMIT as limit. intros limit.
  rewrite <- length_take. generalize (take limit all) as l. intros l. f_equal.
  destruct (finish_table l 0 (repeat nul (PER_LINE + 1)) (List.length l)) as [Hrow _]; [done|].
  specialize (Hrow eq_refl eq_refl). unfold finish in Hrow. unfold hexdump_rows.
  destruct (hex_loop 0 _ _) as [text last]. exact Hrow.
Qed.

(** Seventeen bytes, two rows. *)
Definition dump_bytes : list ascii := list_ascii_of_string ("GET / HTTP/1.1" +:+ (crlf +:+ "X")).

Example hexdump_is_table_witness :
  hexdump (Some dump_bytes) "0x1000" =
    hexdump_header 17 "0x1000" +:+ (" " +:+ (newline +:+
      (" +00000000:  47  45  54  20  2F  20  48  54  54  50  2F  31  2E  31  0D  0A  GET / HTTP/1.1.." +:+
       (newline +:+
        (" +00000010:  58                                                              X" +:+ newline))))).
Proof.
  rewrite (hexdump_is_table dump_bytes "0x1000") by discriminate.
  apply (f_equal (fun s => hexdump_header 17 "0x1000" +:+ s)). vm_compute. reflexivity.
Defined.
